(* ===== verification/_CoqProject ===== *)
-Q . S2P
Prelude.v
Text.v
Effects.v
Domain.v
Port.v
Container.v
Rental.v
Refine.v
Nvml.v
Mining.v
Mtls.v
Auth.v
Services.v
Api.v
Server.v
Main.v
Startup.v
Node.v
Threads.v
Workers.v
Starts.v
Lifecycle.v
Preemption.v
Concurrent.v
