(* ===== verification/Prelude.v ===== *)
(** * The Worldland node

    A verification library for the provider node of the Worldland GPU rental
    platform (Go, [cmd/node] and [internal/]).  The node rents the GPUs of its
    machine out in Docker containers on behalf of a Hub, mines on them while
    they are idle, and reports to the Hub.

    ** How the program is modelled

    [Effects] has the monad the Go functions are written in: a [prog Σ S A] is a
    tree of effects (reading the clock, sleeping, polling a context, taking and
    releasing a mutex by name, one access to the shared memory [S], one call of
    the interface [Σ], starting a goroutine) that ends in a value or in a Go
    panic.  Code outside the repository is behind such an interface: what it
    answers, how long things take and which requests are cancelled is an
    [Environment], over all of which the theorems quantify.  [run] is a thread
    that runs alone to its end; goroutines are recorded and are run by the
    theorems that are about them.  In [Threads] any number of threads, and the
    goroutines that they start, share a world and interleave effect by effect.
    Errors are values ([Prelude.error], with [errors.Is] along the chain of
    wrapped errors); [int] and [int64] arithmetic wraps ([Prelude.wrap64]);
    time is an integer number of nanoseconds.

    Other tools of [Effects]: [makes_calls], [local_step], [works] and [steps]
    say what a stretch of a run leaves alone; [frames] and [issues] read off a
    program which part of the memory it keeps and which calls it can make;
    [lift] runs a program over a sub-interface inside a larger one, [zoom] one
    over a part of the memory; [interp] implements the operations of an
    interface by programs.

    ** The parts and how they interact

    - [Text]: the functions of [strings], [path/filepath] and [encoding/hex]
      that the node uses.
    - [Domain] ([internal/domain]): GPU records and the interface GPUProvider.
    - [Port] ([internal/port/manager.go]): PortManager, the SSH ports.
    - [Container] ([internal/container/docker.go]): DockerService over the Docker
      client; the interface [DockerServiceInterface] it offers.
    - [Rental] ([internal/rental/executor.go]): RentalExecutor, against
      [DockerServiceInterface] and a port manager behind [PortManagerInterface],
      whose contract is the class [PortManagerSpec] that [Port] satisfies.
    - [Refine]: a component linked with the implementation of its interface
      behaves as it does in one of the environments it was verified for;
      applied to the executor on the real DockerService.
    - [Nvml] ([internal/adapters/nvml]): the three GPU providers.
    - [Mining] ([internal/mining]): MiningDaemon, its background restart and its
      monitor.
    - [Mtls] ([internal/adapters/mtls/client.go]): Client, the connection to the
      Hub and the loop that serves its commands; what it asks of a command
      handler is the class [CommandHandler].
    - [Auth] ([internal/auth/siwe.go]): SIWEClient, the login and the requests
      that need its token.
    - [Services] ([internal/services/node_daemon.go]): NodeDaemon; [Memory] is the
      memory of the whole node, in which port manager, executor, mining daemon,
      client and daemon each have a [Field]; the handlers dispatch the Hub's
      commands to the executor and the mining daemon.
    - [Api] ([internal/api/handler.go]): the HTTP handlers, over any
      [RentalExecutorInterface] and over the executor of the node.
    - [Server] ([cmd/node/main.go], [internal/api]): the routes of the API server,
      the types of their answers, and the TLS configuration of the server.
    - [Main] ([cmd/node/main.go]): [startup] (flags, GPU detection, login,
      certificates), [wire] (the memory of the node and its goroutines) and
      [shutdown]; [Startup] has what [startup] establishes, [Node] the function
      [main] that composes the three.
    - [Threads]: pools of threads; every schedule ends; what a mutex protects; and
      the rule by which a pool simulates an abstract machine.
    - [Workers]: that rule for goroutines that work on the rental executor and
      the port manager: what they may do under which mutex, and how a start does
      it.
    - [Starts]: any number of starts at once, also of one session.
    - [Lifecycle]: the life of a session as an abstract machine, under every
      interleaving of starts, stops and cleanups, each session started and
      stopped at most once.
    - [Preemption]: the same for the mining daemon: pauses, resumptions, monitors
      and restarts at once.
    - [Concurrent]: components behind one mutex, applied to the port manager.

    A Go method is the definition of its name; where two files share one, or a
    handler is better read in parts, the parts are named after what they do and
    composed in the order of the source.  Log lines are left out unless they can
    panic; closing a response body and releasing a context are too.

    ** What the theorems show

    - Ports: a port is handed out again only after it was released and the grace
      period has passed; the least free port is chosen; failure exactly when
      there is none.  However many goroutines use the manager at once, their
      calls run one after the other in some order and none stays blocked.
    - Rentals: a start is all or nothing for executor and ports, and after an
      error Docker has been asked to remove what was created; no two rentals
      share a port, as long as no session is stopped again while its cleanup
      waits; start, stop and cleanup bring the node back to where it was; the
      health check ends within a bounded number of polls.  When goroutines start
      and stop sessions at once, each once, executor and ports follow the lives
      of the sessions step by step, no port leaks, and everybody gets to the
      end; when they start one session more than once, every start keeps its own
      port and one of those that succeeded is tracked.
    - Containers: the legal sequences of Docker calls of every method, the
      configuration of the containers, retries and the SSH port read back.
    - Mining: no operation leaves a container on a rented GPU, one after the
      other or interleaved; start, stop, pause, resume and the monitor on every
      branch; and two ways in which a rental ends mining for good.
    - The Hub: every command is answered once, in order, and none can crash the
      node or leave a mutex locked; what each answer means for executor, ports
      and mining; the pace of reconnecting; heartbeats.
    - HTTP: the status of every answer, its type, and what it means for the
      executor.
    - Login: the protocol, the token that guards the other requests, and the
      signature that can be read back.
    - The command: a price below the minimum ends the node before anything
      happens; certificates survive on disk, a new key closed to others; the wiring establishes the
      invariant ([node_ready]) that the theorems on the node start from; the
      shutdown asks Docker to remove the mining container, closes the
      connection, then the API server, and leaves rentals alone; what the identity of a node was made from; and the three
      parts fit together in [main].

    ** Bounds and fuel

    The scans of [Port] take one unit of fuel per port and never run out
    ([Port.pm_wf] bounds the range).  The health check takes [timeout/interval +
    2] rounds, which its theorem shows to be enough.  Endless loops ([Listen],
    [reconnect], [MonitorLoop], [reportMetrics]) run over a given number of
    rounds or list of events and say whether they have returned; their theorems
    hold for every such number.  [backoff.Retry] is a parameter with its
    documented behaviour ([RetrySpec], [RetryQuiet]), and [retry_times] shows
    that it can hold.  [Text.Split] takes as much fuel as the string is long.

    ** Parameters

    The JSON codec and the formatting of times; [int64] of a float64 that no
    [int64] represents; go-ethereum's keys, hash and signatures ([Ethereum],
    [SignatureFormat]); X.509.  Hypotheses on the outside are classes with an
    instance: containers can be inspected ([InspectsContainers]), Docker
    identifiers are long ([LongIDs], [LongContainerIDs]), NVML counts in 32 bits ([NvmlCounts]), the
    operating system keeps files and their permissions, under a umask
    ([FileSystem]).

    ** Not modelled

    Interleavings of the executor in which one session is stopped more than once,
    or is started more than once while stops and cleanups run too ([Starts] has
    starts only); the handlers of the
    daemon and of HTTP interleaved with each other, beyond what they do to the
    executor and to the mining daemon; the receive that parks [NodeDaemon.Start],
    which is the gap between its two halves; the memory model of Go below the
    level of one access; flag parsing, and what TLS and the HTTP server do with
    their configurations.  Planned: the commands of the Hub and the requests of
    the API interleaved over the memory of the whole node. *)

From Stdlib Require Import ZArith Lia Ascii String DecimalString DecimalZ DecimalPos.
From stdpp Require Import base numbers strings list gmap.

#[global] Open Scope Z_scope.

Declare Scope go_scope.
Delimit Scope go_scope with go.

(** Automation of the development: the equations that the components'
    operations compute by ([go], a rewrite base) and the facts that close
    their side conditions ([go], a resolution base). *)
Create HintDb go.
Create Rewrite HintDb go_eqs.

(** ** Machine integers

    Go's [int] and [int64] are 64-bit two's complement integers on every
    platform the node is built for; arithmetic wraps. *)
Section Int64.

Definition min_int64 : Z := - 2 ^ 63.
Definition max_int64 : Z := 2 ^ 63 - 1.

Definition in_int64 (z : Z) : Prop := min_int64 <= z <= max_int64.

#[export] Instance in_int64_dec z : Decision (in_int64 z).
Proof. unfold in_int64. apply _. Defined.

(** The value of an [int64] computation whose mathematical result is [z]. *)
Definition wrap64 (z : Z) : Z := (z + 2 ^ 63) `mod` 2 ^ 64 - 2 ^ 63.

Definition int64_add (a b : Z) : Z := wrap64 (a + b).
Definition int64_mul (a b : Z) : Z := wrap64 (a * b).

Lemma wrap64_range z : in_int64 (wrap64 z).
Proof.
  unfold in_int64, wrap64, min_int64, max_int64.
  pose proof (Z.mod_pos_bound (z + 2 ^ 63) (2 ^ 64)). lia.
Qed.

Lemma wrap64_wrap_mul a b : wrap64 (wrap64 a * b) = wrap64 (a * b).
Proof.
  assert (Hm : forall z, (wrap64 z) `mod` 2 ^ 64 = z `mod` 2 ^ 64).
  { intros z. unfold wrap64. rewrite Zminus_mod_idemp_l. f_equal. lia. }
  unfold wrap64 at 1 3. f_equal. rewrite <- Zplus_mod_idemp_l, Zmult_mod, Hm, <- Zmult_mod.
  by rewrite Zplus_mod_idemp_l.
Qed.

Lemma wrap64_small z : in_int64 z -> wrap64 z = z.
Proof.
  unfold in_int64, wrap64, min_int64, max_int64. intros H.
  rewrite Z.mod_small; lia.
Qed.

Lemma int64_add_small a b : in_int64 (a + b) -> int64_add a b = a + b.
Proof. apply wrap64_small. Qed.

Lemma int64_mul_mul a b c : int64_mul (int64_mul a b) c = wrap64 (a * (b * c)).
Proof. unfold int64_mul. rewrite wrap64_wrap_mul. f_equal. lia. Qed.

Lemma int64_mul_small a b : in_int64 (a * b) -> int64_mul a b = a * b.
Proof. apply wrap64_small. Qed.

(** The increment of a loop counter that is still below a bound. *)
Lemma int64_succ_below p m :
  in_int64 p -> p < m -> m <= max_int64 -> int64_add p 1 = p + 1.
Proof.
  intros [? ?] ??. apply int64_add_small.
  unfold in_int64, min_int64, max_int64 in *. lia.
Qed.

End Int64.

#[export] Hint Resolve wrap64_range : go.

(** ** Time

    A [time.Time] is a monotonic clock reading and a [time.Duration] an
    [int64], both in nanoseconds. *)
Section Time.

Definition Millisecond : Z := 1000000.
Definition Second : Z := 1000 * Millisecond.
Definition Minute : Z := 60 * Second.
Definition Hour : Z := 60 * Minute.

(** [t.Sub(u)]: a difference that does not fit in a [Duration] saturates. *)
Definition time_sub (t u : Z) : Z := Z.max min_int64 (Z.min max_int64 (t - u)).

(** [t.Add(d)] and [t.After(u)]. *)
Definition time_add (t d : Z) : Z := t + d.
Definition time_after (t u : Z) : bool := u <? t.

(** The test [now.Sub(released) >= grace] of the code: saturation cannot
    make it wrong, because a grace period is itself a [Duration]. *)
Lemma time_sub_ge t u d :
  min_int64 < d <= max_int64 -> time_sub t u >= d <-> t - u >= d.
Proof. unfold time_sub. lia. Qed.

Lemma time_sub_mono t t' u : t <= t' -> time_sub t u <= time_sub t' u.
Proof. unfold time_sub. lia. Qed.

End Time.

(** ** Errors

    A Go [error] is [nil] or a value with a message and possibly a wrapped
    error; it is modelled by [option error]. A package-level [errors.New]
    variable is identified by its name: [errors.Is] compares identities along
    the chain of wrapped errors. *)
Inductive error : Type :=
| ErrSentinel (name msg : string)
| ErrNew (msg : string)
| ErrWrap (prefix : string) (inner : error).

#[export] Instance error_eq_dec : EqDecision error.
Proof. solve_decision. Defined.

(** [err.Error()]; [fmt.Errorf("<prefix>%w", err)] is [ErrWrap prefix err]. *)
Fixpoint error_string (e : error) : string :=
  match e with
  | ErrSentinel _ m => m
  | ErrNew m => m
  | ErrWrap p e' => p +:+ error_string e'
  end.

(** [errors.Is(err, target)] for a sentinel target. *)
Fixpoint errors_Is (e target : error) : bool :=
  bool_decide (e = target) ||
  match e with
  | ErrWrap _ e' => errors_Is e' target
  | _ => false
  end.

Definition context_Canceled : error := ErrSentinel "context.Canceled" "context canceled".
Definition context_DeadlineExceeded : error :=
  ErrSentinel "context.DeadlineExceeded" "context deadline exceeded".

Lemma errors_Is_refl e : errors_Is e e = true.
Proof. destruct e; simpl; rewrite bool_decide_true; done. Qed.

Lemma errors_Is_wrap p e name msg :
  errors_Is (ErrWrap p e) (ErrSentinel name msg) = errors_Is e (ErrSentinel name msg).
Proof. done. Qed.

#[export] Hint Rewrite errors_Is_refl errors_Is_wrap : go_eqs.

(** ** Strings

    Go strings are byte strings; the functions of [strings] and [strconv] the
    node uses. *)
Section Strings.

(** [strings.HasPrefix(s, p)]. *)
Definition HasPrefix (s p : string) : bool := String.prefix p s.

(** [strconv.Itoa]. *)
Definition itoa (z : Z) : string := NilZero.string_of_int (Z.to_int z).

Definition check_int64 (z : Z) : option Z :=
  if decide (in_int64 z) then Some z else None.

(** [strconv.Atoi]: an optional sign, at least one digit, and a value in
    range; [None] is any of its errors. *)
Definition atoi (s : string) : option Z :=
  let digits r := Z.of_uint <$> NilZero.uint_of_string r in
  z ← match s with
      | String "+" r => digits r
      | String "-" r => Z.opp <$> digits r
      | _ => digits s
      end;
  check_int64 z.

Lemma check_int64_ok z : in_int64 z -> check_int64 z = Some z.
Proof. intros. unfold check_int64. by rewrite decide_True. Qed.

(** The first byte of a printed unsigned number is a digit, so no sign. *)
Lemma string_of_uint_no_sign d r c :
  NilZero.string_of_uint d = String c r -> c <> "+"%char /\ c <> "-"%char.
Proof.
  destruct d; cbn; intros [= <- _]; split; discriminate.
Qed.

Lemma uint_roundtrip d :
  d <> Decimal.Nil -> NilZero.uint_of_string (NilZero.string_of_uint d) = Some d.
Proof. apply NilZero.usu. Qed.

Lemma pos_to_uint_non_nil p : Pos.to_uint p <> Decimal.Nil.
Proof. apply Unsigned.to_uint_nonnil. Qed.

Lemma digits_unsigned p :
  Z.of_uint <$> NilZero.uint_of_string (NilZero.string_of_uint (Pos.to_uint p)) = Some (Zpos p).
Proof.
  rewrite uint_roundtrip by apply pos_to_uint_non_nil. cbn.
  unfold Z.of_uint. f_equal. by rewrite Unsigned.of_to.
Qed.

Lemma atoi_itoa z : in_int64 z -> atoi (itoa z) = Some z.
Proof.
  intros Hz. unfold atoi, itoa.
  destruct z as [|p|p]; cbn [Z.to_int NilZero.string_of_int].
  - done.
  - pose proof (digits_unsigned p) as Hd.
    destruct (NilZero.string_of_uint (Pos.to_uint p)) as [|c r] eqn:E.
    + discriminate.
    + destruct (string_of_uint_no_sign _ _ _ E) as [Hp Hm].
      destruct c as [[] [] [] [] [] [] [] []]; try done;
        rewrite Hd; by apply check_int64_ok.
  - rewrite digits_unsigned. by apply check_int64_ok.
Qed.

End Strings.

#[export] Hint Resolve atoi_itoa : go.

(** ** Small lemmas shared by the components *)

Lemma cons_inj {A} (x y : A) l k : x :: l = y :: k -> x = y /\ l = k.
Proof. by intros [= -> ->]. Qed.

(** A pair is known once its first component is: what remains is its second. *)
Lemma pair_fst {A B} (p : A * B) a : fst p = a -> p = (a, snd p).
Proof. destruct p. by intros <-. Qed.

(** An element in the middle of a list without duplicates. *)
Lemma NoDup_middle {A} (l1 l2 : list A) x : NoDup (l1 ++ x :: l2) -> NoDup (l1 ++ l2) /\ x ∉ l1 ++ l2.
Proof. rewrite <- Permutation_middle, NoDup_cons. tauto. Qed.

(** Taking a free lock and releasing it leaves the lock table as it was. *)
Lemma delete_insert_free {A} (m : gmap string A) k v :
  m !! k = None -> delete k (<[k:=v]> m) = m.
Proof. apply delete_insert_id. Qed.
