(* ===== verification/Text.v ===== *)
(** The functions of Go's [strings] and [encoding/hex] that the node uses, on
    byte strings, with the laws the components rely on. *)

From Stdlib Require Import ZArith Lia Ascii String.
From stdpp Require Import base numbers strings list.
From S2P Require Import Prelude.

(** ** Slices, prefixes and suffixes *)

(** [s[n:]]. *)
Fixpoint drop_string (n : nat) (s : string) : string :=
  match n, s with
  | O, _ => s
  | S n, String _ r => drop_string n r
  | S _, EmptyString => EmptyString
  end.

Definition TrimPrefix (s p : string) : string :=
  if HasPrefix s p then drop_string (String.length p) s else s.

Definition HasSuffix (s p : string) : bool :=
  (String.length p <=? String.length s)%nat &&
  bool_decide (drop_string (String.length s - String.length p) s = p).

Definition TrimSuffix (s p : string) : string :=
  if HasSuffix s p then String.substring 0 (String.length s - String.length p) s else s.

(** The first occurrence of [sep]: what is before it and after it. *)
Fixpoint cut (sep s : string) : option (string * string) :=
  if HasPrefix s sep then Some ("", drop_string (String.length sep) s)
  else match s with
       | EmptyString => None
       | String c r => '(a, b) ← cut sep r; Some (String c a, b)
       end.

Definition Contains (s sep : string) : bool :=
  match cut sep s with Some _ => true | None => false end.

(** [strings.Split] for a separator that is not empty: there are at most as
    many cuts as bytes. *)
Fixpoint split_fuel (n : nat) (s sep : string) : list string :=
  match n with
  | O => [s]
  | S n => match cut sep s with
           | Some (a, b) => a :: split_fuel n b sep
           | None => [s]
           end
  end.
Definition Split (s sep : string) : list string := split_fuel (String.length s) s sep.

Lemma append_cons c a b : String c a +:+ b = String c (a +:+ b).
Proof. done. Qed.

Lemma prefix_nil s : String.prefix "" s = true.
Proof. by destruct s. Qed.

Lemma drop_string_app a b : drop_string (String.length a) (a +:+ b) = b.
Proof. induction a as [|c a IH]; [done|]. rewrite append_cons. apply IH. Qed.

Lemma HasPrefix_app p s : HasPrefix (p +:+ s) p = true.
Proof.
  unfold HasPrefix. induction p as [|c p IH]; [by destruct s|].
  rewrite append_cons. cbn.
  destruct (ascii_dec c c); [apply IH|done].
Qed.

Lemma HasPrefix_split s p : HasPrefix s p = true -> s = p +:+ drop_string (String.length p) s.
Proof.
  unfold HasPrefix. revert s. induction p as [|c p IH]; intros s H; [done|].
  destruct s as [|c' s]; [done|]. cbn in H. destruct (ascii_dec c c') as [->|]; [|done].
  rewrite append_cons. cbn. f_equal. by apply IH.
Qed.

Lemma TrimPrefix_app p s : TrimPrefix (p +:+ s) p = s.
Proof. unfold TrimPrefix. by rewrite HasPrefix_app, drop_string_app. Qed.

(** A cut loses nothing, and its first part does not contain the separator. *)
Lemma cut_join sep s a b : cut sep s = Some (a, b) -> s = a +:+ sep +:+ b.
Proof.
  revert a b. induction s as [|c s IH]; intros a b; cbn [cut].
  - destruct (HasPrefix "" sep) eqn:H; [|done]. intros [= <- <-]. by apply HasPrefix_split.
  - destruct (HasPrefix (String c s) sep) eqn:H.
    + intros [= <- <-]. by apply HasPrefix_split.
    + intros Hc. destruct (cut sep s) as [[a' b']|] eqn:Hs; [|done]. cbn in Hc. simplify_eq.
      rewrite append_cons. cbn. f_equal. by apply IH.
Qed.

Lemma cut_none_Contains sep s : Contains s sep = false <-> cut sep s = None.
Proof. unfold Contains. by destruct (cut sep s). Qed.

(** Splitting and joining. *)
Lemma Split_join s sep : sep <> "" -> String.concat sep (Split s sep) = s.
Proof.
  intros Hsep. unfold Split. generalize (String.length s) as n. intros n. revert s.
  induction n as [|n IH]; intros s; [done|]. cbn [split_fuel].
  destruct (cut sep s) as [[a b]|] eqn:Hc; [|done]. apply cut_join in Hc as ->.
  assert (Hne : split_fuel n b sep <> []) by (destruct n; cbn; [|destruct (cut sep b) as [[]|]]; done).
  cbn [String.concat]. destruct (split_fuel n b sep) as [|x l] eqn:Hl; [done|]. by rewrite <- Hl, IH.
Qed.

(** A separator of one byte. *)
Fixpoint has_char (c : ascii) (s : string) : bool :=
  match s with
  | EmptyString => false
  | String c' r => bool_decide (c' = c) || has_char c r
  end.

Lemma cut_char c a b : has_char c a = false -> cut (String c "") (a +:+ String c b) = Some (a, b).
Proof.
  induction a as [|c' a IH]; intros H.
  - change ("" +:+ String c b) with (String c b). cbn. destruct (ascii_dec c c); [|done].
    by destruct b.
  - rewrite append_cons. cbn in *. apply orb_false_iff in H as [Hc H].
    apply bool_decide_eq_false in Hc. unfold HasPrefix; cbn. destruct (ascii_dec c c'); [by subst|].
    by rewrite IH.
Qed.

Lemma cut_char_none c a : has_char c a = false -> cut (String c "") a = None.
Proof.
  induction a as [|c' a IH]; intros H; [done|]. cbn in *. apply orb_false_iff in H as [Hc H].
  apply bool_decide_eq_false in Hc. unfold HasPrefix; cbn. destruct (ascii_dec c c'); [by subst|].
  by rewrite IH.
Qed.

(** [strings.Split(s, sep)[0]]. *)
Definition Split_head (s sep : string) : string := default "" (head (Split s sep)).

Lemma Split_head_char c a b :
  has_char c a = false -> Split_head (a +:+ String c b) (String c "") = a.
Proof.
  intros H. unfold Split_head, Split.
  assert (Hn : exists n, String.length (a +:+ String c b) = S n).
  { destruct a; [by eexists|]. rewrite append_cons. by eexists. }
  destruct Hn as [n ->]. cbn [split_fuel]. by rewrite cut_char.
Qed.

Lemma Split_head_none c a : has_char c a = false -> Split_head a (String c "") = a.
Proof.
  intros H. unfold Split_head, Split. destruct (String.length a); [done|]. cbn [split_fuel].
  by rewrite cut_char_none.
Qed.

Lemma append_assoc (a b c : string) : (a +:+ b) +:+ c = a +:+ b +:+ c.
Proof. induction a as [|x a IH]; [done|]. rewrite !append_cons. by rewrite IH. Qed.

Lemma length_append a b : String.length (a +:+ b) = (String.length a + String.length b)%nat.
Proof. induction a as [|x a IH]; [done|]. rewrite append_cons. cbn. by rewrite IH. Qed.

Lemma append_inj_l a b c : a +:+ b = a +:+ c -> b = c.
Proof. induction a as [|x a IH]; [done|]. rewrite !append_cons. intros [= H]. by apply IH. Qed.

(** The number of cuts is bounded by the length, whatever the fuel. *)
Lemma split_fuel_enough n m s sep :
  sep <> "" -> (String.length s <= n)%nat -> (String.length s <= m)%nat ->
  split_fuel n s sep = split_fuel m s sep.
Proof.
  intros Hsep. revert m s. induction n as [|n IH]; intros m s Hn Hm.
  - destruct s; [|cbn in Hn; lia]. destruct m; [done|]. cbn. by destruct sep.
  - destruct m as [|m].
    { destruct s; [|cbn in Hm; lia]. cbn. by destruct sep. }
    cbn [split_fuel]. destruct (cut sep s) as [[a b]|] eqn:Hc; [|done]. f_equal.
    apply cut_join in Hc as ->. rewrite !length_append in Hn, Hm.
    destruct sep; [done|]. cbn in Hn, Hm. apply IH; lia.
Qed.

Lemma cut_app c d a b r :
  cut (String c "") d = Some (a, b) -> cut (String c "") (d +:+ r) = Some (a, b +:+ r).
Proof.
  revert a b. induction d as [|c' d IH]; intros a b; [done|]. rewrite append_cons.
  cbn [cut]. unfold HasPrefix. cbn [String.prefix]. destruct (ascii_dec c c').
  - rewrite !prefix_nil. by intros [= <- <-].
  - destruct (cut _ d) as [[a' b']|]; [|done]. cbn. intros [= <- <-]. by rewrite (IH a' b').
Qed.

Lemma cut_none_has_char c d : cut (String c "") d = None -> has_char c d = false.
Proof.
  induction d as [|c' d IH]; [done|]. cbn [cut]. unfold HasPrefix. cbn [String.prefix].
  destruct (ascii_dec c c') as [->|Hc]; [by destruct d|].
  destruct (cut _ d) as [[a b]|]; [done|]. intros _. cbn. rewrite IH by done.
  rewrite bool_decide_eq_false_2 by congruence. done.
Qed.

(** One separator more, one part more. *)
Lemma Split_snoc c d f :
  has_char c f = false ->
  Split (d +:+ String c f) (String c "") = Split d (String c "") ++ [f].
Proof.
  intros Hf. unfold Split. remember (String.length d) as n eqn:Hn.
  assert (Hn' : (String.length d <= n)%nat) by lia. clear Hn. revert d Hn'.
  assert (Hlast : forall m, split_fuel m f (String c "") = [f]).
  { intros [|m]; [done|]. cbn [split_fuel]. by rewrite cut_char_none. }
  induction n as [|n IH]; intros d Hn.
  - destruct d; [|cbn in Hn; lia]. change ("" +:+ String c f) with (String c f).
    assert (Hc : cut (String c "") (String c f) = Some ("", f)) by exact (cut_char c "" f eq_refl).
    cbn [String.length split_fuel]. by rewrite Hc, Hlast.
  - cbn [split_fuel]. rewrite length_append. cbn [String.length].
    replace (String.length d + S (String.length f))%nat with (S (String.length d + String.length f)) by lia.
    cbn [split_fuel]. destruct (cut (String c "") d) as [[a b]|] eqn:Hc.
    + rewrite (cut_app _ _ _ _ _ Hc). cbn [app]. f_equal.
      apply cut_join in Hc as ->. rewrite !length_append in *. cbn in Hn |- *.
      rewrite <- (IH b) by lia. apply split_fuel_enough; [done|..]; rewrite ?length_append; cbn; lia.
    + rewrite cut_char by (by apply cut_none_has_char). by rewrite Hlast.
Qed.

(** ** Paths

    [filepath.Clean] and [filepath.Join] on Unix. *)
Fixpoint clean_parts (rooted : bool) (out parts : list string) : list string :=
  match parts with
  | [] => out
  | p :: parts =>
      if bool_decide (p = "") || bool_decide (p = ".") then clean_parts rooted out parts
      else if bool_decide (p = "..") then
        clean_parts rooted
          match out with
          | [] => if rooted then [] else [".."]
          | last :: rest => if bool_decide (last = "..") then ".." :: out else rest
          end parts
      else clean_parts rooted (p :: out) parts
  end.

Definition filepath_Clean (path : string) : string :=
  if bool_decide (path = "") then "." else
  let rooted := HasPrefix path "/" in
  let res := String.concat "/" (rev (clean_parts rooted [] (Split path "/"))) in
  if rooted then "/" +:+ res else if bool_decide (res = "") then "." else res.

Fixpoint filepath_Join (elem : list string) : string :=
  match elem with
  | [] => ""
  | e :: rest => if bool_decide (e = "") then filepath_Join rest
                 else filepath_Clean (String.concat "/" elem)
  end.

Example Join_ex : filepath_Join ["/home//u/../v/"; ".worldland"; "certs"] = "/home/v/.worldland/certs".
Proof. reflexivity. Qed.

(** A plain file name. *)
Definition plain (f : string) : Prop :=
  f <> "" /\ f <> "." /\ f <> ".." /\ has_char "/" f = false.

Lemma clean_parts_snoc rooted out l f :
  plain f -> clean_parts rooted out (l ++ [f]) = f :: clean_parts rooted out l.
Proof.
  intros (H1 & H2 & H3 & _). revert out. induction l as [|p l IH]; intros out; cbn.
  - by rewrite !bool_decide_eq_false_2.
  - repeat case_bool_decide; cbn; apply IH.
Qed.

Lemma concat_snoc l f :
  String.concat "/" (l ++ [f]) = if l is [] then f else String.concat "/" l +:+ "/" +:+ f.
Proof.
  induction l as [|x l IH]; [done|]. destruct l as [|y l]; [done|].
  change (x +:+ "/" +:+ String.concat "/" ((y :: l) ++ [f]) =
          (x +:+ "/" +:+ String.concat "/" (y :: l)) +:+ "/" +:+ f).
  rewrite IH. by rewrite !append_assoc.
Qed.

(** Joining a directory with plain names: a common prefix, then the name. *)
Lemma Join_plain dir : exists pre, forall f, plain f -> filepath_Join [dir; f] = pre +:+ f.
Proof.
  destruct (decide (dir = "")) as [->|Hd].
  { exists "". intros f Hf. pose proof Hf as (H1 & H2 & H3 & H4).
    change (filepath_Join [""; f]) with (if bool_decide (f = "") then "" else filepath_Clean f).
    rewrite bool_decide_eq_false_2 by done. unfold filepath_Clean.
    rewrite bool_decide_eq_false_2 by done.
    assert (HasPrefix f "/" = false) as Hp.
    { destruct f as [|c f]; [done|]. cbn in H4. apply orb_false_iff in H4 as [Hc _].
      apply bool_decide_eq_false in Hc. unfold HasPrefix. cbn [String.prefix].
      by destruct (ascii_dec "/" c). }
    rewrite Hp. assert (Split f "/" = [f]) as ->.
    { unfold Split. destruct (String.length f); [done|]. cbn [split_fuel]. by rewrite (cut_char_none "/"). }
    change [f] with ([] ++ [f]). rewrite clean_parts_snoc by done. cbn. by rewrite bool_decide_eq_false_2. }
  set (rooted := HasPrefix dir "/"). set (out := rev (clean_parts rooted [] (Split dir "/"))).
  exists ((if rooted then "/" else "") +:+ (if out is [] then "" else String.concat "/" out +:+ "/")).
  intros f Hf. cbn [filepath_Join]. rewrite bool_decide_eq_false_2 by done.
  change (String.concat "/" [dir; f]) with (dir +:+ "/" +:+ f).
  change ("/" +:+ f) with (String "/" f). unfold filepath_Clean.
  assert (Hne : dir +:+ String "/" f <> "") by by destruct dir.
  rewrite bool_decide_eq_false_2 by done.
  assert (HasPrefix (dir +:+ String "/" f) "/" = rooted) as ->.
  { unfold rooted, HasPrefix. destruct dir as [|c dir]; [done|]. rewrite append_cons. cbn [String.prefix].
    destruct (ascii_dec "/" c); [|done]. by destruct dir. }
  rewrite Split_snoc by apply Hf. rewrite clean_parts_snoc by done. cbn [rev].
  fold out. rewrite concat_snoc. destruct rooted.
  - destruct out; cbn [app]; [done|]. by rewrite !append_assoc.
  - rewrite bool_decide_eq_false_2.
    + destruct out; [done|]. change ("" +:+ ?x) with x. by rewrite !append_assoc.
    + destruct Hf as (Hf & _). destruct out as [|x out]; [done|].
      destruct (String.concat "/" (x :: out)); done.
Qed.

Lemma Join_inj dir f g : plain f -> plain g -> filepath_Join [dir; f] = filepath_Join [dir; g] -> f = g.
Proof.
  intros Hf Hg. destruct (Join_plain dir) as [pre Hpre]. rewrite !Hpre by done. apply append_inj_l.
Qed.

(** ** Space *)

(** The UTF-8 encodings of the code points that [unicode.IsSpace] accepts. *)
Definition bytes (l : list Z) : string :=
  fold_right (fun n s => String (ascii_of_nat (Z.to_nat n)) s) EmptyString l.
Definition spaces : list string :=
  ((fun n => bytes [n]) <$> [9; 10; 11; 12; 13; 32]) ++
  [bytes [194; 133]; bytes [194; 160]; bytes [225; 154; 128]] ++
  ((fun n => bytes [226; 128; n]) <$>
     [128; 129; 130; 131; 132; 133; 134; 135; 136; 137; 138; 168; 169; 175]) ++
  [bytes [226; 129; 159]; bytes [227; 128; 128]].

(** Strip the members of a list from an end for as long as there is one. *)
Fixpoint strip (n : nat) (has : string -> string -> bool) (trim : string -> string -> string)
    (s : string) : string :=
  match n with
  | O => s
  | S n => match List.find (has s) spaces with
           | Some p => strip n has trim (trim s p)
           | None => s
           end
  end.
Definition TrimSpace (s : string) : string :=
  let s1 := strip (String.length s) HasPrefix TrimPrefix s in
  strip (String.length s1) HasSuffix TrimSuffix s1.

Example TrimSpace_ex : TrimSpace (bytes [32; 194; 160] +:+ "0xab c" +:+ bytes [13; 10]) = "0xab c".
Proof. reflexivity. Qed.

(** ** Hexadecimal *)

Definition hex_digit (n : nat) : ascii :=
  ascii_of_nat (if (n <? 10)%nat then 48 + n else 87 + n).

Definition hex_value (c : ascii) : option nat :=
  let n := nat_of_ascii c in
  if (48 <=? n)%nat && (n <=? 57)%nat then Some (n - 48)%nat
  else if (97 <=? n)%nat && (n <=? 102)%nat then Some (n - 87)%nat
  else if (65 <=? n)%nat && (n <=? 70)%nat then Some (n - 55)%nat
  else None.

(** [hex.EncodeToString] and [hex.DecodeString]; [None] is either of its errors. *)
Fixpoint hex_encode (s : string) : string :=
  match s with
  | EmptyString => EmptyString
  | String c r =>
      String (hex_digit (nat_of_ascii c / 16)) (String (hex_digit (nat_of_ascii c mod 16)) (hex_encode r))
  end.

Fixpoint hex_decode (s : string) : option string :=
  match s with
  | EmptyString => Some EmptyString
  | String _ EmptyString => None
  | String a (String b r) =>
      x ← hex_value a; y ← hex_value b; t ← hex_decode r;
      Some (String (ascii_of_nat (16 * x + y)) t)
  end.

Lemma hex_byte c :
  hex_value (hex_digit (nat_of_ascii c / 16)) = Some (nat_of_ascii c / 16)%nat /\
  hex_value (hex_digit (nat_of_ascii c mod 16)) = Some (nat_of_ascii c mod 16)%nat /\
  ascii_of_nat (16 * (nat_of_ascii c / 16) + nat_of_ascii c mod 16) = c.
Proof. destruct c as [[] [] [] [] [] [] [] []]; by vm_compute. Qed.

Lemma hex_roundtrip s : hex_decode (hex_encode s) = Some s.
Proof.
  induction s as [|c s IH]; [done|]. cbn [hex_encode hex_decode].
  destruct (hex_byte c) as (-> & -> & Hc). cbn [mbind option_bind]. by rewrite IH, Hc.
Qed.

Lemma hex_encode_length s : String.length (hex_encode s) = (2 * String.length s)%nat.
Proof. induction s as [|c s IH]; [done|]. cbn [hex_encode String.length]. rewrite IH. lia. Qed.

#[export] Hint Rewrite hex_roundtrip hex_encode_length TrimPrefix_app HasPrefix_app : go_eqs.
