(* ===== verification/Effects.v ===== *)
(** The effect monad in which the node's Go functions are written, its
    sequential semantics and the lemmas every component uses.

    A Go function is a [prog Σ S A]: a tree of atomic effects over a signature
    [Σ] of calls to code outside the package (the operations of an interface)
    and a shared memory [S], returning an [A].  [run], below, is
    a thread that runs alone. *)

From Stdlib Require Import ZArith Lia String Eqdep_dec.
From stdpp Require Import base numbers strings list gmap.
From S2P Require Import Prelude.

(** ** Signatures

    A signature lists the operations of a Go interface; [res o] is what a call
    [o], arguments included, returns. *)
Record Signature : Type := MkSignature { op : Type; res : op -> Type }.

(** ** Contexts

    The [context.Context] values the node creates: [Background],
    [WithTimeout(Background, d)] (by its absolute deadline) and the context of
    an incoming HTTP request, which its client may cancel. *)
Inductive ctx : Type :=
| Background
| Deadline (t : Z)
| RequestCtx (id : nat).

#[export] Instance ctx_eq_dec : EqDecision ctx.
Proof. solve_decision. Defined.

(** ** Effects and programs *)

(** One effect of a thread.  A mutex is named by the field that holds it. *)
Inductive eff (Σ : Signature) (S : Type) : Type -> Type :=
| Now : eff Σ S Z                                   (* time.Now() *)
| Sleep (d : Z) : eff Σ S unit                      (* time.Sleep(d) *)
| CtxErr (c : ctx) : eff Σ S (option error)         (* ctx.Done() polled, then ctx.Err() *)
| Lock (m : string) : eff Σ S unit                  (* m.Lock() *)
| Unlock (m : string) : eff Σ S unit                (* m.Unlock() *)
| RLock (m : string) : eff Σ S unit                 (* m.RLock() *)
| RUnlock (m : string) : eff Σ S unit               (* m.RUnlock() *)
| Mem {X : Type} (f : S -> X * S) : eff Σ S X       (* one access to shared memory *)
| Call (o : op Σ) : eff Σ S (res Σ o).              (* a call through the interface *)

Arguments Now {Σ S}.
Arguments Sleep {Σ S} d.
Arguments CtxErr {Σ S} c.
Arguments Lock {Σ S} m.
Arguments Unlock {Σ S} m.
Arguments RLock {Σ S} m.
Arguments RUnlock {Σ S} m.
Arguments Mem {Σ S X} f.
Arguments Call {Σ S} o.

(** [Panic] is a Go run-time panic; [NoFuel] marks a loop whose bounded
    unrolling was exhausted (the theorems show where it is never reached);
    [Go c k] starts the goroutine [c]. *)
Inductive prog (Σ : Signature) (S : Type) (A : Type) : Type :=
| Ret (a : A)
| Panic (msg : string)
| NoFuel
| Eff {X : Type} (e : eff Σ S X) (k : X -> prog Σ S A)
| Go (c : prog Σ S unit) (k : prog Σ S A).

Arguments Ret {Σ S A} a.
Arguments Panic {Σ S A} msg.
Arguments NoFuel {Σ S A}.
Arguments Eff {Σ S A X} e k.
Arguments Go {Σ S A} c k.

Fixpoint bind {Σ S A B} (p : prog Σ S A) (f : A -> prog Σ S B) : prog Σ S B :=
  match p with
  | Ret a => f a
  | Panic m => Panic m
  | NoFuel => NoFuel
  | Eff e k => Eff e (fun x => bind (k x) f)
  | Go c k => Go c (bind k f)
  end.

Notation "x <- m ;; k" := (bind m (fun x => k))
  (at level 100, m at next level, right associativity) : go_scope.
Notation "'let!' p := m ;; k" := (bind m (fun x => match x with p => k end))
  (at level 100, p strict pattern, m at next level, right associativity) : go_scope.
Notation "m ;;; k" := (bind m (fun _ => k))
  (at level 100, k at level 200, right associativity) : go_scope.

Bind Scope go_scope with prog.

Definition eff1 {Σ S X} (e : eff Σ S X) : prog Σ S X := Eff e Ret.
Definition call {Σ S} (o : op Σ) : prog Σ S (res Σ o) := eff1 (Call o).

(** [go f()]. *)
Definition spawn {Σ S} (c : prog Σ S unit) : prog Σ S unit := Go c (Ret tt).

(** [context.WithTimeout(context.Background(), d)]. *)
Definition WithTimeout {Σ S} (d : Z) : prog Σ S ctx :=
  (t <- eff1 Now ;; Ret (Deadline (time_add t d)))%go.

(** [defer f()]: [f] runs when the body returns and when it panics. *)
Fixpoint deferring {Σ S A} (f : prog Σ S unit) (p : prog Σ S A) : prog Σ S A :=
  match p with
  | Ret a => bind f (fun _ => Ret a)
  | Panic m => bind f (fun _ => Panic m)
  | NoFuel => NoFuel
  | Eff e k => Eff e (fun x => deferring f (k x))
  | Go c k => Go c (deferring f k)
  end.

(** [mu.Lock(); defer mu.Unlock(); body], and the same for a read lock. *)
Definition with_lock {Σ S A} (m : string) (body : prog Σ S A) : prog Σ S A :=
  (eff1 (Lock m) ;;; deferring (eff1 (Unlock m)) body)%go.
Definition with_rlock {Σ S A} (m : string) (body : prog Σ S A) : prog Σ S A :=
  (eff1 (RLock m) ;;; deferring (eff1 (RUnlock m)) body)%go.

(** [s[:n]], which panics when [s] is shorter than [n]. *)
Definition slice_to {Σ S} (s : string) (n : nat) : prog Σ S string :=
  if (String.length s <? n)%nat
  then Panic ("slice bounds out of range [:" +:+ itoa (Z.of_nat n) +:+ "] with length "
              +:+ itoa (Z.of_nat (String.length s)))
  else Ret (String.substring 0 n s).

(** ** Components in the shared memory

    A component of type [T] lives in the memory [S] of the node; the laws say
    that writing one field keeps the rest. *)
Class Field (S T : Type) : Type := {
  get : S -> T;
  set : T -> S -> S;
  get_set : forall t s, get (set t s) = t;
  set_get : forall s, set (get s) s = s;
  set_set : forall t t' s, set t (set t' s) = set t s;
}.

#[export] Hint Rewrite @get_set @set_get @set_set : go_eqs.

(** The memory of a component on its own. *)
#[export] Instance field_self (T : Type) : Field T T :=
  {| get s := s; set t _ := t;
     get_set _ _ := eq_refl; set_get _ := eq_refl; set_set _ _ _ := eq_refl |}.

(** Two components side by side. *)
#[export] Instance field_fst (T U : Type) : Field (T * U) T.
Proof.
  refine {| get s := fst s; set t s := (t, snd s) |}; [done|by intros []|done].
Defined.
#[export] Instance field_snd (T U : Type) : Field (T * U) U.
Proof.
  refine {| get s := snd s; set u s := (fst s, u) |}; [done|by intros []|done].
Defined.

(** Two components whose fields do not overlap. *)
Class Disjoint (S T U : Type) `{FT : !Field S T} `{FU : !Field S U} : Prop := {
  get_set_l : forall (t : T) (s : S), get (T := U) (set t s) = get s;
  get_set_r : forall (u : U) (s : S), get (T := T) (set u s) = get s;
}.

#[export] Instance disjoint_pair (T U : Type) : Disjoint (T * U) T U.
Proof. by split. Qed.

Section Access.
Context {Σ : Signature} {S T : Type} `{!Field S T}.

(** Read the component, and replace it. *)
Definition load : prog Σ S T := eff1 (Mem (fun s => (get s, s))).
Definition store (t : T) : prog Σ S unit := eff1 (Mem (fun s => (tt, set t s))).
Definition modify (f : T -> T) : prog Σ S unit :=
  eff1 (Mem (fun s => (tt, set (f (get s)) s))).
End Access.

(** ** Environments and worlds

    What the node cannot control: the answers to interface calls, how long
    things take and which requests are cancelled.  All of it is a function of
    an arbitrary state, so a statement about every [Environment] covers every
    behaviour of the outside. *)
Class Environment (Σ : Signature) : Type := {
  env_state : Type;
  env_call : forall o : op Σ, Z -> env_state -> res Σ o * env_state;
  env_elapse : env_state -> N * env_state;
  env_cancelled : nat -> env_state -> bool;
}.

Inductive lock_state : Type := Locked | RLocked (readers : positive).

Record world (Σ : Signature) (S : Type) `{!Environment Σ} : Type := World {
  clk : Z;                               (* the monotonic clock *)
  env : env_state;
  locks : gmap string lock_state;        (* a mutex that is absent is free *)
  mem : S;
  gos : list (prog Σ S unit);            (* goroutines started, oldest first *)
  calls : list { o : op Σ & res Σ o };   (* interface calls with their answers *)
}.

Arguments World {Σ S _}.
Arguments clk {Σ S _}.
Arguments env {Σ S _}.
Arguments locks {Σ S _}.
Arguments mem {Σ S _}.
Arguments gos {Σ S _}.
Arguments calls {Σ S _}.

(** How a thread's run ends. [Stuck] is a thread blocked on a mutex for ever,
    or the fatal error of unlocking a free one. *)
Inductive outcome (A : Type) : Type :=
| Done (a : A)
| Panicked (msg : string)
| OutOfFuel
| Stuck.

Arguments Done {A} a.
Arguments Panicked {A} msg.
Arguments OutOfFuel {A}.
Arguments Stuck {A}.

Definition outcome_bind {A B} (o : outcome A) (f : A -> outcome B) : outcome B :=
  match o with
  | Done a => f a
  | Panicked m => Panicked m
  | OutOfFuel => OutOfFuel
  | Stuck => Stuck
  end.

Section Semantics.
Context {Σ : Signature} {S : Type} `{E : !Environment Σ}.
Implicit Types w : world Σ S.

Definition set_mem (s : S) w : world Σ S :=
  World (clk w) (env w) (locks w) s (gos w) (calls w).
Definition set_locks (l : gmap string lock_state) w : world Σ S :=
  World (clk w) (env w) l (mem w) (gos w) (calls w).
Definition add_go (c : prog Σ S unit) w : world Σ S :=
  World (clk w) (env w) (locks w) (mem w) (gos w ++ [c]) (calls w).

(** Time passes before an effect that observes the clock; a sleep lasts at
    least as long as asked. *)
Definition advance w : world Σ S :=
  let '(n, e) := env_elapse (env w) in
  World (clk w + Z.of_N n) e (locks w) (mem w) (gos w) (calls w).
Definition sleep (d : Z) w : world Σ S :=
  let w1 := advance w in
  World (clk w1 + Z.max 0 d) (env w1) (locks w1) (mem w1) (gos w1) (calls w1).

(** An interface call: the environment answers, and the call is recorded. *)
Definition answer (o : op Σ) w : res Σ o :=
  fst (env_call o (clk (advance w)) (env (advance w))).
Definition called (o : op Σ) w : world Σ S :=
  let w1 := advance w in
  World (clk w1) (snd (env_call o (clk w1) (env w1))) (locks w1) (mem w1) (gos w1)
        (calls w1 ++ [existT o (answer o w)]).

Definition ctx_err (c : ctx) w : option error :=
  match c with
  | Background => None
  | Deadline t => if t <=? clk w then Some context_DeadlineExceeded else None
  | RequestCtx i => if env_cancelled i (env w) then Some context_Canceled else None
  end.

(** One effect; [None] when the thread cannot go on. *)
Definition do_eff {X} (e : eff Σ S X) w : option (X * world Σ S) :=
  match e with
  | Now => Some (clk (advance w), advance w)
  | Sleep d => Some (tt, sleep d w)
  | CtxErr c => Some (ctx_err c (advance w), advance w)
  | Lock m =>
      match locks w !! m with
      | None => Some (tt, set_locks (<[m:=Locked]> (locks w)) w)
      | Some _ => None
      end
  | Unlock m =>
      match locks w !! m with
      | Some Locked => Some (tt, set_locks (delete m (locks w)) w)
      | _ => None
      end
  | RLock m =>
      match locks w !! m with
      | None => Some (tt, set_locks (<[m:=RLocked 1]> (locks w)) w)
      | Some (RLocked n) => Some (tt, set_locks (<[m:=RLocked (n + 1)]> (locks w)) w)
      | Some Locked => None
      end
  | RUnlock m =>
      match locks w !! m with
      | Some (RLocked n) =>
          Some (tt, set_locks (if decide (n = 1%positive) then delete m (locks w)
                               else <[m:=RLocked (n - 1)]> (locks w)) w)
      | _ => None
      end
  | Mem f => let '(x, s) := f (mem w) in Some (x, set_mem s w)
  | Call o => Some (answer o w, called o w)
  end.

(** A thread that runs alone, to its end. *)
Fixpoint run {A} (p : prog Σ S A) w : outcome A * world Σ S :=
  match p with
  | Ret a => (Done a, w)
  | Panic m => (Panicked m, w)
  | NoFuel => (OutOfFuel, w)
  | Eff e k =>
      match do_eff e w with
      | Some (x, w') => run (k x) w'
      | None => (Stuck, w)
      end
  | Go c k => run k (add_go c w)
  end.

End Semantics.

(** ** Running programs *)

Section Run.
Context {Σ : Signature} {S : Type} `{E : !Environment Σ}.
Implicit Types w : world Σ S.

Lemma run_bind {A B} (p : prog Σ S A) (f : A -> prog Σ S B) w :
  run (bind p f) w =
  match run p w with
  | (Done a, w') => run (f a) w'
  | (Panicked m, w') => (Panicked m, w')
  | (OutOfFuel, w') => (OutOfFuel, w')
  | (Stuck, w') => (Stuck, w')
  end.
Proof.
  revert f w. induction p as [A a|A m|A|A X e k IH|A c IHc k IH]; intros f w; cbn; try done.
  destruct (do_eff e w) as [[x w']|]; [apply IH | done].
Qed.

Lemma run_bind_done {A B} (p : prog Σ S A) (f : A -> prog Σ S B) w a w' :
  run p w = (Done a, w') -> run (bind p f) w = run (f a) w'.
Proof. intros H. by rewrite run_bind, H. Qed.

Lemma run_deferring {A} (f : prog Σ S unit) (p : prog Σ S A) w :
  run (deferring f p) w =
  match run p w with
  | (Done a, w') => run (bind f (fun _ => Ret a)) w'
  | (Panicked m, w') => run (bind f (fun _ => Panic m)) w'
  | (OutOfFuel, w') => (OutOfFuel, w')
  | (Stuck, w') => (Stuck, w')
  end.
Proof.
  revert w. induction p as [A a|A m|A|A X e k IH|A c IHc k IH]; intros w; cbn; try done.
  destruct (do_eff e w) as [[x w']|]; [apply IH | done].
Qed.

(** The monad laws, up to the runs they have. *)
Lemma bind_assoc {A B C} (p : prog Σ S A) (f : A -> prog Σ S B) (g : B -> prog Σ S C) w :
  run (bind (bind p f) g) w = run (bind p (fun x => bind (f x) g)) w.
Proof.
  rewrite !run_bind. destruct (run p w) as [[] ?]; try done. by rewrite run_bind.
Qed.

Lemma bind_ret_r {A} (p : prog Σ S A) w : run (bind p Ret) w = run p w.
Proof. rewrite run_bind. by destruct (run p w) as [[] ?]. Qed.

(** One effect at a time. *)
Lemma run_eff {X} (e : eff Σ S X) w :
  run (eff1 e) w = match do_eff e w with
                   | Some (x, w') => (Done x, w')
                   | None => (Stuck, w)
                   end.
Proof. cbn. by destruct (do_eff e w) as [[]|]. Qed.

Lemma run_now w : run (eff1 Now) w = (Done (clk (advance w)), advance w).
Proof. done. Qed.
Lemma run_sleep d w : run (eff1 (Sleep d)) w = (Done tt, sleep d w).
Proof. done. Qed.
Lemma run_ctx_err c w :
  run (eff1 (CtxErr c)) w = (Done (ctx_err c (advance w)), advance w).
Proof. done. Qed.
Lemma run_call o w : run (call o) w = (Done (answer o w), called o w).
Proof. done. Qed.
Lemma run_spawn c w : run (spawn c) w = (Done tt, add_go c w).
Proof. done. Qed.
Lemma run_lock m w :
  locks w !! m = None ->
  run (eff1 (Lock m)) w = (Done tt, set_locks (<[m:=Locked]> (locks w)) w).
Proof. intros H. cbn. by rewrite H. Qed.
Lemma run_unlock m w :
  locks w !! m = Some Locked ->
  run (eff1 (Unlock m)) w = (Done tt, set_locks (delete m (locks w)) w).
Proof. intros H. cbn. by rewrite H. Qed.

(** A thread that takes a mutex another one holds is stuck. *)
Lemma run_lock_under m l w :
  locks w !! m = Some l -> run (eff1 (Lock m)) w = (Stuck, w).
Proof. intros H. cbn. by rewrite H. Qed.

Lemma set_locks_locks w : set_locks (locks w) w = w.
Proof. by destruct w. Qed.
Lemma set_mem_mem w : set_mem (mem w) w = w.
Proof. by destruct w. Qed.

(** What [advance] and an interface call leave alone. *)
Lemma advance_locks w : locks (advance w) = locks w.
Proof. unfold advance. by destruct (env_elapse (env w)). Qed.
Lemma advance_mem w : mem (advance w) = mem w.
Proof. unfold advance. by destruct (env_elapse (env w)). Qed.
Lemma advance_gos w : gos (advance w) = gos w.
Proof. unfold advance. by destruct (env_elapse (env w)). Qed.
Lemma advance_calls w : calls (advance w) = calls w.
Proof. unfold advance. by destruct (env_elapse (env w)). Qed.
Lemma advance_clk w : clk w <= clk (advance w).
Proof. unfold advance. destruct (env_elapse (env w)). cbn. lia. Qed.
Lemma sleep_clk d w : clk w + Z.max 0 d <= clk (sleep d w).
Proof. unfold sleep. cbn. pose proof (advance_clk w). lia. Qed.
Lemma sleep_mem d w : mem (sleep d w) = mem w.
Proof. apply advance_mem. Qed.
Lemma sleep_locks d w : locks (sleep d w) = locks w.
Proof. apply advance_locks. Qed.
Lemma sleep_gos d w : gos (sleep d w) = gos w.
Proof. apply advance_gos. Qed.
Lemma sleep_calls d w : calls (sleep d w) = calls w.
Proof. apply advance_calls. Qed.
Lemma called_mem o w : mem (called o w) = mem w.
Proof. apply advance_mem. Qed.
Lemma called_locks o w : locks (called o w) = locks w.
Proof. apply advance_locks. Qed.
Lemma called_gos o w : gos (called o w) = gos w.
Proof. apply advance_gos. Qed.
Lemma called_calls o w : calls (called o w) = calls w ++ [existT o (answer o w)].
Proof. unfold called; cbn. by rewrite advance_calls. Qed.
Lemma called_clk o w : clk w <= clk (called o w).
Proof. apply advance_clk. Qed.

End Run.

#[export] Hint Rewrite @advance_locks @advance_mem @advance_gos @advance_calls
  @sleep_mem @sleep_locks @sleep_gos @sleep_calls
  @called_mem @called_locks @called_gos @called_calls
  @set_locks_locks @set_mem_mem : go_eqs.
#[export] Hint Resolve advance_clk sleep_clk called_clk : go.

#[global] Arguments advance {_ _ _} w : simpl never.
#[global] Arguments sleep {_ _ _} d w : simpl never.
#[global] Arguments called {_ _ _} o w : simpl never.
#[global] Arguments answer {_ _ _} o w : simpl never.
#[global] Arguments ctx_err {_ _ _} c w : simpl never.
#[global] Arguments set_mem {_ _ _} s w : simpl never.
#[global] Arguments set_locks {_ _ _} l w : simpl never.
#[global] Arguments add_go {_ _ _} c w : simpl never.

(** Updates of a world in a normal form: memory outermost, then goroutines,
    then the lock table, then the passing of time and the calls. *)
Section Normal.
Context {Σ : Signature} {S : Type} `{E : !Environment Σ}.
Implicit Types w : world Σ S.

Lemma advance_set_mem s w : advance (set_mem s w) = set_mem s (advance w).
Proof. unfold advance, set_mem, set_locks, add_go; cbn. by destruct (env_elapse (env w)). Qed.
Lemma advance_set_locks l w : advance (set_locks l w) = set_locks l (advance w).
Proof. unfold advance, set_mem, set_locks, add_go; cbn. by destruct (env_elapse (env w)). Qed.
Lemma advance_add_go c w : advance (add_go c w) = add_go c (advance w).
Proof. unfold advance, set_mem, set_locks, add_go; cbn. by destruct (env_elapse (env w)). Qed.
Lemma sleep_set_mem d s w : sleep d (set_mem s w) = set_mem s (sleep d w).
Proof. unfold sleep. by rewrite advance_set_mem. Qed.
Lemma sleep_set_locks d l w : sleep d (set_locks l w) = set_locks l (sleep d w).
Proof. unfold sleep. by rewrite advance_set_locks. Qed.
Lemma answer_set_mem o s w : answer o (set_mem s w) = answer o w.
Proof. unfold answer. by rewrite advance_set_mem. Qed.
Lemma answer_set_locks o l w : answer o (set_locks l w) = answer o w.
Proof. unfold answer. by rewrite advance_set_locks. Qed.
Lemma answer_add_go o c w : answer o (add_go c w) = answer o w.
Proof. unfold answer. by rewrite advance_add_go. Qed.
Lemma called_set_mem o s w : called o (set_mem s w) = set_mem s (called o w).
Proof. unfold called. by rewrite answer_set_mem, advance_set_mem. Qed.
Lemma called_set_locks o l w : called o (set_locks l w) = set_locks l (called o w).
Proof. unfold called. by rewrite answer_set_locks, advance_set_locks. Qed.
Lemma called_add_go o c w : called o (add_go c w) = add_go c (called o w).
Proof. unfold called. by rewrite answer_add_go, advance_add_go. Qed.
Lemma ctx_err_set_mem c s w : ctx_err c (set_mem s w) = ctx_err c w.
Proof. done. Qed.
Lemma ctx_err_set_locks c l w : ctx_err c (set_locks l w) = ctx_err c w.
Proof. done. Qed.
Lemma set_locks_set_mem l s w : set_locks l (set_mem s w) = set_mem s (set_locks l w).
Proof. done. Qed.
Lemma set_locks_add_go l c w : set_locks l (add_go c w) = add_go c (set_locks l w).
Proof. done. Qed.
Lemma add_go_set_mem c s w : add_go c (set_mem s w) = set_mem s (add_go c w).
Proof. done. Qed.
Lemma set_mem_set_mem s s' w : set_mem s (set_mem s' w) = set_mem s w.
Proof. done. Qed.
Lemma set_locks_set_locks l l' w : set_locks l (set_locks l' w) = set_locks l w.
Proof. done. Qed.
Lemma set_locks_id l w : locks w = l -> set_locks l w = w.
Proof. intros <-. apply set_locks_locks. Qed.
Lemma set_mem_id s w : mem w = s -> set_mem s w = w.
Proof. intros <-. apply set_mem_mem. Qed.
Lemma mem_set_mem s w : mem (set_mem s w) = s.
Proof. done. Qed.
Lemma mem_set_locks l w : mem (set_locks l w) = mem w.
Proof. done. Qed.
Lemma mem_add_go c w : mem (add_go c w) = mem w.
Proof. done. Qed.
Lemma locks_set_mem s w : locks (set_mem s w) = locks w.
Proof. done. Qed.
Lemma locks_set_locks l w : locks (set_locks l w) = l.
Proof. done. Qed.
Lemma locks_add_go c w : locks (add_go c w) = locks w.
Proof. done. Qed.
Lemma clk_set_mem s w : clk (set_mem s w) = clk w.
Proof. done. Qed.
Lemma clk_set_locks l w : clk (set_locks l w) = clk w.
Proof. done. Qed.
Lemma clk_add_go c w : clk (add_go c w) = clk w.
Proof. done. Qed.
Lemma calls_set_mem s w : calls (set_mem s w) = calls w.
Proof. done. Qed.
Lemma calls_set_locks l w : calls (set_locks l w) = calls w.
Proof. done. Qed.
Lemma calls_add_go c w : calls (add_go c w) = calls w.
Proof. done. Qed.
Lemma gos_set_mem s w : gos (set_mem s w) = gos w.
Proof. done. Qed.
Lemma gos_set_locks l w : gos (set_locks l w) = gos w.
Proof. done. Qed.
Lemma gos_add_go c w : gos (add_go c w) = gos w ++ [c].
Proof. done. Qed.

End Normal.

#[export] Hint Rewrite @advance_set_mem @advance_set_locks @advance_add_go
  @sleep_set_mem @sleep_set_locks @answer_set_mem @answer_set_locks @answer_add_go
  @called_set_mem @called_set_locks @called_add_go @ctx_err_set_mem @ctx_err_set_locks
  @set_locks_set_mem @set_locks_add_go @add_go_set_mem @set_mem_set_mem @set_locks_set_locks
  @mem_set_mem @mem_set_locks @mem_add_go @locks_set_mem @locks_set_locks @locks_add_go
  @clk_set_mem @clk_set_locks @clk_add_go @calls_set_mem @calls_set_locks @calls_add_go
  @gos_set_mem @gos_set_locks @gos_add_go : go_eqs.

(** Compute a run one effect after the other, keeping worlds in normal form. *)
Ltac go_simpl := cbn; autorewrite with go_eqs; cbn.

(** ... and finish: a write of what is already there changes nothing. *)
Ltac go_done :=
  go_simpl; repeat (rewrite set_mem_id by (autorewrite with go_eqs; done)); done.

(** *** Accesses to a component, and running straight-line code *)
Section RunAccess.
Context {Σ : Signature} {S T : Type} `{F : !Field S T} `{E : !Environment Σ}.
Implicit Types w : world Σ S.

Lemma run_ret {A} (a : A) w : run (Ret a : prog Σ S A) w = (Done a, w).
Proof. done. Qed.
Lemma run_panic {A} msg w : run (Panic msg : prog Σ S A) w = (Panicked msg, w).
Proof. done. Qed.
Lemma run_load w : run (load (T := T)) w = (Done (get (mem w)), w).
Proof. cbn. by rewrite set_mem_mem. Qed.
Lemma run_store (t : T) w : run (store t) w = (Done tt, set_mem (set t (mem w)) w).
Proof. done. Qed.
Lemma run_modify (f : T -> T) w :
  run (modify f) w = (Done tt, set_mem (set (f (get (mem w))) (mem w)) w).
Proof. done. Qed.

End RunAccess.

Ltac go_run_plain :=
  repeat (first [ rewrite run_bind | rewrite run_load | rewrite run_modify | rewrite run_store
                | rewrite run_now | rewrite run_sleep | rewrite run_call | rewrite run_ctx_err
                | rewrite run_spawn | rewrite run_ret | rewrite run_panic ]; cbv beta iota).

(** ** Local steps

    What a thread that only works on the node's own memory leaves alone: the
    lock table, the goroutines and the calls; and time does not run back. *)
Section LocalStep.
Context {Σ : Signature} {S : Type} `{E : !Environment Σ}.
Implicit Types w : world Σ S.

Record local_step (w w' : world Σ S) : Prop := {
  ls_locks : locks w' = locks w;
  ls_gos : gos w' = gos w;
  ls_calls : calls w' = calls w;
  ls_clk : clk w <= clk w';
}.

#[export] Instance local_step_preorder : PreOrder local_step.
Proof.
  split.
  - by split.
  - intros w1 w2 w3 [] []. split; [congruence..|lia].
Qed.

Lemma local_step_refl w : local_step w w.
Proof. reflexivity. Qed.
Lemma local_step_advance w : local_step w (advance w).
Proof. split; autorewrite with go_eqs; auto with go. Qed.
Lemma local_step_sleep d w : local_step w (sleep d w).
Proof. split; autorewrite with go_eqs; try done. pose proof (sleep_clk d w). lia. Qed.
Lemma local_step_set_mem s w w' : local_step w w' -> local_step w (set_mem s w').
Proof. intros []. by split. Qed.

End LocalStep.

#[export] Hint Resolve local_step_refl local_step_advance local_step_sleep local_step_set_mem : go.

(** ** Calls

    A stretch of a thread that makes the interface calls [tr], in order, and
    touches nothing of the node's own. *)
Definition made {Σ : Signature} (o : op Σ) (r : res Σ o) : { o : op Σ & res Σ o } := existT o r.

Section Calls.
Context {Σ : Signature} {S : Type} `{E : !Environment Σ}.
Implicit Types w : world Σ S.

Record makes_calls (tr : list { o : op Σ & res Σ o }) (w w' : world Σ S) : Prop := {
  mc_mem : mem w' = mem w;
  mc_locks : locks w' = locks w;
  mc_gos : gos w' = gos w;
  mc_calls : calls w' = calls w ++ tr;
  mc_clk : clk w <= clk w';
}.

Lemma makes_calls_nil w w' : local_step w w' -> mem w' = mem w -> makes_calls [] w w'.
Proof. intros [] ?. split; try done. by rewrite app_nil_r. Qed.

Lemma makes_calls_refl w : makes_calls [] w w.
Proof. by apply makes_calls_nil. Qed.

Lemma makes_calls_one o w : makes_calls [made o (answer o w)] w (called o w).
Proof. split; autorewrite with go_eqs; auto with go. Qed.

Lemma makes_calls_app tr1 tr2 w1 w2 w3 :
  makes_calls tr1 w1 w2 -> makes_calls tr2 w2 w3 -> makes_calls (tr1 ++ tr2) w1 w3.
Proof. intros [] []. split; [congruence..| |lia]. rewrite app_assoc. congruence. Qed.

Lemma makes_calls_call tr o w w' :
  makes_calls tr w w' -> makes_calls (tr ++ [made o (answer o w')]) w (called o w').
Proof. intros. by eapply makes_calls_app, makes_calls_one. Qed.

Lemma makes_calls_local tr w w1 w' :
  makes_calls tr w w1 -> local_step w1 w' -> mem w' = mem w1 -> makes_calls tr w w'.
Proof. intros [] [] ?. split; [congruence..|lia]. Qed.

End Calls.

#[export] Hint Resolve makes_calls_refl makes_calls_one : go.

Lemma made_inj {Σ : Signature} `{!EqDecision (op Σ)} (o : op Σ) (r r' : res Σ o) :
  made o r = made o r' -> r = r'.
Proof. apply Eqdep_dec.inj_pair2_eq_dec. intros x y. apply decide, _. Qed.

Lemma made_op {Σ : Signature} (o o' : op Σ) (r : res Σ o) (r' : res Σ o') :
  made o r = made o' r' -> o = o'.
Proof. by intros [=]. Qed.

(** ** Stretches of a run

    [steps tr w w']: from [w] to [w'] a thread made the calls [tr], left the
    lock table as it found it and started no goroutine; what it did to the
    memory is said separately. *)
Section Steps.
Context {Σ : Signature} {S : Type} `{E : !Environment Σ}.
Implicit Types w : world Σ S.

Record steps (tr : list { o : op Σ & res Σ o }) (w w' : world Σ S) : Prop := {
  st_locks : locks w' = locks w;
  st_gos : gos w' = gos w;
  st_calls : calls w' = calls w ++ tr;
  st_clk : clk w <= clk w';
}.

Lemma steps_local w w' : local_step w w' -> steps [] w w'.
Proof. intros []. split; try done. by rewrite app_nil_r. Qed.

Lemma steps_makes_calls tr w w' : makes_calls tr w w' -> steps tr w w'.
Proof. by intros []. Qed.

Lemma steps_refl w : steps [] w w.
Proof. apply steps_local. auto with go. Qed.

Lemma steps_app tr1 tr2 w1 w2 w3 :
  steps tr1 w1 w2 -> steps tr2 w2 w3 -> steps (tr1 ++ tr2) w1 w3.
Proof. intros [] []. split; [congruence..| |lia]. rewrite app_assoc. congruence. Qed.

Lemma steps_call tr o w w' :
  steps tr w w' -> steps (tr ++ [made o (answer o w')]) w (called o w').
Proof. intros. eapply steps_app; [done|]. apply steps_makes_calls, makes_calls_one. Qed.

Lemma steps_then_local tr w w1 w' : steps tr w w1 -> local_step w1 w' -> steps tr w w'.
Proof. intros [] []. split; [congruence..|lia]. Qed.

Lemma local_then_steps tr w w1 w' : local_step w w1 -> steps tr w1 w' -> steps tr w w'.
Proof. intros [] []. split; [congruence..|lia]. Qed.

Lemma steps_lock_free tr w w' m : steps tr w w' -> locks w !! m = None -> locks w' !! m = None.
Proof. intros []. congruence. Qed.

End Steps.

#[export] Hint Resolve steps_local steps_refl steps_makes_calls : go.

(** ** Work of one component

    [works tr w w']: a stretch that makes the calls [tr] and changes, of the
    whole memory, only the component of type [T]. *)
Section Works.
Context {Σ : Signature} {S T : Type} `{F : !Field S T} `{E : !Environment Σ}.
Implicit Types w : world Σ S.

Record works (tr : list { o : op Σ & res Σ o }) (w w' : world Σ S) : Prop := {
  wk_steps : steps tr w w';
  wk_mem : mem w' = set (get (T := T) (mem w')) (mem w);
}.

Lemma works_refl w : works [] w w.
Proof. split; [apply steps_refl|]. by rewrite set_get. Qed.

Lemma works_call tr o w w' : works tr w w' -> works (tr ++ [made o (answer o w')]) w (called o w').
Proof. intros []. split; [by apply steps_call|]. by go_simpl. Qed.

Lemma works_advance tr w w' : works tr w w' -> works tr w (advance w').
Proof.
  intros []. split; [eapply steps_then_local; [done|apply local_step_advance]|]. by go_simpl.
Qed.

Lemma works_set tr t w w' : works tr w w' -> works tr w (set_mem (set t (mem w')) w').
Proof.
  intros [[] Hm]. split; [by split|]. rewrite mem_set_mem, get_set.
  etransitivity; [by rewrite Hm|]. apply set_set.
Qed.

Lemma works_app tr1 tr2 w1 w2 w3 : works tr1 w1 w2 -> works tr2 w2 w3 -> works (tr1 ++ tr2) w1 w3.
Proof.
  intros [Hs1 H1] [Hs2 H2]. split; [by eapply steps_app|].
  etransitivity; [exact H2|]. etransitivity; [by rewrite H1|]. apply set_set.
Qed.

(** Another component is untouched. *)
Lemma works_other {U} `{FU : !Field S U} `{D : !Disjoint S T U} tr w w' :
  works tr w w' -> get (T := U) (mem w') = get (mem w).
Proof. intros [_ ->]. apply get_set_l. Qed.

End Works.

Arguments works {Σ S} T {F E} tr w w'.
#[export] Hint Resolve works_refl works_call works_advance works_set : go.

(** The call that comes next, recorded in the work [H] done so far, with a case
    analysis on its answer or without. *)
Tactic Notation "go_call" hyp(H) :=
  match type of H with works _ _ _ ?w => match goal with
  | |- context [@called ?Sg ?M ?En ?o w] =>
      let H' := fresh in
      pose proof (works_call _ o _ _ H) as H'; clear H; rename H' into H; cbn [app] in H
  end end.
Tactic Notation "go_call" hyp(H) "as" simple_intropattern(p) :=
  match type of H with works _ _ _ ?w => match goal with
  | |- context [@called ?Sg ?M ?En ?o w] =>
      let H' := fresh in
      pose proof (works_call _ o _ _ H) as H'; clear H; revert H'; cbn [app];
      destruct (@answer Sg M En o w) as p; intros H
  end end.

(** ** Critical sections

    A locked body that runs to [Done] or [Panicked] without touching the lock
    table leaves it as it was. *)
Section CriticalSection.
Context {Σ : Signature} {S : Type} `{E : !Environment Σ}.
Implicit Types w : world Σ S.

Lemma run_with_lock {A} m (body : prog Σ S A) w a w' :
  locks w !! m = None ->
  run body (set_locks (<[m:=Locked]> (locks w)) w) =
    (Done a, set_locks (<[m:=Locked]> (locks w)) w') ->
  locks w' = locks w ->
  run (with_lock m body) w = (Done a, w').
Proof.
  intros Hf Hb Hl. unfold with_lock. rewrite run_bind, run_lock by done.
  rewrite run_deferring, Hb.
  rewrite run_bind, run_unlock by (rewrite locks_set_locks; apply lookup_insert_eq).
  cbn. rewrite locks_set_locks, delete_insert_free by done.
  by rewrite set_locks_set_locks, set_locks_id.
Qed.

Lemma run_with_lock_panic {A} m (body : prog Σ S A) w msg w' :
  locks w !! m = None ->
  run body (set_locks (<[m:=Locked]> (locks w)) w) =
    (Panicked msg, set_locks (<[m:=Locked]> (locks w)) w') ->
  locks w' = locks w ->
  run (with_lock m body) w = (Panicked msg, w').
Proof.
  intros Hf Hb Hl. unfold with_lock. rewrite run_bind, run_lock by done.
  rewrite run_deferring, Hb.
  rewrite run_bind, run_unlock by (rewrite locks_set_locks; apply lookup_insert_eq).
  cbn. rewrite locks_set_locks, delete_insert_free by done.
  by rewrite set_locks_set_locks, set_locks_id.
Qed.

Lemma run_with_rlock {A} m (body : prog Σ S A) w a w' :
  locks w !! m = None ->
  run body (set_locks (<[m:=RLocked 1]> (locks w)) w) =
    (Done a, set_locks (<[m:=RLocked 1]> (locks w)) w') ->
  locks w' = locks w ->
  run (with_rlock m body) w = (Done a, w').
Proof.
  intros Hf Hb Hl. unfold with_rlock. rewrite run_bind. cbn [eff1 run do_eff]. rewrite Hf.
  rewrite run_deferring, Hb. cbn [bind eff1 run do_eff].
  rewrite locks_set_locks, lookup_insert_eq, decide_True, delete_insert_free by done.
  by rewrite set_locks_set_locks, set_locks_id.
Qed.

End CriticalSection.

(** *** Running under a mutex

    [under m w] is [w] with the mutex [m] taken; each effect of the body acts on
    [w] and keeps the mutex. *)
Section Held.
Context {Σ : Signature} {S T : Type} `{F : !Field S T} `{E : !Environment Σ}.
Implicit Types w : world Σ S.

Definition under (m : string) w : world Σ S := set_locks (<[m:=Locked]> (locks w)) w.

Lemma run_acquire m w : locks w !! m = None -> run (eff1 (Lock m)) w = (Done tt, under m w).
Proof. apply run_lock. Qed.

Lemma run_release m w : locks w !! m = None -> run (eff1 (Unlock m)) (under m w) = (Done tt, w).
Proof.
  intros Hf. unfold under. rewrite run_unlock by (rewrite locks_set_locks; apply lookup_insert_eq).
  by rewrite locks_set_locks, delete_insert_free, set_locks_set_locks, set_locks_locks.
Qed.

Lemma run_load_under m w : run (load (T := T)) (under m w) = (Done (get (mem w)), under m w).
Proof. by rewrite run_load. Qed.
Lemma run_store_under m (t : T) w :
  run (store t) (under m w) = (Done tt, under m (set_mem (set t (mem w)) w)).
Proof. done. Qed.
Lemma run_modify_under m (f : T -> T) w :
  run (modify f) (under m w) = (Done tt, under m (set_mem (set (f (get (mem w))) (mem w)) w)).
Proof. done. Qed.
Lemma run_now_under m w :
  run (eff1 Now) (under m w) = (Done (clk (advance w)), under m (advance w)).
Proof. unfold under. rewrite run_now. by autorewrite with go_eqs. Qed.
Lemma run_call_under m o w : run (call o) (under m w) = (Done (answer o w), under m (called o w)).
Proof. unfold under. rewrite run_call. by autorewrite with go_eqs. Qed.

End Held.

#[global] Arguments under {_ _ _} m w : simpl never.

(** [go_run] runs straight-line code, under a mutex or not; taking and releasing
    a mutex is left to the proof, which knows that it was free. *)
Ltac go_run :=
  repeat (first [ rewrite run_bind | rewrite run_load_under | rewrite run_store_under
                | rewrite run_modify_under | rewrite run_now_under | rewrite run_call_under
                | progress go_run_plain ]; cbv beta iota).

(** *** Bodies that leave the mutexes alone

    Most critical sections contain no lock operation of their own; they run
    under the lock exactly as they would without it. *)
Section LockFree.
Context {Σ : Signature} {S : Type} `{E : !Environment Σ}.
Implicit Types w : world Σ S.

Definition lock_free_eff {X} (e : eff Σ S X) : Prop :=
  match e with
  | Lock _ | Unlock _ | RLock _ | RUnlock _ => False
  | _ => True
  end.

Fixpoint lock_free {A} (p : prog Σ S A) : Prop :=
  match p with
  | Ret _ | Panic _ => True
  | NoFuel => False
  | Eff e k => lock_free_eff e /\ forall x, lock_free (k x)
  | Go _ k => lock_free k
  end.

Lemma lock_free_bind {A B} (p : prog Σ S A) (f : A -> prog Σ S B) :
  lock_free p -> (forall a, lock_free (f a)) -> lock_free (bind p f).
Proof.
  intros Hp Hf. induction p as [A a|A m|A|A X e k IH|A c IHc k IH]; cbn in *; try done.
  - destruct Hp. split; auto.
  - auto.
Qed.

Lemma do_eff_lock_free {X} (e : eff Σ S X) w :
  lock_free_eff e -> exists x w', do_eff e w = Some (x, w') /\ locks w' = locks w /\
    forall l, do_eff e (set_locks l w) = Some (x, set_locks l w').
Proof.
  destruct e; cbn; try done; intros _; autorewrite with go_eqs.
  all: try (eexists _, _; split; [done|]; split; [by autorewrite with go_eqs|];
            intros l; by autorewrite with go_eqs).
  destruct (f (mem w)) as [x s] eqn:Ef. eexists x, _. split; [done|]. split; [done|].
  intros l. by rewrite mem_set_locks, Ef.
Qed.

Lemma run_lock_free {A} (p : prog Σ S A) w :
  lock_free p ->
  locks (snd (run p w)) = locks w /\
  ((exists a, fst (run p w) = Done a) \/ (exists m, fst (run p w) = Panicked m)) /\
  forall l, run p (set_locks l w) = (fst (run p w), set_locks l (snd (run p w))).
Proof.
  revert w. induction p as [A a|A m|A|A X e k IH|A c IHc k IH]; intros w Hp; cbn in *; try done.
  - eauto.
  - eauto.
  - destruct Hp as [He Hk]. destruct (do_eff_lock_free e w He) as (x & w' & -> & Hl & Hs).
    destruct (IH x w' (Hk x)) as (Hl' & Ho & Hr). split; [congruence|]. split; [done|].
    intros l. by rewrite Hs, Hr.
  - destruct (IH (add_go c w) Hp) as (Hl & Ho & Hr). split; [done|]. split; [done|].
    intros l. rewrite <- Hr. by rewrite set_locks_add_go.
Qed.

(** The mutex is taken and given back whether the body returns or panics. *)
Lemma with_lock_lock_free {A} m (body : prog Σ S A) w :
  locks w !! m = None -> lock_free body -> run (with_lock m body) w = run body w.
Proof.
  intros Hf Hb. destruct (run_lock_free body w Hb) as (Hl & Ho & Hs).
  destruct (run body w) as [o w'] eqn:Hr; cbn in *.
  destruct Ho as [[a ->]|[msg ->]].
  - by apply run_with_lock; [done|rewrite Hs|done].
  - by apply run_with_lock_panic; [done|rewrite Hs|done].
Qed.

(** A section whose first part leaves the mutexes alone: the rest runs with
    the mutex held. *)
Lemma with_lock_bind {A B} m (p : prog Σ S A) (f : A -> prog Σ S B) w :
  locks w !! m = None -> lock_free p ->
  run (with_lock m (bind p f)) w =
  match run p w with
  | (Done a, w') =>
      run (deferring (eff1 (Unlock m)) (f a)) (set_locks (<[m:=Locked]> (locks w)) w')
  | (Panicked msg, w') => (Panicked msg, w')
  | (OutOfFuel, w') => (OutOfFuel, w')
  | (Stuck, w') => (Stuck, w')
  end.
Proof.
  intros Hf Hp. destruct (run_lock_free p w Hp) as (Hl & Ho & Hs).
  destruct (run p w) as [o w'] eqn:Hr; cbn [fst snd] in *. destruct Ho as [[a ->]|[msg ->]].
  - unfold with_lock. rewrite run_bind, run_lock by done.
    by rewrite run_deferring, run_bind, Hs, run_deferring.
  - apply run_with_lock_panic; [done|by rewrite run_bind, Hs|done].
Qed.

End LockFree.

Ltac solve_lock_free :=
  repeat first [ done | progress cbn | intros ? | split
               | match goal with |- context [match ?x with _ => _ end] => destruct x end
               | apply lock_free_bind ].

(** *** Recorded calls

    Every call a run records was answered by the environment. *)
Section Answered.
Context {Σ : Signature} {S : Type} `{E : !Environment Σ}.
Implicit Types w : world Σ S.

Definition answered (x : { o : op Σ & res Σ o }) : Prop :=
  exists t e, projT2 x = fst (env_call (projT1 x) t e).

Lemma do_eff_answered {X} (e : eff Σ S X) w x w' :
  do_eff e w = Some (x, w') -> exists tr, calls w' = calls w ++ tr /\ Forall answered tr.
Proof.
  intros Hd. destruct e; cbn in Hd; repeat case_match; simplify_eq; autorewrite with go_eqs.
  all: try (exists []; rewrite app_nil_r; split; [done|constructor]).
  eexists. split; [done|]. repeat constructor. by exists (clk (advance w)), (env (advance w)).
Qed.

Lemma run_answered {A} (p : prog Σ S A) w :
  exists tr, calls (snd (run p w)) = calls w ++ tr /\ Forall answered tr.
Proof.
  revert w. induction p as [A a|A m|A|A X e k IH|A c IHc k IH]; intros w; cbn [run].
  4: destruct (do_eff e w) as [[x w']|] eqn:Hd.
  4: { destruct (do_eff_answered _ _ _ _ Hd) as (tr1 & Hc1 & H1).
       destruct (IH x w') as (tr2 & Hc2 & H2). exists (tr1 ++ tr2).
       rewrite Hc2, Hc1, app_assoc. split; [done|]. by apply Forall_app. }
  5: destruct (IH (add_go c w)) as (tr & Hc & H); by exists tr.
  all: exists []; rewrite app_nil_r; split; [done|constructor].
Qed.

End Answered.

(** ** Concrete environments

    A signature without operations, and an environment in which nothing takes
    time: for components that make no calls, and for concrete runs. *)

Definition NoCalls : Signature := MkSignature Empty_set (fun _ => unit).

Definition idle_env : Environment NoCalls := {|
  env_state := unit;
  env_call (o : op NoCalls) _ _ := match (o : Empty_set) with end;
  env_elapse _ := (0%N, tt);
  env_cancelled _ _ := false;
|}.

Definition idle_world {S} (s : S) : @world NoCalls S idle_env :=
  @World NoCalls S idle_env 0 tt ∅ s [] [].

(** ** Implementing an interface

    A program over the operations of one interface becomes a program over
    another when every operation is implemented there. *)

Definition interp_eff {Σ Σ' : Signature} {S X : Type} (h : forall o : op Σ, prog Σ' S (res Σ o)) (e : eff Σ S X)
  : prog Σ' S X :=
  match e in eff _ _ Y return prog Σ' S Y with
  | Now => eff1 Now
  | Sleep d => eff1 (Sleep d)
  | CtxErr c => eff1 (CtxErr c)
  | Lock m => eff1 (Lock m)
  | Unlock m => eff1 (Unlock m)
  | RLock m => eff1 (RLock m)
  | RUnlock m => eff1 (RUnlock m)
  | Mem f => eff1 (Mem f)
  | Call o => h o
  end.

Fixpoint interp {Σ Σ' : Signature} {S A : Type} (h : forall o : op Σ, prog Σ' S (res Σ o)) (p : prog Σ S A)
  : prog Σ' S A :=
  match p with
  | Ret a => Ret a
  | Panic m => Panic m
  | NoFuel => NoFuel
  | Eff e k => bind (interp_eff h e) (fun x => interp h (k x))
  | Go c k => Go (interp h c) (interp h k)
  end.

(** ** Sub-interfaces

    An interface whose operations are among those of a larger one: the programs
    over it run there, and behave as they do on their own. *)
Class Embeds (Σ Σ' : Signature) : Type := {
  inj : op Σ -> op Σ';
  inj_back : forall o, res Σ' (inj o) -> res Σ o;
  inj_fwd : forall o, res Σ o -> res Σ' (inj o);
  inj_fwd_back : forall o r, inj_fwd o (inj_back o r) = r;
}.

#[export] Instance embeds_self (Σ : Signature) : Embeds Σ Σ | 100.
Proof.
  refine {| inj o := o; inj_back _ r := r; inj_fwd _ r := r |}; done.
Defined.

Section Lift.
Context {Σ Σ' : Signature} {S : Type} `{I : !Embeds Σ Σ'} `{E : !Environment Σ'}.

Definition lift {A : Type} (p : prog Σ S A) : prog Σ' S A :=
  interp (fun o => x <- call (inj o) ;; Ret (inj_back o x))%go p.

(** The larger environment, seen through the sub-interface. *)
#[export] Instance restrict_env : Environment Σ := {|
  env_state := @env_state Σ' E;
  env_call o t e := let '(r, e') := env_call (inj o) t e in (inj_back o r, e');
  env_elapse := @env_elapse Σ' E;
  env_cancelled := @env_cancelled Σ' E;
|}.

Definition lift_call (x : { o : op Σ & res Σ o }) : { o : op Σ' & res Σ' o } :=
  made (inj (projT1 x)) (inj_fwd _ (projT2 x)).

(** The world at the start of a lifted program, as that program sees it, and
    its world afterwards. *)
Definition down (w : world Σ' S) : world Σ S := World (clk w) (env w : @env_state Σ restrict_env) (locks w) (mem w) [] [].
Definition up (w : world Σ' S) (w1 : world Σ S) : world Σ' S :=
  World (clk w1) (env w1 : @env_state Σ' E) (locks w1) (mem w1)
        (gos w ++ (lift <$> gos w1)) (calls w ++ (lift_call <$> calls w1)).

Lemma up_down w : up w (down w) = w.
Proof. destruct w. unfold up, down; cbn. by rewrite !app_nil_r. Qed.

Lemma up_advance w w1 : advance (up w w1) = up w (advance w1).
Proof.
  destruct w1 as [c e l m g cs]. unfold advance, up; cbn.
  change (@env_elapse Σ restrict_env e) with (@env_elapse Σ' E e).
  by destruct (@env_elapse Σ' E e).
Qed.

Lemma run_lift_up {A} (p : prog Σ S A) w w1 :
  run (lift p) (up w w1) = (fst (run p w1), up w (snd (run p w1))).
Proof.
  revert w1. induction p as [A a|A m|A|A X e k IH|A c IHc k IH]; intros w1; try done.
  - change (lift (Eff e k)) with
      (bind (interp_eff (fun o => x <- call (inj o) ;; Ret (inj_back o x))%go e) (fun x => lift (k x))).
    rewrite run_bind. cbn [run].
    destruct e; cbn [interp_eff];
      try (rewrite run_eff; cbn [do_eff]; try change (locks (up w w1)) with (locks w1);
           rewrite ?up_advance; try apply IH;
           repeat case_match; simplify_eq; try done; by rewrite <- IH).
    + rewrite run_sleep. cbn [do_eff]. rewrite <- IH. unfold sleep. by rewrite up_advance.
    + rewrite run_eff. cbn [do_eff]. change (mem (up w w1)) with (mem w1).
      destruct (f (mem w1)) as [x s]. by rewrite <- IH.
    + rewrite run_bind, run_call. cbn [run do_eff]. rewrite <- IH.
      assert (Hans : inj_back o (answer (inj o) (up w w1)) = answer o w1).
      { unfold answer. rewrite up_advance. cbn. by destruct (env_call (inj o) _ _). }
      rewrite Hans. f_equal. unfold called. rewrite up_advance. unfold up. cbn.
      destruct (env_call (inj o) _ _) as [r e'] eqn:He. cbn. f_equal.
      rewrite fmap_app, app_assoc. f_equal. cbn. unfold lift_call. cbn.
      rewrite <- Hans, inj_fwd_back. done.
  - change (lift (Go c k)) with (Go (lift c) (lift k)). cbn [run]. rewrite <- IH. f_equal.
    unfold add_go, up. cbn. by rewrite fmap_app, app_assoc.
Qed.

(** A lifted program does, in the larger interface, what it does in its own. *)
Lemma run_lift {A} (p : prog Σ S A) w o w1 :
  run p (down w) = (o, w1) -> run (lift p) w = (o, up w w1).
Proof. intros H. rewrite <- (up_down w) at 1. by rewrite run_lift_up, H. Qed.

End Lift.

(** ** Parts of the memory

    A program over the memory of one component is a program over the memory that
    it is a field of, and behaves there as it does on its own. *)
Section Zoom.
Context {Σ : Signature} {S T : Type} `{F : !Field S T} `{E : !Environment Σ}.

Definition zoom_eff {X : Type} (e : eff Σ T X) : eff Σ S X :=
  match e in eff _ _ Y return eff Σ S Y with
  | Now => Now
  | Sleep d => Sleep d
  | CtxErr c => CtxErr c
  | Lock m => Lock m
  | Unlock m => Unlock m
  | RLock m => RLock m
  | RUnlock m => RUnlock m
  | Mem f => Mem (fun s => let '(x, t) := f (get s) in (x, set t s))
  | Call o => Call o
  end.

Fixpoint zoom {A : Type} (p : prog Σ T A) : prog Σ S A :=
  match p with
  | Ret a => Ret a
  | Panic m => Panic m
  | NoFuel => NoFuel
  | Eff e k => Eff (zoom_eff e) (fun x => zoom (k x))
  | Go c k => Go (zoom c) (zoom k)
  end.

(** The world as the component sees it, and the world after it has worked. *)
Definition focus (w : world Σ S) : world Σ T := World (clk w) (env w) (locks w) (get (mem w)) [] (calls w).
Definition unfocus (w : world Σ S) (w1 : world Σ T) : world Σ S :=
  World (clk w1) (env w1) (locks w1) (set (mem w1) (mem w)) (gos w ++ (zoom <$> gos w1)) (calls w1).

Lemma unfocus_focus w : unfocus w (focus w) = w.
Proof. destruct w. unfold unfocus, focus; cbn. by rewrite set_get, app_nil_r. Qed.

Lemma unfocus_advance w w1 : advance (unfocus w w1) = unfocus w (advance w1).
Proof. destruct w1 as [c e l m g cs]. unfold advance, unfocus; cbn. by destruct (env_elapse e). Qed.

Lemma do_zoom_eff {X} (e : eff Σ T X) w w1 :
  do_eff (zoom_eff e) (unfocus w w1) =
  match do_eff e w1 with Some (x, w2) => Some (x, unfocus w w2) | None => None end.
Proof.
  destruct e; cbn [zoom_eff do_eff]; rewrite ?unfocus_advance; try done;
    try (change (locks (unfocus w w1)) with (locks w1); by repeat case_match).
  - unfold sleep. by rewrite unfocus_advance.
  - cbn [mem unfocus]. rewrite get_set. destruct (f (mem w1)) as [x t]. unfold set_mem, unfocus; cbn. by rewrite set_set.
  - unfold called, answer. by rewrite unfocus_advance.
Qed.

Lemma run_zoom_unfocus {A} (p : prog Σ T A) w w1 :
  run (zoom p) (unfocus w w1) = (fst (run p w1), unfocus w (snd (run p w1))).
Proof.
  revert w1. induction p as [A a|A m|A|A X e k IH|A c IHc k IH]; intros w1; cbn [zoom run]; try done.
  - rewrite do_zoom_eff. destruct (do_eff e w1) as [[x w2]|]; [apply IH|done].
  - rewrite <- IH. f_equal. unfold add_go, unfocus; cbn. by rewrite fmap_app, app_assoc.
Qed.

Lemma run_zoom {A} (p : prog Σ T A) w o w1 :
  run p (focus w) = (o, w1) -> run (zoom p) w = (o, unfocus w w1).
Proof. intros H. rewrite <- (unfocus_focus w) at 1. by rewrite run_zoom_unfocus, H. Qed.

End Zoom.

(** ** Frames

    A program whose accesses to the memory keep a view [f] of it keeps that view
    whenever it runs. *)
Section Frames.
Context {Σ : Signature} {S X : Type} `{E : !Environment Σ} (f : S -> X).
Implicit Types w : world Σ S.

Definition frames_eff {Y} (e : eff Σ S Y) : Prop :=
  match e with
  | Mem g => forall s, f (snd (g s)) = f s
  | _ => True
  end.

Fixpoint frames {A} (p : prog Σ S A) : Prop :=
  match p with
  | Ret _ | Panic _ | NoFuel => True
  | Eff e k => frames_eff e /\ forall x, frames (k x)
  | Go _ k => frames k
  end.

Lemma frames_bind {A B} (p : prog Σ S A) (g : A -> prog Σ S B) :
  frames p -> (forall a, frames (g a)) -> frames (bind p g).
Proof.
  intros Hp Hg. induction p as [A a|A m|A|A Y e k IH|A c IHc k IH]; cbn in *; try done.
  - destruct Hp. split; auto.
  - auto.
Qed.

Lemma frames_deferring {A} (d : prog Σ S unit) (p : prog Σ S A) :
  frames d -> frames p -> frames (deferring d p).
Proof.
  intros Hd Hp. induction p as [A a|A m|A|A Y e k IH|A c IHc k IH]; cbn in *; try done.
  - by apply frames_bind.
  - by apply frames_bind.
  - destruct Hp. split; auto.
  - auto.
Qed.

Lemma frames_with_lock {A} m (p : prog Σ S A) : frames p -> frames (with_lock m p).
Proof. intros Hp. split; [done|]. intros x. by apply frames_deferring. Qed.

Lemma frames_do_eff {Y} (e : eff Σ S Y) w x w' :
  frames_eff e -> do_eff e w = Some (x, w') -> f (mem w') = f (mem w).
Proof.
  intros He Hd. destruct e; cbn in *; repeat case_match; simplify_eq;
    autorewrite with go_eqs; try done.
  pose proof (He (mem w)) as Hm. by match goal with
    | H : _ (mem w) = (_, _) |- _ => rewrite H in Hm end.
Qed.

Lemma frames_run {A} (p : prog Σ S A) w : frames p -> f (mem (snd (run p w))) = f (mem w).
Proof.
  revert w. induction p as [A a|A m|A|A Y e k IH|A c IHc k IH]; intros w Hp; cbn in *; try done.
  - destruct Hp as [He Hk]. destruct (do_eff e w) as [[x w']|] eqn:Hd; [|done].
    rewrite IH by done. by eapply frames_do_eff.
  - by rewrite IH.
Qed.

End Frames.

(** The accesses of one component keep the view of another. *)
Section FramesOther.
Context {Σ : Signature} {S T U : Type} `{FT : !Field S T} `{FU : !Field S U}
        `{D : !Disjoint S T U}.

Lemma frames_load {X} (f : S -> X) : frames f (load (Σ := Σ) (T := T)).
Proof. by split. Qed.
Lemma frames_store (t : T) : frames (get (T := U)) (store (Σ := Σ) (S := S) t).
Proof. split; [|done]. intros s. apply get_set_l. Qed.
Lemma frames_modify (f : T -> T) : frames (get (T := U)) (modify (Σ := Σ) (S := S) f).
Proof. split; [|done]. intros s. apply get_set_l. Qed.

End FramesOther.

Ltac solve_frames :=
  repeat first [ done | apply frames_with_lock | apply frames_load | apply frames_store
               | apply frames_modify
               | match goal with |- frames _ (match ?x with _ => _ end) => destruct x end
               | apply frames_bind | intros ? | (split; [done|]) ].

(** ** Which calls a program makes *)
Section Issues.
Context {Σ : Signature} {S : Type} `{E : !Environment Σ} (Q : op Σ -> Prop).
Implicit Types w : world Σ S.

Definition issues_eff {Y} (e : eff Σ S Y) : Prop :=
  match e with
  | Call o => Q o
  | _ => True
  end.

Fixpoint issues {A} (p : prog Σ S A) : Prop :=
  match p with
  | Ret _ | Panic _ | NoFuel => True
  | Eff e k => issues_eff e /\ forall x, issues (k x)
  | Go _ k => issues k
  end.

Lemma issues_bind {A B} (p : prog Σ S A) (g : A -> prog Σ S B) :
  issues p -> (forall a, issues (g a)) -> issues (bind p g).
Proof.
  intros Hp Hg. induction p as [A a|A m|A|A Y e k IH|A c IHc k IH]; cbn in *; try done.
  - destruct Hp. split; auto.
  - auto.
Qed.

Lemma issues_deferring {A} (d : prog Σ S unit) (p : prog Σ S A) :
  issues d -> issues p -> issues (deferring d p).
Proof.
  intros Hd Hp. induction p as [A a|A m|A|A Y e k IH|A c IHc k IH]; cbn in *; try done.
  - by apply issues_bind.
  - by apply issues_bind.
  - destruct Hp. split; auto.
  - auto.
Qed.

Lemma issues_with_lock {A} m (p : prog Σ S A) : issues p -> issues (with_lock m p).
Proof. intros Hp. split; [done|]. intros x. by apply issues_deferring. Qed.

Lemma do_eff_issues {X} (e : eff Σ S X) w x w' :
  issues_eff e -> do_eff e w = Some (x, w') ->
  exists tr, calls w' = calls w ++ tr /\ Forall (fun y => Q (projT1 y)) tr.
Proof.
  intros He Hd. destruct e; cbn in *; repeat case_match; simplify_eq; autorewrite with go_eqs.
  all: try (exists []; rewrite app_nil_r; split; [done|constructor]).
  eexists. split; [done|]. by repeat constructor.
Qed.

Lemma run_issues {A} (p : prog Σ S A) w :
  issues p -> exists tr, calls (snd (run p w)) = calls w ++ tr /\ Forall (fun y => Q (projT1 y)) tr.
Proof.
  revert w. induction p as [A a|A m|A|A X e k IH|A c IHc k IH]; intros w Hp; cbn in *.
  4: destruct Hp as [He Hk]; destruct (do_eff e w) as [[x w']|] eqn:Hd.
  4: { destruct (do_eff_issues _ _ _ _ He Hd) as (tr1 & Hc1 & H1).
       destruct (IH x w' (Hk x)) as (tr2 & Hc2 & H2). exists (tr1 ++ tr2).
       rewrite Hc2, Hc1, app_assoc. split; [done|]. by apply Forall_app. }
  5: destruct (IH (add_go c w) Hp) as (tr & Hc & H); by exists tr.
  all: exists []; rewrite app_nil_r; split; [done|constructor].
Qed.

End Issues.

Lemma issues_lift {Σ Σ' S} `{I : !Embeds Σ Σ'} (Q : op Σ -> Prop) (Q' : op Σ' -> Prop) {A}
    (p : prog Σ S A) :
  (forall o, Q o -> Q' (inj o)) -> issues Q p -> issues Q' (lift p).
Proof.
  intros HQ Hp. induction p as [A a|A m|A|A X e k IH|A c IHc k IH]; cbn in *; try done.
  - destruct Hp as [He Hk]. apply (issues_bind Q'); [|intros x; by apply IH].
    destruct e; cbn in *; try done. split; [by apply HQ|done].
  - by apply IH.
Qed.

Ltac solve_issues :=
  repeat first [ done | apply issues_with_lock
               | match goal with |- issues _ (match ?x with _ => _ end) => destruct x end
               | apply issues_bind | intros ? | (split; [done|]) ].
