(* ===== verification/Domain.v ===== *)
(** The data that the node reports about its GPUs and the interface it reads
    them through ([internal/domain/metrics.go], [internal/domain/interfaces.go]).
    Unsigned fields are non-negative; the providers keep them in range. *)

From Stdlib Require Import ZArith String.
From stdpp Require Import base numbers strings list.
From S2P Require Import Prelude.
From S2P Require Import Effects.

Record GPUMetrics : Type := MkGPUMetrics {
  gm_UUID : string;
  gm_Name : string;
  gm_MemoryTotal : Z;
  gm_MemoryUsed : Z;
  gm_GPUUtil : Z;
  gm_MemoryUtil : Z;
  gm_Temperature : Z;
}.

Record GPUSpec : Type := MkGPUSpec {
  gs_UUID : string;
  gs_Name : string;
  gs_MemoryTotal : Z;
  gs_DriverVer : string;
}.

Inductive gpu_op : Type :=
| gpu_Init
| gpu_Shutdown
| gpu_GetDeviceCount
| gpu_GetMetrics
| gpu_GetSpecs.

Definition gpu_res (o : gpu_op) : Type :=
  match o with
  | gpu_Init | gpu_Shutdown => option error
  | gpu_GetDeviceCount => Z * option error
  | gpu_GetMetrics => list GPUMetrics * option error
  | gpu_GetSpecs => list GPUSpec * option error
  end.

Definition GPUProvider : Signature := MkSignature gpu_op gpu_res.

#[export] Instance gpu_op_eq_dec : EqDecision gpu_op.
Proof. solve_decision. Defined.
#[export] Instance GPUProvider_op_eq_dec : EqDecision (op GPUProvider) := gpu_op_eq_dec.
#[export] Instance GPUMetrics_eq_dec : EqDecision GPUMetrics.
Proof. solve_decision. Defined.
#[export] Instance GPUSpec_eq_dec : EqDecision GPUSpec.
Proof. solve_decision. Defined.
