(* ===== verification/Port.v ===== *)
(** The SSH port manager ([internal/port/manager.go]): its state, its five
    operations as programs that hold the manager's mutex, and what they do. *)

From Stdlib Require Import ZArith Lia String.
From stdpp Require Import base numbers strings list gmap.
From S2P Require Import Prelude.
From S2P Require Import Effects.

(** ** Data *)

Definition ErrNoAvailablePorts : error :=
  ErrSentinel "port.ErrNoAvailablePorts" "no available ports in range".
Definition ErrPortNotAllocated : error :=
  ErrSentinel "port.ErrPortNotAllocated" "port not allocated".

Record Allocation : Type := MkAllocation {
  alloc_SessionID : string;
  AllocatedAt : Z;
  ReleasedAt : option Z;          (* None (nil) while in use *)
}.

Record PortManager : Type := MkPortManager {
  minPort : Z;
  maxPort : Z;
  pm_gracePeriod : Z;
  allocations : gmap Z Allocation;
}.

Definition NewPortManager (min max grace : Z) : PortManager :=
  MkPortManager min max grace ∅.

Definition set_allocations (pm : PortManager) (m : gmap Z Allocation) : PortManager :=
  MkPortManager (minPort pm) (maxPort pm) (pm_gracePeriod pm) m.

Definition port_mu : string := "PortManager.mu".

(** [alloc.ReleasedAt != nil && now.Sub( *alloc.ReleasedAt) >= pm.gracePeriod] *)
Definition reusable (pm : PortManager) (now : Z) (alloc : Allocation) : bool :=
  match ReleasedAt alloc with
  | Some r => pm_gracePeriod pm <=? time_sub now r
  | None => false
  end.

(** ** Operations *)

(** The scan [for port := pm.minPort; port <= pm.maxPort; port++] of
    [Allocate]; [None] when the fuel runs out before the loop ends. *)
Fixpoint Allocate_loop (fuel : nat) (pm : PortManager) (sessionID : string) (now port : Z)
  : option ((Z * option error) * PortManager) :=
  match fuel with
  | O => None
  | S fuel =>
      if port <=? maxPort pm then
        let take := set_allocations pm
                      (<[port := MkAllocation sessionID now None]> (allocations pm)) in
        match allocations pm !! port with
        | None => Some ((port, None), take)
        | Some alloc =>
            if reusable pm now alloc then Some ((port, None), take)
            else Allocate_loop fuel pm sessionID now (int64_add port 1)
        end
      else Some ((0, Some ErrNoAvailablePorts), pm)
  end.

(** The loop of [AvailableCount], from [port] with [count] ports counted. *)
Fixpoint AvailableCount_loop (fuel : nat) (pm : PortManager) (now port count : Z) : option Z :=
  match fuel with
  | O => None
  | S fuel =>
      if port <=? maxPort pm then
        let count' := match allocations pm !! port with
                      | None => int64_add count 1
                      | Some alloc => if reusable pm now alloc then int64_add count 1 else count
                      end in
        AvailableCount_loop fuel pm now (int64_add port 1) count'
      else Some count
  end.

(** One iteration per port of the range, and the test that ends the loop. *)
Definition scan_fuel (pm : PortManager) : nat :=
  S (Z.to_nat (maxPort pm - minPort pm + 1)).

Section Operations.
Context {Σ : Signature} {S : Type} `{!Field S PortManager}.
Local Open Scope go_scope.

Definition Allocate (sessionID : string) : prog Σ S (Z * option error) :=
  with_lock port_mu
    (now <- eff1 Now ;;
     pm <- load ;;
     match Allocate_loop (scan_fuel pm) pm sessionID now (minPort pm) with
     | Some (r, pm') => store pm' ;;; Ret r
     | None => NoFuel
     end).

Definition Release (port : Z) : prog Σ S (option error) :=
  with_lock port_mu
    (pm <- load ;;
     match allocations pm !! port with
     | None => Ret (Some ErrPortNotAllocated)
     | Some alloc =>
         match ReleasedAt alloc with
         | Some _ => Ret (Some ErrPortNotAllocated)
         | None =>
             now <- eff1 Now ;;
             store (set_allocations pm
                      (<[port := MkAllocation (alloc_SessionID alloc) (AllocatedAt alloc)
                                   (Some now)]> (allocations pm))) ;;;
             Ret None
         end
     end).

Definition IsAvailable (port : Z) : prog Σ S bool :=
  with_lock port_mu
    (pm <- load ;;
     match allocations pm !! port with
     | None => Ret true
     | Some alloc =>
         match ReleasedAt alloc with
         | None => Ret false
         | Some r =>
             now <- eff1 Now ;;
             Ret (pm_gracePeriod pm <=? time_sub now r)
         end
     end).

Definition GetAllocation (port : Z) : prog Σ S (option Allocation * bool) :=
  with_lock port_mu
    (pm <- load ;;
     match allocations pm !! port with
     | None => Ret (None, false)
     | Some alloc => Ret (Some alloc, true)
     end).

Definition AvailableCount : prog Σ S Z :=
  with_lock port_mu
    (now <- eff1 Now ;;
     pm <- load ;;
     match AvailableCount_loop (scan_fuel pm) pm now (minPort pm) 0 with
     | Some n => Ret n
     | None => NoFuel
     end).

End Operations.

(** ** The abstract state

    What a client may rely on: which session holds which port, and which ports
    could be handed out at a given time. *)

Definition available (pm : PortManager) (now port : Z) : bool :=
  match allocations pm !! port with
  | None => true
  | Some alloc => reusable pm now alloc
  end.

Definition held (pm : PortManager) : gmap Z string :=
  omap (fun a => match ReleasedAt a with None => Some (alloc_SessionID a) | Some _ => None end)
       (allocations pm).

(** Well-formedness: a range that a loop counter can walk past, a grace period
    that is a [Duration], and every allocation inside the range. *)
Record pm_wf (pm : PortManager) : Prop := {
  wf_min : in_int64 (minPort pm);
  wf_max : in_int64 (maxPort pm) /\ maxPort pm < max_int64;
  wf_grace : min_int64 < pm_gracePeriod pm <= max_int64;
  wf_range : forall p a, allocations pm !! p = Some a -> minPort pm <= p <= maxPort pm;
}.

Definition same_config (pm pm' : PortManager) : Prop :=
  minPort pm' = minPort pm /\ maxPort pm' = maxPort pm /\
  pm_gracePeriod pm' = pm_gracePeriod pm.

Lemma same_config_set pm m : same_config pm (set_allocations pm m).
Proof. done. Qed.

Lemma pm_wf_insert pm p a :
  pm_wf pm -> minPort pm <= p <= maxPort pm ->
  pm_wf (set_allocations pm (<[p := a]> (allocations pm))).
Proof.
  intros [] Hp. split; cbn; try done. intros q b.
  rewrite lookup_insert. case_decide; [by intros; subst | eauto].
Qed.

Lemma pm_wf_new min max grace :
  in_int64 min -> in_int64 max -> max < max_int64 -> min_int64 < grace <= max_int64 ->
  pm_wf (NewPortManager min max grace).
Proof. intros. by split. Qed.

#[export] Hint Resolve pm_wf_insert pm_wf_new : go.

Lemma held_lookup pm p sid :
  held pm !! p = Some sid <->
  exists a, allocations pm !! p = Some a /\ ReleasedAt a = None /\ alloc_SessionID a = sid.
Proof.
  unfold held. rewrite lookup_omap.
  destruct (allocations pm !! p) as [a|] eqn:E; cbn.
  - destruct (ReleasedAt a) eqn:?; split.
    + done.
    + intros (? & [= <-] & ? & ?). congruence.
    + intros [= <-]. eauto.
    + intros (? & [= <-] & ? & ?). congruence.
  - split; [done | by intros (? & ? & ?)].
Qed.

Lemma held_insert pm p sid t r :
  held (set_allocations pm (<[p := MkAllocation sid t r]> (allocations pm))) =
  match r with
  | None => <[p := sid]> (held pm)
  | Some _ => delete p (held pm)
  end.
Proof.
  apply map_eq. intros q. unfold held. cbn. rewrite lookup_omap, lookup_insert.
  destruct r; rewrite ?lookup_insert, ?lookup_delete; case_decide; subst; cbn; try done;
    by rewrite lookup_omap.
Qed.

Lemma available_not_held pm now p : available pm now p = true -> held pm !! p = None.
Proof.
  unfold available, reusable, held. rewrite lookup_omap.
  destruct (allocations pm !! p) as [a|]; [|done]. cbn.
  by destruct (ReleasedAt a).
Qed.

Lemma held_not_available pm now p sid : held pm !! p = Some sid -> available pm now p = false.
Proof.
  intros H. destruct (available pm now p) eqn:E; [|done].
  apply available_not_held in E. congruence.
Qed.

(** ** The loops *)

(** [Allocate]'s scan hands out the least available port from [port] on, and
    fails only when there is none; the fuel is one step per remaining port. *)
Lemma Allocate_loop_spec pm sid now fuel port :
  pm_wf pm -> minPort pm <= port <= maxPort pm + 1 ->
  maxPort pm - port + 1 < Z.of_nat fuel ->
  (exists p, port <= p <= maxPort pm /\ available pm now p = true /\ (forall q, port <= q < p -> available pm now q = false) /\
     Allocate_loop fuel pm sid now port =
       Some ((p, None),
             set_allocations pm (<[p := MkAllocation sid now None]> (allocations pm))))
  \/
  ((forall q, port <= q <= maxPort pm -> available pm now q = false) /\
   Allocate_loop fuel pm sid now port = Some ((0, Some ErrNoAvailablePorts), pm)).
Proof.
  intros Hwf. revert port. induction fuel as [|fuel IH]; intros port Hp Hf; [lia|].
  cbn [Allocate_loop]. destruct (Z.leb_spec port (maxPort pm)) as [Hle|Hgt]; cycle 1.
  { right. split; [lia|done]. }
  destruct (available pm now port) eqn:Ha.
  - left. exists port. split; [lia|]. split; [done|]. split; [lia|].
    unfold available in Ha. by destruct (allocations pm !! port); rewrite ?Ha.
  - assert (Hnext : match allocations pm !! port with
                    | None => True | Some a => reusable pm now a = false end).
    { unfold available in Ha. by destruct (allocations pm !! port). }
    unfold available in Ha. destruct (allocations pm !! port) as [a|] eqn:El; [|done].
    rewrite Hnext. destruct (wf_min _ Hwf), (wf_max _ Hwf) as [? Hm].
    rewrite (int64_succ_below port (maxPort pm + 1)) by (unfold in_int64 in *; lia).
    destruct (IH (port + 1)) as [(p & ? & Hav & Hlow & He)|[Hno He]]; [lia|lia|left|right].
    + exists p. split; [lia|]. split; [done|]. split; [|done].
      intros q Hq. destruct (decide (q = port)) as [->|]; [|apply Hlow; lia].
      unfold available. by rewrite El.
    + split; [|done]. intros q Hq. destruct (decide (q = port)) as [->|]; [|apply Hno; lia].
      unfold available. by rewrite El.
Qed.

(** [count_available pm now port n]: how many of the [n] ports from [port] on
    are available. *)
Definition count_available (pm : PortManager) (now port : Z) (n : nat) : Z :=
  Z.of_nat (length (filter (fun p => available pm now p = true) (seqZ port (Z.of_nat n)))).

Lemma count_available_0 pm now port : count_available pm now port 0 = 0.
Proof. done. Qed.

Lemma count_available_S pm now port n :
  count_available pm now port (S n) =
  (if available pm now port then 1 else 0) + count_available pm now (port + 1) n.
Proof.
  unfold count_available. rewrite seqZ_cons by lia. rewrite filter_cons.
  replace (Z.succ port) with (port + 1) by lia.
  replace (Z.pred (Z.of_nat (S n))) with (Z.of_nat n) by lia.
  destruct (available pm now port); [rewrite decide_True by done; cbn [length]; lia|].
  rewrite decide_False by done. lia.
Qed.

Lemma count_available_bound pm now port n :
  0 <= count_available pm now port n <= Z.of_nat n.
Proof.
  unfold count_available. split; [lia|].
  pose proof (length_filter (fun p => available pm now p = true) (seqZ port (Z.of_nat n))) as H.
  rewrite length_seqZ in H. lia.
Qed.

Lemma AvailableCount_loop_spec pm now fuel n port count :
  pm_wf pm -> minPort pm <= port -> port + Z.of_nat n = maxPort pm + 1 ->
  (n < fuel)%nat -> 0 <= count -> count + Z.of_nat n <= max_int64 ->
  AvailableCount_loop fuel pm now port count = Some (count + count_available pm now port n).
Proof.
  intros Hwf. revert n port count.
  induction fuel as [|fuel IH]; intros n port count Hmin Hn Hf H0 Hc; [lia|].
  cbn [AvailableCount_loop]. destruct (Z.leb_spec port (maxPort pm)) as [Hle|Hgt].
  - destruct n as [|n]; [lia|].
    destruct (wf_min _ Hwf), (wf_max _ Hwf) as [? Hm].
    rewrite (int64_succ_below port (maxPort pm + 1)) by (unfold in_int64 in *; lia).
    rewrite count_available_S.
    assert (Hs : int64_add count 1 = count + 1).
    { apply int64_add_small. unfold in_int64, min_int64 in *. lia. }
    rewrite Hs, (IH n) by (repeat case_match; lia).
    unfold available. f_equal.
    destruct (allocations pm !! port) as [a|]; [destruct (reusable pm now a)|]; try lia.
  - assert (n = O) as -> by lia. rewrite count_available_0. f_equal. lia.
Qed.

#[global] Arguments Allocate_loop _ _ _ _ _ : simpl never.
#[global] Arguments AvailableCount_loop _ _ _ _ _ : simpl never.
#[global] Arguments scan_fuel _ : simpl never.

(** The specification of [Allocate]: the least available port, or the
    error when the whole range is unavailable. *)
Definition allocate_at (pm : PortManager) (sid : string) (now : Z)
    (r : Z * option error) (pm' : PortManager) : Prop :=
  (exists p, r = (p, None) /\ minPort pm <= p <= maxPort pm /\ available pm now p = true /\
     (forall q, minPort pm <= q < p -> available pm now q = false) /\
     pm' = set_allocations pm (<[p := MkAllocation sid now None]> (allocations pm)))
  \/
  (r = (0, Some ErrNoAvailablePorts) /\ pm' = pm /\
   forall q, minPort pm <= q <= maxPort pm -> available pm now q = false).

(** The scan meets it, and its fuel is enough. *)
Lemma Allocate_loop_at pm sid now :
  pm_wf pm ->
  exists r pm', Allocate_loop (scan_fuel pm) pm sid now (minPort pm) = Some (r, pm') /\
    allocate_at pm sid now r pm'.
Proof.
  intros Hwf. destruct (Z.leb_spec (minPort pm) (maxPort pm + 1)) as [Hr|Hr].
  - destruct (Allocate_loop_spec pm sid now (scan_fuel pm) (minPort pm))
      as [(p & Hp & Hav & Hlow & He)|[Hno He]]; [done|lia|unfold scan_fuel; lia| |].
    + eexists _, _. split; [done|]. left. by exists p.
    + eexists _, _. split; [done|]. by right.
  - eexists _, _. split.
    + unfold scan_fuel, Allocate_loop. by rewrite (proj2 (Z.leb_gt _ _)) by lia.
    + right. split; [done|]. split; [done|]. lia.
Qed.

(** What it means for who holds which port. *)
Lemma allocate_at_held pm sid now r pm' :
  pm_wf pm -> allocate_at pm sid now r pm' ->
  pm_wf pm' /\
  match r with
  | (p, None) => held pm !! p = None /\ held pm' = <[p := sid]> (held pm)
  | (_, Some _) => pm' = pm
  end.
Proof.
  intros Hwf [(p & -> & Hp & Hav & _ & ->)|(-> & -> & _)]; [|done].
  split; [by apply pm_wf_insert|]. split; [by eapply available_not_held|apply held_insert].
Qed.

(** ** Runs of the operations

    Each operation is its body at one instant, atomically. *)
Section Runs.
Context {Σ : Signature} {S : Type} `{E : !Environment Σ} `{F : !Field S PortManager}.
Implicit Types w : world Σ S.

Definition pm_of w : PortManager := get (mem w).

Lemma run_Allocate sid w r pm' :
  locks w !! port_mu = None ->
  Allocate_loop (scan_fuel (pm_of w)) (pm_of w) sid (clk (advance w)) (minPort (pm_of w))
    = Some (r, pm') ->
  run (Allocate sid) w = (Done r, set_mem (set pm' (mem w)) (advance w)).
Proof.
  intros Hf Hl. apply run_with_lock; [done| |by go_simpl].
  go_simpl. fold (pm_of w). rewrite Hl. by go_simpl.
Qed.

Lemma Allocate_runs sid w :
  pm_wf (pm_of w) -> locks w !! port_mu = None ->
  exists r pm', allocate_at (pm_of w) sid (clk (advance w)) r pm' /\
    run (Allocate sid) w = (Done r, set_mem (set pm' (mem w)) (advance w)).
Proof.
  intros Hwf Hf. destruct (Allocate_loop_at (pm_of w) sid (clk (advance w)) Hwf) as (r & pm' & He & Hat).
  exists r, pm'. split; [done|]. by apply run_Allocate.
Qed.

(** [Release] at a given time: only a port in use can be released. *)
Definition release_at (pm : PortManager) (p now : Z) : option error * PortManager :=
  match allocations pm !! p with
  | Some (MkAllocation sid t None) =>
      (None, set_allocations pm (<[p := MkAllocation sid t (Some now)]> (allocations pm)))
  | _ => (Some ErrPortNotAllocated, pm)
  end.

Lemma Release_runs p w :
  locks w !! port_mu = None ->
  exists w', run (Release p) w = (Done (fst (release_at (pm_of w) p (clk (advance w)))), w') /\
    local_step w w' /\
    mem w' = set (snd (release_at (pm_of w) p (clk (advance w)))) (mem w) /\
    (fst (release_at (pm_of w) p (clk (advance w))) = None -> clk (advance w) <= clk w').
Proof.
  intros Hf. unfold release_at.
  destruct (allocations (pm_of w) !! p) as [[sid t [r|]]|] eqn:El; cbn [fst snd].
  2: exists (set_mem (set (set_allocations (pm_of w)
               (<[p := MkAllocation sid t (Some (clk (advance w)))]> (allocations (pm_of w))))
               (mem w)) (advance w)).
  1, 3: exists w.
  all: split; [apply run_with_lock; [done| |by go_simpl]|split; [by auto with go|split]].
  all: go_simpl; unfold pm_of in *; rewrite ?El, ?set_get; go_simpl; try done.
Qed.

Lemma IsAvailable_runs p w :
  locks w !! port_mu = None ->
  exists w', local_step w w' /\ mem w' = mem w /\
    run (IsAvailable p) w = (Done (available (pm_of w) (clk (advance w)) p), w').
Proof.
  intros Hf. unfold available, reusable.
  destruct (allocations (pm_of w) !! p) as [[sid t [r|]]|] eqn:El.
  1: exists (advance w). 2, 3: exists w.
  all: split; [by auto with go|]; split; [by go_simpl|].
  all: apply run_with_lock; [done| |by go_simpl].
  all: go_simpl; unfold pm_of in *; rewrite ?El; go_done.
Qed.

Lemma GetAllocation_runs p w :
  locks w !! port_mu = None ->
  run (GetAllocation p) w =
    (Done (allocations (pm_of w) !! p, bool_decide (is_Some (allocations (pm_of w) !! p))), w).
Proof.
  intros Hf. apply run_with_lock; [done| |done].
  go_simpl. unfold pm_of. by destruct (allocations (get (mem w)) !! p).
Qed.

(** The number of available ports of the range. *)
Definition available_ports (pm : PortManager) (now : Z) : list Z :=
  filter (fun p => available pm now p = true)
         (seqZ (minPort pm) (maxPort pm - minPort pm + 1)).

Lemma elem_available_ports pm now p :
  p ∈ available_ports pm now <->
  minPort pm <= p <= maxPort pm /\ available pm now p = true.
Proof. unfold available_ports. rewrite list_elem_of_filter, elem_of_seqZ. split; intros [? ?]; split; done || lia. Qed.

Lemma AvailableCount_runs w :
  pm_wf (pm_of w) -> minPort (pm_of w) <= maxPort (pm_of w) + 1 ->
  maxPort (pm_of w) - minPort (pm_of w) < max_int64 ->
  locks w !! port_mu = None ->
  run AvailableCount w =
    (Done (Z.of_nat (length (available_ports (pm_of w) (clk (advance w))))), advance w).
Proof.
  intros Hwf Hr Hb Hf. apply run_with_lock; [done| |by go_simpl].
  go_simpl. fold (pm_of w).
  rewrite (AvailableCount_loop_spec _ _ _ (Z.to_nat (maxPort (pm_of w) - minPort (pm_of w) + 1)))
    by (try done; unfold scan_fuel; lia).
  go_simpl. unfold count_available, available_ports.
  by rewrite Z2Nat.id by lia.
Qed.

End Runs.

(** ** Histories

    The operations a node performs on its port manager, in the order in which
    they take the mutex, with the passing of time between them; each successful
    [Allocate] and [Release] leaves an event, newest first. *)

Inductive pm_op : Type :=
| OpAllocate (sid : string)
| OpRelease (p : Z)
| OpSleep (d : Z).

Inductive pm_event : Type :=
| EvAllocate (t : Z) (sid : string) (p : Z)
| EvRelease (t : Z) (p : Z).

Definition ev_port (e : pm_event) : Z :=
  match e with EvAllocate _ _ p => p | EvRelease _ p => p end.
Definition ev_time (e : pm_event) : Z :=
  match e with EvAllocate t _ _ => t | EvRelease t _ => t end.

(** The latest event on a port. *)
Fixpoint last_on (p : Z) (tr : list pm_event) : option pm_event :=
  match tr with
  | [] => None
  | e :: tr => if decide (ev_port e = p) then Some e else last_on p tr
  end.

(** A trace is safe when every port is handed out only if it was never handed
    out before, or was released at least the grace period earlier and not
    handed out since; and a release follows an allocation. *)
Fixpoint safe_trace (grace : Z) (tr : list pm_event) : Prop :=
  match tr with
  | [] => True
  | e :: tr =>
      match e, last_on (ev_port e) tr with
      | EvAllocate _ _ _, None => True
      | EvAllocate t _ _, Some (EvRelease r _) => t - r >= grace
      | EvAllocate _ _ _, Some (EvAllocate _ _ _) => False
      | EvRelease t _, Some (EvAllocate t0 _ _) => t0 <= t
      | EvRelease _ _, _ => False
      end /\ safe_trace grace tr
  end.

Section Histories.
Context {Σ : Signature} {S : Type} `{E : !Environment Σ} `{F : !Field S PortManager}.
Implicit Types w : world Σ S.

Definition exec_op (o : pm_op) (st : list pm_event * world Σ S) : list pm_event * world Σ S :=
  let '(tr, w) := st in
  match o with
  | OpAllocate sid =>
      match run (Allocate sid) w with
      | (Done (p, None), w') => (EvAllocate (clk (advance w)) sid p :: tr, w')
      | (_, w') => (tr, w')
      end
  | OpRelease p =>
      match run (Release p) w with
      | (Done None, w') => (EvRelease (clk (advance w)) p :: tr, w')
      | (_, w') => (tr, w')
      end
  | OpSleep d => (tr, snd (run (eff1 (Sleep d)) w))
  end.

Fixpoint exec_ops (os : list pm_op) (st : list pm_event * world Σ S) :=
  match os with
  | [] => st
  | o :: os => exec_ops os (exec_op o st)
  end.

(** The state of the manager is what the trace says: each port's record is
    determined by the latest event on it, and no event is in the future. *)
Record reflects (tr : list pm_event) w : Prop := {
  rf_wf : pm_wf (pm_of w);
  rf_lock : locks w !! port_mu = None;
  rf_safe : safe_trace (pm_gracePeriod (pm_of w)) tr;
  rf_past : Forall (fun e => ev_time e <= clk w) tr;
  rf_last : forall p,
    match last_on p tr with
    | None => allocations (pm_of w) !! p = None
    | Some (EvAllocate t sid _) =>
        allocations (pm_of w) !! p = Some (MkAllocation sid t None)
    | Some (EvRelease t _) =>
        exists sid t0, allocations (pm_of w) !! p = Some (MkAllocation sid t0 (Some t))
    end;
}.

Lemma reflects_quiet tr w w' :
  reflects tr w -> local_step w w' -> pm_of w' = pm_of w -> reflects tr w'.
Proof.
  intros [] [] Hm. split; rewrite ?Hm; try done.
  - congruence.
  - eapply Forall_impl; [done|]. cbn. lia.
Qed.

Lemma last_on_past tr w p e :
  reflects tr w -> last_on p tr = Some e -> ev_time e <= clk w.
Proof.
  intros [_ _ _ Hp _]. induction Hp as [|e' tr' ? ? IH]; cbn; [done|].
  case_decide; [by intros [= <-] | auto].
Qed.

(** One more event: the record of its port is what the event says, and the
    event was safe. *)
Lemma reflects_cons tr w w' e a :
  reflects tr w -> local_step w w' -> ev_time e <= clk w' ->
  minPort (pm_of w) <= ev_port e <= maxPort (pm_of w) ->
  pm_of w' = set_allocations (pm_of w) (<[ev_port e := a]> (allocations (pm_of w))) ->
  safe_trace (pm_gracePeriod (pm_of w)) (e :: tr) ->
  match e with
  | EvAllocate t sid _ => a = MkAllocation sid t None
  | EvRelease t _ => exists sid t0, a = MkAllocation sid t0 (Some t)
  end ->
  reflects (e :: tr) w'.
Proof.
  intros [Hwf Hl Hs Hp Hlast] [] Ht Hr Hm Hsafe Ha. split; rewrite ?Hm.
  - auto with go.
  - congruence.
  - done.
  - constructor; [done|]. eapply Forall_impl; [done|]. cbn. lia.
  - intros p. cbn [last_on]. destruct (decide (ev_port e = p)) as [<-|Hne]; cbn.
    + rewrite lookup_insert_eq. destruct e; [by subst a|].
      destruct Ha as (? & ? & ->). eauto.
    + rewrite lookup_insert_ne by done. apply Hlast.
Qed.

Lemma reflects_allocate tr w sid :
  reflects tr w ->
  let '(tr', w') := exec_op (OpAllocate sid) (tr, w) in
  reflects tr' w' /\ same_config (pm_of w) (pm_of w').
Proof.
  intros Hr. pose proof Hr as [Hwf Hl Hs Hp Hlast]. cbn [exec_op].
  destruct (Allocate_runs sid w Hwf Hl) as (r & pm' & Hat & ->).
  destruct Hat as [(p & -> & Hrange & Hav & _ & ->)|(-> & -> & _)].
  - split; [|by unfold pm_of; go_simpl].
    eapply (reflects_cons _ w); cbn [ev_port ev_time].
    + done.
    + auto with go.
    + by go_simpl.
    + done.
    + unfold pm_of. by go_simpl.
    + split; [|done]. specialize (Hlast p). cbn [ev_port].
      unfold available in Hav.
      destruct (last_on p tr) as [[t sid' p'|t p']|]; [| |done].
      * by rewrite Hlast in Hav.
      * destruct Hlast as (sid' & t0 & Hal). rewrite Hal in Hav.
        unfold reusable in Hav. cbn in Hav.
        apply Z.leb_le in Hav. apply Z.le_ge, time_sub_ge in Hav; [done|].
        apply Hwf.
    + done.
  - unfold pm_of. go_simpl. rewrite ?set_get. split; [|done].
    eapply reflects_quiet; [done|auto with go|]. unfold pm_of. by go_simpl.
Qed.

Lemma reflects_release tr w p :
  reflects tr w ->
  let '(tr', w') := exec_op (OpRelease p) (tr, w) in
  reflects tr' w' /\ same_config (pm_of w) (pm_of w').
Proof.
  intros Hr. pose proof Hr as [Hwf Hl Hs Hp Hlast]. cbn [exec_op].
  destruct (Release_runs p w Hl) as (w' & -> & Hls & Hm & Hclk).
  assert (Hpm : pm_of w' = snd (release_at (pm_of w) p (clk (advance w)))).
  { unfold pm_of at 1. by rewrite Hm, get_set. }
  unfold release_at in *.
  destruct (allocations (pm_of w) !! p) as [[sid t [t1|]]|] eqn:El; cbn [fst snd] in *.
  2: { rewrite Hpm. split; [|done]. eapply (reflects_cons _ w); cbn [ev_port ev_time];
         [done|done|by apply Hclk|by eapply wf_range|done| |by eauto].
       split; [|done]. cbn [ev_port]. specialize (Hlast p).
       destruct (last_on p tr) as [[t' sid' p'|t' p']|] eqn:Ho.
       - pose proof (last_on_past _ _ _ _ Hr Ho). cbn in *.
         pose proof (advance_clk w). lia.
       - destruct Hlast as (? & ? & ?). congruence.
       - congruence. }
  all: rewrite Hpm; split; [by eapply reflects_quiet|done].
Qed.

Lemma reflects_exec os tr w :
  reflects tr w ->
  let '(tr', w') := exec_ops os (tr, w) in
  reflects tr' w' /\ same_config (pm_of w) (pm_of w').
Proof.
  revert tr w. induction os as [|o os IH]; intros tr w Hr; [done|]. cbn [exec_ops].
  assert (let '(tr', w') := exec_op o (tr, w) in
          reflects tr' w' /\ same_config (pm_of w) (pm_of w')) as Hstep.
  { destruct o as [sid|p|d].
    - by apply reflects_allocate.
    - by apply reflects_release.
    - split.
      + eapply reflects_quiet; [done|apply local_step_sleep|]. unfold pm_of. by go_simpl.
      + unfold pm_of, same_config. by go_simpl. }
  destruct (exec_op o (tr, w)) as [tr1 w1]. destruct Hstep as [Hr1 (H1 & H2 & H3)].
  specialize (IH _ _ Hr1). destruct (exec_ops os (tr1, w1)) as [tr2 w2].
  destruct IH as [Hr2 (H4 & H5 & H6)]. split; [done|]. unfold same_config. lia.
Qed.

End Histories.

(** ** Properties *)

Section Properties.
Context {Σ : Signature} {S : Type} `{E : !Environment Σ} `{F : !Field S PortManager}.
Implicit Types w : world Σ S.

(** C21: [Allocate] returns, with its mutex released, and hands out the least
    port of the range that is unused or past its grace period, recording the
    session as its holder and changing nothing else; it fails with
    [ErrNoAvailablePorts], changing nothing, exactly when the whole range is
    in use or in its grace period. *)
Theorem Allocate_correct sid w :
  pm_wf (pm_of w) -> locks w !! port_mu = None ->
  exists r w', run (Allocate sid) w = (Done r, w') /\ local_step w w' /\
    pm_wf (pm_of w') /\ same_config (pm_of w) (pm_of w') /\
    let now := clk (advance w) in
    match r with
    | (p, None) =>
        minPort (pm_of w) <= p <= maxPort (pm_of w) /\ available (pm_of w) now p = true /\
        (forall q, minPort (pm_of w) <= q < p -> available (pm_of w) now q = false) /\
        held (pm_of w) !! p = None /\ held (pm_of w') = <[p := sid]> (held (pm_of w)) /\
        (forall q, q <> p -> allocations (pm_of w') !! q = allocations (pm_of w) !! q)
    | (p, Some e) =>
        p = 0 /\ e = ErrNoAvailablePorts /\ mem w' = mem w /\
        forall q, minPort (pm_of w) <= q <= maxPort (pm_of w) ->
                  available (pm_of w) now q = false
    end.
Proof.
  intros Hwf Hl. destruct (Allocate_runs sid w Hwf Hl) as (r & pm' & Hat & Hrun).
  exists r, (set_mem (set pm' (mem w)) (advance w)).
  split; [done|]. split; [by auto with go|].
  assert (pm_of (set_mem (set pm' (mem w)) (advance w)) = pm' :> PortManager) as ->
    by (unfold pm_of; by go_simpl).
  destruct Hat as [(p & -> & Hr & Hav & Hlow & ->)|(-> & -> & Hno)].
  - split; [by auto with go|]. split; [done|]. repeat split; try done; try lia.
    + by eapply available_not_held.
    + apply held_insert.
    + intros q Hq. cbn. by rewrite lookup_insert_ne.
  - split; [done|]. split; [done|]. repeat split; try done.
    rewrite mem_set_mem. apply set_get.
Qed.

(** [Release] succeeds exactly on a port that a session holds: it is then
    stamped with the time of the release, no longer held, and not available
    before the grace period has run out; on any other port the call fails
    with [ErrPortNotAllocated] and changes nothing. *)
Theorem Release_correct p w :
  pm_wf (pm_of w) -> locks w !! port_mu = None ->
  exists r w', run (Release p) w = (Done r, w') /\ local_step w w' /\
    pm_wf (pm_of w') /\ same_config (pm_of w) (pm_of w') /\
    match held (pm_of w) !! p with
    | Some sid =>
        r = None /\ held (pm_of w') = delete p (held (pm_of w)) /\
        forall now, available (pm_of w') now p = true <->
                    now - clk (advance w) >= pm_gracePeriod (pm_of w)
    | None => r = Some ErrPortNotAllocated /\ mem w' = mem w
    end.
Proof.
  intros Hwf Hl. destruct (Release_runs p w Hl) as (w' & Hrun & Hls & Hm & _).
  assert (Hpm : pm_of w' = snd (release_at (pm_of w) p (clk (advance w)))).
  { unfold pm_of at 1. by rewrite Hm, get_set. }
  eexists _, w'. split; [done|]. split; [done|]. rewrite Hpm.
  unfold held at 1. rewrite lookup_omap. unfold release_at in *.
  destruct (allocations (pm_of w) !! p) as [[sid t [t1|]]|] eqn:El; cbn [fst snd mbind option_bind ReleasedAt] in *.
  2: { split; [by eapply pm_wf_insert, wf_range|]. split; [done|]. split; [done|].
       split; [apply held_insert|]. intros now. unfold available, reusable. cbn.
       rewrite lookup_insert_eq. cbn. rewrite Z.leb_le, <- time_sub_ge by apply Hwf. lia. }
  all: split; [done|]; split; [done|]; split; [done|].
  all: by rewrite Hm; unfold pm_of; rewrite set_get.
Qed.

(** C37: [AvailableCount] is the number of ports of the range that
    [IsAvailable] accepts, and it predicts [Allocate] at the same instant:
    an allocation fails if and only if the count is zero. *)
Theorem AvailableCount_predicts_Allocate sid w :
  pm_wf (pm_of w) -> locks w !! port_mu = None ->
  minPort (pm_of w) <= maxPort (pm_of w) + 1 ->
  maxPort (pm_of w) - minPort (pm_of w) < max_int64 ->
  exists n r wc wa ports,
    run AvailableCount w = (Done n, wc) /\ mem wc = mem w /\ run (Allocate sid) w = (Done r, wa) /\
    NoDup ports /\ n = Z.of_nat (length ports) /\
    (forall p, p ∈ ports <-> minPort (pm_of w) <= p <= maxPort (pm_of w) /\
                             fst (run (IsAvailable p) w) = Done true) /\
    (n = 0 <-> snd r = Some ErrNoAvailablePorts).
Proof.
  intros Hwf Hl Hr Hb. destruct (Allocate_runs sid w Hwf Hl) as (r & pm' & Hat & Hrun).
  pose proof (AvailableCount_runs w Hwf Hr Hb Hl) as Hc.
  eexists _, r, _, _, (available_ports (pm_of w) (clk (advance w))).
  split; [done|]. split; [by go_simpl|]. split; [done|].
  split; [apply NoDup_filter, NoDup_seqZ|]. split; [done|]. split.
  - intros p. rewrite elem_available_ports.
    destruct (IsAvailable_runs p w Hl) as (w' & _ & _ & ->). cbn.
    split; intros [? H]; (split; [done|]); [by rewrite H | by injection H].
  - assert (Hz : forall l : list Z, Z.of_nat (length l) = 0 <-> l = []).
    { intros [|]; cbn; split; done || lia. }
    rewrite Hz. destruct Hat as [(p & -> & Hp & Hav & _)|(-> & _ & Hno)]; cbn; split; try done.
    + intros Hnil. exfalso.
      apply (not_elem_of_nil p). rewrite <- Hnil. by apply elem_available_ports.
    + intros _. destruct (available_ports _ _) as [|q l] eqn:Eq; [done|]. exfalso.
      assert (q ∈ available_ports (pm_of w) (clk (advance w))) as Hq
        by (rewrite Eq; left).
      apply elem_available_ports in Hq as [? Hq]. by rewrite Hno in Hq.
Qed.

(** C2: Over any history of allocations, releases and waiting, a port that is
    handed out a second time was released in between, and at least the grace
    period has passed since that release: two sessions never share a port. *)
Theorem port_reuse_after_grace os w tr w' new mid old t1 s1 t2 s2 p :
  pm_wf (pm_of w) -> locks w !! port_mu = None -> allocations (pm_of w) = ∅ ->
  exec_ops os ([], w) = (tr, w') ->
  tr = new ++ EvAllocate t2 s2 p :: mid ++ EvAllocate t1 s1 p :: old ->
  exists r, EvRelease r p ∈ mid /\ t2 - r >= pm_gracePeriod (pm_of w).
Proof.
  intros Hwf Hl He Hexec ->.
  assert (Hr : reflects [] w) by (split; cbn; try done; intros q; by rewrite He).
  pose proof (reflects_exec os [] w Hr) as H. rewrite Hexec in H.
  destruct H as [[_ _ Hsafe _ _] (_ & _ & Hg)]. rewrite Hg in Hsafe. clear Hexec Hg.
  induction new as [|e new IH]; cbn in Hsafe; [|by apply IH, Hsafe].
  destruct Hsafe as [Hsafe _].
  assert (Hmid : forall mid, match last_on p (mid ++ EvAllocate t1 s1 p :: old) with
            | Some (EvRelease r q) => EvRelease r p ∈ mid
            | Some (EvAllocate _ _ _) => True
            | None => False end).
  { clear. intros mid. induction mid as [|e mid IH]; cbn.
    - by rewrite decide_True.
    - destruct (decide (ev_port e = p)) as [<-|].
      + destruct e; [done|]. left.
      + destruct (last_on _ _) as [[]|]; try done. by right. }
  specialize (Hmid mid). destruct (last_on _ _) as [[]|]; [done| |done]. eauto.
Qed.

(** [IsAvailable] answers [true] for every port outside the configured
    range, although [Allocate] never hands such a port out. *)
Theorem IsAvailable_out_of_range p w :
  pm_wf (pm_of w) -> locks w !! port_mu = None ->
  p < minPort (pm_of w) \/ maxPort (pm_of w) < p ->
  fst (run (IsAvailable p) w) = Done true /\
  forall sid, fst (run (Allocate sid) w) <> Done (p, None).
Proof.
  intros Hwf Hl Hp. split.
  - destruct (IsAvailable_runs p w Hl) as (w' & _ & _ & ->). cbn. unfold available.
    destruct (allocations (pm_of w) !! p) as [a|] eqn:El; [|done].
    apply wf_range in El; [lia|done].
  - intros sid. destruct (Allocate_runs sid w Hwf Hl) as (r & pm' & Hat & ->). cbn.
    intros [= ->]. destruct Hat as [(q & [= <-] & Hq & _)|([=] & _)]. lia.
Qed.

End Properties.

(** ** Witnesses *)

(** A manager of three ports without grace period, idle world. *)
Definition pm_example : PortManager := NewPortManager 30000 30002 0.
Definition pm_world : @world NoCalls PortManager idle_env := idle_world pm_example.

Lemma pm_example_wf : pm_wf (pm_of pm_world).
Proof. change (pm_wf pm_example). apply pm_wf_new; unfold in_int64, min_int64, max_int64; lia. Qed.

Lemma Allocate_correct_witness :
  pm_wf (pm_of pm_world) /\ locks pm_world !! port_mu = None /\
  exists r w', run (Allocate "s") pm_world = (Done r, w') /\ pm_wf (pm_of w') /\ r = (30000, None).
Proof.
  split; [apply pm_example_wf|]. split; [reflexivity|].
  destruct (Allocate_correct "s" pm_world pm_example_wf eq_refl) as (r & w' & H & _ & Hwf & _).
  exists r, w'. split; [done|]. split; [done|]. by vm_compute in H; injection H as <- _.
Defined.

Lemma Release_correct_witness :
  held (pm_of pm_world) !! 30000 = None /\
  exists w', run (Release 30000) pm_world = (Done (Some ErrPortNotAllocated), w') /\
             mem w' = mem pm_world.
Proof.
  split; [reflexivity|].
  destruct (Release_correct 30000 pm_world pm_example_wf eq_refl)
    as (r & w' & H & _ & _ & _ & Hr & Hm).
  exists w'. by rewrite <- Hr.
Defined.

Lemma AvailableCount_predicts_Allocate_witness :
  exists n r wc wa, run AvailableCount pm_world = (Done n, wc) /\ n = 3 /\
    run (Allocate "s") pm_world = (Done r, wa) /\ (n = 0 <-> snd r = Some ErrNoAvailablePorts).
Proof.
  destruct (AvailableCount_predicts_Allocate "s" pm_world pm_example_wf eq_refl
              ltac:(by vm_compute) ltac:(by vm_compute))
    as (n & r & wc & wa & ports & Hc & _ & Ha & _ & _ & _ & Hiff).
  exists n, r, wc, wa. split; [done|]. split; [by vm_compute in Hc; injection Hc as <- _|]. done.
Defined.

(** Three sessions fill the range; the middle port is released and reused. *)
Definition pm_history : list pm_op :=
  [OpAllocate "s1"; OpAllocate "s2"; OpAllocate "s3"; OpAllocate "s4";
   OpRelease 30001; OpSleep 5; OpAllocate "s4"].

Lemma port_reuse_after_grace_witness :
  exists r, EvRelease r 30001 ∈ [EvRelease 0 30001; EvAllocate 0 "s3" 30002] /\
    5 - r >= pm_gracePeriod (pm_of pm_world).
Proof.
  apply (port_reuse_after_grace pm_history pm_world
           (fst (exec_ops pm_history ([], pm_world))) (snd (exec_ops pm_history ([], pm_world)))
           [] [EvRelease 0 30001; EvAllocate 0 "s3" 30002] [EvAllocate 0 "s1" 30000]
           0 "s2" 5 "s4" 30001).
  - apply pm_example_wf.
  - reflexivity.
  - reflexivity.
  - by destruct (exec_ops _ _).
  - vm_compute. reflexivity.
Defined.

Lemma IsAvailable_out_of_range_witness :
  fst (run (IsAvailable 80) pm_world) = Done true /\
  forall sid, fst (run (Allocate sid) pm_world) <> Done (80, None).
Proof.
  apply (IsAvailable_out_of_range 80 pm_world); [apply pm_example_wf|reflexivity|cbn; lia].
Defined.
