(* ===== verification/Container.v ===== *)
(** The Docker service ([internal/container/docker.go]): container
    configurations, the service's methods as programs over the Docker client,
    and what they ask of it.

    The Docker client and the retry loop of the [backoff] package are outside
    the repository: the client is the signature [DockerClient], answered by an
    arbitrary environment, and the retry loop is a parameter of
    [StartContainer]. *)

From Stdlib Require Import ZArith Lia String.
From stdpp Require Import base numbers strings list gmap.
From S2P Require Import Prelude.
From S2P Require Import Effects.

(** ** Data *)

Record ContainerConfig : Type := MkContainerConfig {
  cc_SessionID : string;
  cc_Image : string;
  cc_GPUDeviceID : string;
  cc_SSHPassword : string;
  cc_SSHPort : Z;
  cc_MemoryBytes : Z;
  cc_CPUCount : Z;
  cc_UseImageEntrypoint : bool;
}.

Record ContainerInfo : Type := MkContainerInfo {
  ci_ContainerID : string;
  ci_SSHPort : Z;
  ci_State : string;
  ci_Health : string;
}.

#[export] Instance ContainerConfig_eq_dec : EqDecision ContainerConfig.
Proof. solve_decision. Defined.
#[export] Instance ContainerInfo_eq_dec : EqDecision ContainerInfo.
Proof. solve_decision. Defined.

(** *** The types of the Docker API that the service reads and writes

    A nil map or pointer is [None]. *)

Record PortBinding : Type := MkPortBinding { HostIP : string; HostPort : string }.

Record docker_Config : Type := MkConfig {
  cfg_Image : string;
  cfg_Env : list string;
  cfg_ExposedPorts : option (list string);
  cfg_Entrypoint : list string;
  cfg_Cmd : list string;
}.

Record docker_HostConfig : Type := MkHostConfig {
  hc_Runtime : string;
  hc_Memory : Z;
  hc_NanoCPUs : Z;
  hc_PortBindings : option (gmap string (list PortBinding));
}.

(** [types.ContainerJSON]: the identity and the state are fields of an
    embedded pointer. *)
Record ContainerState : Type := MkContainerState {
  st_Status : string;
  st_Health : option string;          (* State.Health.Status *)
}.
Record ContainerJSONBase : Type := MkContainerJSONBase {
  js_ID : string;
  js_State : option ContainerState;
}.
Record ContainerJSON : Type := MkContainerJSON {
  js_base : option ContainerJSONBase;
  js_Ports : option (option (gmap string (list PortBinding)));  (* NetworkSettings.Ports *)
}.

(** Which arm of the [select] of [StopContainer] fires: the container stopped,
    the error channel delivered, or the context ended. *)
Inductive wait_event : Type :=
| WaitStopped
| WaitErr (e : option error)
| WaitCtxDone (e : error).

(** The Docker client: its methods, and the operations on the stream that
    [ImagePull] returns. *)
Inductive docker_op : Type :=
| ContainerCreate (c : ctx) (config : docker_Config) (host : docker_HostConfig) (name : string)
| ContainerStart (c : ctx) (containerID : string)
| ContainerStop (c : ctx) (containerID : string) (timeout : Z)
| ContainerRemove (c : ctx) (containerID : string) (removeVolumes force : bool)
| ContainerInspect (c : ctx) (containerID : string)
| ContainerWaitNotRunning (c : ctx) (containerID : string)
| ImageInspect (c : ctx) (image : string)
| ImagePull (c : ctx) (image : string)
| ReaderCopyDiscard (reader : nat)
| ReaderClose (reader : nat)
| ClientClose.

Definition docker_res (o : docker_op) : Type :=
  match o with
  | ContainerCreate _ _ _ _ => string * option error
  | ContainerInspect _ _ => ContainerJSON * option error
  | ContainerWaitNotRunning _ _ => wait_event
  | ImagePull _ _ => nat * option error
  | _ => option error
  end.

Definition DockerClient : Signature := MkSignature docker_op docker_res.

(** The method set of the service, as its clients see it
    ([DockerServiceInterface] in [internal/rental/executor.go]). *)
Inductive svc_op : Type :=
| svc_CreateContainer (c : ctx) (cfg : ContainerConfig)
| svc_StartContainer (c : ctx) (containerID : string)
| svc_StopContainer (c : ctx) (containerID : string) (timeoutSeconds : Z)
| svc_RemoveContainer (c : ctx) (containerID : string) (force : bool)
| svc_InspectContainer (c : ctx) (containerID : string).

Definition svc_res (o : svc_op) : Type :=
  match o with
  | svc_CreateContainer _ _ => string * option error
  | svc_InspectContainer _ _ => ContainerInfo * option error
  | _ => option error
  end.

Definition DockerServiceInterface : Signature := MkSignature svc_op svc_res.

#[export] Instance PortBinding_eq_dec : EqDecision PortBinding.
Proof. solve_decision. Defined.
#[export] Instance docker_Config_eq_dec : EqDecision docker_Config.
Proof. solve_decision. Defined.
#[export] Instance docker_HostConfig_eq_dec : EqDecision docker_HostConfig.
Proof. solve_decision. Defined.
#[export] Instance docker_op_eq_dec : EqDecision docker_op.
Proof. solve_decision. Defined.
#[export] Instance DockerClient_op_eq_dec : EqDecision (op DockerClient) := docker_op_eq_dec.
#[export] Instance svc_op_eq_dec : EqDecision svc_op.
Proof. solve_decision. Defined.
#[export] Instance DockerServiceInterface_op_eq_dec : EqDecision (op DockerServiceInterface) :=
  svc_op_eq_dec.

(** ** Configurations *)

Definition quote : string := String (Ascii.ascii_of_nat 34) EmptyString.

Definition sshSetupScript : string :=
  "set -e
export DEBIAN_FRONTEND=noninteractive
apt-get update -qq
apt-get install -y -qq openssh-server sudo > /dev/null 2>&1

# Create user with password
useradd -m -s /bin/bash " +:+ quote +:+ "$USER_NAME" +:+ quote +:+ " 2>/dev/null || true
echo " +:+ quote +:+ "$USER_NAME:$SSH_PASSWORD" +:+ quote +:+ " | chpasswd
echo " +:+ quote +:+ "$USER_NAME ALL=(ALL) NOPASSWD:ALL" +:+ quote +:+ " >> /etc/sudoers

# Configure sshd
mkdir -p /run/sshd
sed -i 's/#PasswordAuthentication yes/PasswordAuthentication yes/' /etc/ssh/sshd_config
sed -i 's/PasswordAuthentication no/PasswordAuthentication yes/' /etc/ssh/sshd_config
sed -i 's/#PermitRootLogin.*/PermitRootLogin no/' /etc/ssh/sshd_config

echo " +:+ quote +:+ "SSH server ready on port 22" +:+ quote +:+ "
exec /usr/sbin/sshd -D
".

Definition isGPUUUID (s : string) : bool := HasPrefix s "GPU-" || HasPrefix s "MIG-".

Definition gpuDevice (cfg : ContainerConfig) : string :=
  let id := cc_GPUDeviceID cfg in
  if bool_decide (id <> "") && bool_decide (id <> "all") && negb (isGPUUUID id)
  then id else "all".

Definition containerConfig (cfg : ContainerConfig) : docker_Config :=
  if cc_UseImageEntrypoint cfg then
    {| cfg_Image := cc_Image cfg;
       cfg_Env := ["NVIDIA_VISIBLE_DEVICES=" +:+ gpuDevice cfg;
                   "NVIDIA_DRIVER_CAPABILITIES=all"];
       cfg_ExposedPorts := None; cfg_Entrypoint := []; cfg_Cmd := [] |}
  else
    {| cfg_Image := cc_Image cfg;
       cfg_Env := ["SSH_PASSWORD=" +:+ cc_SSHPassword cfg;
                   "USER_NAME=ubuntu";
                   "NVIDIA_VISIBLE_DEVICES=" +:+ gpuDevice cfg;
                   "NVIDIA_DRIVER_CAPABILITIES=all"];
       cfg_ExposedPorts := Some ["22/tcp"];
       cfg_Entrypoint := ["/bin/bash"; "-c"];
       cfg_Cmd := [sshSetupScript] |}.

Definition portBindings (cfg : ContainerConfig) : option (gmap string (list PortBinding)) :=
  if cc_UseImageEntrypoint cfg then None
  else Some {[ "22/tcp" := [MkPortBinding "0.0.0.0" (itoa (cc_SSHPort cfg))] ]}.

Definition hostConfig (cfg : ContainerConfig) : docker_HostConfig :=
  {| hc_Runtime := "nvidia";
     hc_Memory := cc_MemoryBytes cfg;
     hc_NanoCPUs := int64_mul (cc_CPUCount cfg) 1000000000;
     hc_PortBindings := portBindings cfg |}.

(** ** The service *)

(** The retry policy built by [StartContainer]; the remaining fields keep the
    defaults of the [backoff] package. *)
Record BackOff : Type := MkBackOff {
  bo_InitialInterval : Z;
  bo_MaxInterval : Z;
  bo_MaxElapsedTime : Z;
}.

Definition startBackOff : BackOff := MkBackOff (2 * Second) (10 * Second) (30 * Second).

Section Service.
Context {S : Type}.
Local Open Scope go_scope.

(** [backoff.Retry(operation, backoff.WithContext(b, ctx))]. *)
Context (Retry : BackOff -> ctx -> prog DockerClient S (option error) ->
                 prog DockerClient S (option error)).

Notation docker := (prog DockerClient S).
Notation dcall o := (@call DockerClient S o).

Definition ensureImage (c : ctx) (imageName : string) : docker (option error) :=
  err <- dcall (ImageInspect c imageName) ;;
  match err with
  | None => Ret None
  | Some _ =>
      let! (reader, err) := dcall (ImagePull c imageName) ;;
      match err with
      | Some e => Ret (Some (ErrWrap ("failed to pull image " +:+ imageName +:+ ": ") e))
      | None =>
          deferring (_ <- dcall (ReaderClose reader) ;; Ret tt)
            (err <- dcall (ReaderCopyDiscard reader) ;;
             match err with
             | Some e =>
                 Ret (Some (ErrWrap ("error during image pull " +:+ imageName +:+ ": ") e))
             | None => Ret None
             end)
      end
  end.

Definition CreateContainer (c : ctx) (cfg : ContainerConfig) : docker (string * option error) :=
  err <- ensureImage c (cc_Image cfg) ;;
  match err with
  | Some e => Ret ("", Some (ErrWrap "failed to ensure image: " e))
  | None =>
      let! (id, err) := dcall (ContainerCreate c (containerConfig cfg) (hostConfig cfg)
                                 (cc_SessionID cfg)) ;;
      match err with
      | Some e => Ret ("", Some (ErrWrap "failed to create container: " e))
      | None => Ret (id, None)
      end
  end.

Definition startOperation (c : ctx) (containerID : string) : docker (option error) :=
  err <- dcall (ContainerStart c containerID) ;;
  match err with
  | Some e => Ret (Some (ErrWrap "failed to start container: " e))
  | None => Ret None
  end.

Definition StartContainer (c : ctx) (containerID : string) : docker (option error) :=
  err <- Retry startBackOff c (startOperation c containerID) ;;
  match err with
  | Some e => Ret (Some (ErrWrap "failed to start container after retries: " e))
  | None => Ret None
  end.

Definition StopContainer (c : ctx) (containerID : string) (timeoutSeconds : Z)
  : docker (option error) :=
  err <- dcall (ContainerStop c containerID timeoutSeconds) ;;
  match err with
  | Some e => Ret (Some (ErrWrap "failed to stop container: " e))
  | None =>
      ev <- dcall (ContainerWaitNotRunning c containerID) ;;
      match ev with
      | WaitStopped => Ret None
      | WaitErr (Some e) => Ret (Some (ErrWrap "error waiting for container to stop: " e))
      | WaitErr None => Ret (Some (ErrNew "error waiting for container to stop: %!w(<nil>)"))
      | WaitCtxDone e => Ret (Some e)
      end
  end.

Definition RemoveContainer (c : ctx) (containerID : string) (force : bool)
  : docker (option error) :=
  err <- dcall (ContainerRemove c containerID true force) ;;
  match err with
  | Some e => Ret (Some (ErrWrap "failed to remove container: " e))
  | None => Ret None
  end.

(** The SSH port that [InspectContainer] reads off the port bindings: 0 unless
    the first binding of the container's port 22 carries a number. *)
Definition inspected_port (ports : option (option (gmap string (list PortBinding)))) : Z :=
  match ports with
  | Some (Some m) =>
      match m !! "22/tcp" with
      | Some (b :: _) => default 0 (atoi (HostPort b))
      | _ => 0
      end
  | _ => 0
  end.

(** The zero value that accompanies an error. *)
Definition no_info : ContainerInfo := MkContainerInfo "" 0 "" "".

Definition InspectContainer (c : ctx) (containerID : string)
  : docker (ContainerInfo * option error) :=
  let! (inspect, err) := dcall (ContainerInspect c containerID) ;;
  match err with
  | Some e => Ret (no_info, Some (ErrWrap "failed to inspect container: " e))
  | None =>
      let sshPort := inspected_port (js_Ports inspect) in
      match js_base inspect with
      | None => Panic "invalid memory address or nil pointer dereference"
      | Some base =>
          let health := match js_State base with
                        | Some st => default "" (st_Health st)
                        | None => "" end in
          let state := match js_State base with Some st => st_Status st | None => "" end in
          Ret (MkContainerInfo (js_ID base) sshPort state health, None)
      end
  end.

(** The service behind its interface: one method per operation. *)
Definition docker_service (o : svc_op) : docker (svc_res o) :=
  match o return docker (svc_res o) with
  | svc_CreateContainer c cfg => CreateContainer c cfg
  | svc_StartContainer c id => StartContainer c id
  | svc_StopContainer c id t => StopContainer c id t
  | svc_RemoveContainer c id force => RemoveContainer c id force
  | svc_InspectContainer c id => InspectContainer c id
  end.

(** The service itself, around a handle of the Docker SDK's client ([None] is nil). *)
Record DockerService : Type := MkDockerService { ds_cli : option nat }.

(** [cli] is what [client.NewClientWithOpts] returns. *)
Definition NewDockerService (cli : nat + error) : option DockerService * option error :=
  match cli with
  | inr e => (None, Some (ErrWrap "failed to create docker client: " e))
  | inl cli => (Some (MkDockerService (Some cli)), None)
  end.
Definition NewDockerServiceWithClient (cli : option nat) : DockerService := MkDockerService cli.

Definition DockerService_Close (s : DockerService) : docker (option error) :=
  match ds_cli s with
  | Some _ => dcall ClientClose
  | None => Ret None
  end.

End Service.

(** ** The retry loop

    What [backoff.Retry] documents: the operation runs at least once, and again
    after each failure, with waits in between, until it succeeds or the policy
    or the context says stop. *)
Section Retried.
Context {S : Type} `{E : !Environment DockerClient}.
Implicit Types w : world DockerClient S.

Inductive retried (o : prog DockerClient S (option error)) :
  world DockerClient S -> option error -> world DockerClient S -> Prop :=
| retried_ok w w' :
    run o w = (Done None, w') -> retried o w None w'
| retried_stop w w1 w' e e' :
    run o w = (Done (Some e), w1) -> local_step w1 w' -> mem w' = mem w1 ->
    retried o w (Some e') w'
| retried_again w w1 w2 w' e r :
    run o w = (Done (Some e), w1) -> local_step w1 w2 -> mem w2 = mem w1 ->
    retried o w2 r w' -> retried o w r w'.

End Retried.

Class RetrySpec {S : Type} `{E : !Environment DockerClient}
    (Retry : BackOff -> ctx -> prog DockerClient S (option error) ->
             prog DockerClient S (option error)) : Prop :=
  retry_spec : forall b c o w,
    (forall w, exists r w', run o w = (Done r, w')) ->
    exists r w', run (Retry b c o) w = (Done r, w') /\ retried o w r w'.

(** A loop with that behaviour: at most [n + 1] attempts, the initial interval
    apart, and no attempt once the context has ended. *)
Fixpoint retry_times {S} (n : nat) (b : BackOff) (c : ctx)
    (o : prog DockerClient S (option error)) : prog DockerClient S (option error) :=
  (err <- o ;;
   match err, n with
   | None, _ => Ret None
   | Some e, O => Ret (Some e)
   | Some e, Datatypes.S n =>
       done <- eff1 (CtxErr c) ;;
       match done with
       | Some e' => Ret (Some e')
       | None => eff1 (Sleep (bo_InitialInterval b)) ;;; retry_times n b c o
       end
   end)%go.

#[export] Instance retry_times_spec {S} `{E : !Environment DockerClient} n :
  RetrySpec (S := S) (retry_times n).
Proof.
  intros b c o w Ho. revert w. induction n as [|n IH]; intros w;
    destruct (Ho w) as ([e|] & w1 & H1); cbn [retry_times]; rewrite run_bind, H1;
    try (eexists _, _; split; [done|]; by constructor).
  - eexists _, _. split; [done|]. by eapply retried_stop.
  - rewrite run_bind, run_ctx_err. destruct (ctx_err c (advance w1)) as [e'|].
    + eexists _, _. split; [done|]. eapply retried_stop; [done|auto with go|by go_simpl].
    + rewrite run_bind, run_sleep.
      destruct (IH (sleep (bo_InitialInterval b) (advance w1))) as (r & w' & Hr & Hre).
      eexists r, w'. split; [done|].
      eapply retried_again; [done| | |done]; [|by go_simpl].
      transitivity (advance w1); auto with go.
Qed.

(** ** Runs of the methods *)

Section Runs.
Context {S : Type} `{E : !Environment DockerClient}.
Implicit Types w : world DockerClient S.

Notation "o ↦ r" := (made (Σ := DockerClient) o r) (at level 60).

(** The calls [ensureImage] makes and what it returns for them. *)
Inductive image_trace (c : ctx) (img : string) :
  list { o : op DockerClient & res DockerClient o } -> option error -> Prop :=
| image_present :
    image_trace c img [ImageInspect c img ↦ None] None
| image_pull_refused e0 rd e :
    image_trace c img [ImageInspect c img ↦ Some e0; ImagePull c img ↦ (rd, Some e)]
      (Some (ErrWrap ("failed to pull image " +:+ img +:+ ": ") e))
| image_pull_broken e0 rd e ec :
    image_trace c img [ImageInspect c img ↦ Some e0; ImagePull c img ↦ (rd, None);
                       ReaderCopyDiscard rd ↦ Some e; ReaderClose rd ↦ ec]
      (Some (ErrWrap ("error during image pull " +:+ img +:+ ": ") e))
| image_pulled e0 rd ec :
    image_trace c img [ImageInspect c img ↦ Some e0; ImagePull c img ↦ (rd, None);
                       ReaderCopyDiscard rd ↦ None; ReaderClose rd ↦ ec] None.

Lemma ensureImage_runs c img w :
  exists r tr w', run (ensureImage c img) w = (Done r, w') /\ makes_calls tr w w' /\
                  image_trace c img tr r.
Proof.
  unfold ensureImage. rewrite run_bind, run_call.
  pose proof (makes_calls_one (ImageInspect c img : op DockerClient) w) as H1.
  destruct (answer (Σ := DockerClient) (ImageInspect c img) w) as [e0|]; cycle 1.
  { eexists _, _, _. split; [done|]. split; [done|]. constructor. }
  set (w1 := called _ w) in *. rewrite run_bind, run_call.
  pose proof (makes_calls_call _ (ImagePull c img : op DockerClient) _ _ H1) as H2.
  destruct (answer (Σ := DockerClient) (ImagePull c img) w1) as [rd [e|]].
  { eexists _, _, _. split; [done|]. split; [done|]. constructor. }
  set (w2 := called _ w1) in *. rewrite run_deferring, run_bind, run_call.
  pose proof (makes_calls_call _ (ReaderCopyDiscard rd : op DockerClient) _ _ H2) as H3.
  set (w3 := called _ w2) in *.
  pose proof (makes_calls_call _ (ReaderClose rd : op DockerClient) _ _ H3) as H4.
  destruct (answer (Σ := DockerClient) (ReaderCopyDiscard rd) w2) as [e|];
    (eexists _, _, _; split; [done|]; split; [exact H4|]; constructor).
Qed.

(** The same for [CreateContainer]. *)
Inductive create_trace (c : ctx) (cfg : ContainerConfig) :
  list { o : op DockerClient & res DockerClient o } -> string * option error -> Prop :=
| create_no_image tr e :
    image_trace c (cc_Image cfg) tr (Some e) ->
    create_trace c cfg tr ("", Some (ErrWrap "failed to ensure image: " e))
| create_refused tr id e :
    image_trace c (cc_Image cfg) tr None ->
    create_trace c cfg
      (tr ++ [ContainerCreate c (containerConfig cfg) (hostConfig cfg) (cc_SessionID cfg)
                ↦ (id, Some e)])
      ("", Some (ErrWrap "failed to create container: " e))
| create_done tr id :
    image_trace c (cc_Image cfg) tr None ->
    create_trace c cfg
      (tr ++ [ContainerCreate c (containerConfig cfg) (hostConfig cfg) (cc_SessionID cfg)
                ↦ (id, None)])
      (id, None).

Lemma CreateContainer_runs c cfg w :
  exists r tr w', run (CreateContainer c cfg) w = (Done r, w') /\ makes_calls tr w w' /\
    create_trace c cfg tr r.
Proof.
  unfold CreateContainer.
  destruct (ensureImage_runs c (cc_Image cfg) w) as (ri & tri & w1 & Hi & Hm & Ht).
  rewrite run_bind, Hi. destruct ri as [e|].
  { eexists _, tri, _. split; [done|]. split; [done|]. by constructor. }
  rewrite run_bind, run_call. set (o := ContainerCreate _ _ _ _).
  pose proof (makes_calls_call _ (o : op DockerClient) _ _ Hm) as H2.
  destruct (answer (Σ := DockerClient) o w1) as [id [e|]];
    (eexists _, _, _; split; [done|]; split; [exact H2|]; by constructor).
Qed.

Lemma startOperation_runs c id w :
  exists r, run (startOperation c id) w =
              (Done (ErrWrap "failed to start container: " <$> r), called (ContainerStart c id : op DockerClient) w) /\
            makes_calls [ContainerStart c id ↦ r] w (called (ContainerStart c id : op DockerClient) w).
Proof.
  exists (answer (ContainerStart c id : op DockerClient) w).
  split; [|apply makes_calls_one]. unfold startOperation. rewrite run_bind, run_call.
  by destruct (answer (Σ := DockerClient) (ContainerStart c id) w).
Qed.

(** A retried start: a call per attempt, all of them failures but possibly the
    last one, which decides the result. *)
Lemma retried_start c id w r w' :
  retried (startOperation c id) w r w' ->
  exists fails : list error,
    match r with
    | None => makes_calls (((fun e => ContainerStart c id ↦ Some e) <$> fails) ++
                           [ContainerStart c id ↦ None]) w w'
    | Some _ => fails <> [] /\
        makes_calls ((fun e => ContainerStart c id ↦ Some e) <$> fails) w w'
    end.
Proof.
  assert (Hfail : forall w w1 e, run (startOperation c id) w = (Done (Some e), w1) ->
            exists e0, makes_calls [ContainerStart c id ↦ Some e0] w w1).
  { intros w0 w1 e H. destruct (startOperation_runs c id w0) as ([e0|] & Hr & Hm);
      cbn [fmap option_fmap option_map] in Hr; rewrite Hr in H; [|done]. injection H as _ <-. eauto. }
  induction 1 as [w w' H|w w1 w' e e' H Hl Hm|w w1 w2 w' e r H Hl Hm Hr IH].
  - exists []. destruct (startOperation_runs c id w) as ([e0|] & Hr & Hm);
      cbn [fmap option_fmap option_map] in Hr; rewrite Hr in H; [done|]. by injection H as <-.
  - destruct (Hfail _ _ _ H) as [e0 H0]. exists [e0]. split; [done|].
    by eapply makes_calls_local.
  - destruct (Hfail _ _ _ H) as [e0 H0]. destruct IH as [fails IH].
    pose proof (makes_calls_local _ _ _ _ H0 Hl Hm) as H2. exists (e0 :: fails).
    destruct r as [e'|].
    + destruct IH as [_ IH]. split; [done|]. by apply (makes_calls_app [_] _ _ _ _ H2).
    + by apply (makes_calls_app [_] _ _ _ _ H2).
Qed.

End Runs.

(** ** Properties *)

(** C39: A rental container publishes its SSH port, and nothing else, on the
    host port that was asked for; a mining container publishes nothing, has no
    SSH password in its environment and keeps the entrypoint of its image.
    Both get their memory limit and, up to nine billion CPUs, a CPU limit that
    does not overflow. *)
Theorem container_configuration cfg :
  hc_Memory (hostConfig cfg) = cc_MemoryBytes cfg /\
  (0 <= cc_CPUCount cfg <= 9000000000 ->
     hc_NanoCPUs (hostConfig cfg) = cc_CPUCount cfg * 10 ^ 9) /\
  if cc_UseImageEntrypoint cfg
  then hc_PortBindings (hostConfig cfg) = None /\ cfg_ExposedPorts (containerConfig cfg) = None /\
       cfg_Entrypoint (containerConfig cfg) = [] /\
       Forall (fun v => HasPrefix v "SSH_PASSWORD=" = false) (cfg_Env (containerConfig cfg))
  else cfg_ExposedPorts (containerConfig cfg) = Some ["22/tcp"] /\
       ("SSH_PASSWORD=" +:+ cc_SSHPassword cfg) ∈ cfg_Env (containerConfig cfg) /\
       exists m, hc_PortBindings (hostConfig cfg) = Some m /\
         forall p b, m !! p = Some b <->
           p = "22/tcp" /\ b = [MkPortBinding "0.0.0.0" (itoa (cc_SSHPort cfg))].
Proof.
  split; [done|]. split.
  { intros H. apply int64_mul_small. unfold in_int64, min_int64, max_int64. lia. }
  unfold hostConfig, containerConfig, portBindings. cbn.
  destruct (cc_UseImageEntrypoint cfg); cbn.
  - repeat split; repeat constructor.
  - split; [done|]. split; [by left|]. eexists. split; [done|].
    intros p b. rewrite lookup_singleton_Some. split; intros [-> ->]; done.
Qed.

(** Which GPUs a container sees: the device that was asked for only when it
    is named by an index; a GPU or MIG UUID is replaced by [all], so that a
    rental of one GPU, and mining on another, see every GPU of the host. *)
Theorem visible_devices cfg :
  ("NVIDIA_VISIBLE_DEVICES=" +:+ gpuDevice cfg) ∈ cfg_Env (containerConfig cfg) /\
  (isGPUUUID (cc_GPUDeviceID cfg) = true -> gpuDevice cfg = "all") /\
  (isGPUUUID (cc_GPUDeviceID cfg) = false -> cc_GPUDeviceID cfg <> "" ->
   gpuDevice cfg = cc_GPUDeviceID cfg).
Proof.
  split; [|split].
  - unfold containerConfig. destruct (cc_UseImageEntrypoint cfg); cbn; set_solver.
  - intros H. unfold gpuDevice. by rewrite H, andb_false_r.
  - intros H Hne. unfold gpuDevice. rewrite H, (bool_decide_eq_true_2 (_ <> "")) by done.
    cbn. rewrite andb_true_r. by case_bool_decide as Ha; [|destruct (decide (cc_GPUDeviceID cfg = "all"))].
Qed.

Section Properties.
Context {S : Type} `{E : !Environment DockerClient}.
Context (Retry : BackOff -> ctx -> prog DockerClient S (option error) ->
                 prog DockerClient S (option error)) `{HR : !RetrySpec Retry}.
Implicit Types w : world DockerClient S.

Notation "o ↦ r" := (made (Σ := DockerClient) o r) (at level 60).

Lemma image_trace_no_create c img tr e c' config host name r :
  image_trace c img tr e -> ContainerCreate c' config host name ↦ r ∉ tr.
Proof.
  intros H Hin. destruct H;
    repeat (apply elem_of_cons in Hin as [Hin|Hin];
            [by apply (made_op (Σ := DockerClient)) in Hin|]);
    by apply elem_of_nil in Hin.
Qed.

(** C34: [CreateContainer] returns, touching nothing of the node's own, after
    one of the legal sequences of calls: the image is there, or it is pulled to
    the end and the stream closed, before the container is created; otherwise
    nothing is created.  It returns an identifier with no error exactly for the
    container that the daemon created, so no created container is lost. *)
Theorem CreateContainer_correct c cfg w :
  exists r tr w', run (CreateContainer c cfg) w = (Done r, w') /\ makes_calls tr w w' /\
    create_trace c cfg tr r /\
    forall id, ContainerCreate c (containerConfig cfg) (hostConfig cfg) (cc_SessionID cfg)
                 ↦ (id, None) ∈ tr <-> r = (id, None).
Proof.
  destruct (CreateContainer_runs c cfg w) as (r & tr & w' & Hr & Hm & Ht).
  exists r, tr, w'. do 3 (split; [done|]). intros id.
  destruct Ht as [tr e Hi|tr id' e Hi|tr id' Hi];
    [|rewrite elem_of_app, list_elem_of_singleton..]; split; try done.
  - intros H. by apply image_trace_no_create with (1 := Hi) in H.
  - intros [H|H]; [by apply image_trace_no_create with (1 := Hi) in H|].
    by apply (made_inj (Σ := DockerClient)) in H.
  - intros [H|H]; [by apply image_trace_no_create with (1 := Hi) in H|].
    apply (made_inj (Σ := DockerClient)) in H. congruence.
  - intros [= <-]. by right.
Qed.

(** [InspectContainer] returns or panics as the code does: an error of the
    client is wrapped; otherwise it reports the identifier, state and health
    the client answered, and when the client echoes the port bindings of a
    rental container, the very SSH port that [CreateContainer] asked for. *)
Theorem InspectContainer_correct c id w :
  exists w', makes_calls [ContainerInspect c id ↦ answer (ContainerInspect c id : op DockerClient) w] w w' /\
    match answer (Σ := DockerClient) (ContainerInspect c id) w with
    | (_, Some e) =>
        run (InspectContainer c id) w =
          (Done (no_info, Some (ErrWrap "failed to inspect container: " e)), w')
    | (js, None) =>
        match js_base js with
        | None => exists m, run (InspectContainer c id) w = (Panicked m, w')
        | Some base =>
            exists info, run (InspectContainer c id) w = (Done (info, None), w') /\
              ci_ContainerID info = js_ID base /\
              (forall st, js_State base = Some st ->
                 ci_State info = st_Status st /\ ci_Health info = default "" (st_Health st)) /\
              (forall cfg, cc_UseImageEntrypoint cfg = false -> in_int64 (cc_SSHPort cfg) ->
                 js_Ports js = Some (hc_PortBindings (hostConfig cfg)) ->
                 ci_SSHPort info = cc_SSHPort cfg)
        end
    end.
Proof.
  exists (called (ContainerInspect c id : op DockerClient) w). split; [apply makes_calls_one|].
  unfold InspectContainer. rewrite run_bind, run_call.
  destruct (answer (Σ := DockerClient) (ContainerInspect c id) w) as [js [e|]]; [done|].
  destruct (js_base js) as [base|]; [|by eexists].
  eexists. split; [done|]. cbn. split; [done|]. split.
  { by intros st ->. }
  intros cfg Hc Hp ->. unfold hostConfig, portBindings, hc_PortBindings.
  rewrite Hc. unfold inspected_port. rewrite lookup_singleton_eq.
  cbn [HostPort]. by rewrite atoi_itoa.
Qed.

(** [StartContainer] makes at least one start call and stops at the first
    that succeeds: it returns [nil] exactly when the last call succeeded, and a
    wrapped error after calls that all failed. *)
Theorem StartContainer_correct c id w :
  exists r fails w', run (StartContainer Retry c id) w = (Done r, w') /\
    match r with
    | None => makes_calls (((fun e => ContainerStart c id ↦ Some e) <$> fails) ++
                           [ContainerStart c id ↦ None]) w w'
    | Some e => fails <> [] /\
        makes_calls ((fun e => ContainerStart c id ↦ Some e) <$> fails) w w' /\
        exists e', e = ErrWrap "failed to start container after retries: " e'
    end.
Proof.
  unfold StartContainer.
  destruct (retry_spec (Retry := Retry) startBackOff c (startOperation c id) w)
    as (r & w' & Hr & Hre).
  { intros w0. destruct (startOperation_runs c id w0) as (r & Hr & _). eauto. }
  apply retried_start in Hre as [fails Hf]. rewrite run_bind, Hr.
  destruct r as [e|]; (eexists _, fails, _; split; [done|]).
  - destruct Hf. split; [done|]. split; [done|]. by eexists.
  - done.
Qed.

(** [StopContainer] returns [nil] exactly when the daemon accepted the stop
    and the container was seen to stop; if the stop is refused it does not
    wait. *)
Theorem StopContainer_correct c id t w :
  exists r tr w', run (StopContainer c id t) w = (Done r, w') /\ makes_calls tr w w' /\
    (r = None <-> tr = [ContainerStop c id t ↦ None; ContainerWaitNotRunning c id ↦ WaitStopped]) /\
    (forall e, tr = [ContainerStop c id t ↦ Some e] ->
               r = Some (ErrWrap "failed to stop container: " e)).
Proof.
  unfold StopContainer. rewrite run_bind, run_call.
  pose proof (makes_calls_one (ContainerStop c id t : op DockerClient) w) as H1.
  destruct (answer (Σ := DockerClient) (ContainerStop c id t) w) as [e|].
  { eexists _, _, _. split; [done|]. split; [exact H1|]. split.
    - split; intros H; [done|]. by apply (f_equal length) in H.
    - intros e' H. apply cons_inj in H as [H _].
      apply (made_inj (Σ := DockerClient)) in H. by injection H as ->. }
  set (w1 := called _ w) in *. rewrite run_bind, run_call.
  pose proof (makes_calls_call _ (ContainerWaitNotRunning c id : op DockerClient) _ _ H1) as H2.
  assert (Hlen : forall (ev : wait_event) (r : option error) e,
    [ContainerStop c id t ↦ None] ++ [ContainerWaitNotRunning c id ↦ ev] =
      [ContainerStop c id t ↦ Some e] ->
    r = Some (ErrWrap "failed to stop container: " e)).
  { intros ev r e H. by apply (f_equal length) in H. }
  destruct (answer (Σ := DockerClient) (ContainerWaitNotRunning c id) w1) as [|[e|]|e];
    (eexists _, _, _; split; [done|]; split; [exact H2|]; split; [|by apply Hlen]; split; [done|]);
    intros H; try done; apply cons_inj in H as [_ H]; apply cons_inj in H as [H _];
    by apply (made_inj (Σ := DockerClient)) in H.
Qed.

End Properties.

(** ** The client of the tests

    [MockDockerClient] of [docker_test.go]: answers configured in advance, the
    start errors consumed one by one and the last one repeated.  It makes the
    statements above concrete. *)

Record MockDockerClient : Type := MkMockDockerClient {
  CreateResponse : string;
  CreateError : option error;
  StartErrors : list (option error);
  startCallIdx : nat;
  StopError : option error;
  RemoveError : option error;
  InspectResponse : ContainerJSON;
  InspectError : option error;
  WaitError : option error;
}.

Definition mock_ContainerStart (m : MockDockerClient) : option error * MockDockerClient :=
  match StartErrors m with
  | [] => (None, m)
  | errs =>
      match errs !! startCallIdx m with
      | Some e =>
          (e, MkMockDockerClient (CreateResponse m) (CreateError m) errs
                (Datatypes.S (startCallIdx m)) (StopError m) (RemoveError m)
                (InspectResponse m) (InspectError m) (WaitError m))
      | None => (default None (last errs), m)
      end
  end.

Definition mock_call (o : docker_op) (m : MockDockerClient) : docker_res o * MockDockerClient :=
  match o return docker_res o * MockDockerClient with
  | ContainerCreate _ _ _ _ => ((CreateResponse m, CreateError m), m)
  | ContainerStart _ _ => mock_ContainerStart m
  | ContainerStop _ _ _ => (StopError m, m)
  | ContainerRemove _ _ _ _ => (RemoveError m, m)
  | ContainerInspect _ _ => ((InspectResponse m, InspectError m), m)
  | ContainerWaitNotRunning _ _ =>
      (match WaitError m with None => WaitStopped | e => WaitErr e end, m)
  | ImageInspect _ _ => (None, m)
  | ImagePull _ _ => ((0%nat, None), m)
  | ReaderCopyDiscard _ => (None, m)
  | ReaderClose _ => (None, m)
  | ClientClose => (None, m)
  end.

Definition mock_env : Environment DockerClient := {|
  env_state := MockDockerClient;
  env_call (o : op DockerClient) _ m := mock_call o m;
  env_elapse m := (0%N, m);
  env_cancelled _ _ := false;
|}.

Definition mock_json (ports : option (gmap string (list PortBinding))) : ContainerJSON :=
  MkContainerJSON (Some (MkContainerJSONBase "container-123"
                           (Some (MkContainerState "running" (Some "healthy")))))
                  (Some ports).

Definition mock_cfg : ContainerConfig :=
  MkContainerConfig "session-abc" "nvidia/cuda:12.1-runtime-ubuntu22.04" "GPU-uuid-456"
    "testpass" 30001 (4 * 1024 * 1024 * 1024) 2 false.

Definition mock_client (starts : list (option error)) : MockDockerClient :=
  MkMockDockerClient "container-123" None starts 0 None None
    (mock_json (hc_PortBindings (hostConfig mock_cfg))) None None.

Definition mock_world (starts : list (option error)) : @world DockerClient unit mock_env :=
  @World DockerClient unit mock_env 0 (mock_client starts) ∅ tt [] [].

Lemma CreateContainer_correct_witness :
  exists r tr w', run (CreateContainer Background mock_cfg) (mock_world []) = (Done r, w') /\
    r = ("container-123", None) /\ calls w' = tr /\ length tr = 2%nat /\
    made (Σ := DockerClient) (ContainerCreate Background (containerConfig mock_cfg) (hostConfig mock_cfg)
            "session-abc") ("container-123", None) ∈ tr.
Proof.
  destruct (CreateContainer_correct Background mock_cfg (mock_world []))
    as (r & tr & w' & Hr & Hm & _ & Hin).
  assert (Hc : run (CreateContainer Background mock_cfg) (mock_world []) =
               (Done ("container-123", None),
                snd (run (CreateContainer Background mock_cfg) (mock_world [])))) by reflexivity.
  rewrite Hr in Hc. injection Hc as ->.
  eexists _, tr, _. split; [exact Hr|]. split; [done|].
  pose proof (mc_calls _ _ _ Hm) as Htr. split; [done|].
  split; [|by apply Hin].
  assert (Hl : length (@calls DockerClient unit mock_env
                         (snd (run (CreateContainer Background mock_cfg) (mock_world [])))) = 2%nat)
    by reflexivity.
  rewrite Hr in Hl. cbn [snd] in Hl. by rewrite Htr in Hl.
Defined.

Lemma InspectContainer_correct_witness :
  exists info w', run (InspectContainer Background "container-123") (mock_world []) =
    (Done (info, None), w') /\ ci_SSHPort info = 30001.
Proof.
  destruct (InspectContainer_correct Background "container-123" (mock_world []))
    as (w' & _ & H).
  hnf in H. destruct H as (info & Hr & _ & _ & Hport).
  exists info, w'. split; [exact Hr|].
  apply (Hport mock_cfg); [reflexivity| |reflexivity]. by vm_compute.
Defined.

(** Two failures, then a success: three attempts. *)
Lemma StartContainer_correct_witness :
  exists r (fails : list error) w',
    run (StartContainer (retry_times 3) Background "container-123")
        (mock_world [Some (ErrNew "transient error 1"); Some (ErrNew "transient error 2"); None])
      = (Done r, w') /\ r = None /\ length (calls w') = (length fails + 1)%nat /\
    length (calls w') = 3%nat.
Proof.
  set (w := mock_world _).
  destruct (StartContainer_correct (E := mock_env) (retry_times 3) Background "container-123" w)
    as (r & fails & w' & Hr & H).
  assert (Hc : fst (run (StartContainer (retry_times 3) Background "container-123") w) = Done None)
    by reflexivity.
  assert (Hl : length (@calls DockerClient unit mock_env
                         (snd (run (StartContainer (retry_times 3) Background "container-123") w)))
               = 3%nat) by reflexivity.
  rewrite Hr in Hc, Hl. injection Hc as ->.
  exists None, fails, w'. split; [done|]. split; [done|]. split; [|done].
  rewrite (mc_calls _ _ _ H). cbn. by rewrite length_app, length_fmap.
Defined.

Lemma container_configuration_witness :
  cc_UseImageEntrypoint mock_cfg = false /\ hc_NanoCPUs (hostConfig mock_cfg) = 2 * 10 ^ 9.
Proof.
  split; [done|]. apply (container_configuration mock_cfg). by vm_compute.
Defined.

Lemma visible_devices_witness :
  isGPUUUID (cc_GPUDeviceID mock_cfg) = true /\ gpuDevice mock_cfg = "all".
Proof. split; [reflexivity|]. apply (visible_devices mock_cfg). reflexivity. Defined.

Lemma StopContainer_correct_witness :
  exists r tr w', run (StopContainer Background "container-123" 10) (mock_world []) = (Done r, w') /\
    r = None /\ tr = calls w' /\ length tr = 2%nat.
Proof.
  destruct (StopContainer_correct Background "container-123" 10 (mock_world []))
    as (r & tr & w' & Hr & Hm & Hiff & _).
  assert (Hc : fst (run (StopContainer Background "container-123" 10) (mock_world [])) = Done None)
    by reflexivity.
  rewrite Hr in Hc. injection Hc as ->.
  exists None, tr, w'. split; [exact Hr|]. split; [done|]. split; [by rewrite (mc_calls _ _ _ Hm)|].
  by rewrite (proj1 Hiff eq_refl).
Defined.
