(* ===== verification/Rental.v ===== *)
(** The rental executor ([internal/rental/executor.go]): the life of a rental
    from its start, through its stop, to the cleanup after the grace period,
    proved against the interfaces of the Docker service and the port manager. *)

From Stdlib Require Import ZArith Lia String.
From stdpp Require Import base numbers strings list gmap.
From S2P Require Import Prelude.
From S2P Require Import Effects.
From S2P Require Import Container.
From S2P Require Import Port.

(** ** Data *)

Definition ErrSessionAlreadyActive : error :=
  ErrSentinel "rental.ErrSessionAlreadyActive" "session already has active rental".
Definition ErrSessionNotFound : error :=
  ErrSentinel "rental.ErrSessionNotFound" "rental session not found".
Definition ErrContainerNotHealthy : error :=
  ErrSentinel "rental.ErrContainerNotHealthy" "container failed health check within timeout".

Record RentalState : Type := MkRentalState {
  rs_SessionID : string;
  rs_ContainerID : string;
  rs_SSHPort : Z;
  rs_StartedAt : Z;
  rs_StoppedAt : option Z;
}.

Record ConnectionInfo : Type := MkConnectionInfo {
  conn_Host : string;
  conn_Port : Z;
  conn_User : string;
  conn_Command : string;
  conn_ContainerID : string;
}.

Record StartRentalRequest : Type := MkStartRentalRequest {
  req_SessionID : string;
  req_Image : string;
  req_GPUDeviceID : string;
  req_SSHPassword : string;
  req_MemoryBytes : Z;
  req_CPUCount : Z;
  req_Host : string;
}.

Record RentalExecutor : Type := MkRentalExecutor {
  activeRentals : gmap string RentalState;
  re_gracePeriod : Z;
  healthTimeout : Z;
  healthInterval : Z;
}.

Definition NewRentalExecutor (gracePeriod : Z) : RentalExecutor :=
  MkRentalExecutor ∅ gracePeriod (60 * Second) (2 * Second).

Definition set_activeRentals (re : RentalExecutor) (m : gmap string RentalState) : RentalExecutor :=
  MkRentalExecutor m (re_gracePeriod re) (healthTimeout re) (healthInterval re).

Definition rental_mu : string := "RentalExecutor.mu".

(** What the executor needs of the port manager. *)
Class PortManagerInterface (S : Type) : Type := {
  pm_Allocate : string -> prog DockerServiceInterface S (Z * option error);
  pm_Release : Z -> prog DockerServiceInterface S (option error);
}.

(** ** Operations *)

Notation svc o := (call (Σ := DockerServiceInterface) o).

(** One poll's decision: [None] to keep polling, otherwise the result. *)
Definition health_verdict (info : ContainerInfo) : option (option error) :=
  let stopped :=
    if bool_decide (ci_State info = "exited") || bool_decide (ci_State info = "dead")
    then Some (Some (ErrNew ("container stopped during startup: state=" +:+ ci_State info)))
    else None in
  if bool_decide (ci_State info = "running") then
    if bool_decide (ci_Health info = "") || bool_decide (ci_Health info = "healthy") then Some None
    else if bool_decide (ci_Health info = "starting") then None
    else if bool_decide (ci_Health info = "unhealthy") then Some (Some ErrContainerNotHealthy)
    else stopped
  else stopped.

Section Operations.
Context {S : Type} `{!Field S RentalExecutor} `{!PortManagerInterface S}.
Local Open Scope go_scope.

Notation rental := (prog DockerServiceInterface S).

Fixpoint waitForHealth_loop (fuel : nat) (interval deadline : Z) (c : ctx) (containerID : string)
  : rental (option error) :=
  match fuel with
  | O => NoFuel
  | Datatypes.S fuel =>
      now <- eff1 Now ;;
      if time_after now deadline then Ret (Some ErrContainerNotHealthy) else
      done <- eff1 (CtxErr c) ;;
      match done with
      | Some e => Ret (Some e)
      | None =>
          let! (info, err) := svc (svc_InspectContainer c containerID) ;;
          match err with
          | Some e => Ret (Some (ErrWrap "failed to inspect container: " e))
          | None =>
              match health_verdict info with
              | Some r => Ret r
              | None =>
                  eff1 (Sleep interval) ;;;
                  waitForHealth_loop fuel interval deadline c containerID
              end
          end
      end
  end.

(** One poll per interval until the deadline, and the check that ends it. *)
Definition health_fuel (re : RentalExecutor) : nat :=
  Z.to_nat (healthTimeout re / healthInterval re + 2).

Definition waitForHealth (c : ctx) (containerID : string) : rental (option error) :=
  re <- load ;;
  now <- eff1 Now ;;
  let deadline := time_add now (healthTimeout re) in
  waitForHealth_loop (health_fuel re) (healthInterval re) deadline c containerID.

Definition cleanupOnError (containerID : string) (sshPort : Z) : rental unit :=
  (if bool_decide (containerID <> "") then
     _ <- svc (svc_RemoveContainer Background containerID true) ;; Ret tt
   else Ret tt) ;;;
  _ <- pm_Release sshPort ;; Ret tt.

Definition rental_config (req : StartRentalRequest) (sshPort : Z) : ContainerConfig :=
  {| cc_SessionID := req_SessionID req; cc_Image := req_Image req;
     cc_GPUDeviceID := req_GPUDeviceID req; cc_SSHPassword := req_SSHPassword req;
     cc_SSHPort := sshPort; cc_MemoryBytes := req_MemoryBytes req;
     cc_CPUCount := req_CPUCount req; cc_UseImageEntrypoint := false |}.

Definition connection_info (req : StartRentalRequest) (sshPort : Z) (containerID : string)
  : ConnectionInfo :=
  {| conn_Host := req_Host req; conn_Port := sshPort; conn_User := "ubuntu";
     conn_Command := "ssh -p " +:+ itoa sshPort +:+ " ubuntu@" +:+ req_Host req;
     conn_ContainerID := containerID |}.

(** From the created container on: start it, wait until it is healthy, and
    track the rental. *)
Definition StartRental_created (c : ctx) (req : StartRentalRequest) (sshPort : Z)
    (containerID : string) : rental (option ConnectionInfo * option error) :=
  err <- svc (svc_StartContainer c containerID) ;;
  match err with
  | Some e =>
      cleanupOnError containerID sshPort ;;;
      Ret (None, Some (ErrWrap "failed to start container: " e))
  | None =>
      err <- waitForHealth c containerID ;;
      match err with
      | Some e =>
          cleanupOnError containerID sshPort ;;;
          Ret (None, Some (ErrWrap "failed health check: " e))
      | None =>
          now <- eff1 Now ;;
          let state := MkRentalState (req_SessionID req) containerID sshPort now None in
          eff1 (Lock rental_mu) ;;;
          modify (fun re => set_activeRentals re
                              (<[req_SessionID req := state]> (activeRentals re))) ;;;
          eff1 (Unlock rental_mu) ;;;
          Ret (Some (connection_info req sshPort containerID), None)
      end
  end.

Definition StartRental (c : ctx) (req : StartRentalRequest)
  : rental (option ConnectionInfo * option error) :=
  eff1 (Lock rental_mu) ;;;
  re <- load ;;
  match activeRentals re !! req_SessionID req with
  | Some _ =>
      eff1 (Unlock rental_mu) ;;;
      Ret (None, Some ErrSessionAlreadyActive)
  | None =>
      eff1 (Unlock rental_mu) ;;;
      let! (sshPort, err) := pm_Allocate (req_SessionID req) ;;
      match err with
      | Some e => Ret (None, Some (ErrWrap "failed to allocate port: " e))
      | None =>
          let! (containerID, err) :=
            svc (svc_CreateContainer c (rental_config req sshPort)) ;;
          match err with
          | Some e =>
              cleanupOnError containerID sshPort ;;;
              Ret (None, Some (ErrWrap "failed to create container: " e))
          | None => StartRental_created c req sshPort containerID
          end
      end
  end.

Definition scheduleCleanup (sessionID containerID : string) (sshPort : Z) : rental unit :=
  re <- load ;;
  eff1 (Sleep (re_gracePeriod re)) ;;;
  _ <- svc (svc_RemoveContainer Background containerID true) ;;
  _ <- pm_Release sshPort ;;
  eff1 (Lock rental_mu) ;;;
  modify (fun re => set_activeRentals re (delete sessionID (activeRentals re))) ;;;
  eff1 (Unlock rental_mu).

Definition stopped_state (state : RentalState) (now : Z) : RentalState :=
  MkRentalState (rs_SessionID state) (rs_ContainerID state) (rs_SSHPort state)
                (rs_StartedAt state) (Some now).

Definition StopRental (c : ctx) (sessionID : string) : rental (option error) :=
  eff1 (Lock rental_mu) ;;;
  re <- load ;;
  match activeRentals re !! sessionID with
  | None =>
      eff1 (Unlock rental_mu) ;;;
      Ret (Some ErrSessionNotFound)
  | Some state =>
      now <- eff1 Now ;;
      store (set_activeRentals re (<[sessionID := stopped_state state now]> (activeRentals re))) ;;;
      eff1 (Unlock rental_mu) ;;;
      err <- svc (svc_StopContainer c (rs_ContainerID state) 10) ;;
      match err with
      | Some e => Ret (Some (ErrWrap "failed to stop container: " e))
      | None =>
          spawn (scheduleCleanup sessionID (rs_ContainerID state) (rs_SSHPort state)) ;;;
          Ret None
      end
  end.

Definition GetRentalStatus (sessionID : string) : rental (option RentalState * option error) :=
  with_rlock rental_mu
    (re <- load ;;
     match activeRentals re !! sessionID with
     | None => Ret (None, Some ErrSessionNotFound)
     | Some state => Ret (Some state, None)
     end).

(** The order in which Go ranges over a map is unspecified; the one of
    [map_to_list] stands for it. *)
Definition ListActiveRentals : rental (list RentalState) :=
  with_rlock rental_mu
    (re <- load ;;
     Ret (snd <$> map_to_list (activeRentals re))).

End Operations.

(** ** What the executor relies on

    The promise of a port manager, in terms of which session holds which port:
    [Allocate] hands out a port nobody holds, [Release] takes a held port back,
    both under a mutex of their own and without touching the executor. *)
Class PortManagerSpec (S : Type) `{F : !Field S RentalExecutor} `{P : !PortManagerInterface S}
  : Type := {
  pm_mutex : string;
  pm_ready : S -> Prop;
  pm_held : S -> gmap Z string;
  pm_mutex_ne : pm_mutex <> rental_mu;
  pm_ready_set : forall (re : RentalExecutor) s, pm_ready s -> pm_ready (set re s);
  pm_held_set : forall (re : RentalExecutor) s, pm_held (set re s) = pm_held s;
  pm_Allocate_spec : forall (E : Environment DockerServiceInterface) sid
      (w : world DockerServiceInterface S),
    pm_ready (mem w) -> locks w !! pm_mutex = None ->
    exists r w', run (pm_Allocate sid) w = (Done r, w') /\ local_step w w' /\
      pm_ready (mem w') /\ get (T := RentalExecutor) (mem w') = get (mem w) /\
      match r with
      | (p, None) => pm_held (mem w) !! p = None /\
                     pm_held (mem w') = <[p := sid]> (pm_held (mem w))
      | (_, Some _) => pm_held (mem w') = pm_held (mem w)
      end;
  pm_Release_spec : forall (E : Environment DockerServiceInterface) p
      (w : world DockerServiceInterface S),
    pm_ready (mem w) -> locks w !! pm_mutex = None ->
    exists r w', run (pm_Release p) w = (Done r, w') /\ local_step w w' /\
      pm_ready (mem w') /\ get (T := RentalExecutor) (mem w') = get (mem w) /\
      match pm_held (mem w) !! p with
      | Some _ => r = None /\ pm_held (mem w') = delete p (pm_held (mem w))
      | None => (exists e, r = Some e) /\ pm_held (mem w') = pm_held (mem w)
      end;
}.

Section Runs.
Context {S : Type} `{E : !Environment DockerServiceInterface} `{F : !Field S RentalExecutor}
        `{P : !PortManagerInterface S} `{PS : !PortManagerSpec S}.
Implicit Types w : world DockerServiceInterface S.
Implicit Types tr : list { o : op DockerServiceInterface & res DockerServiceInterface o }.

Notation "o ↦ r" := (made (Σ := DockerServiceInterface) o r) (at level 60).

Definition re_of w : RentalExecutor := get (mem w).
Definition held_of w : gmap Z string := pm_held (mem w).

(** Both mutexes free, and the port manager well formed: how every operation
    finds the node and leaves it. *)
Record rental_ready w : Prop := {
  rr_rental : locks w !! rental_mu = None;
  rr_port : locks w !! pm_mutex = None;
  rr_ready : pm_ready (mem w);
}.

Lemma rental_ready_steps tr w w' :
  rental_ready w -> steps tr w w' -> pm_ready (mem w') -> rental_ready w'.
Proof. intros [] [Hl _ _ _] ?. by split; rewrite ?Hl. Qed.

(** Calls that create no container. *)
Definition no_create tr : Prop :=
  Forall (fun x => match projT1 x with svc_CreateContainer _ _ => False | _ => True end) tr.

Lemma no_create_not_in tr c cfg r : no_create tr -> svc_CreateContainer c cfg ↦ r ∉ tr.
Proof. intros H Hin. unfold no_create in H. rewrite Forall_forall in H. by apply H in Hin. Qed.

Lemma no_create_app tr1 tr2 : no_create (tr1 ++ tr2) <-> no_create tr1 /\ no_create tr2.
Proof. apply Forall_app. Qed.

(** *** Pieces *)

(** Releasing a held port, whatever the executor does with the answer. *)
Lemma pm_Release_held p w sid :
  rental_ready w -> held_of w !! p = Some sid ->
  exists r w', run (pm_Release p) w = (Done r, w') /\ steps [] w w' /\ rental_ready w' /\
    re_of w' = re_of w /\ held_of w' = delete p (held_of w).
Proof.
  intros Hr Hp. destruct (pm_Release_spec E p w) as (r & w' & Hrun & Hl & Hrd & Hre & Hh);
    [apply Hr..|].
  fold (held_of w) in Hh. rewrite Hp in Hh. destruct Hh as [-> Hh].
  exists None, w'. split; [done|]. split; [by auto with go|].
  split; [|done]. eapply rental_ready_steps; eauto with go.
Qed.

(** The cleanup of a failed start: the container, if there is one, is removed
    by force, and the port goes back. *)
Lemma cleanupOnError_runs id p w sid :
  rental_ready w -> held_of w !! p = Some sid ->
  exists tr w', run (cleanupOnError id p) w = (Done tt, w') /\ steps tr w w' /\
    rental_ready w' /\ re_of w' = re_of w /\ held_of w' = delete p (held_of w) /\
    no_create tr /\
    (tr = [] /\ id = "" \/
     exists r, tr = [svc_RemoveContainer Background id true ↦ r] /\ id <> "").
Proof.
  intros Hr Hp. unfold cleanupOnError. case_bool_decide as Hid.
  - rewrite !run_bind, run_call. cbn [run].
    set (w1 := called (Σ := DockerServiceInterface) _ w).
    assert (Hs : steps [svc_RemoveContainer Background id true ↦
                  answer (svc_RemoveContainer Background id true : op DockerServiceInterface) w] w w1)
      by apply steps_makes_calls, makes_calls_one.
    assert (Hm : mem w1 = mem w) by (unfold w1; by go_simpl).
    destruct (pm_Release_held p w1 sid) as (r & w' & Hrun & Hst & Hr' & Hre & Hh).
    { eapply rental_ready_steps; [done..|]. rewrite Hm. apply Hr. }
    { unfold held_of. by rewrite Hm. }
    rewrite run_bind, Hrun. eexists _, w'. split; [done|].
    split; [eapply steps_app; [exact Hs|exact Hst]|]. unfold re_of, held_of in *.
    rewrite Hm in Hre, Hh. split; [done|]. split; [done|]. split; [done|].
    split; [by repeat constructor|]. right. cbn. eauto.
  - subst id. rewrite run_bind. cbn [run].
    destruct (pm_Release_held p w sid) as (r & w' & Hrun & Hst & Hr' & Hre & Hh); [done..|].
    rewrite run_bind, Hrun. eexists [], w'. split; [done|].
    repeat (split; [done|]). split; [constructor|]. by left.
Qed.

(** *** The health check *)

Definition polled (c : ctx) (id : string) (info : ContainerInfo) :=
  svc_InspectContainer c id ↦ (info, None).

(** Polls that were inconclusive, and then: the deadline or the end of the
    context, a failed inspection, or an answer that decides. *)
Inductive health_trace (c : ctx) (id : string) :
  list { o : op DockerServiceInterface & res DockerServiceInterface o } -> option error -> Prop :=
| ht_timeout pend :
    Forall (fun i => health_verdict i = None) pend ->
    health_trace c id (polled c id <$> pend) (Some ErrContainerNotHealthy)
| ht_ctx pend e :
    Forall (fun i => health_verdict i = None) pend ->
    e = context_Canceled \/ e = context_DeadlineExceeded ->
    health_trace c id (polled c id <$> pend) (Some e)
| ht_inspect pend i e :
    Forall (fun i => health_verdict i = None) pend ->
    health_trace c id ((polled c id <$> pend) ++ [svc_InspectContainer c id ↦ (i, Some e)])
      (Some (ErrWrap "failed to inspect container: " e))
| ht_verdict pend i r :
    Forall (fun i => health_verdict i = None) pend -> health_verdict i = Some r ->
    health_trace c id ((polled c id <$> pend) ++ [polled c id i]) r.

Lemma health_trace_cons c id i tr r :
  health_verdict i = None -> health_trace c id tr r -> health_trace c id (polled c id i :: tr) r.
Proof.
  intros Hi H. destruct H as [pend Hp|pend e Hp He|pend j e Hp|pend j r Hp Hj].
  - apply (ht_timeout c id (i :: pend)). by constructor.
  - apply (ht_ctx c id (i :: pend)); [by constructor|done].
  - apply (ht_inspect c id (i :: pend)). by constructor.
  - apply (ht_verdict c id (i :: pend)); [by constructor|done].
Qed.

Lemma health_trace_no_create c id tr r : health_trace c id tr r -> no_create tr.
Proof.
  assert (Hp : forall pend, no_create (polled c id <$> pend)).
  { intros pend. apply Forall_fmap, Forall_true. by intros. }
  destruct 1; rewrite ?no_create_app; auto; split; auto; by repeat constructor.
Qed.

Lemma ctx_err_some c w e :
  ctx_err c w = Some e -> e = context_Canceled \/ e = context_DeadlineExceeded.
Proof.
  unfold ctx_err. destruct c as [|t|i]; [done| |].
  - destruct (t <=? clk w); [|done]. intros [= <-]. by right.
  - destruct (env_cancelled i (env w)); [|done]. intros [= <-]. by left.
Qed.

(** The loop ends within its fuel, because every further poll comes at least an
    interval later and the deadline does not move. *)
Lemma waitForHealth_loop_runs fuel interval deadline c id w :
  0 < interval -> deadline < clk w + interval * (Z.of_nat fuel - 1) -> (0 < fuel)%nat ->
  exists r tr w', run (waitForHealth_loop fuel interval deadline c id) w = (Done r, w') /\
    makes_calls tr w w' /\ health_trace c id tr r /\ (length tr < fuel)%nat.
Proof.
  intros Hi. revert w. induction fuel as [|fuel IH]; intros w Hd Hf; [lia|].
  cbn [waitForHealth_loop]. rewrite run_bind, run_now. unfold time_after.
  assert (H1 : makes_calls [] w (advance w)) by (apply makes_calls_nil; [auto with go|by go_simpl]).
  destruct (Z.ltb_spec deadline (clk (advance w))) as [Ht|Ht].
  { eexists _, [], _. split; [done|]. split; [done|].
    split; [by apply (ht_timeout c id [])|cbn; lia]. }
  assert (Hfuel : (0 < fuel)%nat).
  { destruct fuel; [|lia]. pose proof (advance_clk w). lia. }
  rewrite run_bind, run_ctx_err. set (w1 := advance (advance w)).
  assert (H2 : makes_calls [] w w1).
  { eapply makes_calls_local; [done|unfold w1; auto with go|unfold w1; by go_simpl]. }
  destruct (ctx_err c w1) as [e|] eqn:Hc.
  { eexists _, [], _. split; [done|]. split; [done|].
    split; [apply (ht_ctx c id []); [done|by eapply ctx_err_some]|cbn; lia]. }
  rewrite run_bind, run_call. set (o := svc_InspectContainer c id).
  pose proof (makes_calls_call _ (o : op DockerServiceInterface) _ _ H2) as H3. cbn [app] in H3.
  destruct (answer (Σ := DockerServiceInterface) o w1) as [info [e|]].
  { eexists _, _, _. split; [done|]. split; [exact H3|].
    split; [by apply (ht_inspect c id [])|cbn; lia]. }
  set (w2 := called _ w1) in *. destruct (health_verdict info) as [r|] eqn:Hv.
  { eexists _, _, _. split; [done|]. split; [exact H3|].
    split; [by apply (ht_verdict c id [])|cbn; lia]. }
  rewrite run_bind, run_sleep. set (w3 := sleep interval w2).
  assert (H4 : makes_calls [polled c id info] w w3).
  { eapply makes_calls_local; [done|unfold w3; auto with go|unfold w3; by go_simpl]. }
  destruct (IH w3) as (r & tr & w' & Hr & Hm & Hh & Hl).
  { pose proof (mc_clk _ _ _ H3). pose proof (sleep_clk interval w2). unfold w3. lia. }
  { done. }
  exists r, (polled c id info :: tr), w'. split; [done|].
  split; [by apply (makes_calls_app [_] _ _ _ _ H4)|].
  split; [by apply health_trace_cons|by apply (proj1 (Nat.succ_lt_mono _ _))].
Qed.

Lemma waitForHealth_runs c id w :
  0 < healthInterval (re_of w) -> 0 <= healthTimeout (re_of w) ->
  exists r tr w', run (waitForHealth c id) w = (Done r, w') /\
    makes_calls tr w w' /\ health_trace c id tr r /\
    Z.of_nat (length tr) <= healthTimeout (re_of w) / healthInterval (re_of w) + 1.
Proof.
  intros Hi Ht. unfold waitForHealth. rewrite run_bind. cbn [load eff1 run do_eff].
  rewrite set_mem_mem, run_bind, run_now. fold (re_of w).
  assert (Hq : 0 <= healthTimeout (re_of w) / healthInterval (re_of w)) by (apply Z.div_pos; lia).
  destruct (waitForHealth_loop_runs (health_fuel (re_of w)) (healthInterval (re_of w))
              (time_add (clk (advance w)) (healthTimeout (re_of w))) c id (advance w))
    as (r & tr & w' & Hr & Hm & Hh & Hl); [done| | |].
  - unfold health_fuel, time_add. rewrite Z2Nat.id by lia.
    pose proof (Z.mul_succ_div_gt (healthTimeout (re_of w)) (healthInterval (re_of w))). nia.
  - unfold health_fuel. lia.
  - exists r, tr, w'. split; [done|]. split; [|split; [done|]].
    + apply (makes_calls_app [] _ _ (advance w)); [|done].
      apply makes_calls_nil; [auto with go|by go_simpl].
    + unfold health_fuel in Hl. lia.
Qed.

(** *** Starting a rental *)

Lemma locks_restored w m : locks w !! m = None -> delete m (<[m := Locked]> (locks w)) = locks w.
Proof. apply delete_insert_free. Qed.

(** A critical section of the executor that updates its state. *)
Lemma run_rental_modify (f : RentalExecutor -> RentalExecutor) w :
  rental_ready w ->
  run (eff1 (Lock rental_mu) ;;; modify f ;;; eff1 (Unlock rental_mu))%go w =
    (Done tt, set_mem (set (f (re_of w)) (mem w)) w).
Proof.
  intros [Hl _ _]. unfold modify. rewrite run_bind, run_lock by done. cbn [bind eff1 run do_eff].
  rewrite locks_set_mem, locks_set_locks, lookup_insert_eq, locks_restored by done.
  by rewrite set_locks_set_mem, set_locks_set_locks, !mem_set_locks, set_locks_locks.
Qed.

Lemma run_rental_update {A} (f : RentalExecutor -> RentalExecutor) (a : A) w :
  rental_ready w ->
  run (eff1 (Lock rental_mu) ;;; modify f ;;; eff1 (Unlock rental_mu) ;;; Ret a)%go w =
    (Done a, set_mem (set (f (re_of w)) (mem w)) w).
Proof.
  intros Hr.
  change (run (bind (eff1 (Lock rental_mu) ;;; modify f ;;; eff1 (Unlock rental_mu))
                    (fun _ => Ret a))%go w =
          (Done a, set_mem (set (f (re_of w)) (mem w)) w)).
  by rewrite run_bind, run_rental_modify.
Qed.

Lemma re_of_set_mem re w w1 : re_of (set_mem (set re (mem w)) w1) = re.
Proof. unfold re_of. by rewrite mem_set_mem, get_set. Qed.

Lemma held_of_set_mem re w w1 : held_of (set_mem (set re (mem w)) w1) = held_of w.
Proof. unfold held_of. by rewrite mem_set_mem, pm_held_set. Qed.

Lemma rental_ready_set_mem re w : rental_ready w -> rental_ready (set_mem (set re (mem w)) w).
Proof. intros [? ? ?]. split; try done. rewrite mem_set_mem. by apply pm_ready_set. Qed.

Lemma makes_calls_ready tr w w' :
  makes_calls tr w w' -> rental_ready w -> rental_ready w' /\ re_of w' = re_of w /\ held_of w' = held_of w.
Proof.
  intros [Hm Hl _ _ _] [? ? ?]. unfold re_of, held_of. rewrite Hm.
  split; [|done]. by split; rewrite ?Hl, ?Hm.
Qed.

Definition track (req : StartRentalRequest) (id : string) (p t : Z) (re : RentalExecutor)
  : RentalExecutor :=
  set_activeRentals re
    (<[req_SessionID req := MkRentalState (req_SessionID req) id p t None]> (activeRentals re)).

(** A container that is up: it was started, and the last poll found it running
    and healthy, or running without a health check. *)
Definition came_up (c : ctx) (id : string) tr : Prop :=
  svc_StartContainer c id ↦ None ∈ tr /\
  exists info, last tr = Some (polled c id info) /\ health_verdict info = Some None.

Lemma health_trace_ok c id tr :
  health_trace c id tr None ->
  exists info, last tr = Some (polled c id info) /\ health_verdict info = Some None.
Proof.
  intros H. inversion H as [| | |pend i r Hp Hi]; subst. exists i. by rewrite last_snoc.
Qed.

(** The created container is started and watched; a failure undoes the port and
    the container, a success tracks the rental. *)
Lemma StartRental_created_runs c req p id w sid :
  rental_ready w -> held_of w !! p = Some sid ->
  0 < healthInterval (re_of w) -> 0 <= healthTimeout (re_of w) ->
  exists r tr w', run (StartRental_created c req p id) w = (Done r, w') /\ steps tr w w' /\
    rental_ready w' /\ no_create tr /\
    match r with
    | (None, Some e) =>
        re_of w' = re_of w /\ held_of w' = delete p (held_of w) /\
        (id <> "" -> exists r, svc_RemoveContainer Background id true ↦ r ∈ tr)
    | (Some ci, None) =>
        ci = connection_info req p id /\ held_of w' = held_of w /\ came_up c id tr /\
        exists t, clk w <= t <= clk w' /\ re_of w' = track req id p t (re_of w)
    | _ => False
    end.
Proof.
  intros Hr Hp Hi Ht. unfold StartRental_created. rewrite run_bind, run_call.
  set (o := svc_StartContainer c id).
  pose proof (makes_calls_one (o : op DockerServiceInterface) w) as H1.
  set (w1 := called _ w) in *.
  destruct (makes_calls_ready _ _ _ H1 Hr) as (Hr1 & Hre1 & Hh1).
  assert (Hfail : forall w2 tr (e : error), no_create tr -> steps tr w w2 -> rental_ready w2 -> re_of w2 = re_of w ->
    held_of w2 = held_of w ->
    exists (r : option ConnectionInfo * option error) tr' w',
      run (cleanupOnError id p ;;; Ret (None, Some e))%go w2 = (Done r, w') /\
      steps tr' w w' /\ rental_ready w' /\ no_create tr' /\ r = (None, Some e) /\ re_of w' = re_of w /\ held_of w' = delete p (held_of w) /\
      (id <> "" -> exists r, svc_RemoveContainer Background id true ↦ r ∈ tr')).
  { intros w2 tr e Hn Hs2 Hr2 Hre2 Hh2.
    destruct (cleanupOnError_runs id p w2 sid) as (tr' & w' & Hrun & Hs & Hr' & Hre & Hh & Hn' & Htr);
      [done|by rewrite Hh2|].
    rewrite run_bind, Hrun. eexists _, (tr ++ tr'), w'. split; [done|].
    split; [by eapply steps_app|]. split; [done|]. split; [by apply no_create_app|].
    split; [done|]. rewrite Hre, Hh, Hre2, Hh2. split; [done|]. split; [done|]. intros Hid.
    destruct Htr as [[-> ?]|(r & -> & _)]; [done|]. exists r. set_solver. }
  destruct (answer (Σ := DockerServiceInterface) o w) as [e|].
  { destruct (Hfail w1 [o ↦ Some e] (ErrWrap "failed to start container: " e))
      as (r & tr & w' & Hrun & ? & ? & ? & -> & ?);
      [by repeat constructor|by apply steps_makes_calls|done..|].
    rewrite Hrun. eexists _, tr, w'. eauto. }
  destruct (waitForHealth_runs c id w1) as (rh & trh & w2 & Hh & Hm2 & Htr & _);
    [by rewrite Hre1..|].
  pose proof (makes_calls_app _ _ _ _ _ H1 Hm2) as H2.
  destruct (makes_calls_ready _ _ _ H2 Hr) as (Hr2 & Hre2 & Hh2).
  rewrite run_bind, Hh. destruct rh as [e|].
  { destruct (Hfail w2 ([o ↦ None] ++ trh) (ErrWrap "failed health check: " e))
      as (r & tr & w' & Hrun & ? & ? & ? & -> & ?);
      [by constructor; [|eapply health_trace_no_create]|by apply steps_makes_calls|done..|].
    rewrite Hrun. eexists _, tr, w'. eauto. }
  rewrite run_bind, run_now. set (w3 := advance w2).
  assert (H3 : makes_calls ([o ↦ None] ++ trh) w w3).
  { eapply makes_calls_local; [exact H2|unfold w3; auto with go|unfold w3; by go_simpl]. }
  destruct (makes_calls_ready _ _ _ H3 Hr) as (Hr3 & Hre3 & Hh3).
  rewrite run_rental_update by done.
  eexists _, ([o ↦ None] ++ trh), _. split; [done|]. split.
  { eapply steps_then_local; [by apply steps_makes_calls|]. auto with go. }
  split; [by apply rental_ready_set_mem|].
  split; [by constructor; [|eapply health_trace_no_create]|]. split; [done|].
  split; [by rewrite held_of_set_mem|]. split.
  - split; [set_solver|]. destruct (health_trace_ok _ _ _ Htr) as (info & Hl & Hv).
    exists info. split; [|done]. by rewrite last_app, Hl.
  - exists (clk w3). split; [|by rewrite re_of_set_mem, Hre3].
    split; [apply H3|]. by go_simpl.
Qed.

(** A session that is already tracked is refused before anything is done. *)
Lemma StartRental_duplicate_runs c req w st :
  rental_ready w -> activeRentals (re_of w) !! req_SessionID req = Some st ->
  run (StartRental c req) w = (Done (None, Some ErrSessionAlreadyActive), w).
Proof.
  intros [Hl _ _] Hd. unfold StartRental. rewrite run_bind, run_lock by done.
  cbn [bind load eff1 run do_eff]. rewrite mem_set_locks. fold (re_of w). rewrite Hd.
  cbn [bind load eff1 run do_eff]. rewrite locks_set_mem, locks_set_locks, lookup_insert_eq.
  rewrite locks_restored by done. cbn [bind run].
  by rewrite set_locks_set_mem, set_locks_set_locks, set_locks_locks, set_mem_mem.
Qed.

(** A session that is not: the check leaves no trace. *)
Lemma StartRental_check_runs c req w :
  rental_ready w -> activeRentals (re_of w) !! req_SessionID req = None ->
  run (StartRental c req) w =
  run (let! (sshPort, err) := pm_Allocate (req_SessionID req) ;;
       match err with
       | Some e => Ret (None, Some (ErrWrap "failed to allocate port: " e))
       | None =>
           let! (containerID, err) :=
             svc (svc_CreateContainer c (rental_config req sshPort)) ;;
           match err with
           | Some e =>
               cleanupOnError containerID sshPort ;;;
               Ret (None, Some (ErrWrap "failed to create container: " e))
           | None => StartRental_created c req sshPort containerID
           end
       end)%go w.
Proof.
  intros [Hl _ _] Hd. unfold StartRental. rewrite run_bind, run_lock by done.
  rewrite run_bind. cbn [load eff1 run do_eff]. rewrite mem_set_locks. fold (re_of w). rewrite Hd.
  rewrite run_bind, run_unlock by (rewrite locks_set_mem, locks_set_locks; apply lookup_insert_eq).
  rewrite locks_set_mem, locks_set_locks, locks_restored by done.
  by rewrite set_locks_set_mem, set_locks_set_locks, set_locks_locks, set_mem_mem.
Qed.

(** What [StartRental] leaves behind: everything as it was, and no container
    that was created without having been removed; or a new rental, on a port
    nobody held, whose container came up. *)
Definition start_result c req w (r : option ConnectionInfo * option error) tr w' : Prop :=
  match r with
  | (None, Some e) =>
      re_of w' = re_of w /\ held_of w' = held_of w /\
      forall cfg id, id <> "" -> svc_CreateContainer c cfg ↦ (id, None) ∈ tr ->
        exists r, svc_RemoveContainer Background id true ↦ r ∈ tr
  | (Some ci, None) =>
      activeRentals (re_of w) !! req_SessionID req = None /\
      exists p id t, ci = connection_info req p id /\
        held_of w !! p = None /\ held_of w' = <[p := req_SessionID req]> (held_of w) /\
        svc_CreateContainer c (rental_config req p) ↦ (id, None) ∈ tr /\ came_up c id tr /\
        clk w <= t <= clk w' /\ re_of w' = track req id p t (re_of w)
  | _ => False
  end.

Lemma StartRental_runs c req w :
  rental_ready w -> 0 < healthInterval (re_of w) -> 0 <= healthTimeout (re_of w) ->
  exists r tr w', run (StartRental c req) w = (Done r, w') /\ steps tr w w' /\
    rental_ready w' /\ start_result c req w r tr w'.
Proof.
  intros Hr Hi Ht. destruct (activeRentals (re_of w) !! req_SessionID req) as [st|] eqn:Hd.
  { exists (None, Some ErrSessionAlreadyActive), [], w.
    split; [by eapply StartRental_duplicate_runs|]. split; [auto with go|]. split; [done|].
    split; [done|]. split; [done|]. by intros cfg id _ ?%elem_of_nil. }
  rewrite StartRental_check_runs by done. rewrite run_bind.
  destruct (pm_Allocate_spec E (req_SessionID req) w) as ([p err] & w1 & Hrun & Hl & Hrd & Hre & Hh);
    [apply Hr..|].
  rewrite Hrun. fold (held_of w) (held_of w1) in Hh. fold (re_of w) (re_of w1) in Hre.
  assert (Hs1 : steps [] w w1) by auto with go.
  assert (Hr1 : rental_ready w1) by by eapply rental_ready_steps.
  destruct err as [e|].
  { eexists _, [], w1. split; [done|]. split; [done|]. split; [done|].
    split; [done|]. split; [done|]. by intros cfg id _ ?%elem_of_nil. }
  destruct Hh as [Hfree Hh]. rewrite run_bind, run_call.
  set (o := svc_CreateContainer c (rental_config req p)).
  pose proof (makes_calls_one (o : op DockerServiceInterface) w1) as H2.
  destruct (makes_calls_ready _ _ _ H2 Hr1) as (Hr2 & Hre2 & Hh2).
  pose proof (steps_app _ _ _ _ _ Hs1 (steps_makes_calls _ _ _ H2)) as Hs2. cbn [app] in Hs2.
  set (w2 := called _ w1) in *.
  assert (Hp2 : held_of w2 !! p = Some (req_SessionID req))
    by (rewrite Hh2, Hh; apply lookup_insert_eq).
  assert (Hundo : delete p (held_of w2) = held_of w)
    by (rewrite Hh2, Hh; by apply delete_insert_id).
  destruct (answer (Σ := DockerServiceInterface) o w1) as [id [e|]].
  - destruct (cleanupOnError_runs id p w2 _ Hr2 Hp2)
      as (tr & w' & Hc & Hs & Hr' & Hre' & Hh' & Hn & Htr).
    rewrite run_bind, Hc. eexists _, _, w'. split; [done|].
    split; [eapply steps_app; [exact Hs2|exact Hs]|]. split; [done|].
    split; [congruence|]. split; [congruence|].
    intros cfg id' _ Hin. apply elem_of_cons in Hin as [Hin|Hin].
    + pose proof (made_op (Σ := DockerServiceInterface) _ _ _ _ Hin) as [= ->].
      by apply (made_inj (Σ := DockerServiceInterface)) in Hin.
    + by apply no_create_not_in in Hin.
  - destruct (StartRental_created_runs c req p id w2 _ Hr2 Hp2)
      as (r & tr & w' & Hc & Hs & Hr' & Hn & Hres); [by rewrite Hre2, Hre..|].
    rewrite Hc. eexists r, _, w'. split; [done|].
    split; [eapply steps_app; [exact Hs2|exact Hs]|]. split; [done|].
    destruct r as [[ci|] [e|]]; try done.
    + destruct Hres as (-> & Hh' & [Hst (info & Hlast & Hv)] & t & Htime & Hre').
      split; [done|]. exists p, id, t. split; [done|]. split; [done|].
      split; [congruence|]. split; [by left|]. split.
      { split; [by right|]. exists info. split; [|done]. by rewrite last_app, Hlast. }
      split; [pose proof (st_clk _ _ _ Hs2); lia|]. congruence.
    + destruct Hres as (Hre' & Hh' & Hrem). split; [congruence|]. split; [congruence|].
      intros cfg id' Hne Hin. apply elem_of_cons in Hin as [Hin|Hin].
      * pose proof (made_op (Σ := DockerServiceInterface) _ _ _ _ Hin) as [= ->].
        apply (made_inj (Σ := DockerServiceInterface)) in Hin. injection Hin as ->.
        destruct (Hrem Hne) as [x Hx]. exists x. by right.
      * by apply no_create_not_in in Hin.
Qed.

(** *** Stopping a rental, and the cleanup *)

Lemma StopRental_not_found c sid w :
  rental_ready w -> activeRentals (re_of w) !! sid = None ->
  run (StopRental c sid) w = (Done (Some ErrSessionNotFound), w).
Proof.
  intros [Hl _ _] Hd. unfold StopRental. rewrite run_bind, run_lock by done.
  cbn [bind load eff1 run do_eff]. rewrite mem_set_locks. fold (re_of w). rewrite Hd.
  cbn [bind load eff1 run do_eff]. rewrite locks_set_mem, locks_set_locks, lookup_insert_eq.
  rewrite locks_restored by done. cbn [bind run].
  by rewrite set_locks_set_mem, set_locks_set_locks, set_locks_locks, set_mem_mem.
Qed.

(** The mark that [StopRental] leaves on the rental before it stops the
    container. *)
Definition mark_stopped (sid : string) (st : RentalState) (now : Z) (re : RentalExecutor)
  : RentalExecutor :=
  set_activeRentals re (<[sid := stopped_state st now]> (activeRentals re)).

Definition stop_marked sid st w : world DockerServiceInterface S :=
  set_mem (set (mark_stopped sid st (clk (advance w)) (re_of w)) (mem w)) (advance w).

Lemma StopRental_found c sid st w :
  rental_ready w -> activeRentals (re_of w) !! sid = Some st ->
  let o := svc_StopContainer c (rs_ContainerID st) 10 in
  let w1 := stop_marked sid st w in
  run (StopRental c sid) w =
    match answer (Σ := DockerServiceInterface) o w1 with
    | Some e => (Done (Some (ErrWrap "failed to stop container: " e)), called o w1)
    | None =>
        (Done None, add_go (scheduleCleanup sid (rs_ContainerID st) (rs_SSHPort st)) (called o w1))
    end.
Proof.
  intros [Hl _ _] Hd o w1. unfold StopRental. rewrite run_bind, run_lock by done.
  rewrite run_bind. cbn [load eff1 run do_eff]. rewrite mem_set_locks. fold (re_of w). rewrite Hd.
  rewrite run_bind, run_now, run_bind. cbn [store eff1 run do_eff].
  autorewrite with go_eqs.
  rewrite run_bind, run_unlock
    by (rewrite locks_set_mem, locks_set_locks; apply lookup_insert_eq).
  rewrite locks_set_mem, locks_set_locks, locks_restored by done.
  rewrite set_locks_set_mem, set_locks_set_locks, (set_locks_id (locks w)) by by go_simpl.
  change (set_mem _ (advance w)) with w1. rewrite run_bind, run_call. fold o.
  by destruct (answer (Σ := DockerServiceInterface) o w1).
Qed.

Lemma stop_marked_steps sid st w :
  rental_ready w ->
  steps [] w (stop_marked sid st w) /\ rental_ready (stop_marked sid st w) /\
  held_of (stop_marked sid st w) = held_of w /\
  re_of (stop_marked sid st w) = mark_stopped sid st (clk (advance w)) (re_of w).
Proof.
  intros Hr. assert (Hs : steps [] w (stop_marked sid st w))
    by (apply steps_local; unfold stop_marked; auto with go).
  split; [done|]. split.
  { eapply rental_ready_steps; [done..|]. unfold stop_marked. rewrite mem_set_mem.
    apply pm_ready_set, Hr. }
  unfold stop_marked. by rewrite held_of_set_mem, re_of_set_mem.
Qed.

(** [StopRental] as a whole. *)
Lemma StopRental_runs c sid w :
  rental_ready w ->
  exists r tr w', run (StopRental c sid) w = (Done r, w') /\ rental_ready w' /\
    locks w' = locks w /\ calls w' = calls w ++ tr /\ clk w <= clk w' /\ held_of w' = held_of w /\
    match activeRentals (re_of w) !! sid with
    | None => r = Some ErrSessionNotFound /\ tr = [] /\ w' = w
    | Some st =>
        (exists now, clk w <= now <= clk w' /\ re_of w' = mark_stopped sid st now (re_of w)) /\
        exists x, tr = [svc_StopContainer c (rs_ContainerID st) 10 ↦ x] /\
          match x with
          | Some e => r = Some (ErrWrap "failed to stop container: " e) /\ gos w' = gos w
          | None => r = None /\
              gos w' = gos w ++ [scheduleCleanup sid (rs_ContainerID st) (rs_SSHPort st)]
          end
    end.
Proof.
  intros Hr. destruct (activeRentals (re_of w) !! sid) as [st|] eqn:Hst; cycle 1.
  { rewrite StopRental_not_found by done. eexists _, [], w. rewrite app_nil_r. by auto 10. }
  rewrite (StopRental_found c sid st w Hr Hst).
  destruct (stop_marked_steps sid st w Hr) as (Hs & Hr1 & Hh1 & Hre1).
  set (w1 := stop_marked sid st w) in *. set (o := svc_StopContainer c (rs_ContainerID st) 10).
  pose proof (makes_calls_one (o : op DockerServiceInterface) w1) as Hm.
  destruct (makes_calls_ready _ _ _ Hm Hr1) as (Hr2 & Hre2 & Hh2).
  pose proof (steps_app _ _ _ _ _ Hs (steps_makes_calls _ _ _ Hm)) as H2. cbn [app] in H2.
  set (w2 := called _ w1) in *.
  assert (Hnow : exists now, clk w <= now <= clk w2 /\ re_of w2 = mark_stopped sid st now (re_of w)).
  { exists (clk (advance w)). split; [|by rewrite Hre2, Hre1].
    split; [apply advance_clk|]. etransitivity; [|apply called_clk]. done. }
  assert (Hheld : held_of w2 = held_of w) by congruence. destruct H2 as [Hl Hg Hc Ht].
  destruct (answer (Σ := DockerServiceInterface) o w1) as [e|].
  - eexists _, _, w2. do 6 (split; [done|]). split; [done|]. exists (Some e). auto.
  - eexists _, _, (add_go _ w2). split; [done|]. split; [by destruct Hr2|]. do 4 (split; [done|]).
    split; [done|]. exists None. split; [done|]. split; [done|]. rewrite gos_add_go. by rewrite Hg.
Qed.

Definition untrack (sid : string) (re : RentalExecutor) : RentalExecutor :=
  set_activeRentals re (delete sid (activeRentals re)).

Lemma scheduleCleanup_runs sid id p w :
  rental_ready w ->
  exists x w', run (scheduleCleanup sid id p) w = (Done tt, w') /\
    steps [svc_RemoveContainer Background id true ↦ x] w w' /\ rental_ready w' /\
    re_of w' = untrack sid (re_of w) /\ held_of w' = delete p (held_of w) /\
    clk w + Z.max 0 (re_gracePeriod (re_of w)) <= clk w'.
Proof.
  intros Hr. unfold scheduleCleanup. rewrite run_bind. cbn [load eff1 run do_eff].
  rewrite set_mem_mem, run_bind, run_sleep. fold (re_of w).
  set (w1 := sleep _ w). assert (Hs1 : steps [] w w1) by (unfold w1; auto with go).
  pose proof (sleep_clk (re_gracePeriod (re_of w)) w) as Hclk. fold w1 in Hclk.
  rewrite run_bind, run_call. set (o := svc_RemoveContainer _ _ _).
  pose proof (steps_call _ (o : op DockerServiceInterface) _ _ Hs1) as Hs2. cbn [app] in Hs2.
  set (w2 := called _ w1) in *.
  assert (Hm2 : mem w2 = mem w) by (unfold w2, w1; by go_simpl).
  assert (Hr2 : rental_ready w2)
    by (eapply rental_ready_steps; [done..|]; rewrite Hm2; apply Hr).
  destruct (pm_Release_spec E p w2) as (r & w3 & Hrun & Hl & Hrd & Hre & Hh); [apply Hr2..|].
  rewrite run_bind, Hrun.
  assert (Hr3 : rental_ready w3) by (eapply rental_ready_steps; eauto with go).
  assert (Hs3 : steps [o ↦ answer (o : op DockerServiceInterface) w1] w w3)
    by by eapply steps_then_local.
  exists (answer (o : op DockerServiceInterface) w1).
  eexists (set_mem (set (untrack sid (re_of w3)) (mem w3)) w3). split.
  { by apply (run_rental_modify (untrack sid)). }
  split; [eapply steps_then_local; [exact Hs3|auto with go]|].
  split; [by apply rental_ready_set_mem|]. split.
  { rewrite re_of_set_mem. unfold re_of. by rewrite Hre, Hm2. }
  split.
  { rewrite held_of_set_mem. unfold held_of. rewrite Hm2 in Hh.
    destruct (pm_held (mem w) !! p) eqn:Hp; [by destruct Hh as [_ ->]|].
    destruct Hh as [_ ->]. by rewrite delete_id. }
  go_simpl. pose proof (ls_clk _ _ Hl). pose proof (called_clk (o : op DockerServiceInterface) w1).
  fold w2 in H0. lia.
Qed.

Lemma GetRentalStatus_runs sid w :
  rental_ready w ->
  run (GetRentalStatus sid) w =
    (Done (match activeRentals (re_of w) !! sid with
           | Some st => (Some st, None)
           | None => (None, Some ErrSessionNotFound)
           end), w).
Proof.
  intros [Hl _ _]. apply run_with_rlock; [done| |done].
  go_simpl. fold (re_of w). destruct (activeRentals (re_of w) !! sid); go_done.
Qed.

Lemma ListActiveRentals_runs w :
  rental_ready w ->
  run ListActiveRentals w = (Done (snd <$> map_to_list (activeRentals (re_of w))), w).
Proof. intros [Hl _ _]. apply run_with_rlock; [done| |done]. go_done. Qed.

(** *** The invariant of the executor *)

(** Every tracked rental is filed under its own session, and its session holds
    its port; so no two rentals share one. *)
Definition rental_inv w : Prop :=
  forall sid st, activeRentals (re_of w) !! sid = Some st ->
    rs_SessionID st = sid /\ held_of w !! rs_SSHPort st = Some sid.

Lemma rental_inv_quiet w w' :
  rental_inv w -> re_of w' = re_of w -> held_of w' = held_of w -> rental_inv w'.
Proof. unfold rental_inv. by intros H -> ->. Qed.

Lemma rental_inv_track req id p t w w' :
  rental_inv w -> held_of w !! p = None ->
  held_of w' = <[p := req_SessionID req]> (held_of w) -> re_of w' = track req id p t (re_of w) ->
  rental_inv w'.
Proof.
  intros Hinv Hp Hh Hre sid st. rewrite Hre, Hh. cbn [track activeRentals set_activeRentals].
  rewrite lookup_insert. case_decide as Hs.
  - intros [= <-]. cbn. rewrite lookup_insert_eq. by subst.
  - intros Hl. destruct (Hinv sid st Hl) as [? Hh']. split; [done|].
    rewrite lookup_insert_ne; [done|]. intros ->. congruence.
Qed.

Lemma rental_inv_mark sid st now w w' :
  rental_inv w -> activeRentals (re_of w) !! sid = Some st -> held_of w' = held_of w ->
  re_of w' = mark_stopped sid st now (re_of w) -> rental_inv w'.
Proof.
  intros Hinv Hst Hh Hre sid' st'. rewrite Hre, Hh.
  cbn [mark_stopped activeRentals set_activeRentals]. rewrite lookup_insert. case_decide.
  - subst. intros [= <-]. cbn. by apply Hinv.
  - apply Hinv.
Qed.

Lemma rental_inv_untrack sid p w w' :
  rental_inv w ->
  (forall st, activeRentals (re_of w) !! sid = Some st -> rs_SSHPort st = p) ->
  (forall sid', held_of w !! p = Some sid' -> sid' = sid) ->
  held_of w' = delete p (held_of w) -> re_of w' = untrack sid (re_of w) -> rental_inv w'.
Proof.
  intros Hinv Hst Hp Hh Hre sid' st'. rewrite Hre, Hh.
  cbn [untrack activeRentals set_activeRentals]. rewrite lookup_delete. case_decide as Hs; [done|].
  intros Hl. destruct (Hinv _ _ Hl) as [? Hh']. split; [done|].
  rewrite lookup_delete_ne; [done|]. intros ->. apply Hs. symmetry. by apply Hp.
Qed.

(** The goroutines that wait, replaced. *)
Definition set_gos (l : list (prog DockerServiceInterface S unit)) w : world DockerServiceInterface S :=
  World (clk w) (env w) (locks w) (mem w) l (calls w).

(** The executor's operations, one after the other, time passing in between.  The
    cleanups are the goroutines that the stops have started ([gos]), each run
    once, in any order, as it was started; next to the world, the sessions they
    are for.  A session is not stopped again while its cleanup waits. *)
Inductive rental_step : world DockerServiceInterface S * list string -> world DockerServiceInterface S * list string -> Prop :=
| step_start c req w sids r w' :
    run (StartRental c req) w = (Done r, w') -> rental_step (w, sids) (w', sids)
| step_stop c sid w sids r w' :
    sid ∉ sids -> run (StopRental c sid) w = (Done r, w') ->
    rental_step (w, sids) (w', if r is Some _ then sids else sids ++ [sid])
| step_cleanup sid sids1 sids2 cleanup gos1 gos2 w w' :
    gos w = gos1 ++ cleanup :: gos2 -> length gos1 = length sids1 ->
    run cleanup (set_gos (gos1 ++ gos2) w) = (Done tt, w') ->
    rental_step (w, sids1 ++ sid :: sids2) (w', sids1 ++ sids2)
| step_status sid w sids r w' :
    run (GetRentalStatus sid) w = (Done r, w') -> rental_step (w, sids) (w', sids)
| step_list w sids r w' :
    run ListActiveRentals w = (Done r, w') -> rental_step (w, sids) (w', sids)
| step_wait d w sids : rental_step (w, sids) (sleep d w, sids).

(** Ready, sane configuration, and the invariant. *)
Record rental_ok w : Prop := {
  ro_ready : rental_ready w;
  ro_interval : 0 < healthInterval (re_of w);
  ro_timeout : 0 <= healthTimeout (re_of w);
  ro_inv : rental_inv w;
}.

Lemma rental_ok_quiet w w' :
  rental_ok w -> rental_ready w' -> re_of w' = re_of w -> held_of w' = held_of w -> rental_ok w'.
Proof. intros [] ? Hre Hh. split; rewrite ?Hre; try done. by eapply rental_inv_quiet. Qed.

Lemma rental_ok_start c req w r w' :
  rental_ok w -> run (StartRental c req) w = (Done r, w') -> rental_ok w'.
Proof.
  intros Hok Hrun. pose proof Hok as [Hr Hi Ht Hinv].
  destruct (StartRental_runs c req w Hr Hi Ht) as (r' & tr & w1 & Hrun' & _ & Hr' & Hres).
  rewrite Hrun' in Hrun. injection Hrun as -> ->.
  destruct r as [[ci|] [e|]]; try done.
  - destruct Hres as (_ & p & id & t & _ & Hp & Hh & _ & _ & _ & Hre).
    split; rewrite ?Hre; try done. by eapply rental_inv_track.
  - destruct Hres as (Hre & Hh & _). by eapply rental_ok_quiet.
Qed.

Lemma rental_ok_stop c sid w r w' :
  rental_ok w -> run (StopRental c sid) w = (Done r, w') -> rental_ok w'.
Proof.
  intros Hok Hrun. pose proof Hok as [Hr Hi Ht Hinv].
  destruct (activeRentals (re_of w) !! sid) as [st|] eqn:Hst.
  - rewrite (StopRental_found c sid st w Hr Hst) in Hrun.
    destruct (stop_marked_steps sid st w Hr) as (Hs & Hr1 & Hh1 & Hre1).
    set (w1 := stop_marked sid st w) in *.
    set (o := svc_StopContainer c (rs_ContainerID st) 10) in *.
    assert (Hok1 : rental_ok (called (o : op DockerServiceInterface) w1)).
    { destruct (makes_calls_ready _ _ _ (makes_calls_one (o : op DockerServiceInterface) w1) Hr1)
        as (Hr2 & Hre2 & Hh2).
      split; rewrite ?Hre2, ?Hre1; try done.
      eapply rental_inv_mark; [done..|by rewrite Hh2|by rewrite Hre2]. }
    destruct (answer (Σ := DockerServiceInterface) o w1); injection Hrun as <- <-; [done|].
    destruct Hok1 as [[] ? ? ?]. by split; [split|..].
  - rewrite StopRental_not_found in Hrun by done. by injection Hrun as _ <-.
Qed.

(** The goroutine [g] is the cleanup of the rental that is tracked under [sid]. *)
Definition cleans (re : RentalExecutor) (sid : string) (g : prog DockerServiceInterface S unit) : Prop :=
  exists st, activeRentals re !! sid = Some st /\ g = scheduleCleanup sid (rs_ContainerID st) (rs_SSHPort st).

(** Every goroutine cleans the tracked rental of a session of its own. *)
Record rental_history (c : world DockerServiceInterface S * list string) : Prop := {
  rh_ok : rental_ok (fst c);
  rh_nodup : NoDup (snd c);
  rh_cleans : Forall2 (cleans (re_of (fst c))) (snd c) (gos (fst c));
}.

(** The rentals of the sessions that are waited for are still the same. *)
Definition keeps_rentals (sids : list string) (re re' : RentalExecutor) : Prop :=
  forall sid st, sid ∈ sids -> activeRentals re !! sid = Some st ->
    exists st', activeRentals re' !! sid = Some st' /\
      rs_ContainerID st' = rs_ContainerID st /\ rs_SSHPort st' = rs_SSHPort st.

Lemma cleans_kept sids re re' l :
  keeps_rentals sids re re' -> Forall2 (cleans re) sids l -> Forall2 (cleans re') sids l.
Proof.
  intros Hk Hl. apply Forall2_same_length_lookup in Hl as [Hlen Hl]. apply Forall2_same_length_lookup_2; [done|].
  intros i sid g Hi Hg. destruct (Hl i sid g Hi Hg) as (st & Hst & ->).
  destruct (Hk sid st) as (st' & Hst' & Hid & Hp); [by eapply list_elem_of_lookup_2|done|].
  exists st'. split; [done|]. by rewrite Hid, Hp.
Qed.

Lemma history_quiet w w' sids :
  rental_history (w, sids) -> rental_ready w' -> re_of w' = re_of w -> held_of w' = held_of w -> gos w' = gos w ->
  rental_history (w', sids).
Proof.
  intros [Hok Hnd Hc] Hr Hre Hh Hg. cbn [fst snd] in *.
  split; cbn [fst snd]; [by eapply rental_ok_quiet|done|by rewrite Hg, Hre].
Qed.

Lemma history_start c req w sids r w' :
  rental_history (w, sids) -> run (StartRental c req) w = (Done r, w') -> rental_history (w', sids).
Proof.
  intros [Hok Hnd Hc] Hrun. cbn [fst snd] in *. pose proof Hok as [Hr Hi Ht _].
  split; cbn [fst snd]; [by eapply rental_ok_start|done|].
  destruct (StartRental_runs c req w Hr Hi Ht) as (r' & tr & w1 & Hrun' & Hs & _ & Hres).
  rewrite Hrun' in Hrun. injection Hrun as -> ->. rewrite (st_gos _ _ _ Hs).
  eapply cleans_kept; [|exact Hc]. intros sid st Hin Hst.
  destruct r as [[ci|] [e|]]; try done; [|destruct Hres as (-> & _); by exists st].
  destruct Hres as (Hnew & p & id & t & _ & _ & _ & _ & _ & _ & ->). exists st. split; [|done].
  cbn [track activeRentals set_activeRentals]. rewrite lookup_insert_ne; [done|]. congruence.
Qed.

Lemma history_stop c sid w sids r w' :
  rental_history (w, sids) -> sid ∉ sids -> run (StopRental c sid) w = (Done r, w') ->
  rental_history (w', if r is Some _ then sids else sids ++ [sid]).
Proof.
  intros [Hok Hnd Hc] Hni Hrun. cbn [fst snd] in *. pose proof Hok as [Hr _ _ _].
  pose proof (rental_ok_stop _ _ _ _ _ Hok Hrun) as Hok'.
  destruct (StopRental_runs c sid w Hr) as (r' & tr & w1 & Hrun' & _ & _ & _ & _ & _ & Hres).
  rewrite Hrun' in Hrun. injection Hrun as -> ->.
  destruct (activeRentals (re_of w) !! sid) as [st|] eqn:Hst; cycle 1.
  { destruct Hres as (-> & _ & ->). by split. }
  destruct Hres as ((now & _ & Hre) & x & _ & Hx).
  assert (Hk : Forall2 (cleans (re_of w')) sids (gos w)).
  { eapply cleans_kept; [|exact Hc]. intros sid' st' Hin Hst'. exists st'. split; [|done].
    rewrite Hre. cbn [mark_stopped activeRentals set_activeRentals]. rewrite lookup_insert_ne; [done|]. by intros ->. }
  destruct x as [e|]; destruct Hx as [-> Hg]; split; cbn [fst snd]; rewrite ?Hg; try done.
  - apply stdpp.list_relations.list.NoDup_app. split; [done|]. split; [|apply NoDup_singleton].
    intros sid' Hin ->%list_elem_of_singleton. done.
  - apply Forall2_app; [done|]. constructor; [|done]. exists (stopped_state st now). split; [|done].
    rewrite Hre. cbn [mark_stopped activeRentals set_activeRentals]. apply lookup_insert_eq.
Qed.

Lemma history_cleanup sid sids1 sids2 g gos1 gos2 w w' :
  rental_history (w, sids1 ++ sid :: sids2) -> gos w = gos1 ++ g :: gos2 -> length gos1 = length sids1 ->
  run g (set_gos (gos1 ++ gos2) w) = (Done tt, w') -> rental_history (w', sids1 ++ sids2).
Proof.
  intros [[Hr Hi Ht Hinv] Hnd Hc] Hg Hlen Hrun. cbn [fst snd] in *. rewrite Hg in Hc.
  apply Forall2_app_inv in Hc as [Hc1 Hc2]; [|done]. apply Forall2_cons in Hc2 as [(st & Hst & ->) Hc2].
  assert (Hr0 : rental_ready (set_gos (gos1 ++ gos2) w)) by (split; apply Hr).
  destruct (scheduleCleanup_runs sid (rs_ContainerID st) (rs_SSHPort st) _ Hr0)
    as (x & w1 & Hrun' & Hs & Hr1 & Hre & Hh & _).
  rewrite Hrun' in Hrun. injection Hrun as ->.
  change (re_of (set_gos _ w)) with (re_of w) in Hre. change (held_of (set_gos _ w)) with (held_of w) in Hh.
  destruct (NoDup_middle _ _ _ Hnd) as [Hnd' Hni].
  split; cbn [fst snd]; [|done|].
  - split; rewrite ?Hre; try done. eapply rental_inv_untrack; [done| | |done|done].
    + intros st' Hst'. congruence.
    + intros sid' Hsid'. destruct (Hinv _ _ Hst) as [_ Hh']. congruence.
  - rewrite (st_gos _ _ _ Hs). cbn [set_gos gos]. eapply cleans_kept; [|by apply Forall2_app].
    intros sid' st' Hin Hst'. exists st'. split; [|done]. rewrite Hre.
    cbn [untrack activeRentals set_activeRentals]. rewrite lookup_delete_ne; [done|]. by intros ->.
Qed.

Lemma history_step c c' : rental_history c -> rental_step c c' -> rental_history c'.
Proof.
  intros H Hstep. destruct Hstep as [c req w sids r w' Hrun|c sid w sids r w' Hni Hrun
    |sid sids1 sids2 g gos1 gos2 w w' Hg Hlen Hrun|sid w sids r w' Hrun|w sids r w' Hrun|d w sids];
    pose proof (ro_ready _ (rh_ok _ H)) as Hr; cbn [fst] in Hr.
  - by eapply history_start.
  - by eapply history_stop.
  - by eapply history_cleanup.
  - rewrite GetRentalStatus_runs in Hrun by done. by injection Hrun as _ <-.
  - rewrite ListActiveRentals_runs in Hrun by done. by injection Hrun as _ <-.
  - eapply history_quiet; [done| |unfold re_of; by go_simpl|unfold held_of; by go_simpl|by go_simpl].
    eapply rental_ready_steps; [done|apply steps_local, local_step_sleep|]. go_simpl. apply Hr.
Qed.

End Runs.

(** ** The port manager behind the interface

    [port.PortManager] keeps the promise, in any memory where it does not
    overlap the executor. *)
Section PortManagerBehind.
Context {S : Type} `{FP : !Field S PortManager} `{FR : !Field S RentalExecutor}
        `{D : !Disjoint S PortManager RentalExecutor}.

#[export] Instance PortManager_interface : PortManagerInterface S :=
  {| pm_Allocate := Allocate; pm_Release := Release |}.

#[export] Instance PortManager_spec : PortManagerSpec S.
Proof.
  refine {| pm_mutex := port_mu;
            pm_ready s := pm_wf (get (T := PortManager) s);
            pm_held s := held (get (T := PortManager) s) |}.
  - done.
  - intros re s. by rewrite get_set_r.
  - intros re s. by rewrite get_set_r.
  - intros E sid w Hwf Hl. destruct (Allocate_runs sid w Hwf Hl) as (r & pm' & Hat & Hrun).
    eexists r, _. split; [done|]. split; [auto with go|]. rewrite mem_set_mem, get_set, get_set_l.
    destruct (allocate_at_held _ _ _ _ _ Hwf Hat) as [Hwf' Hh]. split; [done|]. split; [by go_simpl|].
    destruct r as [p [e|]]; [by subst pm'|done].
  - intros E p w Hwf Hl. destruct (Release_runs p w Hl) as (w' & Hrun & Hls & Hm & _).
    eexists _, w'. split; [done|]. split; [done|]. rewrite Hm, get_set, get_set_l.
    fold (pm_of w) in *. unfold held at 1. rewrite lookup_omap. unfold release_at.
    destruct (allocations (pm_of w) !! p) as [[sid t [t1|]]|] eqn:El; cbn.
    2: { split; [by eapply pm_wf_insert, wf_range|]. split; [done|].
         split; [done|]. apply held_insert. }
    all: split; [done|]; split; [done|]; split; [by eexists|done].
Defined.

End PortManagerBehind.

(** ** Properties *)

Section Properties.
Context {S : Type} `{E : !Environment DockerServiceInterface} `{F : !Field S RentalExecutor}
        `{P : !PortManagerInterface S} `{PS : !PortManagerSpec S}.
Implicit Types w : world DockerServiceInterface S.

Notation "o ↦ r" := (made (Σ := DockerServiceInterface) o r) (at level 60).

(** C3: [StartRental] always returns, with every mutex released and no goroutine
    left behind, and it is all or nothing: it returns connection details
    exactly when it returns no error; and after an error the executor and the
    set of held ports are what they were, and Docker has been asked to remove by
    force every container that was created.  (What it answers, [x], is not looked
    at: a container that could not be removed stays.) *)
Theorem StartRental_all_or_nothing c req w :
  rental_ready w -> 0 < healthInterval (re_of w) -> 0 <= healthTimeout (re_of w) ->
  exists r tr w', run (StartRental c req) w = (Done r, w') /\ steps tr w w' /\ rental_ready w' /\
    (snd r = None <-> is_Some (fst r)) /\
    forall e, snd r = Some e ->
      re_of w' = re_of w /\ held_of w' = held_of w /\
      forall cfg id, id <> "" -> svc_CreateContainer c cfg ↦ (id, None) ∈ tr ->
        exists x, svc_RemoveContainer Background id true ↦ x ∈ tr.
Proof.
  intros Hr Hi Ht.
  destruct (StartRental_runs c req w Hr Hi Ht) as (r & tr & w' & Hrun & Hs & Hr' & Hres).
  exists r, tr, w'. split; [done|]. split; [done|]. split; [done|].
  destruct r as [[ci|] [e|]]; try done; cbn.
  split; [split; [done|by intros []]|]. by intros e' [= <-].
Qed.

(** C22: When [StartRental] succeeds, the session was not tracked before; its
    container was created with the request's parameters on a port nobody held,
    was started and was found up at the last poll; from then on the session
    holds that port and is tracked with it, unstopped, and the returned details
    are those of that container and port. *)
Theorem StartRental_success c req w ci err w' :
  rental_ready w -> 0 < healthInterval (re_of w) -> 0 <= healthTimeout (re_of w) ->
  run (StartRental c req) w = (Done (Some ci, err), w') ->
  err = None /\ activeRentals (re_of w) !! req_SessionID req = None /\
  held_of w !! conn_Port ci = None /\
  held_of w' = <[conn_Port ci := req_SessionID req]> (held_of w) /\
  conn_Host ci = req_Host req /\ conn_User ci = "ubuntu" /\
  conn_Command ci = "ssh -p " +:+ itoa (conn_Port ci) +:+ " ubuntu@" +:+ req_Host req /\
  (exists t, clk w <= t <= clk w' /\
     activeRentals (re_of w') =
       <[req_SessionID req := MkRentalState (req_SessionID req) (conn_ContainerID ci)
                                (conn_Port ci) t None]> (activeRentals (re_of w))) /\
  exists tr, calls w' = calls w ++ tr /\ came_up c (conn_ContainerID ci) tr /\
    svc_CreateContainer c (rental_config req (conn_Port ci)) ↦ (conn_ContainerID ci, None) ∈ tr.
Proof.
  intros Hr Hi Ht Hrun.
  destruct (StartRental_runs c req w Hr Hi Ht) as (r & tr & w1 & Hrun' & Hs & _ & Hres).
  rewrite Hrun' in Hrun. injection Hrun as -> ->. destruct err as [e|]; [done|].
  destruct Hres as (Hd & p & id & t & -> & Hp & Hh & Hc & Hu & Ht' & Hre).
  repeat (split; [done|]). split.
  - exists t. split; [done|]. by rewrite Hre.
  - exists tr. split; [by apply Hs|]. by split.
Qed.

(** A session that is already tracked, stopped or not, is refused with
    [ErrSessionAlreadyActive]: no port is allocated, Docker is not called and
    nothing changes. *)
Theorem StartRental_rejects_duplicate c req w :
  rental_ready w -> is_Some (activeRentals (re_of w) !! req_SessionID req) ->
  run (StartRental c req) w = (Done (None, Some ErrSessionAlreadyActive), w).
Proof. intros Hr [st Hst]. by eapply StartRental_duplicate_runs. Qed.

(** C29: The health check ends: with a timeout of [T] and an interval of [I] it
    polls at most [T / I + 1] times, whatever the container does and however
    long a poll takes; it returns [nil] exactly after a poll that found the
    container running without a health check or healthy, and never after one
    that found it unhealthy, exited or dead. *)
Theorem waitForHealth_terminates c id w :
  0 < healthInterval (re_of w) -> 0 <= healthTimeout (re_of w) ->
  exists r tr w', run (waitForHealth c id) w = (Done r, w') /\ makes_calls tr w w' /\
    Z.of_nat (length tr) <= healthTimeout (re_of w) / healthInterval (re_of w) + 1 /\
    (r = None <-> exists pend info,
       tr = (polled c id <$> pend) ++ [polled c id info] /\
       Forall (fun i => health_verdict i = None) pend /\
       ci_State info = "running" /\ (ci_Health info = "" \/ ci_Health info = "healthy")).
Proof.
  intros Hi Ht. destruct (waitForHealth_runs c id w Hi Ht) as (r & tr & w' & Hr & Hm & Hh & Hl).
  exists r, tr, w'. split; [done|]. split; [done|]. split; [done|].
  assert (Hok : forall info, health_verdict info = Some None <->
     ci_State info = "running" /\ (ci_Health info = "" \/ ci_Health info = "healthy")).
  { intros info. unfold health_verdict. repeat case_bool_decide; cbn;
    intuition congruence. }
  assert (Hlast : forall pend info pend' info',
     (polled c id <$> pend) ++ [polled c id info] = (polled c id <$> pend') ++ [polled c id info'] ->
     info = info').
  { intros pend info pend' info' H. apply app_inj_2 in H as [_ H]; [|done].
    apply cons_inj in H as [H _]. apply (made_inj (Σ := DockerServiceInterface)) in H. congruence. }
  assert (Hpend : forall pend pend' info, Forall (fun i => health_verdict i = None) pend ->
     polled c id <$> pend = (polled c id <$> pend') ++ [polled c id info] ->
     health_verdict info = None).
  { intros pend pend' info Hp H.
    assert (Hin : polled c id info ∈ polled c id <$> pend) by (rewrite H; set_solver).
    apply list_elem_of_fmap in Hin as (i & Hi' & Hin).
    apply (made_inj (Σ := DockerServiceInterface)) in Hi'. injection Hi' as ->.
    rewrite Forall_forall in Hp. by apply Hp. }
  split.
  - intros ->. inversion Hh as [| | |pend i r' Hp Hv]; subst.
    exists pend, i. split; [done|]. split; [done|]. by apply Hok.
  - intros (pend & info & -> & _ & Hup). apply Hok in Hup.
    inversion Hh as [pend' Hp He|pend' e Hp ? He|pend' i e Hp He|pend' i r' Hp Hv He]; subst.
    + apply Hpend in He; [congruence|done].
    + apply Hpend in He; [congruence|done].
    + apply app_inj_2 in He as [_ He]; [|done]. apply cons_inj in He as [He _].
      by apply (made_inj (Σ := DockerServiceInterface)) in He.
    + apply Hlast in He. subst. congruence.
Qed.

(** C28: [StopRental] of an unknown session fails with [ErrSessionNotFound] and
    does nothing.  Otherwise the rental is stamped as stopped and its container
    is asked to stop, with ten seconds of grace: if that fails the rental stays
    tracked with the stamp, and nothing is scheduled; if it succeeds exactly one
    cleanup is started, for that rental.  The port stays held either way. *)
Theorem StopRental_correct c sid w :
  rental_ready w ->
  exists r w', run (StopRental c sid) w = (Done r, w') /\ rental_ready w' /\
    held_of w' = held_of w /\
    match activeRentals (re_of w) !! sid with
    | None => r = Some ErrSessionNotFound /\ w' = w
    | Some st =>
        (exists now, clk w <= now <= clk w' /\
           activeRentals (re_of w') = <[sid := stopped_state st now]> (activeRentals (re_of w))) /\
        exists x, calls w' = calls w ++ [svc_StopContainer c (rs_ContainerID st) 10 ↦ x] /\
          match x with
          | Some e => r = Some (ErrWrap "failed to stop container: " e) /\ gos w' = gos w
          | None => r = None /\
              gos w' = gos w ++ [scheduleCleanup sid (rs_ContainerID st) (rs_SSHPort st)]
          end
    end.
Proof.
  intros Hr. destruct (StopRental_runs c sid w Hr) as (r & tr & w' & Hrun & Hr' & _ & Hc & _ & Hh & H).
  exists r, w'. split; [done|]. split; [done|]. split; [done|].
  destruct (activeRentals (re_of w) !! sid) as [st|]; [|by destruct H as (-> & _ & ->)].
  destruct H as ((now & Ht & Hre) & x & -> & Hx). split; [|by eauto].
  exists now. split; [done|]. by rewrite Hre.
Qed.

(** C20: The life of a rental is a round trip.  If a rental is started and then
    stopped without error, a cleanup is pending; while it is, the session is
    still tracked and still holds its port; when it has run, no earlier than
    the grace period after the stop, Docker has been asked to remove its
    container and the executor and the held ports are what they were before the
    start (the port itself is given out again only after its own grace period). *)
Theorem rental_round_trip c c' req w ci w1 w2 :
  rental_ready w -> 0 < healthInterval (re_of w) -> 0 <= healthTimeout (re_of w) ->
  run (StartRental c req) w = (Done (Some ci, None), w1) ->
  run (StopRental c' (req_SessionID req)) w1 = (Done None, w2) ->
  held_of w2 !! conn_Port ci = Some (req_SessionID req) /\
  is_Some (activeRentals (re_of w2) !! req_SessionID req) /\
  exists cleanup x w3, gos w2 = gos w ++ [cleanup] /\ run cleanup w2 = (Done tt, w3) /\
    clk w2 + re_gracePeriod (re_of w) <= clk w3 /\
    calls w3 = calls w2 ++ [svc_RemoveContainer Background (conn_ContainerID ci) true ↦ x] /\
    activeRentals (re_of w3) = activeRentals (re_of w) /\ held_of w3 = held_of w.
Proof.
  intros Hr Hi Ht Hstart Hstop.
  destruct (StartRental_runs c req w Hr Hi Ht) as (r & tr & w1' & Hrun & Hs & Hr1 & Hres).
  rewrite Hrun in Hstart. injection Hstart as -> ->.
  destruct Hres as (Hd & p & id & t & -> & Hp & Hh & _ & _ & _ & Hre). cbn [conn_Port connection_info conn_ContainerID].
  set (st := MkRentalState (req_SessionID req) id p t None).
  assert (Hst : activeRentals (re_of w1) !! req_SessionID req = Some st)
    by (rewrite Hre; apply lookup_insert_eq).
  rewrite (StopRental_found c' _ st w1 Hr1 Hst) in Hstop.
  destruct (stop_marked_steps (req_SessionID req) st w1 Hr1) as (Hs2 & Hr2 & Hh2 & Hre2).
  set (wm := stop_marked _ st w1) in *. set (o := svc_StopContainer c' (rs_ContainerID st) 10) in *.
  pose proof (makes_calls_one (o : op DockerServiceInterface) wm) as Hm.
  destruct (makes_calls_ready _ _ _ Hm Hr2) as (Hr3 & Hre3 & Hh3).
  destruct (answer (Σ := DockerServiceInterface) o wm) as [e|]; [done|].
  injection Hstop as <-. set (w3 := called _ wm) in *.
  assert (Hr4 : rental_ready (add_go (scheduleCleanup (req_SessionID req) id p) w3))
    by by destruct Hr3.
  destruct (scheduleCleanup_runs (req_SessionID req) id p _ Hr4)
    as (x & w4 & Hrun4 & Hs4 & _ & Hre4 & Hh4 & Hclk).
  change (re_of (add_go _ w3)) with (re_of w3) in *.
  change (held_of (add_go _ w3)) with (held_of w3) in *.
  rewrite Hre3, Hre2, Hre in *. rewrite Hh3, Hh2, Hh in *.
  split; [apply lookup_insert_eq|]. split.
  { eexists. cbn [mark_stopped activeRentals set_activeRentals]. apply lookup_insert_eq. }
  exists (scheduleCleanup (req_SessionID req) id p), x, w4. split.
  { rewrite gos_add_go, (mc_gos _ _ _ Hm), (st_gos _ _ _ Hs2). by rewrite (st_gos _ _ _ Hs). }
  split; [done|]. split; [cbn in *; lia|]. split; [apply Hs4|].
  rewrite Hre4, Hh4. cbn [untrack mark_stopped track activeRentals set_activeRentals].
  by rewrite insert_insert_eq, !delete_insert_id.
Qed.

(** C19: Starts, stops, status queries, waiting, and the cleanups that the stops
    have started, each once and whenever it comes to it: over every sequence in
    which no session is stopped again before the cleanup of its last stop has
    run, each tracked rental's session holds its port, so that no two rentals
    share one; every cleanup that waits is the one of the rental that is tracked
    under its session; and no mutex is left locked.  (Stopping a session twice
    starts two cleanups with the same port, and the second one may release it
    from whoever holds it then.) *)
Theorem rental_ports_distinct w w' sids sid1 sid2 st1 st2 :
  rental_ready w -> 0 < healthInterval (re_of w) -> 0 <= healthTimeout (re_of w) ->
  activeRentals (re_of w) = ∅ -> gos w = [] ->
  rtc rental_step (w, []) (w', sids) ->
  activeRentals (re_of w') !! sid1 = Some st1 -> activeRentals (re_of w') !! sid2 = Some st2 ->
  rental_ready w' /\ held_of w' !! rs_SSHPort st1 = Some sid1 /\
  (rs_SSHPort st1 = rs_SSHPort st2 -> sid1 = sid2) /\
  (sid1 ∈ sids -> scheduleCleanup sid1 (rs_ContainerID st1) (rs_SSHPort st1) ∈ gos w') /\
  length (gos w') = length sids.
Proof.
  intros Hr Hi Ht He Hg Hsteps H1 H2.
  assert (Hok : rental_history (w, [])).
  { split; cbn [fst snd]; [|constructor|rewrite Hg; constructor]. split; try done. intros sid st. by rewrite He. }
  assert (Hok' : rental_history (w', sids)).
  { clear Hr Hi Ht He Hg H1 H2. induction Hsteps; eauto using history_step. }
  destruct Hok' as [[Hr' _ _ Hinv] _ Hc]. cbn [fst snd] in *.
  destruct (Hinv _ _ H1) as [_ Hh1]. destruct (Hinv _ _ H2) as [_ Hh2].
  split; [done|]. split; [done|]. split; [intros Hp; rewrite Hp in Hh1; congruence|]. split.
  - intros [i Hsi]%list_elem_of_lookup. destruct (Forall2_lookup_l _ _ _ _ _ Hc Hsi) as (g & Hgi & st & Hst & ->).
    replace st with st1 in Hgi by congruence. by eapply list_elem_of_lookup_2.
  - symmetry. by eapply Forall2_length.
Qed.

End Properties.

(** ** The services of the tests

    [MockDockerService] of [executor_test.go]: every operation succeeds unless
    told otherwise, and the container's state is a function of how often it has
    been inspected.  Together with the port manager it makes the statements
    above concrete. *)

Record MockDockerService : Type := MkMockDockerService {
  mock_createErr : option error;
  mock_startErr : option error;
  mock_stopErr : option error;
  mock_inspect : nat -> ContainerInfo;
}.

Definition mock_svc_call (m : MockDockerService) (o : svc_op) (n : nat) : svc_res o * nat :=
  match o return svc_res o * nat with
  | svc_CreateContainer _ _ =>
      (match mock_createErr m with None => ("container-123", None) | e => ("", e) end, n)
  | svc_StartContainer _ _ => (mock_startErr m, n)
  | svc_StopContainer _ _ _ => (mock_stopErr m, n)
  | svc_RemoveContainer _ _ _ => (None, n)
  | svc_InspectContainer _ _ => ((mock_inspect m n, None), Datatypes.S n)
  end.

Definition mock_svc_env (m : MockDockerService) : Environment DockerServiceInterface := {|
  env_state := nat;
  env_call (o : op DockerServiceInterface) _ n := mock_svc_call m o n;
  env_elapse n := (0%N, n);
  env_cancelled _ _ := false;
|}.

Definition healthy_info : ContainerInfo := MkContainerInfo "container-123" 30000 "running" "healthy".
Definition starting_info : ContainerInfo := MkContainerInfo "container-123" 30000 "running" "starting".

(** Two polls find the container starting, the third one healthy. *)
Definition mock_ok : MockDockerService :=
  MkMockDockerService None None None
    (fun n => if bool_decide (n < 2)%nat then starting_info else healthy_info).

Definition rental_mem : PortManager * RentalExecutor :=
  (NewPortManager 30000 32000 (30 * Minute), NewRentalExecutor (30 * Minute)).

Definition rental_world (m : MockDockerService)
  : @world DockerServiceInterface (PortManager * RentalExecutor) (mock_svc_env m) :=
  @World DockerServiceInterface _ (mock_svc_env m) 0 O ∅ rental_mem [] [].

Definition rental_req : StartRentalRequest :=
  MkStartRentalRequest "session-123" "nvidia/cuda:12.1-runtime-ubuntu22.04" "GPU-uuid-456"
    "pw" (8 * 1024 * 1024 * 1024) 4 "provider.example.com".

Definition rental_conn : ConnectionInfo := connection_info rental_req 30000 "container-123".

Lemma rental_world_ready m : rental_ready (rental_world m).
Proof.
  split; [done..|]. apply pm_wf_new; unfold in_int64, min_int64, max_int64, Minute, Second, Millisecond;
    lia.
Qed.

(** A start whose container cannot be started is undone. *)
Lemma StartRental_all_or_nothing_witness :
  let m := MkMockDockerService None (Some (ErrNew "start failed")) None (fun _ => healthy_info) in
  exists r w', run (StartRental Background rental_req) (rental_world m) = (Done r, w') /\
    snd r <> None /\ held_of w' = ∅ /\ activeRentals (re_of w') = ∅.
Proof.
  intros m.
  destruct (StartRental_all_or_nothing Background rental_req (rental_world m) (rental_world_ready m)
              ltac:(by vm_compute) ltac:(by vm_compute)) as (r & tr & w' & Hr & _ & _ & _ & Hf).
  exists r, w'. split; [done|].
  assert (He : match fst (run (StartRental Background rental_req) (rental_world m)) with
               | Done (_, Some _) => true | _ => false end = true) by by vm_compute.
  rewrite Hr in He. cbn in He. destruct r as [o [e|]]; [|done].
  destruct (Hf e eq_refl) as (Hre & Hh & _). split; [done|]. by rewrite Hh, Hre.
Defined.

Lemma StartRental_success_witness :
  exists w', run (StartRental Background rental_req) (rental_world mock_ok) =
    (Done (Some rental_conn, None), w') /\ held_of w' = {[ 30000 := "session-123" ]}.
Proof.
  assert (Hrun : run (StartRental Background rental_req) (rental_world mock_ok) =
    (Done (Some rental_conn, None),
     snd (run (StartRental Background rental_req) (rental_world mock_ok))))
    by (apply pair_fst; by vm_compute).
  eexists. split; [exact Hrun|].
  destruct (StartRental_success Background rental_req (rental_world mock_ok) rental_conn None _
              (rental_world_ready mock_ok) ltac:(by vm_compute) ltac:(by vm_compute) Hrun)
    as (_ & _ & _ & Hh & _).
  exact Hh.
Defined.

(** The world after that start. *)
Definition rental_world1 := snd (run (StartRental Background rental_req) (rental_world mock_ok)).

Lemma rental_world1_ready : rental_ready rental_world1.
Proof.
  destruct (StartRental_runs Background rental_req (rental_world mock_ok) (rental_world_ready mock_ok)
              ltac:(by vm_compute) ltac:(by vm_compute)) as (r & tr & w' & Hr & _ & Hrd & _).
  unfold rental_world1. by rewrite Hr.
Qed.

Lemma StartRental_rejects_duplicate_witness :
  run (StartRental Background rental_req) rental_world1 =
    (Done (None, Some ErrSessionAlreadyActive), rental_world1).
Proof.
  apply (StartRental_rejects_duplicate Background rental_req rental_world1 rental_world1_ready).
  vm_compute. eauto.
Defined.

Lemma waitForHealth_terminates_witness :
  exists r tr w', run (waitForHealth Background "container-123") (rental_world mock_ok) = (Done r, w') /\
    calls w' = tr /\ Z.of_nat (length tr) <= 31.
Proof.
  destruct (waitForHealth_terminates Background "container-123" (rental_world mock_ok)
              ltac:(by vm_compute) ltac:(by vm_compute)) as (r & tr & w' & Hr & Hm & Hl & _).
  exists r, tr, w'. split; [done|]. split; [apply Hm|]. exact Hl.
Defined.

Lemma StopRental_correct_witness :
  exists r w', run (StopRental Background "session-123") rental_world1 = (Done r, w') /\
    length (gos w') = 1%nat.
Proof.
  destruct (StopRental_correct Background "session-123" rental_world1 rental_world1_ready)
    as (r & w' & Hr & _ & _ & H).
  exists r, w'. split; [done|].
  assert (Hg : length (@gos DockerServiceInterface _ (mock_svc_env mock_ok)
                 (snd (run (StopRental Background "session-123") rental_world1))) = 1%nat)
    by by vm_compute.
  by rewrite Hr in Hg.
Defined.

Lemma rental_round_trip_witness :
  exists w2 cleanup w3,
    run (StopRental Background "session-123") rental_world1 = (Done None, w2) /\
    gos w2 = [cleanup] /\ run cleanup w2 = (Done tt, w3) /\
    activeRentals (re_of w3) = ∅ /\ held_of w3 = ∅ /\ 30 * Minute <= clk w3.
Proof.
  assert (Hstart : run (StartRental Background rental_req) (rental_world mock_ok) =
                   (Done (Some rental_conn, None), rental_world1))
    by (unfold rental_world1; apply pair_fst; by vm_compute).
  assert (Hstop : run (StopRental Background "session-123") rental_world1 =
    (Done None, snd (run (StopRental Background "session-123") rental_world1)))
    by (apply pair_fst; by vm_compute).
  destruct (rental_round_trip Background Background rental_req _ _ _ _ (rental_world_ready mock_ok)
              ltac:(by vm_compute) ltac:(by vm_compute) Hstart Hstop)
    as (_ & _ & cleanup & x & w3 & Hg & Hc & Hclk & _ & Ha & Hh).
  eexists _, cleanup, w3. split; [exact Hstop|]. split; [exact Hg|]. split; [exact Hc|].
  split; [rewrite Ha; by vm_compute|]. split; [rewrite Hh; by vm_compute|].
  etransitivity; [|exact Hclk]. by vm_compute.
Defined.

Lemma rental_ports_distinct_witness :
  let req2 := MkStartRentalRequest "session-456" "img" "" "pw" 1 1 "provider.example.com" in
  exists w' st1 st2, rtc rental_step (rental_world mock_ok, []) (w', ["session-123"]) /\
    activeRentals (re_of w') !! "session-123" = Some st1 /\
    activeRentals (re_of w') !! "session-456" = Some st2 /\
    held_of w' !! rs_SSHPort st1 = Some "session-123" /\ rs_SSHPort st1 <> rs_SSHPort st2.
Proof.
  intros req2.
  pose (w2 := snd (run (StartRental Background req2) rental_world1)).
  pose (w3 := snd (run (StopRental Background "session-123") w2)).
  assert (Hrun1 : run (StartRental Background rental_req) (rental_world mock_ok) =
    (Done (Some rental_conn, None), rental_world1))
    by (unfold rental_world1; apply pair_fst; by vm_compute).
  assert (Hrun2 : run (StartRental Background req2) rental_world1 =
    (Done (Some (connection_info req2 30001 "container-123"), None), w2))
    by (unfold w2; apply pair_fst; by vm_compute).
  assert (Hrun3 : run (StopRental Background "session-123") w2 = (Done None, w3))
    by (unfold w3; apply pair_fst; by vm_compute).
  assert (Hsteps : rtc rental_step (rental_world mock_ok, []) (w3, ["session-123"])).
  { eapply rtc_l; [exact (step_start _ _ _ [] _ _ Hrun1)|].
    eapply rtc_l; [exact (step_start _ _ _ [] _ _ Hrun2)|].
    apply rtc_once. refine (step_stop _ _ _ [] None _ _ Hrun3). by apply not_elem_of_nil. }
  destruct (activeRentals (re_of w3) !! "session-123") as [st1|] eqn:H1; [|by vm_compute in H1].
  destruct (activeRentals (re_of w3) !! "session-456") as [st2|] eqn:H2; [|by vm_compute in H2].
  destruct (rental_ports_distinct (rental_world mock_ok) w3 ["session-123"] "session-123" "session-456" st1 st2
              (rental_world_ready mock_ok) ltac:(by vm_compute) ltac:(by vm_compute) eq_refl eq_refl
              Hsteps H1 H2) as (_ & Hh & Hd & _).
  exists w3, st1, st2. split; [done|]. split; [done|]. split; [done|]. split; [done|].
  intros Heq. by apply Hd in Heq.
Defined.
