(* ===== verification/Refine.v ===== *)
(** Linking a component with the implementation of the interface it uses.

    The rental executor and the mining daemon are verified against
    [DockerServiceInterface], for every environment that answers it.  Here the
    operations of an interface are implemented by programs over another one
    ([interp]), and the linked program is shown to do exactly what the component
    does in one of those environments: the one that runs the implementation.
    [DockerService] over the Docker client is such an implementation. *)

From Stdlib Require Import ZArith Lia String.
From stdpp Require Import base numbers strings list gmap.
From S2P Require Import Prelude.
From S2P Require Import Effects.
From S2P Require Import Port.
From S2P Require Import Container.
From S2P Require Import Rental.

(** ** Programs without a state of their own

    They read the clock, sleep, poll a context and call; they neither look at
    nor change the memory, the mutexes and the goroutines. *)
Section Quiet.
Context {Σ : Signature} {S : Type} `{E : !Environment Σ}.
Implicit Types w : world Σ S.

Definition quiet_eff {X} (e : eff Σ S X) : Prop :=
  match e with
  | Now | Sleep _ | CtxErr _ | Call _ => True
  | _ => False
  end.

Fixpoint quiet {A} (p : prog Σ S A) : Prop :=
  match p with
  | Ret _ | Panic _ | NoFuel => True
  | Eff e k => quiet_eff e /\ forall x, quiet (k x)
  | Go _ _ => False
  end.

Lemma quiet_bind {A B} (p : prog Σ S A) (f : A -> prog Σ S B) :
  quiet p -> (forall a, quiet (f a)) -> quiet (bind p f).
Proof.
  intros Hp Hf. induction p as [A a|A m|A|A X e k IH|A c IHc k IH]; cbn in *; try done.
  destruct Hp. split; auto.
Qed.

Lemma quiet_deferring {A} (f : prog Σ S unit) (p : prog Σ S A) :
  quiet f -> quiet p -> quiet (deferring f p).
Proof.
  intros Hf Hp. induction p as [A a|A m|A|A X e k IH|A c IHc k IH]; cbn in *; try done.
  - by apply quiet_bind.
  - by apply quiet_bind.
  - destruct Hp. split; auto.
Qed.

(** What happened in [w1] on top of the state of [w0]. *)
Definition over w0 w1 : world Σ S :=
  World (clk w1) (env w1) (locks w0) (mem w0) (gos w0) (calls w0 ++ calls w1).
Definition blank (s : S) (t : Z) (e : env_state) : world Σ S := World t e ∅ s [] [].

Lemma over_blank s w : over w (blank s (clk w) (env w)) = w.
Proof. destruct w. unfold over; cbn. by rewrite app_nil_r. Qed.

Lemma over_advance w0 w1 : over w0 (advance w1) = advance (over w0 w1).
Proof. unfold advance, over; cbn. by destruct (env_elapse (env w1)). Qed.

Lemma run_quiet_over {A} (p : prog Σ S A) w0 w1 :
  quiet p -> run p (over w0 w1) = (fst (run p w1), over w0 (snd (run p w1))).
Proof.
  revert w1. induction p as [A a|A m|A|A X e k IH|A c IHc k IH]; intros w1 Hp; try done.
  destruct Hp as [He Hk]. destruct e; try done; cbn [run do_eff].
  - rewrite <- over_advance. by apply IH.
  - rewrite <- IH by done. f_equal. unfold sleep. by rewrite <- over_advance.
  - rewrite <- over_advance. by apply IH.
  - assert (Ha : answer o (over w0 w1) = answer o w1)
      by (unfold answer; by rewrite <- over_advance).
    assert (Hc : called o (over w0 w1) = over w0 (called o w1)).
    { unfold called. rewrite <- over_advance, Ha. unfold over; cbn. by rewrite app_assoc. }
    rewrite Ha, Hc. by apply IH.
Qed.

(** So its result and its effect on the outside depend on the clock and the
    environment only. *)
Lemma run_quiet {A} (p : prog Σ S A) s w :
  quiet p ->
  run p w = (fst (run p (blank s (clk w) (env w))), over w (snd (run p (blank s (clk w) (env w))))).
Proof. intros Hp. rewrite <- (over_blank s w) at 1. by apply run_quiet_over. Qed.

Lemma do_eff_clk {X} (e : eff Σ S X) w x w' : do_eff e w = Some (x, w') -> clk w <= clk w'.
Proof.
  intros Hd. pose proof (advance_clk w). destruct e; cbn in Hd; repeat case_match; simplify_eq;
    first [ lia | apply Z.le_refl | apply called_clk | pose proof (sleep_clk d w); lia ].
Qed.

Lemma run_clk {A} (p : prog Σ S A) w : clk w <= clk (snd (run p w)).
Proof.
  revert w. induction p as [A a|A m|A|A X e k IH|A c IHc k IH]; intros w; cbn; try lia.
  - destruct (do_eff e w) as [[x w']|] eqn:Hd; [|done].
    apply do_eff_clk in Hd. specialize (IH x w'). lia.
  - apply (IH (add_go c w)).
Qed.

End Quiet.

Ltac solve_quiet :=
  repeat first [ done | apply quiet_deferring
               | match goal with |- quiet (match ?x with _ => _ end) => destruct x end
               | apply quiet_bind | intros ? | (split; [done|]) ].

(** ** The implemented interface as an environment *)
Section Linking.
Context {Σ Σ' : Signature} {S : Type} `{E : !Environment Σ'}.
Context (h : forall o : op Σ, prog Σ' S (res Σ o)).
Context (Hquiet : forall o, quiet (h o)).
Context (s0 : S) `{Inh : !forall o, Inhabited (res Σ o)}.

(** Time passes on the way into the implementation. *)
Definition linked (o : op Σ) : prog Σ' S (res Σ o) := (_ <- eff1 Now ;; h o)%go.

(** Its state is that of the outer environment and the time that the last call
    took and that the component has not seen pass yet. *)
Definition linked_env : Environment Σ := {|
  env_state := (@env_state Σ' E * N)%type;
  env_call o t e :=
    match run (h o) (blank s0 t (fst e)) with
    | (Done r, w') => (r, (env w', Z.to_N (clk w' - t)))
    | _ => (inhabitant, e)
    end;
  env_elapse e := let '(n, e') := env_elapse (fst e) in ((snd e + n)%N, (e', 0%N));
  env_cancelled i e := env_cancelled i (fst e);
|}.

(** The implementation always answers. *)
Definition answers : Prop := forall o t e, exists r w', run (h o) (blank s0 t e) = (Done r, w').

(** The calls of the component, and the calls that implement them. *)
Inductive served : list { o : op Σ & res Σ o } -> list { o : op Σ' & res Σ' o } -> Prop :=
| served_nil : served [] []
| served_snoc cs cs' o r tr (w w' : world Σ' S) :
    served cs cs' -> run (h o) w = (Done r, w') -> calls w' = calls w ++ tr ->
    served (cs ++ [existT o r]) (cs' ++ tr).

(** A world of the linked program that started in [w0], and the component's. *)
Record link (w0 w : world Σ' S) (wa : @world Σ S linked_env) : Prop := {
  lk_clk : clk w = clk wa + Z.of_N (snd (env wa : env_state (Environment := linked_env)));
  lk_env : env w = fst (env wa);
  lk_locks : locks w = locks wa;
  lk_mem : mem w = mem wa;
  lk_gos : gos w = gos w0 ++ (interp linked <$> gos wa);
  lk_calls : exists cs, calls w = calls w0 ++ cs /\ served (calls wa) cs;
}.

(** The component's view of the world it is started in. *)
Definition seen (w : world Σ' S) : @world Σ S linked_env :=
  @World Σ S linked_env (clk w) (env w, 0%N) (locks w) (mem w) [] [].

Lemma link_seen w : link w w (seen w).
Proof.
  split; cbn; try done; [lia|by rewrite app_nil_r|].
  exists []. rewrite app_nil_r. split; [done|constructor].
Qed.

Lemma link_advance w0 w wa : link w0 w wa ->
  link w0 (advance w) (advance wa) /\ snd (env (advance wa) : env_state (Environment := linked_env)) = 0%N.
Proof.
  intros []. unfold advance; cbn. rewrite lk_env0. destruct (env_elapse (fst (env wa))) as [n e'].
  cbn. split; [|done]. split; cbn; try done. lia.
Qed.

Lemma link_locks l w0 w wa : link w0 w wa -> link w0 (set_locks l w) (set_locks l wa).
Proof. by intros []. Qed.

Lemma link_call o w0 w wa :
  answers -> link w0 w wa ->
  exists w', run (linked o) w = (Done (answer o wa), w') /\ link w0 w' (called o wa).
Proof.
  intros Hans Hl. unfold linked. rewrite run_bind, run_now.
  destruct (link_advance _ _ _ Hl) as [H1 Hz]. destruct H1.
  rewrite (run_quiet (h o) s0) by done.
  destruct (Hans o (clk (advance w)) (env (advance w))) as (r & w' & Hr).
  rewrite Hr. cbn [fst snd].
  assert (Hcall : env_call (Environment := linked_env) o (clk (advance wa)) (env (advance wa))
                  = (r, (env w', Z.to_N (clk w' - clk (advance wa))))).
  { cbn. rewrite <- lk_env0. replace (clk (advance wa)) with (clk (advance w)) by lia. by rewrite Hr. }
  assert (Ha : answer o wa = r) by (unfold answer; by rewrite Hcall).
  exists (over (advance w) w'). rewrite Ha. split; [done|].
  unfold called. rewrite Ha, Hcall. cbn [snd].
  pose proof (run_clk (h o) (blank s0 (clk (advance w)) (env (advance w)))) as Hmono.
  rewrite Hr in Hmono. cbn [snd blank clk] in Hmono.
  destruct lk_calls0 as (cs & Hcs & Hserved).
  split; cbn; try done.
  - lia.
  - exists (cs ++ calls w'). rewrite Hcs, app_assoc. split; [done|].
    by eapply served_snoc.
Qed.

(** Linking is a simulation: same result, same memory and mutexes, goroutines
    that are the linked ones, and calls that implement the component's. *)
Lemma run_linked {A} (p : prog Σ S A) w0 w wa :
  answers -> link w0 w wa ->
  exists w', run (interp linked p) w = (fst (run p wa), w') /\ link w0 w' (snd (run p wa)).
Proof.
  intros Hans. revert w wa. induction p as [A a|A m|A|A X e k IH|A c IHc k IH]; intros w wa Hl;
    try (by eexists).
  2: { cbn [interp run]. apply IH. destruct Hl. unfold add_go.
       split; cbn; try done. by rewrite lk_gos0, fmap_app, app_assoc. }
  cbn [interp]. rewrite run_bind. destruct (link_advance _ _ _ Hl) as [Hadv Hz].
  destruct e; cbn [interp_eff].
  4-7: rewrite run_eff; cbn [run do_eff]; rewrite (lk_locks _ _ _ Hl);
    destruct (locks wa !! m) as [[|n]|]; try (by eexists); try by apply IH, link_locks.
  - rewrite run_now. cbn [run do_eff].
    replace (clk (advance w)) with (clk (advance wa)) by (destruct Hadv; lia). by apply IH.
  - rewrite run_sleep. cbn [run do_eff]. apply IH. unfold sleep.
    destruct Hadv; split; cbn; try done. lia.
  - rewrite run_ctx_err. cbn [run do_eff].
    assert (Hc : ctx_err c (advance w) = ctx_err c (advance wa)).
    { destruct c; [done|..].
      - assert (Ht : clk (advance w) = clk (advance wa)) by (destruct Hadv; lia).
        unfold ctx_err. by rewrite Ht.
      - unfold ctx_err. by rewrite (lk_env _ _ _ Hadv). }
    rewrite Hc. by apply IH.
  - rewrite run_eff. cbn [run do_eff]. rewrite (lk_mem _ _ _ Hl).
    destruct (f (mem wa)) as [x s]. apply IH. by destruct Hl.
  - destruct (link_call o _ _ _ Hans Hl) as (w' & -> & Hl'). cbn [run do_eff]. by apply IH.
Qed.

(** Where a call of the implementation comes from, and what becomes of a call of
    the component. *)
Lemma served_from x cs cs' : served cs cs' -> x ∈ cs' ->
  exists o r (w w' : world Σ' S) tr, existT o r ∈ cs /\ run (h o) w = (Done r, w') /\
    calls w' = calls w ++ tr /\ x ∈ tr.
Proof.
  induction 1 as [|cs cs' o r tr w w' Hs IH Hr Hc]; [by intros ?%elem_of_nil|].
  intros [Hx|Hx]%elem_of_app.
  - destruct (IH Hx) as (o' & r' & w1 & w2 & tr' & Hin & ?). exists o', r', w1, w2, tr'.
    split; [|done]. apply elem_of_app. by left.
  - exists o, r, w, w', tr. split; [|done]. apply elem_of_app. right. by left.
Qed.

Lemma served_by `{!EqDecision (op Σ)} o r cs cs' : served cs cs' -> existT o r ∈ cs ->
  exists (w w' : world Σ' S) tr, run (h o) w = (Done r, w') /\ calls w' = calls w ++ tr /\ tr ⊆ cs'.
Proof.
  induction 1 as [|cs cs' o' r' tr w w' Hs IH Hr Hc]; [by intros ?%elem_of_nil|].
  intros [Hx|Hx]%elem_of_app.
  - destruct (IH Hx) as (w1 & w2 & tr' & ? & ? & Hsub). exists w1, w2, tr'. split; [done|]. split; [done|].
    intros y Hy. apply elem_of_app. left. by apply Hsub.
  - apply list_elem_of_singleton in Hx. assert (o = o') as <- by by apply (made_op o o' r r').
    apply (made_inj o) in Hx as <-. exists w, w', tr. split; [done|]. split; [done|].
    intros y Hy. apply elem_of_app. by right.
Qed.

End Linking.

(** ** The Docker service behind its interface *)

(** [backoff.Retry] keeps no state of the node either. *)
Class RetryQuiet {S : Type}
    (Retry : BackOff -> ctx -> prog DockerClient S (option error) ->
             prog DockerClient S (option error)) : Prop :=
  retry_quiet : forall b c o, quiet o -> quiet (Retry b c o).

#[export] Instance retry_times_quiet {S} n : RetryQuiet (S := S) (retry_times n).
Proof.
  intros b c o Ho. induction n as [|n IH]; cbn [retry_times]; solve_quiet.
Qed.

(** A container that the client could inspect has its identity. *)
Class InspectsContainers (E : Environment DockerClient) : Prop :=
  inspect_base : forall c id t e js s,
    env_call (ContainerInspect c id : op DockerClient) t e = ((js, None), s) -> js_base js <> None.

#[export] Instance svc_res_inhabited (o : op DockerServiceInterface) :
  Inhabited (res DockerServiceInterface o).
Proof. constructor. destruct o; cbn; first [exact None | exact ("", None) | exact (no_info, None)]. Defined.

Section Docker.
Context {S : Type} `{E : !Environment DockerClient} `{B : !InspectsContainers E}.
Context (Retry : BackOff -> ctx -> prog DockerClient S (option error) ->
                 prog DockerClient S (option error)) `{HR : !RetrySpec Retry} `{HQ : !RetryQuiet Retry}.
Implicit Types w : world DockerClient S.

Notation "o ↦ r" := (made (Σ := DockerClient) o r) (at level 60).

Lemma docker_service_quiet o : quiet (docker_service Retry o).
Proof.
  destruct o; cbn; unfold CreateContainer, ensureImage, StartContainer, StopContainer, RemoveContainer, InspectContainer.
  2: apply quiet_bind; [apply retry_quiet; unfold startOperation|].
  all: solve_quiet.
Qed.

(** The calls to the client by which a method of the service is served. *)
Definition method_trace (o : svc_op) :
  svc_res o -> list { o : op DockerClient & res DockerClient o } -> Prop :=
  match o with
  | svc_CreateContainer c cfg => fun r tr => create_trace c cfg tr r
  | svc_StartContainer c id => fun _ tr => Forall (fun x => exists e, x = ContainerStart c id ↦ e) tr
  | svc_StopContainer c id t => fun _ tr =>
      exists e, tr = [ContainerStop c id t ↦ e] \/ exists ev, tr = [ContainerStop c id t ↦ e; ContainerWaitNotRunning c id ↦ ev]
  | svc_RemoveContainer c id force => fun _ tr => exists e, tr = [ContainerRemove c id true force ↦ e]
  | svc_InspectContainer c id => fun _ tr => exists x, tr = [ContainerInspect c id ↦ x]
  end.

Lemma docker_service_runs o w :
  exists r w' tr, run (docker_service Retry o) w = (Done r, w') /\ makes_calls tr w w' /\
    method_trace o r tr.
Proof.
  destruct o as [c cfg|c id|c id t|c id force|c id]; cbn [docker_service method_trace].
  - destruct (CreateContainer_runs c cfg w) as (r & tr & w' & ? & ? & ?). by exists r, w', tr.
  - unfold StartContainer.
    destruct (retry_spec (Retry := Retry) startBackOff c (startOperation c id) w) as (r & w' & Hr & Hre).
    { intros w0. destruct (startOperation_runs c id w0) as (r & Hr & _). eauto. }
    apply retried_start in Hre as [fails Hf]. rewrite run_bind, Hr.
    assert (Hall : Forall (fun x => exists e, x = ContainerStart c id ↦ e)
                          ((fun e => ContainerStart c id ↦ Some e) <$> fails))
      by (apply Forall_fmap, Forall_true; intros e; by eexists).
    destruct r as [e|]; (eexists _, _, _; split; [done|]).
    + by split; [apply Hf|].
    + split; [apply Hf|]. apply Forall_app. split; [done|]. repeat constructor. by eexists.
  - unfold StopContainer. rewrite run_bind, run_call.
    pose proof (makes_calls_one (ContainerStop c id t : op DockerClient) w) as H1.
    destruct (answer (Σ := DockerClient) (ContainerStop c id t) w) as [e|]; [by eauto 10|].
    set (w1 := called _ w) in *. rewrite run_bind, run_call.
    pose proof (makes_calls_call _ (ContainerWaitNotRunning c id : op DockerClient) _ _ H1) as H2.
    destruct (answer (Σ := DockerClient) (ContainerWaitNotRunning c id) w1) as [|[e|]|e];
      eexists _, _, _; (split; [done|]); (split; [exact H2|]); eexists; right; by eexists.
  - unfold RemoveContainer. rewrite run_bind, run_call.
    pose proof (makes_calls_one (ContainerRemove c id true force : op DockerClient) w) as H1.
    destruct (answer (Σ := DockerClient) (ContainerRemove c id true force) w) as [e|]; eauto 10.
  - unfold InspectContainer. rewrite run_bind, run_call.
    pose proof (makes_calls_one (ContainerInspect c id : op DockerClient) w) as H1.
    destruct (answer (Σ := DockerClient) (ContainerInspect c id) w) as [js [e|]] eqn:Ha; [by eauto 10|].
    assert (Hb : js_base js <> None).
    { unfold answer in Ha. destruct (env_call _ _ _) as [x s] eqn:Hx. cbn in Ha. subst x.
      by eapply inspect_base. }
    destruct (js_base js); [|done]. eauto 10.
Qed.

(** The service as an implementation of the interface, and a program that runs
    on it. *)
Definition docker_impl (o : op DockerServiceInterface)
  : prog DockerClient S (res DockerServiceInterface o) := docker_service Retry o.
Definition on_docker {A : Type} (p : prog DockerServiceInterface S A) : prog DockerClient S A :=
  interp (linked docker_impl) p.

(** The world as the component sees it. *)
Notation docker_env w := (linked_env docker_impl (mem w)).
Definition service_view w : @world DockerServiceInterface S (docker_env w) :=
  seen docker_impl (mem w) w.

Lemma docker_service_answers s : answers docker_impl s.
Proof.
  intros o t e. destruct (docker_service_runs o (blank s t e)) as (r & w' & _ & H & _). by exists r, w'.
Qed.

(** A run of a method is served by the calls of its trace, and no others. *)
Lemma docker_service_trace o w r w' tr :
  run (docker_service Retry o) w = (Done r, w') -> calls w' = calls w ++ tr -> method_trace o r tr.
Proof.
  intros Hr Hc. destruct (docker_service_runs o w) as (r' & w1 & tr' & Hr' & Hm & Ht).
  rewrite Hr in Hr'. injection Hr' as <- <-. rewrite (mc_calls _ _ _ Hm) in Hc.
  by apply app_inv_head in Hc as <-.
Qed.

Definition method_traces (x : { o : op DockerServiceInterface & res DockerServiceInterface o }) :
  list { o : op DockerClient & res DockerClient o } -> Prop := method_trace (projT1 x) (projT2 x).

Lemma served_traces cs cs' :
  served docker_impl cs cs' -> exists trs, cs' = concat trs /\ Forall2 method_traces cs trs.
Proof.
  induction 1 as [|cs cs' o r tr w w' Hs (trs & -> & Hf) Hr Hc]; [by exists []|].
  exists (trs ++ [tr]). split; [by rewrite concat_app, concat_cons, app_nil_r|].
  apply Forall2_app; [done|]. repeat constructor. by eapply docker_service_trace.
Qed.

Lemma on_docker_runs {A} (p : prog DockerServiceInterface S A) w :
  exists w' cs, run (on_docker p) w = (fst (run p (service_view w)), w') /\
    mem w' = mem (snd (run p (service_view w))) /\ locks w' = locks (snd (run p (service_view w))) /\
    clk (snd (run p (service_view w))) <= clk w' /\
    gos w' = gos w ++ (on_docker <$> gos (snd (run p (service_view w)))) /\
    calls w' = calls w ++ cs /\ served docker_impl (calls (snd (run p (service_view w)))) cs.
Proof.
  destruct (run_linked docker_impl docker_service_quiet (mem w) p w w (service_view w))
    as (w' & Hr & Hl); [apply docker_service_answers|apply link_seen|].
  destruct Hl. destruct lk_calls0 as (cs & Hcs & Hs). exists w', cs. do 3 (split; [done|]).
  split; [lia|]. done.
Qed.

(** C12: The Docker service implements the interface the components are verified
    against.  A component that runs on it returns what it returns in one of the
    environments of that interface, leaves the same memory, mutexes and
    goroutines behind, and its method calls are served, one after the other, by
    the legal traces of the methods at the Docker client. *)
Theorem docker_service_refines {A} (p : prog DockerServiceInterface S A) w :
  exists w' trs, run (on_docker p) w = (fst (run p (service_view w)), w') /\
    mem w' = mem (snd (run p (service_view w))) /\ locks w' = locks (snd (run p (service_view w))) /\
    gos w' = gos w ++ (on_docker <$> gos (snd (run p (service_view w)))) /\
    calls w' = calls w ++ concat trs /\
    Forall2 method_traces (calls (snd (run p (service_view w)))) trs.
Proof.
  destruct (on_docker_runs p w) as (w' & cs & Hr & Hm & Hl & _ & Hg & Hc & Hs).
  apply served_traces in Hs as (trs & -> & Hf). exists w', trs. auto 10.
Qed.

End Docker.

(** ** Renting on Docker *)
Section Renting.
Context {S : Type} `{E : !Environment DockerClient} `{B : !InspectsContainers E}.
Context (Retry : BackOff -> ctx -> prog DockerClient S (option error) ->
                 prog DockerClient S (option error)) `{HR : !RetrySpec Retry} `{HQ : !RetryQuiet Retry}.
Context `{F : !Field S RentalExecutor} `{P : !PortManagerInterface S} `{PS : !PortManagerSpec S}.
Implicit Types w : world DockerClient S.

Notation "o ↦ r" := (made (Σ := DockerClient) o r) (at level 60).
Notation on_docker := (on_docker Retry).

(** Only [CreateContainer] creates containers, and it returns what it created. *)
Lemma created_by o r tr c config host name id :
  method_trace o r tr -> ContainerCreate c config host name ↦ (id, None) ∈ tr ->
  exists cfg, made (Σ := DockerServiceInterface) o r =
              made (svc_CreateContainer c cfg : op DockerServiceInterface) (id, None).
Proof.
  intros Ht Hin. destruct o as [c' cfg|c' i|c' i t|c' i f|c' i]; cbn in Ht.
  - exists cfg. destruct Ht as [tr e Hi|tr id' e Hi|tr id' Hi].
    + by apply image_trace_no_create with (1 := Hi) in Hin.
    + apply elem_of_app in Hin as [Hin|Hin]; [by apply image_trace_no_create with (1 := Hi) in Hin|].
      apply list_elem_of_singleton in Hin. pose proof (made_op _ _ _ _ Hin) as Ho. injection Ho as -> -> -> ->.
      by apply (made_inj (Σ := DockerClient)) in Hin.
    + apply elem_of_app in Hin as [Hin|Hin]; [by apply image_trace_no_create with (1 := Hi) in Hin|].
      apply list_elem_of_singleton in Hin. pose proof (made_op _ _ _ _ Hin) as Ho. injection Ho as -> -> -> ->.
      apply (made_inj (Σ := DockerClient)) in Hin. by injection Hin as ->.
  - rewrite Forall_forall in Ht. destruct (Ht _ Hin) as [e He]. by apply (made_op (Σ := DockerClient)) in He.
  - destruct Ht as [e [->|[ev ->]]]; repeat (apply elem_of_cons in Hin as [Hin|Hin];
      [by apply (made_op (Σ := DockerClient)) in Hin|]); by apply elem_of_nil in Hin.
  - destruct Ht as [e ->]. apply list_elem_of_singleton in Hin. by apply (made_op (Σ := DockerClient)) in Hin.
  - destruct Ht as [e ->]. apply list_elem_of_singleton in Hin. by apply (made_op (Σ := DockerClient)) in Hin.
Qed.

(** C5: A rental on the real service is all or nothing at the Docker daemon: the
    executor over [DockerService] over the client always returns, and when it
    returns an error, tracked rentals and held ports are what they were and
    every container that the daemon has created was asked to be removed, by
    force and with its volumes. *)
Theorem StartRental_on_docker c req w :
  rental_ready (service_view Retry w) ->
  0 < healthInterval (get (mem w)) -> 0 <= healthTimeout (get (mem w)) ->
  exists r cs w', run (on_docker (StartRental c req)) w = (Done r, w') /\
    locks w' = locks w /\ gos w' = gos w /\ calls w' = calls w ++ cs /\
    (snd r = None <-> is_Some (fst r)) /\
    forall e, snd r = Some e ->
      get (T := RentalExecutor) (mem w') = get (mem w) /\ pm_held (mem w') = pm_held (mem w) /\
      forall config host name id, id <> "" -> ContainerCreate c config host name ↦ (id, None) ∈ cs ->
        exists x, ContainerRemove Background id true true ↦ x ∈ cs.
Proof.
  intros Hr Hi Ht.
  destruct (StartRental_runs c req (service_view Retry w) Hr Hi Ht)
    as (r & tr & wa & Hrun & Hs & _ & Hres).
  destruct (on_docker_runs Retry (StartRental c req) w) as (w' & cs & Hrun' & Hm & Hl & _ & Hg & Hc & Hsv).
  rewrite Hrun in Hrun', Hm, Hl, Hg, Hsv. cbn [fst snd] in *. destruct Hs as [Hsl Hsg Hsc _].
  exists r, cs, w'. split; [done|]. split; [by rewrite Hl, Hsl|].
  split; [by rewrite Hg, Hsg, app_nil_r|]. split; [done|].
  unfold start_result in Hres. destruct r as [[ci|] [e|]]; try done; cbn [fst snd].
  split; [by split; [|intros []]|]. intros _ _. destruct Hres as (Hre & Hh & Hcr).
  rewrite Hm. split; [done|]. split; [done|]. intros config host name id Hid Hin.
  destruct (served_from _ _ _ _ Hsv Hin) as (o & x & w1 & w2 & tr1 & Hina & Hrm & Hcm & Htr).
  pose proof (docker_service_trace (E := E) Retry o w1 x w2 tr1 Hrm Hcm) as Hmt.
  destruct (created_by _ _ _ _ _ _ _ _ Hmt Htr) as (cfg & Heq). rewrite Hsc in Hina.
  unfold made in Heq. rewrite Heq in Hina.
  destruct (Hcr cfg id Hid Hina) as [y Hy].
  rewrite Hsc in Hsv. destruct (served_by _ _ _ _ _ Hsv Hy) as (w3 & w4 & tr2 & Hrm2 & Hcm2 & Hsub).
  destruct (docker_service_trace Retry _ w3 y w4 tr2 Hrm2 Hcm2) as [z ->].
  exists z. apply Hsub. by left.
Qed.

End Renting.

(** ** A concrete Docker daemon

    The client of the tests, whose containers can be inspected. *)

Definition host_call (o : docker_op) (m : MockDockerClient) : docker_res o * MockDockerClient :=
  match o return docker_res o * MockDockerClient with
  | ContainerInspect _ _ => ((mock_json (Some ∅), None), m)
  | o => mock_call o m
  end.

Definition host_env : Environment DockerClient := {|
  env_state := MockDockerClient;
  env_call (o : op DockerClient) _ m := host_call o m;
  env_elapse m := (3%N, m);
  env_cancelled _ _ := false;
|}.

#[export] Instance host_inspects : InspectsContainers host_env.
Proof. by intros c id t e js s [= <- _]. Qed.

Definition host_world (starts : list (option error))
  : @world DockerClient (PortManager * RentalExecutor) host_env :=
  @World DockerClient _ host_env 0 (mock_client starts) ∅ rental_mem [] [].

(** A container that was created but cannot be started is removed. *)
Lemma StartRental_on_docker_witness :
  let w := host_world [Some (ErrNew "no such device")] in
  exists r cs w', run (on_docker (retry_times 2) (StartRental Background rental_req)) w = (Done r, w') /\
    snd r <> None /\ calls w' = cs /\ pm_held (mem w') = ∅ /\
    exists x, made (Σ := DockerClient) (ContainerRemove Background "container-123" true true) x ∈ cs.
Proof.
  intros w.
  destruct (StartRental_on_docker (retry_times 2) Background rental_req w)
    as (r & cs & w' & Hr & _ & _ & Hc & _ & Hf); [|by vm_compute..|].
  { split; [done..|]. by apply (rr_ready _ (rental_world_ready mock_ok)). }
  exists r, cs, w'. split; [done|].
  assert (He : match fst (run (on_docker (retry_times 2) (StartRental Background rental_req)) w) with
               | Done (_, Some _) => true | _ => false end = true) by by vm_compute.
  rewrite Hr in He. cbn in He. destruct r as [o [e|]]; [|done].
  destruct (Hf e eq_refl) as (_ & Hh & Hrem). split; [done|]. split; [done|]. split; [done|].
  assert (Hin : calls (snd (run (on_docker (retry_times 2) (StartRental Background rental_req)) w)) !! 1%nat =
    Some (made (Σ := DockerClient)
            (ContainerCreate Background (containerConfig (rental_config rental_req 30000))
               (hostConfig (rental_config rental_req 30000)) "session-123") ("container-123", None)))
    by by vm_compute.
  rewrite Hr in Hin. cbn [snd] in Hin. rewrite Hc in Hin. apply list_elem_of_lookup_2 in Hin.
  by apply Hrem in Hin.
Defined.

Lemma docker_service_refines_witness :
  let w := host_world [None] in
  exists w' trs, run (on_docker (retry_times 2) (StartRental Background rental_req)) w =
      (fst (run (StartRental Background rental_req) (service_view (retry_times 2) w)), w') /\
    held_of (snd (run (StartRental Background rental_req) (service_view (retry_times 2) w))) = pm_held (mem w') /\
    calls w' = concat trs.
Proof.
  intros w. destruct (docker_service_refines (retry_times 2) (StartRental Background rental_req) w)
    as (w' & trs & Hr & Hm & _ & _ & Hc & _).
  exists w', trs. split; [done|]. split; [|done]. by rewrite Hm.
Defined.
