(* ===== verification/Nvml.v ===== *)
(** The GPU providers ([internal/adapters/nvml]): NVML, the stub of a build
    without it, and the mock.

    Each implements the interface [GPUProvider] over the NVML library, whose
    calls and return codes are the signature [NvmlOps]; a device is a handle. *)

From Stdlib Require Import ZArith Lia String.
From stdpp Require Import base numbers strings list.
From S2P Require Import Prelude.
From S2P Require Import Effects.
From S2P Require Import Domain.

(** ** The library *)

(** [nvml.Memory] and [nvml.Utilization], as far as they are read. *)
Record nvml_Memory : Type := MkNvmlMemory { mi_Total : Z; mi_Used : Z }.
Record nvml_Utilization : Type := MkNvmlUtilization { ut_Gpu : Z; ut_Memory : Z }.

Inductive nvml_op : Type :=
| nvml_Init
| nvml_Shutdown
| nvml_DeviceGetCount
| nvml_DeviceGetHandleByIndex (i : Z)
| nvml_SystemGetDriverVersion
| dev_GetUUID (d : nat)
| dev_GetName (d : nat)
| dev_GetMemoryInfo (d : nat)
| dev_GetUtilizationRates (d : nat)
| dev_GetTemperature (d : nat).          (* of the sensor TEMPERATURE_GPU *)

(** Every call but [Init] and [Shutdown] has a value besides its return code. *)
Definition nvml_res (o : nvml_op) : Type :=
  match o with
  | nvml_Init | nvml_Shutdown => Z
  | nvml_DeviceGetCount | dev_GetTemperature _ => Z * Z
  | nvml_DeviceGetHandleByIndex _ => nat * Z
  | nvml_SystemGetDriverVersion | dev_GetUUID _ | dev_GetName _ => string * Z
  | dev_GetMemoryInfo _ => nvml_Memory * Z
  | dev_GetUtilizationRates _ => nvml_Utilization * Z
  end.

Definition NvmlOps : Signature := MkSignature nvml_op nvml_res.

#[export] Instance nvml_op_eq_dec : EqDecision nvml_op.
Proof. solve_decision. Defined.
#[export] Instance NvmlOps_op_eq_dec : EqDecision (op NvmlOps) := nvml_op_eq_dec.

Definition SUCCESS : Z := 0.

(** Bytes to megabytes. *)
Definition megabytes (bytes : Z) : Z := bytes / (1024 * 1024).

(** ** NVML *)
Section NVMLProvider.
Context {S : Type}.
Context (ErrorString : Z -> string).
Local Open Scope go_scope.

Notation node := (prog NvmlOps S).
Notation nvml o := (@call NvmlOps S o).

(** The error of a return code. *)
Definition nvml_error (prefix : string) (ret : Z) : option error :=
  if bool_decide (ret = SUCCESS) then None else Some (ErrNew (prefix +:+ ErrorString ret)).

Definition nvml_provider_Init : node (option error) :=
  ret <- nvml nvml_Init ;; Ret (nvml_error "NVML init failed: " ret).

Definition nvml_provider_Shutdown : node (option error) :=
  ret <- nvml nvml_Shutdown ;; Ret (nvml_error "NVML shutdown failed: " ret).

Definition nvml_provider_GetDeviceCount : node (Z * option error) :=
  let! (count, ret) := nvml nvml_DeviceGetCount ;;
  match nvml_error "failed to get device count: " ret with
  | Some e => Ret (0, Some e)
  | None => Ret (count, None)
  end.

(** The body of the loop of [GetMetrics] for one device. *)
Definition device_metrics (device : nat) : node GPUMetrics :=
  let! (uuid, _) := nvml (dev_GetUUID device) ;;
  let! (name, _) := nvml (dev_GetName device) ;;
  let! (memInfo, _) := nvml (dev_GetMemoryInfo device) ;;
  let! (util, _) := nvml (dev_GetUtilizationRates device) ;;
  let! (temp, _) := nvml (dev_GetTemperature device) ;;
  Ret (MkGPUMetrics uuid name (megabytes (mi_Total memInfo)) (megabytes (mi_Used memInfo))
         (ut_Gpu util) (ut_Memory util) temp).

Definition device_spec (device : nat) : node GPUSpec :=
  let! (uuid, _) := nvml (dev_GetUUID device) ;;
  let! (name, _) := nvml (dev_GetName device) ;;
  let! (memInfo, _) := nvml (dev_GetMemoryInfo device) ;;
  let! (driver, _) := nvml nvml_SystemGetDriverVersion ;;
  Ret (MkGPUSpec uuid name (megabytes (mi_Total memInfo)) driver).

(** The loops from index [i] over [n] more devices; a device without a handle
    is skipped. *)
Fixpoint device_loop {A : Type} (read : nat -> node A) (n : nat) (i : Z) (acc : list A)
  : node (list A) :=
  match n with
  | O => Ret acc
  | Datatypes.S n =>
      let! (device, ret) := nvml (nvml_DeviceGetHandleByIndex i) ;;
      if bool_decide (ret = SUCCESS)
      then x <- read device ;; device_loop read n (int64_add i 1) (acc ++ [x])
      else device_loop read n (int64_add i 1) acc
  end.

(** [GetMetrics] and [GetSpecs]: [make] panics on a negative capacity. *)
Definition read_devices {A : Type} (read : nat -> node A) : node (list A * option error) :=
  let! (count, err) := nvml_provider_GetDeviceCount ;;
  match err with
  | Some e => Ret ([], Some e)
  | None =>
      if count <? 0 then Panic "makeslice: cap out of range" else
      l <- device_loop read (Z.to_nat count) 0 [] ;;
      Ret (l, None)
  end.

Definition nvml_provider_GetMetrics : node (list GPUMetrics * option error) := read_devices device_metrics.
Definition nvml_provider_GetSpecs : node (list GPUSpec * option error) := read_devices device_spec.

Definition NVMLProvider (o : op GPUProvider) : node (res GPUProvider o) :=
  match o return node (gpu_res o) with
  | gpu_Init => nvml_provider_Init
  | gpu_Shutdown => nvml_provider_Shutdown
  | gpu_GetDeviceCount => nvml_provider_GetDeviceCount
  | gpu_GetMetrics => nvml_provider_GetMetrics
  | gpu_GetSpecs => nvml_provider_GetSpecs
  end.

End NVMLProvider.

(** ** The stub and the mock *)
Section Others.
Context {Σ : Signature} {S : Type}.

Definition NVMLStub (o : op GPUProvider) : prog Σ S (res GPUProvider o) :=
  match o return prog Σ S (gpu_res o) with
  | gpu_Init => Ret (Some (ErrNew "NVML not available (built with nonvml tag)"))
  | gpu_Shutdown => Ret None
  | gpu_GetDeviceCount => Ret (0, Some (ErrNew "NVML not available"))
  | gpu_GetMetrics => Ret ([], Some (ErrNew "NVML not available"))
  | gpu_GetSpecs => Ret ([], Some (ErrNew "NVML not available"))
  end.

Record MockGPUProvider : Type := MkMockGPUProvider {
  mg_Metrics : list GPUMetrics;
  mg_Specs : list GPUSpec;
  mg_InitErr : option error;
}.

Definition NewMockGPUProvider (metrics : list GPUMetrics) (specs : list GPUSpec) : MockGPUProvider :=
  MkMockGPUProvider metrics specs None.

Definition MockProvider (p : MockGPUProvider) (o : op GPUProvider) : prog Σ S (res GPUProvider o) :=
  match o return prog Σ S (gpu_res o) with
  | gpu_Init => Ret (mg_InitErr p)
  | gpu_Shutdown => Ret None
  | gpu_GetDeviceCount => Ret (Z.of_nat (length (mg_Metrics p)), None)
  | gpu_GetMetrics => Ret (mg_Metrics p, None)
  | gpu_GetSpecs => Ret (mg_Specs p, None)
  end.

End Others.

(** ** What a survey of the devices returns *)
Section Survey.
Context {S : Type} `{E : !Environment NvmlOps} (ErrorString : Z -> string).
Implicit Types w : world NvmlOps S.

Notation "o ↦ r" := (made (Σ := NvmlOps) o r) (at level 60).
Notation trace := (list { o : op NvmlOps & res NvmlOps o }).

(** The calls that read one device, and the record they make. *)
Inductive reads_metrics (d : nat) : GPUMetrics -> trace -> Prop :=
| reads_metrics_intro uuid name mem util temp r1 r2 r3 r4 r5 :
    reads_metrics d
      (MkGPUMetrics uuid name (megabytes (mi_Total mem)) (megabytes (mi_Used mem))
         (ut_Gpu util) (ut_Memory util) temp)
      [dev_GetUUID d ↦ (uuid, r1); dev_GetName d ↦ (name, r2); dev_GetMemoryInfo d ↦ (mem, r3);
       dev_GetUtilizationRates d ↦ (util, r4); dev_GetTemperature d ↦ (temp, r5)].

Inductive reads_spec (d : nat) : GPUSpec -> trace -> Prop :=
| reads_spec_intro uuid name mem driver r1 r2 r3 r4 :
    reads_spec d (MkGPUSpec uuid name (megabytes (mi_Total mem)) driver)
      [dev_GetUUID d ↦ (uuid, r1); dev_GetName d ↦ (name, r2); dev_GetMemoryInfo d ↦ (mem, r3);
       nvml_SystemGetDriverVersion ↦ (driver, r4)].

(** The devices [i, i+1, ..., i+n-1], asked for in order; those without a
    handle are skipped. *)
Inductive survey {A} (reads : nat -> A -> trace -> Prop) : Z -> nat -> list A -> trace -> Prop :=
| survey_end i : survey reads i 0 [] []
| survey_skip i n d ret l tr :
    ret <> SUCCESS -> survey reads (i + 1) n l tr ->
    survey reads i (Datatypes.S n) l ((nvml_DeviceGetHandleByIndex i ↦ (d, ret)) :: tr)
| survey_read i n d a l tr1 tr :
    reads d a tr1 -> survey reads (i + 1) n l tr ->
    survey reads i (Datatypes.S n) (a :: l) ((nvml_DeviceGetHandleByIndex i ↦ (d, SUCCESS)) :: tr1 ++ tr).

Lemma survey_length {A} (reads : nat -> A -> trace -> Prop) i n l tr :
  survey reads i n l tr -> (length l <= n)%nat.
Proof. induction 1; cbn; lia. Qed.

Definition reader {A} (read : nat -> prog NvmlOps S A) (reads : nat -> A -> trace -> Prop) : Prop :=
  forall d w, exists a tr w', run (read d) w = (Done a, w') /\ makes_calls tr w w' /\ reads d a tr.

(** One call more in a straight-line run: [H] records the calls so far. *)
Ltac read_call H o :=
  go_run;
  match type of H with makes_calls _ _ ?w1 =>
    apply (makes_calls_call _ (o : op NvmlOps)) in H;
    destruct (answer (Σ := NvmlOps) o w1); set (called (Σ := NvmlOps) o w1) in *; go_run
  end.

Lemma device_metrics_reader : reader device_metrics reads_metrics.
Proof.
  intros d w. unfold device_metrics. pose proof (makes_calls_refl w) as H.
  read_call H (dev_GetUUID d). read_call H (dev_GetName d). read_call H (dev_GetMemoryInfo d).
  read_call H (dev_GetUtilizationRates d). read_call H (dev_GetTemperature d).
  eexists _, _, _. split; [done|]. split; [exact H|]. constructor.
Qed.

Lemma device_spec_reader : reader device_spec reads_spec.
Proof.
  intros d w. unfold device_spec. pose proof (makes_calls_refl w) as H.
  read_call H (dev_GetUUID d). read_call H (dev_GetName d). read_call H (dev_GetMemoryInfo d).
  read_call H nvml_SystemGetDriverVersion.
  eexists _, _, _. split; [done|]. split; [exact H|]. constructor.
Qed.

Lemma device_loop_runs {A} (read : nat -> prog NvmlOps S A) reads n i acc w :
  reader read reads -> 0 <= i -> i + Z.of_nat n <= max_int64 ->
  exists l tr w', run (device_loop read n i acc) w = (Done (acc ++ l), w') /\ makes_calls tr w w' /\
    survey reads i n l tr.
Proof.
  intros Hread. revert i acc w. induction n as [|n IH]; intros i acc w Hi Hn; cbn [device_loop].
  { exists [], [], w. rewrite app_nil_r. split; [done|]. split; [apply makes_calls_refl|constructor]. }
  assert (Hnext : int64_add i 1 = i + 1)
    by (apply int64_add_small; unfold in_int64, min_int64, max_int64 in *; lia).
  rewrite Hnext. pose proof (makes_calls_one (nvml_DeviceGetHandleByIndex i : op NvmlOps) w) as H. go_run.
  destruct (answer (nvml_DeviceGetHandleByIndex i : op NvmlOps) w) as [d ret]. set (w1 := called _ w) in *.
  case_bool_decide as Hret; go_run.
  - subst ret. destruct (Hread d w1) as (a & tr1 & w2 & -> & H1 & Ha). go_run.
    destruct (IH (i + 1) (acc ++ [a]) w2) as (l & tr & w' & Hrun & H2 & Hs); [lia..|].
    exists (a :: l), ((nvml_DeviceGetHandleByIndex i ↦ (d, SUCCESS)) :: tr1 ++ tr), w'.
    split; [by rewrite Hrun, <- app_assoc|].
    split; [exact (makes_calls_app [_] _ _ _ _ H (makes_calls_app _ _ _ _ _ H1 H2))|by constructor].
  - destruct (IH (i + 1) acc w1) as (l & tr & w' & Hrun & H2 & Hs); [lia..|].
    exists l, ((nvml_DeviceGetHandleByIndex i ↦ (d, ret)) :: tr), w'.
    split; [done|]. split; [exact (makes_calls_app [_] _ _ _ _ H H2)|by constructor].
Qed.

Definition count_error (ret : Z) : error := ErrNew ("failed to get device count: " +:+ ErrorString ret).

Lemma read_devices_runs {A} (read : nat -> prog NvmlOps S A) reads w :
  reader read reads ->
  let '(count, ret) := answer (nvml_DeviceGetCount : op NvmlOps) w in
  in_int64 count ->
  exists tr w', makes_calls ((nvml_DeviceGetCount ↦ (count, ret)) :: tr) w w' /\
    if bool_decide (ret = SUCCESS)
    then if count <? 0 then exists m, run (read_devices ErrorString read) w = (Panicked m, w') /\ tr = []
         else exists l, run (read_devices ErrorString read) w = (Done (l, None), w') /\
                survey reads 0 (Z.to_nat count) l tr
    else run (read_devices ErrorString read) w = (Done ([], Some (count_error ret)), w') /\ tr = [].
Proof.
  intros Hread. pose proof (makes_calls_one (nvml_DeviceGetCount : op NvmlOps) w) as H.
  unfold read_devices, nvml_provider_GetDeviceCount, nvml_error, count_error. rewrite !run_bind, run_call.
  destruct (answer (nvml_DeviceGetCount : op NvmlOps) w) as [count ret]. set (w1 := called _ w) in *.
  intros [_ Hmax]. case_bool_decide as Hret; go_run.
  - destruct (count <? 0) eqn:Hneg; go_run; [by exists [], w1; split; [exact H|]; eexists|].
    destruct (device_loop_runs read reads (Z.to_nat count) 0 [] w1 Hread) as (l & tr & w' & Hrun & H1 & Hs); [lia..|].
    exists tr, w'. split; [exact (makes_calls_app [_] _ _ _ _ H H1)|]. exists l. rewrite Hrun. go_run. done.
  - by exists [], w1.
Qed.

End Survey.

(** The library counts its devices in an unsigned 32-bit integer. *)
Class NvmlCounts (E : Environment NvmlOps) : Prop :=
  nvml_count : forall t e n r s,
    env_call (nvml_DeviceGetCount : op NvmlOps) t e = ((n, r), s) -> 0 <= n < 2 ^ 32.

Section Properties.
Context {S : Type} `{E : !Environment NvmlOps} `{NC : !NvmlCounts E} (ErrorString : Z -> string).
Implicit Types w : world NvmlOps S.

Notation "o ↦ r" := (made (Σ := NvmlOps) o r) (at level 60).

Lemma provider_surveys {A} (read : nat -> prog NvmlOps S A) reads w :
  reader read reads ->
  exists count ret l err tr w', run (read_devices ErrorString read) w = (Done (l, err), w') /\
    makes_calls ((nvml_DeviceGetCount ↦ (count, ret)) :: tr) w w' /\
    if bool_decide (ret = SUCCESS)
    then err = None /\ survey reads 0 (Z.to_nat count) l tr
    else err = Some (count_error ErrorString ret) /\ l = [] /\ tr = [].
Proof.
  intros Hread. pose proof (read_devices_runs ErrorString read reads w Hread) as H.
  destruct (answer (nvml_DeviceGetCount : op NvmlOps) w) as [count ret] eqn:Ha.
  assert (Hc : 0 <= count < 2 ^ 32).
  { unfold answer in Ha. destruct (env_call _ _ _) as [x s] eqn:Hx. cbn in Ha. subst x.
    by eapply nvml_count. }
  destruct H as (tr & w' & Hm & H); [unfold in_int64, min_int64, max_int64; lia|].
  exists count, ret. case_bool_decide.
  - assert (count <? 0 = false) as Hneg by lia. rewrite Hneg in H. destruct H as (l & Hrun & Hs).
    by exists l, None, tr, w'.
  - destruct H as [Hrun ->]. by exists [], (Some (count_error ErrorString ret)), [], w'.
Qed.

(** C36: Over NVML, the metrics and the specifications of the GPUs are those of the
    devices that could be opened, in the order of their indices, each read once
    and completely, with the memory in megabytes; a device that cannot be opened
    is left out without an error.  The answer is an error, and empty, exactly
    when the devices cannot be counted. *)
Theorem NVML_correct w :
  (exists count ret l err tr w', run (NVMLProvider ErrorString gpu_GetMetrics) w = (Done (l, err), w') /\
     makes_calls ((nvml_DeviceGetCount ↦ (count, ret)) :: tr) w w' /\ (length l <= Z.to_nat count)%nat /\
     if bool_decide (ret = SUCCESS)
     then err = None /\ survey reads_metrics 0 (Z.to_nat count) l tr
     else err = Some (count_error ErrorString ret) /\ l = [] /\ tr = []) /\
  (exists count ret l err tr w', run (NVMLProvider ErrorString gpu_GetSpecs) w = (Done (l, err), w') /\
     makes_calls ((nvml_DeviceGetCount ↦ (count, ret)) :: tr) w w' /\ (length l <= Z.to_nat count)%nat /\
     if bool_decide (ret = SUCCESS)
     then err = None /\ survey reads_spec 0 (Z.to_nat count) l tr
     else err = Some (count_error ErrorString ret) /\ l = [] /\ tr = []).
Proof.
  split; cbn [NVMLProvider].
  - destruct (provider_surveys device_metrics _ w device_metrics_reader)
      as (count & ret & l & err & tr & w' & Hrun & Hm & H).
    exists count, ret, l, err, tr, w'. split; [done|]. split; [done|]. split; [|done].
    case_bool_decide; [by eapply survey_length, H|destruct H as (_ & -> & _); cbn; lia].
  - destruct (provider_surveys device_spec _ w device_spec_reader)
      as (count & ret & l & err & tr & w' & Hrun & Hm & H).
    exists count, ret, l, err, tr, w'. split; [done|]. split; [done|]. split; [|done].
    case_bool_decide; [by eapply survey_length, H|destruct H as (_ & -> & _); cbn; lia].
Qed.

End Properties.

(** ** A machine with two GPUs, of which one cannot be opened *)

Definition lab_call (o : nvml_op) : nvml_res o :=
  match o with
  | nvml_Init | nvml_Shutdown => SUCCESS
  | nvml_DeviceGetCount => (2, SUCCESS)
  | nvml_DeviceGetHandleByIndex i => (Z.to_nat i, if bool_decide (i = 0) then 15 else SUCCESS)
  | nvml_SystemGetDriverVersion => ("550.54", SUCCESS)
  | dev_GetUUID _ => ("GPU-1", SUCCESS)
  | dev_GetName _ => ("RTX 4090", SUCCESS)
  | dev_GetMemoryInfo _ => (MkNvmlMemory 25757220864 1073741824, SUCCESS)
  | dev_GetUtilizationRates _ => (MkNvmlUtilization 97 40, SUCCESS)
  | dev_GetTemperature _ => (61, SUCCESS)
  end.

Definition lab_env : Environment NvmlOps := {|
  env_state := unit;
  env_call (o : op NvmlOps) _ _ := (lab_call o, tt);
  env_elapse _ := (0%N, tt);
  env_cancelled _ _ := false;
|}.

#[export] Instance lab_counts : NvmlCounts lab_env.
Proof. by intros t e n r s [= <- _ _]. Qed.

Definition lab_world : @world NvmlOps unit lab_env := @World NvmlOps unit lab_env 0 tt ∅ tt [] [].

Definition lab_metrics : GPUMetrics := MkGPUMetrics "GPU-1" "RTX 4090" 24564 1024 97 40 61.

Lemma NVML_correct_witness :
  exists l err w', run (NVMLProvider itoa gpu_GetMetrics) lab_world = (Done (l, err), w') /\
    (length l <= 2)%nat /\ l = [lab_metrics] /\ err = None.
Proof.
  destruct (NVML_correct itoa lab_world) as [(count & ret & l & err & tr & w' & Hrun & Hm & Hlen & _) _].
  exists l, err, w'. split; [done|].
  assert (Hf : fst (run (NVMLProvider itoa gpu_GetMetrics) lab_world) = Done ([lab_metrics], None)) by by vm_compute.
  rewrite Hrun in Hf. injection Hf as -> ->. split; [cbn; lia|done].
Defined.
