(* ===== verification/Mining.v ===== *)
(** The mining daemon ([internal/mining/daemon.go], [config.go]): one mining
    container that gives way to rentals, and a monitor that restarts it.

    Every operation holds the daemon's mutex while it works, Docker calls
    included; the daemon asks Docker through the same service as the rental
    executor.  What is only logged is dropped, except for the slices
    [containerID[:12]] of the log lines, which panic on a short identifier. *)

From Stdlib Require Import ZArith Lia String.
From stdpp Require Import base numbers strings list gmap.
From S2P Require Import Prelude.
From S2P Require Import Effects.
From S2P Require Import Container.

(** ** Data *)

Inductive MiningState : Type :=
| MiningStateStopped
| MiningStateRunning
| MiningStatePaused.

#[export] Instance MiningState_eq_dec : EqDecision MiningState.
Proof. solve_decision. Defined.

Record MiningConfig : Type := MkMiningConfig {
  Enabled : bool;
  WalletAddress : string;
  mc_Image : string;
  mc_GPUDeviceIDs : list string;
  DataDir : string;
  ChainID : Z;
  P2PPort : Z;
  HTTPRPCPort : Z;
  ExtraArgs : list string;
}.

Definition DefaultMiningConfig : MiningConfig :=
  {| Enabled := true; WalletAddress := ""; mc_Image := "mingeyom/worldland-mio:latest";
     mc_GPUDeviceIDs := []; DataDir := "/data/worldland"; ChainID := 10396;
     P2PPort := 30303; HTTPRPCPort := 8545; ExtraArgs := [] |}.

(** A missing wallet is accepted too. *)
Definition Validate (c : MiningConfig) : option error :=
  if Enabled c && bool_decide (WalletAddress c = "") then None else None.

Record MiningStatus : Type := MkMiningStatus {
  ms_State : MiningState;
  ms_ContainerID : string;
  ms_GPUCount : Z;
  ms_StartedAt : option Z;
  ms_PausedAt : option Z;
}.

Record MiningDaemon : Type := MkMiningDaemon {
  md_config : MiningConfig;
  md_state : MiningState;
  md_containerID : string;
  md_startedAt : option Z;
  md_pausedAt : option Z;
  pausedGPUs : gmap string bool;
  stopCh_closed : bool;
}.

Definition NewMiningDaemon (config : MiningConfig) : MiningDaemon :=
  MkMiningDaemon config MiningStateStopped "" None None ∅ false.

Definition set_state (s : MiningState) (m : MiningDaemon) : MiningDaemon :=
  MkMiningDaemon (md_config m) s (md_containerID m) (md_startedAt m) (md_pausedAt m)
                 (pausedGPUs m) (stopCh_closed m).
Definition set_containerID (id : string) (m : MiningDaemon) : MiningDaemon :=
  MkMiningDaemon (md_config m) (md_state m) id (md_startedAt m) (md_pausedAt m)
                 (pausedGPUs m) (stopCh_closed m).
Definition set_startedAt (t : option Z) (m : MiningDaemon) : MiningDaemon :=
  MkMiningDaemon (md_config m) (md_state m) (md_containerID m) t (md_pausedAt m)
                 (pausedGPUs m) (stopCh_closed m).
Definition set_pausedAt (t : option Z) (m : MiningDaemon) : MiningDaemon :=
  MkMiningDaemon (md_config m) (md_state m) (md_containerID m) (md_startedAt m) t
                 (pausedGPUs m) (stopCh_closed m).
Definition set_pausedGPUs (p : gmap string bool) (m : MiningDaemon) : MiningDaemon :=
  MkMiningDaemon (md_config m) (md_state m) (md_containerID m) (md_startedAt m) (md_pausedAt m)
                 p (stopCh_closed m).
Definition set_stopCh_closed (m : MiningDaemon) : MiningDaemon :=
  MkMiningDaemon (md_config m) (md_state m) (md_containerID m) (md_startedAt m) (md_pausedAt m)
                 (pausedGPUs m) true.

Definition mining_mu : string := "MiningDaemon.mu".

(** [m.pausedGPUs[gpu]]: the zero value of a missing key is [false]. *)
Definition rented (m : MiningDaemon) (gpu : string) : bool := default false (pausedGPUs m !! gpu).

Definition getAvailableGPUs (m : MiningDaemon) : list string :=
  match mc_GPUDeviceIDs (md_config m) with
  | [] => if (0 <? size (pausedGPUs m))%nat then [] else ["all"]
  | gpus => filter (fun gpu => negb (rented m gpu)) gpus
  end.

(** The two loops over the argument of a rental. *)
Definition mark_rented (gpus : list string) (m : MiningDaemon) : MiningDaemon :=
  set_pausedGPUs (foldl (fun p gpu => <[gpu := true]> p) (pausedGPUs m) gpus) m.
Definition unmark_rented (gpus : list string) (m : MiningDaemon) : MiningDaemon :=
  set_pausedGPUs (foldl (fun p gpu => delete gpu p) (pausedGPUs m) gpus) m.

Definition mining_config (m : MiningDaemon) (gpuDeviceID : string) : ContainerConfig :=
  {| cc_SessionID := "worldland-mining"; cc_Image := mc_Image (md_config m);
     cc_GPUDeviceID := gpuDeviceID; cc_SSHPassword := ""; cc_SSHPort := 0;
     cc_MemoryBytes := 8 * 1024 * 1024 * 1024; cc_CPUCount := 2;
     cc_UseImageEntrypoint := true |}.

(** ** Operations *)

Notation svc o := (call (Σ := DockerServiceInterface) o).

Section Operations.
Context {S : Type} `{!Field S MiningDaemon}.
Local Open Scope go_scope.

Notation mining := (prog DockerServiceInterface S).
Notation update f := (modify (T := MiningDaemon) f).

Definition Start_body (c : ctx) : mining (option error) :=
  m <- load ;;
  if negb (Enabled (md_config m)) then Ret None else
  if bool_decide (md_state m = MiningStateRunning) then Ret None else
  match getAvailableGPUs m with
  | [] =>
      update (set_state MiningStatePaused) ;;;
      now <- eff1 Now ;;
      update (set_pausedAt (Some now)) ;;;
      Ret None
  | gpuDeviceID :: _ =>
      let! (containerID, err) := svc (svc_CreateContainer c (mining_config m gpuDeviceID)) ;;
      match err with
      | Some e => Ret (Some (ErrWrap "failed to create mining container: " e))
      | None =>
          err <- svc (svc_StartContainer c containerID) ;;
          match err with
          | Some e =>
              _ <- svc (svc_RemoveContainer c containerID true) ;;
              Ret (Some (ErrWrap "failed to start mining container: " e))
          | None =>
              update (fun m => set_state MiningStateRunning (set_containerID containerID m)) ;;;
              now <- eff1 Now ;;
              update (fun m => set_pausedAt None (set_startedAt (Some now) m)) ;;;
              _ <- slice_to containerID 12 ;;
              Ret None
          end
      end
  end.

Definition Start (c : ctx) : mining (option error) := with_lock mining_mu (Start_body c).

Definition Stop_body (c : ctx) : mining (option error) :=
  m <- load ;;
  if bool_decide (md_state m = MiningStateStopped) then Ret None else
  (if bool_decide (md_containerID m <> "") then
     _ <- svc (svc_StopContainer c (md_containerID m) 10) ;;
     _ <- svc (svc_RemoveContainer c (md_containerID m) true) ;;
     _ <- slice_to (md_containerID m) 12 ;;
     Ret tt
   else Ret tt) ;;;
  update (fun m => set_pausedAt None (set_startedAt None
                     (set_state MiningStateStopped (set_containerID "" m)))) ;;;
  Ret None.

Definition Stop (c : ctx) : mining (option error) := with_lock mining_mu (Stop_body c).

(** The goroutine that [PauseForRental] starts. *)
Definition restart : mining unit :=
  restartCtx <- WithTimeout (30 * Second) ;;
  _ <- Start restartCtx ;;
  Ret tt.

(** [PauseForRental] up to its decision: [true] where GPUs remain, so that
    mining is to be restarted with them. *)
Definition PauseForRental_body (c : ctx) (gpuDeviceIDs : list string) : mining bool :=
  update (mark_rented gpuDeviceIDs) ;;;
  m <- load ;;
  if bool_decide (md_state m = MiningStateRunning) && bool_decide (md_containerID m <> "") then
    _ <- svc (svc_StopContainer c (md_containerID m) 10) ;;
    _ <- svc (svc_RemoveContainer c (md_containerID m) true) ;;
    update (set_containerID "") ;;;
    m <- load ;;
    match getAvailableGPUs m with
    | [] =>
        update (set_state MiningStatePaused) ;;;
        now <- eff1 Now ;;
        update (set_pausedAt (Some now)) ;;;
        Ret false
    | _ => Ret true
    end
  else Ret false.

Definition PauseForRental (c : ctx) (gpuDeviceIDs : list string) : mining (option error) :=
  with_lock mining_mu
    (remaining <- PauseForRental_body c gpuDeviceIDs ;;
     if (remaining : bool) then
       eff1 (Unlock mining_mu) ;;;
       spawn restart ;;;
       eff1 (Lock mining_mu) ;;;
       Ret None
     else Ret None).

Definition ResumeAfterRental (c : ctx) (gpuDeviceIDs : list string) : mining (option error) :=
  eff1 (Lock mining_mu) ;;;
  update (unmark_rented gpuDeviceIDs) ;;;
  m <- load ;;
  if bool_decide (md_state m = MiningStatePaused) || bool_decide (md_state m = MiningStateStopped)
  then
    eff1 (Unlock mining_mu) ;;;
    Start c
  else
    eff1 (Unlock mining_mu) ;;;
    Ret None.

Definition Status : mining MiningStatus :=
  with_lock mining_mu
    (m <- load ;;
     Ret {| ms_State := md_state m; ms_ContainerID := md_containerID m;
            ms_GPUCount := Z.of_nat (length (getAvailableGPUs m));
            ms_StartedAt := md_startedAt m; ms_PausedAt := md_pausedAt m |}).

(** The body of the monitor's [<-ticker.C] arm. *)
Definition monitor_tick (c : ctx) : mining unit :=
  eff1 (Lock mining_mu) ;;;
  m <- load ;;
  if bool_decide (md_state m = MiningStateRunning) && bool_decide (md_containerID m <> "") then
    let! (info, err) := svc (svc_InspectContainer c (md_containerID m)) ;;
    if bool_decide (err <> None) || bool_decide (ci_State info <> "running") then
      update (fun m => set_state MiningStateStopped (set_containerID "" m)) ;;;
      eff1 (Unlock mining_mu) ;;;
      restartCtx <- WithTimeout (30 * Second) ;;
      _ <- Start restartCtx ;;
      Ret tt
    else eff1 (Unlock mining_mu)
  else eff1 (Unlock mining_mu).

(** Which arm of the monitor's [select] fires. *)
Inductive monitor_event : Type :=
| MonitorCtxDone
| MonitorStopCh
| MonitorTick.

(** The monitor over the sequence of arms that fire; [true] when it returned,
    [false] when it is waiting for the next one. *)
Fixpoint MonitorLoop (c : ctx) (events : list monitor_event) : mining bool :=
  match events with
  | [] => Ret false
  | MonitorCtxDone :: _ => Ret true
  | MonitorStopCh :: _ => Ret true
  | MonitorTick :: events =>
      monitor_tick c ;;;
      MonitorLoop c events
  end.

Definition Close : mining unit :=
  m <- load ;;
  if stopCh_closed m then Panic "close of closed channel"
  else update set_stopCh_closed.

End Operations.

(** ** How the operations run *)

Notation "o ↦ r" := (made (Σ := DockerServiceInterface) o r) (at level 60).

(** The daemon while its container is up, and while it gives way. *)
Definition started (id : string) (t : Z) (m : MiningDaemon) : MiningDaemon :=
  set_pausedAt None (set_startedAt (Some t) (set_state MiningStateRunning (set_containerID id m))).
Definition paused (t : Z) (m : MiningDaemon) : MiningDaemon :=
  set_pausedAt (Some t) (set_state MiningStatePaused m).
Definition stopped (m : MiningDaemon) : MiningDaemon :=
  set_pausedAt None (set_startedAt None (set_state MiningStateStopped (set_containerID "" m))).
Definition died (m : MiningDaemon) : MiningDaemon :=
  set_state MiningStateStopped (set_containerID "" m).

Definition short_id (id : string) : bool := (String.length id <? 12)%nat.
Definition long_or_none (id : string) : Prop := id = "" \/ short_id id = false.

Definition trace : Type := list { o : op DockerServiceInterface & res DockerServiceInterface o }.

(** What [Start] asks of Docker, how it ends and what it makes of the daemon. *)
Inductive start_result (c : ctx) (m : MiningDaemon) :
  trace -> outcome (option error) -> MiningDaemon -> Prop :=
| start_disabled : Enabled (md_config m) = false -> start_result c m [] (Done None) m
| start_running : Enabled (md_config m) = true -> md_state m = MiningStateRunning ->
    start_result c m [] (Done None) m
| start_no_gpu t : Enabled (md_config m) = true -> md_state m <> MiningStateRunning ->
    getAvailableGPUs m = [] -> start_result c m [] (Done None) (paused t m)
| start_no_container gpu gpus id e : Enabled (md_config m) = true ->
    md_state m <> MiningStateRunning -> getAvailableGPUs m = gpu :: gpus ->
    start_result c m [svc_CreateContainer c (mining_config m gpu) ↦ (id, Some e)]
      (Done (Some (ErrWrap "failed to create mining container: " e))) m
| start_not_started gpu gpus id e x : Enabled (md_config m) = true ->
    md_state m <> MiningStateRunning -> getAvailableGPUs m = gpu :: gpus ->
    start_result c m [svc_CreateContainer c (mining_config m gpu) ↦ (id, None);
                      svc_StartContainer c id ↦ Some e; svc_RemoveContainer c id true ↦ x]
      (Done (Some (ErrWrap "failed to start mining container: " e))) m
| start_started gpu gpus id t o : Enabled (md_config m) = true ->
    md_state m <> MiningStateRunning -> getAvailableGPUs m = gpu :: gpus ->
    (short_id id = false -> o = Done None) ->
    (short_id id = true -> exists msg, o = Panicked msg) ->
    start_result c m [svc_CreateContainer c (mining_config m gpu) ↦ (id, None);
                      svc_StartContainer c id ↦ None] o (started id t m).

Section Runs.
Context {S : Type} `{F : !Field S MiningDaemon} `{E : !Environment DockerServiceInterface}.
Implicit Types (w : world DockerServiceInterface S) (tr : trace) (m : MiningDaemon).

Definition md_of w : MiningDaemon := get (mem w).
Definition mining_ready w : Prop := locks w !! mining_mu = None.

Lemma md_of_set s w : md_of (set_mem s w) = get s.
Proof. done. Qed.
Lemma md_of_advance w : md_of (advance w) = md_of w.
Proof. unfold md_of. by go_simpl. Qed.
Lemma md_of_called o w : md_of (called o w) = md_of w.
Proof. unfold md_of. by go_simpl. Qed.

Lemma run_slice_to id w :
  exists msg, run (slice_to id 12) w =
    (if short_id id then Panicked msg else Done (String.substring 0 12 id), w).
Proof. unfold slice_to, short_id. eexists. by destruct (String.length id <? 12)%nat. Qed.

Lemma Start_body_runs c w :
  exists tr o w', run (Start_body c) w = (o, w') /\ works MiningDaemon tr w w' /\
    start_result c (md_of w) tr o (md_of w').
Proof.
  unfold Start_body. go_run. fold (md_of w).
  destruct (Enabled (md_config (md_of w))) eqn:Hen; cbn [negb]; cycle 1.
  { go_run. eexists [], _, _. split; [done|]. split; [auto with go|]. by constructor. }
  case_bool_decide as Hst.
  { go_run. eexists [], _, _. split; [done|]. split; [auto with go|]. by constructor. }
  destruct (getAvailableGPUs (md_of w)) as [|gpu gpus] eqn:Hgpu.
  { go_run. eexists _, _, _. split; [done|]. split; [eauto with go|].
    rewrite md_of_set, get_set, advance_mem, mem_set_mem, get_set. by constructor. }
  pose proof (works_refl (T := MiningDaemon) w) as Hw. go_run.
  go_call Hw as [id [e|]]; go_run.
  { eexists _, _, _. split; [done|]. split; [exact Hw|]. rewrite md_of_called. by econstructor. }
  go_call Hw as [e|]; go_run.
  { go_call Hw. eexists _, _, _. split; [done|]. split; [exact Hw|].
    rewrite !md_of_called. by econstructor. }
  edestruct (run_slice_to id) as [msg ->].
  destruct (short_id id) eqn:Hid; go_run;
    (eexists _, _, _; split; [done|]; split; [eauto with go|]);
    rewrite md_of_set, get_set, advance_mem, mem_set_mem, get_set, !called_mem;
    econstructor; eauto; congruence.
Qed.

Lemma Start_body_lock_free c : lock_free (Start_body (S := S) c).
Proof. unfold Start_body, slice_to. solve_lock_free. Qed.

Lemma Start_runs c w :
  mining_ready w ->
  exists tr o w', run (Start c) w = (o, w') /\ works MiningDaemon tr w w' /\
    start_result c (md_of w) tr o (md_of w').
Proof.
  intros Hr. unfold Start. rewrite with_lock_lock_free; [apply Start_body_runs|done|].
  apply Start_body_lock_free.
Qed.

(** [Stop]. *)
Inductive stop_result (c : ctx) (m : MiningDaemon) :
  trace -> outcome (option error) -> MiningDaemon -> Prop :=
| stop_stopped : md_state m = MiningStateStopped -> stop_result c m [] (Done None) m
| stop_no_container : md_state m <> MiningStateStopped -> md_containerID m = "" ->
    stop_result c m [] (Done None) (stopped m)
| stop_container x y : md_state m <> MiningStateStopped -> md_containerID m <> "" ->
    short_id (md_containerID m) = false ->
    stop_result c m [svc_StopContainer c (md_containerID m) 10 ↦ x;
                     svc_RemoveContainer c (md_containerID m) true ↦ y] (Done None) (stopped m)
| stop_panics x y msg : md_state m <> MiningStateStopped -> md_containerID m <> "" ->
    short_id (md_containerID m) = true ->
    stop_result c m [svc_StopContainer c (md_containerID m) 10 ↦ x;
                     svc_RemoveContainer c (md_containerID m) true ↦ y] (Panicked msg) m.

Lemma Stop_runs c w :
  mining_ready w ->
  exists tr o w', run (Stop c) w = (o, w') /\ works MiningDaemon tr w w' /\
    stop_result c (md_of w) tr o (md_of w').
Proof.
  intros Hr. unfold Stop.
  rewrite with_lock_lock_free; [|done|unfold Stop_body, slice_to; solve_lock_free].
  unfold Stop_body. go_run. fold (md_of w). pose proof (works_refl (T := MiningDaemon) w) as Hw.
  case_bool_decide as Hst; go_run.
  { eexists _, _, _. split; [done|]. split; [exact Hw|]. by constructor. }
  case_bool_decide as Hid; go_run; cycle 1.
  { eexists _, _, _. split; [done|]. split; [eauto with go|].
    rewrite md_of_set, get_set. by constructor. }
  go_call Hw. go_call Hw. edestruct (run_slice_to (md_containerID (md_of w))) as [msg ->].
  destruct (short_id _) eqn:Hs; go_run; (eexists _, _, _; split; [done|]; split; [eauto with go|]).
  - rewrite !md_of_called. by econstructor.
  - rewrite md_of_set, get_set, !called_mem. by constructor.
Qed.

(** [PauseForRental]: the calls, the goroutines and the daemon. *)
Inductive pause_result (c : ctx) (gpus : list string) (m : MiningDaemon) :
  trace -> bool -> MiningDaemon -> Prop :=
| pause_idle :
    md_state m <> MiningStateRunning \/ md_containerID m = "" ->
    pause_result c gpus m [] false (mark_rented gpus m)
| pause_all x y t : md_state m = MiningStateRunning -> md_containerID m <> "" ->
    getAvailableGPUs (mark_rented gpus m) = [] ->
    pause_result c gpus m [svc_StopContainer c (md_containerID m) 10 ↦ x;
                           svc_RemoveContainer c (md_containerID m) true ↦ y]
      false (paused t (set_containerID "" (mark_rented gpus m)))
| pause_some x y : md_state m = MiningStateRunning -> md_containerID m <> "" ->
    getAvailableGPUs (mark_rented gpus m) <> [] ->
    pause_result c gpus m [svc_StopContainer c (md_containerID m) 10 ↦ x;
                           svc_RemoveContainer c (md_containerID m) true ↦ y]
      true (set_containerID "" (mark_rented gpus m)).

Lemma PauseForRental_body_runs c gpus w :
  exists tr b w', run (PauseForRental_body c gpus) w = (Done b, w') /\ works MiningDaemon tr w w' /\
    pause_result c gpus (md_of w) tr b (md_of w').
Proof.
  unfold PauseForRental_body. go_run. fold (md_of w). set (m1 := mark_rented gpus (md_of w)).
  assert (Hw : works MiningDaemon [] w (set_mem (set m1 (mem w)) w)) by auto with go.
  set (w1 := set_mem _ w) in *. fold (md_of w1).
  assert (Hm1 : md_of w1 = m1) by (unfold w1; by rewrite md_of_set, get_set). rewrite Hm1.
  change (md_state m1) with (md_state (md_of w)).
  change (md_containerID m1) with (md_containerID (md_of w)).
  case_bool_decide as Hst; [case_bool_decide as Hid|]; cbn [andb]; go_run.
  2,3: eexists _, _, _; (split; [done|]); (split; [exact Hw|]); rewrite Hm1;
    constructor; ((by left) || (by right)).
  go_call Hw. go_call Hw. set (w2 := called _ (called _ w1)) in *.
  assert (Hm2 : md_of w2 = m1) by (unfold w2; by rewrite !md_of_called).
  fold (md_of w2). rewrite Hm2. set (w3 := set_mem _ w2).
  assert (Hw3 : works MiningDaemon _ w w3) by (apply works_set, Hw).
  fold (md_of w3). assert (Hm3 : md_of w3 = set_containerID "" m1)
    by (unfold w3; by rewrite md_of_set, get_set). rewrite Hm3.
  change (getAvailableGPUs (set_containerID "" m1)) with (getAvailableGPUs m1).
  destruct (getAvailableGPUs m1) eqn:Hg; go_run;
    (eexists _, _, _; split; [done|]; split; [eauto with go|]).
  - rewrite md_of_set, get_set, advance_mem, mem_set_mem, get_set.
    fold (md_of w3). rewrite Hm3. by constructor.
  - rewrite Hm3. constructor; [done..|]. fold m1. by rewrite Hg.
Qed.

Lemma PauseForRental_runs c gpus w :
  mining_ready w ->
  exists tr b w1, works MiningDaemon tr w w1 /\ pause_result c gpus (md_of w) tr b (md_of w1) /\
    run (PauseForRental c gpus) w =
      (Done None, if (b : bool) then add_go restart w1 else w1).
Proof.
  intros Hr. unfold PauseForRental.
  rewrite with_lock_bind; [|done|unfold PauseForRental_body; solve_lock_free].
  destruct (PauseForRental_body_runs c gpus w) as (tr & b & w1 & -> & Hw & Hres).
  exists tr, b, w1. split; [done|]. split; [done|].
  pose proof (st_locks _ _ _ (wk_steps _ _ _ Hw)) as Hl.
  assert (Hd : delete mining_mu (<[mining_mu:=Locked]> (locks w)) = locks w1)
    by (rewrite Hl; by apply delete_insert_free).
  rewrite run_deferring. destruct b; go_run.
  - rewrite run_unlock by (rewrite locks_set_locks; apply lookup_insert_eq). go_run.
    rewrite locks_set_locks, Hd, set_locks_set_locks, set_locks_locks.
    rewrite run_lock by (rewrite locks_add_go, Hl; done). go_run.
    rewrite run_unlock by (rewrite locks_set_locks; apply lookup_insert_eq). go_run.
    rewrite locks_set_locks, set_locks_set_locks, locks_add_go, delete_insert_free by by rewrite Hl.
    by rewrite set_locks_id.
  - rewrite run_unlock by (rewrite locks_set_locks; apply lookup_insert_eq). go_run.
    by rewrite locks_set_locks, Hd, set_locks_set_locks, set_locks_locks.
Qed.

Definition unmarked (gpus : list string) w : world DockerServiceInterface S :=
  set_mem (set (unmark_rented gpus (md_of w)) (mem w)) w.

Lemma ResumeAfterRental_runs c gpus w :
  mining_ready w ->
  run (ResumeAfterRental c gpus) w =
    match md_state (md_of w) with
    | MiningStateRunning => (Done None, unmarked gpus w)
    | _ => run (Start c) (unmarked gpus w)
    end.
Proof.
  intros Hr. unfold ResumeAfterRental. rewrite run_bind, run_acquire by done. go_run.
  fold (md_of w). rewrite !mem_set_mem, get_set. fold (unmarked gpus w).
  change (md_state (unmark_rented gpus (md_of w))) with (md_state (md_of w)).
  destruct (md_state (md_of w)); repeat (case_bool_decide; [|]); try done; cbn [orb];
    go_run; rewrite run_release by done; by go_run.
Qed.

(** A tick of the monitor. *)
Inductive tick_result (c : ctx) (m : MiningDaemon) :
  trace -> outcome unit -> MiningDaemon -> Prop :=
| tick_idle : md_state m <> MiningStateRunning \/ md_containerID m = "" ->
    tick_result c m [] (Done tt) m
| tick_alive info : md_state m = MiningStateRunning -> md_containerID m <> "" ->
    ci_State info = "running" ->
    tick_result c m [svc_InspectContainer c (md_containerID m) ↦ (info, None)] (Done tt) m
| tick_dead info err d tr o m' : md_state m = MiningStateRunning -> md_containerID m <> "" ->
    err <> None \/ ci_State info <> "running" ->
    start_result (Deadline d) (died m) tr o m' ->
    tick_result c m ([svc_InspectContainer c (md_containerID m) ↦ (info, err)] ++ tr)
      (outcome_bind o (fun _ => Done tt)) m'.

Lemma monitor_tick_runs c w :
  mining_ready w ->
  exists tr o w', run (monitor_tick c) w = (o, w') /\ works MiningDaemon tr w w' /\
    tick_result c (md_of w) tr o (md_of w').
Proof.
  intros Hr. unfold monitor_tick. rewrite run_bind, run_acquire by done. go_run. fold (md_of w).
  pose proof (works_refl (T := MiningDaemon) w) as Hw.
  case_bool_decide as Hst; [case_bool_decide as Hid|]; cbn [andb]; go_run.
  2,3: rewrite run_release by done; eexists _, _, _; (split; [done|]); (split; [exact Hw|]);
    constructor; ((by left) || (by right)).
  go_call Hw as [info err]. go_run. set (w1 := called _ w) in *.
  assert (Hr1 : mining_ready w1) by (unfold mining_ready, w1; by go_simpl).
  assert (Hm1 : md_of w1 = md_of w) by apply md_of_called.
  destruct (bool_decide (err <> None) || bool_decide (ci_State info <> "running")) eqn:Hd; go_run.
  - fold (md_of w1). rewrite Hm1. fold (died (md_of w)).
    set (w2 := set_mem _ w1). rewrite run_release by done. go_run. unfold WithTimeout. go_run.
    destruct (Start_runs (Deadline (time_add (clk (advance w2)) (30 * Second))) (advance w2))
      as (tr & o & w' & Hrun & Hw' & Hres).
    { unfold mining_ready. by go_simpl. }
    rewrite Hrun, md_of_advance in *. unfold w2 in Hres. rewrite md_of_set, get_set in Hres.
    exists ([svc_InspectContainer c (md_containerID (md_of w)) ↦ (info, err)] ++ tr),
      (outcome_bind o (fun _ => Done tt)), w'.
    split; [by destruct o|]. split.
    + eapply works_app; [|exact Hw']. unfold w2. auto with go.
    + econstructor; [done..| |done]. apply orb_true_iff in Hd.
      destruct Hd as [Hd|Hd]; apply bool_decide_eq_true in Hd; auto.
  - rewrite run_release by done. apply orb_false_iff in Hd as [He Hs].
    apply bool_decide_eq_false, dec_stable in He. apply bool_decide_eq_false, dec_stable in Hs.
    subst err. eexists _, _, w1. split; [done|]. split; [exact Hw|]. rewrite Hm1. by constructor.
Qed.

Lemma restart_runs w :
  mining_ready w ->
  exists d tr o w', run restart w = (outcome_bind o (fun _ => Done tt), w') /\
    works MiningDaemon tr w w' /\ start_result (Deadline d) (md_of w) tr o (md_of w').
Proof.
  intros Hr. unfold restart, WithTimeout. go_run.
  set (d := time_add _ _). exists d.
  destruct (Start_runs (Deadline d) (advance w)) as (tr & o & w' & -> & Hw & Hres).
  { unfold mining_ready. by go_simpl. }
  rewrite md_of_advance in Hres. exists tr, o, w'. split; [by destruct o|]. split; [|done].
  eapply (works_app []); [|exact Hw]. auto with go.
Qed.

Lemma Status_runs w :
  mining_ready w ->
  let m := md_of w in
  run Status w = (Done (MkMiningStatus (md_state m) (md_containerID m)
    (Z.of_nat (length (getAvailableGPUs m))) (md_startedAt m) (md_pausedAt m)), w).
Proof.
  intros Hr. unfold Status. rewrite with_lock_lock_free; [|done|solve_lock_free].
  by go_run.
Qed.

Lemma Close_runs w :
  exists o w', run Close w = (o, w') /\ works MiningDaemon [] w w' /\
    (o = Done tt /\ md_of w' = set_stopCh_closed (md_of w) \/
     (exists msg, o = Panicked msg) /\ stopCh_closed (md_of w) = true /\ w' = w).
Proof.
  unfold Close. go_run. fold (md_of w).
  destruct (stopCh_closed (md_of w)) eqn:Hc; go_run; (eexists _, _; split; [done|]).
  - split; [auto with go|]. right. eauto.
  - split; [auto with go|]. left. by rewrite md_of_set, get_set.
Qed.

End Runs.

(** ** The rented GPUs *)

Lemma rented_mark gpus m g : rented (mark_rented gpus m) g = bool_decide (g ∈ gpus) || rented m g.
Proof.
  unfold rented, mark_rented. cbn [pausedGPUs set_pausedGPUs].
  generalize (pausedGPUs m) as p. induction gpus as [|a gpus IH]; intros p; cbn [foldl].
  - rewrite bool_decide_eq_false_2 by set_solver. done.
  - rewrite IH. destruct (decide (a = g)) as [->|Hn].
    + rewrite lookup_insert_eq, (bool_decide_eq_true_2 (g ∈ g :: gpus)) by set_solver.
      cbn. by rewrite orb_true_r.
    + rewrite lookup_insert_ne by done. f_equal. apply bool_decide_ext. set_solver.
Qed.

Lemma unmark_lookup gpus p (g : string) :
  foldl (fun p gpu => delete gpu p) p gpus !! g =
  if bool_decide (g ∈ gpus) then None else (p : gmap string bool) !! g.
Proof.
  revert p. induction gpus as [|a gpus IH]; intros p; cbn [foldl].
  - by rewrite bool_decide_eq_false_2 by set_solver.
  - rewrite IH. destruct (decide (a = g)) as [->|Hn].
    + rewrite lookup_delete_eq, (bool_decide_eq_true_2 (g ∈ g :: gpus)) by set_solver.
      by case_bool_decide.
    + rewrite lookup_delete_ne by done.
      erewrite (bool_decide_ext (g ∈ a :: gpus)); [done|]. set_solver.
Qed.

Lemma mark_lookup_ne gpus p (g : string) :
  g ∉ gpus -> foldl (fun p gpu => <[gpu:=true]> p) p gpus !! g = (p : gmap string bool) !! g.
Proof.
  revert p. induction gpus as [|a gpus IH]; intros p Hg; cbn [foldl]; [done|].
  rewrite IH by set_solver. apply lookup_insert_ne. set_solver.
Qed.

Lemma rented_unmark gpus m g :
  rented (unmark_rented gpus m) g = negb (bool_decide (g ∈ gpus)) && rented m g.
Proof.
  unfold rented, unmark_rented. cbn [pausedGPUs set_pausedGPUs]. rewrite unmark_lookup.
  by case_bool_decide.
Qed.

(** Returning GPUs that were free before they were rented restores the map. *)
Lemma unmark_mark gpus m :
  (forall g, g ∈ gpus -> pausedGPUs m !! g = None) ->
  unmark_rented gpus (mark_rented gpus m) = m.
Proof.
  intros Hfree. destruct m as [cfg st id sa pa p cl].
  unfold unmark_rented, mark_rented, set_pausedGPUs; cbn in *. f_equal.
  apply map_eq. intros g. rewrite unmark_lookup. case_bool_decide as Hg.
  - by rewrite Hfree.
  - by apply mark_lookup_ne.
Qed.

Lemma available_spec m gpu gpus :
  getAvailableGPUs m = gpu :: gpus ->
  rented m gpu = false /\
  match mc_GPUDeviceIDs (md_config m) with
  | [] => gpu = "all" /\ pausedGPUs m = ∅
  | ids => gpu ∈ ids
  end.
Proof.
  unfold getAvailableGPUs. destruct (mc_GPUDeviceIDs (md_config m)) as [|a ids].
  - destruct (Nat.ltb_spec 0 (size (pausedGPUs m))); [done|]. intros [= <- <-].
    assert (He : pausedGPUs m = ∅) by (apply map_size_empty_inv; lia).
    unfold rented. rewrite He. by rewrite lookup_empty.
  - intros H. assert (Hin : gpu ∈ filter (fun gpu => negb (rented m gpu)) (a :: ids))
      by (rewrite H; set_solver).
    apply list_elem_of_filter in Hin as [Hr Hin]. split; [by destruct (rented m gpu)|done].
Qed.

(** ** The invariant *)

(** A call that creates no mining container, one with its image's own entrypoint;
    and calls of which none does. *)
Definition not_mining_create (o : svc_op) : Prop :=
  match o with
  | svc_CreateContainer _ cfg => cc_UseImageEntrypoint cfg = false
  | _ => True
  end.
Definition no_mining_create (tr : trace) : Prop :=
  Forall (fun x => not_mining_create (projT1 x)) tr.

(** The last mining container that Docker created has the identifier [id]; it
    was given a GPU that is not rented, and when all GPUs may be used, none is. *)
Definition mined_on (m : MiningDaemon) (cs : trace) (id gpu : string) : Prop :=
  (exists c pre post,
     cs = pre ++ [svc_CreateContainer c (mining_config m gpu) ↦ (id, None)] ++ post /\
     no_mining_create post) /\
  rented m gpu = false /\
  match mc_GPUDeviceIDs (md_config m) with
  | [] => gpu = "all" /\ pausedGPUs m = ∅
  | ids => gpu ∈ ids
  end.

(** What holds of the daemon and of the calls made so far. *)
Definition mining_inv (m : MiningDaemon) (cs : trace) : Prop :=
  (md_containerID m <> "" ->
     md_state m = MiningStateRunning /\ exists gpu, mined_on m cs (md_containerID m) gpu) /\
  (md_state m = MiningStatePaused -> md_pausedAt m <> None).

Lemma mining_inv_new config cs : mining_inv (NewMiningDaemon config) cs.
Proof. by split. Qed.

Lemma mining_inv_quiet m cs tr :
  mining_inv m cs -> no_mining_create tr -> mining_inv m (cs ++ tr).
Proof.
  intros [Hm Hp] Htr. split; [|done]. intros Hid. destruct (Hm Hid) as (Hs & gpu & Hc & Hg).
  split; [done|]. exists gpu. split; [|done]. destruct Hc as (c & pre & post & -> & Hpost).
  exists c, pre, (post ++ tr). rewrite <- !app_assoc. split; [done|]. by apply Forall_app.
Qed.

(** A daemon without a container needs no GPU. *)
Lemma mining_inv_none m cs :
  md_containerID m = "" -> (md_state m = MiningStatePaused -> md_pausedAt m <> None) ->
  mining_inv m cs.
Proof. by split. Qed.

Lemma mining_inv_not_running m cs :
  mining_inv m cs -> md_state m <> MiningStateRunning -> md_containerID m = "".
Proof.
  intros [Hm _] Hs. destruct (decide (md_containerID m = "")) as [|Hid]; [done|].
  by apply Hm in Hid as [? _].
Qed.

Lemma mining_inv_start c m cs tr o m' :
  mining_inv m cs -> start_result c m tr o m' -> mining_inv m' (cs ++ tr).
Proof.
  intros Hinv Hres. destruct Hres as
    [Hen|Hen Hs|t Hen Hs Hg|gpu gpus id e Hen Hs Hg|gpu gpus id e x Hen Hs Hg|gpu gpus id t o Hen Hs Hg].
  1,2: apply mining_inv_quiet; [done|constructor].
  - apply mining_inv_none; [exact (mining_inv_not_running _ _ Hinv Hs)|done].
  - apply mining_inv_none; [by eapply mining_inv_not_running|apply Hinv].
  - apply mining_inv_none; [by eapply mining_inv_not_running|apply Hinv].
  - split; [|done]. intros _. split; [done|]. exists gpu. split; [|by eapply available_spec].
    exists c, cs, [svc_StartContainer c id ↦ None]. split; [done|]. by repeat constructor.
Qed.

Lemma mining_inv_stop c m cs tr o m' :
  mining_inv m cs -> stop_result c m tr o m' -> mining_inv m' (cs ++ tr).
Proof.
  intros Hinv Hres. destruct Hres; try (by apply mining_inv_none).
  all: apply mining_inv_quiet; [done|]; by repeat constructor.
Qed.

Lemma mining_inv_pause c gpus m cs tr b m' :
  mining_inv m cs -> pause_result c gpus m tr b m' -> mining_inv m' (cs ++ tr).
Proof.
  intros Hinv Hres. destruct Hres as [Hidle|x y t|x y Hs]; try (by apply mining_inv_none).
  - apply mining_inv_none; [|apply Hinv]. destruct Hidle as [Hs|]; [|done].
    exact (mining_inv_not_running _ _ Hinv Hs).
  - apply mining_inv_none; [done|]. cbn. by rewrite Hs.
Qed.

(** Returning GPUs while a container runs on one that was never away. *)
Lemma mining_inv_unmark gpus m cs : mining_inv m cs -> mining_inv (unmark_rented gpus m) cs.
Proof.
  intros [Hm Hp]. split; [|done]. intros Hid. destruct (Hm Hid) as (Hs & gpu & Hc & Hr & Hg).
  split; [done|]. exists gpu. split; [done|]. split; [by rewrite rented_unmark, Hr, andb_false_r|].
  cbn [md_config unmark_rented set_pausedGPUs].
  destruct (mc_GPUDeviceIDs (md_config m)); [|done]. destruct Hg as [-> He]. split; [done|].
  apply map_eq. intros g. cbn. rewrite unmark_lookup, He, lookup_empty. by case_bool_decide.
Qed.

Lemma mining_inv_tick c m cs tr o m' :
  mining_inv m cs -> tick_result c m tr o m' -> mining_inv m' (cs ++ tr).
Proof.
  intros Hinv Hres. destruct Hres as [Hidle|info|info err d tr o m' Hs Hid Hd Hres].
  - apply mining_inv_quiet; [done|constructor].
  - apply mining_inv_quiet; [done|]. by repeat constructor.
  - rewrite app_assoc. eapply mining_inv_start; [|exact Hres]. by apply mining_inv_none.
Qed.

Section Machine.
Context {S : Type} `{F : !Field S MiningDaemon} `{E : !Environment DockerServiceInterface}.
Implicit Types (w : world DockerServiceInterface S) (tr : trace) (m : MiningDaemon).

(** The daemon in the node: its operations one after the other, in any order
    and however they end, [Stop] only where [stops] is set; in between, other
    components work, which may take time and call Docker, but neither touch the
    daemon nor create a mining container. *)
Inductive mining_step (stops : bool) : world DockerServiceInterface S ->
  world DockerServiceInterface S -> Prop :=
| ms_start c w o w' : run (Start c) w = (o, w') -> mining_step stops w w'
| ms_stop c w o w' : stops = true -> run (Stop c) w = (o, w') -> mining_step stops w w'
| ms_pause c gpus w o w' : run (PauseForRental c gpus) w = (o, w') -> mining_step stops w w'
| ms_resume c gpus w o w' : run (ResumeAfterRental c gpus) w = (o, w') -> mining_step stops w w'
| ms_restart w o w' : run restart w = (o, w') -> mining_step stops w w'
| ms_tick c w o w' : run (monitor_tick c) w = (o, w') -> mining_step stops w w'
| ms_status w o w' : run Status w = (o, w') -> mining_step stops w w'
| ms_close w o w' : run Close w = (o, w') -> mining_step stops w w'
| ms_other tr w w' : md_of w' = md_of w -> (mining_ready w -> mining_ready w') ->
    calls w' = calls w ++ tr -> no_mining_create tr -> mining_step stops w w'.

(** What a step does to the daemon and which calls it adds, with the mutex
    left free. *)
Inductive mining_effect (stops : bool) (m : MiningDaemon) : trace -> MiningDaemon -> Prop :=
| me_start c tr o m' : start_result c m tr o m' -> mining_effect stops m tr m'
| me_stop c tr o m' : stops = true -> stop_result c m tr o m' -> mining_effect stops m tr m'
| me_pause c gpus tr b m' : pause_result c gpus m tr b m' -> mining_effect stops m tr m'
| me_resume c gpus tr o m' : md_state m <> MiningStateRunning ->
    start_result c (unmark_rented gpus m) tr o m' -> mining_effect stops m tr m'
| me_unmark gpus : md_state m = MiningStateRunning ->
    mining_effect stops m [] (unmark_rented gpus m)
| me_tick c tr o m' : tick_result c m tr o m' -> mining_effect stops m tr m'
| me_close : mining_effect stops m [] (set_stopCh_closed m)
| me_quiet tr : no_mining_create tr -> mining_effect stops m tr m.

Lemma works_effect tr w w' :
  works MiningDaemon tr w w' -> mining_ready w ->
  mining_ready w' /\ calls w' = calls w ++ tr.
Proof. intros [[Hl _ Hc _] _]. unfold mining_ready. by rewrite Hl. Qed.

Lemma mining_step_effect stops w w' :
  mining_ready w -> mining_step stops w w' ->
  exists tr, mining_ready w' /\ calls w' = calls w ++ tr /\
    mining_effect stops (md_of w) tr (md_of w').
Proof.
  intros Hr Hstep. destruct Hstep as
    [c w o w' Hrun|c w o w' Hs Hrun|c gpus w o w' Hrun|c gpus w o w' Hrun|w o w' Hrun|c w o w' Hrun
    |w o w' Hrun|w o w' Hrun|tr w w' Hm Hl Hc Htr].
  - destruct (Start_runs c w Hr) as (tr & o' & w1 & Hrun' & Hw & Hres).
    rewrite Hrun' in Hrun. injection Hrun as -> ->. destruct (works_effect _ _ _ Hw Hr).
    exists tr. eauto using me_start.
  - destruct (Stop_runs c w Hr) as (tr & o' & w1 & Hrun' & Hw & Hres).
    rewrite Hrun' in Hrun. injection Hrun as -> ->. destruct (works_effect _ _ _ Hw Hr).
    exists tr. eauto using me_stop.
  - destruct (PauseForRental_runs c gpus w Hr) as (tr & b & w1 & Hw & Hres & Hrun').
    rewrite Hrun' in Hrun. injection Hrun as _ <-. destruct (works_effect _ _ _ Hw Hr).
    exists tr. destruct b; eauto using me_pause.
  - rewrite ResumeAfterRental_runs in Hrun by done.
    assert (Hw1 : works MiningDaemon [] w (unmarked gpus w)) by (unfold unmarked; auto with go).
    assert (Hm1 : md_of (unmarked gpus w) = unmark_rented gpus (md_of w))
      by (unfold unmarked; by rewrite md_of_set, get_set).
    destruct (Start_runs c (unmarked gpus w) Hr) as (tr & o' & w1 & Hrun' & Hw & Hres).
    rewrite Hm1 in Hres. destruct (works_effect _ _ _ Hw Hr) as [Hr1 Hc1].
    destruct (md_state (md_of w)) eqn:Hs; rewrite ?Hrun' in Hrun; injection Hrun as _ <-.
    1,3: exists tr; split; [done|]; split; [done|]; eapply me_resume; [|done]; by rewrite Hs.
    exists []. split; [done|]. rewrite app_nil_r. split; [done|]. rewrite Hm1. by apply me_unmark.
  - destruct (restart_runs w Hr) as (d & tr & o' & w1 & Hrun' & Hw & Hres).
    rewrite Hrun' in Hrun. injection Hrun as _ ->. destruct (works_effect _ _ _ Hw Hr).
    exists tr. eauto using me_start.
  - destruct (monitor_tick_runs c w Hr) as (tr & o' & w1 & Hrun' & Hw & Hres).
    rewrite Hrun' in Hrun. injection Hrun as -> ->. destruct (works_effect _ _ _ Hw Hr).
    exists tr. eauto using me_tick.
  - rewrite Status_runs in Hrun by done. injection Hrun as _ <-. exists [].
    rewrite app_nil_r. split; [done|]. split; [done|]. apply me_quiet. constructor.
  - destruct (Close_runs w) as (o' & w1 & Hrun' & Hw & Hres).
    rewrite Hrun' in Hrun. injection Hrun as -> ->. destruct (works_effect _ _ _ Hw Hr).
    exists []. split; [done|]. split; [done|].
    destruct Hres as [[_ ->]|(_ & _ & ->)]; [apply me_close|apply me_quiet; constructor].
  - exists tr. split; [auto|]. split; [done|]. rewrite Hm. by apply me_quiet.
Qed.

Lemma mining_inv_effect stops m cs tr m' :
  mining_inv m cs -> mining_effect stops m tr m' -> mining_inv m' (cs ++ tr).
Proof.
  intros Hinv Heff. destruct Heff; eauto using mining_inv_start, mining_inv_stop,
    mining_inv_pause, mining_inv_tick, mining_inv_quiet, mining_inv_unmark.
  - rewrite app_nil_r. by apply mining_inv_unmark.
  - rewrite app_nil_r. exact Hinv.
Qed.

Lemma mining_inv_reachable stops w w' :
  mining_ready w -> mining_inv (md_of w) (calls w) -> rtc (mining_step stops) w w' ->
  mining_ready w' /\ mining_inv (md_of w') (calls w').
Proof.
  intros Hr Hinv Hsteps. revert Hr Hinv. induction Hsteps as [|w w1 w' Hstep _ IH]; [done|].
  intros Hr Hinv. destruct (mining_step_effect _ _ _ Hr Hstep) as (tr & Hr1 & Hc & Heff).
  apply IH; [done|]. rewrite Hc. by eapply mining_inv_effect.
Qed.

(** Running without a container: nothing but [Stop] gets the daemon out. *)
Definition stuck (m : MiningDaemon) : Prop :=
  md_state m = MiningStateRunning /\ md_containerID m = "".

Lemma stuck_effect m tr m' :
  stuck m -> mining_effect false m tr m' -> stuck m' /\ no_mining_create tr.
Proof.
  intros [Hs Hid] Heff. destruct Heff as
    [c tr o m' Hres|c tr o m' Hst Hres|c gpus tr b m' Hres|c gpus tr o m' Hn Hres|gpus Hn|c tr o m' Hres| |].
  - destruct Hres; try congruence; (split; [by split|constructor]).
  - done.
  - destruct Hres; try congruence; (split; [by split|constructor]).
  - done.
  - split; [by split|constructor].
  - destruct Hres; try congruence; (split; [by split|constructor]).
  - split; [by split|constructor].
  - by split.
Qed.

Lemma stuck_reachable w w' :
  mining_ready w -> stuck (md_of w) -> rtc (mining_step false) w w' ->
  stuck (md_of w') /\ exists tr, calls w' = calls w ++ tr /\ no_mining_create tr.
Proof.
  intros Hr Hst Hsteps. revert Hr Hst. induction Hsteps as [w|w w1 w' Hstep _ IH]; intros Hr Hst.
  { split; [done|]. exists []. rewrite app_nil_r. split; [done|constructor]. }
  destruct (mining_step_effect _ _ _ Hr Hstep) as (tr & Hr1 & Hc & Heff).
  apply stuck_effect in Heff as [Hst1 Htr]; [|done].
  destruct (IH Hr1 Hst1) as (Hst' & tr' & Hc' & Htr'). split; [done|].
  exists (tr ++ tr'). rewrite Hc', Hc, app_assoc. split; [done|]. by apply Forall_app.
Qed.

End Machine.

(** ** Properties *)

Section Properties.
Context {S : Type} `{F : !Field S MiningDaemon} `{E : !Environment DockerServiceInterface}.
Implicit Types (w : world DockerServiceInterface S) (tr : trace) (m : MiningDaemon).

(** C8: Whatever sequence of starts, stops, pauses, resumptions, background
    restarts and monitor ticks the daemon goes through, even one in which
    operations panic, it never holds a container on a rented GPU: the container
    it tracks is the last one that was created for mining, it was given a
    configured GPU that is not rented now (or [all], while no GPU is rented), the
    daemon is running, and its mutex is free. *)
Theorem mined_gpu_not_rented w w' config :
  mining_ready w -> md_of w = NewMiningDaemon config -> rtc (mining_step true) w w' ->
  mining_ready w' /\
  (md_containerID (md_of w') <> "" ->
   md_state (md_of w') = MiningStateRunning /\
   exists gpu, mined_on (md_of w') (calls w') (md_containerID (md_of w')) gpu).
Proof.
  intros Hr Hm Hsteps. destruct (mining_inv_reachable true w w' Hr) as [Hr' [Hinv _]]; [|done|].
  - rewrite Hm. apply mining_inv_new.
  - by split.
Qed.

(** C27: [Start] on every branch.  Disabled or already running, it does nothing;
    without an available GPU it pauses; an error leaves the daemon as it was,
    with every container that was created removed again; otherwise it runs a
    container on the first available GPU, and panics exactly when Docker's
    identifier is too short for the log line, which is after the daemon's state
    was set. *)
Theorem Start_correct c w :
  mining_ready w ->
  let m := md_of w in
  exists tr o w', run (Start c) w = (o, w') /\ works MiningDaemon tr w w' /\
    (Enabled (md_config m) = false \/ md_state m = MiningStateRunning ->
       tr = [] /\ o = Done None /\ md_of w' = m) /\
    (Enabled (md_config m) = true -> md_state m <> MiningStateRunning ->
       (getAvailableGPUs m = [] ->
          tr = [] /\ o = Done None /\ md_state (md_of w') = MiningStatePaused /\
          md_containerID (md_of w') = md_containerID m) /\
       (forall gpu gpus, getAvailableGPUs m = gpu :: gpus ->
          (forall e, o = Done (Some e) -> md_of w' = m /\
             forall cfg id, svc_CreateContainer c cfg ↦ (id, None) ∈ tr ->
               exists x, svc_RemoveContainer c id true ↦ x ∈ tr) /\
          ((forall e, o <> Done (Some e)) ->
             let id := md_containerID (md_of w') in
             tr = [svc_CreateContainer c (mining_config m gpu) ↦ (id, None);
                   svc_StartContainer c id ↦ None] /\
             md_state (md_of w') = MiningStateRunning /\
             (o = Done None <-> (12 <= String.length id)%nat)))).
Proof.
  intros Hr m. destruct (Start_runs c w Hr) as (tr & o & w' & Hrun & Hw & Hres). fold m in Hres.
  exists tr, o, w'. split; [done|]. split; [done|].
  destruct Hres as [Hen|Hen Hs|t Hen Hs Hg|gpu gpus id e Hen Hs Hg|gpu gpus id e x Hen Hs Hg
                   |gpu gpus id t o Hen Hs Hg Hok Hsh]; rewrite ?Hen.
  - by split.
  - by split.
  - split; [by intros [|]|]. intros _ _. rewrite Hg. split; [done|]. by intros ?? [=].
  - split; [by intros [|]|]. intros _ _. split; [by rewrite Hg|].
    intros gpu' gpus' [= -> ->]%(eq_trans (eq_sym Hg)). split; [|intros H; by destruct (H _ eq_refl)].
    intros e' _. split; [done|]. intros cfg id' [H|H]%elem_of_cons; [|by apply elem_of_nil in H].
    pose proof (made_op (Σ := DockerServiceInterface) _ _ _ _ H) as [= ->].
    by apply (made_inj (Σ := DockerServiceInterface)) in H.
  - split; [by intros [|]|]. intros _ _. split; [by rewrite Hg|].
    intros gpu' gpus' [= -> ->]%(eq_trans (eq_sym Hg)). split; [|intros H; by destruct (H _ eq_refl)].
    intros e' _. split; [done|]. intros cfg id' [H|H]%elem_of_cons.
    + pose proof (made_op (Σ := DockerServiceInterface) _ _ _ _ H) as [= ->].
      apply (made_inj (Σ := DockerServiceInterface)) in H as [= ->]. exists x. set_solver.
    + repeat (apply elem_of_cons in H as [H|H]; [by apply (made_op (Σ := DockerServiceInterface)) in H|]).
      by apply elem_of_nil in H.
  - split; [by intros [|]|]. intros _ _. split; [by rewrite Hg|].
    intros gpu' gpus' [= -> ->]%(eq_trans (eq_sym Hg)). unfold short_id in *.
    split.
    + intros e ->. destruct (Nat.ltb_spec (String.length id) 12).
      * by destruct (Hsh eq_refl) as [msg [=]].
      * by specialize (Hok eq_refl).
    + intros _. cbn. split; [done|]. split; [done|].
      destruct (Nat.ltb_spec (String.length id) 12).
      * destruct (Hsh eq_refl) as [msg ->]. split; [done|lia].
      * split; [done|]. by rewrite Hok.
Qed.

(** [Stop] always leaves the daemon stopped, without a container and
    startable again, after asking Docker to stop and then remove the container
    it tracked, whatever Docker answers; only for a container whose identifier is
    too short for the log line does it panic, and then it keeps tracking the
    container it removed. *)
Theorem Stop_correct c w :
  mining_ready w ->
  let m := md_of w in
  exists o w' tr, run (Stop c) w = (o, w') /\ works MiningDaemon tr w w' /\
    (md_state m <> MiningStateStopped -> md_containerID m <> "" -> exists x y,
       tr = [svc_StopContainer c (md_containerID m) 10 ↦ x;
             svc_RemoveContainer c (md_containerID m) true ↦ y]) /\
    (o = Done None -> md_state (md_of w') = MiningStateStopped /\
       (md_state m <> MiningStateStopped -> md_containerID (md_of w') = "") /\
       pausedGPUs (md_of w') = pausedGPUs m) /\
    (o <> Done None -> md_of w' = m /\ md_containerID m <> "" /\
       (String.length (md_containerID m) < 12)%nat).
Proof.
  intros Hr m. destruct (Stop_runs c w Hr) as (tr & o & w' & Hrun & Hw & Hres). fold m in Hres.
  exists o, w', tr. split; [done|]. split; [done|].
  destruct Hres as [Hs|Hs Hid|x y Hs Hid Hsh|x y msg Hs Hid Hsh]; rewrite ?Hs.
  - repeat split; done.
  - repeat split; done.
  - split; [by eauto|]. split; [by repeat split|done].
  - split; [by eauto|]. split; [done|]. intros _. split; [done|]. split; [done|].
    by apply Nat.ltb_lt.
Qed.

(** C23: A rental that takes some of the GPUs, but not all of them, ends mining
    for good: the container is stopped and removed and a background restart is
    started, but the daemon still counts as running, so that this restart, every
    later [Start], every resumption and every tick of the monitor creates no
    container and leaves the daemon running without one.
    Only an explicit [Stop] gets it out. *)
Theorem partial_rental_ends_mining c gpus w :
  mining_ready w -> md_state (md_of w) = MiningStateRunning -> md_containerID (md_of w) <> "" ->
  getAvailableGPUs (mark_rented gpus (md_of w)) <> [] ->
  exists w1, run (PauseForRental c gpus) w = (Done None, w1) /\ gos w1 = gos w ++ [restart] /\
    forall w2, rtc (mining_step false) w1 w2 ->
      md_state (md_of w2) = MiningStateRunning /\ md_containerID (md_of w2) = "" /\
      exists tr, calls w2 = calls w1 ++ tr /\ no_mining_create tr.
Proof.
  intros Hr Hs Hid Hg. destruct (PauseForRental_runs c gpus w Hr) as (tr & b & w1 & Hw & Hres & Hrun).
  inversion Hres as [[]|x y t|x y _ _ _ Htr Hb Hm]; subst b; try congruence.
  exists (add_go restart w1). split; [done|].
  split; [rewrite gos_add_go; by rewrite (st_gos _ _ _ (wk_steps _ _ _ Hw))|].
  intros w2 Hsteps. destruct (works_effect _ _ _ Hw Hr) as [Hr1 _].
  destruct (stuck_reachable (add_go restart w1) w2) as [[Hs2 Hid2] Hc]; [done| |done|].
  - change (md_of (add_go restart w1)) with (md_of w1). rewrite <- Hm. by split.
  - done.
Qed.

(** A rental of all the GPUs, and its end: the container is stopped and removed;
    then the map of rented GPUs is as it was, and a container is created on the
    first GPU that was available before. *)
Lemma full_rental_runs c c' gpus w :
  mining_ready w -> Enabled (md_config (md_of w)) = true ->
  md_state (md_of w) = MiningStateRunning -> md_containerID (md_of w) <> "" ->
  getAvailableGPUs (md_of w) <> [] -> getAvailableGPUs (mark_rented gpus (md_of w)) = [] ->
  (forall g, g ∈ gpus -> pausedGPUs (md_of w) !! g = None) ->
  exists w1, run (PauseForRental c gpus) w = (Done None, w1) /\ gos w1 = gos w /\
    md_state (md_of w1) = MiningStatePaused /\
    (exists x y, calls w1 = calls w ++ [svc_StopContainer c (md_containerID (md_of w)) 10 ↦ x;
                                        svc_RemoveContainer c (md_containerID (md_of w)) true ↦ y]) /\
    forall w2, mining_ready w2 -> md_of w2 = md_of w1 ->
    exists gpu id e tr o w3, head (getAvailableGPUs (md_of w)) = Some gpu /\
      run (ResumeAfterRental c' gpus) w2 = (o, w3) /\
      calls w3 = calls w2 ++ [svc_CreateContainer c' (mining_config (md_of w) gpu) ↦ (id, e)] ++ tr /\
      pausedGPUs (md_of w3) = pausedGPUs (md_of w) /\
      ((forall e, o <> Done (Some e)) ->
         md_state (md_of w3) = MiningStateRunning /\ md_containerID (md_of w3) = id).
Proof.
  intros Hr Hen Hs Hid Hav Hg Hfree.
  destruct (PauseForRental_runs c gpus w Hr) as (tr & b & w1 & Hw & Hres & Hrun).
  inversion Hres as [[]|x y t _ _ _ Htr Hb Hm|x y]; subst b; try congruence. exists w1.
  split; [done|]. split; [apply Hw|]. rewrite <- Hm. split; [done|].
  split; [exists x, y; exact (st_calls _ _ _ (wk_steps _ _ _ Hw))|]. intros w2 Hr2 Hm2.
  set (m2 := unmark_rented gpus (md_of w2)).
  assert (Hp2 : pausedGPUs m2 = pausedGPUs (md_of w)).
  { unfold m2. rewrite Hm2. by apply (f_equal pausedGPUs (unmark_mark gpus (md_of w) Hfree)). }
  assert (Hc2 : md_config m2 = md_config (md_of w)) by (unfold m2; by rewrite Hm2).
  assert (Hg2 : getAvailableGPUs m2 = getAvailableGPUs (md_of w))
    by (unfold getAvailableGPUs, rented; by rewrite Hp2, Hc2).
  assert (Hs2 : md_state m2 = MiningStatePaused) by (unfold m2; by rewrite Hm2).
  destruct (getAvailableGPUs (md_of w)) as [|gpu gpus'] eqn:Hgs; [done|].
  destruct (Start_runs c' (unmarked gpus w2) Hr2) as (tr' & o & w3 & Hrun3 & Hw3 & Hres3).
  unfold unmarked at 1 in Hres3. rewrite md_of_set, get_set in Hres3. fold m2 in Hres3.
  assert (Hcfg : mining_config m2 gpu = mining_config (md_of w) gpu)
    by (unfold mining_config; by rewrite Hc2).
  rewrite ResumeAfterRental_runs, Hm2 by done. cbn [md_state paused set_state set_pausedAt].
  rewrite Hrun3. destruct (works_effect _ _ _ Hw3 Hr2) as [_ Hcalls].
  change (calls (unmarked gpus w2)) with (calls w2) in Hcalls.
  inversion Hres3 as [He|He Hs3|t' ? ? Hg3|gpu0 gpus0 id e _ _ Hg3|gpu0 gpus0 id e z _ _ Hg3
    |gpu0 gpus0 id t' o' _ _ Hg3 Hok Hsh Htr3 Ho3 Hm3]; try congruence;
    (rewrite Hg2 in Hg3; injection Hg3 as <- <-; rewrite Hcfg in *; subst tr';
     eexists gpu, id, _, _, _, w3; split; [done|]; split; [done|]; split; [exact Hcalls|]).
  - subst o. split; [congruence|]. intros Hn. by destruct (Hn _ eq_refl).
  - subst o. split; [congruence|]. intros Hn. by destruct (Hn _ eq_refl).
  - rewrite <- Hm3. by split.
Qed.

(** C24: A rental of all the GPUs is a round trip.  A start has put a container on
    a GPU and left the daemon running; while its state is still that, all the
    GPUs are rented: mining pauses and Docker is asked to stop and remove the
    container.  When the same GPUs, none of which was rented before, are
    returned, the map of rented GPUs is as it was, and a container is created
    with the same configuration, on the same GPU; mining runs again if Docker
    lets it. *)
Theorem full_rental_round_trip c0 c c' gpus w0 w :
  mining_ready w0 -> Enabled (md_config (md_of w0)) = true -> md_state (md_of w0) <> MiningStateRunning ->
  run (Start c0) w0 = (Done None, w) -> md_state (md_of w) = MiningStateRunning ->
  md_containerID (md_of w) <> "" ->
  getAvailableGPUs (mark_rented gpus (md_of w0)) = [] ->
  (forall g, g ∈ gpus -> pausedGPUs (md_of w0) !! g = None) ->
  exists gpu, calls w = calls w0 ++ [svc_CreateContainer c0 (mining_config (md_of w0) gpu) ↦ (md_containerID (md_of w), None);
                                     svc_StartContainer c0 (md_containerID (md_of w)) ↦ None] /\
  forall w1, mining_ready w1 -> md_of w1 = md_of w ->
  exists w2 x y, run (PauseForRental c gpus) w1 = (Done None, w2) /\ gos w2 = gos w1 /\
    md_state (md_of w2) = MiningStatePaused /\
    calls w2 = calls w1 ++ [svc_StopContainer c (md_containerID (md_of w)) 10 ↦ x;
                            svc_RemoveContainer c (md_containerID (md_of w)) true ↦ y] /\
  forall w3, mining_ready w3 -> md_of w3 = md_of w2 ->
  exists id e tr o w4, run (ResumeAfterRental c' gpus) w3 = (o, w4) /\
    calls w4 = calls w3 ++ [svc_CreateContainer c' (mining_config (md_of w0) gpu) ↦ (id, e)] ++ tr /\
    pausedGPUs (md_of w4) = pausedGPUs (md_of w0) /\
    ((forall e, o <> Done (Some e)) ->
       md_state (md_of w4) = MiningStateRunning /\ md_containerID (md_of w4) = id).
Proof.
  intros Hr Hen Hs Hrun Hs' Hid Hall Hfree.
  destruct (Start_runs c0 w0 Hr) as (tr & o & w' & Hrun' & Hw & Hres).
  rewrite Hrun' in Hrun. injection Hrun as -> ->. destruct (works_effect _ _ _ Hw Hr) as [_ Hcalls].
  inversion Hres as [|? Hrn|t ? ? _ Htr Hm|gpu gpus' id e|gpu gpus' id e x|gpu gpus' id t o' _ _ Hg Ho _ Htr Ho' Hm]; subst;
    try congruence.
  { by replace (md_of w) with (paused t (md_of w0)) in Hs'. }
  match goal with H : started id t _ = md_of w |- _ => rewrite <- H in * end. cbn [started md_containerID set_containerID set_state set_startedAt set_pausedAt] in *.
  exists gpu. split; [done|]. intros w1 Hr1 Hm1.
  destruct (full_rental_runs c c' gpus w1) as (w2 & Hp & Hgos & Hst2 & (x & y & Hc2) & Hback);
    rewrite ?Hm1; try done; [by change (getAvailableGPUs (started id t (md_of w0))) with (getAvailableGPUs (md_of w0)); rewrite Hg|].
  rewrite Hm1 in Hc2, Hback. exists w2, x, y. do 4 (split; [done|]). intros w3 Hr3 Hm3.
  destruct (Hback w3 Hr3 Hm3) as (gpu' & id' & e & tr & o & w4 & Hhd & Hrest).
  change (getAvailableGPUs (started id t (md_of w0))) with (getAvailableGPUs (md_of w0)) in Hhd.
  rewrite Hg in Hhd. injection Hhd as <-. by exists id', e, tr, o, w4.
Qed.

(** C38: The monitor restarts a mining container that it does not find running,
    through a fresh [Start] of a daemon that has forgotten it, and otherwise
    changes nothing.  The only container it may remove is the one it has just
    created: the dead one stays, under the name the new one is given. *)
Theorem monitor_tick_correct c w :
  mining_ready w ->
  let m := md_of w in
  exists tr o w', run (monitor_tick c) w = (o, w') /\ works MiningDaemon tr w w' /\
    (md_state m <> MiningStateRunning \/ md_containerID m = "" -> tr = [] /\ md_of w' = m) /\
    (md_state m = MiningStateRunning -> md_containerID m <> "" ->
     exists info err tr', tr = [svc_InspectContainer c (md_containerID m) ↦ (info, err)] ++ tr' /\
       (err = None /\ ci_State info = "running" -> tr' = [] /\ md_of w' = m) /\
       (err <> None \/ ci_State info <> "running" -> Enabled (md_config m) = true ->
        forall gpu gpus, getAvailableGPUs m = gpu :: gpus ->
        exists d id e tr'', tr' = [svc_CreateContainer (Deadline d) (mining_config m gpu) ↦ (id, e)] ++ tr'' /\
          forall c' id' b x, svc_RemoveContainer c' id' b ↦ x ∈ tr -> id' = id)).
Proof.
  intros Hr m. destruct (monitor_tick_runs c w Hr) as (tr & o & w' & Hrun & Hw & Hres).
  fold m in Hres. exists tr, o, w'. split; [done|]. split; [done|].
  destruct Hres as [Hidle|info Hs Hid Hup|info err d tr o m' Hs Hid Hd Hres].
  - split; [done|]. intros ??. by destruct Hidle.
  - split; [by intros [|]|]. intros _ _. exists info, None, []. split; [done|]. split; [done|].
    by intros [|].
  - split; [by intros [|]|]. intros _ _. exists info, err, tr. split; [done|].
    split; [intros [-> ?]; by destruct Hd|]. intros _ Hen gpu gpus Hg.
    change (getAvailableGPUs m) with (getAvailableGPUs (died m)) in Hg.
    inversion Hres as [He|? He|t ? ? He|gpu0 gpus0 id e ? ? He|gpu0 gpus0 id e x ? ? He
      |gpu0 gpus0 id t ? ? ? He]; subst; try (cbn in *; congruence);
      rewrite Hg in He; injection He as <- <-; eexists d, id, _, _; (split; [done|]);
      intros c' id' b y Hin; cbn [app] in Hin;
      repeat (apply elem_of_cons in Hin as [Hin|Hin];
              [apply (made_op (Σ := DockerServiceInterface)) in Hin; congruence|]);
      by apply elem_of_nil in Hin.
Qed.

End Properties.

(** ** A concrete node

    Docker accepts everything; the mining container is found running, or not. *)

Definition mining_env (alive : bool) : Environment DockerServiceInterface := {|
  env_state := unit;
  env_call (o : op DockerServiceInterface) _ e :=
    (match o return svc_res o with
     | svc_CreateContainer _ _ => ("0123456789abcdef", None)
     | svc_InspectContainer _ id =>
         (MkContainerInfo id 0 (if alive then "running" else "exited") "", None)
     | _ => None
     end, e);
  env_elapse e := (0%N, e);
  env_cancelled _ _ := false;
|}.

Definition two_gpus : MiningConfig :=
  {| Enabled := true; WalletAddress := ""; mc_Image := "mingeyom/worldland-mio:latest";
     mc_GPUDeviceIDs := ["0"; "1"]; DataDir := "/data/worldland"; ChainID := 10396;
     P2PPort := 30303; HTTPRPCPort := 8545; ExtraArgs := [] |}.

Definition mining_world (alive : bool) (m : MiningDaemon)
  : @world DockerServiceInterface MiningDaemon (mining_env alive) :=
  @World DockerServiceInterface _ (mining_env alive) 0 tt ∅ m [] [].

(** The daemon on two GPUs, running since time 0. *)
Definition two_gpus_up : MiningDaemon := started "0123456789abcdef" 0 (NewMiningDaemon two_gpus).

Lemma mined_gpu_not_rented_witness :
  let w := mining_world true (NewMiningDaemon two_gpus) in
  exists w' gpu, rtc (mining_step true) w w' /\ rented (md_of w') "0" = true /\
    mined_on (md_of w') (calls w') "0123456789abcdef" gpu.
Proof.
  intros w.
  pose (w1 := snd (run (PauseForRental Background ["0"]) w)).
  pose (w2 := snd (run (Start Background) w1)).
  assert (H1 : run (PauseForRental Background ["0"]) w = (Done None, w1))
    by (unfold w1; apply pair_fst; by vm_compute).
  assert (H2 : run (Start Background) w1 = (Done None, w2))
    by (unfold w2; apply pair_fst; by vm_compute).
  assert (Hsteps : rtc (mining_step true) w w2)
    by (eapply rtc_l; [exact (ms_pause _ _ _ _ _ _ H1)|];
        eapply rtc_l; [exact (ms_start _ _ _ _ _ H2)|]; apply rtc_refl).
  destruct (mined_gpu_not_rented w w2 two_gpus) as [_ H]; [done|done|exact Hsteps|].
  destruct H as (_ & gpu & Hg); [by vm_compute|].
  exists w2, gpu. split; [exact Hsteps|]. split; [by vm_compute|]. exact Hg.
Defined.

Lemma Start_correct_witness :
  let w := mining_world true (NewMiningDaemon two_gpus) in
  exists tr w', run (Start Background) w = (Done None, w') /\ calls w' = tr /\ length tr = 2%nat /\
    md_state (md_of w') = MiningStateRunning.
Proof.
  intros w. destruct (Start_correct Background w) as (tr & o & w' & Hrun & Hw & _ & H); [done|].
  destruct (H eq_refl) as [_ H2]; [done|]. destruct (H2 "0" ["1"]) as [_ H3]; [reflexivity|].
  assert (Ho : fst (run (Start Background) w) = Done None) by by vm_compute.
  rewrite Hrun in Ho. cbn in Ho. subst o. destruct H3 as (Htr & Hs & _); [done|].
  exists tr, w'. split; [done|]. split; [exact (st_calls _ _ _ (wk_steps _ _ _ Hw))|].
  by rewrite Htr.
Defined.

Lemma Stop_correct_witness :
  let w := mining_world true two_gpus_up in
  exists o w', run (Stop Background) w = (o, w') /\ length (calls w') = 2%nat.
Proof.
  intros w. destruct (Stop_correct Background w) as (o & w' & tr & Hrun & Hw & H & _); [done|].
  destruct H as (x & y & Htr); [done|done|]. exists o, w'. split; [done|].
  rewrite (st_calls _ _ _ (wk_steps _ _ _ Hw)). by rewrite Htr.
Defined.

Lemma partial_rental_ends_mining_witness :
  let w := mining_world true two_gpus_up in
  exists w1, run (PauseForRental Background ["0"]) w = (Done None, w1) /\
    getAvailableGPUs (md_of w1) = ["1"] /\
    forall w2, rtc (mining_step false) w1 w2 -> md_containerID (md_of w2) = "".
Proof.
  intros w.
  destruct (partial_rental_ends_mining Background ["0"] w) as (w1 & Hrun & _ & H);
    [done|done|done|done|].
  exists w1. split; [done|]. split; [|by intros w2 Hw2; apply H].
  assert (Hg : getAvailableGPUs (@md_of _ _ (mining_env true)
                 (snd (run (PauseForRental Background ["0"]) w))) = ["1"]) by by vm_compute.
  by rewrite Hrun in Hg.
Defined.

Lemma full_rental_round_trip_witness :
  let w0 := mining_world true (NewMiningDaemon two_gpus) in
  exists w w2 w4, run (Start Background) w0 = (Done None, w) /\
    run (PauseForRental Background ["0"; "1"]) w = (Done None, w2) /\
    md_state (md_of w2) = MiningStatePaused /\
    run (ResumeAfterRental Background ["0"; "1"]) w2 = (Done None, w4) /\
    md_state (md_of w4) = MiningStateRunning.
Proof.
  intros w0. pose (w := snd (run (Start Background) w0)).
  assert (H0 : run (Start Background) w0 = (Done None, w)) by (unfold w; apply pair_fst; by vm_compute).
  destruct (full_rental_round_trip Background Background Background ["0"; "1"] w0 w) as (gpu & _ & H);
    [done|done|done|exact H0|by vm_compute|by vm_compute|by vm_compute|intros g _; apply lookup_empty|].
  destruct (H w ltac:(by vm_compute) eq_refl) as (w2 & x & y & Hrun & _ & Hp & _ & Hb).
  assert (Hr2 : mining_ready (snd (run (PauseForRental Background ["0"; "1"]) w))) by by vm_compute.
  rewrite Hrun in Hr2.
  destruct (Hb w2 Hr2 eq_refl) as (id & e & tr & o & w4 & Hrun4 & _ & _ & Hok).
  assert (Ho : fst (run (ResumeAfterRental Background ["0"; "1"])
                 (snd (run (PauseForRental Background ["0"; "1"]) w))) = Done None) by by vm_compute.
  rewrite Hrun in Ho. cbn [snd] in Ho. rewrite Hrun4 in Ho. cbn [fst] in Ho. subst o.
  exists w, w2, w4. split; [exact H0|]. split; [done|]. split; [done|]. split; [done|]. by apply Hok.
Defined.

Lemma monitor_tick_correct_witness :
  let w := mining_world false two_gpus_up in
  exists tr o w', run (monitor_tick Background) w = (o, w') /\ calls w' = tr /\ tr <> [].
Proof.
  intros w.
  destruct (monitor_tick_correct Background w) as (tr & o & w' & Hrun & Hw & _ & H); [done|].
  destruct H as (info & err & tr' & Htr & _); [done|done|].
  exists tr, o, w'. split; [done|]. split; [exact (st_calls _ _ _ (wk_steps _ _ _ Hw))|].
  by rewrite Htr.
Defined.
