(* ===== verification/Mtls.v ===== *)
(** The connection to the Hub ([internal/adapters/mtls/client.go]): connecting,
    the loop that answers the Hub's commands, reconnecting with backoff, sending
    and closing.

    A connection is a handle; TLS and the network are the signature [NetOps],
    embedded in the interface of the node.  The JSON codec of commands and
    acknowledgements is a parameter. *)

From Stdlib Require Import ZArith Lia String SpecFloat.
From stdpp Require Import base numbers strings list gmap.
From S2P Require Import Prelude.
From S2P Require Import Effects.

(** ** Data *)

(** A JSON value as Go decodes it into an [interface{}]: numbers are float64.
    [JInt] is an integer that the node itself puts into a message. *)
Inductive json : Type :=
| JNull
| JBool (b : bool)
| JNum (f : spec_float)
| JInt (z : Z)
| JStr (s : string)
| JArr (l : list json)
| JObj (fields : list (string * json)).

Record Command : Type := MkCommand {
  cmd_ID : string;
  cmd_Type : string;
  cmd_Payload : gmap string json;
}.

(** An empty [Error] or [Payload] is omitted from the message. *)
Record CommandAck : Type := MkCommandAck {
  ack_CommandID : string;
  ack_Status : string;
  ack_Error : string;
  ack_Payload : gmap string json;
}.

(** What the node sets of a [tls.Config]; a certificate and a pool of
    certificates are the data they were made of. *)
Inductive ClientAuthType : Type :=
| NoClientCert
| RequestClientCert
| RequireAnyClientCert
| VerifyClientCertIfGiven
| RequireAndVerifyClientCert.

Record tls_Config : Type := MkTlsConfig {
  tls_Certificates : list string;
  tls_RootCAs : option string;
  tls_ClientAuth : ClientAuthType;
  tls_ClientCAs : option string;
  tls_MinVersion : Z;
  tls_MaxVersion : Z;
}.

Definition VersionTLS13 : Z := 772.

Record Client : Type := MkClient {
  cl_hubAddr : string;
  cl_cert : string;
  cl_rootCAs : string;
  cl_conn : option nat;
  cl_stopCh_closed : bool;
}.

Definition NewClient (hubAddr cert rootCAs : string) : Client := MkClient hubAddr cert rootCAs None false.

Definition set_conn (conn : nat) (c : Client) : Client :=
  MkClient (cl_hubAddr c) (cl_cert c) (cl_rootCAs c) (Some conn) (cl_stopCh_closed c).
Definition close_stopCh (c : Client) : Client :=
  MkClient (cl_hubAddr c) (cl_cert c) (cl_rootCAs c) (cl_conn c) true.

(** The configuration of [Connect]: the Hub is verified against the pool, which is
    shown the certificate, in TLS 1.3 and no other version. *)
Definition client_tlsConfig (c : Client) : tls_Config :=
  MkTlsConfig [cl_cert c] (Some (cl_rootCAs c)) NoClientCert None VersionTLS13 VersionTLS13.

(** *** The network *)

Inductive net_op : Type :=
| net_Dial (addr : string) (config : tls_Config)   (* tls.Dial *)
| net_Handshake (conn : nat)
| net_Read (conn : nat) (size : Z)
| net_Write (conn : nat) (data : string)
| net_Close (conn : nat).

Definition net_res (o : net_op) : Type :=
  match o with
  | net_Dial _ _ => nat * option error
  | net_Read _ _ => string * option error
  | _ => option error
  end.

Definition NetOps : Signature := MkSignature net_op net_res.

#[export] Instance ClientAuthType_eq_dec : EqDecision ClientAuthType.
Proof. solve_decision. Defined.
#[export] Instance tls_Config_eq_dec : EqDecision tls_Config.
Proof. solve_decision. Defined.
#[export] Instance net_op_eq_dec : EqDecision net_op.
Proof. solve_decision. Defined.
#[export] Instance NetOps_op_eq_dec : EqDecision (op NetOps) := net_op_eq_dec.

(** The call with which [c] dials. *)
Definition dial (c : Client) : net_op := net_Dial (cl_hubAddr c) (client_tlsConfig c).

Definition connMu : string := "Client.connMu".

(** ** Operations *)

Section Operations.
Context {Σ : Signature} `{!Embeds NetOps Σ} {S : Type} `{!Field S Client}.
Local Open Scope go_scope.

Notation node := (prog Σ S).

Definition net (o : op NetOps) : node (res NetOps o) :=
  r <- call (inj o) ;; Ret (inj_back o r).

Definition Connect : node (option error) :=
  c <- load (T := Client) ;;
  let! (conn, err) := net (dial c) ;;
  match err with
  | Some e => Ret (Some e)
  | None =>
      err <- net (net_Handshake conn) ;;
      match err with
      | Some e =>
          _ <- net (net_Close conn) ;;
          Ret (Some (ErrWrap "TLS handshake failed: " e))
      | None =>
          eff1 (Lock connMu) ;;;
          modify (set_conn conn) ;;;
          eff1 (Unlock connMu) ;;;
          Ret None
      end
  end.

(** [c.conn], read under its mutex. *)
Definition current_conn : node (option nat) :=
  eff1 (Lock connMu) ;;;
  c <- load ;;
  eff1 (Unlock connMu) ;;;
  Ret (cl_conn c).

Context (Unmarshal : string -> option Command) (Marshal : CommandAck -> string).
Context (OnCommand : option (Command -> node CommandAck)) (OnReconnected : option (node unit)).

(** The answer to one command. *)
Definition handle (cmd : Command) : node CommandAck :=
  match OnCommand with
  | Some f => f cmd
  | None => Ret (MkCommandAck (cmd_ID cmd) "ok" "" ∅)
  end.

(** At most [n] rounds of the loop of [listenOnce]: [true] when it has returned,
    [false] when it goes on. *)
Fixpoint listen_rounds (n : nat) (conn : nat) : node bool :=
  match n with
  | O => Ret false
  | Datatypes.S n =>
      c <- load ;;
      if cl_stopCh_closed c then Ret true else
      let! (buf, err) := net (net_Read conn 4096) ;;
      match err with
      | Some _ => Ret true
      | None =>
          match Unmarshal buf with
          | None => listen_rounds n conn
          | Some cmd =>
              ack <- handle cmd ;;
              _ <- net (net_Write conn (Marshal ack)) ;;
              listen_rounds n conn
          end
      end
  end.

Definition listenOnce (n : nat) : node bool :=
  conn <- current_conn ;;
  match conn with
  | None => Ret true
  | Some conn =>
      returned <- listen_rounds n conn ;;
      if (returned : bool) then
        _ <- net (net_Close conn) ;; Ret true
      else Ret false
  end.

Definition maxBackoff : Z := 60 * Second.
Definition next_backoff (backoff : Z) : Z :=
  let b := int64_mul backoff 2 in
  if b >? maxBackoff then maxBackoff else b.

(** How the reconnecting loop of [Listen] ends after at most [n] attempts. *)
Inductive reconnect_result : Type :=
| Stopped
| Reconnected
| Retrying.

(** A close of [stopCh] during the wait is noticed when the time is up.  Where
    both are ready at that moment Go's [select] may take either arm: a close that
    the loop misses is, here, one that comes after the wait. *)
Fixpoint reconnect (n : nat) (backoff : Z) : node reconnect_result :=
  match n with
  | O => Ret Retrying
  | Datatypes.S n =>
      c <- load ;;
      if cl_stopCh_closed c then Ret Stopped else
      eff1 (Sleep backoff) ;;;
      c <- load ;;
      if cl_stopCh_closed c then Ret Stopped else
      err <- Connect ;;
      match err with
      | Some _ => reconnect n (next_backoff backoff)
      | None =>
          match OnReconnected with
          | Some f => f
          | None => Ret tt
          end ;;;
          Ret Reconnected
      end
  end.

(** [Listen], whose connections last at most [rounds] rounds and whose losses
    are repaired within [attempts] attempts, for at most [n] connections; [true]
    when it has returned. *)
Fixpoint Listen (n rounds attempts : nat) : node bool :=
  match n with
  | O => Ret false
  | Datatypes.S n =>
      returned <- listenOnce rounds ;;
      if negb (returned : bool) then Ret false else
      c <- load ;;
      if cl_stopCh_closed c then Ret true else
      r <- reconnect attempts (5 * Second) ;;
      match r with
      | Stopped => Ret true
      | Retrying => Ret false
      | Reconnected => Listen n rounds attempts
      end
  end.

Definition Send (data : string) : node (option error) :=
  conn <- current_conn ;;
  match conn with
  | None => Ret (Some (ErrNew "not connected"))
  | Some conn => net (net_Write conn data)
  end.

Definition Client_Close : node unit :=
  c <- load ;;
  if cl_stopCh_closed c then Panic "close of closed channel" else
  modify close_stopCh ;;;
  eff1 (Lock connMu) ;;;
  c <- load ;;
  match cl_conn c with
  | Some conn => _ <- net (net_Close conn) ;; Ret tt
  | None => Ret tt
  end ;;;
  eff1 (Unlock connMu).

End Operations.

(** ** How the operations run *)

Section Runs.
Context {Σ : Signature} `{I : !Embeds NetOps Σ} {S : Type} `{F : !Field S Client}
        `{E : !Environment Σ}.
Implicit Types (w : world Σ S) (c : Client).

Notation trace := (list { o : op Σ & res Σ o }).

Definition cl_of w : Client := get (mem w).

(** A network call with its answer, as it appears among the calls of the node. *)
Definition net_made (o : net_op) (r : net_res o) : { o : op Σ & res Σ o } :=
  made (inj (o : op NetOps)) (inj_fwd (o : op NetOps) r).

Definition net_answer (o : net_op) w : net_res o :=
  inj_back (o : op NetOps) (answer (inj (o : op NetOps)) w).
Definition net_called (o : net_op) w : world Σ S := called (inj (o : op NetOps)) w.

Lemma run_net (o : net_op) w : run (net (o : op NetOps)) w = (Done (net_answer o w), net_called o w).
Proof. unfold net. by rewrite run_bind, run_call. Qed.

Lemma net_works tr (o : net_op) w w' :
  works Client tr w w' -> works Client (tr ++ [net_made o (net_answer o w')]) w (net_called o w').
Proof.
  intros Hw. unfold net_made, net_answer. rewrite (inj_fwd_back (o : op NetOps)). by apply works_call.
Qed.

Lemma cl_of_set s w : cl_of (set_mem s w) = get s.
Proof. done. Qed.
Lemma cl_of_net o w : cl_of (net_called o w) = cl_of w.
Proof. unfold cl_of, net_called. by go_simpl. Qed.
Lemma cl_of_sleep d w : cl_of (sleep d w) = cl_of w.
Proof. unfold cl_of. by go_simpl. Qed.
Lemma net_called_locks o w : locks (net_called o w) = locks w.
Proof. unfold net_called. by go_simpl. Qed.

Definition conn_ready w : Prop := locks w !! connMu = None.

Lemma conn_ready_works tr w w' : works Client tr w w' -> conn_ready w -> conn_ready w'.
Proof. intros [[Hl _ _ _] _]. unfold conn_ready. by rewrite Hl. Qed.

(** [Connect]: the network calls it makes and what it returns. *)
Inductive connect_result (c : Client) : trace -> option error -> Client -> Prop :=
| connect_refused conn e :
    connect_result c [net_made (dial c) (conn, Some e)] (Some e) c
| connect_failed conn e x :
    connect_result c [net_made (dial c) (conn, None);
                      net_made (net_Handshake conn) (Some e); net_made (net_Close conn) x]
      (Some (ErrWrap "TLS handshake failed: " e)) c
| connect_ok conn :
    connect_result c [net_made (dial c) (conn, None);
                      net_made (net_Handshake conn) None] None (set_conn conn c).

Lemma Connect_runs w :
  conn_ready w ->
  exists tr r w', run Connect w = (Done r, w') /\ works Client tr w w' /\
    connect_result (cl_of w) tr r (cl_of w').
Proof.
  intros Hr. unfold Connect. go_run. fold (cl_of w). rewrite run_net. cbv beta iota.
  pose proof (net_works _ (dial (cl_of w)) _ _ (works_refl (T := Client) w)) as H1.
  revert H1. destruct (net_answer (dial (cl_of w)) w) as [conn [e|]]; intros H1; go_run.
  { eexists _, _, _. split; [done|]. split; [exact H1|]. rewrite cl_of_net. constructor. }
  rewrite run_net. cbv beta iota. set (w1 := net_called _ w) in *.
  pose proof (net_works _ (net_Handshake conn) _ _ H1) as H2. revert H2.
  destruct (net_answer (net_Handshake conn) w1) as [e|]; intros H2; go_run.
  { rewrite run_net. go_run. eexists _, _, _. split; [done|].
    split; [exact (net_works _ (net_Close conn) _ _ H2)|].
    unfold w1. rewrite !cl_of_net. econstructor. }
  set (w2 := net_called _ w1) in *.
  assert (Hr2 : conn_ready w2) by (by eapply conn_ready_works).
  rewrite run_acquire by done. go_run. rewrite run_release by done. go_run.
  eexists _, _, _. split; [done|]. split; [apply works_set, H2|].
  rewrite cl_of_set, get_set. fold (cl_of w2). unfold w2, w1. rewrite !cl_of_net. constructor.
Qed.

Lemma current_conn_runs w :
  conn_ready w -> run (current_conn (Σ := Σ)) w = (Done (cl_conn (cl_of w)), w).
Proof.
  intros Hr. unfold current_conn. rewrite run_bind, run_acquire by done. go_run.
  by rewrite run_release; [go_run|].
Qed.

Lemma Send_runs data w :
  conn_ready w ->
  run (Send data) w =
    match cl_conn (cl_of w) with
    | Some conn => (Done (net_answer (net_Write conn data) w), net_called (net_Write conn data) w)
    | None => (Done (Some (ErrNew "not connected")), w)
    end.
Proof.
  intros Hr. unfold Send. rewrite run_bind, current_conn_runs by done.
  destruct (cl_conn (cl_of w)) as [conn|]; [exact (run_net (net_Write conn data) w)|done].
Qed.

(** *** Reconnecting *)

(** The waits of the reconnecting loop, in order, from a first wait of [b]. *)
Fixpoint delays (n : nat) (b : Z) : Z :=
  match n with O => 0 | Datatypes.S n => b + delays n (next_backoff b) end.

Lemma next_backoff_spec b :
  5 * Second <= b <= maxBackoff ->
  5 * Second <= next_backoff b <= maxBackoff /\ next_backoff b = Z.min (2 * b) maxBackoff.
Proof.
  unfold next_backoff, maxBackoff, Second, Millisecond. intros Hb.
  rewrite int64_mul_small by (unfold in_int64, min_int64, max_int64; lia).
  destruct (Z.gtb_spec (b * 2) (60 * (1000 * 1000000))); lia.
Qed.

Lemma delays_ge n b : 5 * Second <= b <= maxBackoff -> delays n b >= 5 * Second * Z.of_nat n.
Proof.
  intros Hb. revert b Hb. induction n as [|n IH]; intros b Hb; cbn [delays]; [lia|].
  pose proof (IH _ (proj1 (next_backoff_spec b Hb))). lia.
Qed.

Lemma delays_succ n b : 5 * Second <= b <= maxBackoff -> delays n b <= delays (Datatypes.S n) b.
Proof.
  revert b. induction n as [|n IH]; intros b Hb.
  - cbn. unfold Second, Millisecond in Hb. lia.
  - change (b + delays n (next_backoff b) <= b + delays (Datatypes.S n) (next_backoff b)).
    pose proof (IH _ (proj1 (next_backoff_spec b Hb))). lia.
Qed.

(** Once the wait has reached its maximum it stays there. *)
Lemma delays_max n : delays n maxBackoff = maxBackoff * Z.of_nat n.
Proof.
  induction n as [|n IH]; [done|]. cbn [delays].
  replace (next_backoff maxBackoff) with maxBackoff by by vm_compute. rewrite IH. lia.
Qed.

Lemma delays_5s n : (4 <= n)%nat ->
  delays n (5 * Second) = 75 * Second + 60 * Second * (Z.of_nat n - 4).
Proof.
  intros Hn. destruct n as [|[|[|[|n]]]]; try lia. cbn [delays].
  replace (next_backoff (5 * Second)) with (10 * Second) by by vm_compute.
  replace (next_backoff (10 * Second)) with (20 * Second) by by vm_compute.
  replace (next_backoff (20 * Second)) with (40 * Second) by by vm_compute.
  replace (next_backoff (40 * Second)) with maxBackoff by by vm_compute.
  rewrite delays_max. unfold maxBackoff. lia.
Qed.

(** [n] failed attempts to connect. *)
Inductive failed_attempts (c : Client) : nat -> trace -> Prop :=
| failed_none : failed_attempts c 0 []
| failed_more n tr tr' e : connect_result c tr (Some e) c -> failed_attempts c n tr' ->
    failed_attempts c (Datatypes.S n) (tr ++ tr').

Lemma reconnect_runs n b w :
  conn_ready w -> cl_stopCh_closed (cl_of w) = false -> 5 * Second <= b <= maxBackoff ->
  exists r k tr w', run (reconnect None n b) w = (Done r, w') /\ works Client tr w w' /\
    match r with
    | Stopped => False
    | Retrying => k = n /\ cl_of w' = cl_of w /\ failed_attempts (cl_of w) k tr /\
        clk w + delays k b <= clk w'
    | Reconnected => (k < n)%nat /\ clk w + delays (Datatypes.S k) b <= clk w' /\
        exists tr1 tr2, tr = tr1 ++ tr2 /\ failed_attempts (cl_of w) k tr1 /\
          connect_result (cl_of w) tr2 None (cl_of w')
    end.
Proof.
  revert b w. induction n as [|n IH]; intros b w Hr Hop Hb; cbn [reconnect].
  { exists Retrying, 0%nat, [], w. split; [done|]. split; [apply works_refl|].
    split; [done|]. split; [done|]. split; [constructor|]. cbn. lia. }
  go_run. fold (cl_of w). rewrite Hop. go_run. fold (cl_of (sleep b w)).
  rewrite cl_of_sleep, Hop. set (w1 := sleep b w).
  assert (Hw1 : works Client [] w w1).
  { split; [apply steps_local, local_step_sleep|]. unfold w1. by go_simpl. }
  assert (Hc1 : cl_of w1 = cl_of w) by apply cl_of_sleep.
  pose proof (sleep_clk b w) as Hclk. fold w1 in Hclk. go_run.
  destruct (Connect_runs w1) as (tr & r & w2 & -> & Hw2 & Hres); [by eapply conn_ready_works|].
  pose proof (works_app _ _ _ _ _ Hw1 Hw2) as Hw. cbn [app] in Hw. rewrite Hc1 in Hres.
  pose proof (st_clk _ _ _ (wk_steps _ _ _ Hw2)) as Hclk2. cbn [delays].
  assert (0 < 5 * Second) by done. destruct r as [e|]; go_run.
  - assert (Hc2 : cl_of w2 = cl_of w) by (by inversion Hres).
    destruct (IH (next_backoff b) w2) as (r & k & tr' & w' & -> & Hw' & Hr');
      [by eapply conn_ready_works|by rewrite Hc2|by apply next_backoff_spec|].
    rewrite Hc2 in Hr', Hres. exists r, (Datatypes.S k), (tr ++ tr'), w'. split; [done|].
    split; [by eapply works_app|]. destruct r; [done| |].
    + destruct Hr' as (Hk & Ht & tr1 & tr2 & -> & H1 & H2). split; [lia|]. split; [cbn in *; lia|].
      exists (tr ++ tr1), tr2. rewrite <- app_assoc. split; [done|]. split; [|done].
      by econstructor.
    + destruct Hr' as (-> & Hc' & Hf & Ht). split; [done|]. split; [done|].
      split; [by econstructor|]. cbn in *; lia.
  - exists Reconnected, 0%nat, tr, w2. split; [done|]. split; [done|]. split; [lia|].
    split; [cbn; lia|]. exists [], tr. split; [done|]. split; [constructor|done].
Qed.

End Runs.

(** *** Serving commands

    What the listener needs of the handler of commands: it returns, answers
    under the command's identifier, leaves the client alone and stays off the
    connection; [P] is what it relies on between commands. *)
Section Serving.
Context {Σ : Signature} `{I : !Embeds NetOps Σ} {S : Type} `{F : !Field S Client}
        `{E : !Environment Σ}.
Context (Unmarshal : string -> option Command) (Marshal : CommandAck -> string).
Implicit Types (w : world Σ S).

Notation trace := (list { o : op Σ & res Σ o }).

Definition off_connection (conn : nat) (tr : trace) : Prop :=
  Forall (fun x => projT1 x <> inj (net_Read conn 4096 : op NetOps) /\
                   forall d, projT1 x <> inj (net_Write conn d : op NetOps)) tr.

Class CommandHandler (conn : nat) (f : Command -> prog Σ S CommandAck)
    (P : world Σ S -> Prop) : Prop := {
  handler_runs : forall cmd w, P w ->
    exists ack w' tr, run (f cmd) w = (Done ack, w') /\ P w' /\ calls w' = calls w ++ tr /\
      off_connection conn tr /\ ack_CommandID ack = cmd_ID cmd /\ cl_of w' = cl_of w;
  handler_net : forall o w, P w -> P (net_called o w);
}.

(** The calls of a session on [conn]: what the Hub sent, in chunks, and the
    acknowledgements that were written, each right after its command was
    handled. *)
Inductive session (conn : nat) : trace -> list Command -> list CommandAck -> Prop :=
| session_nil : session conn [] [] []
| session_garbage buf tr cmds acks : Unmarshal buf = None -> session conn tr cmds acks ->
    session conn (net_made (net_Read conn 4096) (buf, None) :: tr) cmds acks
| session_command buf cmd ack tr0 x tr cmds acks : Unmarshal buf = Some cmd ->
    ack_CommandID ack = cmd_ID cmd -> off_connection conn tr0 -> session conn tr cmds acks ->
    session conn (net_made (net_Read conn 4096) (buf, None) ::
                  tr0 ++ net_made (net_Write conn (Marshal ack)) x :: tr)
      (cmd :: cmds) (ack :: acks).

Lemma listen_rounds_runs conn f P `{H : !CommandHandler conn f P} n w :
  P w -> cl_stopCh_closed (cl_of w) = false ->
  exists r w' tr cmds acks, run (listen_rounds Unmarshal Marshal (Some f) n conn) w = (Done r, w') /\
    P w' /\ cl_of w' = cl_of w /\ session conn tr cmds acks /\
    (r = false -> calls w' = calls w ++ tr) /\
    (r = true -> exists buf e,
       calls w' = calls w ++ tr ++ [net_made (net_Read conn 4096) (buf, Some e)]).
Proof.
  revert w. induction n as [|n IH]; intros w HP Hop; cbn [listen_rounds].
  { exists false, w, [], [], []. rewrite app_nil_r. repeat split; try done. constructor. }
  go_run. fold (cl_of w). rewrite Hop. rewrite run_bind, run_net. cbv beta iota.
  set (w1 := net_called _ w).
  assert (HP1 : P w1) by (unfold w1; by apply handler_net).
  assert (Hc1 : cl_of w1 = cl_of w) by (unfold w1; apply cl_of_net).
  assert (Hcalls1 : calls w1 = calls w ++ [net_made (net_Read conn 4096)
                                             (net_answer (net_Read conn 4096) w)])
    by apply (net_works _ _ _ _ (works_refl w)).
  revert Hcalls1. destruct (net_answer (net_Read conn 4096) w) as [buf [e|]]; intros Hcalls1; go_run.
  { exists true, w1, [], [], []. split; [done|]. split; [done|]. split; [done|].
    split; [constructor|]. split; [done|]. intros _. by exists buf, e. }
  destruct (Unmarshal buf) as [cmd|] eqn:Hcmd; cycle 1.
  { destruct (IH w1 HP1 ltac:(by rewrite Hc1)) as (r & w' & tr & cmds & acks & -> & HP' & Hc' & Hs & Hf & Ht).
    eexists r, w', (_ :: tr), cmds, acks. split; [done|]. split; [done|].
    split; [congruence|]. split; [by apply session_garbage|].
    split; intros Hr.
    - rewrite Hf, Hcalls1 by done. by rewrite <- app_assoc.
    - destruct (Ht Hr) as (b & e & Hce). exists b, e. rewrite Hce, Hcalls1.
      by rewrite <- app_assoc. }
  cbn [handle]. go_run.
  destruct (handler_runs cmd w1 HP1) as (ack & w2 & tr0 & -> & HP2 & Hcalls2 & Hq & Hid & Hc2). go_run.
  rewrite run_net. cbv beta iota. set (w3 := net_called _ w2).
  assert (Hc3 : cl_of w3 = cl_of w) by (unfold w3; rewrite cl_of_net; congruence).
  destruct (IH w3) as (r & w' & tr & cmds & acks & -> & HP' & Hc' & Hs & Hf & Ht);
    [unfold w3; by apply handler_net|by rewrite Hc3|].
  assert (Hcalls3 : calls w3 = calls w2 ++ [net_made (net_Write conn (Marshal ack))
                                              (net_answer (net_Write conn (Marshal ack)) w2)])
    by apply (net_works _ _ _ _ (works_refl w2)).
  eexists r, w', _, (cmd :: cmds), (ack :: acks). split; [done|]. split; [done|].
  split; [congruence|]. split; [by eapply session_command|].
  split; intros Hr.
  - rewrite Hf, Hcalls3, Hcalls2, Hcalls1 by done. cbn. by rewrite <- !app_assoc.
  - destruct (Ht Hr) as (b & e & Hce). exists b, e. rewrite Hce, Hcalls3, Hcalls2, Hcalls1. cbn.
    by rewrite <- !app_assoc.
Qed.

Lemma listenOnce_runs conn f P `{H : !CommandHandler conn f P} n w :
  conn_ready w -> P w -> cl_conn (cl_of w) = Some conn -> cl_stopCh_closed (cl_of w) = false ->
  exists r w' tr cmds acks,
    run (listenOnce Unmarshal Marshal (Some f) n) w = (Done r, w') /\ P w' /\ cl_of w' = cl_of w /\
    session conn tr cmds acks /\
    (ack_CommandID <$> acks) = (cmd_ID <$> cmds) /\
    (r = false -> calls w' = calls w ++ tr) /\
    (r = true -> exists buf e x,
       calls w' = calls w ++ tr ++ [net_made (net_Read conn 4096) (buf, Some e);
                                    net_made (net_Close conn) x]).
Proof.
  intros Hr HP Hconn Hop. unfold listenOnce. rewrite run_bind, current_conn_runs by done.
  rewrite Hconn, run_bind.
  destruct (listen_rounds_runs conn f P n w HP Hop)
    as (r & w1 & tr & cmds & acks & -> & HP1 & Hc1 & Hs & Hf & Ht).
  assert (Hids : (ack_CommandID <$> acks) = (cmd_ID <$> cmds)).
  { clear -Hs. induction Hs as [|buf tr cmds acks _ _ IH|buf cmd ack tr0 x tr cmds acks _ Hid _ _ IH];
      [done|done|]. by rewrite !fmap_cons, Hid, IH. }
  destruct r; go_run.
  - rewrite run_net. go_run. exists true, (net_called (net_Close conn) w1), tr, cmds, acks.
    split; [done|]. split; [by apply handler_net|]. split; [by rewrite cl_of_net|]. split; [done|]. split; [done|]. split; [done|].
    intros _. destruct (Ht eq_refl) as (buf & e & Hcalls). eexists buf, e, _.
    rewrite (st_calls _ _ _ (wk_steps _ _ _ (net_works _ (net_Close conn) _ _ (works_refl (T := Client) w1)))).
    by rewrite Hcalls, <- !app_assoc.
  - exists false, w1, tr, cmds, acks. do 5 (split; [done|]). split; [intros _; by apply Hf|done].
Qed.

(** A handler that only computes. *)
#[export] Instance pure_handler conn (f : Command -> CommandAck) :
  (forall cmd, ack_CommandID (f cmd) = cmd_ID cmd) ->
  CommandHandler conn (fun cmd => Ret (f cmd)) (fun _ => True).
Proof.
  intros Hf. split; [|done]. intros cmd w _. exists (f cmd), w, []. rewrite app_nil_r.
  repeat split; try done. constructor.
Qed.

End Serving.

(** ** Properties *)

Section Properties.
Context {Σ : Signature} `{I : !Embeds NetOps Σ} {S : Type} `{F : !Field S Client}
        `{E : !Environment Σ}.
Implicit Types (w : world Σ S).

(** Connecting is all or nothing: after an error the client is as it was and
    the connection that was dialled, if any, has been closed; otherwise the
    client uses the connection whose handshake succeeded. *)
Theorem Connect_correct w :
  conn_ready w ->
  exists r w' tr, run Connect w = (Done r, w') /\ works Client tr w w' /\
    match r with
    | Some e => cl_of w' = cl_of w /\ exists conn,
        tr = [net_made (dial (cl_of w)) (conn, Some e)] \/
        exists e' x, tr = [net_made (dial (cl_of w)) (conn, None);
                           net_made (net_Handshake conn) (Some e'); net_made (net_Close conn) x]
    | None => exists conn, cl_of w' = set_conn conn (cl_of w) /\
        tr = [net_made (dial (cl_of w)) (conn, None);
              net_made (net_Handshake conn) None]
    end.
Proof.
  intros Hr. destruct (Connect_runs w Hr) as (tr & r & w' & Hrun & Hw & Hres).
  exists r, w', tr. split; [done|]. split; [done|]. destruct Hres; eauto 10.
Qed.

(** The connection is a command server.  Whatever arrives, in whatever
    chunks, the listener handles the well-formed commands one after the other,
    each acknowledged exactly once, in order and under its own identifier, right
    after it was handled; the rest is skipped.  When reading fails, and only
    then, the session is over and the connection is closed. *)
Theorem listenOnce_serves (Unmarshal : string -> option Command) (Marshal : CommandAck -> string)
    conn f P `{H : !CommandHandler conn f P} n w :
  conn_ready w -> P w -> cl_conn (cl_of w) = Some conn -> cl_stopCh_closed (cl_of w) = false ->
  exists r w' tr cmds acks,
    run (listenOnce Unmarshal Marshal (Some f) n) w = (Done r, w') /\ cl_of w' = cl_of w /\
    session Unmarshal Marshal conn tr cmds acks /\
    (ack_CommandID <$> acks) = (cmd_ID <$> cmds) /\
    (r = false -> calls w' = calls w ++ tr) /\
    (r = true -> exists buf e x,
       calls w' = calls w ++ tr ++ [net_made (net_Read conn 4096) (buf, Some e);
                                    net_made (net_Close conn) x]).
Proof.
  intros Hr HP Hconn Hop.
  destruct (listenOnce_runs Unmarshal Marshal conn f P n w Hr HP Hconn Hop)
    as (r & w' & tr & cmds & acks & Hrun & _ & Hs). by exists r, w', tr, cmds, acks.
Qed.

(** C33: Reconnecting is paced.  The waits between attempts start at five seconds
    and double up to a minute; a connection that comes back at the [k+1]-st
    attempt was preceded by [k] attempts that failed without leaving a connection
    open, and as many waits have passed; and no attempt is given up before it
    is made. *)
Theorem reconnect_paced n w :
  conn_ready w -> cl_stopCh_closed (cl_of w) = false ->
  exists r k tr w', run (reconnect None n (5 * Second)) w = (Done r, w') /\ works Client tr w w' /\
    (r = Retrying /\ k = n /\ cl_of w' = cl_of w /\ failed_attempts (cl_of w) n tr \/
     r = Reconnected /\ (k < n)%nat /\ exists tr1 conn,
       tr = tr1 ++ [net_made (dial (cl_of w)) (conn, None);
                    net_made (net_Handshake conn) None] /\
       failed_attempts (cl_of w) k tr1 /\ cl_of w' = set_conn conn (cl_of w)) /\
    clk w + delays k (5 * Second) <= clk w' /\
    delays k (5 * Second) >= 5 * Second * Z.of_nat k /\
    ((4 <= k)%nat -> delays k (5 * Second) = 75 * Second + 60 * Second * (Z.of_nat k - 4)).
Proof.
  intros Hr Hop.
  destruct (reconnect_runs n (5 * Second) w Hr Hop) as (r & k & tr & w' & Hrun & Hw & Hres); [done|].
  exists r, k, tr, w'. split; [done|]. split; [done|]. split.
  - destruct r; [done| |].
    + right. destruct Hres as (Hk & _ & tr1 & tr2 & -> & Hf & Hc). split; [done|]. split; [done|].
      inversion Hc; subst. eauto.
    + left. by destruct Hres as (-> & Hc & Hf & _).
  - assert (Hge : delays k (5 * Second) >= 5 * Second * Z.of_nat k) by by apply delays_ge.
    split; [|split; [done|apply delays_5s]].
    destruct r; [done| |].
    + destruct Hres as (_ & Ht & _). cbn [delays] in Ht. pose proof (delays_succ k (5 * Second)).
      unfold delays in *; fold delays in *. assert (5 * Second <= 5 * Second <= maxBackoff) by done. lia.
    + by destruct Hres as (-> & _ & _ & Ht).
Qed.

(** [Send] writes to the connection once, or says that there is none; and
    closing the client closes its connection, whatever it is, exactly once: a
    second [Close] panics. *)
Theorem Send_Close_correct data w :
  conn_ready w ->
  (run (Send data) w =
     match cl_conn (cl_of w) with
     | Some conn => (Done (net_answer (net_Write conn data) w), net_called (net_Write conn data) w)
     | None => (Done (Some (ErrNew "not connected")), w)
     end) /\
  (cl_stopCh_closed (cl_of w) = false ->
   exists w' tr, run Client_Close w = (Done tt, w') /\ works Client tr w w' /\
     cl_of w' = close_stopCh (cl_of w) /\
     match cl_conn (cl_of w) with
     | Some conn => exists x, tr = [net_made (net_Close conn) x]
     | None => tr = []
     end /\
     exists msg, run Client_Close w' = (Panicked msg, w')).
Proof.
  intros Hr. split.
  - by apply Send_runs.
  - intros Hop. unfold Client_Close at 1. go_run. fold (cl_of w). rewrite Hop. go_run.
    set (w1 := set_mem _ w).
    assert (Hw1 : works Client [] w w1) by (unfold w1; auto with go).
    assert (Hc1 : cl_of w1 = close_stopCh (cl_of w)) by (unfold w1; by rewrite cl_of_set, get_set).
    assert (Hr1 : conn_ready w1) by done.
    assert (Hagain : forall w', cl_of w' = cl_of w1 -> exists msg, run Client_Close w' = (Panicked msg, w')).
    { intros w' Hc'. unfold Client_Close. go_run. fold (cl_of w'). rewrite Hc', Hc1. cbn [cl_stopCh_closed close_stopCh].
      by eexists. }
    rewrite run_acquire by done. go_run. fold (cl_of w1). rewrite Hc1.
    change (cl_conn (close_stopCh (cl_of w))) with (cl_conn (cl_of w)).
    destruct (cl_conn (cl_of w)) as [conn|]; go_run.
    + unfold net. go_run. set (w2 := called _ w1).
      rewrite run_release by (unfold w2; go_simpl; done).
      exists w2, [net_made (net_Close conn) (net_answer (net_Close conn) w1)]. split; [done|].
      split; [exact (net_works _ (net_Close conn) _ _ Hw1)|].
      assert (Hc2 : cl_of w2 = cl_of w1) by apply (cl_of_net (net_Close conn)).
      split; [congruence|]. split; [by eexists|]. by apply Hagain.
    + rewrite run_release by done. exists w1, []. split; [done|]. split; [done|]. split; [done|].
      split; [done|]. by apply Hagain.
Qed.

End Properties.

(** ** A concrete Hub

    A Hub that sends the listed chunks and then hangs up, and that refuses the
    first [refusals] connections.  Commands are their own identifiers. *)
Record Hub : Type := MkHub { hub_chunks : list string; hub_refusals : nat }.

Definition hub_call (o : net_op) (h : Hub) : net_res o * Hub :=
  match o return net_res o * Hub with
  | net_Dial _ _ =>
      match hub_refusals h with
      | O => ((7%nat, None), h)
      | Datatypes.S n => ((O, Some (ErrNew "connection refused")), MkHub (hub_chunks h) n)
      end
  | net_Read _ _ =>
      match hub_chunks h with
      | [] => (("", Some (ErrNew "EOF")), h)
      | s :: l => ((s, None), MkHub l (hub_refusals h))
      end
  | _ => (None, h)
  end.

Definition hub_env : Environment NetOps := {|
  env_state := Hub;
  env_call (o : op NetOps) _ h := hub_call o h;
  env_elapse h := (0%N, h);
  env_cancelled _ _ := false;
|}.

Definition hub_world (h : Hub) (conn : option nat) : @world NetOps Client hub_env :=
  @World NetOps Client hub_env 0 h ∅ (MkClient "hub:8443" "CERT" "CA" conn false) [] [].

Definition toy_Unmarshal (s : string) : option Command :=
  if bool_decide (s = "garbage") then None else Some (MkCommand s "start_rental" ∅).
Definition toy_ack (cmd : Command) : CommandAck := MkCommandAck (cmd_ID cmd) "ok" "" ∅.

Lemma Connect_correct_witness :
  exists r w', run Connect (hub_world (MkHub [] 0) None) = (Done r, w') /\ length (calls w') = 2%nat.
Proof.
  set (w := hub_world (MkHub [] 0) None).
  destruct (Connect_correct w) as (r & w' & tr & Hrun & Hw & H); [done|].
  exists r, w'. split; [exact Hrun|].
  assert (Hr : fst (run Connect w) = Done None) by by vm_compute.
  rewrite Hrun in Hr. cbn [fst] in Hr. injection Hr as ->. destruct H as (conn & _ & ->).
  by rewrite (st_calls _ _ _ (wk_steps _ _ _ Hw)).
Defined.

Lemma listenOnce_serves_witness :
  let w := hub_world (MkHub ["cmd-1"; "garbage"; "cmd-2"] 0) (Some 7%nat) in
  exists r w' (cmds : list Command) (acks : list CommandAck),
    run (listenOnce toy_Unmarshal ack_CommandID (Some (fun cmd => Ret (toy_ack cmd))) 10) w = (Done r, w') /\
    (ack_CommandID <$> acks) = (cmd_ID <$> cmds) /\ length (calls w') = 7%nat.
Proof.
  intros w.
  assert (Hh : CommandHandler (Σ := NetOps) (S := Client) (E := hub_env) 7
                 (fun cmd => Ret (toy_ack cmd)) (fun _ => True)) by by apply pure_handler.
  destruct (listenOnce_serves toy_Unmarshal ack_CommandID 7 (fun cmd => Ret (toy_ack cmd)) (fun _ => True) 10 w)
    as (r & w' & tr & cmds & acks & Hrun & _ & _ & Hids & _); [done..|].
  exists r, w', cmds, acks. split; [exact Hrun|]. split; [exact Hids|].
  assert (Hl : length (@calls NetOps Client hub_env
    (snd (run (listenOnce toy_Unmarshal ack_CommandID (Some (fun cmd => Ret (toy_ack cmd))) 10) w))) = 7%nat)
    by by vm_compute.
  by rewrite Hrun in Hl.
Defined.

Lemma reconnect_paced_witness :
  let w := hub_world (MkHub [] 2) None in
  exists r w', run (reconnect None 5 (5 * Second)) w = (Done r, w') /\ r = Reconnected /\
    15 * Second <= clk w'.
Proof.
  intros w. destruct (reconnect_paced 5 w) as (r & k & tr & w' & Hrun & _ & Hres & _); [done..|].
  exists r, w'. split; [exact Hrun|].
  assert (Hr : fst (run (reconnect None 5 (5 * Second)) w) = Done Reconnected) by by vm_compute.
  assert (Hc : 15 * Second <= @clk NetOps Client hub_env (snd (run (reconnect None 5 (5 * Second)) w)))
    by by vm_compute.
  rewrite Hrun in Hr, Hc. split; [by injection Hr|exact Hc].
Defined.

Lemma Send_Close_correct_witness :
  exists w', run Client_Close (hub_world (MkHub [] 0) (Some 7%nat)) = (Done tt, w') /\
    length (calls w') = 1%nat.
Proof.
  destruct (Send_Close_correct "heartbeat" (hub_world (MkHub [] 0) (Some 7%nat))) as [_ H]; [done|].
  destruct (H eq_refl) as (w' & tr & Hrun & Hw & _ & Htr & _). exists w'. split; [exact Hrun|].
  rewrite (st_calls _ _ _ (wk_steps _ _ _ Hw)). cbn in Htr. by destruct Htr as [x ->].
Defined.
