(* ===== verification/Auth.v ===== *)
(** Sign-In with Ethereum against the Hub ([internal/auth/siwe.go]): the login,
    and the requests that need its token.

    The HTTP client is the signature [HubOps]: a request is answered with a
    status and a body, or fails.  Keys, hashing and signing are those of
    go-ethereum: parameters, with the documented form of a signature where a
    property needs it.  The JSON codec and the formatting of the time are
    parameters too. *)

From Stdlib Require Import ZArith Lia Ascii String.
From stdpp Require Import base numbers strings list gmap.
From S2P Require Import Prelude.
From S2P Require Import Text.
From S2P Require Import Effects.
From S2P Require Import Mtls.

(** ** Data *)

Record CertificateBundle : Type := MkCertificateBundle {
  cb_Certificate : string;
  cb_PrivateKey : string;
  cb_CACertificate : string;
  cb_ExpiresAt : string;
  cb_WalletAddress : string;
}.

(** A request: method, URL, headers and body. *)
Record HubRequest : Type := MkHubRequest {
  hr_method : string;
  hr_url : string;
  hr_headers : list (string * string);
  hr_body : string;
}.

Record HubResponse : Type := MkHubResponse { hr_StatusCode : Z; hr_Body : string }.

Definition HubOps : Signature := MkSignature HubRequest (fun _ => sum HubResponse error).

#[export] Instance HubRequest_eq_dec : EqDecision HubRequest.
Proof. solve_decision. Defined.
#[export] Instance HubOps_op_eq_dec : EqDecision (op HubOps) := HubRequest_eq_dec.

(** ** The libraries *)

(** [github.com/ethereum/go-ethereum/crypto]: byte strings in and out. *)
Class Ethereum : Type := {
  PrivateKey : Type;
  ToECDSA : string -> sum PrivateKey error;
  PubkeyAddress : PrivateKey -> string;                 (* PubkeyToAddress(...).Hex() *)
  Keccak256 : string -> string;
  crypto_Sign : string -> PrivateKey -> sum string error;
}.

(** [encoding/json] at the types of this file, and the other functions of the
    standard library that read or write text. *)
Class Codec : Type := {
  Marshal_json : json -> string;
  Decode_nonce : string -> sum string error;
  Decode_token : string -> sum string error;
  Decode_node_id : string -> sum string error;
  Decode_bundle : string -> sum CertificateBundle error;
  Format_UTC : Z -> string;                             (* .UTC().Format(time.RFC3339) *)
  hex_error : string -> error;                          (* the error of hex.DecodeString *)
  NewRequest_error : string -> option error;            (* of http.NewRequest, by URL *)
}.

Section Client.
Context `{Eth : Ethereum} `{C : Codec}.

Record SIWEClient : Type := MkSIWEClient {
  sc_hubURL : string;
  sc_domain : string;
  sc_privateKey : PrivateKey;
  sc_address : string;
  sc_token : string;
}.

Definition set_token (token : string) (c : SIWEClient) : SIWEClient :=
  MkSIWEClient (sc_hubURL c) (sc_domain c) (sc_privateKey c) (sc_address c) token.

Definition NewSIWEClientWithDomain (hubURL privateKeyHex domain : string) : sum SIWEClient error :=
  let privateKeyHex := TrimPrefix privateKeyHex "0x" in
  match hex_decode privateKeyHex with
  | None => inr (ErrWrap "invalid private key hex: " (hex_error privateKeyHex))
  | Some privateKeyBytes =>
      match ToECDSA privateKeyBytes with
      | inr err => inr (ErrWrap "invalid private key: " err)
      | inl privateKey =>
          inl (MkSIWEClient (TrimSuffix hubURL "/") domain privateKey (PubkeyAddress privateKey) "")
      end
  end.

Definition NewSIWEClient (hubURL privateKeyHex : string) : sum SIWEClient error :=
  NewSIWEClientWithDomain hubURL privateKeyHex "".

Definition GetAddress (c : SIWEClient) : string := sc_address c.
Definition GetToken (c : SIWEClient) : string := sc_token c.

(** ** The message and its signature *)

Definition newline : string := String (ascii_of_nat 10) EmptyString.

(** The domain a message is for: the configured one, or the host of the URL. *)
Definition siwe_domain (c : SIWEClient) : string :=
  if bool_decide (sc_domain c <> "") then sc_domain c
  else if Contains (sc_hubURL c) "://" then
    match Split (sc_hubURL c) "://" with
    | _ :: part :: _ =>
        let hostPart := Split_head (Split_head part ":") "/" in
        if bool_decide (hostPart <> "") then hostPart else "localhost"
    | _ => "localhost"
    end
  else "localhost".

Definition siwe_message (c : SIWEClient) (nonce issuedAt : string) : string :=
  siwe_domain c +:+ " wants you to sign in with your Ethereum account:" +:+ newline +:+
  sc_address c +:+ newline +:+ newline +:+
  "Sign in to Worldland GPU Rental Platform as Provider" +:+ newline +:+ newline +:+
  "URI: " +:+ sc_hubURL c +:+ newline +:+
  "Version: 1" +:+ newline +:+
  "Chain ID: 56" +:+ newline +:+
  "Nonce: " +:+ nonce +:+ newline +:+
  "Issued At: " +:+ issuedAt.

(** The personal-message prefix: a byte 25, the text, and the length. *)
Definition prefixedMessage (message : string) : string :=
  String (ascii_of_nat 25) ("Ethereum Signed Message:" +:+ newline +:+
    itoa (Z.of_nat (String.length message)) +:+ message).

(** [signature[i]], and the assignment to it. *)
Fixpoint set_byte (i : nat) (b : ascii) (s : string) : string :=
  match i, s with
  | _, EmptyString => EmptyString
  | O, String _ r => String b r
  | S i, String c r => String c (set_byte i b r)
  end.

(** A byte keeps its value modulo 256. *)
Definition adjust_v (signature : string) (v : ascii) : string :=
  if (nat_of_ascii v <? 27)%nat then set_byte 64 (ascii_of_nat (nat_of_ascii v + 27)) signature
  else signature.

Section Requests.
Context {S : Type} `{F : !Field S SIWEClient}.
Local Open Scope go_scope.

Notation hub := (prog HubOps S).
Notation hcall o := (@call HubOps S o).

Definition createSIWEMessage (nonce : string) : hub string :=
  c <- load (T := SIWEClient) ;;
  now <- eff1 Now ;;
  Ret (siwe_message c nonce (Format_UTC now)).

Definition signMessage (message : string) : hub (sum string error) :=
  c <- load (T := SIWEClient) ;;
  match crypto_Sign (Keccak256 (prefixedMessage message)) (sc_privateKey c) with
  | inr err => Ret (inr err)
  | inl signature =>
      match String.get 64 signature with
      | None => Panic "index out of range [64]"
      | Some v => Ret (inl ("0x" +:+ hex_encode (adjust_v signature v)))
      end
  end.

(** An answer with an unexpected status. *)
Definition status_error (what : string) (resp : HubResponse) : error :=
  ErrNew (what +:+ " failed: " +:+ itoa (hr_StatusCode resp) +:+ " - " +:+ hr_Body resp).

Definition getNonce : hub (sum string error) :=
  c <- load (T := SIWEClient) ;;
  r <- hcall (MkHubRequest "GET" (sc_hubURL c +:+ "/api/v1/auth/nonce") [] "") ;;
  match r with
  | inr err => Ret (inr err)
  | inl resp =>
      if negb (bool_decide (hr_StatusCode resp = 200)) then Ret (inr (status_error "nonce request" resp))
      else Ret (Decode_nonce (hr_Body resp))
  end.

Definition login_request (c : SIWEClient) (message signature : string) : HubRequest :=
  MkHubRequest "POST" (sc_hubURL c +:+ "/api/v1/auth/login") [("Content-Type", "application/json")]
    (Marshal_json (JObj [("message", JStr message); ("signature", JStr signature)])).

Definition loginWithSignature (message signature : string) : hub (sum string error) :=
  c <- load (T := SIWEClient) ;;
  r <- hcall (login_request c message signature) ;;
  match r with
  | inr err => Ret (inr err)
  | inl resp =>
      if negb (bool_decide (hr_StatusCode resp = 200)) then Ret (inr (status_error "login" resp))
      else Ret (Decode_token (hr_Body resp))
  end.

Definition Login : hub (option error) :=
  nonce <- getNonce ;;
  match nonce with
  | inr err => Ret (Some (ErrWrap "failed to get nonce: " err))
  | inl nonce =>
      message <- createSIWEMessage nonce ;;
      signature <- signMessage message ;;
      match signature with
      | inr err => Ret (Some (ErrWrap "failed to sign message: " err))
      | inl signature =>
          token <- loginWithSignature message signature ;;
          match token with
          | inr err => Ret (Some (ErrWrap "failed to login: " err))
          | inl token => modify (set_token token) ;;; Ret None
          end
      end
  end.

(** ** Requests with the token *)

Definition not_authenticated : error := ErrNew "not authenticated - call Login() first".

Definition register_request (c : SIWEClient) (gpuUUID gpuType : string) (memoryGB : Z) (pricePerSec : string)
  : HubRequest :=
  MkHubRequest "POST" (sc_hubURL c +:+ "/api/v1/nodes")
    [("Content-Type", "application/json"); ("Authorization", "Bearer " +:+ sc_token c)]
    (Marshal_json (JObj [("gpu_type", JStr gpuType); ("gpu_uuid", JStr gpuUUID);
                         ("memory_gb", JInt memoryGB); ("price_per_sec", JStr pricePerSec)])).

Definition RegisterNode (gpuUUID gpuType : string) (memoryGB : Z) (pricePerSec : string)
  : hub (sum string error) :=
  c <- load (T := SIWEClient) ;;
  if bool_decide (sc_token c = "") then Ret (inr not_authenticated) else
  match NewRequest_error (sc_hubURL c +:+ "/api/v1/nodes") with
  | Some err => Ret (inr err)
  | None =>
      r <- hcall (register_request c gpuUUID gpuType memoryGB pricePerSec) ;;
      match r with
      | inr err => Ret (inr err)
      | inl resp =>
          if negb (bool_decide (hr_StatusCode resp = 201)) && negb (bool_decide (hr_StatusCode resp = 200))
          then Ret (inr (status_error "registration" resp))
          else Ret (Decode_node_id (hr_Body resp))
      end
  end.

Definition certificate_request (c : SIWEClient) : HubRequest :=
  MkHubRequest "POST" (sc_hubURL c +:+ "/api/v1/certs/bootstrap")
    [("Authorization", "Bearer " +:+ sc_token c)] "".

Definition IssueCertificate : hub (sum CertificateBundle error) :=
  c <- load (T := SIWEClient) ;;
  if bool_decide (sc_token c = "") then Ret (inr not_authenticated) else
  match NewRequest_error (sc_hubURL c +:+ "/api/v1/certs/bootstrap") with
  | Some err => Ret (inr err)
  | None =>
      r <- hcall (certificate_request c) ;;
      match r with
      | inr err => Ret (inr err)
      | inl resp =>
          if negb (bool_decide (hr_StatusCode resp = 200))
          then Ret (inr (status_error "certificate issuance" resp))
          else Ret (Decode_bundle (hr_Body resp))
      end
  end.

End Requests.
End Client.

(** ** Lemmas *)

Lemma get_set_byte i j b s :
  (i < String.length s)%nat ->
  String.get j (set_byte i b s) = if decide (j = i) then Some b else String.get j s.
Proof.
  revert i j. induction s as [|c s IH]; intros i j H; cbn in H; [lia|].
  destruct i as [|i], j as [|j]; cbn; try done.
  rewrite IH by lia. repeat case_decide; (congruence || lia || done).
Qed.

Lemma set_byte_length i b s : String.length (set_byte i b s) = String.length s.
Proof. revert i. induction s as [|c s IH]; intros [|i]; cbn; auto. Qed.

Lemma get_length i s : (i < String.length s)%nat -> exists c, String.get i s = Some c.
Proof.
  revert i. induction s as [|c s IH]; intros i H; cbn in H; [lia|].
  destruct i as [|i]; [by eexists|]. apply IH. lia.
Qed.

(** [crypto.Sign]: a signature is 65 bytes, [R || S || V], and [V] is 0 or 1. *)
Class SignatureFormat `{Eth : Ethereum} : Prop :=
  signature_format : forall hash key s, crypto_Sign hash key = inl s ->
    String.length s = 65%nat /\ exists v, String.get 64 s = Some v /\ (nat_of_ascii v <= 1)%nat.

Section Runs.
Context `{Eth : Ethereum} `{C : Codec} `{SF : !SignatureFormat}.
Context {S : Type} `{F : !Field S SIWEClient} `{E : !Environment HubOps}.
Implicit Types (w : world HubOps S).

Notation "o ↦ r" := (made (Σ := HubOps) o r) (at level 60).

Definition sc_of w : SIWEClient := get (mem w).

(** The signature of a message as the Hub gets it. *)
Definition wire_signature (s : string) : string :=
  "0x" +:+ hex_encode match String.get 64 s with Some v => adjust_v s v | None => s end.

Lemma signMessage_runs m w :
  run (signMessage m) w =
    (Done (match crypto_Sign (Keccak256 (prefixedMessage m)) (sc_privateKey (sc_of w)) with
           | inl s => inl (wire_signature s)
           | inr e => inr e
           end), w).
Proof.
  unfold signMessage, wire_signature. go_run. fold (sc_of w).
  destruct (crypto_Sign _ _) as [s|e] eqn:Hs; [|done].
  destruct (signature_format _ _ _ Hs) as (_ & v & -> & _). done.
Qed.

(** What an answer means to the caller. *)
Definition good_answer {A} (what : string) (ok : list Z) (decode : string -> sum A error)
    (r : sum HubResponse error) : sum A error :=
  match r with
  | inr err => inr err
  | inl resp => if bool_decide (hr_StatusCode resp ∈ ok) then decode (hr_Body resp)
                else inr (status_error what resp)
  end.

Definition nonce_request (c : SIWEClient) : HubRequest :=
  MkHubRequest "GET" (sc_hubURL c +:+ "/api/v1/auth/nonce") [] "".

Lemma getNonce_runs w :
  run getNonce w = (Done (good_answer "nonce request" [200] Decode_nonce
      (answer (nonce_request (sc_of w) : op HubOps) w)), called (nonce_request (sc_of w) : op HubOps) w).
Proof.
  unfold getNonce. go_run. fold (sc_of w) (nonce_request (sc_of w)).
  destruct (answer _ w) as [resp|e]; [|done]. cbn [good_answer].
  destruct (decide (hr_StatusCode resp = 200)).
  - by rewrite !bool_decide_eq_true_2 by set_solver.
  - by rewrite !bool_decide_eq_false_2 by set_solver.
Qed.

Lemma loginWithSignature_runs m s w :
  run (loginWithSignature m s) w = (Done (good_answer "login" [200] Decode_token
      (answer (login_request (sc_of w) m s : op HubOps) w)), called (login_request (sc_of w) m s : op HubOps) w).
Proof.
  unfold loginWithSignature. go_run. fold (sc_of w).
  destruct (answer _ w) as [resp|e]; [|done]. cbn [good_answer].
  destruct (decide (hr_StatusCode resp = 200)).
  - by rewrite !bool_decide_eq_true_2 by set_solver.
  - by rewrite !bool_decide_eq_false_2 by set_solver.
Qed.

Lemma good_answer_ok {A} what ok (decode : string -> sum A error) r a :
  good_answer what ok decode r = inl a ->
  exists resp, r = inl resp /\ hr_StatusCode resp ∈ ok /\ decode (hr_Body resp) = inl a.
Proof. destruct r as [resp|e]; cbn; [|done]. case_bool_decide; [|done]. eauto. Qed.

(** Why an answer is no good: there is none, it has another status than 200, or
    its body does not decode. *)
Inductive refused {A} (what : string) (decode : string -> sum A error) : sum HubResponse error -> error -> Prop :=
| refused_transport e : refused what decode (inr e) e
| refused_status resp : hr_StatusCode resp <> 200 -> refused what decode (inl resp) (status_error what resp)
| refused_body resp e : hr_StatusCode resp = 200 -> decode (hr_Body resp) = inr e -> refused what decode (inl resp) e.

Lemma good_answer_refused {A} what (decode : string -> sum A error) r e :
  good_answer what [200] decode r = inr e -> refused what decode r e.
Proof.
  destruct r as [resp|e']; cbn; [|intros [= <-]; constructor].
  case_bool_decide as H; [|intros [= <-]; constructor; set_solver].
  apply list_elem_of_singleton in H. by constructor.
Qed.

(** The ways in which the login of [c] fails, with the requests that it has made
    by then and its error: no nonce, no signature, or no token. *)
Inductive login_failed (c : SIWEClient) : list { o : op HubOps & res HubOps o } -> error -> Prop :=
| failed_nonce r e :
    refused "nonce request" Decode_nonce r e ->
    login_failed c [nonce_request c ↦ r] (ErrWrap "failed to get nonce: " e)
| failed_signature rsp1 nonce t e :
    hr_StatusCode rsp1 = 200 -> Decode_nonce (hr_Body rsp1) = inl nonce ->
    crypto_Sign (Keccak256 (prefixedMessage (siwe_message c nonce (Format_UTC t)))) (sc_privateKey c) = inr e ->
    login_failed c [nonce_request c ↦ inl rsp1] (ErrWrap "failed to sign message: " e)
| failed_token rsp1 nonce t s r e :
    hr_StatusCode rsp1 = 200 -> Decode_nonce (hr_Body rsp1) = inl nonce ->
    crypto_Sign (Keccak256 (prefixedMessage (siwe_message c nonce (Format_UTC t)))) (sc_privateKey c) = inl s ->
    refused "login" Decode_token r e ->
    login_failed c [nonce_request c ↦ inl rsp1;
                    login_request c (siwe_message c nonce (Format_UTC t)) (wire_signature s) ↦ r]
      (ErrWrap "failed to login: " e).

End Runs.

(** ** Properties *)
Section Properties.
Context `{Eth : Ethereum} `{C : Codec} `{SF : !SignatureFormat}.
Context {S : Type} `{F : !Field S SIWEClient} `{E : !Environment HubOps}.
Implicit Types (w : world HubOps S).

Notation "o ↦ r" := (made (Σ := HubOps) o r) (at level 60).

(** How a login goes. *)
Lemma Login_runs w :
  exists r w' tr, run Login w = (Done r, w') /\ calls w' = calls w ++ tr /\
    locks w' = locks w /\ gos w' = gos w /\
    match r with
    | Some e => sc_of w' = sc_of w /\ login_failed (sc_of w) tr e
    | None => exists nonce t s token rsp1 rsp2,
        let message := siwe_message (sc_of w) nonce (Format_UTC t) in
        tr = [nonce_request (sc_of w) ↦ inl rsp1;
              login_request (sc_of w) message (wire_signature s) ↦ inl rsp2] /\
        hr_StatusCode rsp1 = 200 /\ Decode_nonce (hr_Body rsp1) = inl nonce /\
        clk w <= t <= clk w' /\
        crypto_Sign (Keccak256 (prefixedMessage message)) (sc_privateKey (sc_of w)) = inl s /\
        hr_StatusCode rsp2 = 200 /\ Decode_token (hr_Body rsp2) = inl token /\
        sc_of w' = set_token token (sc_of w)
    end.
Proof.
  unfold Login. rewrite run_bind, getNonce_runs. set (w1 := called _ w).
  pose proof (makes_calls_one (nonce_request (sc_of w) : op HubOps) w) as H1. fold w1 in H1.
  set (x := answer _ w) in *. destruct (good_answer _ _ _ x) as [nonce|e] eqn:Hn.
  2: { eexists _, w1, [_]. split; [done|]. split; [apply H1|]. destruct H1. do 2 (split; [done|]).
       split; [unfold sc_of; by rewrite mc_mem|]. constructor. by apply good_answer_refused. }
  apply good_answer_ok in Hn as (rsp1 & Hx & Hst1%list_elem_of_singleton & Hd1). rewrite Hx in *.
  unfold createSIWEMessage. rewrite run_bind. go_run.
  assert (Hc1 : sc_of w1 = sc_of w) by (unfold sc_of; by rewrite (mc_mem _ _ _ H1)).
  fold (sc_of w1). rewrite Hc1. set (w2 := advance w1). set (m := siwe_message _ _ _).
  assert (H2 : makes_calls [nonce_request (sc_of w) ↦ inl rsp1] w w2)
    by (eapply makes_calls_local; [exact H1|apply local_step_advance|by unfold w2; go_simpl]).
  assert (Hc2 : sc_of w2 = sc_of w) by (unfold sc_of; by rewrite (mc_mem _ _ _ H2)).
  rewrite signMessage_runs, Hc2. destruct (crypto_Sign _ _) as [s|e] eqn:Hs.
  2: { eexists _, w2, [_]. split; [done|]. split; [apply H2|]. destruct H2. do 3 (split; [done|]). by econstructor. }
  rewrite run_bind, loginWithSignature_runs, Hc2. set (w3 := called _ w2).
  pose proof (makes_calls_call _ (login_request (sc_of w) m (wire_signature s) : op HubOps) _ _ H2) as H3.
  fold w3 in H3. set (y := answer _ w2) in *.
  assert (Hc3 : sc_of w3 = sc_of w) by (unfold sc_of; by rewrite (mc_mem _ _ _ H3)).
  destruct (good_answer _ _ _ y) as [token|e] eqn:Ht.
  2: { eexists _, w3, _. split; [done|]. split; [apply H3|]. destruct H3. do 3 (split; [done|]).
       apply (failed_token _ rsp1 nonce _ s); [done..|]. by apply good_answer_refused. }
  go_run. eexists _, _, _. split; [done|]. split; [apply H3|]. split; [apply H3|]. split; [apply H3|].
  apply good_answer_ok in Ht as (rsp2 & Hy & Hst2%list_elem_of_singleton & Hd2). rewrite Hy in *.
  exists nonce, (clk w2), s, token, rsp1, rsp2. split; [done|]. split; [done|]. split; [done|].
  split; [|do 3 (split; [done|]); unfold sc_of at 1; go_simpl; by rewrite <- Hc3].
  split; [exact (mc_clk _ _ _ H2)|]. apply called_clk.
Qed.

(** Registration and certificates only make their request. *)
Lemma RegisterNode_runs gpuUUID gpuType memoryGB pricePerSec w :
  exists r w' tr, run (RegisterNode gpuUUID gpuType memoryGB pricePerSec) w = (Done r, w') /\ makes_calls tr w w'.
Proof.
  unfold RegisterNode. go_run. case_bool_decide; [by eexists _, w, []; split; [|auto with go]|].
  destruct (NewRequest_error _); [by eexists _, w, []; split; [|auto with go]|]. go_run.
  destruct (answer _ w) as [resp|e] eqn:Ha; [destruct (_ && _)|]; (eexists _, _, _; split; [done|apply makes_calls_one]).
Qed.

Lemma IssueCertificate_runs w :
  exists r w' tr, run IssueCertificate w = (Done r, w') /\ makes_calls tr w w' /\
    forall bundle, r = inl bundle -> exists resp, certificate_request (sc_of w) ↦ inl resp ∈ tr /\
      hr_StatusCode resp = 200 /\ Decode_bundle (hr_Body resp) = inl bundle.
Proof.
  unfold IssueCertificate. go_run. fold (sc_of w). case_bool_decide as Ht; [by eexists _, w, []; split; [|split; [auto with go|]]|].
  destruct (NewRequest_error _); [by eexists _, w, []; split; [|split; [auto with go|]]|]. go_run.
  pose proof (makes_calls_one (certificate_request (sc_of w) : op HubOps) w) as Hm.
  destruct (answer (certificate_request (sc_of w) : op HubOps) w) as [resp|e]; [case_bool_decide as Hst|]; cbn [negb];
    (eexists _, _, _; split; [done|]; split; [exact Hm|]); try done.
  intros bundle Hb. exists resp. split; [by left|done].
Qed.

(** C18: A login always returns.  It succeeds exactly as the protocol says: the Hub
    gave a nonce, the message for this address, this Hub, this nonce and the
    time of the login was signed with the wallet's key, and the Hub answered the
    signed message with the token that the client then holds.  It fails exactly
    when one of these steps did (a request without an answer, a status other
    than 200, a body that does not decode, a key that does not sign), with the
    error of that step and no request after it, and leaves the client what it
    was. *)
Theorem Login_correct w :
  exists r w' tr, run Login w = (Done r, w') /\ calls w' = calls w ++ tr /\
    locks w' = locks w /\ gos w' = gos w /\
    match r with
    | Some e => sc_of w' = sc_of w /\ login_failed (sc_of w) tr e
    | None => exists nonce t s token rsp1 rsp2,
        let message := siwe_message (sc_of w) nonce (Format_UTC t) in
        tr = [nonce_request (sc_of w) ↦ inl rsp1;
              login_request (sc_of w) message (wire_signature s) ↦ inl rsp2] /\
        hr_StatusCode rsp1 = 200 /\ Decode_nonce (hr_Body rsp1) = inl nonce /\
        clk w <= t <= clk w' /\
        crypto_Sign (Keccak256 (prefixedMessage message)) (sc_privateKey (sc_of w)) = inl s /\
        hr_StatusCode rsp2 = 200 /\ Decode_token (hr_Body rsp2) = inl token /\
        sc_of w' = set_token token (sc_of w)
    end.
Proof. apply Login_runs. Qed.

(** C31: The token guards the other requests.  Without one, nothing is sent and the
    answer says so; this is also what happens after a login that was answered
    with an empty token.  With one, a node is registered or a certificate issued
    by at most one request, which carries the token; a result is returned
    exactly for an answer of the expected status that decodes to it. *)
Theorem token_guards_requests gpuUUID gpuType memoryGB pricePerSec w :
  let c := sc_of w in
  let reg := register_request c gpuUUID gpuType memoryGB pricePerSec in
  (sc_token c = "" ->
   run (RegisterNode gpuUUID gpuType memoryGB pricePerSec) w = (Done (inr not_authenticated), w) /\
   run IssueCertificate w = (Done (inr not_authenticated), w)) /\
  (sc_token c <> "" ->
   (exists r w', run (RegisterNode gpuUUID gpuType memoryGB pricePerSec) w = (Done r, w') /\
      match NewRequest_error (hr_url reg) with
      | Some e => r = inr e /\ w' = w
      | None => exists x, makes_calls [reg ↦ x] w w' /\
                  r = good_answer "registration" [201; 200] Decode_node_id x
      end) /\
   (exists r w', run IssueCertificate w = (Done r, w') /\
      match NewRequest_error (hr_url (certificate_request c)) with
      | Some e => r = inr e /\ w' = w
      | None => exists x, makes_calls [certificate_request c ↦ x] w w' /\
                  r = good_answer "certificate issuance" [200] Decode_bundle x
      end)) /\
  ("Authorization", "Bearer " +:+ sc_token c) ∈ hr_headers reg /\
  ("Authorization", "Bearer " +:+ sc_token c) ∈ hr_headers (certificate_request c).
Proof.
  intros c reg. split; [|split; [|split; cbn; set_solver]].
  - intros Ht. unfold RegisterNode, IssueCertificate. go_run. fold (sc_of w).
    change (sc_of w) with c. by rewrite bool_decide_eq_true_2.
  - intros Ht. unfold RegisterNode, IssueCertificate. split; go_run; fold (sc_of w); change (sc_of w) with c;
      rewrite bool_decide_eq_false_2 by done.
    + change (hr_url reg) with (sc_hubURL c +:+ "/api/v1/nodes").
      destruct (NewRequest_error _) as [e|]; [by eexists _, w|]. go_run. fold reg.
      pose proof (makes_calls_one (reg : op HubOps) w) as H.
      destruct (answer (reg : op HubOps) w) as [resp|e]; [|by eauto 10].
      eexists _, _. split; [|exists (inl resp); split; [exact H|done]].
      cbn [good_answer]. destruct (decide (hr_StatusCode resp ∈ [201; 200])) as [Hi|Hi].
      * rewrite (bool_decide_eq_true_2 _ Hi). by apply elem_of_cons in Hi as [Hi|Hi%list_elem_of_singleton]; rewrite Hi.
      * rewrite (bool_decide_eq_false_2 _ Hi), !bool_decide_eq_false_2 by set_solver. done.
    + change (hr_url _) with (sc_hubURL c +:+ "/api/v1/certs/bootstrap").
      destruct (NewRequest_error _) as [e|]; [by eexists _, w|]. go_run.
      pose proof (makes_calls_one (certificate_request c : op HubOps) w) as H.
      destruct (answer (certificate_request c : op HubOps) w) as [resp|e]; [|by eauto 10].
      eexists _, _. split; [|exists (inl resp); split; [exact H|done]].
      cbn [good_answer]. destruct (decide (hr_StatusCode resp ∈ [200])) as [Hi|Hi].
      * rewrite (bool_decide_eq_true_2 _ Hi). apply list_elem_of_singleton in Hi. by rewrite Hi.
      * rewrite (bool_decide_eq_false_2 _ Hi), !bool_decide_eq_false_2 by set_solver. done.
Qed.

(** C30: What the Hub gets as a signature can be read back: [0x] and 130
    hexadecimal digits, which decode to the 65 bytes that were signed, with the
    recovery byte moved from 0 or 1 to 27 or 28 as Ethereum wants it. *)
Theorem signature_round_trip m w s :
  crypto_Sign (Keccak256 (prefixedMessage m)) (sc_privateKey (sc_of w)) = inl s ->
  exists wire s' v, run (signMessage m) w = (Done (inl wire), w) /\ String.length wire = 132%nat /\
    hex_decode (TrimPrefix wire "0x") = Some s' /\ String.length s' = 65%nat /\
    String.get 64 s = Some v /\ (nat_of_ascii v <= 1)%nat /\
    String.get 64 s' = Some (ascii_of_nat (nat_of_ascii v + 27)) /\
    forall i, (i < 64)%nat -> String.get i s' = String.get i s.
Proof.
  intros Hs. destruct (signature_format _ _ _ Hs) as (Hlen & v & Hv & Hv1).
  exists (wire_signature s), (adjust_v s v), v. rewrite signMessage_runs, Hs.
  unfold wire_signature. rewrite Hv. split; [done|].
  assert (Hadj : adjust_v s v = set_byte 64 (ascii_of_nat (nat_of_ascii v + 27)) s).
  { unfold adjust_v. by rewrite (proj2 (Nat.ltb_lt _ 27)) by lia. }
  assert (Hl : String.length (adjust_v s v) = 65%nat) by by rewrite Hadj, set_byte_length.
  split; [change (2 + String.length (hex_encode (adjust_v s v)) = 132)%nat; rewrite hex_encode_length; lia|].
  split; [by rewrite TrimPrefix_app, hex_roundtrip|]. split; [done|]. split; [done|]. split; [done|].
  rewrite Hadj. split; [rewrite get_set_byte by lia; by rewrite decide_True|].
  intros i Hi. rewrite get_set_byte by lia. by rewrite decide_False by lia.
Qed.

End Properties.

(** ** A Hub and a wallet

    A toy wallet that signs with 64 fixed bytes and the recovery byte 1, and a
    Hub that gives out one nonce and one token. *)

Definition toy_signature : string := bytes (replicate 64 7 ++ [1]).

#[local] Instance toy_ethereum : Ethereum := {|
  PrivateKey := string;
  ToECDSA k := if bool_decide (String.length k = 2%nat) then inl k else inr (ErrNew "invalid length, need 256 bits");
  PubkeyAddress k := "0x" +:+ hex_encode k;
  Keccak256 s := s;
  crypto_Sign _ _ := inl toy_signature;
|}.

#[export] Instance toy_format : @SignatureFormat toy_ethereum.
Proof.
  intros hash key s [= <-]. split; [done|]. by exists (ascii_of_nat 1).
Qed.

#[local] Instance toy_codec : Codec := {|
  Marshal_json j := match j with JObj ((_, JStr m) :: _) => m | _ => "{}" end;
  Decode_nonce s := inl s;
  Decode_token s := inl s;
  Decode_node_id s := inl s;
  Decode_bundle s := inl (MkCertificateBundle s s s s s);
  Format_UTC t := itoa t;
  hex_error s := ErrNew s;
  NewRequest_error _ := None;
|}.

Definition hub_answer (r : HubRequest) : HubResponse + error :=
  if HasSuffix (hr_url r) "/nonce" then inl (MkHubResponse 200 "n-1")
  else if HasSuffix (hr_url r) "/login" then inl (MkHubResponse 200 "jwt")
  else if HasSuffix (hr_url r) "/nodes" then inl (MkHubResponse 201 "node-7")
  else inl (MkHubResponse 500 "no").

#[local] Instance toy_hub : Environment HubOps := {|
  env_state := unit;
  env_call (o : op HubOps) _ _ := (hub_answer o, tt);
  env_elapse _ := (0%N, tt);
  env_cancelled _ _ := false;
|}.

Definition toy_client (token : string) : SIWEClient :=
  MkSIWEClient "http://hub:8080" "" (bytes [171; 205]) "0xabcd" token.

Definition wallet_world (token : string) : @world HubOps (SIWEClient) toy_hub :=
  @World HubOps _ toy_hub 0 tt ∅ (toy_client token) [] [].

Example toy_client_made :
  NewSIWEClient "http://hub:8080/" "0xABcd" = inl (toy_client "").
Proof. by vm_compute. Qed.

Lemma Login_correct_witness :
  exists r w' tr, run Login (wallet_world "") = (Done r, w') /\
    r = None /\ calls w' = tr /\ sc_token (sc_of w') = "jwt".
Proof.
  destruct (Login_correct (wallet_world ""))
    as (r & w' & tr & Hrun & Hc & _ & _ & _).
  exists r, w', tr. split; [done|].
  assert (Hf : fst (run Login (wallet_world "")) = Done None) by by vm_compute.
  assert (Ht : sc_token (sc_of (snd (run Login (wallet_world "")))) = "jwt")
    by by vm_compute.
  rewrite Hrun in Hf, Ht. injection Hf as ->. done.
Defined.

Lemma token_guards_requests_witness :
  run (RegisterNode "u" "t" 1 "p") (wallet_world "") =
    (Done (inr not_authenticated), wallet_world "") /\
  exists r w', run (RegisterNode "u" "t" 1 "p") (wallet_world "jwt") = (Done r, w') /\
    r = inl "node-7".
Proof.
  destruct (token_guards_requests "u" "t" 1 "p" (wallet_world "")) as (H1 & _).
  destruct (token_guards_requests "u" "t" 1 "p" (wallet_world "jwt")) as (_ & H2 & _).
  split; [by apply H1|]. destruct H2 as [(r & w' & Hrun & _) _]; [done|]. exists r, w'. split; [done|].
  assert (Hf : fst (run (RegisterNode "u" "t" 1 "p") (wallet_world "jwt")) =
               Done (inl "node-7")) by by vm_compute.
  rewrite Hrun in Hf. by injection Hf as ->.
Defined.

Lemma signature_round_trip_witness :
  exists wire, run (signMessage "hello") (wallet_world "") = (Done (inl wire), wallet_world "") /\
    String.length wire = 132%nat.
Proof.
  destruct (signature_round_trip "hello" (wallet_world "") toy_signature)
    as (wire & s' & v & Hrun & Hl & _); [done|].
  by exists wire.
Defined.
