(* ===== verification/Services.v ===== *)
(** The node daemon ([internal/services/node_daemon.go]): the memory of the whole
    node, the dispatch of the Hub's commands to the rental executor and the
    mining daemon, and the heartbeat.

    The two components run inside the node through [lift]: their Docker calls
    are among the operations [NodeOps] of the node.  The JSON codec and the
    result of converting a float64 that no [int64] represents, which Go leaves
    to the implementation, are parameters. *)

From Stdlib Require Import ZArith Lia String SpecFloat.
From stdpp Require Import base numbers strings list gmap.
From S2P Require Import Prelude.
From S2P Require Import Effects.
From S2P Require Import Domain.
From S2P Require Import Port.
From S2P Require Import Container.
From S2P Require Import Rental.
From S2P Require Import Nvml.
From S2P Require Import Mining.
From S2P Require Import Mtls.

(** ** Data *)

(** The provider that a node is given: one that is behind the interface of the
    node, as NVML's is, or the mock. *)
Inductive gpu_provider : Type :=
| ViaInterface
| ViaMock (p : MockGPUProvider).

(** A pointer that is [nil] until it is configured is a flag: the component it
    points to is in the memory of the node. *)
Record NodeDaemon : Type := MkNodeDaemon {
  nd_gpuProvider : gpu_provider;
  nd_nodeID : string;
  nd_hostAddr : string;
  nd_metricsInterval : Z;
  nd_stopCh_closed : bool;
  has_rentalExecutor : bool;
  has_miningDaemon : bool;
  has_mtlsClient : bool;
}.

Definition NewNodeDaemon (gpuProvider : gpu_provider) (nodeID : string) : NodeDaemon :=
  MkNodeDaemon gpuProvider nodeID "" (30 * Second) false false false false.
Definition WithRentalExecutor (hostAddr : string) (d : NodeDaemon) : NodeDaemon :=
  MkNodeDaemon (nd_gpuProvider d) (nd_nodeID d) hostAddr (nd_metricsInterval d) (nd_stopCh_closed d) true (has_miningDaemon d)
               (has_mtlsClient d).
Definition WithMiningDaemon (d : NodeDaemon) : NodeDaemon :=
  MkNodeDaemon (nd_gpuProvider d) (nd_nodeID d) (nd_hostAddr d) (nd_metricsInterval d) (nd_stopCh_closed d) (has_rentalExecutor d) true
               (has_mtlsClient d).
Definition with_mtlsClient (d : NodeDaemon) : NodeDaemon :=
  MkNodeDaemon (nd_gpuProvider d) (nd_nodeID d) (nd_hostAddr d) (nd_metricsInterval d) (nd_stopCh_closed d) (has_rentalExecutor d)
               (has_miningDaemon d) true.
Definition close_node_stopCh (d : NodeDaemon) : NodeDaemon :=
  MkNodeDaemon (nd_gpuProvider d) (nd_nodeID d) (nd_hostAddr d) (nd_metricsInterval d) true (has_rentalExecutor d) (has_miningDaemon d)
               (has_mtlsClient d).

(** *** The memory of the node *)

Record Memory : Type := MkMemory {
  mem_port : PortManager;
  mem_rental : RentalExecutor;
  mem_mining : MiningDaemon;
  mem_client : Client;
  mem_daemon : NodeDaemon;
}.

#[export] Instance Memory_port : Field Memory PortManager.
Proof.
  refine {| get := mem_port;
            set p s := MkMemory p (mem_rental s) (mem_mining s) (mem_client s) (mem_daemon s) |};
    by try intros [].
Defined.
#[export] Instance Memory_rental : Field Memory RentalExecutor.
Proof.
  refine {| get := mem_rental;
            set r s := MkMemory (mem_port s) r (mem_mining s) (mem_client s) (mem_daemon s) |};
    by try intros [].
Defined.
#[export] Instance Memory_mining : Field Memory MiningDaemon.
Proof.
  refine {| get := mem_mining;
            set m s := MkMemory (mem_port s) (mem_rental s) m (mem_client s) (mem_daemon s) |};
    by try intros [].
Defined.
#[export] Instance Memory_client : Field Memory Client.
Proof.
  refine {| get := mem_client;
            set c s := MkMemory (mem_port s) (mem_rental s) (mem_mining s) c (mem_daemon s) |};
    by try intros [].
Defined.
#[export] Instance Memory_daemon : Field Memory NodeDaemon.
Proof.
  refine {| get := mem_daemon;
            set d s := MkMemory (mem_port s) (mem_rental s) (mem_mining s) (mem_client s) d |};
    by try intros [].
Defined.

#[export] Instance port_rental_disjoint : Disjoint Memory PortManager RentalExecutor.
Proof. by split. Qed.
#[export] Instance port_mining_disjoint : Disjoint Memory PortManager MiningDaemon.
Proof. by split. Qed.
#[export] Instance port_client_disjoint : Disjoint Memory PortManager Client.
Proof. by split. Qed.
#[export] Instance port_daemon_disjoint : Disjoint Memory PortManager NodeDaemon.
Proof. by split. Qed.
#[export] Instance rental_mining_disjoint : Disjoint Memory RentalExecutor MiningDaemon.
Proof. by split. Qed.
#[export] Instance rental_client_disjoint : Disjoint Memory RentalExecutor Client.
Proof. by split. Qed.
#[export] Instance rental_daemon_disjoint : Disjoint Memory RentalExecutor NodeDaemon.
Proof. by split. Qed.
#[export] Instance mining_port_disjoint : Disjoint Memory MiningDaemon PortManager.
Proof. by split. Qed.
#[export] Instance mining_rental_disjoint : Disjoint Memory MiningDaemon RentalExecutor.
Proof. by split. Qed.
#[export] Instance mining_client_disjoint : Disjoint Memory MiningDaemon Client.
Proof. by split. Qed.
#[export] Instance mining_daemon_disjoint : Disjoint Memory MiningDaemon NodeDaemon.
Proof. by split. Qed.

(** *** The outside of the node *)

Inductive node_op : Type :=
| n_docker (o : svc_op)
| n_net (o : net_op)
| n_gpu (o : gpu_op)
| n_DialUDP (addr : string)       (* net.Dial("udp", addr): the local IP *)
| n_CloseUDP.

Definition node_res (o : node_op) : Type :=
  match o with
  | n_docker o => svc_res o
  | n_net o => net_res o
  | n_gpu o => gpu_res o
  | n_DialUDP _ => string * option error
  | n_CloseUDP => option error
  end.

Definition NodeOps : Signature := MkSignature node_op node_res.

#[export] Instance docker_in_node : Embeds DockerServiceInterface NodeOps.
Proof.
  refine {| inj (o : op DockerServiceInterface) := n_docker o : op NodeOps;
            inj_back _ r := r; inj_fwd _ r := r |}; done.
Defined.
#[export] Instance gpu_in_node : Embeds GPUProvider NodeOps.
Proof.
  refine {| inj (o : op GPUProvider) := n_gpu o : op NodeOps; inj_back _ r := r; inj_fwd _ r := r |}; done.
Defined.
#[export] Instance net_in_node : Embeds NetOps NodeOps.
Proof.
  refine {| inj (o : op NetOps) := n_net o : op NodeOps; inj_back _ r := r; inj_fwd _ r := r |}; done.
Defined.

#[export] Instance node_op_eq_dec : EqDecision node_op.
Proof. solve_decision. Defined.
#[export] Instance NodeOps_op_eq_dec : EqDecision (op NodeOps) := node_op_eq_dec.

(** ** Payloads *)

(** [v, _ := payload[key].(string)]. *)
Definition payload_string (p : gmap string json) (key : string) : string :=
  match p !! key with Some (JStr s) => s | _ => "" end.

(** The integer part of a float64, towards zero. *)
Definition float64_trunc (f : spec_float) : option Z :=
  match f with
  | S754_zero _ => Some 0
  | S754_finite neg m e =>
      let v := if 0 <=? e then Z.pos m * 2 ^ e else Z.pos m / 2 ^ (- e) in
      Some (if neg then - v else v)
  | _ => None
  end.

(** [float64(z)]. *)
Definition float64_of_Z (z : Z) : spec_float := binary_normalize 53 1024 z 0 false.

Section Operations.
Context (int64_of_unrepresentable : spec_float -> Z).
Context (Marshal_heartbeat : json -> string) (Format_RFC3339 : Z -> string).
Local Open Scope go_scope.

Notation node := (prog NodeOps Memory).
Notation ncall o := (@call NodeOps Memory o).

(** [int64(v)] of a float64. *)
Definition int64_of_float64 (f : spec_float) : Z :=
  match float64_trunc f with
  | Some z => if bool_decide (in_int64 z) then z else int64_of_unrepresentable f
  | None => int64_of_unrepresentable f
  end.

Definition payload_int64 (p : gmap string json) (key : string) (dflt : Z) : Z :=
  match p !! key with Some (JNum f) => int64_of_float64 f | _ => dflt end.

Definition default_image : string := "nvidia/cuda:12.1.1-runtime-ubuntu22.04".

(** The request that [handleStartRental] hands to the executor. *)
Definition rental_request (d : NodeDaemon) (p : gmap string json) : StartRentalRequest :=
  let image := payload_string p "image" in
  {| req_SessionID := payload_string p "session_id";
     req_Image := if bool_decide (image = "") then default_image else image;
     req_GPUDeviceID := payload_string p "gpu_device_id";
     req_SSHPassword := payload_string p "ssh_password";
     req_MemoryBytes := int64_mul (int64_mul (payload_int64 p "memory_mb" 16384) 1024) 1024;
     req_CPUCount := payload_int64 p "cpu_count" 4;
     req_Host := nd_hostAddr d |}.

Definition error_ack (cmd : Command) (msg : string) : CommandAck :=
  MkCommandAck (cmd_ID cmd) "error" msg ∅.

Definition getOutboundIP : node string :=
  let! (ip, err) := ncall (n_DialUDP "8.8.8.8:80") ;;
  match err with
  | Some _ => Ret "localhost"
  | None => _ <- ncall n_CloseUDP ;; Ret ip
  end.

Definition started_payload (sshHost : string) (sessionID : string) (ci : ConnectionInfo)
  : gmap string json :=
  {[ "session_id" := JStr sessionID; "ssh_host" := JStr sshHost;
     "ssh_port" := JNum (float64_of_Z (conn_Port ci)); "ssh_user" := JStr (conn_User ci);
     "container_id" := JStr (conn_ContainerID ci) ]}.

(** The GPU is taken from mining before the rental is started. *)
Definition pause_mining (d : NodeDaemon) (gpuDeviceID : string) : node unit :=
  if has_miningDaemon d && bool_decide (gpuDeviceID <> "") then
    pauseCtx <- WithTimeout (30 * Second) ;;
    _ <- lift (PauseForRental pauseCtx [gpuDeviceID]) ;;
    Ret tt
  else Ret tt.

Definition handleStartRental (cmd : Command) : node CommandAck :=
  d <- load ;;
  if negb (has_rentalExecutor d) then Ret (error_ack cmd "rental executor not configured") else
  let req := rental_request d (cmd_Payload cmd) in
  if bool_decide (req_SessionID req = "") then Ret (error_ack cmd "missing session_id") else
  pause_mining d (req_GPUDeviceID req) ;;;
  ctx <- WithTimeout (10 * Minute) ;;
  let! (connInfo, err) := lift (StartRental ctx req) ;;
  match err with
  | Some e => Ret (error_ack cmd ("failed to start rental: " +:+ error_string e))
  | None =>
      match connInfo with
      | None => Panic "invalid memory address or nil pointer dereference"
      | Some ci =>
          sshHost <- (if bool_decide (nd_hostAddr d = "") || bool_decide (nd_hostAddr d = "localhost")
                      then getOutboundIP else Ret (nd_hostAddr d)) ;;
          Ret (MkCommandAck (cmd_ID cmd) "ok" "" (started_payload sshHost (req_SessionID req) ci))
      end
  end.

Definition handleStopRental (cmd : Command) : node CommandAck :=
  d <- load ;;
  if negb (has_rentalExecutor d) then Ret (error_ack cmd "rental executor not configured") else
  let sessionID := payload_string (cmd_Payload cmd) "session_id" in
  if bool_decide (sessionID = "") then Ret (error_ack cmd "missing session_id") else
  ctx <- WithTimeout (30 * Second) ;;
  err <- lift (StopRental ctx sessionID) ;;
  match err with
  | Some e => Ret (MkCommandAck (cmd_ID cmd) "ok" ("stop warning: " +:+ error_string e) ∅)
  | None =>
      (if has_miningDaemon d then
         resumeCtx <- WithTimeout (30 * Second) ;;
         _ <- lift (ResumeAfterRental resumeCtx []) ;;
         Ret tt
       else Ret tt) ;;;
      Ret (MkCommandAck (cmd_ID cmd) "ok" "" {[ "session_id" := JStr sessionID ]})
  end.

Definition handleCommand (cmd : Command) : node CommandAck :=
  if bool_decide (cmd_Type cmd = "start_rental") then handleStartRental cmd
  else if bool_decide (cmd_Type cmd = "stop_rental") then handleStopRental cmd
  else if bool_decide (cmd_Type cmd = "start_job") then handleStartRental cmd
  else if bool_decide (cmd_Type cmd = "stop_job") then handleStopRental cmd
  else Ret (error_ack cmd "unknown command").

(** *** The heartbeat

    [json.Marshal] writes the keys of a map in order. *)

Definition metrics_json (g : GPUMetrics) : json :=
  JObj [("uuid", JStr (gm_UUID g)); ("name", JStr (gm_Name g));
        ("memory_total_mb", JInt (gm_MemoryTotal g)); ("memory_used_mb", JInt (gm_MemoryUsed g));
        ("gpu_util_percent", JInt (gm_GPUUtil g)); ("memory_util_percent", JInt (gm_MemoryUtil g));
        ("temperature_c", JInt (gm_Temperature g))].

Definition state_string (s : MiningState) : string :=
  match s with
  | MiningStateStopped => "stopped"
  | MiningStateRunning => "running"
  | MiningStatePaused => "paused"
  end.

Definition mining_json (status : MiningStatus) : json :=
  JObj ([("container_id", JStr (ms_ContainerID status));
         ("gpu_count", JInt (ms_GPUCount status))] ++
        match ms_StartedAt status with
        | Some t => [("started_at", JStr (Format_RFC3339 t))]
        | None => []
        end ++
        [("state", JStr (state_string (ms_State status)))]).

Definition heartbeat_json (metrics : list GPUMetrics) (mining : list (string * json)) : json :=
  JObj [("payload", JObj (("gpu_metrics", JArr (metrics_json <$> metrics)) :: mining));
        ("type", JStr "heartbeat")].

Definition buildHeartbeat (metrics : list GPUMetrics) : node string :=
  d <- load ;;
  mining <- (if has_miningDaemon d then
               status <- lift Status ;; Ret [("mining", mining_json status)]
             else Ret []) ;;
  Ret (Marshal_heartbeat (heartbeat_json metrics mining)).

(** A method of [d.gpuProvider]. *)
Definition gpu_call (o : gpu_op) : node (gpu_res o) :=
  d <- load (T := NodeDaemon) ;;
  match nd_gpuProvider d with
  | ViaInterface => ncall (n_gpu o)
  | ViaMock p => MockProvider p (o : op GPUProvider)
  end.

(** The arm of [reportMetrics] that a tick fires. *)
Definition report_tick : node unit :=
  let! (metrics, err) := gpu_call gpu_GetMetrics ;;
  match err with
  | Some _ => Ret tt
  | None =>
      heartbeat <- buildHeartbeat metrics ;;
      d <- load ;;
      if has_mtlsClient d then _ <- Send heartbeat ;; Ret tt else Ret tt
  end.

(** [reportMetrics] over the arms that fire, [true] for a tick (one every
    [nd_metricsInterval]) and [false] for the stop channel; [true] when it has returned. *)
Fixpoint reportMetrics (ticks : list bool) : node bool :=
  match ticks with
  | [] => Ret false
  | false :: _ => Ret true
  | true :: ticks => report_tick ;;; reportMetrics ticks
  end.

(** *** Connecting, starting and stopping *)

Definition ConnectToHub (hubAddr cert rootCAs : string) : node (option error) :=
  store (NewClient hubAddr cert rootCAs) ;;;
  modify with_mtlsClient ;;;
  Connect.

(** [Start] up to the point where it waits for [stopCh]: the two loops run in the
    background, over connections of at most [rounds] commands, [n] of them, and
    over the given arms of the metrics loop.  [true] when the provider has to be
    shut down. *)
Definition Daemon_Start (Unmarshal : string -> option Command) (Marshal : CommandAck -> string)
    (n rounds attempts : nat) (ticks : list bool) : node bool :=
  err <- gpu_call gpu_Init ;;
  d <- load (T := NodeDaemon) ;;
  spawn (if has_mtlsClient d
         then _ <- Listen Unmarshal Marshal (Some handleCommand) None n rounds attempts ;; Ret tt
         else Panic "invalid memory address or nil pointer dereference") ;;;
  spawn (_ <- reportMetrics ticks ;; Ret tt) ;;;
  Ret match err with Some _ => false | None => true end.

(** [Start] once [stopCh] is closed. *)
Definition Daemon_Start_return (initialised : bool) : node (option error) :=
  deferring (if initialised then _ <- gpu_call gpu_Shutdown ;; Ret tt else Ret tt)
    (Ret None).

Definition Daemon_Stop : node unit :=
  d <- load ;;
  if nd_stopCh_closed d then Panic "close of closed channel" else
  modify close_node_stopCh ;;;
  d <- load ;;
  if has_mtlsClient d then Client_Close else Ret tt.

End Operations.

(** ** The components inside the node *)

(** What the rental executor's operations leave alone. *)
Section RentalFrames.
Context {U : Type} `{FU : !Field Memory U} `{D1 : !Disjoint Memory PortManager U}
        `{D2 : !Disjoint Memory RentalExecutor U}.

Notation view := (get (S := Memory) (T := U)).

Lemma frames_Allocate sid : frames view (Allocate (Σ := DockerServiceInterface) (S := Memory) sid).
Proof. unfold Allocate. solve_frames. Qed.
Lemma frames_Release p : frames view (Release (Σ := DockerServiceInterface) (S := Memory) p).
Proof. unfold Release. solve_frames. Qed.

Lemma frames_cleanupOnError id p : frames view (cleanupOnError (S := Memory) id p).
Proof. unfold cleanupOnError. cbn [pm_Release]. solve_frames. Qed.

Lemma frames_waitForHealth_loop n i d c id :
  frames view (waitForHealth_loop (S := Memory) n i d c id).
Proof.
  revert c. induction n as [|n IH]; intros c; cbn [waitForHealth_loop]; solve_frames; apply IH.
Qed.

Lemma frames_StartRental c req : frames view (StartRental (S := Memory) c req).
Proof.
  unfold StartRental, StartRental_created, waitForHealth. cbn [pm_Allocate].
  solve_frames; auto using frames_Allocate, frames_cleanupOnError, frames_waitForHealth_loop.
Qed.

Lemma frames_StopRental c sid : frames view (StopRental (S := Memory) c sid).
Proof. unfold StopRental, spawn. solve_frames. Qed.

Lemma frames_scheduleCleanup sid id p : frames view (scheduleCleanup (S := Memory) sid id p).
Proof. unfold scheduleCleanup. cbn [pm_Release]. solve_frames. Qed.

End RentalFrames.

(** Rentals never create a mining container. *)
Lemma issues_waitForHealth_loop n i d c id :
  issues (Σ := DockerServiceInterface) (S := Memory) not_mining_create (waitForHealth_loop n i d c id).
Proof.
  revert c. induction n as [|n IH]; intros c; cbn [waitForHealth_loop]; solve_issues; apply IH.
Qed.

Lemma issues_StartRental c req : issues (Σ := DockerServiceInterface) (S := Memory) not_mining_create (StartRental c req).
Proof.
  unfold StartRental, StartRental_created, waitForHealth, cleanupOnError.
  cbn [pm_Allocate pm_Release]. unfold Allocate, Release.
  solve_issues; auto using issues_waitForHealth_loop.
Qed.

Section Node.
Context `{E : !Environment NodeOps}.
Implicit Types (w : world NodeOps Memory) (tr : trace).

Definition rental_of w : RentalExecutor := mem_rental (mem w).
Definition mining_of w : MiningDaemon := mem_mining (mem w).
Definition client_of w : Client := mem_client (mem w).
Definition daemon_of w : NodeDaemon := mem_daemon (mem w).
Definition holds w : gmap Z string := held (mem_port (mem w)).

(** The node between two operations: every mutex free, the port manager well
    formed, the executor with a sane configuration. *)
Record node_ready w : Prop := {
  nr_rental : locks w !! rental_mu = None;
  nr_port : locks w !! port_mu = None;
  nr_mining : locks w !! mining_mu = None;
  nr_conn : locks w !! connMu = None;
  nr_wf : pm_wf (mem_port (mem w));
  nr_interval : 0 < healthInterval (rental_of w);
  nr_timeout : 0 <= healthTimeout (rental_of w);
}.

(** Docker calls of a component, among those of the node, and time. *)
Record node_steps tr w w' : Prop := {
  ns_locks : locks w' = locks w;
  ns_calls : calls w' = calls w ++ (lift_call <$> tr);
  ns_clk : clk w <= clk w';
}.

Lemma node_steps_refl w : node_steps [] w w.
Proof. split; [done|by rewrite app_nil_r|done]. Qed.

Lemma node_steps_app tr1 tr2 w1 w2 w3 :
  node_steps tr1 w1 w2 -> node_steps tr2 w2 w3 -> node_steps (tr1 ++ tr2) w1 w3.
Proof.
  intros [] []. split; [congruence| |lia]. rewrite fmap_app, app_assoc. congruence.
Qed.

Lemma node_steps_advance w : node_steps [] w (advance w).
Proof. split; [by go_simpl|rewrite app_nil_r; by go_simpl|apply advance_clk]. Qed.

(** A component's run on its own, inside the node. *)
Lemma lifted_run {A} (p : prog DockerServiceInterface Memory A) w o
    (w1 : world DockerServiceInterface Memory) tr :
  run p (down w) = (o, w1) -> steps tr (down w) w1 ->
  run (lift p) w = (o, up w w1) /\ node_steps tr w (up w w1).
Proof.
  intros Hrun [Hl _ Hc Ht]. split; [by apply run_lift|]. split; [done| |done].
  unfold up; cbn [calls]. by rewrite Hc.
Qed.

Lemma node_ready_down w : node_ready w -> rental_ready (down w) /\ mining_ready (down w).
Proof. intros []. by split; [split|]. Qed.

(** What decides readiness. *)
Lemma node_ready_same w w' :
  node_ready w -> locks w' = locks w -> pm_wf (mem_port (mem w')) ->
  healthInterval (rental_of w') = healthInterval (rental_of w) ->
  healthTimeout (rental_of w') = healthTimeout (rental_of w) -> node_ready w'.
Proof. intros [] Hl ? Hi Ht. by split; rewrite ?Hl, ?Hi, ?Ht. Qed.

Lemma node_ready_advance w : node_ready w -> node_ready (advance w).
Proof.
  intros Hr. assert (Hm : mem (advance w) = mem w) by by go_simpl.
  apply (node_ready_same w); [done|by go_simpl|rewrite Hm; apply Hr|..]; unfold rental_of; by rewrite Hm.
Qed.

(** *** The rental executor *)

Lemma node_StartRental c req w :
  node_ready w ->
  exists r tr w', run (lift (StartRental c req)) w = (Done r, w') /\ node_steps tr w w' /\
    node_ready w' /\ gos w' = gos w /\ mining_of w' = mining_of w /\ client_of w' = client_of w /\
    daemon_of w' = daemon_of w /\ no_mining_create tr /\
    match r with
    | (None, Some e) => rental_of w' = rental_of w /\ holds w' = holds w
    | (Some ci, None) =>
        activeRentals (rental_of w) !! req_SessionID req = None /\
        exists p id t, ci = connection_info req p id /\ holds w !! p = None /\
          holds w' = <[p := req_SessionID req]> (holds w) /\
          rental_of w' = track req id p t (rental_of w)
    | _ => False
    end.
Proof.
  intros Hr. destruct (node_ready_down w Hr) as [Hrr _].
  destruct (StartRental_runs c req (down w) Hrr (nr_interval _ Hr) (nr_timeout _ Hr))
    as (r & tr & w1 & Hrun & Hs & Hr1 & Hres).
  destruct (lifted_run _ w _ _ _ Hrun Hs) as [Hlift Hns].
  exists r, tr, (up w w1). split; [done|]. split; [done|].
  pose proof (frames_run (get (T := MiningDaemon)) _ (down w) (frames_StartRental c req)) as Hm.
  pose proof (frames_run (get (T := Client)) _ (down w) (frames_StartRental c req)) as Hcl.
  pose proof (frames_run (get (T := NodeDaemon)) _ (down w) (frames_StartRental c req)) as Hd.
  rewrite Hrun in Hm, Hcl, Hd.
  assert (Hre : match r with (None, Some _) => re_of w1 = rental_of w
                | (Some _, None) => exists id p t, re_of w1 = track req id p t (rental_of w)
                | _ => False end).
  { destruct r as [[ci|] [e|]]; try done; [|by destruct Hres].
    destruct Hres as (_ & p & id & t & _ & _ & _ & _ & _ & _ & H). by exists id, p, t. }
  assert (Hcfg : healthInterval (re_of w1) = healthInterval (rental_of w) /\
                 healthTimeout (re_of w1) = healthTimeout (rental_of w)).
  { destruct r as [[ci|] [e|]]; try done; [destruct Hre as (?&?&?&Hre)|]; by rewrite Hre. }
  split; [apply (node_ready_same w); [done|apply Hns|apply Hr1|apply Hcfg..]|].
  split; [unfold up; cbn [gos]; rewrite (st_gos _ _ _ Hs); by rewrite app_nil_r|].
  split; [exact Hm|]. split; [exact Hcl|]. split; [exact Hd|]. split.
  { destruct (run_issues _ _ (down w) (issues_StartRental c req)) as (tr' & Hc' & Hq).
    rewrite Hrun in Hc'. cbn [snd] in Hc'. rewrite (st_calls _ _ _ Hs) in Hc'.
    by apply app_inv_head in Hc' as ->. }
  destruct r as [[ci|] [e|]]; try done.
  - destruct Hres as (Ha & p & id & t & Hci & Hp & Hh & _ & _ & _ & Hre'). eauto 10.
  - by destruct Hres as (H1 & H2 & _).
Qed.

Lemma node_StopRental c sid w :
  node_ready w ->
  exists r tr w', run (lift (StopRental c sid)) w = (Done r, w') /\ node_steps tr w w' /\
    node_ready w' /\ mining_of w' = mining_of w /\ client_of w' = client_of w /\
    daemon_of w' = daemon_of w /\ holds w' = holds w /\
    match activeRentals (rental_of w) !! sid with
    | None => r = Some ErrSessionNotFound /\ tr = [] /\ rental_of w' = rental_of w /\ gos w' = gos w
    | Some st => (exists now, rental_of w' = mark_stopped sid st now (rental_of w)) /\
        (exists x, tr = [svc_StopContainer c (rs_ContainerID st) 10 ↦ x]) /\
        gos w' = gos w ++ match r with
                          | None => [lift (scheduleCleanup sid (rs_ContainerID st) (rs_SSHPort st))]
                          | Some _ => []
                          end
    end.
Proof.
  intros Hr. destruct (node_ready_down w Hr) as [Hrr _].
  destruct (StopRental_runs c sid (down w) Hrr)
    as (r & tr & w1 & Hrun & Hr1 & Hl & Hc & Ht & Hh & Hres).
  change (re_of (down w)) with (rental_of w) in Hres.
  pose proof (frames_run (get (T := MiningDaemon)) _ (down w) (frames_StopRental c sid)) as Hm.
  pose proof (frames_run (get (T := Client)) _ (down w) (frames_StopRental c sid)) as Hcl.
  pose proof (frames_run (get (T := NodeDaemon)) _ (down w) (frames_StopRental c sid)) as Hd.
  rewrite Hrun in Hm, Hcl, Hd.
  assert (Hcfg : healthInterval (re_of w1) = healthInterval (rental_of w) /\
                 healthTimeout (re_of w1) = healthTimeout (rental_of w)).
  { destruct (activeRentals (rental_of w) !! sid);
      [by destruct Hres as ((now & _ & ->) & _)|by destruct Hres as (_ & _ & ->)]. }
  exists r, tr, (up w w1). split; [by apply run_lift|].
  split; [split; [done|unfold up; cbn [calls]; by rewrite Hc|done]|].
  split; [apply (node_ready_same w); [done|done|apply Hr1|apply Hcfg..]|].
  split; [exact Hm|]. split; [exact Hcl|]. split; [exact Hd|]. split; [exact Hh|].
  change (rental_of (up w w1)) with (re_of w1). unfold up; cbn [gos].
  destruct (activeRentals (rental_of w) !! sid) as [st|].
  - destruct Hres as ((now & _ & Hre) & x & Htr & Hx). split; [by exists now|].
    split; [by exists x|]. f_equal. destruct x as [e|]; by destruct Hx as [-> ->].
  - destruct Hres as (-> & -> & ->). by rewrite app_nil_r.
Qed.

(** *** The mining daemon *)

(** Only the daemon's component of the memory changes. *)
Definition with_mining (m : MiningDaemon) w w' : Prop := mem w' = set m (mem w).

Lemma node_ready_mining m w w' :
  node_ready w -> locks w' = locks w -> with_mining m w w' -> node_ready w'.
Proof.
  intros Hr Hl Hm. apply (node_ready_same w); [done|done|..]; unfold rental_of; rewrite Hm;
    [apply Hr|done|done].
Qed.

Lemma node_PauseForRental c gpus w :
  node_ready w ->
  exists tr b w', run (lift (PauseForRental c gpus)) w = (Done None, w') /\ node_steps tr w w' /\
    node_ready w' /\ with_mining (mining_of w') w w' /\
    pause_result c gpus (mining_of w) tr b (mining_of w') /\
    gos w' = gos w ++ if (b : bool) then [lift restart] else [].
Proof.
  intros Hr. destruct (node_ready_down w Hr) as [_ Hmr].
  destruct (PauseForRental_runs c gpus (down w) Hmr) as (tr & b & w1 & [Hs Hm] & Hres & Hrun).
  set (w2 := if b then add_go restart w1 else w1) in *.
  assert (Hm2 : mem w2 = mem w1) by by destruct b.
  assert (Hl2 : locks w2 = locks w1) by by destruct b.
  assert (Hw : with_mining (mining_of (up w w2)) w (up w w2)).
  { unfold with_mining, mining_of, up; cbn [mem]. rewrite Hm2. exact Hm. }
  assert (Hl : locks (up w w2) = locks w) by (unfold up; cbn [locks]; rewrite Hl2; apply Hs).
  exists tr, b, (up w w2). split; [by apply run_lift|]. split.
  { destruct Hs as [_ _ Hc Ht]. split; [done| |];
      unfold up, w2; cbn [calls clk]; destruct b; rewrite ?calls_add_go, ?clk_add_go, ?Hc; done. }
  split; [by eapply node_ready_mining|]. split; [done|]. split.
  { change (mining_of (up w w2)) with (mem_mining (mem w2)). rewrite Hm2. exact Hres. }
  unfold up, w2; cbn [gos]. f_equal. pose proof (st_gos _ _ _ Hs) as Hg.
  change (gos (down w)) with (@nil (prog DockerServiceInterface Memory unit)) in Hg.
  destruct b; rewrite ?gos_add_go, ?Hg; done.
Qed.

(** A step of the daemon that starts no goroutine. *)
Lemma node_mining_run {A} (p : prog DockerServiceInterface Memory A) w o
    (w1 : world DockerServiceInterface Memory) tr :
  node_ready w -> run p (down w) = (o, w1) -> works MiningDaemon tr (down w) w1 ->
  run (lift p) w = (o, up w w1) /\ node_steps tr w (up w w1) /\ node_ready (up w w1) /\
  with_mining (mining_of (up w w1)) w (up w w1) /\ mining_of (up w w1) = md_of w1 /\
  gos (up w w1) = gos w.
Proof.
  intros Hr Hrun [Hs Hm]. destruct (lifted_run _ w _ _ _ Hrun Hs) as [Hlift Hns].
  split; [done|]. split; [done|]. assert (Hw : with_mining (mining_of (up w w1)) w (up w w1)) by exact Hm.
  split; [eapply node_ready_mining; [done|apply Hns|exact Hw]|]. split; [done|]. split; [done|].
  unfold up; cbn [gos]. rewrite (st_gos _ _ _ Hs). apply app_nil_r.
Qed.

Lemma node_ResumeAfterRental c gpus w :
  node_ready w ->
  exists o tr w', run (lift (ResumeAfterRental c gpus)) w = (o, w') /\ node_steps tr w w' /\
    node_ready w' /\ with_mining (mining_of w') w w' /\ gos w' = gos w /\
    match md_state (mining_of w) with
    | MiningStateRunning => o = Done None /\ tr = [] /\ mining_of w' = unmark_rented gpus (mining_of w)
    | _ => Mining.start_result c (unmark_rented gpus (mining_of w)) tr o (mining_of w')
    end.
Proof.
  intros Hr. destruct (node_ready_down w Hr) as [_ Hmr].
  pose proof (ResumeAfterRental_runs c gpus (down w) Hmr) as Hrun.
  assert (Hw1 : works MiningDaemon [] (down w) (unmarked gpus (down w))) by (unfold unmarked; auto with go).
  change (md_of (down w)) with (mining_of w) in Hrun.
  destruct (Start_runs c (unmarked gpus (down w)) Hmr) as (tr & o & w2 & Hrun2 & Hw2 & Hres).
  change (md_of (unmarked gpus (down w))) with (unmark_rented gpus (mining_of w)) in Hres.
  pose proof (works_app _ _ _ _ _ Hw1 Hw2) as Hw. cbn [app] in Hw.
  destruct (md_state (mining_of w)); rewrite ?Hrun2 in Hrun.
  1,3: destruct (node_mining_run _ w _ _ _ Hr Hrun Hw) as (H1 & H2 & H3 & H4 & H5 & H6);
    exists o, tr, (up w w2); rewrite H5; auto 10.
  destruct (node_mining_run _ w _ _ _ Hr Hrun Hw1) as (H1 & H2 & H3 & H4 & H5 & H6).
  exists (Done None), [], (up w (unmarked gpus (down w))). rewrite H5. auto 10.
Qed.

End Node.

(** *** The history of the mining daemon inside the node

    What the node ever does to its mining daemon: it never returns a GPU, so an
    effect is a pause, a start, a tick, a stop, or nothing. *)
Inductive node_effect (m : MiningDaemon) : trace -> MiningDaemon -> Prop :=
| ne_pause c gpus tr b m' : pause_result c gpus m tr b m' -> node_effect m tr m'
| ne_start c tr o m' : Mining.start_result c m tr o m' -> node_effect m tr m'
| ne_tick c tr o m' : tick_result c m tr o m' -> node_effect m tr m'
| ne_stop c tr o m' : stop_result c m tr o m' -> node_effect m tr m'
| ne_quiet tr : no_mining_create tr -> node_effect m tr m.

(** The rented GPUs only grow. *)
Definition rented_grows (m m' : MiningDaemon) : Prop :=
  md_config m' = md_config m /\
  (forall g, rented m g = true -> rented m' g = true) /\
  (pausedGPUs m <> ∅ -> pausedGPUs m' <> ∅).

Lemma rented_grows_same m m' :
  md_config m' = md_config m -> pausedGPUs m' = pausedGPUs m -> rented_grows m m'.
Proof. intros Hc Hp. unfold rented_grows, rented. by rewrite Hp. Qed.

Lemma rented_grows_mark gpus m : rented_grows m (mark_rented gpus m).
Proof.
  split; [done|]. split; [intros g Hg; by rewrite rented_mark, Hg, orb_true_r|].
  unfold mark_rented. cbn [pausedGPUs set_pausedGPUs]. generalize (pausedGPUs m) as p.
  induction gpus as [|g gpus IH]; intros p Hp; cbn [foldl]; [done|].
  apply IH. apply insert_non_empty.
Qed.

Lemma start_result_rented c m tr o m' : Mining.start_result c m tr o m' -> rented_grows m m'.
Proof. intros Hres. destruct Hres; by apply rented_grows_same. Qed.

Lemma node_effect_rented m tr m' : node_effect m tr m' -> rented_grows m m'.
Proof.
  intros Heff. destruct Heff as [c gpus tr b m' Hres|c tr o m' Hres|c tr o m' Hres|c tr o m' Hres|];
    [|by eapply start_result_rented| | |by apply rented_grows_same].
  - destruct Hres; apply (rented_grows_mark gpus m).
  - destruct Hres as [| |info err d tr o m' _ _ _ Hres]; [by apply rented_grows_same..|].
    exact (start_result_rented _ (died m) _ _ _ Hres).
  - destruct Hres; by apply rented_grows_same.
Qed.

(** No GPU left, and no container. *)
Definition exhausted (m : MiningDaemon) : Prop :=
  getAvailableGPUs m = [] /\ md_containerID m = "".

Lemma available_empty_grows m m' :
  rented_grows m m' -> getAvailableGPUs m = [] -> getAvailableGPUs m' = [].
Proof.
  intros (Hc & Hr & Hp). unfold getAvailableGPUs. rewrite Hc.
  destruct (mc_GPUDeviceIDs (md_config m)) as [|g gs].
  - destruct (Nat.ltb_spec 0 (size (pausedGPUs m))) as [Hs|]; [|done]. intros _.
    destruct (Nat.ltb_spec 0 (size (pausedGPUs m'))) as [|Hs']; [done|].
    exfalso. apply Hp; [|apply map_size_empty_inv; lia].
    intros He. rewrite He, map_size_empty in Hs. lia.
  - intros Hf. apply elem_of_nil_inv. intros x Hx. apply list_elem_of_filter in Hx as [Hx Hin].
    assert (Hx' : x ∈ filter (fun gpu => negb (rented m gpu)) (g :: gs)).
    { apply list_elem_of_filter. split; [|done]. destruct (rented m x) eqn:Hm; [|done].
      by rewrite (Hr x Hm) in Hx. }
    rewrite Hf in Hx'. by apply elem_of_nil in Hx'.
Qed.

Lemma node_effect_exhausted m tr m' :
  node_effect m tr m' -> exhausted m -> exhausted m' /\ no_mining_create tr.
Proof.
  intros Heff [Hg Hid]. assert (Hg' : getAvailableGPUs m' = [])
    by (eapply available_empty_grows; [by eapply node_effect_rented|done]).
  assert (Hnil : no_mining_create []) by constructor.
  destruct Heff as [c gpus tr b m' Hres|c tr o m' Hres|c tr o m' Hres|c tr o m' Hres|tr Htr].
  - destruct Hres; try congruence. by split.
  - destruct Hres; try congruence; by split.
  - destruct Hres; try congruence. by split.
  - destruct Hres; try congruence; by split.
  - by split.
Qed.

(** ** How the handlers run *)

(** Docker's identifiers are 64 hexadecimal digits: long enough for the log
    lines of the mining daemon. *)
Class LongIDs (E : Environment NodeOps) : Prop :=
  long_ids : forall c cfg t e id,
    fst (env_call (n_docker (svc_CreateContainer c cfg) : op NodeOps) t e) = (id, None) ->
    (12 <= String.length id)%nat.

Section Handlers.
Context `{E : !Environment NodeOps}.
Context (int64_of_unrepresentable : spec_float -> Z) (Format_RFC3339 : Z -> string).
Implicit Types (w : world NodeOps Memory) (tr : trace).

(** Calls that stay off the connection to the Hub. *)
Definition node_trace : Type := list { o : op NodeOps & res NodeOps o }.

Definition no_net (tr : node_trace) : Prop :=
  Forall (fun x => match projT1 x with n_net _ => False | _ => True end) tr.

(** A stretch of the node off the connection. *)
Record node_moves w w' : Prop := {
  nm_ready : node_ready w';
  nm_client : client_of w' = client_of w;
  nm_daemon : daemon_of w' = daemon_of w;
  nm_calls : exists cs : node_trace, calls w' = calls w ++ cs /\ no_net cs;
  nm_clk : clk w <= clk w';
}.

Lemma node_moves_refl w : node_ready w -> node_moves w w.
Proof. intros Hr. split; try done. exists []. rewrite app_nil_r. split; [done|constructor]. Qed.

Lemma node_moves_trans w1 w2 w3 : node_moves w1 w2 -> node_moves w2 w3 -> node_moves w1 w3.
Proof.
  intros [? ? ? (tr1 & Hc1 & H1)] [? ? ? (tr2 & Hc2 & H2)]. split; [done|congruence..| |lia].
  exists (tr1 ++ tr2). rewrite Hc2, Hc1, app_assoc. split; [done|]. by apply Forall_app.
Qed.

Lemma node_moves_advance w : node_ready w -> node_moves w (advance w).
Proof.
  intros Hr. split; [by apply node_ready_advance|unfold client_of; by go_simpl
    |unfold daemon_of; by go_simpl| |apply advance_clk].
  exists []. rewrite app_nil_r. split; [by go_simpl|constructor].
Qed.

Lemma node_moves_steps tr w w' :
  node_steps tr w w' -> node_ready w' -> client_of w' = client_of w -> daemon_of w' = daemon_of w ->
  node_moves w w'.
Proof.
  intros [_ Hc Ht] ???. split; try done. eexists. split; [exact Hc|].
  apply Forall_fmap, Forall_forall. by intros x _.
Qed.

Lemma node_moves_mining tr m w w' :
  node_steps tr w w' -> node_ready w' -> with_mining m w w' -> node_moves w w'.
Proof.
  intros Hs Hr Hm. eapply node_moves_steps; [done|done|..]; unfold client_of, daemon_of; by rewrite Hm.
Qed.

Lemma node_moves_call (o : node_op) w :
  node_ready w -> match o with n_net _ => False | _ => True end ->
  node_moves w (called (o : op NodeOps) w).
Proof.
  intros Hr Ho. assert (Hm : mem (called (o : op NodeOps) w) = mem w) by by go_simpl.
  split.
  - apply (node_ready_same w); [done|by go_simpl|rewrite Hm; apply Hr|..]; unfold rental_of; by rewrite Hm.
  - unfold client_of. by rewrite Hm.
  - unfold daemon_of. by rewrite Hm.
  - eexists. split; [apply called_calls|]. by repeat constructor.
  - apply called_clk.
Qed.

(** Calls that create no mining container. *)
Definition node_not_mining_create (o : node_op) : Prop :=
  match o with
  | n_docker o => not_mining_create o
  | _ => True
  end.
Definition no_node_mining_create (cs : node_trace) : Prop :=
  Forall (fun x => node_not_mining_create (projT1 x)) cs.

Lemma no_mining_create_lift tr :
  no_mining_create tr -> no_node_mining_create (lift_call <$> tr).
Proof. intros H. by apply Forall_fmap. Qed.

(** The rental executor's and the port manager's share of the memory. *)
Definition same_rentals w w' : Prop := rental_of w' = rental_of w /\ holds w' = holds w.

Lemma pause_mining_runs d gpu w :
  node_ready w ->
  exists w', run (pause_mining d gpu) w = (Done tt, w') /\ node_moves w w' /\ same_rentals w w' /\
    if has_miningDaemon d && bool_decide (gpu <> "")
    then exists c tr b, pause_result c [gpu] (mining_of w) tr b (mining_of w') /\
                        calls w' = calls w ++ (lift_call <$> tr)
    else w' = w.
Proof.
  intros Hr. unfold pause_mining. destruct (has_miningDaemon d && bool_decide (gpu <> "")).
  - unfold WithTimeout. go_run. set (c := Deadline _).
    pose proof (node_ready_advance _ Hr) as Hra.
    destruct (node_PauseForRental c [gpu] (advance w) Hra)
      as (tr & b & w' & Hrun & Hs & Hr' & Hm & Hres & _).
    assert (Ha : mem (advance w) = mem w) by by go_simpl.
    rewrite Hrun. go_run. exists w'. split; [done|]. split.
    { eapply node_moves_trans; [by apply node_moves_advance|by eapply node_moves_mining]. }
    split; [split; unfold rental_of, holds; rewrite Hm, Ha; done|].
    exists c, tr, b. unfold mining_of in Hres at 1. rewrite Ha in Hres. split; [done|].
    rewrite (ns_calls _ _ _ Hs). by go_simpl.
  - exists w. split; [done|]. split; [by apply node_moves_refl|]. done.
Qed.

Lemma getOutboundIP_runs w :
  node_ready w ->
  exists ip w', run getOutboundIP w = (Done ip, w') /\ node_moves w w' /\ mem w' = mem w.
Proof.
  intros Hr. unfold getOutboundIP. go_run. set (o := n_DialUDP _).
  pose proof (node_moves_call o w Hr I) as H1.
  assert (Hm1 : mem (called (o : op NodeOps) w) = mem w) by by go_simpl.
  destruct (answer (o : op NodeOps) w) as [ip [e|]]; go_run; [by eauto|].
  eexists _, _. split; [done|]. split; [|by go_simpl].
  eapply node_moves_trans; [exact H1|]. apply (node_moves_call n_CloseUDP); [apply H1|done].
Qed.

Notation handleStartRental := (handleStartRental int64_of_unrepresentable).
Notation handleCommand := (handleCommand int64_of_unrepresentable).
Notation rental_request := (rental_request int64_of_unrepresentable).

(** The result of a [start_rental] that gets as far as the executor. *)
Definition started_ack cmd (req : StartRentalRequest) w w' (ack : CommandAck) : Prop :=
  (exists e, ack = error_ack cmd ("failed to start rental: " +:+ error_string e) /\ same_rentals w w') \/
  (exists host p id t, ack = MkCommandAck (cmd_ID cmd) "ok" ""
     (started_payload host (req_SessionID req) (connection_info req p id)) /\
   activeRentals (rental_of w) !! req_SessionID req = None /\ holds w !! p = None /\
   holds w' = <[p := req_SessionID req]> (holds w) /\
   rental_of w' = track req id p t (rental_of w)).

Lemma handleStartRental_runs cmd w :
  node_ready w -> has_rentalExecutor (daemon_of w) = true ->
  let req := rental_request (daemon_of w) (cmd_Payload cmd) in
  req_SessionID req <> "" ->
  exists ack w', run (handleStartRental cmd) w = (Done ack, w') /\ node_moves w w' /\
    started_ack cmd req w w' ack /\
    if has_miningDaemon (daemon_of w) && bool_decide (req_GPUDeviceID req <> "")
    then exists c tr b, pause_result c [req_GPUDeviceID req] (mining_of w) tr b (mining_of w')
    else mining_of w' = mining_of w.
Proof.
  intros Hr He req Hsid. unfold Services.handleStartRental. go_run.
  change (get (mem w)) with (daemon_of w). rewrite He.
  cbn [negb]. fold req. rewrite bool_decide_eq_false_2 by done. go_run.
  destruct (pause_mining_runs (daemon_of w) (req_GPUDeviceID req) w Hr) as (w1 & -> & Hm1 & Hs1 & Hp).
  unfold WithTimeout. go_run. set (c := Deadline _).
  pose proof (node_moves_advance w1 (nm_ready _ _ Hm1)) as Ha.
  assert (Hma : mem (advance w1) = mem w1) by by go_simpl.
  destruct (node_StartRental c req (advance w1) (nm_ready _ _ Ha))
    as (r & tr & w2 & -> & Hst & Hr2 & _ & Hmi & Hcl & Hd & Hnc & Hres).
  assert (Hm2 : node_moves w w2).
  { eapply node_moves_trans; [exact Hm1|]. eapply node_moves_trans; [exact Ha|].
    by eapply node_moves_steps. }
  assert (Hmi2 : mining_of w2 = mining_of w1) by (rewrite Hmi; unfold mining_of; by rewrite Hma).
  assert (Hpause : forall w', mining_of w' = mining_of w2 ->
    if has_miningDaemon (daemon_of w) && bool_decide (req_GPUDeviceID req <> "")
    then exists c tr b, pause_result c [req_GPUDeviceID req] (mining_of w) tr b (mining_of w')
    else mining_of w' = mining_of w).
  { intros w' ->. rewrite Hmi2. destruct (_ && _); [|by subst w1].
    destruct Hp as (c' & tr' & b & Hp & _). eauto. }
  destruct Hs1 as [Hs1 Hs1']. unfold rental_of, holds in Hres. rewrite Hma in Hres.
  fold (rental_of w1) (holds w1) (rental_of w2) (holds w2) in Hres. rewrite Hs1, Hs1' in Hres.
  destruct r as [[ci|] [e|]]; try done; go_run.
  - destruct Hres as (Hd0 & p & id & t & -> & Hp0 & Hh & Hre).
    assert (Hok : forall host w', mem w' = mem w2 -> started_ack cmd req w w'
      (MkCommandAck (cmd_ID cmd) "ok" "" (started_payload host (req_SessionID req) (connection_info req p id)))).
    { intros host w' Hm'. right. exists host, p, id, t. split; [done|]. split; [done|]. split; [done|].
      unfold holds, rental_of. by rewrite Hm'. }
    destruct (bool_decide (nd_hostAddr (daemon_of w) = "") || bool_decide (nd_hostAddr (daemon_of w) = "localhost")).
    + destruct (getOutboundIP_runs w2 Hr2) as (ip & w3 & -> & Hm3 & Hmem). go_run.
      eexists _, w3. split; [done|]. split; [by eapply node_moves_trans|]. split; [by apply Hok|].
      apply Hpause. unfold mining_of. by rewrite Hmem.
    + go_run. eexists _, w2. split; [done|]. split; [done|]. split; [by apply Hok|]. by apply Hpause.
  - eexists _, w2. split; [done|]. split; [done|]. split; [left; by exists e|]. by apply Hpause.
Qed.

(** With identifiers of a proper length, mining does not panic. *)
Lemma start_result_done `{L : !LongIDs E} c m tr o m' :
  Mining.start_result c m tr o m' -> Forall answered (lift_call <$> tr) -> exists r, o = Done r.
Proof.
  intros Hres Ha. destruct Hres as [| | | | |gpu gpus id t o _ _ _ Hok _]; eauto.
  apply Forall_cons in Ha as [(t' & e & He) _]. cbn in He.
  exists None. apply Hok. apply Nat.ltb_ge. by eapply long_ids.
Qed.

Lemma run_node_answered {A} (p : prog NodeOps Memory A) w o w' (tr : trace) :
  run p w = (o, w') -> calls w' = calls w ++ (lift_call <$> tr) -> Forall answered (lift_call <$> tr).
Proof.
  intros Hrun Hc. destruct (run_answered p w) as (cs & Hcs & Ha). rewrite Hrun in Hcs. cbn in Hcs.
  rewrite Hc in Hcs. by apply app_inv_head in Hcs as ->.
Qed.

Lemma unmark_nothing m : unmark_rented [] m = m.
Proof. by destruct m. Qed.

Lemma resume_nothing_runs `{L : !LongIDs E} c w :
  node_ready w ->
  exists r w' tr, run (lift (ResumeAfterRental c [])) w = (Done r, w') /\ node_moves w w' /\
    same_rentals w w' /\ gos w' = gos w /\ calls w' = calls w ++ (lift_call <$> tr) /\
    node_effect (mining_of w) tr (mining_of w') /\
    pausedGPUs (mining_of w') = pausedGPUs (mining_of w).
Proof.
  intros Hr. destruct (node_ResumeAfterRental c [] w Hr) as (o & tr & w' & Hrun & Hs & Hr' & Hm & Hg & Hres).
  rewrite unmark_nothing in Hres. pose proof (ns_calls _ _ _ Hs) as Hc.
  pose proof (run_node_answered _ _ _ _ _ Hrun Hc) as Ha.
  assert (Hdone : (exists r, o = Done r) /\ node_effect (mining_of w) tr (mining_of w') /\
                  pausedGPUs (mining_of w') = pausedGPUs (mining_of w)).
  { assert (Hst : Mining.start_result c (mining_of w) tr o (mining_of w') ->
      (exists r, o = Done r) /\ node_effect (mining_of w) tr (mining_of w') /\
      pausedGPUs (mining_of w') = pausedGPUs (mining_of w)).
    { intros Hst. split; [by eapply start_result_done|]. split; [by eapply ne_start|].
      by destruct Hst. }
    destruct (md_state (mining_of w)); [by apply Hst| |by apply Hst].
    destruct Hres as (-> & -> & ->). split; [by eexists|]. split; [|done]. apply ne_quiet. constructor. }
  destruct Hdone as ((r & ->) & Heff & Hp). exists r, w', tr. split; [done|].
  split; [by eapply node_moves_mining|]. split; [split; unfold rental_of, holds; by rewrite Hm|]. auto.
Qed.

Lemma handleStopRental_runs `{L : !LongIDs E} cmd w :
  node_ready w -> has_rentalExecutor (daemon_of w) = true ->
  let sid := payload_string (cmd_Payload cmd) "session_id" in sid <> "" ->
  exists ack w' tr, run (handleStopRental cmd) w = (Done ack, w') /\ node_moves w w' /\
    ack_CommandID ack = cmd_ID cmd /\ ack_Status ack = "ok" /\ holds w' = holds w /\
    node_effect (mining_of w) tr (mining_of w') /\
    pausedGPUs (mining_of w') = pausedGPUs (mining_of w) /\
    (exists cs, calls w' = calls w ++ cs /\ (no_mining_create tr -> no_node_mining_create cs)) /\
    match activeRentals (rental_of w) !! sid with
    | None => rental_of w' = rental_of w /\
        ack_Error ack = "stop warning: " +:+ error_string ErrSessionNotFound
    | Some st => (exists now, rental_of w' = mark_stopped sid st now (rental_of w)) /\
        (ack_Error ack = "" /\ ack_Payload ack = {[ "session_id" := JStr sid ]} /\
         gos w' = gos w ++ [lift (scheduleCleanup sid (rs_ContainerID st) (rs_SSHPort st))] \/
         exists e, ack_Error ack = "stop warning: " +:+ error_string e /\ gos w' = gos w)
    end.
Proof.
  intros Hr He sid Hsid. unfold handleStopRental. go_run.
  change (get (mem w)) with (daemon_of w). rewrite He. cbn [negb]. fold sid.
  rewrite bool_decide_eq_false_2 by done. unfold WithTimeout. go_run. set (c := Deadline _).
  pose proof (node_moves_advance w Hr) as Ha. assert (Hma : mem (advance w) = mem w) by by go_simpl.
  destruct (node_StopRental c sid (advance w) (nm_ready _ _ Ha))
    as (r & tr & w1 & -> & Hst & Hr1 & Hmi & Hcl & Hd & Hh & Hres).
  assert (Hm1 : node_moves w w1) by (eapply node_moves_trans; [exact Ha|by eapply node_moves_steps]).
  unfold rental_of, holds, mining_of in Hres, Hh, Hmi. rewrite Hma in *. rewrite advance_gos in Hres.
  fold (rental_of w) (rental_of w1) in Hres. fold (holds w) (holds w1) in Hh.
  fold (mining_of w) (mining_of w1) in Hmi.
  assert (Hq : forall m, node_effect m [] m) by (intros m; apply ne_quiet; constructor).
  assert (Hcs1 : calls w1 = calls w ++ (lift_call <$> tr) /\ no_node_mining_create (lift_call <$> tr)).
  { split; [rewrite (ns_calls _ _ _ Hst); by go_simpl|]. apply no_mining_create_lift.
    destruct (activeRentals (rental_of w) !! sid) as [st|].
    - destruct Hres as (_ & [x ->] & _). by repeat constructor.
    - destruct Hres as (_ & -> & _). constructor. }
  destruct Hcs1 as [Hcs1 Hcs1'].
  destruct r as [e|]; go_run.
  { eexists _, w1, []. rewrite Hmi. do 7 (split; [done|]). split; [by eauto|].
    destruct (activeRentals (rental_of w) !! sid) as [st|].
    - destruct Hres as (Hre & _ & Hg). rewrite app_nil_r in Hg. split; [done|]. right. eauto.
    - destruct Hres as ([= ->] & _ & Hre & _). done. }
  destruct (activeRentals (rental_of w) !! sid) as [st|]; [|by destruct Hres as ([=] & _)].
  destruct Hres as (Hre & _ & Hg).
  destruct (has_miningDaemon (daemon_of w)); go_run; cycle 1.
  { eexists _, w1, []. rewrite Hmi. do 7 (split; [done|]). split; [by eauto|].
    split; [done|]. by left. }
  set (c' := Deadline _). pose proof (node_moves_advance w1 Hr1) as Ha1.
  destruct (resume_nothing_runs c' (advance w1) (nm_ready _ _ Ha1))
    as (r & w2 & tr2 & -> & Hm2 & [Hre2 Hh2] & Hg2 & Hc2 & Heff & Hp). go_run.
  assert (Hma1 : mem (advance w1) = mem w1) by by go_simpl.
  unfold rental_of, holds, mining_of in Hre2, Hh2, Heff, Hp. rewrite Hma1 in *.
  fold (mining_of w1) (mining_of w2) in Heff, Hp. rewrite Hmi in Heff, Hp.
  eexists _, w2, tr2. split; [done|].
  split; [eapply node_moves_trans; [exact Hm1|]; by eapply node_moves_trans|].
  do 2 (split; [done|]). split; [exact (eq_trans Hh2 Hh)|]. split; [done|]. split; [done|].
  split.
  { eexists. rewrite Hc2, advance_calls, Hcs1, <- app_assoc. split; [done|]. intros Hn.
    apply Forall_app. split; [done|by apply no_mining_create_lift]. }
  split; [destruct Hre as [now Hre]; exists now; exact (eq_trans Hre2 Hre)|]. left. split; [done|]. split; [done|].
  by rewrite Hg2, advance_gos.
Qed.

(** What a stretch of the node did to mining: an effect on the daemon, and no
    mining container created but by that effect. *)
Definition moved (m : MiningDaemon) (cs : node_trace) (m' : MiningDaemon) (cs' : node_trace) : Prop :=
  exists tr new, node_effect m tr m' /\ cs' = cs ++ new /\
    (no_mining_create tr -> no_node_mining_create new).

Lemma moved_refl m cs : moved m cs m cs.
Proof.
  exists [], []. split; [apply ne_quiet; constructor|]. rewrite app_nil_r. split; [done|constructor].
Qed.

Lemma issues_PauseForRental c gpus :
  issues (Σ := DockerServiceInterface) (S := Memory) not_mining_create (PauseForRental c gpus).
Proof. unfold PauseForRental, PauseForRental_body, spawn. solve_issues. Qed.

Lemma issues_handleStartRental cmd : issues (Σ := NodeOps) node_not_mining_create (handleStartRental cmd).
Proof.
  unfold Services.handleStartRental, pause_mining, getOutboundIP, WithTimeout.
  assert (HQ : forall o, not_mining_create o -> node_not_mining_create (n_docker o)) by done.
  repeat first
    [ solve [eapply issues_lift; [exact HQ|apply issues_PauseForRental]]
    | solve [eapply issues_lift; [exact HQ|apply issues_StartRental]]
    | match goal with |- issues _ (match ?x with _ => _ end) => destruct x end
    | apply issues_bind | intros ? | done | (split; [done|]) ].
Qed.

(** What is true of the answer to any command. *)
Definition command_answered cmd w (ack : CommandAck) w' : Prop :=
  node_moves w w' /\ ack_CommandID ack = cmd_ID cmd /\
  (ack_Status ack = "ok" \/ ack_Status ack = "error") /\
  moved (mining_of w) (calls w) (mining_of w') (calls w').

Lemma error_answered cmd w msg : node_ready w -> command_answered cmd w (error_ack cmd msg) w.
Proof.
  intros Hr. split; [by apply node_moves_refl|]. split; [done|]. split; [by right|apply moved_refl].
Qed.

Lemma handleStartRental_answered cmd w :
  node_ready w ->
  exists ack w', run (handleStartRental cmd) w = (Done ack, w') /\ command_answered cmd w ack w'.
Proof.
  intros Hr. set (req := rental_request (daemon_of w) (cmd_Payload cmd)).
  destruct (has_rentalExecutor (daemon_of w)) eqn:He;
    [destruct (decide (req_SessionID req = "")) as [Hsid|Hsid]|].
  1,3: unfold Services.handleStartRental; go_run; change (get (mem w)) with (daemon_of w);
    rewrite He; cbn [negb]; fold req; rewrite ?bool_decide_eq_true_2 by done; go_run;
    eexists _, w; split; [done|by apply error_answered].
  destruct (handleStartRental_runs cmd w Hr He Hsid) as (ack & w' & Hrun & Hm & Hack & Hp).
  exists ack, w'. split; [done|]. split; [done|].
  assert (Hid : ack_CommandID ack = cmd_ID cmd /\ (ack_Status ack = "ok" \/ ack_Status ack = "error"))
    by (destruct Hack as [(e & -> & _)|(host & p & id & t & -> & _)]; auto).
  destruct Hid as [Hid Hstat]. split; [done|]. split; [done|].
  destruct (run_issues _ _ w (issues_handleStartRental cmd)) as (cs & Hcs & Hn).
  rewrite Hrun in Hcs. cbn [snd] in Hcs. rewrite Hcs.
  destruct (_ && _); [|rewrite Hp; exists [], cs; by split; [apply ne_quiet; constructor|]].
  destruct Hp as (c & tr & b & Hp). exists tr, cs. by split; [eapply ne_pause|].
Qed.

Lemma handleStopRental_answered `{L : !LongIDs E} cmd w :
  node_ready w ->
  exists ack w', run (handleStopRental cmd) w = (Done ack, w') /\ command_answered cmd w ack w'.
Proof.
  intros Hr. destruct (has_rentalExecutor (daemon_of w)) eqn:He;
    [destruct (decide (payload_string (cmd_Payload cmd) "session_id" = "")) as [Hsid|Hsid]|].
  1,3: unfold handleStopRental; go_run; change (get (mem w)) with (daemon_of w);
    rewrite He; cbn [negb]; rewrite ?bool_decide_eq_true_2 by done; go_run;
    eexists _, w; split; [done|by apply error_answered].
  destruct (handleStopRental_runs cmd w Hr He Hsid)
    as (ack & w' & tr & Hrun & Hm & Hid & Hok & _ & Heff & _ & (cs & Hc & Hn) & _).
  exists ack, w'. split; [done|]. split; [done|]. split; [done|]. split; [by left|].
  by exists tr, cs.
Qed.

Lemma handleCommand_runs `{L : !LongIDs E} cmd w :
  node_ready w ->
  exists ack w', run (handleCommand cmd) w = (Done ack, w') /\ command_answered cmd w ack w'.
Proof.
  intros Hr. unfold Services.handleCommand.
  repeat (case_bool_decide;
    [by apply handleStartRental_answered || by apply handleStopRental_answered|]).
  eexists _, w. split; [done|by apply error_answered].
Qed.

(** The daemon's commands behind the listener of the connection. *)
#[export] Instance daemon_handler `{L : !LongIDs E} conn :
  CommandHandler conn handleCommand node_ready.
Proof.
  split.
  - intros cmd w Hr. destruct (handleCommand_runs cmd w Hr) as (ack & w' & Hrun & Hm & Hid & _).
    destruct (nm_calls _ _ Hm) as (cs & Hc & Hn). exists ack, w', cs. split; [done|].
    split; [apply Hm|]. split; [done|]. split; [|split; [done|apply Hm]].
    eapply Forall_impl; [exact Hn|]. intros [o r] Ho. cbn in *. destruct o; by split.
  - intros o w Hr. unfold net_called. set (o' := inj _).
    assert (Hm : mem (called o' w) = mem w) by by go_simpl.
    apply (node_ready_same w); [done|by go_simpl|rewrite Hm; apply Hr|..]; unfold rental_of; by rewrite Hm.
Qed.

(** *** The heartbeat

    [json.Marshal] writes the keys of a map in order. *)

Context (Marshal_heartbeat : json -> string).

Definition mining_status (m : MiningDaemon) : MiningStatus :=
  MkMiningStatus (md_state m) (md_containerID m) (Z.of_nat (length (getAvailableGPUs m)))
    (md_startedAt m) (md_pausedAt m).

(** The message for the metrics [ms] in the state of [w]. *)
Definition heartbeat_of w (ms : list GPUMetrics) : string :=
  Marshal_heartbeat (heartbeat_json ms
    (if has_miningDaemon (daemon_of w)
     then [("mining", mining_json Format_RFC3339 (mining_status (mining_of w)))] else [])).

Lemma buildHeartbeat_runs ms w :
  node_ready w ->
  run (buildHeartbeat Marshal_heartbeat Format_RFC3339 ms) w = (Done (heartbeat_of w ms), w).
Proof.
  intros Hr. unfold buildHeartbeat, heartbeat_of. go_run. change (get (mem w)) with (daemon_of w).
  destruct (has_miningDaemon (daemon_of w)); go_run; [|done].
  destruct (node_ready_down w Hr) as [_ Hm].
  rewrite (run_lift _ _ _ _ (Status_runs (down w) Hm)), up_down. by go_run.
Qed.

Lemma node_ready_call (o : op NodeOps) w : node_ready w -> node_ready (called o w).
Proof.
  intros Hr. assert (Hm : mem (called o w) = mem w) by by go_simpl.
  apply (node_ready_same w); [done|by go_simpl|rewrite Hm; apply Hr|..]; unfold rental_of; by rewrite Hm.
Qed.

(** How the provider of the node answers: with the calls [cs], and [r]. *)
Definition gpu_answered w (o : gpu_op) (cs : list { o : op NodeOps & res NodeOps o }) (r : gpu_res o) : Prop :=
  match nd_gpuProvider (daemon_of w) with
  | ViaInterface => cs = [made (n_gpu o : op NodeOps) r]
  | ViaMock p => cs = [] /\ forall w1 : world NodeOps Memory, run (MockProvider p (o : op GPUProvider)) w1 = (Done r, w1)
  end.

Lemma gpu_call_runs o w :
  exists r cs w', run (gpu_call o) w = (Done r, w') /\ makes_calls cs w w' /\ gpu_answered w o cs r.
Proof.
  unfold gpu_call, gpu_answered. go_run. change (get (mem w)) with (daemon_of w).
  destruct (nd_gpuProvider (daemon_of w)) as [|p].
  - go_run. eexists _, _, _. split; [done|]. split; [apply makes_calls_one|done].
  - destruct o; eexists _, [], w; (split; [done|]); (split; [apply makes_calls_refl|]); done.
Qed.

(** A tick asks for the metrics and, when they come and the node is connected,
    writes one heartbeat. *)
Lemma report_tick_runs w :
  node_ready w ->
  exists ms err w', run (report_tick Marshal_heartbeat Format_RFC3339) w = (Done tt, w') /\
    mem w' = mem w /\ node_ready w' /\
    exists asked cs, gpu_answered w gpu_GetMetrics asked (ms, err) /\ calls w' = calls w ++ asked ++ cs /\
      match err, has_mtlsClient (daemon_of w), cl_conn (client_of w) with
      | None, true, Some conn =>
          exists x, cs = [net_made (net_Write conn (heartbeat_of w ms)) x]
      | _, _, _ => cs = []
      end.
Proof.
  intros Hr. unfold report_tick. go_run.
  destruct (gpu_call_runs gpu_GetMetrics w) as ([ms err] & asked & w1 & -> & [Hm1 Hl1 Hg1 Hc1 _] & Hasked).
  assert (Hr1 : node_ready w1) by (apply (node_ready_same w); [done..|rewrite Hm1; apply Hr| |]; unfold rental_of; by rewrite Hm1).
  assert (Hh1 : heartbeat_of w1 ms = heartbeat_of w ms).
  { unfold heartbeat_of, daemon_of, mining_of. by rewrite Hm1. }
  go_run. destruct err as [e|]; go_run.
  { exists ms, (Some e), w1. do 3 (split; [done|]). exists asked, []. by rewrite app_nil_r. }
  rewrite buildHeartbeat_runs by done. go_run.
  change (get (mem w1)) with (daemon_of w1).
  assert (Hd1 : daemon_of w1 = daemon_of w) by (unfold daemon_of; by rewrite Hm1).
  assert (Hcl1 : cl_of w1 = client_of w) by (unfold cl_of; by rewrite Hm1).
  rewrite Hd1. destruct (has_mtlsClient (daemon_of w)); go_run; cycle 1.
  { exists ms, None, w1. do 3 (split; [done|]). exists asked, []. by rewrite app_nil_r. }
  rewrite Send_runs by apply Hr1. rewrite Hcl1. destruct (cl_conn (client_of w)) as [conn|]; cycle 1.
  { exists ms, None, w1. do 3 (split; [done|]). exists asked, []. by rewrite app_nil_r. }
  eexists ms, None, _. split; [done|].
  split; [unfold net_called; rewrite called_mem; exact Hm1|].
  split; [by apply node_ready_call|]. eexists asked, _. split; [done|]. split; [|by eexists].
  rewrite (st_calls _ _ _ (wk_steps _ _ _ (net_works _ (net_Write conn (heartbeat_of w1 ms)) _ _
    (works_refl (T := Client) w1)))), Hc1, <- app_assoc. cbn. by rewrite Hh1.
Qed.

(** *** Histories *)

(** Everything the running node does, one operation after the other: commands of
    the Hub, rentals through the HTTP API, cleanups, the mining daemon's start,
    stop, background restarts and monitor, the heartbeat, and waiting. *)
Inductive node_step : world NodeOps Memory -> world NodeOps Memory -> Prop :=
| nst_command cmd w ack w' : run (handleCommand cmd) w = (Done ack, w') -> node_step w w'
| nst_start_rental c req w r w' : run (lift (StartRental c req)) w = (Done r, w') -> node_step w w'
| nst_stop_rental c sid w r w' : run (lift (StopRental c sid)) w = (Done r, w') -> node_step w w'
| nst_cleanup sid id p w r w' : run (lift (scheduleCleanup sid id p)) w = (Done r, w') -> node_step w w'
| nst_mining_start c w o w' : run (lift (Mining.Start c)) w = (o, w') -> node_step w w'
| nst_mining_stop c w o w' : run (lift (Mining.Stop c)) w = (o, w') -> node_step w w'
| nst_restart w o w' : run (lift restart) w = (o, w') -> node_step w w'
| nst_monitor c w o w' : run (lift (monitor_tick c)) w = (o, w') -> node_step w w'
| nst_report w r w' : run (report_tick Marshal_heartbeat Format_RFC3339) w = (Done r, w') -> node_step w w'
| nst_wait w : node_step w (advance w).

Lemma moved_steps tr w w' m' :
  node_steps tr w w' -> node_effect (mining_of w) tr m' -> moved (mining_of w) (calls w) m' (calls w').
Proof.
  intros Hs Heff. exists tr, (lift_call <$> tr). split; [done|]. split; [apply Hs|].
  apply no_mining_create_lift.
Qed.

(** An operation of the mining daemon, as a step of the node. *)
Lemma mining_step_moved {A} (p : prog DockerServiceInterface Memory A) w o w'
    (w1 : world DockerServiceInterface Memory) o1 tr :
  node_ready w -> run (lift p) w = (o, w') -> run p (down w) = (o1, w1) ->
  works MiningDaemon tr (down w) w1 -> node_effect (mining_of w) tr (md_of w1) ->
  node_ready w' /\ moved (mining_of w) (calls w) (mining_of w') (calls w').
Proof.
  intros Hr Hrun Hrun1 Hw Heff.
  destruct (node_mining_run p w o1 w1 tr Hr Hrun1 Hw) as (Hrun' & Hs & Hr' & _ & Hm & _).
  rewrite Hrun' in Hrun. injection Hrun as _ <-. split; [done|]. rewrite Hm. by eapply moved_steps.
Qed.

Lemma cleanup_moved sid id p w r w' :
  node_ready w -> run (lift (scheduleCleanup sid id p)) w = (Done r, w') ->
  node_ready w' /\ moved (mining_of w) (calls w) (mining_of w') (calls w').
Proof.
  intros Hr Hrun. destruct (node_ready_down w Hr) as [Hrr _].
  destruct (scheduleCleanup_runs sid id p (down w) Hrr) as (x & w1 & Hrun1 & Hs & Hr1 & Hre & _ & _).
  destruct (lifted_run _ w _ _ _ Hrun1 Hs) as [Hlift Hns]. rewrite Hlift in Hrun.
  injection Hrun as _ <-.
  pose proof (frames_run (get (T := MiningDaemon)) _ (down w) (frames_scheduleCleanup sid id p)) as Hm.
  rewrite Hrun1 in Hm. cbn [snd] in Hm. split.
  - apply (node_ready_same w); [done|apply Hns|apply Hr1|..];
      change (rental_of (up w w1)) with (re_of w1); by rewrite Hre.
  - change (mining_of (up w w1)) with (get (T := MiningDaemon) (mem w1)). rewrite Hm.
    eapply moved_steps; [done|]. apply ne_quiet. by repeat constructor.
Qed.

Lemma node_step_moved `{L : !LongIDs E} w w' :
  node_ready w -> node_step w w' ->
  node_ready w' /\ moved (mining_of w) (calls w) (mining_of w') (calls w').
Proof.
  intros Hr Hstep. destruct (node_ready_down w Hr) as [_ Hmr]. destruct Hstep as
    [cmd w ack w' Hrun|c req w r w' Hrun|c sid w r w' Hrun|sid id p w r w' Hrun|c w o w' Hrun
    |c w o w' Hrun|w o w' Hrun|c w o w' Hrun|w r w' Hrun|w].
  - destruct (handleCommand_runs cmd w Hr) as (ack' & w1 & Hrun' & Hm & _ & _ & Hmv).
    rewrite Hrun' in Hrun. injection Hrun as _ <-. split; [apply Hm|done].
  - destruct (node_StartRental c req w Hr) as (r' & tr & w1 & Hrun' & Hs & Hr1 & _ & Hm & _ & _ & Hn & _).
    rewrite Hrun' in Hrun. injection Hrun as _ <-. split; [done|]. rewrite Hm.
    eapply moved_steps; [done|by apply ne_quiet].
  - destruct (node_StopRental c sid w Hr) as (r' & tr & w1 & Hrun' & Hs & Hr1 & Hm & _ & _ & _ & Hres).
    rewrite Hrun' in Hrun. injection Hrun as _ <-. split; [done|]. rewrite Hm.
    eapply moved_steps; [done|]. apply ne_quiet.
    destruct (activeRentals (rental_of w) !! sid); [destruct Hres as (_ & [x ->] & _)|destruct Hres as (_ & -> & _)];
      by repeat constructor.
  - by eapply cleanup_moved.
  - destruct (Start_runs c (down w) Hmr) as (tr & o1 & w1 & Hrun1 & Hw & Hres).
    exact (mining_step_moved _ _ _ _ _ _ _ Hr Hrun Hrun1 Hw (ne_start _ _ _ _ _ Hres)).
  - destruct (Stop_runs c (down w) Hmr) as (tr & o1 & w1 & Hrun1 & Hw & Hres).
    exact (mining_step_moved _ _ _ _ _ _ _ Hr Hrun Hrun1 Hw (ne_stop _ _ _ _ _ Hres)).
  - destruct (restart_runs (down w) Hmr) as (d & tr & o1 & w1 & Hrun1 & Hw & Hres).
    exact (mining_step_moved _ _ _ _ _ _ _ Hr Hrun Hrun1 Hw (ne_start _ _ _ _ _ Hres)).
  - destruct (monitor_tick_runs c (down w) Hmr) as (tr & o1 & w1 & Hrun1 & Hw & Hres).
    exact (mining_step_moved _ _ _ _ _ _ _ Hr Hrun Hrun1 Hw (ne_tick _ _ _ _ _ Hres)).
  - destruct (report_tick_runs w Hr) as (ms & err & w1 & Hrun' & Hm & Hr1 & asked & cs & Ha & Hc & Hcs).
    rewrite Hrun' in Hrun. injection Hrun as _ <-. split; [done|]. unfold mining_of. rewrite Hm.
    eexists [], _. split; [apply ne_quiet; constructor|]. split; [exact Hc|]. intros _.
    apply Forall_app. split.
    { unfold gpu_answered in Ha. destruct (nd_gpuProvider (daemon_of w)); [subst; by repeat constructor|].
      destruct Ha as [-> _]. constructor. }
    destruct err, (has_mtlsClient (daemon_of w)), (cl_conn (client_of w)); subst; try constructor.
    destruct Hcs as [x ->]. by repeat constructor.
  - pose proof (node_moves_advance w Hr) as Hm. split; [apply Hm|].
    unfold mining_of. rewrite advance_mem, advance_calls. apply moved_refl.
Qed.

(** A node whose mining daemon has no GPU left never mines again. *)
Lemma exhausted_forever `{L : !LongIDs E} w w' :
  node_ready w -> exhausted (mining_of w) -> rtc node_step w w' ->
  node_ready w' /\ exhausted (mining_of w') /\ rented_grows (mining_of w) (mining_of w') /\
  exists cs, calls w' = calls w ++ cs /\ no_node_mining_create cs.
Proof.
  intros Hr Hex Hsteps. revert Hr Hex. induction Hsteps as [w|w w1 w' Hstep _ IH]; intros Hr Hex.
  { split; [done|]. split; [done|]. split; [by apply rented_grows_same|].
    exists []. rewrite app_nil_r. split; [done|constructor]. }
  destruct (node_step_moved w w1 Hr Hstep) as (Hr1 & tr & cs & Heff & Hc & Hn).
  destruct (node_effect_exhausted _ _ _ Heff Hex) as [Hex1 Htr].
  destruct (IH Hr1 Hex1) as (Hr' & Hex' & Hg' & cs' & Hc' & Hn').
  split; [done|]. split; [done|]. split.
  - pose proof (node_effect_rented _ _ _ Heff) as (Hcf & Hre & Hp). destruct Hg' as (Hcf' & Hre' & Hp').
    split; [congruence|]. split; [by intros g Hg; apply Hre', Hre|by intros He; apply Hp', Hp].
  - exists (cs ++ cs'). rewrite Hc', Hc, app_assoc. split; [done|]. apply Forall_app.
    split; [by apply Hn|done].
Qed.

End Handlers.

(** ** Properties *)




Section Properties.
Context `{E : !Environment NodeOps}.
Context (int64_of_unrepresentable : spec_float -> Z) (Format_RFC3339 : Z -> string).
Context (Marshal_heartbeat : json -> string).
Implicit Types (w : world NodeOps Memory) (tr : trace).

Notation handleStartRental := (handleStartRental int64_of_unrepresentable).
Notation handleCommand := (handleCommand int64_of_unrepresentable).
Notation rental_request := (rental_request int64_of_unrepresentable).
Notation node_step := (node_step int64_of_unrepresentable Format_RFC3339 Marshal_heartbeat).


(** C25: The answer to [stop_rental].  Without an executor, or without a
    [session_id], it is [error] and nothing happens.  Otherwise it is always
    [ok], with a warning when the session is unknown or its container could not
    be stopped: the rental of a known session is stamped as stopped, and unless
    stopping failed exactly one cleanup is scheduled; the port stays held until
    then.  In no case is a GPU returned to the mining daemon: the set of rented
    GPUs is what it was. *)
Theorem stop_rental_correct `{L : !LongIDs E} cmd w :
  node_ready w ->
  let sid := payload_string (cmd_Payload cmd) "session_id" in
  exists ack w', run (handleStopRental cmd) w = (Done ack, w') /\ node_ready w' /\
    ack_CommandID ack = cmd_ID cmd /\ holds w' = holds w /\
    pausedGPUs (mining_of w') = pausedGPUs (mining_of w) /\
    if has_rentalExecutor (daemon_of w) && negb (bool_decide (sid = "")) then
      node_moves w w' /\ ack_Status ack = "ok" /\
      match activeRentals (rental_of w) !! sid with
      | None => rental_of w' = rental_of w /\ ack_Error ack <> ""
      | Some st => (exists now, rental_of w' = mark_stopped sid st now (rental_of w)) /\
          (ack_Error ack = "" /\
           gos w' = gos w ++ [lift (scheduleCleanup sid (rs_ContainerID st) (rs_SSHPort st))] \/
           ack_Error ack <> "" /\ gos w' = gos w)
      end
    else w' = w /\ ack_Status ack = "error" /\
      ack_Error ack = if has_rentalExecutor (daemon_of w) then "missing session_id" else "rental executor not configured".
Proof.
  intros Hr sid. destruct (has_rentalExecutor (daemon_of w)) eqn:He; cbn [andb]; cycle 1.
  { exists (error_ack cmd "rental executor not configured"), w. split; [|done]. unfold handleStopRental. go_run.
    change (get (mem w)) with (daemon_of w). by rewrite He. }
  destruct (decide (sid = "")) as [Hsid|Hsid].
  { rewrite bool_decide_eq_true_2 by done. exists (error_ack cmd "missing session_id"), w. split; [|done].
    unfold handleStopRental. go_run. change (get (mem w)) with (daemon_of w). rewrite He. cbn [negb].
    fold sid. by rewrite bool_decide_eq_true_2. }
  rewrite bool_decide_eq_false_2 by done.
  destruct (handleStopRental_runs cmd w Hr He Hsid)
    as (ack & w' & tr & Hrun & Hm & Hid & Hok & Hh & _ & Hp & _ & Hres). fold sid in Hres.
  exists ack, w'. split; [done|]. split; [apply Hm|]. do 5 (split; [done|]).
  destruct (activeRentals (rental_of w) !! sid) as [st|].
  - destruct Hres as (Hre & [(He' & _ & Hg)|(e & He' & Hg)]); (split; [done|]); [by left|right].
    by rewrite He'.
  - destruct Hres as (Hre & ->). by split.
Qed.

(** C9: A rental of the last GPU that mining has ends mining for as long as the
    node runs: once [start_rental] has asked for it, and even if the rental then
    fails or is stopped again, no sequence of commands, cleanups, monitor ticks,
    restarts and heartbeats ever creates another mining container. *)
Theorem rental_ends_mining `{L : !LongIDs E} cmd w :
  node_ready w -> has_rentalExecutor (daemon_of w) = true -> has_miningDaemon (daemon_of w) = true ->
  let req := rental_request (daemon_of w) (cmd_Payload cmd) in
  req_SessionID req <> "" -> req_GPUDeviceID req <> "" ->
  getAvailableGPUs (mark_rented [req_GPUDeviceID req] (mining_of w)) = [] ->
  (md_state (mining_of w) = MiningStateRunning \/ md_containerID (mining_of w) = "") ->
  exists ack w1, run (handleStartRental cmd) w = (Done ack, w1) /\
    forall w2, rtc node_step w1 w2 ->
      md_containerID (mining_of w2) = "" /\ rented (mining_of w2) (req_GPUDeviceID req) = true /\
      exists cs, calls w2 = calls w1 ++ cs /\ no_node_mining_create cs.
Proof.
  intros Hr He Hmi req Hsid Hg Hav Hst.
  destruct (handleStartRental_runs int64_of_unrepresentable cmd w Hr He Hsid)
    as (ack & w1 & Hrun & Hm & _ & Hp). fold req in Hp.
  rewrite Hmi, bool_decide_eq_true_2 in Hp by done. destruct Hp as (c & tr & b & Hp).
  exists ack, w1. split; [done|]. intros w2 Hsteps.
  assert (Hmark : rented (mark_rented [req_GPUDeviceID req] (mining_of w)) (req_GPUDeviceID req) = true)
    by (rewrite rented_mark, bool_decide_eq_true_2 by set_solver; done).
  assert (Hex : exhausted (mining_of w1) /\ rented (mining_of w1) (req_GPUDeviceID req) = true).
  { destruct Hp as [Hidle| |]; [|by split|done]. split; [|done]. split; [done|].
    destruct (decide (md_containerID (mining_of w) = "")) as [|Hid]; [done|].
    by destruct Hidle, Hst. }
  destruct Hex as [Hex Hren].
  destruct (exhausted_forever int64_of_unrepresentable Format_RFC3339 Marshal_heartbeat w1 w2
              (nm_ready _ _ Hm) Hex Hsteps) as (_ & [_ Hid] & (_ & Hgrow & _) & Hcs).
  split; [done|]. split; [by apply Hgrow|done].
Qed.

(** C7: The daemon answers every command that arrives in one piece.  A command is
    what one [Read] of at most 4096 bytes returns, when it decodes; known or
    unknown, with any payload, each is acknowledged exactly once, in order and
    under its own identifier, and the node is ready for the next: none can crash
    it or leave a mutex locked.  What a [Read] returns otherwise (half a command,
    two at once) is dropped without an answer ([session_garbage]).  That nothing
    panics takes Docker's identifiers of at least 12 characters ([LongIDs]). *)
Theorem hub_commands_answered `{L : !LongIDs E} (Unmarshal : string -> option Command)
    (Marshal : CommandAck -> string) conn n w :
  node_ready w -> cl_conn (client_of w) = Some conn -> cl_stopCh_closed (client_of w) = false ->
  exists r w' dialog cmds acks,
    run (listenOnce Unmarshal Marshal (Some handleCommand) n) w = (Done r, w') /\ node_ready w' /\
    session Unmarshal Marshal conn dialog cmds acks /\
    (ack_CommandID <$> acks) = (cmd_ID <$> cmds) /\
    exists rest, calls w' = calls w ++ dialog ++ rest /\ (r = false -> rest = []).
Proof.
  intros Hr Hc Hop.
  destruct (listenOnce_runs (I := net_in_node) (F := Memory_client) Unmarshal Marshal conn
              handleCommand node_ready n w (nr_conn _ Hr) Hr Hc Hop)
    as (r & w' & tr & cmds & acks & Hrun & Hr' & _ & Hs & Hids & Hf & Ht).
  exists r, w', tr, cmds, acks. do 4 (split; [done|]). destruct r.
  - destruct (Ht eq_refl) as (buf & e & x & Hcalls). by eexists.
  - exists []. rewrite app_nil_r. split; [by apply Hf|done].
Qed.

(** An integer of the payload: exact when an [int64] represents the number. *)
Lemma payload_int64_exact p key dflt f z :
  p !! key = Some (JNum f) -> float64_trunc f = Some z -> in_int64 z ->
  payload_int64 int64_of_unrepresentable p key dflt = z.
Proof.
  intros Hp Ht Hz. unfold payload_int64, int64_of_float64. rewrite Hp, Ht. by rewrite bool_decide_eq_true_2.
Qed.

Lemma payload_int64_other p key dflt f :
  p !! key = Some (JNum f) -> (forall z, float64_trunc f = Some z -> ~ in_int64 z) ->
  payload_int64 int64_of_unrepresentable p key dflt = int64_of_unrepresentable f.
Proof.
  intros Hp Hz. unfold payload_int64, int64_of_float64. rewrite Hp.
  destruct (float64_trunc f) as [z|]; [|done]. rewrite bool_decide_eq_false_2; [done|by apply Hz].
Qed.

Lemma payload_int64_default p key dflt :
  (forall f, p !! key <> Some (JNum f)) -> payload_int64 int64_of_unrepresentable p key dflt = dflt.
Proof. intros Hp. unfold payload_int64. destruct (p !! key) as [[]|]; try done. by destruct (Hp f). Qed.

(** C40: The request that a [start_rental] payload stands for.  A number whose
    integer part an [int64] represents arrives exactly, without its fraction,
    zero and negative ones included; the memory limit in bytes does not overflow
    below 2^43 megabytes, and wraps around beyond.  A number that no [int64]
    represents (too large, infinite or not a number) becomes what the processor
    makes of it.  What is missing or of another type falls back to the default,
    and so does an empty image. *)
Theorem command_request d p :
  (forall f z, p !! "cpu_count" = Some (JNum f) -> float64_trunc f = Some z -> in_int64 z ->
     req_CPUCount (rental_request d p) = z) /\
  (forall f z, p !! "memory_mb" = Some (JNum f) -> float64_trunc f = Some z -> in_int64 z ->
     req_MemoryBytes (rental_request d p) = wrap64 (z * 2 ^ 20) /\
     (- 2 ^ 43 <= z < 2 ^ 43 -> req_MemoryBytes (rental_request d p) = z * 2 ^ 20)) /\
  (forall f, p !! "cpu_count" = Some (JNum f) -> (forall z, float64_trunc f = Some z -> ~ in_int64 z) ->
     req_CPUCount (rental_request d p) = int64_of_unrepresentable f) /\
  (forall f, p !! "memory_mb" = Some (JNum f) -> (forall z, float64_trunc f = Some z -> ~ in_int64 z) ->
     req_MemoryBytes (rental_request d p) = wrap64 (int64_of_unrepresentable f * 2 ^ 20)) /\
  ((forall f, p !! "cpu_count" <> Some (JNum f)) -> req_CPUCount (rental_request d p) = 4) /\
  ((forall f, p !! "memory_mb" <> Some (JNum f)) -> req_MemoryBytes (rental_request d p) = 16 * 2 ^ 30) /\
  ((forall s, s <> "" -> p !! "image" <> Some (JStr s)) -> req_Image (rental_request d p) = default_image) /\
  (forall s, p !! "image" = Some (JStr s) -> s <> "" -> req_Image (rental_request d p) = s).
Proof.
  unfold rental_request; cbn [req_CPUCount req_MemoryBytes req_Image].
  split_and!; intros.
  - by eapply payload_int64_exact.
  - erewrite payload_int64_exact by done. rewrite int64_mul_mul. split; [done|].
    intros Hz. apply wrap64_small. unfold in_int64, min_int64, max_int64. lia.
  - by eapply payload_int64_other.
  - erewrite payload_int64_other by done. apply int64_mul_mul.
  - by apply payload_int64_default.
  - rewrite payload_int64_default by done. by vm_compute.
  - assert (payload_string p "image" = "") as ->; [|done]. unfold payload_string.
    destruct (p !! "image") as [[| | | |s| |]|] eqn:Hp; try done. destruct (decide (s = "")) as [->|Hs]; [done|].
    by destruct (H s Hs).
  - unfold payload_string. rewrite H. by rewrite bool_decide_eq_false_2.
Qed.

(** A metrics tick asks for the GPU metrics once and, when they arrive and
    the node is connected, writes exactly one heartbeat, with those metrics and
    the mining daemon's state, container and GPU count of that moment; it changes
    nothing. *)
Theorem heartbeat_sent w :
  node_ready w ->
  exists ms err w', run (report_tick Marshal_heartbeat Format_RFC3339) w = (Done tt, w') /\
    mem w' = mem w /\
    exists asked cs, gpu_answered w gpu_GetMetrics asked (ms, err) /\ calls w' = calls w ++ asked ++ cs /\
      match err, has_mtlsClient (daemon_of w), cl_conn (client_of w) with
      | None, true, Some conn => exists x, cs = [net_made (net_Write conn (Marshal_heartbeat
          (heartbeat_json ms (if has_miningDaemon (daemon_of w)
             then [("mining", mining_json Format_RFC3339 (mining_status (mining_of w)))] else [])))) x]
      | _, _, _ => cs = []
      end.
Proof.
  intros Hr. destruct (report_tick_runs Format_RFC3339 Marshal_heartbeat w Hr)
    as (ms & err & w' & Hrun & Hm & _ & Hcs). exists ms, err, w'. auto.
Qed.

End Properties.

(** ** A concrete node

    One GPU, on which mining runs; Docker accepts everything and every container
    is healthy; the Hub sends the listed chunks over connection 7. *)

Definition node_call (o : node_op) (chunks : list string) : node_res o * list string :=
  match o return node_res o * list string with
  | n_docker o =>
      (match o return svc_res o with
       | svc_CreateContainer _ _ => ("0123456789abcdef", None)
       | svc_InspectContainer _ id => (MkContainerInfo id 30000 "running" "healthy", None)
       | _ => None
       end, chunks)
  | n_net o =>
      match o return net_res o * list string with
      | net_Dial _ _ => ((7%nat, None), chunks)
      | net_Read _ _ =>
          match chunks with
          | [] => (("", Some (ErrNew "EOF")), [])
          | s :: l => ((s, None), l)
          end
      | _ => (None, chunks)
      end
  | n_gpu o =>
      (match o return gpu_res o with
       | gpu_GetDeviceCount => (1, None)
       | gpu_GetMetrics => ([MkGPUMetrics "0" "RTX" 24576 1024 5 3 41], None)
       | gpu_GetSpecs => ([MkGPUSpec "0" "RTX" 24576 "550"], None)
       | _ => None
       end, chunks)
  | n_DialUDP _ => (("10.0.0.1", None), chunks)
  | n_CloseUDP => (None, chunks)
  end.

Definition node_env : Environment NodeOps := {|
  env_state := list string;
  env_call (o : op NodeOps) _ chunks := node_call o chunks;
  env_elapse s := (0%N, s);
  env_cancelled _ _ := false;
|}.

#[export] Instance node_env_ids : LongIDs node_env.
Proof. intros c cfg t e id H. cbn in H. injection H as <-. cbn. lia. Qed.

Definition one_gpu : MiningConfig :=
  {| Enabled := true; WalletAddress := ""; mc_Image := "mingeyom/worldland-mio:latest";
     mc_GPUDeviceIDs := ["0"]; DataDir := "/data/worldland"; ChainID := 10396;
     P2PPort := 30303; HTTPRPCPort := 8545; ExtraArgs := [] |}.

Definition node_memory : Memory :=
  {| mem_port := NewPortManager 30000 32000 (30 * Minute);
     mem_rental := NewRentalExecutor (30 * Minute);
     mem_mining := started "fedcba9876543210" 0 (NewMiningDaemon one_gpu);
     mem_client := MkClient "hub:8443" "CERT" "CA" (Some 7%nat) false;
     mem_daemon := with_mtlsClient (WithMiningDaemon
                     (WithRentalExecutor "node.example.com" (NewNodeDaemon ViaInterface "node-1"))) |}.

Definition node_world (chunks : list string) : @world NodeOps Memory node_env :=
  @World NodeOps Memory node_env 0 chunks ∅ node_memory [] [].

Definition start_cmd : Command :=
  MkCommand "cmd-1" "start_rental"
    {[ "session_id" := JStr "session-123"; "gpu_device_id" := JStr "0";
       "ssh_password" := JStr "pw"; "memory_mb" := JNum (float64_of_Z 2048) ]}.
Definition stop_cmd : Command :=
  MkCommand "cmd-2" "stop_rental" {[ "session_id" := JStr "session-123" ]}.

(** The result of a conversion that Go leaves open: what amd64 does. *)
Definition amd64 (f : spec_float) : Z := min_int64.

Lemma node_world_ready chunks : node_ready (node_world chunks).
Proof.
  by split.
Qed.


Lemma stop_rental_correct_witness :
  exists ack w', run (handleStopRental stop_cmd) (node_world []) = (Done ack, w') /\
    ack_Status ack = "ok" /\ ack_Error ack <> "".
Proof.
  destruct (stop_rental_correct stop_cmd (node_world []) (node_world_ready []))
    as (ack & w' & Hrun & _ & _ & _ & _ & H).
  change (has_rentalExecutor (daemon_of (node_world [])) && _) with true in H. destruct H as (_ & Hok & H).
  exists ack, w'. split; [exact Hrun|]. split; [exact Hok|].
  assert (Hn : activeRentals (rental_of (node_world [])) !!
    payload_string (cmd_Payload stop_cmd) "session_id" = None) by by vm_compute.
  rewrite Hn in H. apply H.
Defined.

Lemma rental_ends_mining_witness :
  exists ack w1, run (handleStartRental amd64 start_cmd) (node_world []) = (Done ack, w1) /\
    forall w2, rtc (node_step amd64 (fun _ => "") (fun _ => "")) w1 w2 ->
      md_containerID (mining_of w2) = "".
Proof.
  destruct (rental_ends_mining amd64 (fun _ => "") (fun _ => "") start_cmd (node_world []) (node_world_ready []))
    as (ack & w1 & Hrun & H); [by vm_compute..|left; by vm_compute|].
  exists ack, w1. split; [exact Hrun|]. intros w2 Hw2. by apply H.
Defined.

Lemma hub_commands_answered_witness :
  exists r w' (cmds : list Command) (acks : list CommandAck),
    run (listenOnce toy_Unmarshal ack_CommandID (Some (handleCommand amd64)) 10)
      (node_world ["a"; "garbage"; "b"]) = (Done r, w') /\
    (ack_CommandID <$> acks) = (cmd_ID <$> cmds).
Proof.
  destruct (hub_commands_answered amd64 toy_Unmarshal ack_CommandID 7 10
              (node_world ["a"; "garbage"; "b"]) (node_world_ready _))
    as (r & w' & dialog & cmds & acks & Hrun & _ & _ & Hids & _); [done..|].
  exists r, w', cmds, acks. split; [exact Hrun|exact Hids].
Defined.

Lemma command_request_witness :
  req_MemoryBytes (rental_request amd64 (mem_daemon node_memory) (cmd_Payload start_cmd)) = 2 * 2 ^ 30 /\
  req_CPUCount (rental_request amd64 (mem_daemon node_memory) (cmd_Payload start_cmd)) = 4.
Proof.
  destruct (command_request amd64 (mem_daemon node_memory) (cmd_Payload start_cmd))
    as (_ & Hm & _ & _ & Hc & _). split.
  - destruct (Hm (float64_of_Z 2048) 2048) as [_ H]; [by vm_compute|by vm_compute| |rewrite H; [by vm_compute|lia]].
    unfold in_int64, min_int64, max_int64. lia.
  - apply Hc. intros f. assert (cmd_Payload start_cmd !! "cpu_count" = None) as -> by by vm_compute. done.
Defined.

Lemma heartbeat_sent_witness :
  exists w', run (report_tick (fun _ => "hb") (fun _ => "")) (node_world []) = (Done tt, w') /\
    mem w' = node_memory /\ length (calls w') = 2%nat.
Proof.
  destruct (heartbeat_sent (fun _ => "") (fun _ => "hb") (node_world []) (node_world_ready []))
    as (ms & err & w' & Hrun & Hm & _).
  exists w'. split; [exact Hrun|]. split; [exact Hm|].
  assert (Hl : length (@calls NodeOps Memory node_env
    (snd (run (report_tick (fun _ => "hb") (fun _ => "")) (node_world [])))) = 2%nat) by by vm_compute.
  by rewrite Hrun in Hl.
Defined.
