(* ===== verification/Api.v ===== *)
(** The HTTP API of the node ([internal/api/handler.go]): what each request is
    answered, over any rental executor, and over the one of the node.

    The server hands a handler the method, the body and the parsed query of a
    request; its context is cancelled when the client goes away ([RequestCtx]).
    Decoding a body into the request structs is a parameter; the body of a
    response is the JSON value that is encoded into it. *)

From Stdlib Require Import ZArith Lia String.
From stdpp Require Import base numbers strings list gmap.
From S2P Require Import Prelude.
From S2P Require Import Effects.
From S2P Require Import Port.
From S2P Require Import Container.
From S2P Require Import Rental.
From S2P Require Import Mining.
From S2P Require Import Mtls.
From S2P Require Import Services.

(** ** Data *)

(** The body of [POST /rentals/start]; [rental.StartRentalRequest] is another type. *)
Record api_StartRentalRequest : Type := MkApiStart {
  as_SessionID : string;
  as_GPUDeviceID : string;
  as_Image : string;
  as_SSHPassword : string;
  as_MemoryBytes : Z;
  as_CPUCount : Z;
}.

(** The body of [POST /rentals/stop]. *)
Record StopRentalRequest : Type := MkStopRentalRequest { sr_SessionID : string }.

Record Request : Type := MkRequest {
  r_Method : string;
  r_Body : string;
  r_Query : list (string * string);
  r_ctx : nat;
}.

(** What a handler writes: a JSON value that is encoded, or the text itself. *)
Inductive response_body : Type :=
| BodyJSON (data : json)
| BodyText (text : string).

Record Response : Type := MkResponse {
  rsp_status : Z;
  rsp_ContentType : string;
  rsp_body : response_body;
}.

Definition StatusOK : Z := 200.
Definition StatusBadRequest : Z := 400.
Definition StatusNotFound : Z := 404.
Definition StatusMethodNotAllowed : Z := 405.
Definition StatusConflict : Z := 409.
Definition StatusInternalServerError : Z := 500.
Definition StatusServiceUnavailable : Z := 503.

(** [url.Values.Get]: the first value, or nothing. *)
Fixpoint Query_Get (q : list (string * string)) (key : string) : string :=
  match q with
  | [] => ""
  | (k, v) :: q => if bool_decide (k = key) then v else Query_Get q key
  end.

Definition writeJSON (status : Z) (data : json) : Response := MkResponse status "application/json" (BodyJSON data).

(** An empty code is omitted from an [ErrorResponse]. *)
Definition ErrorResponse (message code : string) : json :=
  JObj (("error", JStr message) :: (if bool_decide (code = "") then [] else [("code", JStr code)])).
Definition writeError (status : Z) (message code : string) : Response :=
  writeJSON status (ErrorResponse message code).

Definition StartRentalResponse (sessionID : string) (ci : ConnectionInfo) : json :=
  JObj [("sessionId", JStr sessionID); ("sshHost", JStr (conn_Host ci)); ("sshPort", JInt (conn_Port ci));
        ("sshUser", JStr (conn_User ci)); ("sshCommand", JStr (conn_Command ci))].
Definition StopRentalResponse (sessionID : string) : json :=
  JObj [("sessionId", JStr sessionID);
        ("message", JStr "rental stopped, container will be cleaned up after grace period")].

(** ** The executor behind its interface *)

Class RentalExecutorInterface (Σ : Signature) (S : Type) : Type := {
  exec_StartRental : ctx -> StartRentalRequest -> prog Σ S (option ConnectionInfo * option error);
  exec_StopRental : ctx -> string -> prog Σ S (option error);
  exec_GetRentalStatus : string -> prog Σ S (option RentalState * option error);
}.

(** The executor of the node. *)
#[export] Instance node_executor : RentalExecutorInterface NodeOps Memory := {|
  exec_StartRental c req := lift (StartRental c req);
  exec_StopRental c sid := lift (StopRental c sid);
  exec_GetRentalStatus sid := lift (GetRentalStatus sid);
|}.

Record RentalHandler (Σ : Signature) (S : Type) : Type := MkRentalHandler {
  rh_executor : RentalExecutorInterface Σ S;
  rh_hostAddr : string;
}.
Arguments MkRentalHandler {Σ S}.
Arguments rh_executor {Σ S}.
Arguments rh_hostAddr {Σ S}.

Definition NewRentalHandler {Σ S} (executor : RentalExecutorInterface Σ S) (hostAddr : string) : RentalHandler Σ S :=
  MkRentalHandler executor hostAddr.

(** The handler of the node. *)
Definition node_handler (hostAddr : string) : RentalHandler NodeOps Memory := NewRentalHandler node_executor hostAddr.

(** ** Handlers *)
Section Handlers.
Context {Σ : Signature} {S : Type}.
Context (Decode_start : string -> option api_StartRentalRequest) (Decode_stop : string -> option StopRentalRequest).
Context (Format_RFC3339Nano : Z -> string).
Context (h : RentalHandler Σ S).
Local Open Scope go_scope.

#[local] Instance handler_executor : RentalExecutorInterface Σ S := rh_executor h.
Notation handler := (prog Σ S Response).

(** The request for the executor, with the defaults filled in. *)
Definition exec_request (req : api_StartRentalRequest) : StartRentalRequest :=
  {| req_SessionID := as_SessionID req;
     req_Image := if bool_decide (as_Image req = "")
                  then "nvidia/cuda:12.1.1-runtime-ubuntu22.04" else as_Image req;
     req_GPUDeviceID := as_GPUDeviceID req;
     req_SSHPassword := as_SSHPassword req;
     req_MemoryBytes := if bool_decide (as_MemoryBytes req = 0)
                        then 16 * 1024 * 1024 * 1024 else as_MemoryBytes req;
     req_CPUCount := if bool_decide (as_CPUCount req = 0) then 8 else as_CPUCount req;
     req_Host := rh_hostAddr h |}.

(** The first required field that is missing. *)
Definition start_validation (req : api_StartRentalRequest) : option Response :=
  if bool_decide (as_SessionID req = "")
  then Some (writeError StatusBadRequest "sessionId is required" "MISSING_SESSION_ID")
  else if bool_decide (as_GPUDeviceID req = "")
  then Some (writeError StatusBadRequest "gpuDeviceId is required" "MISSING_GPU_DEVICE_ID")
  else if bool_decide (as_SSHPassword req = "")
  then Some (writeError StatusBadRequest "sshPassword is required" "MISSING_SSH_PASSWORD")
  else None.

Definition start_error (e : error) : Response :=
  if errors_Is e ErrSessionAlreadyActive
  then writeError StatusConflict "rental already exists" "RENTAL_EXISTS"
  else if errors_Is e ErrContainerNotHealthy
  then writeError StatusServiceUnavailable "container failed to start" "CONTAINER_NOT_READY"
  else writeError StatusInternalServerError (error_string e) "INTERNAL_ERROR".

Definition HandleStartRental (r : Request) : handler :=
  if negb (bool_decide (r_Method r = "POST"))
  then Ret (writeError StatusMethodNotAllowed "method not allowed" "METHOD_NOT_ALLOWED") else
  match Decode_start (r_Body r) with
  | None => Ret (writeError StatusBadRequest "invalid request body" "INVALID_REQUEST")
  | Some req =>
      match start_validation req with
      | Some resp => Ret resp
      | None =>
          let! (connInfo, err) := exec_StartRental (RequestCtx (r_ctx r)) (exec_request req) ;;
          match err, connInfo with
          | Some e, _ => Ret (start_error e)
          | None, Some ci => Ret (writeJSON StatusOK (StartRentalResponse (as_SessionID req) ci))
          | None, None => Panic "invalid memory address or nil pointer dereference"
          end
      end
  end.

(** The answer to an unknown session, and to any other failure. *)
Definition session_error (e : error) : Response :=
  if errors_Is e ErrSessionNotFound
  then writeError StatusNotFound "rental not found" "RENTAL_NOT_FOUND"
  else writeError StatusInternalServerError (error_string e) "INTERNAL_ERROR".

Definition HandleStopRental (r : Request) : handler :=
  if negb (bool_decide (r_Method r = "POST"))
  then Ret (writeError StatusMethodNotAllowed "method not allowed" "METHOD_NOT_ALLOWED") else
  match Decode_stop (r_Body r) with
  | None => Ret (writeError StatusBadRequest "invalid request body" "INVALID_REQUEST")
  | Some req =>
      let sessionID := sr_SessionID req in
      if bool_decide (sessionID = "")
      then Ret (writeError StatusBadRequest "sessionId is required" "MISSING_SESSION_ID") else
      err <- exec_StopRental (RequestCtx (r_ctx r)) sessionID ;;
      match err with
      | Some e => Ret (session_error e)
      | None => Ret (writeJSON StatusOK (StopRentalResponse sessionID))
      end
  end.

(** [rental.RentalState] has no JSON tags. *)
Definition state_json (st : RentalState) : json :=
  JObj [("SessionID", JStr (rs_SessionID st)); ("ContainerID", JStr (rs_ContainerID st));
        ("SSHPort", JInt (rs_SSHPort st)); ("StartedAt", JStr (Format_RFC3339Nano (rs_StartedAt st)));
        ("StoppedAt", match rs_StoppedAt st with
                      | Some t => JStr (Format_RFC3339Nano t)
                      | None => JNull
                      end)].

Definition HandleGetStatus (r : Request) : handler :=
  if negb (bool_decide (r_Method r = "GET"))
  then Ret (writeError StatusMethodNotAllowed "method not allowed" "METHOD_NOT_ALLOWED") else
  let sessionID := Query_Get (r_Query r) "sessionId" in
  if bool_decide (sessionID = "")
  then Ret (writeError StatusBadRequest "sessionId query param required" "MISSING_SESSION_ID") else
  let! (state, err) := exec_GetRentalStatus sessionID ;;
  match err with
  | Some e => Ret (session_error e)
  | None => Ret (writeJSON StatusOK match state with Some st => state_json st | None => JNull end)
  end.

End Handlers.

(** ** Properties *)

Section Properties.
Context `{E : !Environment NodeOps}.
Implicit Types (w : world NodeOps Memory) (tr : trace).

(** The request that reaches the executor, if any. *)
Definition accepted (Decode_start : string -> option api_StartRentalRequest) (r : Request) : option api_StartRentalRequest :=
  if bool_decide (r_Method r = "POST") then
    match Decode_start (r_Body r) with
    | Some req => match start_validation req with None => Some req | Some _ => None end
    | None => None
    end
  else None.

Lemma start_validation_ok req :
  start_validation req = None <->
  as_SessionID req <> "" /\ as_GPUDeviceID req <> "" /\ as_SSHPassword req <> "".
Proof. unfold start_validation. repeat case_bool_decide; naive_solver. Qed.

Lemma session_error_status e :
  rsp_status (session_error e) ∈ [StatusNotFound; StatusInternalServerError].
Proof. unfold session_error. destruct (errors_Is e ErrSessionNotFound); cbn; set_solver. Qed.

(** A session that is tracked already is refused without a trace. *)
Lemma node_StartRental_duplicate c req w st :
  node_ready w -> activeRentals (rental_of w) !! req_SessionID req = Some st ->
  run (lift (StartRental c req)) w = (Done (None, Some ErrSessionAlreadyActive), w).
Proof.
  intros Hr Hd. destruct (node_ready_down w Hr) as [Hrr _].
  pose proof (StartRental_duplicate_runs c req (down w) st Hrr Hd) as Hrun.
  rewrite (run_lift _ w _ _ Hrun). by rewrite up_down.
Qed.

Lemma node_GetRentalStatus sid w :
  node_ready w ->
  run (lift (GetRentalStatus sid)) w =
    (Done (match activeRentals (rental_of w) !! sid with
           | Some st => (Some st, None)
           | None => (None, Some ErrSessionNotFound)
           end), w).
Proof.
  intros Hr. destruct (node_ready_down w Hr) as [Hrr _].
  rewrite (run_lift _ w _ _ (GetRentalStatus_runs sid (down w) Hrr)). by rewrite up_down.
Qed.

(** An error response with one of these statuses and codes. *)
Definition error_of (codes : list (Z * string)) (resp : Response) : Prop :=
  exists status code msg, (status, code) ∈ codes /\ resp = writeError status msg code.

Definition start_refusals : list (Z * string) :=
  [(StatusMethodNotAllowed, "METHOD_NOT_ALLOWED"); (StatusBadRequest, "INVALID_REQUEST");
   (StatusBadRequest, "MISSING_SESSION_ID"); (StatusBadRequest, "MISSING_GPU_DEVICE_ID");
   (StatusBadRequest, "MISSING_SSH_PASSWORD")].
Definition start_failures : list (Z * string) :=
  [(StatusConflict, "RENTAL_EXISTS"); (StatusServiceUnavailable, "CONTAINER_NOT_READY");
   (StatusInternalServerError, "INTERNAL_ERROR")].
Definition session_failures : list (Z * string) :=
  [(StatusNotFound, "RENTAL_NOT_FOUND"); (StatusInternalServerError, "INTERNAL_ERROR")].

Lemma start_validation_refuses req resp :
  start_validation req = Some resp -> error_of start_refusals resp /\ rsp_status resp = StatusBadRequest.
Proof.
  unfold start_validation. repeat case_bool_decide; intros [= <-]; (split; [|done]); eexists _, _, _;
    (split; [|done]); set_solver.
Qed.

Lemma start_error_fails e : error_of start_failures (start_error e).
Proof.
  unfold start_error. destruct (errors_Is e ErrSessionAlreadyActive), (errors_Is e ErrContainerNotHealthy);
    eexists _, _, _; (split; [|done]); set_solver.
Qed.

Lemma session_error_fails e : error_of session_failures (session_error e).
Proof.
  unfold session_error. destruct (errors_Is e ErrSessionNotFound); eexists _, _, _; (split; [|done]); set_solver.
Qed.

(** What [HandleStartRental] does, and the response it writes. *)
Lemma HandleStartRental_runs (Decode_start : string -> option api_StartRentalRequest) hostAddr r w :
  node_ready w ->
  exists resp w', run (HandleStartRental Decode_start (node_handler hostAddr) r) w = (Done resp, w') /\
    node_ready w' /\ gos w' = gos w /\ mining_of w' = mining_of w /\
    match accepted Decode_start r with
    | None => w' = w /\ error_of start_refusals resp /\ rsp_status resp =
        if bool_decide (r_Method r = "POST") then StatusBadRequest else StatusMethodNotAllowed
    | Some req =>
        (activeRentals (rental_of w) !! as_SessionID req = None /\
         exists p id t ci, holds w !! p = None /\ holds w' = <[p := as_SessionID req]> (holds w) /\
           rental_of w' = track (exec_request (node_handler hostAddr) req) id p t (rental_of w) /\
           ci = connection_info (exec_request (node_handler hostAddr) req) p id /\
           resp = writeJSON StatusOK (StartRentalResponse (as_SessionID req) ci)) \/
        (exists e, resp = start_error e /\ same_rentals w w' /\
         run (lift (StartRental (RequestCtx (r_ctx r)) (exec_request (node_handler hostAddr) req))) w =
           (Done (None, Some e), w') /\
         (is_Some (activeRentals (rental_of w) !! as_SessionID req) -> e = ErrSessionAlreadyActive))
    end.
Proof.
  intros Hr. unfold HandleStartRental, accepted.
  destruct (bool_decide (r_Method r = "POST")); cbn [negb]; cycle 1.
  { eexists _, w. do 4 (split; [done|]). split; [done|]. split; [|done]. eexists _, _, _. split; [|done]. set_solver. }
  destruct (Decode_start (r_Body r)) as [req|]; cycle 1.
  { eexists _, w. do 4 (split; [done|]). split; [done|]. split; [|done]. eexists _, _, _. split; [|done]. set_solver. }
  destruct (start_validation req) as [resp|] eqn:Hv.
  { eexists resp, w. do 4 (split; [done|]). split; [done|]. by eapply start_validation_refuses. }
  change (exec_StartRental ?c ?q) with (lift (StartRental c q) : prog NodeOps Memory _).
  set (c := RequestCtx _). set (q := exec_request (node_handler hostAddr) req).
  rewrite run_bind.
  destruct (activeRentals (rental_of w) !! req_SessionID q) as [st|] eqn:Hd.
  { rewrite (node_StartRental_duplicate c q w st) by done. eexists _, w.
    do 4 (split; [done|]). right. exists ErrSessionAlreadyActive. by do 3 (split; [done|]). }
  destruct (node_StartRental c q w Hr) as (x & tr & w' & Hrun & _ & Hr' & Hg & Hm & _ & _ & _ & Hres).
  change (req_SessionID q) with (as_SessionID req) in Hd. rewrite Hrun.
  destruct x as [[ci|] [e|]]; try done.
  - eexists _, w'. do 4 (split; [done|]). left. split; [done|].
    destruct Hres as (_ & p & id & t & -> & Hp & Hh & Hre). by exists p, id, t, (connection_info q p id).
  - eexists _, w'. do 4 (split; [done|]). right. exists e. do 3 (split; [done|]). rewrite Hd. by intros [].
Qed.

(** An error in JSON, as the client of the API reads it. *)
Definition json_error (status : Z) (message code : string) : Response :=
  MkResponse status "application/json"
    (BodyJSON (JObj [("error", JStr message); ("code", JStr code)])).

(** The response of a request that does not reach the executor. *)
Lemma refused_response (Decode_start : string -> option api_StartRentalRequest) (h : RentalHandler NodeOps Memory) r :
  accepted Decode_start r = None ->
  HandleStartRental Decode_start h r = Ret
    match bool_decide (r_Method r = "POST"), Decode_start (r_Body r) with
    | false, _ => writeError StatusMethodNotAllowed "method not allowed" "METHOD_NOT_ALLOWED"
    | true, None => writeError StatusBadRequest "invalid request body" "INVALID_REQUEST"
    | true, Some req => default (writeError StatusBadRequest "" "") (start_validation req)
    end.
Proof.
  unfold accepted, HandleStartRental. destruct (bool_decide (r_Method r = "POST")); [|done]. cbn [negb].
  destruct (Decode_start (r_Body r)) as [req|]; [|done]. by destruct (start_validation req).
Qed.

(** C15: The answer to [POST /rentals/start], on every branch.  A request that is not
    a complete one is refused before anything happens: 405 for another method,
    otherwise 400 with the code of the first thing that is wrong.  A complete
    one goes to the executor.  When it starts the rental the answer is 200, on a
    port nobody held and with the SSH details of that port.  When it returns an
    error, tracked rentals and held ports are as they were, and the answer is
    409 for a session that has a rental (which is what a tracked session gets),
    503 for a container that did not become healthy, and 500 with the text of
    the error for any other.  In no case does mining notice: what it holds, it
    still holds, on the very GPU that was rented too. *)
Theorem HandleStartRental_correct (Decode_start : string -> option api_StartRentalRequest) hostAddr r w :
  node_ready w ->
  exists resp w', run (HandleStartRental Decode_start (node_handler hostAddr) r) w = (Done resp, w') /\
    node_ready w' /\ gos w' = gos w /\ mining_of w' = mining_of w /\
    match accepted Decode_start r with
    | None => w' = w /\ resp =
        match bool_decide (r_Method r = "POST"), Decode_start (r_Body r) with
        | false, _ => json_error 405 "method not allowed" "METHOD_NOT_ALLOWED"
        | true, None => json_error 400 "invalid request body" "INVALID_REQUEST"
        | true, Some req =>
            if bool_decide (as_SessionID req = "") then json_error 400 "sessionId is required" "MISSING_SESSION_ID"
            else if bool_decide (as_GPUDeviceID req = "")
            then json_error 400 "gpuDeviceId is required" "MISSING_GPU_DEVICE_ID"
            else json_error 400 "sshPassword is required" "MISSING_SSH_PASSWORD"
        end
    | Some req =>
        (rsp_status resp = 200 /\ activeRentals (rental_of w) !! as_SessionID req = None /\
         exists p id t, holds w !! p = None /\ holds w' = <[p := as_SessionID req]> (holds w) /\
           rental_of w' = track (exec_request (node_handler hostAddr) req) id p t (rental_of w) /\
           rsp_body resp = BodyJSON (JObj [("sessionId", JStr (as_SessionID req)); ("sshHost", JStr hostAddr);
             ("sshPort", JInt p); ("sshUser", JStr "ubuntu");
             ("sshCommand", JStr ("ssh -p " +:+ itoa p +:+ " ubuntu@" +:+ hostAddr))])) \/
        (exists e, same_rentals w w' /\
         run (lift (StartRental (RequestCtx (r_ctx r)) (exec_request (node_handler hostAddr) req))) w =
           (Done (None, Some e), w') /\
         (is_Some (activeRentals (rental_of w) !! as_SessionID req) -> e = ErrSessionAlreadyActive) /\
         resp = if errors_Is e ErrSessionAlreadyActive then json_error 409 "rental already exists" "RENTAL_EXISTS"
                else if errors_Is e ErrContainerNotHealthy
                then json_error 503 "container failed to start" "CONTAINER_NOT_READY"
                else json_error 500 (error_string e) "INTERNAL_ERROR")
    end.
Proof.
  intros Hr. destruct (HandleStartRental_runs Decode_start hostAddr r w Hr) as (resp & w' & Hrun & Hr' & Hg & Hm & Hres).
  exists resp, w'. do 4 (split; [done|]). destruct (accepted Decode_start r) as [req|] eqn:Ha.
  - destruct Hres as [(Hn & p & id & t & ci & Hp & Hh & Hre & -> & ->)|(e & -> & Hs & He & Hd)].
    + left. split; [done|]. split; [done|]. by exists p, id, t.
    + right. exists e. by do 3 (split; [done|]).
  - split; [apply Hres|]. pose proof (refused_response Decode_start (node_handler hostAddr) r Ha) as Hresp.
    rewrite Hresp in Hrun. injection Hrun as <- _. unfold accepted in Ha.
    destruct (bool_decide (r_Method r = "POST")); [|done]. destruct (Decode_start (r_Body r)) as [req|]; [|done].
    unfold start_validation in *. by repeat case_bool_decide.
Qed.

(** C26: Stopping over HTTP, and asking for the status afterwards.  A session that
    is not tracked is answered 404 by both and nothing changes.  A tracked one
    is stamped as stopped, its port stays held, and the status request reports
    it, stamped, with 200; the stop itself is answered 200 exactly when a
    cleanup was scheduled.  No GPU goes back to mining. *)
Theorem stop_then_status (Decode_stop : string -> option StopRentalRequest) Format_RFC3339Nano hostAddr r r' sid w :
  node_ready w -> r_Method r = "POST" -> Decode_stop (r_Body r) = Some (MkStopRentalRequest sid) -> sid <> "" ->
  r_Method r' = "GET" -> Query_Get (r_Query r') "sessionId" = sid ->
  exists resp w' status, run (HandleStopRental Decode_stop (node_handler hostAddr) r) w = (Done resp, w') /\
    run (HandleGetStatus Format_RFC3339Nano (node_handler hostAddr) r') w' = (Done status, w') /\
    node_ready w' /\ holds w' = holds w /\ mining_of w' = mining_of w /\
    match activeRentals (rental_of w) !! sid with
    | None => rsp_status resp = StatusNotFound /\ rsp_status status = StatusNotFound /\
        rental_of w' = rental_of w /\ gos w' = gos w
    | Some st => exists now, rental_of w' = mark_stopped sid st now (rental_of w) /\
        status = writeJSON StatusOK (state_json Format_RFC3339Nano (stopped_state st now)) /\
        (rsp_status resp = StatusOK /\
           gos w' = gos w ++ [lift (scheduleCleanup sid (rs_ContainerID st) (rs_SSHPort st))] \/
         rsp_status resp ∈ [StatusNotFound; StatusInternalServerError] /\ gos w' = gos w)
    end.
Proof.
  intros Hr Hp Hdec Hsid Hget Hq. unfold HandleStopRental, HandleGetStatus.
  rewrite Hp, Hdec, Hget, Hq. cbn [sr_SessionID].
  change (bool_decide ("POST" = "POST")) with true. change (bool_decide ("GET" = "GET")) with true.
  rewrite (bool_decide_eq_false_2 (sid = "")) by done.
  change (exec_StopRental ?c ?s) with (lift (StopRental c s) : prog NodeOps Memory _).
  change (exec_GetRentalStatus ?s) with (lift (GetRentalStatus s) : prog NodeOps Memory _).
  cbn [negb]. rewrite run_bind.
  destruct (node_StopRental (RequestCtx (r_ctx r)) sid w Hr)
    as (x & tr & w' & -> & _ & Hr' & Hm & _ & _ & Hh & Hres).
  assert (Hs : exists resp, run (match x with
      | Some e => Ret (session_error e)
      | None => Ret (writeJSON StatusOK (StopRentalResponse sid)) end : prog NodeOps Memory Response) w' =
        (Done resp, w') /\ (if x is Some _ then rsp_status resp ∈ [StatusNotFound; StatusInternalServerError]
         else rsp_status resp = StatusOK) /\
        (x = Some ErrSessionNotFound -> rsp_status resp = StatusNotFound)).
  { destruct x as [e|]; eexists; (split; [done|]); [|done]. split.
    - apply session_error_status.
    - by intros [= ->]. }
  destruct Hs as (resp & Hrun & Hst & Hnf). exists resp, w'. rewrite run_bind, node_GetRentalStatus by done.
  destruct (activeRentals (rental_of w) !! sid) as [st|] eqn:Hd.
  - destruct Hres as ([now Hre] & _ & Hg). rewrite Hre. cbn [mark_stopped set_activeRentals activeRentals].
    rewrite lookup_insert_eq. eexists. split; [exact Hrun|]. split; [done|].
    do 3 (split; [done|]). exists now. split; [done|]. split; [done|].
    destruct x as [e|]; [right|left]; split; try done. by rewrite Hg, app_nil_r.
  - destruct Hres as (-> & _ & Hre & Hg). rewrite Hre, Hd. eexists. split_and!;
      first [exact Hrun | done | by apply Hnf | by vm_compute].
Qed.

End Properties.

(** ** Concrete requests, to the node of [Services] *)

Definition api_decode_start (body : string) : option api_StartRentalRequest :=
  if bool_decide (body = "start") then Some (MkApiStart "session-123" "0" "" "pw" 0 0) else None.
Definition api_decode_stop (body : string) : option StopRentalRequest :=
  if bool_decide (body = "stop") then Some (MkStopRentalRequest "session-123") else None.

(** A complete request with nothing but the required fields, while the only GPU
    is being mined on: mining goes on with it. *)
Lemma HandleStartRental_correct_witness :
  let w := node_world [] in
  exists resp w', run (HandleStartRental api_decode_start (node_handler "host.example") (MkRequest "POST" "start" [] 0)) w =
      (Done resp, w') /\ rsp_status resp = StatusOK /\ holds w' = {[ 30000 := "session-123" ]} /\
    mining_of w' = mining_of w.
Proof.
  intros w.
  destruct (HandleStartRental_correct api_decode_start "host.example" (MkRequest "POST" "start" [] 0) w
              (node_world_ready [])) as (resp & w' & Hrun & _ & _ & Hm & Hres).
  exists resp, w'. split; [done|].
  assert (Hst : match fst (run (HandleStartRental api_decode_start (node_handler "host.example") (MkRequest "POST" "start" [] 0)) w)
                with Done r => Some (rsp_status r) | _ => None end = Some StatusOK) by by vm_compute.
  assert (Hh : holds (snd (run (HandleStartRental api_decode_start (node_handler "host.example") (MkRequest "POST" "start" [] 0)) w))
               = {[ 30000 := "session-123" ]}) by by vm_compute.
  rewrite Hrun in Hst, Hh. cbn in Hst, Hh. by injection Hst.
Defined.

Lemma stop_then_status_witness :
  exists resp w' status,
    run (HandleStopRental api_decode_stop (node_handler "host.example") (MkRequest "POST" "stop" [] 0)) (node_world []) = (Done resp, w') /\
    run (HandleGetStatus itoa (node_handler "host.example") (MkRequest "GET" "" [("sessionId", "session-123")] 1)) w' = (Done status, w') /\
    rsp_status resp = StatusNotFound /\ rsp_status status = StatusNotFound.
Proof.
  destruct (stop_then_status api_decode_stop itoa "host.example" (MkRequest "POST" "stop" [] 0)
              (MkRequest "GET" "" [("sessionId", "session-123")] 1) "session-123" (node_world [])
              (node_world_ready [])) as (resp & w' & status & H1 & H2 & _ & _ & _ & Hres); [by vm_compute..|].
  exists resp, w', status. split; [done|]. split; [done|].
  assert (Hn : activeRentals (rental_of (node_world [])) !! "session-123" = None) by by vm_compute.
  rewrite Hn in Hres. by destruct Hres as (? & ? & _).
Defined.
