(* ===== verification/Server.v ===== *)
(** The API server of the node: the routes of [cmd/node/main.go] over the handlers of
    [Api], what each of them answers, and the server's TLS configuration.

    The [http.ServeMux] of [main] matches the path of a request as it is; a path
    that is not clean is redirected by it before it gets here. *)

From Stdlib Require Import ZArith Lia String.
From stdpp Require Import base numbers strings list gmap.
From S2P Require Import Prelude.
From S2P Require Import Effects.
From S2P Require Import Port.
From S2P Require Import Rental.
From S2P Require Import Mtls.
From S2P Require Import Services.
From S2P Require Import Api.

(** ** Routes *)
Section Routes.
Context {Σ : Signature} {S : Type}.
Context (Decode_start : string -> option api_StartRentalRequest) (Decode_stop : string -> option StopRentalRequest)
        (Format_RFC3339Nano : Z -> string) (rentalHandler : RentalHandler Σ S).

Notation handler := (Request -> prog Σ S Response).

(** The handler of [/health] sets no content type. *)
Definition health : handler := fun _ => Ret (MkResponse StatusOK "" (BodyText "OK")).

Definition routes (path : string) : option handler :=
  if bool_decide (path = "/rentals/start") then Some (HandleStartRental Decode_start rentalHandler)
  else if bool_decide (path = "/rentals/stop") then Some (HandleStopRental Decode_stop rentalHandler)
  else if bool_decide (path = "/rentals/status") then Some (HandleGetStatus Format_RFC3339Nano rentalHandler)
  else if bool_decide (path = "/health") then Some health
  else None.

(** [http.NotFound], with a newline at the end. *)
Definition NotFound : Response :=
  MkResponse StatusNotFound "text/plain; charset=utf-8" (BodyText ("404 page not found" +:+ String (Ascii.ascii_of_nat 10) "")).

Definition ServeHTTP (path : string) : handler := fun r =>
  match routes path with
  | Some f => f r
  | None => Ret NotFound
  end.

End Routes.

(** ** The server *)

Record http_Server : Type := MkServer {
  srv_Addr : string;
  srv_TLSConfig : tls_Config;
}.

(** Every client is verified against the pool; TLS 1.3 or later. *)
Definition server_tlsConfig (cert caCertPool : string) : tls_Config :=
  MkTlsConfig [cert] None RequireAndVerifyClientCert (Some caCertPool) VersionTLS13 0.

Definition api_server (apiPort cert caCertPool : string) : http_Server :=
  MkServer (":" +:+ apiPort) (server_tlsConfig cert caCertPool).

(** ** Types of responses *)

(** The type of a JSON value: that of the Go struct it is encoded from, whose
    fields come in order, and may be left out where they are [omitempty]. *)
Inductive json_type : Type :=
| TString
| TInt
| TOptional (t : json_type)
| TStruct (fields : list (string * bool * json_type)).

Fixpoint has_type (t : json_type) (j : json) : bool :=
  match t, j with
  | TString, JStr _ => true
  | TInt, JInt _ => true
  | TOptional _, JNull => true
  | TOptional t, j => has_type t j
  | TStruct fields, JObj l =>
      (fix fields_have (fields : list (string * bool * json_type)) (l : list (string * json)) : bool :=
         match fields, l with
         | [], [] => true
         | [], _ :: _ => false
         | (_, omitempty, _) :: fields, [] => omitempty && fields_have fields []
         | (key, omitempty, t) :: fields, (k, j) :: l' =>
             if String.eqb key k then has_type t j && fields_have fields l'
             else omitempty && fields_have fields l
         end) fields l
  | _, _ => false
  end.

Definition StartRentalResponse_type : json_type :=
  TStruct [("sessionId", false, TString); ("sshHost", false, TString); ("sshPort", false, TInt);
           ("sshUser", false, TString); ("sshCommand", false, TString)].
Definition StopRentalResponse_type : json_type :=
  TStruct [("sessionId", false, TString); ("message", false, TString)].
Definition RentalState_type : json_type :=
  TStruct [("SessionID", false, TString); ("ContainerID", false, TString); ("SSHPort", false, TInt);
           ("StartedAt", false, TString); ("StoppedAt", false, TOptional TString)].
Definition ErrorResponse_type : json_type := TStruct [("error", false, TString); ("code", true, TString)].

(** The route of a path: the type of its answer, and the statuses and codes of its errors. *)
Definition route_type (path : string) : option (json_type * list (Z * string)) :=
  if bool_decide (path = "/rentals/start")
  then Some (StartRentalResponse_type, start_refusals ++ start_failures)
  else if bool_decide (path = "/rentals/stop")
  then Some (StopRentalResponse_type,
             [(StatusMethodNotAllowed, "METHOD_NOT_ALLOWED"); (StatusBadRequest, "INVALID_REQUEST");
              (StatusBadRequest, "MISSING_SESSION_ID")] ++ session_failures)
  else if bool_decide (path = "/rentals/status")
  then Some (RentalState_type,
             [(StatusMethodNotAllowed, "METHOD_NOT_ALLOWED"); (StatusBadRequest, "MISSING_SESSION_ID")] ++ session_failures)
  else None.

(** The code of an error response. *)
Definition error_code (j : json) : string :=
  match j with
  | JObj l => match snd <$> filter (fun x => fst x = "code") l with
              | [JStr code] => code
              | _ => ""
              end
  | _ => ""
  end.

Definition well_typed (path : string) (resp : Response) : bool :=
  match route_type path with
  | Some (t, codes) =>
      bool_decide (rsp_ContentType resp = "application/json") &&
      match rsp_body resp with
      | BodyJSON j =>
          if bool_decide (rsp_status resp = StatusOK) then has_type t j
          else has_type ErrorResponse_type j && bool_decide ((rsp_status resp, error_code j) ∈ codes)
      | BodyText _ => false
      end
  | None =>
      match rsp_body resp with
      | BodyJSON _ => false
      | BodyText text =>
          if bool_decide (path = "/health") then bool_decide (rsp_status resp = StatusOK /\ text = "OK")
          else bool_decide (rsp_status resp = StatusNotFound)
      end
  end.

(** ** Properties *)

Section Typed.
Implicit Types (path : string) (resp : Response).

(** Errors with one of the route's codes, and answers of the route's type. *)
Lemma error_typed path t codes codes' resp :
  route_type path = Some (t, codes) -> error_of codes' resp -> codes' ⊆ codes ->
  Forall (fun c => fst c <> StatusOK /\ snd c <> "") codes' -> well_typed path resp = true.
Proof.
  intros Hp (status & code & msg & Hin & ->) Hsub Hne. unfold well_typed. rewrite Hp.
  rewrite Forall_forall in Hne. destruct (Hne _ Hin) as [Hok Hcode]. cbn in Hok, Hcode.
  cbn. rewrite (bool_decide_eq_false_2 (status = StatusOK)) by done.
  rewrite (bool_decide_eq_false_2 (code = "")) by done. cbn. apply bool_decide_eq_true_2. by apply Hsub.
Qed.

Lemma answer_typed path t codes j :
  route_type path = Some (t, codes) -> has_type t j = true -> well_typed path (writeJSON StatusOK j) = true.
Proof. intros Hp Ht. unfold well_typed. by rewrite Hp. Qed.

End Typed.

Section Properties.
Context `{E : !Environment NodeOps}.
Context (Decode_start : string -> option api_StartRentalRequest) (Decode_stop : string -> option StopRentalRequest)
        (Format_RFC3339Nano : Z -> string) (hostAddr : string).
Implicit Types (w : world NodeOps Memory).

Notation served := (ServeHTTP Decode_start Decode_stop Format_RFC3339Nano (node_handler hostAddr)).

(** The requests that may change the node. *)
Definition may_change (path : string) (r : Request) : Prop :=
  r_Method r = "POST" /\ (path = "/rentals/start" \/ path = "/rentals/stop").

(** What a route answers to a request. *)
Definition answers (path : string) (p : prog NodeOps Memory Response) (change : Prop) w : Prop :=
  exists resp w', run p w = (Done resp, w') /\ well_typed path resp = true /\
    node_ready w' /\ mining_of w' = mining_of w /\ (~ change -> w' = w).

Lemma answers_ret path resp change w : node_ready w -> well_typed path resp = true -> answers path (Ret resp) change w.
Proof. intros Hr Ht. by exists resp, w. Qed.

Lemma start_answers r w :
  node_ready w ->
  answers "/rentals/start" (HandleStartRental Decode_start (node_handler hostAddr) r) (r_Method r = "POST") w.
Proof.
  intros Hr. destruct (HandleStartRental_runs Decode_start hostAddr r w Hr) as (resp & w' & Hrun & Hr' & _ & Hm & Hres).
  exists resp, w'. split; [done|]. destruct (accepted Decode_start r) as [req|] eqn:Hacc.
  - assert (Hp : r_Method r = "POST") by (unfold accepted in Hacc; by case_bool_decide).
    split; [|by split_and!]. destruct Hres as [(_ & p & id & t & ci & _ & _ & _ & _ & ->)|(e & -> & _)].
    + by eapply answer_typed.
    + eapply error_typed; [done|apply start_error_fails|set_solver|by repeat constructor].
  - destruct Hres as (-> & Herr & _). split; [|done].
    eapply error_typed; [done|exact Herr|set_solver|by repeat constructor].
Qed.

Lemma stop_answers r w :
  node_ready w ->
  answers "/rentals/stop" (HandleStopRental Decode_stop (node_handler hostAddr) r) (r_Method r = "POST") w.
Proof.
  intros Hr. unfold HandleStopRental. destruct (decide (r_Method r = "POST")) as [Hp|Hp];
    [rewrite (bool_decide_eq_true_2 _ Hp)|rewrite (bool_decide_eq_false_2 _ Hp)]; cbn [negb];
    [|by apply answers_ret].
  destruct (Decode_stop (r_Body r)) as [[sid]|]; cbn [sr_SessionID]; [|by apply answers_ret].
  case_bool_decide; [by apply answers_ret|].
  change (exec_StopRental ?c ?s) with (lift (StopRental c s) : prog NodeOps Memory _).
  destruct (node_StopRental (RequestCtx (r_ctx r)) sid w Hr) as (x & tr & w' & Hrun & _ & Hr' & Hm & _).
  unfold answers. rewrite run_bind, Hrun. destruct x as [e|]; eexists _, w'; (split; [done|]); (split; [|by split_and!]).
  - eapply error_typed; [done|apply session_error_fails|set_solver|by repeat constructor].
  - by eapply answer_typed.
Qed.

Lemma status_answers r w :
  node_ready w ->
  answers "/rentals/status" (HandleGetStatus Format_RFC3339Nano (node_handler hostAddr) r) False w.
Proof.
  intros Hr. unfold HandleGetStatus. destruct (decide (r_Method r = "GET")) as [Hp|Hp];
    [rewrite (bool_decide_eq_true_2 _ Hp)|rewrite (bool_decide_eq_false_2 _ Hp)]; cbn [negb];
    [|by apply answers_ret].
  case_bool_decide; [by apply answers_ret|].
  change (exec_GetRentalStatus ?s) with (lift (GetRentalStatus s) : prog NodeOps Memory _).
  unfold answers. rewrite run_bind, node_GetRentalStatus by done.
  destruct (activeRentals (rental_of w) !! _) as [st|]; eexists _, w; (split; [done|]); (split; [|done]); [|done].
  eapply answer_typed; [done|]. unfold state_json. by destruct (rs_StoppedAt st).
Qed.

(** C13: Every request to the API server, whatever its path, method and body, is
    answered: the response has the status and the content type of its route, and
    its body the type of the Go struct that the route documents, or the error
    struct with one of the route's codes, which is never empty; the node is
    ready for the next request, mining is where it was, and only a POST to start
    or to stop a rental can have changed anything. *)
Theorem API_typed path r w :
  node_ready w ->
  exists resp w', run (served path r) w = (Done resp, w') /\ well_typed path resp = true /\
    node_ready w' /\ mining_of w' = mining_of w /\ (~ may_change path r -> w' = w).
Proof.
  intros Hr. unfold ServeHTTP, routes, may_change.
  assert (Hw : forall change : Prop, (change -> r_Method r = "POST" /\ (path = "/rentals/start" \/ path = "/rentals/stop")) ->
            forall p, answers path p change w -> exists resp w', run p w = (Done resp, w') /\ well_typed path resp = true /\
              node_ready w' /\ mining_of w' = mining_of w /\
              (~ (r_Method r = "POST" /\ (path = "/rentals/start" \/ path = "/rentals/stop")) -> w' = w)).
  { intros change Hc p (resp & w' & Hrun & Ht & Hr' & Hm & Hn). exists resp, w'. do 4 (split; [done|]). auto. }
  repeat case_bool_decide; subst.
  - by apply (Hw (r_Method r = "POST")); [auto|apply start_answers].
  - by apply (Hw (r_Method r = "POST")); [auto|apply stop_answers].
  - by apply (Hw False); [|apply status_answers].
  - by apply (Hw False); [|apply answers_ret].
  - apply (Hw False); [done|]. apply answers_ret; [done|].
    unfold well_typed, route_type. by repeat case_bool_decide.
Qed.

End Properties.

(** ** Witness *)

Lemma API_typed_witness :
  exists resp w', run (ServeHTTP api_decode_start api_decode_stop itoa (node_handler "host.example") "/rentals/start"
                         (MkRequest "POST" "start" [] 0)) (node_world []) = (Done resp, w') /\
    well_typed "/rentals/start" resp = true /\ rsp_status resp = StatusOK /\ node_ready w'.
Proof.
  destruct (API_typed api_decode_start api_decode_stop itoa "host.example" "/rentals/start"
              (MkRequest "POST" "start" [] 0) (node_world []) (node_world_ready []))
    as (resp & w' & Hrun & Ht & Hr & _).
  exists resp, w'. split; [exact Hrun|]. split; [exact Ht|]. split; [|exact Hr].
  assert (Hst : match fst (run (ServeHTTP api_decode_start api_decode_stop itoa (node_handler "host.example") "/rentals/start"
                                 (MkRequest "POST" "start" [] 0)) (node_world []))
                with Done r => Some (rsp_status r) | _ => None end = Some StatusOK) by by vm_compute.
  rewrite Hrun in Hst. by injection Hst.
Defined.
