(* ===== verification/Main.v ===== *)
(** The node command ([cmd/node/main.go]): from the flags to a running node, and
    its shutdown.

    [main] is three programs.  [startup] turns the flags into certificates and
    an identity, over the memory of the SIWE client; [wire] builds the memory of
    the node ([Services.Memory]) and starts its goroutines; [shutdown] runs when
    the signal arrives.  A [log.Fatalf] is a result of its own ([Fatal]).  The
    operating system, the certificates and the HTTP server are the signature
    [os_op]; NVML, the Hub and the node's own interfaces are embedded. *)

From Stdlib Require Import ZArith Lia Ascii String SpecFloat DecimalString.
From stdpp Require Import base numbers strings list gmap.
From S2P Require Import Prelude.
From S2P Require Import Text.
From S2P Require Import Effects.
From S2P Require Import Domain.
From S2P Require Import Port.
From S2P Require Import Container.
From S2P Require Import Rental.
From S2P Require Import Nvml.
From S2P Require Import Mining.
From S2P Require Import Mtls.
From S2P Require Import Auth.
From S2P Require Import Services.
From S2P Require Import Api.
From S2P Require Import Server.

(** ** The outside *)

(** [http.ErrServerClosed]. *)
Definition ErrServerClosed : error := ErrSentinel "http.ErrServerClosed" "http: Server closed".

(** What [os.Stat] says of a path. *)
Inductive stat_result : Type := StatOk | StatNotExist | StatError (e : error).

Inductive os_op : Type :=
| os_UserHomeDir
| os_Stat (path : string)
| os_ReadFile (path : string)
| os_Hostname
| os_MkdirAll (path : string) (perm : Z)
| os_WriteFile (path data : string) (perm : Z)
| os_LoadX509KeyPair (certFile keyFile : string)   (* the leaf certificate *)
| os_NewClientWithOpts                             (* client.NewClientWithOpts *)
| os_ListenAndServeTLS (server : http_Server)
| os_Fatal (msg : string)                          (* log.Fatalf in a goroutine *)
| os_Signal                                        (* <-sigCh *)
| os_ServerShutdown (c : ctx).

Definition os_res (o : os_op) : Type :=
  match o with
  | os_Stat _ => stat_result
  | os_UserHomeDir | os_ReadFile _ | os_Hostname | os_LoadX509KeyPair _ _ => sum string error
  | os_NewClientWithOpts => sum nat error
  | os_Signal | os_Fatal _ => unit
  | _ => option error
  end.

Inductive main_op : Type :=
| m_os (o : os_op)
| m_nvml (o : nvml_op)
| m_hub (o : HubRequest)
| m_node (o : node_op).

Definition main_res (o : main_op) : Type :=
  match o with
  | m_os o => os_res o
  | m_nvml o => nvml_res o
  | m_hub o => HubResponse + error
  | m_node o => node_res o
  end.

Definition MainOps : Signature := MkSignature main_op main_res.

#[export] Instance nvml_in_main : Embeds NvmlOps MainOps.
Proof.
  refine {| inj (o : op NvmlOps) := m_nvml o : op MainOps; inj_back _ r := r; inj_fwd _ r := r |}; done.
Defined.
#[export] Instance hub_in_main : Embeds HubOps MainOps.
Proof.
  refine {| inj (o : op HubOps) := m_hub o : op MainOps; inj_back _ r := r; inj_fwd _ r := r |}; done.
Defined.
#[export] Instance node_in_main : Embeds NodeOps MainOps.
Proof.
  refine {| inj (o : op NodeOps) := m_node o : op MainOps; inj_back _ r := r; inj_fwd _ r := r |}; done.
Defined.

(** A step of [main] that may end the process. *)
Inductive fatal (A : Type) : Type := Go_on (a : A) | Fatal (msg : string).
Arguments Go_on {A} a.
Arguments Fatal {A} msg.

Notation "'let?' p := m ;; k" :=
  (bind m (fun r => match r with Go_on p => k | Fatal msg => Ret (Fatal msg) end))
  (at level 100, p pattern, m at next level, right associativity) : go_scope.

(** ** Flags and prices *)

(** [flag.Parse] has filled in the defaults; that of [-cert-dir] is computed. *)
Record Flags : Type := MkFlags {
  fl_hub : string;
  fl_hub_http : string;
  fl_api_port : string;
  fl_host : string;
  fl_cert : string;
  fl_key : string;
  fl_ca : string;
  fl_cert_dir : option string;
  fl_node_id : string;
  fl_enable_mining : bool;
  fl_mining_image : string;
  fl_mining_data_dir : string;
  fl_private_key : string;
  fl_private_key_file : string;
  fl_siwe_domain : string;
  fl_gpu_type : string;
  fl_memory_gb : Z;
  fl_price_per_sec : string;
}.

Definition default_flags : Flags :=
  {| fl_hub := "localhost:8443"; fl_hub_http := ""; fl_api_port := "8444"; fl_host := "";
     fl_cert := ""; fl_key := ""; fl_ca := ""; fl_cert_dir := None; fl_node_id := "";
     fl_enable_mining := true; fl_mining_image := "mingeyom/worldland-mio:latest";
     fl_mining_data_dir := "/data/worldland"; fl_private_key := ""; fl_private_key_file := "";
     fl_siwe_domain := ""; fl_gpu_type := "NVIDIA RTX 4090"; fl_memory_gb := 24;
     fl_price_per_sec := "2777777777778" |}.

(** [SetString(s, 10)] of a [big.Int]: an optional sign and digits, of any length. *)
Definition big_SetString (s : string) : option Z :=
  let digits r := Z.of_uint <$> NilZero.uint_of_string r in
  match s with
  | String "+" r => digits r
  | String "-" r => Z.opp <$> digits r
  | _ => digits s
  end.

Definition minPricePerSec : Z := 2777777777778.

(** The message with which [main] refuses a price. *)
Definition check_price (price : string) : option string :=
  match big_SetString price with
  | None => Some ("Invalid price-per-sec value: " +:+ price)
  | Some p =>
      if p <? minPricePerSec
      then Some ("price-per-sec must be at least 2777777777778 (0.01 WLC/hr), got: " +:+ price)
      else None
  end.

(** ** Helpers of main *)
Section Helpers.
Context {S : Type}.
Local Open Scope go_scope.

Notation node := (prog MainOps S).
Notation os o := (@call MainOps S (m_os o)).

Definition defaultCertDir : node string :=
  r <- os os_UserHomeDir ;;
  match r with
  | inr _ => Ret ".worldland/certs"
  | inl home => Ret (filepath_Join [home; ".worldland"; "certs"])
  end.

Fixpoint certs_exist (files : list string) : node bool :=
  match files with
  | [] => Ret true
  | f :: files =>
      st <- os (os_Stat f) ;;
      match st with
      | StatNotExist => Ret false
      | _ => certs_exist files
      end
  end.
Definition certsExist (certFile keyFile caFile : string) : node bool :=
  certs_exist [certFile; keyFile; caFile].

Definition hostname_id : node string :=
  r <- os os_Hostname ;;
  Ret ("CPU-" +:+ match r with inl h => h | inr _ => "unknown" end).

Definition getMachineID : node string :=
  r <- os (os_ReadFile "/etc/machine-id") ;;
  match r with
  | inl data =>
      let machineID := TrimSpace data in
      if bool_decide (machineID <> "") then
        id <- slice_to machineID 16 ;;
        Ret ("MACHINE-" +:+ id)
      else hostname_id
  | inr _ => hostname_id
  end.

Context (ErrorString : Z -> string).

Definition getGPUUUID : node string :=
  err <- lift (nvml_provider_Init ErrorString) ;;
  match err with
  | Some _ => Ret "GPU-UNKNOWN"
  | None =>
      deferring (_ <- lift (nvml_provider_Shutdown ErrorString) ;; Ret tt)
        (let! (specs, err) := lift (nvml_provider_GetSpecs ErrorString) ;;
         match err, specs with
         | None, spec :: _ => Ret (gs_UUID spec)
         | _, _ => Ret "GPU-UNKNOWN"
         end)
  end.

(** The paths of the saved certificates: node.crt, node.key, ca.crt. *)
Definition saveCertificates (certDir : string) (bundle : CertificateBundle)
  : node ((string * string * string) + error) :=
  err <- os (os_MkdirAll certDir 448) ;;
  match err with
  | Some e => Ret (inr e)
  | None =>
      let certPath := filepath_Join [certDir; "node.crt"] in
      let keyPath := filepath_Join [certDir; "node.key"] in
      let caPath := filepath_Join [certDir; "ca.crt"] in
      err <- os (os_WriteFile certPath (cb_Certificate bundle) 420) ;;
      match err with
      | Some e => Ret (inr e)
      | None =>
          err <- os (os_WriteFile keyPath (cb_PrivateKey bundle) 384) ;;
          match err with
          | Some e => Ret (inr e)
          | None =>
              err <- os (os_WriteFile caPath (cb_CACertificate bundle) 420) ;;
              match err with
              | Some e => Ret (inr e)
              | None => Ret (inl (certPath, keyPath, caPath))
              end
          end
      end
  end.

(** What the node knows of its GPU before it registers. *)
Record Detected : Type := MkDetected {
  dt_isCPUNode : bool;
  dt_gpuType : string;
  dt_memoryGB : Z;
}.

Definition detect_gpu (gpuType : string) (memoryGB : Z) : node Detected :=
  err <- lift (nvml_provider_Init ErrorString) ;;
  match err with
  | Some _ =>
      Ret (if bool_decide (gpuType = "NVIDIA RTX 4090") then MkDetected true "CPU Node" 1
           else MkDetected true gpuType memoryGB)
  | None =>
      let! (specs, err) := lift (nvml_provider_GetSpecs ErrorString) ;;
      _ <- lift (nvml_provider_Shutdown ErrorString) ;;
      Ret match err, specs with
          | None, spec :: _ =>
              MkDetected false
                (if bool_decide (gpuType = "NVIDIA RTX 4090") then gs_Name spec else gpuType)
                (if bool_decide (memoryGB = 24) then gs_MemoryTotal spec / 1024 else memoryGB)
          | _, _ => MkDetected false gpuType memoryGB
          end
  end.

End Helpers.

(** ** From the flags to an identity *)

Record Started : Type := MkStarted {
  sd_walletAddress : string;
  sd_cert : string;
  sd_caCert : string;
  sd_nodeID : string;
  sd_isCPUNode : bool;
  sd_hostAddr : string;
}.

Definition hub_http_url (f : Flags) : string :=
  if bool_decide (fl_hub_http f = "")
  then "http://" +:+ Split_head (fl_hub f) ":" +:+ ":8080" else fl_hub_http f.

Definition host_addr (f : Flags) : string :=
  if bool_decide (fl_host f = "") then "localhost" else fl_host f.

(** The three certificate files: as given, or in the certificate directory. *)
Definition cert_paths (f : Flags) (certDir : string) : string * string * string :=
  let path given name := if bool_decide (given = "") then filepath_Join [certDir; name] else given in
  (path (fl_cert f) "node.crt", path (fl_key f) "node.key", path (fl_ca f) "ca.crt").

Section Startup.
Context `{Eth : Ethereum} `{C : Codec}.
Context (ErrorString : Z -> string) (AppendCertsFromPEM : string -> bool)
        (CommonName : string -> string + error).
Context {S : Type} `{F : !Field S SIWEClient}.
Local Open Scope go_scope.

Notation node := (prog MainOps S).
Notation os o := (@call MainOps S (m_os o)).

Definition private_key (f : Flags) : node (fatal string) :=
  if bool_decide (fl_private_key f = "") && bool_decide (fl_private_key_file f <> "") then
    r <- os (os_ReadFile (fl_private_key_file f)) ;;
    match r with
    | inr e => Ret (Fatal ("Failed to read private key file: " +:+ error_string e))
    | inl data => Ret (Go_on (TrimSpace data))
    end
  else Ret (Go_on (fl_private_key f)).

Definition bootstrap_certs (certDir : string) (paths : string * string * string)
  : node (fatal (string * string * string)) :=
  let '(certFile, keyFile, caFile) := paths in
  found <- certsExist certFile keyFile caFile ;;
  if (found : bool) then Ret (Go_on paths) else
  r <- lift IssueCertificate ;;
  match r with
  | inr e => Ret (Fatal ("Failed to issue bootstrap certificate: " +:+ error_string e))
  | inl bundle =>
      r <- saveCertificates certDir bundle ;;
      match r with
      | inr e => Ret (Fatal ("Failed to save certificates: " +:+ error_string e))
      | inl paths => Ret (Go_on paths)
      end
  end.

(** The branch with a private key: the wallet, the certificates and the
    identifier of the node. *)
Definition authenticate (f : Flags) (privKeyHex certDir : string) (paths : string * string * string)
    (dt : Detected) : node (fatal (string * (string * string * string) * string)) :=
  match NewSIWEClientWithDomain (hub_http_url f) privKeyHex (fl_siwe_domain f) with
  | inr e => Ret (Fatal ("Failed to create SIWE client: " +:+ error_string e))
  | inl siweClient =>
      store siweClient ;;;
      err <- lift Login ;;
      match err with
      | Some e => Ret (Fatal ("SIWE authentication failed: " +:+ error_string e))
      | None =>
          let? paths := bootstrap_certs certDir paths ;;
          deviceUUID <- (if dt_isCPUNode dt then getMachineID else getGPUUUID ErrorString) ;;
          r <- lift (RegisterNode deviceUUID (dt_gpuType dt) (dt_memoryGB dt) (fl_price_per_sec f)) ;;
          Ret (Go_on (GetAddress siweClient, paths,
                      match r with
                      | inl registered => if bool_decide (fl_node_id f = "") then registered else fl_node_id f
                      | inr _ => fl_node_id f
                      end))
      end
  end.

(** Without a private key the certificates must be there already. *)
Definition mock_wallet (f : Flags) (certDir : string) (paths : string * string * string)
  : node (fatal (string * (string * string * string) * string)) :=
  let '(certFile, keyFile, caFile) := paths in
  found <- certsExist certFile keyFile caFile ;;
  if (found : bool) then Ret (Go_on ("", paths, fl_node_id f))
  else Ret (Fatal ("Certificates not found at " +:+ certDir +:+
    ". Either provide -private-key for auto-bootstrap or manually place certificates.")).

(** The key pair, the CA certificate and the identifier of the node. *)
Definition load_certificates (paths : string * string * string) (nodeID : string)
  : node (fatal (string * string * string)) :=
  let '(certFile, keyFile, caFile) := paths in
  r <- os (os_LoadX509KeyPair certFile keyFile) ;;
  match r with
  | inr e => Ret (Fatal ("Failed to load certificate: " +:+ error_string e))
  | inl cert =>
      r <- os (os_ReadFile caFile) ;;
      match r with
      | inr e => Ret (Fatal ("Failed to read CA certificate: " +:+ error_string e))
      | inl caCert =>
          if negb (AppendCertsFromPEM caCert) then Ret (Fatal "Failed to parse CA certificate") else
          if bool_decide (nodeID = "") then
            match CommonName cert with
            | inr e => Ret (Fatal ("Failed to parse certificate for CN extraction: " +:+ error_string e))
            | inl cn => if bool_decide (cn = "") then Ret (Fatal "node-id is required (certificate has no CN)")
                        else Ret (Go_on (cert, caCert, cn))
            end
          else Ret (Go_on (cert, caCert, nodeID))
      end
  end.

Definition startup (f : Flags) : node (fatal Started) :=
  defaultDir <- defaultCertDir ;;
  let certDir := default defaultDir (fl_cert_dir f) in
  match check_price (fl_price_per_sec f) with
  | Some msg => Ret (Fatal msg)
  | None =>
      dt <- detect_gpu ErrorString (fl_gpu_type f) (fl_memory_gb f) ;;
      let? privKeyHex := private_key f ;;
      let? (wallet, paths, nodeID) :=
        (if bool_decide (privKeyHex <> "")
         then authenticate f privKeyHex certDir (cert_paths f certDir) dt
         else mock_wallet f certDir (cert_paths f certDir)) ;;
      let? (cert, caCert, nodeID) := load_certificates paths nodeID ;;
      Ret (Go_on (MkStarted wallet cert caCert nodeID (dt_isCPUNode dt) (host_addr f)))
  end.

End Startup.

(** ** Building and running the node *)

(** The provider of a node without a GPU. *)
Definition cpu_provider : MockGPUProvider :=
  NewMockGPUProvider [MkGPUMetrics "cpu-node" "CPU Only" 0 0 0 0 0] [MkGPUSpec "cpu-node" "CPU Only" 0 "N/A"].

(** [gpuProvider]. *)
Definition node_provider (isCPUNode : bool) : gpu_provider :=
  if isCPUNode then ViaMock cpu_provider else ViaInterface.

Definition mining_cfg (f : Flags) (walletAddress : string) (gpuUUIDs : list string) : MiningConfig :=
  {| Enabled := true; WalletAddress := walletAddress; mc_Image := fl_mining_image f;
     mc_GPUDeviceIDs := gpuUUIDs; DataDir := fl_mining_data_dir f; ChainID := 10396;
     P2PPort := 30303; HTTPRPCPort := 8545; ExtraArgs := [] |}.

Section Wiring.
Context (ErrorString : Z -> string).
Context (int64_of_unrepresentable : spec_float -> Z) (Marshal_heartbeat : json -> string)
        (Format_RFC3339 : Z -> string) (Unmarshal : string -> option Command) (Marshal : CommandAck -> string).
(** How long the loops in the background are followed. *)
Context (connections rounds attempts : nat) (ticks : list bool) (events : list monitor_event).
Local Open Scope go_scope.

Notation node := (prog MainOps Memory).
Notation os o := (@call MainOps Memory (m_os o)).

Definition init_gpu (isCPUNode : bool) : node (fatal unit) :=
  if isCPUNode then Ret (Go_on tt) else
  err <- lift (nvml_provider_Init ErrorString) ;;
  match err with
  | Some e => Ret (Fatal ("GPU was detected earlier but failed to initialize: " +:+ error_string e))
  | None => Ret (Go_on tt)
  end.

(** The UUIDs of the GPUs to mine on. *)
Definition mining_gpus : node (list string) :=
  err <- lift (nvml_provider_Init ErrorString) ;;
  match err with
  | Some _ => Ret []
  | None =>
      let! (specs, err) := lift (nvml_provider_GetSpecs ErrorString) ;;
      _ <- lift (nvml_provider_Shutdown ErrorString) ;;
      Ret match err with None => gs_UUID <$> specs | Some _ => [] end
  end.

(** The goroutine of the mining daemon. *)
Definition mining_loop : node unit :=
  _ <- lift (lift (Mining.Start Background) : prog NodeOps Memory _) ;;
  _ <- lift (lift (MonitorLoop Background events) : prog NodeOps Memory _) ;;
  Ret tt.

(** The goroutine of the API server. *)
Definition serve (server : http_Server) : node unit :=
  err <- os (os_ListenAndServeTLS server) ;;
  match err with
  | Some e =>
      if bool_decide (e <> ErrServerClosed) then os (os_Fatal ("API server error: " +:+ error_string e)) else Ret tt
  | None => Ret tt
  end.

(** From the services to the background goroutines. *)
Definition wire (f : Flags) (s : Started) : node (fatal unit) :=
  let? _ := init_gpu (sd_isCPUNode s) ;;
  cli <- os os_NewClientWithOpts ;;
  match snd (NewDockerService cli) with
  | Some e => Ret (Fatal ("Failed to initialize Docker service: " +:+ error_string e))
  | None =>
      store (NewPortManager 30000 32000 (30 * Minute)) ;;;
      store (NewRentalExecutor (30 * Minute)) ;;;
      (if fl_enable_mining f && negb (sd_isCPUNode s) then
         gpuUUIDs <- mining_gpus ;;
         store (NewMiningDaemon (mining_cfg f (sd_walletAddress s) gpuUUIDs))
       else Ret tt) ;;;
      store (WithRentalExecutor (sd_hostAddr s) (NewNodeDaemon (node_provider (sd_isCPUNode s)) (sd_nodeID s))) ;;;
      (if fl_enable_mining f && negb (sd_isCPUNode s) then modify WithMiningDaemon else Ret tt) ;;;
      err <- lift (ConnectToHub (fl_hub f) (sd_cert s) (sd_caCert s)) ;;
      match err with
      | Some e => Ret (Fatal ("Failed to connect to Hub: " +:+ error_string e))
      | None =>
          spawn (_ <- lift (Daemon_Start int64_of_unrepresentable Marshal_heartbeat Format_RFC3339
                              Unmarshal Marshal connections rounds attempts ticks) ;; Ret tt) ;;;
          d <- load (T := NodeDaemon) ;;
          (if has_miningDaemon d then spawn mining_loop else Ret tt) ;;;
          spawn (serve (api_server (fl_api_port f) (sd_cert s) (sd_caCert s))) ;;;
          Ret (Go_on tt)
      end
  end.

(** After the signal: mining first, so that it releases its GPU, then the
    connection to the Hub and the API server. *)
Definition shutdown : node unit :=
  _ <- os os_Signal ;;
  d <- load (T := NodeDaemon) ;;
  (if has_miningDaemon d then
     lift (lift Mining.Close : prog NodeOps Memory unit) ;;;
     shutdownMiningCtx <- WithTimeout (10 * Second) ;;
     _ <- lift (lift (Mining.Stop shutdownMiningCtx) : prog NodeOps Memory _) ;;
     Ret tt
   else Ret tt) ;;;
  lift Daemon_Stop ;;;
  shutdownCtx <- WithTimeout (5 * Second) ;;
  _ <- os (os_ServerShutdown shutdownCtx) ;;
  Ret tt.

End Wiring.

(** ** Properties of the startup *)

Lemma big_SetString_ex : big_SetString "2777777777778" = Some minPricePerSec.
Proof. reflexivity. Qed.

Section StartupProperties.
Context `{Eth : Ethereum} `{C : Codec}.
Context (ErrorString : Z -> string) (AppendCertsFromPEM : string -> bool)
        (CommonName : string -> string + error).
Context {S : Type} `{F : !Field S SIWEClient} `{E : !Environment MainOps}.
Implicit Types w : world MainOps S.

Notation "o ↦ r" := (made (Σ := MainOps) (m_os o) r) (at level 60).

Lemma defaultCertDir_runs w :
  exists dir, run defaultCertDir w = (Done dir, called (m_os os_UserHomeDir : op MainOps) w).
Proof.
  unfold defaultCertDir. go_run. destruct (answer _ w) as [home|e]; go_run; by eexists.
Qed.

(** The price check.  The node goes on exactly with a decimal number of wei per
    second that comes to at least 0.01 WLC (10^16 wei) an hour, however many
    digits it has; with anything else it ends before it has touched the GPU, the
    certificates or the Hub. *)
Theorem price_checked f w :
  (check_price (fl_price_per_sec f) = None <->
   exists p, big_SetString (fl_price_per_sec f) = Some p /\ 3600 * p >= 10 ^ 16) /\
  (forall msg, check_price (fl_price_per_sec f) = Some msg ->
   exists x w', run (startup ErrorString AppendCertsFromPEM CommonName f) w = (Done (Fatal msg), w') /\
     makes_calls [os_UserHomeDir ↦ x] w w').
Proof.
  split.
  - unfold check_price. destruct (big_SetString _) as [p|]; [|split; [done|by intros (p & ? & _)]].
    unfold minPricePerSec. destruct (p <? 2777777777778) eqn:Hp; split; try done.
    + intros (p' & [= <-] & H). lia.
    + intros _. exists p. split; [done|]. lia.
  - intros msg Hmsg. unfold startup. rewrite run_bind. destruct (defaultCertDir_runs w) as [dir ->].
    rewrite Hmsg. eexists _, _. split; [done|]. apply makes_calls_one.
Qed.

End StartupProperties.

(** The files that the operating system keeps, with their permission bits: a file
    that was written is there and reads back; [os.WriteFile] sets the
    permissions of a file that it creates, less the umask of the process, and
    keeps those of one that exists; directories, looking and waiting change no
    file. *)
Class FileSystem (E : Environment MainOps) : Type := {
  files : @env_state MainOps E -> gmap string (string * Z);
  umask : Z;
  files_elapse : forall e, files (snd (env_elapse e)) = files e;
  files_mkdir : forall p perm t e r e',
    env_call (m_os (os_MkdirAll p perm) : op MainOps) t e = (r, e') -> files e' = files e;
  files_write : forall p d perm t e e',
    env_call (m_os (os_WriteFile p d perm) : op MainOps) t e = (None, e') ->
    files e' = <[p := (d, default (Z.land perm (Z.lnot umask)) (snd <$> files e !! p))]> (files e);
  files_stat : forall p t e r e',
    env_call (m_os (os_Stat p) : op MainOps) t e = (r, e') ->
    files e' = files e /\ (is_Some (files e !! p) -> r <> StatNotExist);
  files_read : forall p t e d e',
    env_call (m_os (os_ReadFile p) : op MainOps) t e = (inl d, e') ->
    files e' = files e /\ fst <$> files e !! p = Some d;
}.

Section Certificates.
Context {S : Type} `{E : !Environment MainOps} `{FS : !FileSystem E}.
Implicit Types w : world MainOps S.

Definition disk w : gmap string (string * Z) := files (env w).

(** The permissions of [p] when it has been written with [perm]. *)
Definition written_mode (d : gmap string (string * Z)) (p : string) (perm : Z) : Z :=
  default (Z.land perm (Z.lnot umask)) (snd <$> d !! p).

Lemma disk_advance w : disk (advance w) = disk w.
Proof.
  unfold disk, advance. pose proof (files_elapse (env w)) as H. by destruct (env_elapse (env w)).
Qed.

Lemma disk_mkdir p perm w : disk (called (m_os (os_MkdirAll p perm) : op MainOps) w) = disk w.
Proof.
  unfold called. rewrite <- (disk_advance w). unfold disk at 2.
  destruct (env_call _ _ _) as [r e'] eqn:He. unfold disk; cbn. by eapply files_mkdir.
Qed.

Lemma disk_write p d perm w :
  answer (m_os (os_WriteFile p d perm) : op MainOps) w = None ->
  disk (called (m_os (os_WriteFile p d perm) : op MainOps) w) = <[p := (d, written_mode (disk w) p perm)]> (disk w).
Proof.
  unfold answer, called. rewrite <- (disk_advance w). unfold disk at 2 3. intros H.
  destruct (env_call _ _ _) as [r e'] eqn:He. cbn in H |- *. subst r. unfold disk; cbn.
  by apply files_write in He.
Qed.

Lemma disk_stat p w :
  disk (called (m_os (os_Stat p) : op MainOps) w) = disk w /\
  (is_Some (disk w !! p) -> answer (m_os (os_Stat p) : op MainOps) w <> StatNotExist).
Proof.
  unfold answer, called. rewrite <- (disk_advance w). unfold disk at 2 3.
  destruct (env_call _ _ _) as [r e'] eqn:He. unfold disk; cbn. by apply files_stat in He.
Qed.

Lemma disk_read p w d :
  answer (m_os (os_ReadFile p) : op MainOps) w = inl d -> fst <$> disk w !! p = Some d.
Proof.
  unfold answer. rewrite <- (disk_advance w). unfold disk.
  destruct (env_call _ _ _) as [r e'] eqn:He. cbn. intros ->. by apply files_read in He as [_ ?].
Qed.

Lemma certs_exist_runs l w :
  Forall (fun p => is_Some (disk w !! p)) l ->
  exists w', run (certs_exist l) w = (Done true, w') /\ disk w' = disk w.
Proof.
  revert w. induction l as [|p l IH]; intros w Hl; cbn [certs_exist]; [by eexists|].
  apply Forall_cons in Hl as [Hp Hl]. go_run. destruct (disk_stat p w) as [Hd Hs].
  specialize (Hs Hp). destruct (IH (called (m_os (os_Stat p) : op MainOps) w)) as (w' & Hrun & Hd');
    [by rewrite Hd|]. exists w'. rewrite Hd', Hd. by destruct (answer _ w).
Qed.

(** What saving leaves on disk when it succeeds. *)
Lemma saveCertificates_runs certDir bundle w :
  exists r w', run (saveCertificates certDir bundle) w = (Done r, w') /\
    forall c k a, r = inl (c, k, a) -> NoDup [c; k; a] /\
      disk w' !! c = Some (cb_Certificate bundle, written_mode (disk w) c 420) /\
      disk w' !! k = Some (cb_PrivateKey bundle, written_mode (disk w) k 384) /\
      disk w' !! a = Some (cb_CACertificate bundle, written_mode (disk w) a 420).
Proof.
  unfold saveCertificates. go_run. pose proof (disk_mkdir certDir 448 w) as H1. set (w1 := called _ w) in *.
  destruct (answer _ w) as [e|]; [by eexists _, w1|].
  set (c := filepath_Join [certDir; "node.crt"]). set (k := filepath_Join [certDir; "node.key"]).
  set (a := filepath_Join [certDir; "ca.crt"]). go_run.
  pose proof (disk_write c (cb_Certificate bundle) 420 w1) as H2. set (w2 := called _ w1) in *.
  destruct (answer _ w1) as [e|]; [by eexists _, w2|]. go_run.
  pose proof (disk_write k (cb_PrivateKey bundle) 384 w2) as H3. set (w3 := called _ w2) in *.
  destruct (answer _ w2) as [e|]; [by eexists _, w3|]. go_run.
  pose proof (disk_write a (cb_CACertificate bundle) 420 w3) as H4. set (w4 := called _ w3) in *.
  destruct (answer _ w3) as [e|]; [by eexists _, w4|].
  specialize (H2 eq_refl). specialize (H3 eq_refl). specialize (H4 eq_refl).
  eexists _, w4. split; [done|]. intros c' k' a' [= <- <- <-].
  assert (Hck : c <> k) by (intros H; apply Join_inj in H; [done|by repeat split..]).
  assert (Hca : c <> a) by (intros H; apply Join_inj in H; [done|by repeat split..]).
  assert (Hka : k <> a) by (intros H; apply Join_inj in H; [done|by repeat split..]).
  assert (Hmk : written_mode (disk w2) k 384 = written_mode (disk w) k 384)
    by (unfold written_mode; by rewrite H2, lookup_insert_ne, H1).
  assert (Hma : written_mode (disk w3) a 420 = written_mode (disk w) a 420)
    by (unfold written_mode; by rewrite H3, lookup_insert_ne, H2, lookup_insert_ne, H1).
  split; [repeat constructor; set_solver|]. rewrite H4, Hma. split; [|split; [|apply lookup_insert_eq]].
  - rewrite lookup_insert_ne, H3, lookup_insert_ne, H2, H1 by done. apply lookup_insert_eq.
  - rewrite lookup_insert_ne, H3, Hmk by done. apply lookup_insert_eq.
Qed.

(** C32: Certificates survive on disk.  Saving a bundle either fails or leaves its
    three parts in three different files; the check of the next start then finds
    all of them, and what is read from them is what the Hub had issued.  A file
    for the private key that did not exist before is nobody's but its owner's
    (no bit of 0077 is set); one that did keeps the permissions it had, whoever
    they let in. *)
Theorem saved_certificates_found certDir bundle w :
  exists r w', run (saveCertificates certDir bundle) w = (Done r, w') /\
    forall certPath keyPath caPath, r = inl (certPath, keyPath, caPath) ->
      NoDup [certPath; keyPath; caPath] /\
      (exists mode, snd <$> disk w' !! keyPath = Some mode /\
         (disk w !! keyPath = None -> Z.land mode 63 = 0) /\
         (forall data old, disk w !! keyPath = Some (data, old) -> mode = old)) /\
      exists w'', run (certsExist certPath keyPath caPath) w' = (Done true, w'') /\
        forall data,
          (answer (m_os (os_ReadFile certPath) : op MainOps) w'' = inl data -> data = cb_Certificate bundle) /\
          (answer (m_os (os_ReadFile keyPath) : op MainOps) w'' = inl data -> data = cb_PrivateKey bundle) /\
          (answer (m_os (os_ReadFile caPath) : op MainOps) w'' = inl data -> data = cb_CACertificate bundle).
Proof.
  destruct (saveCertificates_runs certDir bundle w) as (r & w' & Hrun & H). exists r, w'. split; [done|].
  intros c k a Hr. destruct (H c k a Hr) as (Hnd & Hc & Hk & Ha). split; [done|]. split.
  - eexists. split; [by rewrite Hk|]. unfold written_mode. split; [intros ->|by intros data old ->]. cbn.
    rewrite (Z.land_comm 384), <- Z.land_assoc. by rewrite Z.land_0_r.
  - destruct (certs_exist_runs [c; k; a] w') as (w'' & Hrun' & Hd); [by repeat constructor; eexists|].
    exists w''. split; [done|]. intros data.
    split; [|split]; intros Hx; apply disk_read in Hx; rewrite Hd in Hx; rewrite ?Hc, ?Hk, ?Ha in Hx; by injection Hx.
Qed.

End Certificates.

(** ** The node that main builds *)

Section Lifted.
Context {Σ Σ' : Signature} {S : Type} `{I : !Embeds Σ Σ'} `{E : !Environment Σ'}.

(** A lifted program that only calls. *)
Lemma lift_calls {A} (p : prog Σ S A) (w : world Σ' S) o w1 tr :
  run p (down w) = (o, w1) -> makes_calls tr (down w) w1 ->
  exists w', run (lift p) w = (o, w') /\ makes_calls (lift_call <$> tr) w w'.
Proof.
  intros Hrun [Hm Hl Hg Hc Ht]. exists (up w w1). split; [by apply run_lift|].
  split; unfold up; cbn; [done|done|by rewrite Hg; cbn; rewrite app_nil_r|by rewrite Hc|done].
Qed.

(** A lifted program whose run is known by its steps. *)
Lemma lift_steps {A} (p : prog Σ S A) (w : world Σ' S) o w1 tr :
  run p (down w) = (o, w1) -> steps tr (down w) w1 ->
  exists w', run (lift p) w = (o, w') /\ steps (lift_call <$> tr) w w' /\ mem w' = mem w1.
Proof.
  intros Hrun [Hl Hg Hc Ht]. exists (up w w1). split; [by apply run_lift|]. split; [|done].
  split; unfold up; cbn; [done|by rewrite Hg; cbn; rewrite app_nil_r|by rewrite Hc|done].
Qed.

End Lifted.

Section NvmlRuns.
Context (ErrorString : Z -> string) {S : Type}.
Context `{E : !Environment MainOps} `{NC : !NvmlCounts (restrict_env (Σ := NvmlOps) (Σ' := MainOps))}.
Implicit Types w : world MainOps S.

(** NVML calls leave the node as it was. *)
Definition only_calls w w' : Prop := exists tr, makes_calls tr w w'.

Lemma only_calls_refl w : only_calls w w.
Proof. exists []. apply makes_calls_refl. Qed.
Lemma only_calls_trans w1 w2 w3 : only_calls w1 w2 -> only_calls w2 w3 -> only_calls w1 w3.
Proof. intros [? ?] [? ?]. eexists. by eapply makes_calls_app. Qed.
Lemma only_calls_call (o : op MainOps) w : only_calls w (called o w).
Proof. eexists. apply makes_calls_one. Qed.

(** The return code that decides whether there is a GPU. *)
Lemma nvml_Init_code w :
  exists ret w', run (lift (nvml_provider_Init ErrorString)) w =
      (Done (nvml_error ErrorString "NVML init failed: " ret), w') /\
    makes_calls [made (m_nvml nvml_Init : op MainOps) ret] w w'.
Proof.
  destruct (lift_calls (nvml_provider_Init ErrorString) w _ _ _ eq_refl (makes_calls_one _ _))
    as (w' & Hrun & Hm). eexists _, w'. split; [exact Hrun|exact Hm].
Qed.

Lemma nvml_Init_runs w :
  exists r w', run (lift (nvml_provider_Init ErrorString)) w = (Done r, w') /\ only_calls w w'.
Proof. destruct (nvml_Init_code w) as (ret & w' & Hrun & Hm). eexists _, w'. split; [exact Hrun|]. by eexists. Qed.

Lemma nvml_Shutdown_runs w :
  exists r w', run (lift (nvml_provider_Shutdown ErrorString)) w = (Done r, w') /\ only_calls w w'.
Proof.
  destruct (lift_calls (nvml_provider_Shutdown ErrorString) w _ _ _ eq_refl (makes_calls_one _ _))
    as (w' & Hrun & Hm). eexists _, w'. split; [exact Hrun|]. by eexists.
Qed.

Lemma nvml_GetSpecs_runs w :
  exists r w', run (lift (nvml_provider_GetSpecs ErrorString)) w = (Done r, w') /\ only_calls w w'.
Proof.
  destruct (provider_surveys ErrorString device_spec reads_spec (down w) device_spec_reader)
    as (count & ret & l & err & tr & w1 & Hrun & Hm & _).
  destruct (lift_calls (nvml_provider_GetSpecs ErrorString) w _ _ _ Hrun Hm) as (w' & Hrun' & Hm').
  eexists _, w'. split; [exact Hrun'|]. by eexists.
Qed.

End NvmlRuns.

Section WiringRuns.
Context (ErrorString : Z -> string).
Context `{E : !Environment MainOps} `{NC : !NvmlCounts (restrict_env (Σ := NvmlOps) (Σ' := MainOps))}.
Implicit Types w : world MainOps Memory.

Lemma init_gpu_runs cpu w :
  exists r w', run (init_gpu ErrorString cpu) w = (Done r, w') /\ only_calls w w'.
Proof.
  unfold init_gpu. destruct cpu; [by eexists _, w; split; [|apply only_calls_refl]|].
  go_run. destruct (nvml_Init_runs ErrorString w) as ([e|] & w' & -> & H); by eexists _, w'.
Qed.

Lemma mining_gpus_runs w :
  exists l w', run (mining_gpus ErrorString) w = (Done l, w') /\ only_calls w w'.
Proof.
  unfold mining_gpus. go_run. destruct (nvml_Init_runs ErrorString w) as ([e|] & w1 & -> & H1); [by eexists _, w1|].
  go_run. destruct (nvml_GetSpecs_runs ErrorString w1) as ([specs err] & w2 & -> & H2). go_run.
  destruct (nvml_Shutdown_runs ErrorString w2) as (r & w3 & -> & H3). go_run. eexists _, w3. split; [done|].
  eapply only_calls_trans; [exact H1|]. by eapply only_calls_trans.
Qed.

(** A connection to the Hub is made: the server is dialed at [addr], with nothing
    but the certificate [cert] to show and nobody but [cas] to trust, in TLS 1.3,
    and the handshake succeeds. *)
Definition hub_dialed (addr cert cas : string) (conn : nat) : list { o : op MainOps & res MainOps o } :=
  let config := {| tls_Certificates := [cert]; tls_RootCAs := Some cas; tls_ClientAuth := NoClientCert;
                   tls_ClientCAs := None; tls_MinVersion := 772; tls_MaxVersion := 772 |} in
  [lift_call (net_made (Σ := NodeOps) (net_Dial addr config) (conn, None));
   lift_call (net_made (Σ := NodeOps) (net_Handshake conn) None)].

(** Connecting installs a fresh client and, when it succeeds, its connection. *)
Lemma ConnectToHub_runs addr cert cas w :
  locks w !! connMu = None ->
  exists r w', run (lift (ConnectToHub addr cert cas)) w = (Done r, w') /\ locks w' = locks w /\ gos w' = gos w /\
    exists c, mem w' = set c (set (with_mtlsClient (mem_daemon (mem w))) (mem w)) /\
      (r = None -> exists conn, c = set_conn conn (NewClient addr cert cas) /\
         calls w' = calls w ++ hub_dialed addr cert cas conn).
Proof.
  intros Hl. set (wd := down w : world NodeOps Memory).
  set (m1 := set (with_mtlsClient (mem_daemon (mem w))) (set (NewClient addr cert cas) (mem w))).
  assert (Hr : conn_ready (set_mem m1 wd)) by done.
  destruct (Connect_runs (I := net_in_node) (F := Memory_client) (set_mem m1 wd) Hr)
    as (tr & r & w1 & Hrun & [[Hsl Hsg Hsc _] Hm] & Hres).
  assert (Hc : run (ConnectToHub addr cert cas) wd = (Done r, w1)).
  { unfold ConnectToHub. go_run. exact Hrun. }
  exists r, (up w w1). split; [by apply run_lift|]. unfold up; cbn [locks gos mem].
  split; [by rewrite Hsl|]. split; [by rewrite Hsg; cbn; rewrite app_nil_r|].
  exists (cl_of w1). split.
  - rewrite Hm. unfold m1. by destruct (mem w).
  - intros ->. inversion Hres as [| |conn Heq]; subst. exists conn. split; [done|]. by rewrite Hsc.
Qed.

End WiringRuns.

Section WiringProperties.
Context (ErrorString : Z -> string).
Context (int64_of_unrepresentable : spec_float -> Z) (Marshal_heartbeat : json -> string)
        (Format_RFC3339 : Z -> string) (Unmarshal : string -> option Command) (Marshal : CommandAck -> string).
Context (connections rounds attempts : nat) (ticks : list bool) (events : list monitor_event).
Context `{E : !Environment MainOps} `{NC : !NvmlCounts (restrict_env (Σ := NvmlOps) (Σ' := MainOps))}.
Implicit Types w : world MainOps Memory.

Notation wire := (wire ErrorString int64_of_unrepresentable Marshal_heartbeat Format_RFC3339 Unmarshal Marshal
                       connections rounds attempts ticks events).

(** The memory of the node before it connects: [uuids] is [None] without mining. *)
Definition node_memory_for (f : Flags) (s : Started) (uuids : option (list string)) (m : Memory) : Memory :=
  let d := WithRentalExecutor (sd_hostAddr s) (NewNodeDaemon (node_provider (sd_isCPUNode s)) (sd_nodeID s)) in
  MkMemory (NewPortManager 30000 32000 (30 * Minute)) (NewRentalExecutor (30 * Minute))
    match uuids with
    | Some l => NewMiningDaemon (mining_cfg f (sd_walletAddress s) l)
    | None => mem_mining m
    end (mem_client m) match uuids with Some _ => WithMiningDaemon d | None => d end.

(** The part of [wire] that builds it. *)
Lemma wire_mining_runs f s w :
  exists uuids w', run (if fl_enable_mining f && negb (sd_isCPUNode s) then
         (gpuUUIDs <- mining_gpus ErrorString ;;
          store (NewMiningDaemon (mining_cfg f (sd_walletAddress s) gpuUUIDs)))%go
       else Ret tt) w = (Done tt, w') /\
    locks w' = locks w /\ gos w' = gos w /\ (exists tr, calls w' = calls w ++ tr) /\
    (is_Some uuids <-> fl_enable_mining f && negb (sd_isCPUNode s) = true) /\
    mem w' = match uuids with
             | Some l => set (NewMiningDaemon (mining_cfg f (sd_walletAddress s) l)) (mem w)
             | None => mem w
             end.
Proof.
  destruct (fl_enable_mining f && negb (sd_isCPUNode s)).
  - go_run. destruct (mining_gpus_runs ErrorString w) as (l & w1 & -> & tr & [Hm Hl Hg Hc _]). go_run.
    eexists (Some l), _. split; [done|]. split; [done|]. split; [done|]. split; [by exists tr|]. split; [done|].
    go_simpl. by rewrite Hm.
  - exists None, w. split; [done|]. do 2 (split; [done|]). split; [exists []; by rewrite app_nil_r|].
    split; [split; [by intros []|done]|done].
Qed.

(** How the wiring goes. *)
Lemma wire_runs f s w :
  locks w = ∅ ->
  exists r w', run (wire f s) w = (Done r, w') /\ (r <> Go_on tt -> gos w' = gos w) /\
    (r = Go_on tt ->
     node_ready (down w' : world NodeOps Memory) /\ locks w' = ∅ /\
     exists uuids conn, (is_Some uuids <-> fl_enable_mining f && negb (sd_isCPUNode s) = true) /\
       mem w' = (let m := node_memory_for f s uuids (mem w) in
         set (set_conn conn (NewClient (fl_hub f) (sd_cert s) (sd_caCert s))) (set (with_mtlsClient (mem_daemon m)) m)) /\
       (exists tr, calls w' = calls w ++ tr ++ hub_dialed (fl_hub f) (sd_cert s) (sd_caCert s) conn) /\
       exists started, gos w' = gos w ++ started /\
         length started = if fl_enable_mining f && negb (sd_isCPUNode s) then 3%nat else 2%nat).
Proof.
  intros Hl0. unfold Main.wire. rewrite run_bind.
  destruct (init_gpu_runs ErrorString (sd_isCPUNode s) w) as ([[]|msg] & w1 & -> & tr1 & [Hm1 Hl1 Hg1 Hc1 _]);
    [|eexists _, w1; split; [done|]; split; [by intros _|done]]. go_run.
  destruct (answer _ w1) as [cli|e]; cbn [NewDockerService snd];
    [|eexists _, _; split; [done|]; split; [intros _; by go_simpl|done]]. set (w2 := called _ w1).
  assert (Hm2 : mem w2 = mem w) by (unfold w2; by go_simpl).
  assert (Hl2 : locks w2 = ∅) by (unfold w2; go_simpl; congruence).
  assert (Hg2 : gos w2 = gos w) by (unfold w2; by go_simpl).
  assert (Hc2 : exists tr, calls w2 = calls w ++ tr)
    by (eexists; unfold w2; go_simpl; rewrite Hc1, <- app_assoc; reflexivity).
  go_run. set (w3 := set_mem _ _).
  destruct (wire_mining_runs f s w3) as (uuids & w4 & -> & Hl4 & Hg4 & [tr4 Hc4] & Hu & Hm4). go_run.
  set (b := fl_enable_mining f && negb (sd_isCPUNode s)) in *.
  set (w5 := set_mem _ w4).
  assert (Hw6 : exists w6, run (if b then modify WithMiningDaemon else Ret tt) w5 = (Done tt, w6) /\
    locks w6 = ∅ /\ gos w6 = gos w /\ calls w6 = calls w4 /\ mem w6 = node_memory_for f s uuids (mem w)).
  { assert (Hm5 : mem w5 = set (WithRentalExecutor (sd_hostAddr s) (NewNodeDaemon (node_provider (sd_isCPUNode s)) (sd_nodeID s))) (mem w4)) by done.
    assert (Hl5 : locks w5 = ∅) by (unfold w5; go_simpl; by rewrite Hl4).
    assert (Hg5 : gos w5 = gos w) by (unfold w5; go_simpl; by rewrite Hg4).
    rewrite Hm4 in Hm5. unfold w3 in Hm5. rewrite ?mem_set_mem, ?Hm2 in Hm5.
    destruct b, uuids as [l|].
    - go_run. eexists. do 4 (split; [done|]). go_simpl. rewrite Hm5. by destruct (mem w).
    - destruct Hu as [_ Hu]. by destruct (Hu eq_refl).
    - destruct Hu as [Hu _]. by discriminate (Hu (ex_intro _ l eq_refl)).
    - exists w5. do 4 (split; [done|]). rewrite Hm5. by destruct (mem w). }
  destruct Hw6 as (w6 & -> & Hl6 & Hg6 & Hc6 & Hm6). go_run.
  destruct (ConnectToHub_runs (fl_hub f) (sd_cert s) (sd_caCert s) w6) as (r & w7 & -> & Hl7 & Hg7 & c & Hm7 & Hc);
    [by rewrite Hl6|]. destruct r as [e|];
    [eexists _, w7; split; [done|]; split; [intros _; by rewrite Hg7, Hg6|done]|]. destruct (Hc eq_refl) as (conn & -> & Hc7).
  assert (Hcs : exists tr, calls w7 = calls w ++ tr ++ hub_dialed (fl_hub f) (sd_cert s) (sd_caCert s) conn).
  { destruct Hc2 as [tr2 Hc2]. exists (tr2 ++ tr4). rewrite Hc7, Hc6, Hc4. change (calls w3) with (calls w2).
    by rewrite Hc2, <- !app_assoc. }
  go_run. set (w8 := add_go _ w7).
  assert (Hd : has_miningDaemon (get (mem w8)) = b).
  { change (mem w8) with (mem w7). rewrite Hm7, Hm6. destruct b, uuids as [l|]; try done.
    - destruct Hu as [_ Hu]. by destruct (Hu eq_refl).
    - destruct Hu as [Hu _]. by discriminate (Hu (ex_intro _ l eq_refl)). }
  rewrite Hd.
  assert (Hready : forall w' : world MainOps Memory, locks w' = locks w7 -> mem w' = mem w7 ->
            node_ready (down w' : world NodeOps Memory)).
  { intros w' Hl Hm. split; cbn; rewrite ?Hl, ?Hl7, ?Hl6; try done; unfold rental_of; cbn [down mem];
      rewrite Hm, Hm7, Hm6; done. }
  destruct b; go_run; (eexists _, _; split; [done|]; split; [done|]; intros _; split; [by apply Hready|];
      split; [by unfold w8; go_simpl; rewrite Hl7, Hl6|]);
    exists uuids, conn; (split; [done|]); (split; [by rewrite <- Hm6, <- Hm7|]); (split; [exact Hcs|]);
    unfold w8, add_go; cbn [gos]; rewrite Hg7, Hg6, <- ?app_assoc; by eexists.
Qed.

(** C10: Starting the node establishes what the other theorems ask for.  From a
    fresh process, the wiring always returns; when it is fatal no goroutine has
    been started, and otherwise the node is ready: mutexes free, ports 30000 to 32000 unused with half an hour of grace,
    no rental tracked, mining (when enabled on a node with a GPU) stopped and
    with no GPU rented, the daemon connected to the Hub over the connection it
    serves; and the goroutines of the daemon, of mining and of the API server
    are started. *)
Theorem wired_node_ready f s w :
  locks w = ∅ ->
  exists r w', run (wire f s) w = (Done r, w') /\ (r <> Go_on tt -> gos w' = gos w) /\
    (r = Go_on tt ->
     node_ready (down w' : world NodeOps Memory) /\
     exists uuids conn, (is_Some uuids <-> fl_enable_mining f && negb (sd_isCPUNode s) = true) /\
       mem w' = (let m := node_memory_for f s uuids (mem w) in
         set (set_conn conn (NewClient (fl_hub f) (sd_cert s) (sd_caCert s))) (set (with_mtlsClient (mem_daemon m)) m)) /\
       exists started, gos w' = gos w ++ started /\
         length started = if fl_enable_mining f && negb (sd_isCPUNode s) then 3%nat else 2%nat).
Proof.
  intros Hl. destruct (wire_runs f s w Hl) as (r & w' & Hrun & Hf & H). exists r, w'. split; [done|]. split; [done|].
  intros Hr. destruct (H Hr) as (Hn & _ & uuids & conn & Hu & Hm & _ & Hs). split; [done|]. by exists uuids, conn.
Qed.

End WiringProperties.

(** ** The shutdown *)

Section Shutdown.
Context `{E : !Environment MainOps}.
Implicit Types w : world MainOps Memory.

(** The Docker calls of [Mining.Stop]: the container is stopped and removed; what
    Docker answers ([x], [y]) is not looked at. *)
Inductive mining_stop_asked (m : MiningDaemon) : trace -> Prop :=
| asked_nothing : md_state m = MiningStateStopped \/ md_containerID m = "" -> mining_stop_asked m []
| asked_container c x y :
    md_state m <> MiningStateStopped -> md_containerID m <> "" ->
    mining_stop_asked m [made (Σ := DockerServiceInterface) (svc_StopContainer c (md_containerID m) 10) x;
                    made (Σ := DockerServiceInterface) (svc_RemoveContainer c (md_containerID m) true) y].

(** A call of the Docker service, among those of the process. *)
Definition docker_call (x : { o : op DockerServiceInterface & res DockerServiceInterface o })
  : { o : op MainOps & res MainOps o } :=
  lift_call (lift_call (Σ' := NodeOps) x).

Lemma docker_steps {A} (p : prog DockerServiceInterface Memory A) w o
    (w1 : world DockerServiceInterface Memory) tr :
  run p (down (down w : world NodeOps Memory)) = (o, w1) ->
  steps tr (down (down w : world NodeOps Memory)) w1 ->
  exists w', run (lift (lift p : prog NodeOps Memory A)) w = (o, w') /\
    steps (docker_call <$> tr) w w' /\ mem w' = mem w1.
Proof.
  intros Hr Hs. destruct (lift_steps p _ _ _ _ Hr Hs) as (w2 & Hr2 & Hs2 & Hm2).
  destruct (lift_steps (lift p : prog NodeOps Memory A) _ _ _ _ Hr2 Hs2) as (w3 & Hr3 & Hs3 & Hm3).
  exists w3. split; [done|]. split; [|congruence]. rewrite <- list_fmap_compose in Hs3. exact Hs3.
Qed.

(** Mining after [Close] and [Stop]. *)
Definition mining_closed (m : MiningDaemon) : MiningDaemon :=
  set_stopCh_closed match md_state m with MiningStateStopped => m | _ => stopped m end.

Lemma end_mining_runs w :
  locks w !! mining_mu = None -> stopCh_closed (mem_mining (mem w)) = false ->
  long_or_none (md_containerID (mem_mining (mem w))) ->
  exists tr w', run (lift (lift Mining.Close : prog NodeOps Memory unit) ;;;
                     shutdownMiningCtx <- WithTimeout (10 * Second) ;;
                     _ <- lift (lift (Mining.Stop shutdownMiningCtx) : prog NodeOps Memory _) ;;
                     Ret tt)%go w = (Done tt, w') /\
    mining_stop_asked (mem_mining (mem w)) tr /\ steps (docker_call <$> tr) w w' /\
    mem w' = set (mining_closed (mem_mining (mem w))) (mem w).
Proof.
  intros Hl Hcl Hid. set (m := mem_mining (mem w)) in *. set (wd := down (down w : world NodeOps Memory) : world DockerServiceInterface Memory).
  assert (Hc : run Mining.Close wd = (Done tt, set_mem (set (set_stopCh_closed m) (mem w)) wd)).
  { unfold Mining.Close. go_run.
    change (stopCh_closed (get (mem wd))) with (stopCh_closed m). rewrite Hcl. by go_run. }
  destruct (docker_steps _ w _ _ [] Hc) as (w1 & Hr1 & Hs1 & Hm1);
    [by apply steps_local; auto with go|].
  rewrite (run_bind_done _ _ _ _ _ Hr1). unfold WithTimeout. go_run. set (w2 := advance w1).
  assert (Hm2 : mem w2 = set (set_stopCh_closed m) (mem w)) by (unfold w2; go_simpl; by rewrite Hm1).
  assert (Hs2 : steps [] w w2) by (eapply steps_then_local; [exact Hs1|apply local_step_advance]).
  set (c := Deadline _). set (wd2 := down (down w2 : world NodeOps Memory) : world DockerServiceInterface Memory).
  destruct (Stop_runs c wd2)
    as (tr & o & w3 & Hr3 & [Hs3 Hw3] & Hres).
  { change (locks w2 !! mining_mu = None). by rewrite (st_locks _ _ _ Hs2). }
  destruct (docker_steps _ w2 _ _ _ Hr3 Hs3) as (w4 & Hr4 & Hs4 & Hm4).
  change (mem wd2) with (mem w2) in Hw3. rewrite Hm2 in Hw3.
  change (md_of wd2) with (mem_mining (mem w2)) in Hres. rewrite Hm2 in Hres.
  assert (Hend : o = Done None /\ mining_stop_asked m tr /\ md_of w3 = mining_closed m).
  { unfold mining_closed. change (mem_mining (set (set_stopCh_closed m) (mem w))) with (set_stopCh_closed m) in Hres.
    inversion Hres as [Hs|Hs He|x y Hs He Hsh|x y msg Hs He Hsh]; subst; cbn [md_state md_containerID set_stopCh_closed] in *.
    - split; [done|]. split; [by constructor; left|]. by rewrite Hs.
    - split; [done|]. split; [by constructor; right|]. by destruct (md_state m).
    - split; [done|]. split; [by constructor|]. by destruct (md_state m).
    - destruct Hid; [done|congruence]. }
  destruct Hend as (-> & Hend & Hmd). rewrite Hr4. go_run.
  exists tr, w4. split; [done|]. split; [done|]. split; [exact (steps_app _ _ _ _ _ Hs2 Hs4)|].
  rewrite Hm4, Hw3. fold (md_of w3). by rewrite Hmd.
Qed.

(** Closing the connection to the Hub, if there is one. *)
Inductive hub_closed (c : Client) : list { o : op NodeOps & res NodeOps o } -> Prop :=
| closed_none : cl_conn c = None -> hub_closed c []
| closed_conn conn x : cl_conn c = Some conn -> hub_closed c [net_made (net_Close conn) x].

Lemma end_daemon_runs w :
  locks w !! connMu = None -> has_mtlsClient (mem_daemon (mem w)) = true ->
  nd_stopCh_closed (mem_daemon (mem w)) = false -> cl_stopCh_closed (mem_client (mem w)) = false ->
  exists tr w', run (lift Daemon_Stop) w = (Done tt, w') /\ hub_closed (mem_client (mem w)) tr /\
    steps (lift_call <$> tr) w w' /\
    mem w' = set (close_stopCh (mem_client (mem w))) (set (close_node_stopCh (mem_daemon (mem w))) (mem w)).
Proof.
  intros Hl Hcl Hd Hc. set (wd := down w : world NodeOps Memory).
  set (w1 := set_mem (set (close_node_stopCh (mem_daemon (mem w))) (mem w)) wd).
  destruct (Send_Close_correct "" w1) as [_ (w2 & tr & Hr2 & [Hs2 Hm2] & Hc2 & Htr & _)]; [done|done|].
  assert (Hr : run Daemon_Stop wd = (Done tt, w2)).
  { unfold Daemon_Stop. go_run. change (nd_stopCh_closed (get (mem wd))) with (nd_stopCh_closed (mem_daemon (mem w))).
    rewrite Hd. go_run.
    match goal with |- context [if ?b then Client_Close else _] =>
      change b with (has_mtlsClient (mem_daemon (mem w))) end.
    rewrite Hcl. exact Hr2. }
  assert (Hs : steps tr wd w2) by (eapply local_then_steps; [|exact Hs2]; unfold w1; auto with go).
  destruct (lift_steps _ w _ _ _ Hr Hs) as (w3 & Hr3 & Hs3 & Hm3).
  exists tr, w3. split; [done|]. split.
  { change (cl_of w1) with (mem_client (mem w)) in Htr. destruct (cl_conn (mem_client (mem w))) eqn:Hconn.
    - destruct Htr as [x ->]. by constructor.
    - subst tr. by constructor. }
  split; [done|]. rewrite Hm3, Hm2. fold (cl_of w2). by rewrite Hc2.
Qed.

(** How the shutdown goes. *)
Lemma shutdown_runs w :
  node_ready (down w : world NodeOps Memory) ->
  let m := mem w in
  has_mtlsClient (mem_daemon m) = true -> nd_stopCh_closed (mem_daemon m) = false ->
  cl_stopCh_closed (mem_client m) = false ->
  (has_miningDaemon (mem_daemon m) = true ->
     stopCh_closed (mem_mining m) = false /\ long_or_none (md_containerID (mem_mining m))) ->
  exists w' mining hub c x, run shutdown w = (Done tt, w') /\
    calls w' = calls w ++ made (m_os os_Signal : op MainOps) tt ::
      (docker_call <$> mining) ++ (lift_call <$> hub) ++
      [made (m_os (os_ServerShutdown c) : op MainOps) x] /\
    locks w' = locks w /\ gos w' = gos w /\ hub_closed (mem_client m) hub /\
    (if has_miningDaemon (mem_daemon m) then mining_stop_asked (mem_mining m) mining else mining = []) /\
    mem w' = MkMemory (mem_port m) (mem_rental m)
      (if has_miningDaemon (mem_daemon m) then mining_closed (mem_mining m) else mem_mining m)
      (close_stopCh (mem_client m)) (close_node_stopCh (mem_daemon m)).
Proof.
  intros Hr m Hcl Hd Hc Hm. unfold shutdown. go_run. set (w1 := called _ w).
  assert (Hm1 : mem w1 = m) by (unfold w1; by go_simpl).
  assert (Hs1 : steps [made (m_os os_Signal : op MainOps) tt] w w1).
  { pose proof (steps_call [] (m_os os_Signal : op MainOps) w w (steps_refl w)) as H.
    by destruct (answer (m_os os_Signal : op MainOps) w). }
  change (get (T := NodeDaemon) (mem w1)) with (mem_daemon (mem w1)). rewrite Hm1.
  match goal with |- context [run (if _ then ?p else _) w1] => set (end_mining := p) end.
  assert (Hmid : exists mining w2,
    run (if has_miningDaemon (mem_daemon m) then end_mining else Ret tt) w1 = (Done tt, w2) /\
    (if has_miningDaemon (mem_daemon m) then mining_stop_asked (mem_mining m) mining else mining = []) /\
    steps (docker_call <$> mining) w1 w2 /\
    mem w2 = set (if has_miningDaemon (mem_daemon m) then mining_closed (mem_mining m) else mem_mining m) m).
  { destruct (has_miningDaemon (mem_daemon m)).
    - destruct (Hm eq_refl) as [Hst Hid].
      destruct (end_mining_runs w1) as (tr & w2 & H & ? & ? & ?); rewrite ?Hm1 in *; try done.
      + rewrite (st_locks _ _ _ Hs1). apply Hr.
      + exists tr, w2. done.
    - exists [], w1. split; [done|]. split; [done|]. split; [apply steps_refl|]. rewrite Hm1. by destruct m. }
  destruct Hmid as (mining & w2 & -> & Hmi & Hs2 & Hm2). cbv beta iota.
  destruct (end_daemon_runs w2) as (hub & w3 & Hr3 & Hhub & Hs3 & Hm3);
    [rewrite (st_locks _ _ _ Hs2), (st_locks _ _ _ Hs1); apply Hr|by rewrite Hm2..|].
  rewrite (run_bind_done _ _ _ _ _ Hr3). unfold WithTimeout. go_run. set (w4 := advance w3).
  set (c := Deadline _). set (o := m_os (os_ServerShutdown c) : op MainOps).
  pose proof (steps_then_local _ _ _ _ Hs3 (local_step_advance w3)) as Hs4.
  pose proof (steps_app _ _ _ _ _ (steps_app _ _ _ _ _ Hs1 Hs2) (steps_call _ o _ _ Hs4)) as [Hl Hg Hcs _].
  exists (called o w4), mining, hub, c, (answer o w4). split; [done|].
  split; [rewrite <- !app_assoc in Hcs; exact Hcs|]. split; [done|]. split; [done|].
  rewrite Hm2 in Hhub, Hm3. split; [exact Hhub|]. split; [done|].
  unfold w4. go_simpl. rewrite Hm3. by destruct m.
Qed.

(** C16: The shutdown of a node that is not already shut down always ends, and
    in this order: after the signal Docker is asked to stop and to remove the
    mining container, if there is one, and whatever it answers the mining daemon
    is stopped and tracks no container; the connection to the Hub is closed, and
    with it every loop of daemon, client and mining daemon is told to end; then
    the API server is shut down.  It does nothing else: the rentals and their
    ports are as they were and their containers are left running. *)
Theorem shutdown_correct w :
  node_ready (down w : world NodeOps Memory) ->
  let m := mem w in
  has_mtlsClient (mem_daemon m) = true -> nd_stopCh_closed (mem_daemon m) = false ->
  cl_stopCh_closed (mem_client m) = false ->
  (has_miningDaemon (mem_daemon m) = true ->
     stopCh_closed (mem_mining m) = false /\ long_or_none (md_containerID (mem_mining m))) ->
  exists w' mining hub c x, run shutdown w = (Done tt, w') /\
    calls w' = calls w ++ made (m_os os_Signal : op MainOps) tt ::
      (docker_call <$> mining) ++ (lift_call <$> hub) ++
      [made (m_os (os_ServerShutdown c) : op MainOps) x] /\
    locks w' = locks w /\ gos w' = gos w /\ hub_closed (mem_client m) hub /\
    (if has_miningDaemon (mem_daemon m) then mining_stop_asked (mem_mining m) mining else mining = []) /\
    mem w' = MkMemory (mem_port m) (mem_rental m)
      (if has_miningDaemon (mem_daemon m) then mining_closed (mem_mining m) else mem_mining m)
      (close_stopCh (mem_client m)) (close_node_stopCh (mem_daemon m)).
Proof. apply shutdown_runs. Qed.

End Shutdown.

(** ** A concrete machine

    One GPU, a file system, and the Hub and Docker of the other examples. *)

Definition machine_os (o : os_op) (d : gmap string (string * Z)) : os_res o * gmap string (string * Z) :=
  match o return os_res o * gmap string (string * Z) with
  | os_UserHomeDir => (inl "/home/v", d)
  | os_Stat p => (if d !! p is Some _ then StatOk else StatNotExist, d)
  | os_ReadFile p => (if d !! p is Some (s, _) then inl s else inr (ErrNew "no such file"), d)
  | os_Hostname => (inl "lab", d)
  | os_MkdirAll _ _ => (None, d)
  | os_WriteFile p s perm => (None, <[p := (s, default (Z.land perm (Z.lnot 18)) (snd <$> d !! p))]> d)
  | os_LoadX509KeyPair c _ => (if d !! c is Some (s, _) then inl s else inr (ErrNew "no such file"), d)
  | os_Signal => (tt, d)
  | os_NewClientWithOpts => (inl 0%nat, d)
  | os_Fatal _ => (tt, d)
  | os_ListenAndServeTLS _ | os_ServerShutdown _ => (None, d)
  end.

Definition machine_call (o : main_op) (d : gmap string (string * Z)) : main_res o * gmap string (string * Z) :=
  match o return main_res o * gmap string (string * Z) with
  | m_os o => machine_os o d
  | m_nvml o => (lab_call o, d)
  | m_hub o => (hub_answer o, d)
  | m_node o => (fst (node_call o []), d)
  end.

Definition machine : Environment MainOps := {|
  env_state := gmap string (string * Z);
  env_call (o : op MainOps) _ d := machine_call o d;
  env_elapse d := (0%N, d);
  env_cancelled _ _ := false;
|}.

Lemma machine_read p d s d' :
  machine_os (os_ReadFile p) d = (inl s, d') -> d' = d /\ fst <$> d !! p = Some s.
Proof. unfold machine_os. destruct (d !! p) as [[x m]|]; [by intros [= <- <-]|by intros [=]]. Qed.

#[export] Instance machine_files : FileSystem machine.
Proof.
  refine (Build_FileSystem machine (fun d : gmap string (string * Z) => d) 18 _ _ _ _ _).
  - done.
  - by intros p perm t e r e' [= _ <-].
  - by intros p d perm t e e' [= <-].
  - intros p t e r e' [= <- <-]. split; [done|]. by intros [x ->].
  - intros p t e d e'. apply machine_read.
Defined.

#[export] Instance machine_counts : NvmlCounts (restrict_env (E := machine) (Σ := NvmlOps)).
Proof. by intros t e n r s [= <- _ _]. Qed.

Definition fresh_process {S} (s : S) : @world MainOps S machine := @World MainOps S machine 0 ∅ ∅ s [] [].

Definition lab_bundle : CertificateBundle := MkCertificateBundle "CERT" "KEY" "CA" "2027" "0xabcd".

(** One wei below the minimum. *)
Definition cheap : Flags :=
  MkFlags "hub:8443" "" "8444" "" "" "" "" None "" true "img" "/data" "" "" "" "NVIDIA RTX 4090" 24 "2777777777777".

Lemma price_checked_witness :
  (exists x w', run (@startup toy_ethereum toy_codec itoa (fun _ => true) inl (SIWEClient (Eth := toy_ethereum)) _ cheap)
                  (fresh_process (toy_client "")) =
       (Done (Fatal "price-per-sec must be at least 2777777777778 (0.01 WLC/hr), got: 2777777777777"), w') /\
     calls w' = [made (Σ := MainOps) (m_os os_UserHomeDir) x]) /\
  check_price "5000000000000000000000000000000" = None.
Proof.
  split.
  - destruct (@price_checked toy_ethereum toy_codec itoa (fun _ => true) inl _ _ machine cheap
                (fresh_process (toy_client ""))) as [_ H].
    destruct (H "price-per-sec must be at least 2777777777778 (0.01 WLC/hr), got: 2777777777777")
      as (x & w' & Hrun & Hm); [by vm_compute|].
    exists x, w'. split; [exact Hrun|]. exact (mc_calls _ _ _ Hm).
  - by vm_compute.
Defined.

Lemma saved_certificates_found_witness :
  exists w' w'', run (saveCertificates "/home/v/.worldland/certs" lab_bundle) (fresh_process tt) =
      (Done (inl ("/home/v/.worldland/certs/node.crt", "/home/v/.worldland/certs/node.key",
                  "/home/v/.worldland/certs/ca.crt")), w') /\
    run (certsExist "/home/v/.worldland/certs/node.crt" "/home/v/.worldland/certs/node.key"
           "/home/v/.worldland/certs/ca.crt") w' = (Done true, w'') /\
    exists mode, snd <$> disk w' !! "/home/v/.worldland/certs/node.key" = Some mode /\ Z.land mode 63 = 0.
Proof.
  destruct (saved_certificates_found "/home/v/.worldland/certs" lab_bundle (fresh_process tt))
    as (r & w' & Hrun & H).
  assert (Hf : fst (run (saveCertificates "/home/v/.worldland/certs" lab_bundle) (fresh_process tt)) =
    Done (inl ("/home/v/.worldland/certs/node.crt", "/home/v/.worldland/certs/node.key",
               "/home/v/.worldland/certs/ca.crt"))) by by vm_compute.
  rewrite Hrun in Hf. injection Hf as ->.
  destruct (H _ _ _ eq_refl) as (_ & (mode & Hm & Hnew & _) & w'' & Hc & _). exists w', w''.
  split; [exact Hrun|]. split; [exact Hc|]. exists mode. split; [exact Hm|]. by apply Hnew.
Defined.

Definition lab_started : Started := MkStarted "0xabcd" "CERT" "CA" "node-7" false "host.example".

Lemma wired_node_ready_witness :
  let p := wire itoa amd64 (fun _ => "hb") itoa (fun _ => None) (fun _ => "") 1 1 1 [] [] default_flags lab_started in
  exists w', run p (fresh_process node_memory) = (Done (Go_on tt), w') /\ node_ready (down w' : world NodeOps Memory) /\
    length (gos w') = 3%nat /\ mc_GPUDeviceIDs (md_config (mem_mining (mem w'))) = ["GPU-1"].
Proof.
  intros p.
  destruct (wired_node_ready itoa amd64 (fun _ => "hb") itoa (fun _ => None) (fun _ => "") 1 1 1 [] []
              default_flags lab_started (fresh_process node_memory) eq_refl) as (r & w' & Hrun & _ & H).
  assert (Hf : fst (run p (fresh_process node_memory)) = Done (Go_on tt)) by by vm_compute.
  assert (Hg : mc_GPUDeviceIDs (md_config (mem_mining (mem (snd (run p (fresh_process node_memory)))))) = ["GPU-1"])
    by by vm_compute.
  unfold p in Hf, Hg. rewrite Hrun in Hf, Hg. injection Hf as ->. destruct (H eq_refl) as (Hr & uuids & conn & _ & _ & st & Hst & Hlen).
  exists w'. split; [exact Hrun|]. split; [exact Hr|]. split; [by rewrite Hst|exact Hg].
Defined.

(** The node of the machine while it mines. *)
Definition mining_node : @world MainOps Memory machine :=
  let w := snd (run (wire itoa amd64 (fun _ => "hb") itoa (fun _ => None) (fun _ => "") 1 1 1 [] [] default_flags lab_started)
                  (fresh_process node_memory)) in
  set_mem (set (started "0123456789abcdef" 0 (mem_mining (mem w))) (mem w)) w.

Lemma shutdown_correct_witness :
  exists w' mining, run shutdown mining_node = (Done tt, w') /\ length mining = 2%nat /\
    mining_stop_asked (mem_mining (mem mining_node)) mining /\
    md_containerID (mem_mining (mem w')) = "" /\ stopCh_closed (mem_mining (mem w')) = true.
Proof.
  assert (Hr : node_ready (down mining_node : world NodeOps Memory)).
  { split; [by vm_compute..| |by vm_compute|by vm_compute].
    assert (mem_port (mem mining_node) = NewPortManager 30000 32000 (30 * Minute)) as Hp by by vm_compute.
    change (pm_wf (mem_port (mem mining_node))). rewrite Hp.
    apply pm_wf_new; unfold in_int64, min_int64, max_int64, Minute, Second, Millisecond; lia. }
  destruct (shutdown_correct mining_node Hr) as (w' & mining & hub & c & x & Hrun & _ & _ & _ & _ & Hmi & Hm);
    [by vm_compute..| |].
  { intros _. split; [by vm_compute|]. by right. }
  exists w', mining. split; [exact Hrun|].
  assert (Hd : has_miningDaemon (mem_daemon (mem mining_node)) = true) by by vm_compute.
  rewrite Hd in Hmi, Hm. rewrite Hm. split.
  - destruct Hmi as [[Hx|Hx]|]; [discriminate Hx|discriminate Hx|done].
  - split; [exact Hmi|]. split; reflexivity.
Defined.
