(* ===== verification/Startup.v ===== *)
(** What the startup of the node establishes ([startup] in [Main]): the price, the
    login, the certificates and the identifier that the rest of the node is
    built from, on every branch of [cmd/node/main.go] up to the GPU provider. *)

From Stdlib Require Import ZArith Lia Ascii String.
From stdpp Require Import base numbers strings list gmap.
From S2P Require Import Prelude.
From S2P Require Import Text.
From S2P Require Import Effects.
From S2P Require Import Domain.
From S2P Require Import Nvml.
From S2P Require Import Auth.
From S2P Require Import Main.

(** ** A stretch of the startup *)
Section Since.
Context {S : Type} `{E : !Environment MainOps}.
Implicit Types w : world MainOps S.

(** The calls of a process. *)
Notation call_log := (list { o : op MainOps & res MainOps o }).

(** Calls were made; no mutex was touched and no goroutine was started. *)
Record since w w' : Prop := {
  sn_locks : locks w' = locks w;
  sn_gos : gos w' = gos w;
  sn_calls : exists tr, calls w' = calls w ++ tr;
}.

#[export] Instance since_preorder : PreOrder since.
Proof.
  split.
  - intros w. split; [done..|]. exists []. by rewrite app_nil_r.
  - intros w1 w2 w3 [] []. split; [congruence..|]. destruct sn_calls0 as [tr1 H1], sn_calls1 as [tr2 H2].
    exists (tr1 ++ tr2). by rewrite H2, H1, app_assoc.
Qed.

Lemma makes_calls_since tr w w' : makes_calls tr w w' -> since w w'.
Proof. intros []. split; [done..|]. by exists tr. Qed.
Lemma since_call (o : op MainOps) w : since w (called o w).
Proof. eapply makes_calls_since, makes_calls_one. Qed.
Lemma only_calls_since w w' : only_calls w w' -> since w w'.
Proof. intros [tr ?]. by eapply makes_calls_since. Qed.

(** What was called stays in the log. *)
Lemma since_made x w w' : since w w' -> x ∈ calls w -> x ∈ calls w'.
Proof. intros [_ _ [tr ->]] Hx. apply elem_of_app. by left. Qed.
Lemma made_one (o : op MainOps) w : made o (answer o w) ∈ calls (called o w).
Proof. rewrite called_calls. apply elem_of_app. right. by left. Qed.
Lemma made_calls tr w w' x : makes_calls tr w w' -> x ∈ tr -> x ∈ calls w'.
Proof. intros [_ _ _ Hc _] Hx. rewrite Hc. apply elem_of_app. by right. Qed.

End Since.

#[export] Hint Resolve since_call made_one : go.
#[export] Hint Extern 1 (since ?w ?w) => reflexivity : go.

(** [since_trans H] : follow a stretch [H] that leads to the goal's last world. *)
Ltac since_step := etransitivity; [eassumption || apply since_call|].

(** ** The parts of the startup *)
Section Parts.
Context `{Eth : Ethereum} `{C : Codec} `{SF : !SignatureFormat}.
Context (ErrorString : Z -> string) (AppendCertsFromPEM : string -> bool)
        (CommonName : string -> string + error).
Context {S : Type} `{F : !Field S SIWEClient} `{E : !Environment MainOps}
        `{NC : !NvmlCounts (restrict_env (Σ := NvmlOps) (Σ' := MainOps))}.
Implicit Types w : world MainOps S.

Notation "o ↦ r" := (made (Σ := MainOps) o r) (at level 60).
Notation call_log := (list { o : op MainOps & res MainOps o }).

Definition client_of w : SIWEClient := get (mem w).

(** A program that returns, with what it leaves. *)
Definition returns {A} (p : prog MainOps S A) w (Q : A -> world MainOps S -> Prop) : Prop :=
  exists a w', run p w = (Done a, w') /\ since w w' /\ Q a w'.

Lemma returns_ret {A} (a : A) w (Q : A -> world MainOps S -> Prop) : Q a w -> returns (Ret a) w Q.
Proof. intros HQ. by exists a, w. Qed.

Lemma returns_bind {A B} (p : prog MainOps S A) (f : A -> prog MainOps S B) w (R : A -> world MainOps S -> Prop)
    (Q : B -> world MainOps S -> Prop) :
  returns p w R -> (forall a w1, since w w1 -> R a w1 -> returns (f a) w1 Q) -> returns (bind p f) w Q.
Proof.
  intros (a & w1 & Hp & Hs & HR) Hf. destruct (Hf a w1 Hs HR) as (b & w2 & Hb & Hs' & HQ).
  exists b, w2. rewrite run_bind, Hp. split; [done|]. split; [by etransitivity|done].
Qed.

Lemma returns_mono {A} (p : prog MainOps S A) w (R Q : A -> world MainOps S -> Prop) :
  returns p w R -> (forall a w', since w w' -> R a w' -> Q a w') -> returns p w Q.
Proof. intros (a & w' & Hp & Hs & HR) HQ. exists a, w'. auto. Qed.

(** A call of the operating system: its answer is in the log, memory is as it was. *)
Lemma returns_call (o : op MainOps) w :
  returns (call o) w (fun r w' => o ↦ r ∈ calls w' /\ client_of w' = client_of w).
Proof.
  exists (answer o w), (called o w). split; [done|]. split; [apply since_call|]. split; [apply made_one|].
  unfold client_of. by rewrite called_mem.
Qed.

(** The login, as the Hub sees it. *)
Inductive logged_in (client client' : SIWEClient) (cs : call_log) : Prop :=
| logged_in_intro message s resp token :
    crypto_Sign (Keccak256 (prefixedMessage message)) (sc_privateKey client) = inl s ->
    m_hub (login_request client message (wire_signature s)) ↦ inl resp ∈ cs ->
    hr_StatusCode resp = 200 -> Decode_token (hr_Body resp) = inl token ->
    client' = set_token token client -> logged_in client client' cs.

Lemma Login_returns w :
  returns (lift Login) w (fun r w' =>
    match r with Some _ => True | None => logged_in (client_of w) (client_of w') (calls w') end).
Proof.
  destruct (Login_runs (down w)) as (r & w1 & tr & Hrun & Hc & Hl & Hg & Hr).
  exists r, (up w w1). split; [by apply run_lift|]. split.
  - split; unfold up; cbn; [done|by rewrite Hg; cbn; rewrite app_nil_r|by eexists].
  - destruct r as [e|]; [done|].
    destruct Hr as (nonce & t & s & token & rsp1 & rsp2 & Htr & _ & _ & _ & Hs & Hst & Hd & Hcl).
    econstructor; [exact Hs| |exact Hst|exact Hd|exact Hcl].
    unfold up; cbn [calls]. rewrite Hc, Htr. apply elem_of_app. right.
    apply list_elem_of_fmap. eexists. split; [|right; by left]. done.
Qed.

(** A certificate the Hub has issued. *)
Lemma IssueCertificate_returns w :
  returns (lift IssueCertificate) w (fun r w' => client_of w' = client_of w /\
    forall bundle, r = inl bundle -> exists resp, m_hub (certificate_request (client_of w)) ↦ inl resp ∈ calls w' /\
      hr_StatusCode resp = 200 /\ Decode_bundle (hr_Body resp) = inl bundle).
Proof.
  destruct (IssueCertificate_runs (down w)) as (r & w1 & tr & Hrun & Hm & Hr).
  destruct (lift_calls _ _ _ _ _ Hrun Hm) as (w' & Hrun' & Hm'). exists r, w'. split; [exact Hrun'|].
  split; [by eapply makes_calls_since|]. split; [unfold client_of; by rewrite (mc_mem _ _ _ Hm')|].
  intros bundle Hb. destruct (Hr bundle Hb) as (resp & Hin & Hst & Hd). exists resp. split; [|done].
  eapply made_calls; [exact Hm'|]. apply list_elem_of_fmap. eexists. split; [|exact Hin]. done.
Qed.

Lemma RegisterNode_returns u t m p w :
  returns (lift (RegisterNode u t m p)) w (fun _ w' => client_of w' = client_of w).
Proof.
  destruct (RegisterNode_runs u t m p (down w)) as (r & w1 & tr & Hrun & Hm).
  destruct (lift_calls _ _ _ _ _ Hrun Hm) as (w' & Hrun' & Hm'). exists r, w'. split; [exact Hrun'|].
  split; [by eapply makes_calls_since|]. unfold client_of. by rewrite (mc_mem _ _ _ Hm').
Qed.

(** A certificate file that is not known to be missing. *)
Definition looked_up (cs : call_log) (p : string) : Prop :=
  exists st, m_os (os_Stat p) ↦ st ∈ cs /\ st <> StatNotExist.

Lemma looked_up_since p w w' : since w w' -> looked_up (calls w) p -> looked_up (calls w') p.
Proof. intros Hs (st & Hin & Hst). exists st. split; [by eapply since_made|done]. Qed.

Lemma certs_exist_returns l w :
  returns (certs_exist l) w (fun found w' => client_of w' = client_of w /\
    (found = true -> Forall (looked_up (calls w')) l)).
Proof.
  revert w. induction l as [|p l IH]; intros w; cbn [certs_exist]; [by apply returns_ret|].
  eapply returns_bind; [apply returns_call|]. intros st w1 _ [Hin Hc].
  assert (Hgo : st <> StatNotExist -> returns (certs_exist l) w1 (fun found w' => client_of w' = client_of w /\
    (found = true -> Forall (looked_up (calls w')) (p :: l)))).
  { intros Hst. eapply returns_mono; [apply IH|]. intros found w2 Hs [Hc2 Hf]. split; [congruence|].
    intros Ht. constructor; [|by apply Hf]. eapply looked_up_since; [exact Hs|]. by exists st. }
  destruct st; [by apply Hgo|by apply returns_ret|by apply Hgo].
Qed.

(** Where the three files came from: they were there, or the Hub issued them and
    they were saved, the key for its owner only. *)
Inductive certs_from (client : option SIWEClient) (f : Flags) (certDir : string) (cs : call_log)
  : string * string * string -> Prop :=
| certs_found c k a :
    cert_paths f certDir = (c, k, a) -> Forall (looked_up cs) [c; k; a] ->
    certs_from client f certDir cs (c, k, a)
| certs_issued cl resp bundle :
    client = Some cl ->
    m_hub (certificate_request cl) ↦ inl resp ∈ cs -> hr_StatusCode resp = 200 ->
    Decode_bundle (hr_Body resp) = inl bundle ->
    let c := filepath_Join [certDir; "node.crt"] in
    let k := filepath_Join [certDir; "node.key"] in
    let a := filepath_Join [certDir; "ca.crt"] in
    m_os (os_WriteFile c (cb_Certificate bundle) 420) ↦ None ∈ cs ->
    m_os (os_WriteFile k (cb_PrivateKey bundle) 384) ↦ None ∈ cs ->
    m_os (os_WriteFile a (cb_CACertificate bundle) 420) ↦ None ∈ cs ->
    certs_from client f certDir cs (c, k, a).

Lemma certs_from_since client f certDir paths w w' :
  since w w' -> certs_from client f certDir (calls w) paths -> certs_from client f certDir (calls w') paths.
Proof.
  intros Hs Hc. destruct Hc as [c k a Hp Hl|cl resp bundle].
  - constructor; [done|]. eapply Forall_impl; [exact Hl|]. intros p. by apply looked_up_since.
  - eapply certs_issued; eauto using since_made.
Qed.

Lemma saveCertificates_returns certDir bundle w :
  returns (saveCertificates certDir bundle) w (fun r w' => client_of w' = client_of w /\
    forall paths, r = inl paths ->
      let c := filepath_Join [certDir; "node.crt"] in
      let k := filepath_Join [certDir; "node.key"] in
      let a := filepath_Join [certDir; "ca.crt"] in
      paths = (c, k, a) /\
      m_os (os_WriteFile c (cb_Certificate bundle) 420) ↦ None ∈ calls w' /\
      m_os (os_WriteFile k (cb_PrivateKey bundle) 384) ↦ None ∈ calls w' /\
      m_os (os_WriteFile a (cb_CACertificate bundle) 420) ↦ None ∈ calls w').
Proof.
  unfold saveCertificates.
  eapply returns_bind; [apply returns_call|]. intros [e|] w1 H1 [_ Hc1]; [by apply returns_ret|].
  eapply returns_bind; [apply returns_call|]. intros [e|] w2 H2 [Hi2 Hc2]; [apply returns_ret; split; [congruence|done]|].
  eapply returns_bind; [apply returns_call|]. intros [e|] w3 H3 [Hi3 Hc3]; [apply returns_ret; split; [congruence|done]|].
  eapply returns_bind; [apply returns_call|]. intros [e|] w4 H4 [Hi4 Hc4]; apply returns_ret; (split; [congruence|]); [done|].
  intros paths [= <-]. split; [done|]. split; [|split; [by eapply since_made|done]].
  eapply since_made; [|exact Hi2]. by etransitivity.
Qed.

Lemma bootstrap_certs_returns client f certDir w :
  client_of w = client ->
  returns (bootstrap_certs certDir (cert_paths f certDir)) w (fun r w' => client_of w' = client /\
    forall paths, r = Go_on paths -> certs_from (Some client) f certDir (calls w') paths).
Proof.
  intros Hcl. unfold bootstrap_certs. destruct (cert_paths f certDir) as [[c k] a] eqn:Hp. cbn [bind].
  eapply returns_bind; [apply certs_exist_returns|]. intros [] w1 H1 [Hc1 Hf].
  { apply returns_ret. split; [congruence|]. intros paths [= <-]. by apply certs_found; [|apply Hf]. }
  eapply returns_bind; [apply IssueCertificate_returns|]. intros [bundle|e] w2 H2 [Hc2 Hi];
    [|apply returns_ret; split; [congruence|done]].
  destruct (Hi bundle eq_refl) as (resp & Hin & Hst & Hd).
  eapply returns_bind; [apply saveCertificates_returns|]. intros [paths|e] w3 H3 [Hc3 Hw];
    apply returns_ret; (split; [congruence|]); [|done].
  intros ? [= <-]. destruct (Hw paths eq_refl) as (-> & Hwc & Hwk & Hwa).
  eapply certs_issued; try done. eapply since_made; [exact H3|]. by rewrite <- Hcl, <- Hc1.
Qed.

(** *** The identity of the machine *)

(** A program that returns, or that panics on a machine identifier of less than
    sixteen characters. *)
Definition short_machine_id (cs : call_log) : Prop :=
  exists data, m_os (os_ReadFile "/etc/machine-id") ↦ inl data ∈ cs /\
    (0 < String.length (TrimSpace data) < 16)%nat.

Definition reaches {A} (p : prog MainOps S A) w (Q : A -> world MainOps S -> Prop) : Prop :=
  exists o w', run p w = (o, w') /\ since w w' /\
    match o with
    | Done a => Q a w'
    | Panicked _ => short_machine_id (calls w')
    | OutOfFuel | Stuck => False
    end.

Lemma returns_reaches {A} (p : prog MainOps S A) w Q : returns p w Q -> reaches p w Q.
Proof. intros (a & w' & Hp & Hs & HQ). by exists (Done a), w'. Qed.

Lemma reaches_bind {A B} (p : prog MainOps S A) (f : A -> prog MainOps S B) w (R : A -> world MainOps S -> Prop)
    (Q : B -> world MainOps S -> Prop) :
  reaches p w R -> (forall a w1, since w w1 -> R a w1 -> reaches (f a) w1 Q) -> reaches (bind p f) w Q.
Proof.
  intros (o & w1 & Hp & Hs & HR) Hf. unfold reaches. rewrite run_bind, Hp.
  destruct o as [a|msg| |]; [|by exists (Panicked msg), w1|done|done].
  destruct (Hf a w1 Hs HR) as (o2 & w2 & Hb & Hs' & HQ). exists o2, w2.
  split; [done|]. split; [by etransitivity|done].
Qed.

Lemma hostname_id_returns w : returns hostname_id w (fun _ w' => client_of w' = client_of w).
Proof.
  eapply returns_bind; [apply returns_call|]. intros r w1 _ [_ Hc]. by apply returns_ret.
Qed.

Lemma getMachineID_reaches w : reaches getMachineID w (fun _ w' => client_of w' = client_of w).
Proof.
  unfold getMachineID. eapply reaches_bind; [apply returns_reaches, returns_call|].
  intros r w1 _ [Hin Hc].
  assert (Hh : reaches hostname_id w1 (fun _ w' => client_of w' = client_of w)).
  { apply returns_reaches. eapply returns_mono; [apply hostname_id_returns|]. intros ? w2 _ ?. congruence. }
  destruct r as [data|e]; [|done]. case_bool_decide as Hd; [|done]. unfold slice_to.
  destruct (String.length (TrimSpace data) <? 16)%nat eqn:Hl; cbn [bind].
  - eexists (Panicked _), w1. split; [done|]. split; [reflexivity|]. exists data. split; [done|].
    apply Nat.ltb_lt in Hl. split; [|done]. destruct (TrimSpace data); [done|cbn; lia].
  - apply returns_reaches, returns_ret. exact Hc.
Qed.

Lemma returns_nvml {A} (p : prog MainOps S A) w :
  (exists r w', run p w = (Done r, w') /\ only_calls w w') ->
  returns p w (fun _ w' => client_of w' = client_of w).
Proof.
  intros (r & w' & Hrun & tr & Hm). exists r, w'. split; [done|]. split; [by eapply makes_calls_since|].
  unfold client_of. by rewrite (mc_mem _ _ _ Hm).
Qed.

Lemma getGPUUUID_returns w : returns (getGPUUUID ErrorString) w (fun _ w' => client_of w' = client_of w).
Proof.
  unfold getGPUUUID. eapply returns_bind; [apply returns_nvml, nvml_Init_runs|].
  intros [e|] w1 _ Hc; [by apply returns_ret|].
  destruct (returns_nvml _ _ (nvml_GetSpecs_runs ErrorString w1)) as ([specs err] & w2 & Hrun & Hs2 & Hc2).
  destruct (returns_nvml _ _ (nvml_Shutdown_runs ErrorString w2)) as (r & w3 & Hrun3 & Hs3 & Hc3).
  unfold returns. rewrite run_deferring, run_bind, Hrun.
  destruct err as [e|], specs as [|spec specs]; cbn [run]; rewrite run_bind, run_bind, Hrun3;
    (eexists _, w3; split; [done|split; [etransitivity; [exact Hs2|exact Hs3]|congruence]]).
Qed.

Lemma detect_gpu_returns gpuType memoryGB w :
  returns (detect_gpu ErrorString gpuType memoryGB) w (fun dt w' => client_of w' = client_of w /\
    exists ret, m_nvml nvml_Init ↦ ret ∈ calls w' /\ (dt_isCPUNode dt = true <-> ret <> SUCCESS)).
Proof.
  unfold detect_gpu. destruct (nvml_Init_code ErrorString w) as (ret & w1 & Hrun & Hm).
  assert (Hin : m_nvml nvml_Init ↦ ret ∈ calls w1) by (eapply made_calls; [exact Hm|by left]).
  eapply returns_bind with (R := fun r w1 => client_of w1 = client_of w /\
    exists ret, m_nvml nvml_Init ↦ ret ∈ calls w1 /\ r = nvml_error ErrorString "NVML init failed: " ret).
  { eexists _, w1. split; [exact Hrun|]. split; [by eapply makes_calls_since|].
    split; [unfold client_of; by rewrite (mc_mem _ _ _ Hm)|by exists ret]. }
  clear ret w1 Hrun Hm Hin. intros err w1 _ (Hc & ret & Hin & ->). unfold nvml_error. case_bool_decide as Hret; cycle 1.
  { apply returns_ret. split; [done|]. exists ret. split; [done|]. by case_bool_decide. }
  eapply returns_bind; [apply returns_nvml, (nvml_GetSpecs_runs ErrorString w1)|]. intros [specs err] w2 H2 Hc2.
  eapply returns_bind; [apply returns_nvml, nvml_Shutdown_runs|]. intros r w3 H3 Hc3.
  apply returns_ret. split; [congruence|]. exists ret. split; [eapply since_made; [exact H3|]; eapply since_made; [exact H2|exact Hin]|].
  by destruct err, specs.
Qed.

(** *** The wallet *)

(** The key that is used: the one given, or the one in the file. *)
Definition key_from (f : Flags) (cs : call_log) (key : string) : Prop :=
  if bool_decide (fl_private_key f = "") && bool_decide (fl_private_key_file f <> "")
  then exists data, m_os (os_ReadFile (fl_private_key_file f)) ↦ inl data ∈ cs /\ key = TrimSpace data
  else key = fl_private_key f.

Lemma private_key_returns f w :
  returns (private_key f) w (fun r w' => client_of w' = client_of w /\
    forall key, r = Go_on key -> key_from f (calls w') key).
Proof.
  unfold private_key, key_from. destruct (_ && _); [|apply returns_ret; split; [done|by intros ? [= ->]]].
  eapply returns_bind; [apply returns_call|]. intros [data|e] w1 _ [Hin Hc]; apply returns_ret; (split; [done|]); [|done].
  intros ? [= <-]. by exists data.
Qed.

(** The two ways to an identity: [None] is the wallet of a node without a key. *)
Inductive wallet_of (f : Flags) (key certDir : string) w : string -> string * string * string -> Prop :=
| wallet_login client paths :
    key <> "" -> NewSIWEClientWithDomain (hub_http_url f) key (fl_siwe_domain f) = inl client ->
    logged_in client (client_of w) (calls w) ->
    certs_from (Some (client_of w)) f certDir (calls w) paths ->
    wallet_of f key certDir w (GetAddress client) paths
| wallet_mock paths :
    key = "" -> certs_from None f certDir (calls w) paths -> wallet_of f key certDir w "" paths.

Lemma logged_in_since client client' w w' :
  since w w' -> logged_in client client' (calls w) -> logged_in client client' (calls w').
Proof. intros Hs [message s resp token]. econstructor; eauto using since_made. Qed.

Lemma wallet_of_since f key certDir w w' wallet paths :
  since w w' -> client_of w' = client_of w -> wallet_of f key certDir w wallet paths ->
  wallet_of f key certDir w' wallet paths.
Proof.
  intros Hs Hc Hw. destruct Hw as [client paths Hk Hn Hl Hf|paths Hk Hf].
  - apply wallet_login; [done|done|rewrite Hc; by eapply logged_in_since|rewrite Hc; by eapply certs_from_since].
  - apply wallet_mock; [done|]. by eapply certs_from_since.
Qed.

Lemma authenticate_reaches f key certDir dt w :
  key <> "" ->
  reaches (authenticate ErrorString f key certDir (cert_paths f certDir) dt) w (fun r w' =>
    forall wallet paths id, r = Go_on (wallet, paths, id) ->
      wallet_of f key certDir w' wallet paths /\ (fl_node_id f <> "" -> id = fl_node_id f)).
Proof.
  intros Hkey. unfold authenticate.
  destruct (NewSIWEClientWithDomain _ _ _) as [client|e] eqn:Hnew; [|by apply returns_reaches, returns_ret].
  eapply reaches_bind with (R := fun _ w' => client_of w' = client).
  { apply returns_reaches. eexists tt, (set_mem _ w). split; [done|]. split; [split; [done..|exists []; by rewrite app_nil_r]|].
    unfold client_of. cbn. apply get_set. }
  intros [] w1 _ Hc1. eapply reaches_bind; [apply returns_reaches, Login_returns|].
  intros [e|] w2 _ Hlog; [by apply returns_reaches, returns_ret|]. rewrite Hc1 in Hlog.
  eapply reaches_bind; [by apply returns_reaches, bootstrap_certs_returns|].
  intros [paths|msg] w3 H3 [Hc3 Hcerts]; [|by apply returns_reaches, returns_ret].
  eapply reaches_bind with (R := fun _ w' => client_of w' = client_of w3).
  { destruct (dt_isCPUNode dt); [apply getMachineID_reaches|apply returns_reaches, getGPUUUID_returns]. }
  intros uuid w4 H4 Hc4. eapply reaches_bind; [apply returns_reaches, RegisterNode_returns|].
  intros r w5 H5 Hc5. apply returns_reaches, returns_ret. intros wallet paths' id [= <- <- <-]. split.
  - eapply wallet_of_since; [exact H5|done|]. eapply wallet_of_since; [exact H4|done|].
    apply wallet_login; [done|done| |rewrite Hc3; by apply Hcerts].
    rewrite Hc3. by eapply logged_in_since.
  - intros Hid. destruct r; [by rewrite bool_decide_eq_false_2|done].
Qed.

Lemma mock_wallet_returns f certDir w :
  returns (mock_wallet f certDir (cert_paths f certDir)) w (fun r w' =>
    forall wallet paths id, r = Go_on (wallet, paths, id) ->
      wallet_of f "" certDir w' wallet paths /\ id = fl_node_id f).
Proof.
  unfold mock_wallet. destruct (cert_paths f certDir) as [[c k] a] eqn:Hp.
  eapply returns_bind; [apply certs_exist_returns|]. intros [] w1 _ [_ Hf]; apply returns_ret; [|done].
  intros wallet paths id [= <- <- <-]. split; [|done]. apply wallet_mock; [done|].
  by apply certs_found; [|apply Hf].
Qed.

(** *** The certificates and the node's identifier *)

Definition certificates_loaded (cs : call_log) (paths : string * string * string) (nodeID cert caCert id : string) : Prop :=
  let '(certFile, keyFile, caFile) := paths in
  m_os (os_LoadX509KeyPair certFile keyFile) ↦ inl cert ∈ cs /\ m_os (os_ReadFile caFile) ↦ inl caCert ∈ cs /\
  AppendCertsFromPEM caCert = true /\ id <> "" /\
  if bool_decide (nodeID = "") then CommonName cert = inl id else id = nodeID.

Lemma load_certificates_returns paths nodeID w :
  returns (load_certificates AppendCertsFromPEM CommonName paths nodeID) w (fun r w' =>
    client_of w' = client_of w /\
    forall cert caCert id, r = Go_on (cert, caCert, id) -> certificates_loaded (calls w') paths nodeID cert caCert id).
Proof.
  unfold load_certificates, certificates_loaded. destruct paths as [[c k] a].
  eapply returns_bind; [apply returns_call|]. intros [cert|e] w1 _ [Hi1 Hc1]; [|by apply returns_ret].
  eapply returns_bind; [apply returns_call|]. intros [caCert|e] w2 H2 [Hi2 Hc2]; [|apply returns_ret; split; [congruence|done]].
  assert (Hc : client_of w2 = client_of w) by congruence.
  destruct (AppendCertsFromPEM caCert) eqn:Hp; cbn [negb]; [|by apply returns_ret].
  case_bool_decide as Hid.
  - destruct (CommonName cert) as [cn|e] eqn:Hcn; [|by apply returns_ret].
    case_bool_decide as Hne; apply returns_ret; (split; [done|]); [done|]. intros ??? [= <- <- <-].
    split; [by eapply since_made|]. done.
  - apply returns_ret. split; [done|]. intros ??? [= <- <- <-]. split; [by eapply since_made|]. done.
Qed.

Lemma key_from_since f key w w' : since w w' -> key_from f (calls w) key -> key_from f (calls w') key.
Proof.
  intros Hs. unfold key_from. destruct (_ && _); [|done]. intros (data & Hin & Hk). exists data.
  split; [by eapply since_made|done].
Qed.

(** *** The whole startup *)

(** The identity of a node, by the calls that it was made from. *)
Record identity (f : Flags) (s : Started) w : Prop := {
  id_price : check_price (fl_price_per_sec f) = None;
  id_host : sd_hostAddr s = host_addr f;
  id_wallet : exists certDir key paths nodeID, key_from f (calls w) key /\
    wallet_of f key certDir w (sd_walletAddress s) paths /\
    certificates_loaded (calls w) paths nodeID (sd_cert s) (sd_caCert s) (sd_nodeID s) /\
    (forall dir, fl_cert_dir f = Some dir -> certDir = dir) /\
    (fl_node_id f <> "" -> nodeID = fl_node_id f);
  id_gpu : exists ret, m_nvml nvml_Init ↦ ret ∈ calls w /\ (sd_isCPUNode s = true <-> ret <> SUCCESS);
}.

(** How the startup goes. *)
Lemma startup_runs f w :
  exists o w', run (startup ErrorString AppendCertsFromPEM CommonName f) w = (o, w') /\
    locks w' = locks w /\ gos w' = gos w /\
    match o with
    | Done (Go_on s) => identity f s w'
    | Done (Fatal _) => True
    | Panicked _ => short_machine_id (calls w')
    | _ => False
    end.
Proof.
  assert (H : reaches (startup ErrorString AppendCertsFromPEM CommonName f) w
                (fun r w' => forall s, r = Go_on s -> identity f s w')).
  2: { destruct H as (o & w' & Hrun & [Hl Hg _] & Ho). exists o, w'. split; [done|]. split; [done|]. split; [done|].
       destruct o as [[s|msg]|msg| |]; auto. }
  unfold startup. eapply reaches_bind with (R := fun _ _ => True).
  { destruct (defaultCertDir_runs w) as [dir Hrun]. apply returns_reaches. eexists _, _. split; [exact Hrun|].
    split; [apply since_call|done]. }
  intros dir w1 _ _. destruct (check_price _) eqn:Hprice; [by apply returns_reaches, returns_ret|].
  set (certDir := default dir (fl_cert_dir f)).
  eapply reaches_bind; [apply returns_reaches, detect_gpu_returns|]. intros dt w2 _ (_ & ret & Hret & Hcpu).
  eapply reaches_bind; [apply returns_reaches, private_key_returns|].
  intros [key|msg] w3 H3 [_ Hkey]; [|by apply returns_reaches, returns_ret]. specialize (Hkey key eq_refl).
  eapply reaches_bind with (R := fun r w' => forall wallet paths id, r = Go_on (wallet, paths, id) ->
    wallet_of f key certDir w' wallet paths /\ (fl_node_id f <> "" -> id = fl_node_id f)).
  { case_bool_decide as Hk; [by apply authenticate_reaches|]. rewrite Hk. apply returns_reaches.
    eapply returns_mono; [apply mock_wallet_returns|]. intros r w' _ HR wallet paths id Hr. by destruct (HR _ _ _ Hr). }
  intros [[[wallet paths] nodeID]|msg] w4 H4 HR; [|by apply returns_reaches, returns_ret].
  destruct (HR _ _ _ eq_refl) as [Hwallet Hid].
  eapply reaches_bind; [apply returns_reaches, load_certificates_returns|].
  intros [[[cert caCert] id]|msg] w5 H5 [Hc5 Hload]; [|by apply returns_reaches, returns_ret].
  specialize (Hload _ _ _ eq_refl). apply returns_reaches, returns_ret. intros s [= <-]. split; [done|done| |].
  - exists certDir, key, paths, nodeID. split_and!; [|by eapply wallet_of_since|done|by intros d Hd; unfold certDir; rewrite Hd|done].
    eapply key_from_since; [exact H5|]. by eapply key_from_since.
  - exists ret. split; [|done]. eapply since_made; [exact H5|]. eapply since_made; [exact H4|]. by eapply since_made.
Qed.

(** C11: What the startup has established when it is through.  It always ends: with
    the identity of the node, with a fatal message, or with a panic, which takes a
    file /etc/machine-id of less than sixteen characters.  An identity means that
    the price was accepted; that the wallet is the one of the private key, with
    which the Hub has accepted a signed message in a login, or that there is no
    key; that certificate and CA are what was read from the three files of the
    flags, each looked up before, or from those that the Hub issued for the token
    of this login and that were saved, the key for its owner only; and that the
    node has an identifier: the flag's, the Hub's, or the common name of its
    certificate.  It is a CPU node exactly when NVML did not initialise. *)
Theorem startup_correct f w :
  exists o w', run (startup ErrorString AppendCertsFromPEM CommonName f) w = (o, w') /\
    locks w' = locks w /\ gos w' = gos w /\
    match o with
    | Done (Go_on s) => identity f s w'
    | Done (Fatal _) => True
    | Panicked _ => short_machine_id (calls w')
    | _ => False
    end.
Proof. apply startup_runs. Qed.

End Parts.

(** ** Witness *)

(** A node with a key and with certificates from an earlier start. *)
Definition keyed : Flags :=
  MkFlags "hub:8443" "" "8444" "host.example" "" "" "" (Some "/certs") "" true "img" "/data" "0xabcd" "" ""
          "NVIDIA RTX 4090" 24 "2777777777778".

Definition certified_disk : gmap string (string * Z) :=
  {[ "/certs/node.crt" := ("CERT", 420); "/certs/node.key" := ("KEY", 384); "/certs/ca.crt" := ("CA", 420) ]}.

Definition certified_process : @world MainOps (SIWEClient (Eth := toy_ethereum)) machine :=
  @World MainOps _ machine 0 certified_disk ∅ (toy_client "") [] [].

Definition keyed_startup : prog MainOps (SIWEClient (Eth := toy_ethereum)) (fatal Started) :=
  @startup toy_ethereum toy_codec itoa (fun _ => true) inl _ _ keyed.

Lemma startup_correct_witness :
  exists w', run keyed_startup certified_process =
      (Done (Go_on (MkStarted "0xabcd" "CERT" "CA" "node-7" false "host.example")), w') /\
    identity (Eth := toy_ethereum) (C := toy_codec) (fun _ => true) inl keyed
      (MkStarted "0xabcd" "CERT" "CA" "node-7" false "host.example") w'.
Proof.
  destruct (@startup_correct toy_ethereum toy_codec _ itoa (fun _ => true) inl _ _ machine _ keyed certified_process)
    as (o & w' & Hrun & _ & _ & H).
  assert (Ho : fst (run keyed_startup certified_process) =
    Done (Go_on (MkStarted "0xabcd" "CERT" "CA" "node-7" false "host.example"))) by by vm_compute.
  unfold keyed_startup in Ho. rewrite Hrun in Ho. cbn [fst] in Ho. subst o. exists w'. split; [exact Hrun|exact H].
Defined.
