(* ===== verification/Node.v ===== *)
(** The whole node command: [main] of [cmd/node/main.go], from the flags to the end
    of the process.

    The memory of the process is that of the SIWE client and that of the node;
    [startup] works on the first, [wire] and [shutdown] on the second
    ([zoom]).  What [main] itself does is one thread; the goroutines that it
    starts are in [gos], and what they do is the matter of the other files. *)

From Stdlib Require Import ZArith Lia String SpecFloat.
From stdpp Require Import base numbers strings list gmap.
From S2P Require Import Prelude.
From S2P Require Import Effects.
From S2P Require Import Domain.
From S2P Require Import Port.
From S2P Require Import Container.
From S2P Require Import Rental.
From S2P Require Import Nvml.
From S2P Require Import Mining.
From S2P Require Import Mtls.
From S2P Require Import Auth.
From S2P Require Import Services.
From S2P Require Import Main.
From S2P Require Import Startup.

Section Main.
Context `{Eth : Ethereum} `{C : Codec}.
Context (ErrorString : Z -> string) (AppendCertsFromPEM : string -> bool) (CommonName : string -> string + error).
Context (int64_of_unrepresentable : spec_float -> Z) (Marshal_heartbeat : json -> string)
        (Format_RFC3339 : Z -> string) (Unmarshal : string -> option Command) (Marshal : CommandAck -> string).
Context (connections rounds attempts : nat) (ticks : list bool) (events : list monitor_event).

Notation process := (SIWEClient * Memory)%type.

Definition main (f : Flags) : prog MainOps process (fatal unit) :=
  (let? s := zoom (T := SIWEClient) (startup ErrorString AppendCertsFromPEM CommonName f) ;;
   let? _ := zoom (wire ErrorString int64_of_unrepresentable Marshal_heartbeat Format_RFC3339 Unmarshal Marshal
                     connections rounds attempts ticks events f s) ;;
   zoom shutdown ;;;
   Ret (Go_on tt))%go.

Context `{SF : !SignatureFormat} `{E : !Environment MainOps}
        `{NC : !NvmlCounts (restrict_env (Σ := NvmlOps) (Σ' := MainOps))}.
Implicit Types w : world MainOps process.

(** The memory of a node that has just been wired. *)
Record fresh_node (f : Flags) (s : Started) (conn : nat) (m : Memory) : Prop := {
  fn_client : mem_client m = set_conn conn (NewClient (fl_hub f) (sd_cert s) (sd_caCert s));
  fn_connected : has_mtlsClient (mem_daemon m) = true;
  fn_open : nd_stopCh_closed (mem_daemon m) = false;
  fn_mines : has_miningDaemon (mem_daemon m) = fl_enable_mining f && negb (sd_isCPUNode s);
  fn_mining : has_miningDaemon (mem_daemon m) = true ->
    stopCh_closed (mem_mining m) = false /\ md_state (mem_mining m) = MiningStateStopped /\
    md_containerID (mem_mining m) = "";
}.

Lemma wired_fresh f s conn uuids (m : Memory) :
  (is_Some uuids <-> fl_enable_mining f && negb (sd_isCPUNode s) = true) ->
  let m' := node_memory_for f s uuids m in
  fresh_node f s conn (set (set_conn conn (NewClient (fl_hub f) (sd_cert s) (sd_caCert s)))
                           (set (with_mtlsClient (mem_daemon m')) m')).
Proof.
  intros Hu m'. subst m'. destruct uuids as [l|]; split; try done; cbn.
  - symmetry. by apply Hu.
  - destruct (fl_enable_mining f && negb (sd_isCPUNode s)); [|done]. by destruct (proj2 Hu eq_refl).
Qed.

(** Shutting it down: mining has no container, so that nothing is asked of Docker. *)
Lemma fresh_shutdown f s conn (w : world MainOps Memory) :
  node_ready (down w : world NodeOps Memory) -> fresh_node f s conn (mem w) ->
  exists (w' : world MainOps Memory) c x y, run shutdown w = (Done tt, w') /\ locks w' = locks w /\ gos w' = gos w /\
    calls w' = calls w ++ [made (m_os os_Signal : op MainOps) tt;
                           lift_call (net_made (Σ := NodeOps) (net_Close conn) y);
                           made (m_os (os_ServerShutdown c) : op MainOps) x] /\
    mem_client (mem w') = close_stopCh (set_conn conn (NewClient (fl_hub f) (sd_cert s) (sd_caCert s))) /\
    mem_daemon (mem w') = close_node_stopCh (mem_daemon (mem w)) /\
    (has_miningDaemon (mem_daemon (mem w)) = true -> stopCh_closed (mem_mining (mem w')) = true).
Proof.
  intros Hr [Hcl Hmt Hst _ Hmn].
  destruct (shutdown_runs w Hr) as (w' & mining & hub & c & x & Hrun & Hc & Hl & Hg & Hhub & Hmi & Hm);
    rewrite ?Hcl in *; [done..| |].
  { intros Hb. destruct (Hmn Hb) as (? & _ & Hid). split; [done|]. by left. }
  assert (mining = []) as ->.
  { destruct (has_miningDaemon (mem_daemon (mem w))); [|done]. destruct Hmi as [?|c' x' y' Hs]; [done|].
    by destruct (Hmn eq_refl) as (_ & ? & _). }
  inversion Hhub as [Hn|conn' y Hconn Heq]; [done|]. injection Hconn as <-. subst hub.
  exists w', c, x, y. do 4 (split; [done|]). rewrite Hm. split_and!; try done. cbn. by intros ->.
Qed.

(** C17: The process as a whole.  [main] always ends: with a fatal message or on a
    short machine identifier, and then no goroutine was ever started; or it has
    served until the signal.  In that case the node was built from the identity
    that the startup established, and the calls of its own thread end like this:
    the Hub is dialed, in TLS 1.3, with the certificate of that identity and
    trusting its CA only, the handshake succeeds, the signal arrives, that
    connection is closed, and the API server is shut down.  At the end every
    loop is told to stop and no mutex is taken. *)
Theorem main_correct f w :
  locks w = ∅ -> gos w = [] ->
  exists o w', run (main f) w = (o, w') /\
    match o with
    | Done (Fatal _) => gos w' = []
    | Panicked _ => gos w' = [] /\ short_machine_id (calls w')
    | Done (Go_on _) => exists s (started : world MainOps SIWEClient) tr conn c x y,
        identity AppendCertsFromPEM CommonName f s started /\
        calls w' = calls started ++ tr ++ hub_dialed (fl_hub f) (sd_cert s) (sd_caCert s) conn ++
          [made (m_os os_Signal : op MainOps) tt;
           lift_call (net_made (Σ := NodeOps) (net_Close conn) y);
           made (m_os (os_ServerShutdown c) : op MainOps) x] /\
        mem_client (snd (mem w')) = close_stopCh (set_conn conn (NewClient (fl_hub f) (sd_cert s) (sd_caCert s))) /\
        nd_stopCh_closed (mem_daemon (snd (mem w'))) = true /\
        has_miningDaemon (mem_daemon (snd (mem w'))) = fl_enable_mining f && negb (sd_isCPUNode s) /\
        (has_miningDaemon (mem_daemon (snd (mem w'))) = true -> stopCh_closed (mem_mining (snd (mem w'))) = true) /\
        length (gos w') = (if fl_enable_mining f && negb (sd_isCPUNode s) then 3%nat else 2%nat) /\
        locks w' = ∅
    | _ => False
    end.
Proof.
  intros Hl Hg. unfold main.
  destruct (startup_runs ErrorString AppendCertsFromPEM CommonName f (focus (T := SIWEClient) w)) as (o1 & w1 & Hrun1 & Hl1 & Hg1 & H1).
  rewrite run_bind, (run_zoom _ _ _ _ Hrun1). set (wa := unfocus w w1).
  assert (Hga : gos wa = []) by (unfold wa; cbn [gos unfocus]; by rewrite Hg1, Hg).
  assert (Hla : locks wa = ∅) by (unfold wa; cbn [locks unfocus]; by rewrite Hl1).
  destruct o1 as [[s|msg]|msg| |]; [|by eexists _, wa|by eexists _, wa|done|done].
  destruct (wire_runs ErrorString int64_of_unrepresentable Marshal_heartbeat Format_RFC3339 Unmarshal Marshal
              connections rounds attempts ticks events f s (focus (T := Memory) wa) Hla) as (r & w2 & Hrun2 & Hf2 & H2).
  rewrite run_bind, (run_zoom _ _ _ _ Hrun2). set (wb := unfocus wa w2).
  destruct r as [[]|msg]; cycle 1.
  { eexists _, wb. split; [done|]. unfold wb; cbn [gos unfocus]. by rewrite Hf2, Hga. }
  destruct (H2 eq_refl) as (Hready & Hl2 & uuids & conn & Hu & Hm2 & (tr & Hc2) & started & Hg2 & Hlen).
  pose proof (wired_fresh f s conn uuids (mem (focus (T := Memory) wa)) Hu) as Hfresh. cbv zeta in Hfresh, Hm2. rewrite <- Hm2 in Hfresh.
  destruct (fresh_shutdown f s conn (focus (T := Memory) wb)) as (w3 & c & x & y & Hrun3 & Hl3 & Hg3 & Hc3 & Hcl & Hd & Hmn);
    [exact Hready|exact Hfresh|].
  cbn [calls mem gos locks focus unfocus wb get set field_snd snd] in *.
  cbn [calls focus unfocus wa] in Hc2.
  rewrite run_bind, (run_zoom _ _ _ _ Hrun3). eexists (Done (Go_on tt)), (unfocus wb w3). split; [done|].
  exists s, w1, tr, conn, c, x, y. split; [done|].
  cbn [calls mem gos locks unfocus set field_snd snd]. rewrite Hd.
  split; [by rewrite Hc3, Hc2, <- !app_assoc|]. split; [done|]. split; [done|]. split; [apply Hfresh|]. split; [done|].
  split; [|by rewrite Hl3]. rewrite Hg3. cbn [fmap list_fmap]. rewrite app_nil_r. unfold wb; cbn [gos unfocus].
  rewrite Hga, Hg2, length_app, length_fmap. exact Hlen.
Qed.

End Main.

(** ** Witness *)

(** The node of [Startup]'s witness: with a key, certified, and with a GPU to mine on. *)
Definition keyed_main : prog MainOps (SIWEClient (Eth := toy_ethereum) * Memory) (fatal unit) :=
  @main toy_ethereum toy_codec itoa (fun _ => true) inl amd64 (fun _ => "hb") itoa (fun _ => None) (fun _ => "")
        1 1 1 [] [] keyed.

Definition keyed_process : @world MainOps (SIWEClient (Eth := toy_ethereum) * Memory) machine :=
  @World MainOps _ machine 0 certified_disk ∅ (toy_client "", node_memory) [] [].

Lemma main_correct_witness :
  exists w' s conn, run keyed_main keyed_process = (Done (Go_on tt), w') /\ length (gos w') = 3%nat /\
    mem_client (snd (mem w')) = close_stopCh (set_conn conn (NewClient "hub:8443" (sd_cert s) (sd_caCert s))) /\
    stopCh_closed (mem_mining (snd (mem w'))) = true.
Proof.
  destruct (@main_correct toy_ethereum toy_codec itoa (fun _ => true) inl amd64 (fun _ => "hb") itoa (fun _ => None)
              (fun _ => "") 1 1 1 [] [] _ machine _ keyed keyed_process) as (o & w' & Hrun & H); [reflexivity|reflexivity|].
  assert (Ho : fst (run keyed_main keyed_process) = Done (Go_on tt)) by by vm_compute.
  assert (Hg : length (gos (snd (run keyed_main keyed_process))) = 3%nat) by by vm_compute.
  assert (Hd : has_miningDaemon (mem_daemon (snd (mem (snd (run keyed_main keyed_process))))) = true) by by vm_compute.
  unfold keyed_main in Ho, Hg, Hd. rewrite Hrun in Ho, Hg, Hd. cbn [fst snd] in Ho, Hg, Hd. subst o.
  destruct H as (s & w1 & tr & conn & c & x & y & _ & _ & Hcl & _ & _ & Hst & _).
  exists w', s, conn. split; [exact Hrun|]. split; [exact Hg|]. split; [exact Hcl|exact (Hst Hd)].
Defined.
