(* ===== verification/Threads.v ===== *)
(** Threads that interleave.

    A pool of threads shares a world; a step is one effect of one thread, so
    everything that Go may schedule between two effects is a sequence of steps.
    A thread that waits for a mutex has no step until it is free.

    Three tools for pools.  Every pool runs out of steps ([steps_wf]): a thread is a
    finite tree of effects.  A mutex-protected component is known to the thread
    inside and to nobody else ([guarded]).  And the simulation rule: when
    every thread keeps an invariant that relates the world, an abstract state
    and what each thread knows ([ok]), the pool's steps are steps of the
    abstract state machine ([steps_simulated]), and no schedule can prevent all threads
    from returning ([steps_complete]). *)

From Stdlib Require Import ZArith Lia String.
From stdpp Require Import base numbers strings list gmap relations.
From S2P Require Import Prelude.
From S2P Require Import Effects.

(** ** Interleaving *)
Section Pool.
Context {Σ : Signature} {S A : Type} `{E : !Environment Σ}.

(** A thread of the pool returns [Some] result, a goroutine it starts [None]. *)
Notation thread := (prog Σ S (option A)).

Record pool : Type := MkPool { pl_world : world Σ S; pl_threads : list thread }.

(** One effect of thread [i]. *)
Definition step (i : nat) (c : pool) : option pool :=
  match pl_threads c !! i with
  | Some (Eff e k) =>
      match do_eff e (pl_world c) with
      | Some (x, w') => Some (MkPool w' (<[i := k x]> (pl_threads c)))
      | None => None
      end
  | Some (Go g k) =>
      Some (MkPool (pl_world c) (<[i := k]> (pl_threads c) ++ [bind g (fun _ => Ret None)]))
  | _ => None
  end.

Inductive steps_to : pool -> pool -> Prop :=
| steps_done c : steps_to c c
| steps_more i c c1 c2 : step i c = Some c1 -> steps_to c1 c2 -> steps_to c c2.

(** A schedule names the thread of every step; a thread that cannot go on
    passes. *)
Fixpoint run_schedule (schedule : list nat) (c : pool) : pool :=
  match schedule with
  | [] => c
  | i :: schedule => run_schedule schedule (default c (step i c))
  end.

Lemma run_schedule_steps schedule c : steps_to c (run_schedule schedule c).
Proof.
  revert c. induction schedule as [|i l IH]; intros c; [constructor|]. cbn.
  destruct (step i c) as [c1|] eqn:Hs; cbn; [by econstructor|apply IH].
Qed.

(** What thread [i] has returned. *)
Definition returned (i : nat) (c : pool) (a : A) : Prop := pl_threads c !! i = Some (Ret (Some a)).

End Pool.

Arguments pool Σ S A {E}.

(** The pool of calls that return [A]. *)
Definition start_pool {Σ S A} `{E : !Environment Σ} (w : world Σ S) (calls : list (prog Σ S A)) : pool Σ S A :=
  MkPool w ((fun p => bind p (fun a => Ret (Some a))) <$> calls).

(** ** Every schedule ends *)
Section Termination.
Context {Σ : Signature} {S A : Type} `{E : !Environment Σ}.

Notation thread := (prog Σ S (option A)).
Implicit Types (p : thread) (l ts : list thread) (c : pool Σ S A).

(** What is left of a pool's threads after a step, whatever the world answered. *)
Inductive child : list thread -> list thread -> Prop :=
| child_eff ts i X (e : eff Σ S X) k x :
    ts !! i = Some (Eff e k) -> child (<[i := k x]> ts) ts
| child_go ts i g k :
    ts !! i = Some (Go g k) -> child (<[i := k]> ts ++ [bind g (fun _ => Ret None)]) ts.

(** A step of a pool is one of the thread in the middle, or of another one. *)
Lemma child_middle l1 p l2 ts :
  child ts (l1 ++ p :: l2) ->
  (exists X (e : eff Σ S X) k x, p = Eff e k /\ ts = l1 ++ k x :: l2) \/
  (exists g k, p = Go g k /\ ts = l1 ++ k :: (l2 ++ [bind g (fun _ => Ret None)])) \/
  (exists l1' l2', ts = l1' ++ p :: l2' /\ child (l1' ++ l2') (l1 ++ l2)).
Proof.
  intros Hc. inversion Hc as [? i X e k x Hi|? i g k Hi]; subst;
    (destruct (lt_eq_lt_dec i (length l1)) as [[Hlt|Heq]|Hgt];
     [rewrite lookup_app_l in Hi by done; rewrite insert_app_l by done
     |subst i; rewrite list_lookup_middle in Hi by done; injection Hi as ->;
      rewrite insert_app_r_alt by lia; rewrite Nat.sub_diag
     |rewrite lookup_app_r in Hi by lia; rewrite insert_app_r_alt by lia;
      destruct (i - length l1)%nat as [|n] eqn:Hn; [lia|]; cbn in Hi |- *]).
  - right; right. exists (<[i := k x]> l1), l2. split; [done|]. rewrite <- insert_app_l by done.
    apply child_eff with (e := e). by rewrite lookup_app_l.
  - left. by exists X, e, k, x.
  - right; right. exists l1, (<[n := k x]> l2). split; [done|].
    replace (l1 ++ <[n := k x]> l2) with (<[(length l1 + n)%nat := k x]> (l1 ++ l2)) by apply insert_app_r.
    apply child_eff with (e := e). by rewrite lookup_app_r, Nat.add_sub_swap, Nat.sub_diag by lia.
  - right; right. exists (<[i := k]> l1), (l2 ++ [bind g (fun _ => Ret None)]). rewrite <- app_assoc.
    split; [done|]. rewrite app_assoc, <- insert_app_l by done. apply child_go. by rewrite lookup_app_l.
  - right; left. exists g, k. by rewrite <- app_assoc.
  - right; right. exists l1, (<[n := k]> l2 ++ [bind g (fun _ => Ret None)]). rewrite <- app_assoc.
    split; [done|]. rewrite app_assoc.
    replace (l1 ++ <[n := k]> l2) with (<[(length l1 + n)%nat := k]> (l1 ++ l2)) by apply insert_app_r.
    apply child_go. by rewrite lookup_app_r, Nat.add_sub_swap, Nat.sub_diag by lia.
Qed.

(** A thread that may join any pool that ends. *)
Definition joins p : Prop := forall l1 l2, Acc child (l1 ++ l2) -> Acc child (l1 ++ p :: l2).

Lemma joins_intro p :
  match p with
  | Eff e k => forall x, joins (k x)
  | Go g k => joins k /\ joins (bind g (fun _ => Ret None))
  | _ => True
  end -> joins p.
Proof.
  intros Hp l1 l2 Hacc. remember (l1 ++ l2) as l eqn:Hl. revert l1 l2 Hl.
  induction Hacc as [l Hacc IH]. intros l1 l2 ->. constructor. intros ts Hc.
  assert (Hrest : Acc child (l1 ++ l2)) by (by constructor).
  apply child_middle in Hc as [(X & e & k & x & -> & ->)|[(g & k & -> & ->)|(l1' & l2' & -> & Hc)]].
  - by apply Hp.
  - destruct Hp as [Hk Hb]. apply Hk. rewrite app_assoc.
    apply (Hb (l1 ++ l2) []). by rewrite app_nil_r.
  - by eapply IH.
Qed.

Lemma joins_bind {X} (q : prog Σ S X) (f : X -> thread) : (forall x, joins (f x)) -> joins (bind q f).
Proof.
  revert f. induction q as [X a|X m|X|X Y e k IH|X g IHg k IHk]; intros f Hf; cbn.
  - apply Hf.
  - by apply joins_intro.
  - by apply joins_intro.
  - apply joins_intro. intros x. by apply IH.
  - apply joins_intro. split; [by apply IHk|]. apply IHg. intros _. by apply joins_intro.
Qed.

Lemma joins_all p : joins p.
Proof.
  revert p. fix IH 1. intros [a|m| |Y e k|g k]; apply joins_intro; [exact I..| |].
  - intros x. apply IH.
  - split; [apply IH|]. apply joins_bind. intros _. by apply joins_intro.
Qed.

Lemma pool_acc ts : Acc child ts.
Proof.
  induction ts as [|p ts IH]; [|by apply (joins_all p [])].
  constructor. intros ts Hc. by inversion Hc.
Qed.

(** No schedule goes on for ever. *)
Lemma steps_wf : well_founded (fun c' c => exists i, step i c = Some c').
Proof.
  intros c. remember (pl_threads c) as ts eqn:Hts. revert c Hts.
  induction (pool_acc ts) as [ts _ IH]. intros c ->. constructor. intros c' [i Hs]. eapply IH; [|done].
  unfold step in Hs. destruct (pl_threads c !! i) as [[a|m| |X e k|g k]|] eqn:Hi; try done.
  - destruct (do_eff e (pl_world c)) as [[x w']|]; [|done]. injection Hs as <-.
    by apply child_eff with (e := e).
  - injection Hs as <-. by apply child_go.
Qed.

End Termination.

(** ** A mutex and the component it protects

    [guarded l t vs]: the mutex is [l], the component [t], and [vs] is what each
    thread knows of the component: the one inside its value, the others nothing. *)
Section Guarded.
Context {T : Type}.
Implicit Types (l : option lock_state) (t : T) (vs : list (option T)).

Definition guarded l t vs : Prop :=
  match l with
  | None => forall j v, vs !! j = Some v -> v = None
  | Some Locked => exists i, vs !! i = Some (Some t) /\ forall j v, i <> j -> vs !! j = Some v -> v = None
  | Some (RLocked _) => False
  end.

Lemma guarded_inside l t vs i t0 :
  guarded l t vs -> vs !! i = Some (Some t0) ->
  l = Some Locked /\ t0 = t /\ forall j v, i <> j -> vs !! j = Some v -> v = None.
Proof.
  intros Hg Hi. destruct l as [[|n]|]; cbn in Hg; [|done|by specialize (Hg _ _ Hi)].
  destruct Hg as (i' & Hi' & Ho). destruct (decide (i' = i)) as [->|Hne].
  - rewrite Hi in Hi'. injection Hi' as ->. by split_and!.
  - by specialize (Ho _ _ Hne Hi).
Qed.

Lemma guarded_enter t vs i v :
  guarded None t vs -> vs !! i = Some v -> guarded (Some Locked) t (<[i := Some t]> vs).
Proof.
  intros Hg Hi. apply lookup_lt_Some in Hi. exists i. split; [by apply list_lookup_insert_eq|].
  intros j v' Hne. rewrite list_lookup_insert_ne by done. apply Hg.
Qed.

Lemma guarded_leave l t vs i t0 :
  guarded l t vs -> vs !! i = Some (Some t0) -> guarded None t (<[i := None]> vs).
Proof.
  intros Hg Hi j v Hj. destruct (guarded_inside _ _ _ _ _ Hg Hi) as (_ & _ & Ho).
  destruct (decide (i = j)) as [<-|Hne].
  - rewrite list_lookup_insert_eq in Hj by (by eapply lookup_lt_Some). by injection Hj as <-.
  - rewrite list_lookup_insert_ne in Hj by done. by eapply Ho.
Qed.

Lemma guarded_write l t vs i t0 t' :
  guarded l t vs -> vs !! i = Some (Some t0) -> guarded l t' (<[i := Some t']> vs).
Proof.
  intros Hg Hi. destruct (guarded_inside _ _ _ _ _ Hg Hi) as (-> & _ & Ho). exists i.
  split; [apply list_lookup_insert_eq; by eapply lookup_lt_Some|].
  intros j v Hne. rewrite list_lookup_insert_ne by done. by apply Ho.
Qed.

(** A goroutine starts outside. *)
Lemma guarded_spawn l t vs : guarded l t vs -> guarded l t (vs ++ [None]).
Proof.
  destruct l as [[|n]|]; cbn; [|done|].
  - intros (i & Hi & Ho). exists i. split; [by apply lookup_app_l_Some|].
    intros j v Hne [Hj|[_ [_ <-]%list_lookup_singleton_Some]]%lookup_app_Some; [by eapply Ho|done].
  - intros Ho j v Hj. apply lookup_app_Some in Hj as [Hj|[_ Hj]]; [by eapply Ho|].
    by apply list_lookup_singleton_Some in Hj as [_ <-].
Qed.

(** A mutex that is taken is taken by somebody. *)
Lemma guarded_taken l t vs : guarded l t vs -> l <> None -> exists i t0, vs !! i = Some (Some t0).
Proof. destruct l as [[|n]|]; cbn; [|done|done]. intros (i & Hi & _) _. eauto. Qed.

End Guarded.

(** ** The simulation rule *)
Section Simulation.
Context {Σ : Signature} {S A : Type} `{E : !Environment Σ}.
(** The states of the abstract machine and its steps; what a thread knows; the
    invariant; which threads are in no critical section; and what holds of a
    thread that has returned, and of a goroutine that has ended. *)
Context {Γ G : Type} (T : Γ -> Γ -> Prop) (Inv : world Σ S -> Γ -> list G -> Prop).
Context (outside : G -> Prop) (Q : A -> G -> Prop) (Qgo : G -> Prop).
Implicit Types (w : world Σ S) (γ : Γ) (g : G) (gs : list G) (c : pool Σ S A).

(** A program that keeps the invariant at every step, whatever the others have
    done in between, never panics and waits for a mutex only outside of critical
    sections; [R] holds of what it returns. *)
Fixpoint ok {X : Type} (p : prog Σ S X) (R : X -> G -> Prop) g : Prop :=
  match p with
  | Ret a => R a g
  | Eff e k => forall i w γ gs, gs !! i = Some g -> Inv w γ gs ->
      match do_eff e w with
      | Some (x, w') => exists g' γ', rtc T γ γ' /\ Inv w' γ' (<[i := g']> gs) /\ ok (k x) R g'
      | None => match e with Lock _ => outside g | _ => False end
      end
  | Go h k => forall i w γ gs, gs !! i = Some g -> Inv w γ gs ->
      exists g1 g2 γ', rtc T γ γ' /\ Inv w γ' (<[i := g1]> gs ++ [g2]) /\ ok k R g1 /\
        ok h (fun _ g' => outside g' /\ Qgo g') g2
  | Panic _ | NoFuel => False
  end.

Lemma ok_mono {X} (p : prog Σ S X) (R R' : X -> G -> Prop) g :
  (forall a g', R a g' -> R' a g') -> ok p R g -> ok p R' g.
Proof.
  intros HR. revert R R' g HR. induction p as [X a|X m|X|X Y e k IH|X h IHh k IHk]; intros R R' g HR; cbn; try done.
  - auto.
  - intros He i w γ gs Hi Hinv. specialize (He i w γ gs Hi Hinv).
    destruct (do_eff e w) as [[x w']|]; [|done]. destruct He as (g' & γ' & ? & ? & ?). eauto 10.
  - intros He i w γ gs Hi Hinv. destruct (He i w γ gs Hi Hinv) as (g1 & g2 & γ' & ? & ? & ? & ?). eauto 10.
Qed.

Lemma ok_bind {X Y} (p : prog Σ S X) (f : X -> prog Σ S Y) (R : Y -> G -> Prop) g :
  ok p (fun a g' => ok (f a) R g') g -> ok (bind p f) R g.
Proof.
  revert f g. induction p as [X a|X m|X|X Z e k IH|X h IHh k IHk]; intros f g; cbn; try done.
  - intros He i w γ gs Hi Hinv. specialize (He i w γ gs Hi Hinv).
    destruct (do_eff e w) as [[x w']|]; [|done]. destruct He as (g' & γ' & ? & ? & ?). eauto 10.
  - intros He i w γ gs Hi Hinv. destruct (He i w γ gs Hi Hinv) as (g1 & g2 & γ' & ? & ? & ? & ?). eauto 10.
Qed.

(** What is deferred runs when the body has returned; no body panics. *)
Lemma ok_deferring {X} (u : prog Σ S unit) (p : prog Σ S X) (R : X -> G -> Prop) g :
  ok p (fun a g' => ok (bind u (fun _ => Ret a)) R g') g -> ok (deferring u p) R g.
Proof.
  revert g. induction p as [X a|X m|X|X Z e k IH|X h IHh k IHk]; intros g; cbn; try done.
  - intros He i w γ gs Hi Hinv. specialize (He i w γ gs Hi Hinv).
    destruct (do_eff e w) as [[x w']|]; [|done]. destruct He as (g' & γ' & ? & ? & ?). eauto 10.
  - intros He i w γ gs Hi Hinv. destruct (He i w γ gs Hi Hinv) as (g1 & g2 & γ' & ? & ? & ? & ?). eauto 10.
Qed.

(** How a thread of the pool ends. *)
Definition ended (r : option A) g : Prop :=
  outside g /\ match r with Some a => Q a g | None => Qgo g end.

Definition simulated c γ : Prop :=
  exists gs, Inv (pl_world c) γ gs /\ Forall2 (fun p g => ok p ended g) (pl_threads c) gs.

Lemma step_simulated i c c' γ :
  simulated c γ -> step i c = Some c' -> exists γ', rtc T γ γ' /\ simulated c' γ'.
Proof.
  intros (gs & Hinv & Hts) Hs. unfold step in Hs.
  destruct (pl_threads c !! i) as [p|] eqn:Hp; [|done].
  destruct (Forall2_lookup_l _ _ _ _ _ Hts Hp) as (g & Hg & Hok).
  destruct p as [a|msg| |X e k|h k]; try done; cbn in Hok; specialize (Hok i _ _ _ Hg Hinv).
  - destruct (do_eff e (pl_world c)) as [[x w']|]; [|done]. injection Hs as <-.
    destruct Hok as (g' & γ' & Ht & Hi & Hk). exists γ'. split; [done|].
    exists (<[i := g']> gs). split; [done|]. by apply Forall2_insert.
  - injection Hs as <-. destruct Hok as (g1 & g2 & γ' & Ht & Hi & Hk & Hh). exists γ'. split; [done|].
    exists (<[i := g1]> gs ++ [g2]). split; [done|]. apply Forall2_app; [by apply Forall2_insert|].
    constructor; [|done]. apply ok_bind. eapply ok_mono; [|exact Hh]. by intros [] g'.
Qed.

Lemma steps_simulated c c' γ :
  simulated c γ -> steps_to c c' -> exists γ', rtc T γ γ' /\ simulated c' γ'.
Proof.
  intros Hsim Hs. revert γ Hsim. induction Hs as [c|i c c1 c2 Hst _ IH]; intros γ Hsim; [by exists γ|].
  destruct (step_simulated _ _ _ _ Hsim Hst) as (γ1 & Ht1 & Hsim1).
  destruct (IH _ Hsim1) as (γ2 & Ht2 & Hsim2). exists γ2. split; [by etransitivity|done].
Qed.

(** A mutex is taken only while a thread is inside a section. *)
Context (Htaken : forall m w γ gs, Inv w γ gs -> locks w !! m <> None ->
           exists j g, gs !! j = Some g /\ ~ outside g).

Definition all_returned c : Prop := forall i p, pl_threads c !! i = Some p -> exists r, p = Ret r.

(** A thread inside a section can go on. *)
Lemma inside_steps c γ gs j p g :
  Inv (pl_world c) γ gs -> pl_threads c !! j = Some p -> gs !! j = Some g -> ok p ended g ->
  ~ outside g -> exists c', step j c = Some c'.
Proof.
  intros Hinv Hp Hg Hok Hout. unfold step. rewrite Hp.
  destruct p as [a|msg| |X e k|h k]; cbn in Hok; [by destruct Hok|done|done| |by eexists].
  specialize (Hok _ _ _ _ Hg Hinv). destruct (do_eff e (pl_world c)) as [[x w']|]; [by eexists|].
  by destruct e.
Qed.

(** Some thread can go on, or all of them have returned. *)
Lemma simulated_progress c γ :
  simulated c γ -> (exists i c', step i c = Some c') \/ all_returned c.
Proof.
  intros (gs & Hinv & Hts).
  assert (Hdec : forall p : prog Σ S (option A), {exists r, p = Ret r} + {~ exists r, p = Ret r}).
  { intros [a|?| |? ? ?|? ?]; [left; by exists a|right; by intros [? [=]]..]. }
  destruct (Forall_Exists_dec _ _ Hdec (pl_threads c)) as [Hall|Hex].
  { right. intros i p Hp. exact (Forall_lookup_1 _ _ _ _ Hall Hp). }
  left. apply Exists_exists in Hex as (p & Hp & Hn). apply list_elem_of_lookup in Hp as [i Hp].
  destruct (Forall2_lookup_l _ _ _ _ _ Hts Hp) as (g & Hg & Hok).
  destruct p as [a|msg| |X e k|h k]; cbn in Hok; [destruct Hn; by eexists|done|done| |].
  - specialize (Hok i _ _ _ Hg Hinv). destruct (do_eff e (pl_world c)) as [[x w']|] eqn:Hd.
    { exists i, (MkPool w' (<[i := k x]> (pl_threads c))). unfold step. by rewrite Hp, Hd. }
    destruct e as [| | |m| | | | | ]; try done. cbn in Hd.
    destruct (Htaken m _ _ _ Hinv) as (j & gj & Hgj & Hin); [by destruct (locks (pl_world c) !! m)|].
    destruct (Forall2_lookup_r _ _ _ _ _ Hts Hgj) as (pj & Hpj & Hokj).
    exists j. by eapply inside_steps.
  - exists i. unfold step. rewrite Hp. by eexists.
Qed.

(** Whatever has happened, all threads can still return; with [steps_wf], every
    schedule that lets some thread go on whenever one can ends with all
    threads returned. *)
Lemma steps_complete c γ :
  simulated c γ -> exists c' γ', steps_to c c' /\ rtc T γ γ' /\ simulated c' γ' /\ all_returned c'.
Proof.
  revert γ. induction (steps_wf c) as [c _ IH]. intros γ Hsim.
  destruct (simulated_progress c γ Hsim) as [(i & c1 & Hs)|Hall]; [|by exists c, γ; split; [constructor|]].
  destruct (step_simulated _ _ _ _ Hsim Hs) as (γ1 & Ht1 & Hsim1).
  destruct (IH c1 (ex_intro _ i Hs) _ Hsim1) as (c' & γ' & Hs' & Ht' & Hsim' & Hall).
  exists c', γ'. split; [by econstructor|]. split; [by etransitivity|]. done.
Qed.

End Simulation.
