(* ===== verification/Workers.v ===== *)
(** Goroutines at work on the rental executor and the port manager.

    The rule of [Threads], for threads that share the two components: an
    invariant of such a pool is what their mutexes protect, the time, and a
    protocol ([I]) that relates the memory to the roles that the threads play.
    The methods of the components keep every protocol that allows their steps
    ([may]), whoever else is at work; which protocol that is, is the matter of
    [Lifecycle] and [Starts]. *)

From Stdlib Require Import ZArith Lia String.
From stdpp Require Import base numbers strings list gmap relations.
From S2P Require Import Prelude.
From S2P Require Import Effects.
From S2P Require Import Port.
From S2P Require Import Container.
From S2P Require Import Rental.
From S2P Require Import Threads.

(** A thread's knowledge: its role, what it sees inside the mutex of the port
    manager and inside that of the executor, and a time that has passed. *)
Record ghost (Ro : Type) : Type := MkGhost {
  g_role : Ro;
  g_pm : option PortManager;
  g_re : option RentalExecutor;
  g_clk : Z;
}.
Arguments MkGhost {Ro}.
Arguments g_role {Ro}.
Arguments g_pm {Ro}.
Arguments g_re {Ro}.
Arguments g_clk {Ro}.

Definition outside {Ro} (g : ghost Ro) : Prop := g_pm g = None /\ g_re g = None.
Definition at_time {Ro} (t : Z) (g : ghost Ro) : ghost Ro := MkGhost (g_role g) (g_pm g) (g_re g) t.
(** A thread in no section. *)
Definition idle {Ro} (r : Ro) (t : Z) : ghost Ro := MkGhost r None None t.

(** ** Protocols *)
Section Protocol.
Context {S : Type} `{FP : !Field S PortManager} `{FR : !Field S RentalExecutor}.
Context {Γ Ro : Type} (T : Γ -> Γ -> Prop) (I : S -> Γ -> list Ro -> Prop) (interval timeout : Z).
Implicit Types (s : S) (γ : Γ) (rs : list Ro).

(** What every protocol has: a sane port manager and the configuration of the
    executor. *)
Record protocol : Prop := {
  pr_wf : forall s γ rs, I s γ rs -> pm_wf (get s);
  pr_interval : forall s γ rs, I s γ rs -> healthInterval (get (T := RentalExecutor) s) = interval;
  pr_timeout : forall s γ rs, I s γ rs -> healthTimeout (get (T := RentalExecutor) s) = timeout;
}.

(** A thread in role [r0] may do [f] where [P] holds, and is in role [r] then. *)
Definition may (r0 : Ro) (P : S -> Prop) (f : S -> S) (r : Ro) : Prop :=
  forall s γ rs i, I s γ rs -> rs !! i = Some r0 -> P s -> exists γ', rtc T γ γ' /\ I (f s) γ' (<[i := r]> rs).

(** The steps of a start of session [sid]: it finds that the session has a rental,
    or that it has none; it is given a port, or there is none; it gives the port
    back; it tracks the rental. *)
Record start_protocol (sid : string) (waiting checked failed : Ro) (holding : Z -> Ro)
    (started : RentalState -> Ro) : Prop := {
  sp_busy : may waiting (fun s => is_Some (activeRentals (get s) !! sid)) (fun s => s) failed;
  sp_check : may waiting (fun s => activeRentals (get s) !! sid = None) (fun s => s) checked;
  sp_allocate : forall p pm, pm_wf pm ->
    may checked (fun s => held (get s) !! p = None /\ held pm = <[p := sid]> (held (get s))) (set pm) (holding p);
  sp_no_port : may checked (fun _ => True) (fun s => s) failed;
  sp_owns : forall p s γ rs i, I s γ rs -> rs !! i = Some (holding p) -> is_Some (held (get s) !! p);
  sp_release : forall p pm, pm_wf pm ->
    may (holding p) (fun s => held pm = delete p (held (get s))) (set pm) failed;
  sp_track : forall st, rs_SessionID st = sid -> rs_StoppedAt st = None ->
    may (holding (rs_SSHPort st)) (fun _ => True)
      (fun s => set (set_activeRentals (get s) (<[sid := st]> (activeRentals (get s)))) s) (started st);
}.

End Protocol.

(** ** The invariant of the pool *)
Section Workers.
Context {S : Type} `{FP : !Field S PortManager} `{FR : !Field S RentalExecutor}
        `{D : !Disjoint S PortManager RentalExecutor} `{E : !Environment DockerServiceInterface}.
Context {Γ Ro : Type} (T : Γ -> Γ -> Prop) (I : S -> Γ -> list Ro -> Prop) (gone : ghost Ro -> Prop).
Context (interval timeout : Z) (Hinterval : 0 < interval) (Htimeout : 0 <= timeout).
Context (PR : protocol I interval timeout).
Implicit Types (w : world DockerServiceInterface S) (γ : Γ) (g : ghost Ro) (gs : list (ghost Ro)) (s : S) (rs : list Ro).

Record inv w γ gs : Prop := {
  inv_port : guarded (locks w !! port_mu) (get (T := PortManager) (mem w)) (g_pm <$> gs);
  inv_rental : guarded (locks w !! rental_mu) (get (T := RentalExecutor) (mem w)) (g_re <$> gs);
  inv_locks : forall m, m <> port_mu -> m <> rental_mu -> locks w !! m = None;
  inv_clk : forall i g, gs !! i = Some g -> g_clk g <= clk w;
  inv_protocol : I (mem w) γ (g_role <$> gs);
}.

Notation OK := (ok (E := E) T inv outside gone).
Notation may := (may T I).

Lemma inv_move w γ gs i g w' γ' g' :
  inv w γ gs -> gs !! i = Some g ->
  guarded (locks w' !! port_mu) (get (T := PortManager) (mem w')) (<[i := g_pm g']> (g_pm <$> gs)) ->
  guarded (locks w' !! rental_mu) (get (T := RentalExecutor) (mem w')) (<[i := g_re g']> (g_re <$> gs)) ->
  (forall m, m <> port_mu -> m <> rental_mu -> locks w' !! m = locks w !! m) ->
  clk w <= clk w' -> g_clk g' <= clk w' ->
  I (mem w') γ' (<[i := g_role g']> (g_role <$> gs)) -> inv w' γ' (<[i := g']> gs).
Proof.
  intros [Hp Hr Hl Hc HI] Hi Hp' Hr' Hl' Hclk Hg HI'.
  split; rewrite ?list_fmap_insert; try done.
  - intros m H1 H2. rewrite Hl' by done. by apply Hl.
  - intros j h Hj. destruct (decide (i = j)) as [<-|Hne].
    + rewrite list_lookup_insert_eq in Hj by by eapply lookup_lt_Some. by injection Hj as <-.
    + rewrite list_lookup_insert_ne in Hj by done. specialize (Hc _ _ Hj). lia.
Qed.

Lemma view_pm gs i g : gs !! i = Some g -> (g_pm <$> gs) !! i = Some (g_pm g).
Proof. intros Hi. by rewrite list_lookup_fmap, Hi. Qed.
Lemma view_re gs i g : gs !! i = Some g -> (g_re <$> gs) !! i = Some (g_re g).
Proof. intros Hi. by rewrite list_lookup_fmap, Hi. Qed.
Lemma view_role gs i g : gs !! i = Some g -> (g_role <$> gs) !! i = Some (g_role g).
Proof. intros Hi. by rewrite list_lookup_fmap, Hi. Qed.

(** The roles of a pool in which thread [i] keeps its own. *)
Lemma inv_same_role w γ gs i g s :
  inv w γ gs -> gs !! i = Some g -> s = mem w -> I s γ (<[i := g_role g]> (g_role <$> gs)).
Proof. intros Hinv Hi ->. rewrite list_insert_id by by apply view_role. apply Hinv. Qed.

(** *** Effects *)

(** An effect that only takes time. *)
Lemma ok_timed {X Y} (e : eff DockerServiceInterface S X) (k : X -> prog DockerServiceInterface S Y) R g :
  (forall w, g_clk g <= clk w -> exists x w', do_eff e w = Some (x, w') /\ mem w' = mem w /\
     locks w' = locks w /\ clk w <= clk w' /\ OK (k x) R (at_time (clk w') g)) ->
  OK (Eff e k) R g.
Proof.
  intros He i w γ gs Hi Hinv. destruct (He w) as (x & w' & -> & Hm & Hl & Hc & Hok); [by eapply inv_clk|].
  exists (at_time (clk w') g), γ. split; [done|]. split; [|done].
  eapply inv_move; [done|done|..]; rewrite ?Hl, ?Hm; cbn [at_time g_pm g_re g_role g_clk]; try done.
  - rewrite list_insert_id by by apply view_pm. apply Hinv.
  - rewrite list_insert_id by by apply view_re. apply Hinv.
  - by eapply inv_same_role.
Qed.

Lemma ok_now {Y} (k : Z -> prog DockerServiceInterface S Y) R g :
  (forall t, g_clk g <= t -> OK (k t) R (at_time t g)) -> OK (Eff Now k) R g.
Proof.
  intros Hk. apply ok_timed. intros w Hc. do 2 eexists. split; [done|]. pose proof (advance_clk w).
  split; [by go_simpl|]. split; [by go_simpl|]. split; [done|]. apply Hk. lia.
Qed.

Lemma ok_sleep {Y} d (k : unit -> prog DockerServiceInterface S Y) R g :
  (forall t, g_clk g + d <= t -> g_clk g <= t -> OK (k tt) R (at_time t g)) -> OK (Eff (Sleep d) k) R g.
Proof.
  intros Hk. apply ok_timed. intros w Hc. do 2 eexists. split; [done|]. pose proof (advance_clk w).
  assert (clk w + Z.max 0 d <= clk (sleep d w)) by (unfold sleep; cbn; lia).
  split; [by go_simpl|]. split; [by go_simpl|]. split; [lia|]. apply Hk; lia.
Qed.

Lemma ok_ctx_err {Y} c (k : option error -> prog DockerServiceInterface S Y) R g :
  (forall x t, g_clk g <= t -> OK (k x) R (at_time t g)) -> OK (Eff (CtxErr c) k) R g.
Proof.
  intros Hk. apply ok_timed. intros w Hc. do 2 eexists. split; [done|]. pose proof (advance_clk w).
  split; [by go_simpl|]. split; [by go_simpl|]. split; [done|]. apply Hk. lia.
Qed.

Lemma ok_call {Y} o (k : _ -> prog DockerServiceInterface S Y) R g :
  (forall x t, g_clk g <= t -> OK (k x) R (at_time t g)) -> OK (bind (svc o) k) R g.
Proof.
  intros Hk. apply ok_timed. intros w Hc. do 2 eexists. split; [done|]. pose proof (advance_clk w).
  assert (clk (advance w) = clk (called (o : op DockerServiceInterface) w)) by done.
  split; [by go_simpl|]. split; [by go_simpl|]. split; [lia|]. apply Hk. lia.
Qed.

(** Entering and leaving the two critical sections. *)
Lemma ok_lock_port {Y} (k : unit -> prog DockerServiceInterface S Y) R g :
  outside g -> (forall pm, OK (k tt) R (MkGhost (g_role g) (Some pm) None (g_clk g))) ->
  OK (Eff (Lock port_mu) k) R g.
Proof.
  intros [Ho1 Ho2] Hk i w γ gs Hi Hinv. cbn [do_eff]. destruct (locks w !! port_mu) eqn:Hl; [done|].
  eexists _, γ. split; [done|]. split; [|apply (Hk (get (mem w)))].
  eapply inv_move; [done|done|..]; rewrite ?mem_set_locks, ?locks_set_locks, ?clk_set_locks; cbn [g_pm g_re g_role g_clk].
  - rewrite lookup_insert_eq. eapply guarded_enter; [|by apply view_pm].
    pose proof (inv_port _ _ _ Hinv) as H. by rewrite Hl in H.
  - rewrite lookup_insert_ne by done. rewrite <- Ho2, list_insert_id by by apply view_re. apply Hinv.
  - intros m H1 H2. by rewrite lookup_insert_ne.
  - done.
  - by eapply inv_clk.
  - by eapply inv_same_role.
Qed.

Lemma ok_unlock_port {Y} (k : unit -> prog DockerServiceInterface S Y) R g pm :
  g_pm g = Some pm -> OK (k tt) R (MkGhost (g_role g) None (g_re g) (g_clk g)) ->
  OK (Eff (Unlock port_mu) k) R g.
Proof.
  intros Hg Hk i w γ gs Hi Hinv. cbn [do_eff].
  pose proof (view_pm _ _ _ Hi) as Hv. rewrite Hg in Hv.
  destruct (guarded_inside _ _ _ _ _ (inv_port _ _ _ Hinv) Hv) as (-> & _ & _).
  eexists _, γ. split; [done|]. split; [|apply Hk].
  eapply inv_move; [done|done|..]; rewrite ?mem_set_locks, ?locks_set_locks, ?clk_set_locks; cbn [g_pm g_re g_role g_clk].
  - rewrite lookup_delete_eq. eapply guarded_leave; [apply Hinv|done].
  - rewrite lookup_delete_ne by done. rewrite list_insert_id by by apply view_re. apply Hinv.
  - intros m H1 H2. by rewrite lookup_delete_ne.
  - done.
  - by eapply inv_clk.
  - by eapply inv_same_role.
Qed.

Lemma ok_lock_rental {Y} (k : unit -> prog DockerServiceInterface S Y) R g :
  outside g -> (forall re, OK (k tt) R (MkGhost (g_role g) None (Some re) (g_clk g))) ->
  OK (Eff (Lock rental_mu) k) R g.
Proof.
  intros [Ho1 Ho2] Hk i w γ gs Hi Hinv. cbn [do_eff]. destruct (locks w !! rental_mu) eqn:Hl; [done|].
  eexists _, γ. split; [done|]. split; [|apply (Hk (get (mem w)))].
  eapply inv_move; [done|done|..]; rewrite ?mem_set_locks, ?locks_set_locks, ?clk_set_locks; cbn [g_pm g_re g_role g_clk].
  - rewrite lookup_insert_ne by done. rewrite <- Ho1, list_insert_id by by apply view_pm. apply Hinv.
  - rewrite lookup_insert_eq. eapply guarded_enter; [|by apply view_re].
    pose proof (inv_rental _ _ _ Hinv) as H. by rewrite Hl in H.
  - intros m H1 H2. by rewrite lookup_insert_ne.
  - done.
  - by eapply inv_clk.
  - by eapply inv_same_role.
Qed.

Lemma ok_unlock_rental {Y} (k : unit -> prog DockerServiceInterface S Y) R g re :
  g_re g = Some re -> OK (k tt) R (MkGhost (g_role g) (g_pm g) None (g_clk g)) ->
  OK (Eff (Unlock rental_mu) k) R g.
Proof.
  intros Hg Hk i w γ gs Hi Hinv. cbn [do_eff].
  pose proof (view_re _ _ _ Hi) as Hv. rewrite Hg in Hv.
  destruct (guarded_inside _ _ _ _ _ (inv_rental _ _ _ Hinv) Hv) as (-> & _ & _).
  eexists _, γ. split; [done|]. split; [|apply Hk].
  eapply inv_move; [done|done|..]; rewrite ?mem_set_locks, ?locks_set_locks, ?clk_set_locks; cbn [g_pm g_re g_role g_clk].
  - rewrite lookup_delete_ne by done. rewrite list_insert_id by by apply view_pm. apply Hinv.
  - rewrite lookup_delete_eq. eapply guarded_leave; [apply Hinv|done].
  - intros m H1 H2. by rewrite lookup_delete_ne.
  - done.
  - by eapply inv_clk.
  - by eapply inv_same_role.
Qed.

(** One access to the memory, in terms of the protocol. *)
Lemma ok_mem {X Y} (f : S -> X * S) (k : X -> prog DockerServiceInterface S Y) R g :
  (forall s γ rs i, I s γ rs -> rs !! i = Some (g_role g) ->
     (forall pm, g_pm g = Some pm -> get s = pm) -> (forall re, g_re g = Some re -> get s = re) ->
     exists g' γ', g_clk g' = g_clk g /\
       (forall l vs j, guarded l (get (T := PortManager) s) vs -> vs !! j = Some (g_pm g) ->
          guarded l (get (T := PortManager) (snd (f s))) (<[j := g_pm g']> vs)) /\
       (forall l vs j, guarded l (get (T := RentalExecutor) s) vs -> vs !! j = Some (g_re g) ->
          guarded l (get (T := RentalExecutor) (snd (f s))) (<[j := g_re g']> vs)) /\
       rtc T γ γ' /\ I (snd (f s)) γ' (<[i := g_role g']> rs) /\ OK (k (fst (f s))) R g') ->
  OK (Eff (Mem f) k) R g.
Proof.
  intros Hk i w γ gs Hi Hinv. cbn [do_eff].
  destruct (Hk (mem w) γ (g_role <$> gs) i) as (g' & γ' & Hc & Hp & Hr & Ht & HI & Hok).
  - apply Hinv.
  - by apply view_role.
  - intros pm Hg. pose proof (view_pm _ _ _ Hi) as Hv. rewrite Hg in Hv.
    by destruct (guarded_inside _ _ _ _ _ (inv_port _ _ _ Hinv) Hv) as (_ & -> & _).
  - intros re Hg. pose proof (view_re _ _ _ Hi) as Hv. rewrite Hg in Hv.
    by destruct (guarded_inside _ _ _ _ _ (inv_rental _ _ _ Hinv) Hv) as (_ & -> & _).
  - destruct (f (mem w)) as [x s']. cbn [fst snd] in *.
    exists g', γ'. split; [done|]. split; [|done].
    eapply inv_move; [done|done|..]; rewrite ?mem_set_mem, ?locks_set_mem, ?clk_set_mem; try done.
    + apply Hp; [apply Hinv|by apply view_pm].
    + apply Hr; [apply Hinv|by apply view_re].
    + rewrite Hc. by eapply inv_clk.
Qed.

Lemma guarded_keep {V} l (t : V) vs i v : guarded l t vs -> vs !! i = Some v -> guarded l t (<[i := v]> vs).
Proof. intros Hg Hi. by rewrite list_insert_id. Qed.

(** Reading. *)
Lemma ok_load_pm {Y} (k : PortManager -> prog DockerServiceInterface S Y) R g pm :
  g_pm g = Some pm ->
  (forall s γ rs i, I s γ rs -> rs !! i = Some (g_role g) -> get s = pm -> OK (k pm) R g) ->
  OK (bind load k) R g.
Proof.
  intros Hg Hk. apply ok_mem. intros s γ rs i HI Hi Hp _. exists g, γ. cbn [fst snd].
  split_and!; try done; [by intros; apply guarded_keep..|by rewrite list_insert_id|].
  rewrite (Hp _ Hg). by apply (Hk s γ rs i), Hp.
Qed.

(** Reading the executor, which may tell the thread its next role. *)
Lemma ok_load_re {Y} (k : RentalExecutor -> prog DockerServiceInterface S Y) R g :
  (forall s γ rs i, I s γ rs -> rs !! i = Some (g_role g) -> (forall re, g_re g = Some re -> get s = re) ->
     exists r γ', rtc T γ γ' /\ I s γ' (<[i := r]> rs) /\
       OK (k (get s)) R (MkGhost r (g_pm g) (g_re g) (g_clk g))) ->
  OK (bind load k) R g.
Proof.
  intros Hk. apply ok_mem. intros s γ rs i HI Hi _ Hr. cbn [fst snd].
  destruct (Hk s γ rs i HI Hi Hr) as (r & γ' & Ht & HI' & Hok).
  exists (MkGhost r (g_pm g) (g_re g) (g_clk g)), γ'.
  split_and!; try done; by intros; apply guarded_keep.
Qed.

Lemma ok_load_re_same {Y} (k : RentalExecutor -> prog DockerServiceInterface S Y) R g :
  (forall s γ rs i, I s γ rs -> rs !! i = Some (g_role g) -> (forall re, g_re g = Some re -> get s = re) ->
     OK (k (get s)) R g) ->
  OK (bind load k) R g.
Proof.
  intros Hk. apply ok_load_re. intros s γ rs i HI Hi Hr. exists (g_role g), γ. split; [done|].
  split; [by rewrite list_insert_id|]. specialize (Hk s γ rs i HI Hi Hr). by destruct g.
Qed.

(** Writing, inside the section. *)
Lemma ok_store_pm {Y} pm' (k : unit -> prog DockerServiceInterface S Y) R g pm r :
  g_pm g = Some pm -> may (g_role g) (fun s => get s = pm) (set pm') r ->
  OK (k tt) R (MkGhost r (Some pm') (g_re g) (g_clk g)) ->
  OK (bind (store pm') k) R g.
Proof.
  intros Hg Hk Hok. apply ok_mem. intros s γ rs i HI Hi Hp _. cbn [fst snd].
  destruct (Hk s γ rs i HI Hi (Hp _ Hg)) as (γ' & Ht & HI').
  exists (MkGhost r (Some pm') (g_re g) (g_clk g)), γ'. split_and!; try done; cbn [g_pm g_re].
  - intros l vs j Hv Hj. rewrite get_set. rewrite Hg in Hj. by eapply guarded_write.
  - intros l vs j Hv Hj. rewrite get_set_l. by apply guarded_keep.
Qed.

Lemma ok_update_re {Y} (f : RentalExecutor -> RentalExecutor) (k : unit -> prog DockerServiceInterface S Y) R g re r :
  g_re g = Some re -> may (g_role g) (fun s => get s = re) (fun s => set (f (get s)) s) r ->
  (forall re', OK (k tt) R (MkGhost r (g_pm g) (Some re') (g_clk g))) ->
  OK (bind (modify f) k) R g.
Proof.
  intros Hg Hk Hok. apply ok_mem. intros s γ rs i HI Hi _ Hre. cbn [fst snd].
  destruct (Hk s γ rs i HI Hi (Hre _ Hg)) as (γ' & Ht & HI').
  exists (MkGhost r (g_pm g) (Some (f (get s))) (g_clk g)), γ'. split_and!; try done; cbn [g_pm g_re].
  - intros l vs j Hv Hj. rewrite get_set_r. by apply guarded_keep.
  - intros l vs j Hv Hj. rewrite get_set. rewrite Hg in Hj. by eapply guarded_write.
Qed.

(** *** The port manager's methods *)

Lemma ok_with_port {Y} (body : prog DockerServiceInterface S Y) R g :
  outside g ->
  (forall pm, OK body (fun a g' => (exists pm', g_pm g' = Some pm') /\
                         R a (MkGhost (g_role g') None (g_re g') (g_clk g')))
                (MkGhost (g_role g) (Some pm) None (g_clk g))) ->
  OK (with_lock port_mu body) R g.
Proof.
  intros Ho Hb. apply ok_lock_port; [done|]. intros pm. apply ok_deferring.
  eapply ok_mono; [|apply Hb]. intros a g' [[pm' Hpm] HR]. by apply (ok_unlock_port _ _ _ pm').
Qed.

Lemma ok_Allocate sid R g holding failed :
  outside g ->
  (forall p pm, pm_wf pm -> may (g_role g)
     (fun s => held (get s) !! p = None /\ held pm = <[p := sid]> (held (get s))) (set pm) (holding p)) ->
  may (g_role g) (fun _ => True) (fun s => s) failed ->
  (forall p t, g_clk g <= t -> R (p, None) (idle (holding p) t)) ->
  (forall p e t, g_clk g <= t -> R (p, Some e) (idle failed t)) ->
  OK (Allocate sid) R g.
Proof.
  intros Ho Hmok Hmko Hok Hko. apply ok_with_port; [done|]. intros pm.
  apply ok_now. cbn [g_clk]. intros t Ht. apply (ok_load_pm _ _ _ pm); [done|]. intros s γ rs i HI _ Hpm.
  assert (Hwf : pm_wf pm) by (rewrite <- Hpm; by eapply pr_wf). clear s γ rs i HI Hpm.
  destruct (Allocate_loop_at pm sid t Hwf) as ([p [e|]] & pm' & -> & Hat);
    destruct (allocate_at_held _ _ _ _ _ Hwf Hat) as [Hwf' Hh].
  - apply (ok_store_pm _ _ _ _ pm failed); [done| |split; [by eexists|by apply Hko]].
    intros s γ rs i HI Hi Hpm. subst pm'. rewrite <- Hpm, set_get. by apply Hmko.
  - apply (ok_store_pm _ _ _ _ pm (holding p)); [done| |split; [by eexists|by apply Hok]].
    intros s γ rs i HI Hi Hpm. rewrite <- Hpm in Hh. by apply Hmok.
Qed.

Lemma ok_Release p r R g :
  outside g -> (forall s γ rs i, I s γ rs -> rs !! i = Some (g_role g) -> is_Some (held (get s) !! p)) ->
  (forall pm, pm_wf pm -> may (g_role g) (fun s => held pm = delete p (held (get s))) (set pm) r) ->
  (forall e t, g_clk g <= t -> R e (idle r t)) ->
  OK (Release p) R g.
Proof.
  intros Ho Hown Hm HR. apply ok_with_port; [done|]. intros pm.
  apply (ok_load_pm _ _ _ pm); [done|]. intros s γ rs i HI Hi Hpm.
  assert (Hwf : pm_wf pm) by (rewrite <- Hpm; by eapply pr_wf).
  destruct (Hown s γ rs i HI Hi) as [sid Hsid]. rewrite Hpm in Hsid. clear s γ rs i HI Hi Hpm.
  apply held_lookup in Hsid as ([sid' t0 [t1|]] & Hal & Hrel & Hsid); [done|].
  rewrite Hal. cbn [ReleasedAt alloc_SessionID AllocatedAt]. apply ok_now. cbn [g_clk]. intros t Ht.
  eapply (ok_store_pm _ _ _ _ pm r); [done| |split; [by eexists|by apply HR]].
  intros s γ rs i HI Hi Hpm. eapply Hm; [eapply pm_wf_insert, wf_range; done|done|done|].
  rewrite Hpm. apply held_insert.
Qed.

(** *** The health check

    It ends before its fuel does: the deadline does not move, and every further
    poll comes an interval later, whoever else takes time. *)
Lemma ok_waitForHealth_loop fuel deadline c id R g :
  deadline < g_clk g + interval * (Z.of_nat fuel - 1) -> (0 < fuel)%nat ->
  (forall r t, g_clk g <= t -> R r (at_time t g)) ->
  OK (waitForHealth_loop fuel interval deadline c id) R g.
Proof.
  revert g. induction fuel as [|fuel IH]; intros g Hd Hf HR; [lia|]. cbn [waitForHealth_loop].
  apply ok_now. intros t1 Ht1. unfold time_after. destruct (Z.ltb_spec deadline t1) as [Hlt|Hge]; [by apply HR|].
  apply ok_ctx_err. cbn [at_time g_clk]. intros [e|] t2 Ht2; [apply HR; lia|].
  apply ok_call. cbn [at_time g_clk]. intros [info [e|]] t3 Ht3; [apply HR; lia|].
  destruct (health_verdict info) as [r|]; [apply HR; lia|].
  apply ok_sleep. cbn [at_time g_clk]. intros t4 Ht4 Ht4'. apply IH; cbn [at_time g_clk].
  - lia.
  - destruct fuel; lia.
  - intros r t Ht. apply HR. lia.
Qed.

Lemma ok_waitForHealth c id R g :
  (forall r t, g_clk g <= t -> R r (at_time t g)) -> OK (waitForHealth c id) R g.
Proof.
  intros HR. apply ok_load_re_same. intros s γ rs i HI _ _. apply ok_now. intros t1 Ht1.
  pose proof (pr_interval _ _ _ PR _ _ _ HI) as Hi. pose proof (pr_timeout _ _ _ PR _ _ _ HI) as Ht. rewrite Hi, Ht.
  assert (Hq : 0 <= timeout / interval) by (apply Z.div_pos; lia).
  apply ok_waitForHealth_loop; cbn [at_time g_clk].
  - unfold health_fuel, time_add. rewrite Hi, Ht, Z2Nat.id by lia.
    pose proof (Z.mul_succ_div_gt timeout interval). nia.
  - unfold health_fuel. rewrite Hi, Ht. lia.
  - intros r t Htt. apply HR. lia.
Qed.

(** *** Starting a rental *)

Lemma ok_cleanupOnError id p R g failed :
  outside g -> (forall s γ rs i, I s γ rs -> rs !! i = Some (g_role g) -> is_Some (held (get s) !! p)) ->
  (forall pm, pm_wf pm -> may (g_role g) (fun s => held pm = delete p (held (get s))) (set pm) failed) ->
  (forall t, g_clk g <= t -> R tt (idle failed t)) ->
  OK (cleanupOnError id p) R g.
Proof.
  intros Ho Hown Hm HR. unfold cleanupOnError. apply ok_bind.
  assert (Hrel : forall t, g_clk g <= t -> OK (_ <- pm_Release p ;; Ret tt)%go R (at_time t g)).
  { intros t Ht. apply ok_bind. apply (ok_Release _ failed); [done|done|done|].
    intros e t' Ht'. apply HR. cbn [at_time g_clk] in Ht'. lia. }
  case_bool_decide.
  - apply ok_call. intros x t Ht. by apply Hrel.
  - specialize (Hrel (g_clk g) ltac:(lia)). unfold at_time in Hrel. by destruct g.
Qed.

(** Whatever protocol allows the steps of a start, [StartRental] keeps it; the
    details that it returns are those of the rental that it has tracked. *)
Lemma ok_StartRental c req waiting checked failed holding started R t0 :
  start_protocol T I (req_SessionID req) waiting checked failed holding started ->
  (forall e t, R (None, Some e) (idle failed t)) ->
  (forall ci st t, rs_SSHPort st = conn_Port ci -> rs_ContainerID st = conn_ContainerID ci ->
     R (Some ci, None) (idle (started st) t)) ->
  OK (StartRental c req) R (idle waiting t0).
Proof.
  intros [Hbusy Hcheck Halloc Hno Howns Hrel Htrack] HRe HRo. unfold StartRental.
  assert (Hfailed : forall p id e t, OK (cleanupOnError id p ;;; Ret (None, Some e))%go R (idle (holding p) t)).
  { intros p id e t. apply ok_bind. apply (ok_cleanupOnError _ _ _ _ failed); [done|by apply Howns|by apply Hrel|].
    intros t' _. apply HRe. }
  apply ok_lock_rental; [done|]. intros re0. apply ok_load_re. cbn [g_role g_pm g_re g_clk idle].
  intros s γ rs i HI Hi _. destruct (activeRentals (get s) !! req_SessionID req) as [st|] eqn:Ha.
  { destruct (Hbusy s γ rs i HI Hi) as (γ' & Ht & HI'); [by rewrite Ha|]. exists failed, γ'. do 2 (split; [done|]).
    apply (ok_unlock_rental _ _ _ re0); [done|]. apply HRe. }
  destruct (Hcheck s γ rs i HI Hi Ha) as (γ' & Ht & HI'). exists checked, γ'. do 2 (split; [done|]).
  clear s γ γ' rs i HI HI' Hi Ha Ht. apply (ok_unlock_rental _ _ _ re0); [done|]. cbn [g_role g_pm g_clk].
  apply ok_bind. apply (ok_Allocate _ _ _ holding failed); [done|done|done|..].
  2: { intros p e t Ht. apply HRe. }
  intros p t Ht. apply ok_call. intros [id [e|]] t1 Ht1; [apply Hfailed|].
  unfold StartRental_created. apply ok_call. intros [e|] t2 Ht2; [apply Hfailed|].
  apply ok_bind, ok_waitForHealth. intros [e|] t3 Ht3; [apply Hfailed|].
  apply ok_now. intros t4 Ht4. set (st := MkRentalState _ _ _ _ _).
  apply ok_lock_rental; [done|]. intros re1.
  apply (ok_update_re _ _ _ _ re1 (started st)); [done| |].
  - intros s γ rs i HI Hi _. by apply (Htrack st).
  - intros re2. apply (ok_unlock_rental _ _ _ re2); [done|]. by apply HRo.
Qed.

(** *** The pool as a whole *)

(** A mutex is taken by a thread that is inside. *)
Lemma inv_taken m w γ gs :
  inv w γ gs -> locks w !! m <> None -> exists j g, gs !! j = Some g /\ ~ outside g.
Proof.
  intros Hinv Hm. destruct (decide (m = port_mu)) as [->|Hp].
  - destruct (guarded_taken _ _ _ (inv_port _ _ _ Hinv) Hm) as (j & t & Hj).
    apply list_lookup_fmap_Some in Hj as (g & Hg & Hj). exists j, g. split; [done|]. intros [Ho _]. congruence.
  - destruct (decide (m = rental_mu)) as [->|Hr]; [|by rewrite (inv_locks _ _ _ Hinv) in Hm].
    destruct (guarded_taken _ _ _ (inv_rental _ _ _ Hinv) Hm) as (j & t & Hj).
    apply list_lookup_fmap_Some in Hj as (g & Hg & Hj). exists j, g. split; [done|]. intros [_ Ho]. congruence.
Qed.

(** Once all threads have returned, no mutex is taken. *)
Lemma all_free w γ gs : inv w γ gs -> (forall j g, gs !! j = Some g -> outside g) -> locks w = ∅.
Proof.
  intros Hinv Hall. apply map_eq. intros m. rewrite lookup_empty. destruct (locks w !! m) eqn:Hm; [|done]. exfalso.
  destruct (inv_taken m _ _ _ Hinv) as (j & g & Hg & Hno); [by rewrite Hm|]. by eapply Hno, Hall.
Qed.

(** Threads that have not begun. *)
Lemma inv_start w γ rs :
  locks w = ∅ -> I (mem w) γ rs -> inv w γ ((fun r => idle r (clk w)) <$> rs).
Proof.
  intros Hl HI.
  assert (Hall : forall {X} (f : ghost Ro -> X), f <$> ((fun r => idle r (clk w)) <$> rs) = (fun r => f (idle r (clk w))) <$> rs).
  { intros X f. by rewrite <- list_fmap_compose. }
  split; rewrite ?Hl, ?lookup_empty, ?Hall; cbn [g_pm g_re g_role idle guarded].
  - intros j v Hj. by apply list_lookup_fmap_Some in Hj as (o & -> & _).
  - intros j v Hj. by apply list_lookup_fmap_Some in Hj as (o & -> & _).
  - intros m _ _. apply lookup_empty.
  - intros j g Hj. apply list_lookup_fmap_Some in Hj as (o & -> & _). cbn. lia.
  - by rewrite list_fmap_id.
Qed.

End Workers.
