(* ===== verification/Starts.v ===== *)
(** Starts in parallel: any number of [StartRental]s at once, also of one session.

    The executor gives up its mutex between the check that a session has no
    rental and the insertion of the new one, so that several starts of a session
    can pass the check and succeed.  What holds nevertheless, under every
    interleaving, is the protocol of this file ([starts]): every start holds a
    port of its own, and what is tracked is the rental of a start that has
    succeeded. *)

From Stdlib Require Import ZArith Lia String.
From stdpp Require Import base numbers strings list gmap relations.
From S2P Require Import Prelude.
From S2P Require Import Effects.
From S2P Require Import Port.
From S2P Require Import Container.
From S2P Require Import Rental.
From S2P Require Import Threads.
From S2P Require Import Workers.

(** ** The protocol *)

(** A start of a session: not begun; past the check; failed; with a port; with a
    rental that it has tracked. *)
Inductive role : Type :=
| Waiting (sid : string)
| Checked (sid : string)
| Failed (sid : string)
| Holding (sid : string) (p : Z)
| Tracking (sid : string) (st : RentalState).

Definition role_sid (r : role) : string :=
  match r with Waiting sid | Checked sid | Failed sid | Holding sid _ | Tracking sid _ => sid end.
Definition role_port (r : role) : option Z :=
  match r with Holding _ p => Some p | Tracking _ st => Some (rs_SSHPort st) | _ => None end.
Definition past_check (r : role) : Prop :=
  match r with Checked _ | Holding _ _ | Tracking _ _ => True | _ => False end.
Definition tracking (r : role) : option RentalState :=
  match r with Tracking _ st => Some st | _ => None end.

(** Thread number [i] holds port [p] for session [sid]. *)
Definition owns (rs : list role) (i : nat) (p : Z) (sid : string) : Prop :=
  exists r, rs !! i = Some r /\ role_sid r = sid /\ role_port r = Some p.

Section Protocol.
Context {S : Type} `{FP : !Field S PortManager} `{FR : !Field S RentalExecutor}
        `{D : !Disjoint S PortManager RentalExecutor}.
(** The ports held and the rentals tracked before, and the configuration. *)
Context (held0 : gmap Z string) (active0 : gmap string RentalState) (interval timeout : Z) (sids : list string).
Implicit Types (s : S) (rs : list role) (hd : gmap Z string) (act : gmap string RentalState).

(** The held ports are those from before and those of the threads. *)
Record ports_inv hd rs : Prop := {
  po_held : forall p sid, hd !! p = Some sid <-> held0 !! p = Some sid \/ exists i, owns rs i p sid;
  po_new : forall i p sid, owns rs i p sid -> held0 !! p = None;
  po_distinct : forall i j p sid sid', owns rs i p sid -> owns rs j p sid' -> i = j;
}.

(** The tracked rentals are those from before, and for every session in which a
    start has tracked one, the rental of one such start. *)
Record tracked_inv act rs : Prop := {
  tr_before : forall sid st, active0 !! sid = Some st -> act !! sid = Some st;
  tr_active : forall sid st, act !! sid = Some st ->
    active0 !! sid = Some st \/ exists i, rs !! i = Some (Tracking sid st);
  tr_some : forall i sid st, rs !! i = Some (Tracking sid st) -> is_Some (act !! sid);
  tr_fresh : forall i r, rs !! i = Some r -> past_check r -> active0 !! role_sid r = None;
}.

Record starts s (u : unit) rs : Prop := {
  st_wf : pm_wf (get s);
  st_interval : healthInterval (get (T := RentalExecutor) s) = interval;
  st_timeout : healthTimeout (get (T := RentalExecutor) s) = timeout;
  st_ports : ports_inv (held (get s)) rs;
  st_tracked : tracked_inv (activeRentals (get s)) rs;
  st_sids : role_sid <$> rs = sids;
}.

Lemma same_sids rs i r0 r : rs !! i = Some r0 -> role_sid r = role_sid r0 -> role_sid <$> <[i := r]> rs = role_sid <$> rs.
Proof. intros Hi Hr. rewrite list_fmap_insert, Hr. apply list_insert_id. by rewrite list_lookup_fmap, Hi. Qed.

Lemma starts_protocol : protocol starts interval timeout.
Proof. split; by intros s γ rs []. Qed.

(** *** Ports *)

Lemma owns_insert rs i r0 r j p sid :
  rs !! i = Some r0 ->
  owns (<[i := r]> rs) j p sid <-> (i = j /\ role_sid r = sid /\ role_port r = Some p) \/ (i <> j /\ owns rs j p sid).
Proof.
  intros Hi. unfold owns. destruct (decide (i = j)) as [<-|Hne].
  - rewrite list_lookup_insert_eq by by eapply lookup_lt_Some. naive_solver.
  - rewrite list_lookup_insert_ne by done. naive_solver.
Qed.

Lemma ports_quiet hd rs i r0 r :
  ports_inv hd rs -> rs !! i = Some r0 -> role_sid r = role_sid r0 -> role_port r = role_port r0 ->
  ports_inv hd (<[i := r]> rs).
Proof.
  intros [Hh Hn Hd] Hi Hs Hp.
  assert (Ho : forall j p sid, owns (<[i := r]> rs) j p sid <-> owns rs j p sid).
  { intros j p sid. rewrite owns_insert by done. rewrite Hs, Hp. unfold owns.
    destruct (decide (i = j)) as [<-|]; naive_solver. }
  split.
  - intros p sid. rewrite Hh. by setoid_rewrite Ho.
  - intros j p sid. rewrite Ho. apply Hn.
  - intros j k p sid sid'. rewrite !Ho. apply Hd.
Qed.

Lemma ports_take hd rs i r0 r p :
  ports_inv hd rs -> rs !! i = Some r0 -> role_port r0 = None -> role_port r = Some p -> hd !! p = None ->
  ports_inv (<[p := role_sid r]> hd) (<[i := r]> rs).
Proof.
  intros [Hh Hn Hd] Hi Hr0 Hr Hp.
  assert (Hfree : forall j sid, ~ owns rs j p sid).
  { intros j sid Ho. assert (hd !! p = Some sid) by (apply Hh; right; by exists j). congruence. }
  assert (Hi0 : forall q sid, ~ owns rs i q sid) by (intros q sid (x & Hx & _ & Hq); congruence).
  split.
  - intros q sid. rewrite lookup_insert. setoid_rewrite (owns_insert rs i r0 r); [|done]. case_decide as Hpq.
    + subst q. split; [intros [= <-]; right; exists i; by left|].
      intros [H|(j & [(_ & <- & _)|[_ Ho]])]; [|done|by apply Hfree in Ho].
      assert (hd !! p = Some sid) by (apply Hh; by left). congruence.
    + rewrite Hh. split; (intros [H|[j H]]; [by left|right; exists j]).
      * right. split; [|done]. intros ->. by apply Hi0 in H.
      * destruct H as [(_ & _ & H)|[_ H]]; [congruence|done].
  - intros j q sid. rewrite owns_insert by done. intros [(_ & _ & Hq)|[_ Ho]]; [|by eapply Hn].
    rewrite Hr in Hq. injection Hq as <-. destruct (held0 !! p) as [x|] eqn:Hx; [|done].
    assert (hd !! p = Some x) by (apply Hh; by left). congruence.
  - intros j k q sid sid'. rewrite !owns_insert by done.
    intros [(<- & _ & Hq)|[_ Ho]] [(<- & _ & Hq')|[_ Ho']]; [done|..|by eapply Hd];
      rewrite Hr in *; simplify_eq; by apply Hfree in Ho || by apply Hfree in Ho'.
Qed.

Lemma ports_return hd rs i r0 r p :
  ports_inv hd rs -> rs !! i = Some r0 -> role_port r0 = Some p -> role_port r = None ->
  ports_inv (delete p hd) (<[i := r]> rs).
Proof.
  intros [Hh Hn Hd] Hi Hr0 Hr.
  assert (Hown : owns rs i p (role_sid r0)) by by exists r0.
  split.
  - intros q sid. rewrite lookup_delete. setoid_rewrite (owns_insert rs i r0 r); [|done]. case_decide as Hpq.
    + subst q. split; [done|]. intros [H|(j & [(_ & _ & H)|[Hne Ho]])]; [|congruence|].
      * by rewrite (Hn _ _ _ Hown) in H.
      * destruct Hne. by eapply Hd.
    + rewrite Hh. split; (intros [H|[j H]]; [by left|right; exists j]).
      * right. split; [|done]. intros ->. destruct H as (x & Hx & _ & Hq). congruence.
      * destruct H as [(_ & _ & H)|[_ H]]; [congruence|done].
  - intros j q sid. rewrite owns_insert by done. intros [(_ & _ & Hq)|[_ Ho]]; [congruence|by eapply Hn].
  - intros j k q sid sid'. rewrite !owns_insert by done.
    intros [(<- & _ & Hq)|[_ Ho]] [(<- & _ & Hq')|[_ Ho']]; [done|congruence..|by eapply Hd].
Qed.

(** *** Tracked rentals *)

Lemma tracked_quiet act rs i r0 r :
  tracked_inv act rs -> rs !! i = Some r0 -> tracking r0 = None -> tracking r = None ->
  (past_check r -> active0 !! role_sid r = None) -> tracked_inv act (<[i := r]> rs).
Proof.
  intros [Hb Ha Hs Hf] Hi Hr0 Hr Hp. pose proof (lookup_lt_Some _ _ _ Hi) as Hlt. split; [done|..].
  - intros sid st H. destruct (Ha _ _ H) as [|[j Hj]]; [by left|right]. exists j.
    rewrite list_lookup_insert_ne; [done|]. intros ->. rewrite Hi in Hj. by injection Hj as ->.
  - intros j sid st [(_ & -> & _)|[_ Hj]]%list_lookup_insert_Some; [done|by eapply Hs].
  - intros j r' [(_ & -> & _)|[_ Hj]]%list_lookup_insert_Some; [done|by apply (Hf j)].
Qed.

Lemma tracked_track act rs i r0 sid st :
  tracked_inv act rs -> rs !! i = Some r0 -> tracking r0 = None -> past_check r0 -> role_sid r0 = sid ->
  tracked_inv (<[sid := st]> act) (<[i := Tracking sid st]> rs).
Proof.
  intros [Hb Ha Hs Hf] Hi Hr0 Hp Hsid. pose proof (lookup_lt_Some _ _ _ Hi) as Hlt.
  assert (Hnew : active0 !! sid = None) by (rewrite <- Hsid; by apply (Hf i)). split.
  - intros sid' st' H. rewrite lookup_insert_ne by congruence. by apply Hb.
  - intros sid' st' [[-> ->]|[Hne H]]%lookup_insert_Some.
    + right. exists i. by apply list_lookup_insert_eq.
    + destruct (Ha _ _ H) as [|[j Hj]]; [by left|right]. exists j.
      rewrite list_lookup_insert_ne; [done|]. intros ->. rewrite Hi in Hj. by injection Hj as ->.
  - intros j sid' st' [(_ & H & _)|[_ Hj]]%list_lookup_insert_Some.
    + injection H as <- <-. rewrite lookup_insert_eq. by eexists.
    + rewrite lookup_insert. case_decide; [by eexists|by eapply Hs].
  - intros j r' [(_ & <- & _)|[_ Hj]]%list_lookup_insert_Some; [done|by apply (Hf j)].
Qed.

(** The protocol allows the steps of a start. *)
Lemma starts_start sid :
  start_protocol (fun _ _ : unit => True) starts sid (Waiting sid) (Checked sid) (Failed sid) (Holding sid) (Tracking sid).
Proof.
  split.
  - intros s [] rs i [] Hi _. exists tt. split; [done|]. split; rewrite ?(same_sids _ _ _ _ Hi); try done.
    + by eapply ports_quiet.
    + by eapply tracked_quiet.
  - intros s [] rs i [] Hi Hn. exists tt. split; [done|]. split; rewrite ?(same_sids _ _ _ _ Hi); try done.
    + by eapply ports_quiet.
    + eapply tracked_quiet; [done..|]. intros _. cbn. destruct (active0 !! sid) as [st|] eqn:Ha; [|done].
      by rewrite (tr_before _ _ st_tracked0 _ _ Ha) in Hn.
  - intros p pm Hwf s [] rs i [] Hi [Hp Hh]. exists tt. split; [done|]. split; rewrite ?get_set, ?get_set_l, ?(same_sids _ _ _ _ Hi); try done.
    + rewrite Hh. by apply (ports_take _ _ _ (Checked sid) (Holding sid p)).
    + eapply tracked_quiet; [done..|]. intros _. by apply (tr_fresh _ _ st_tracked0 i _ Hi).
  - intros s [] rs i [] Hi _. exists tt. split; [done|]. split; rewrite ?(same_sids _ _ _ _ Hi); try done.
    + by eapply ports_quiet.
    + by eapply tracked_quiet.
  - intros p s [] rs i [] Hi. exists sid. apply (po_held _ _ st_ports0). right. exists i. by exists (Holding sid p).
  - intros p pm Hwf s [] rs i [] Hi Hh. exists tt. split; [done|]. split; rewrite ?get_set, ?get_set_l, ?(same_sids _ _ _ _ Hi); try done.
    + rewrite Hh. by eapply (ports_return _ _ _ (Holding sid p)).
    + by eapply tracked_quiet.
  - intros st Hsid _ s [] rs i [] Hi _. exists tt. split; [done|]. split; rewrite ?get_set, ?get_set_r, ?(same_sids _ _ _ _ Hi); try done.
    + by eapply ports_quiet.
    + by eapply tracked_track.
Qed.

End Protocol.

(** ** Starts at once *)
Section Properties.
Context {S : Type} `{FP : !Field S PortManager} `{FR : !Field S RentalExecutor}
        `{D : !Disjoint S PortManager RentalExecutor} `{E : !Environment DockerServiceInterface}.
Implicit Types (w : world DockerServiceInterface S).

Definition start_calls (calls : list (ctx * StartRentalRequest))
  : list (prog DockerServiceInterface S (option ConnectionInfo * option error)) :=
  (fun x => StartRental (fst x) (snd x)) <$> calls.

(** What a start returned, in its role. *)
Definition start_ended (r : option ConnectionInfo * option error) (g : ghost role) : Prop :=
  match r with
  | (Some ci, None) => exists sid st, g_role g = Tracking sid st /\ rs_SSHPort st = conn_Port ci /\
                                      rs_ContainerID st = conn_ContainerID ci
  | (None, Some _) => exists sid, g_role g = Failed sid
  | _ => False
  end.

Notation session_of x := (req_SessionID (snd x)).

Lemma starts_simulated w (calls : list (ctx * StartRentalRequest)) :
  let re := get (mem w) in
  locks w = ∅ -> pm_wf (get (mem w)) -> 0 < healthInterval re -> 0 <= healthTimeout re ->
  simulated (fun _ _ : unit => True)
    (inv (starts (held (get (mem w))) (activeRentals re) (healthInterval re) (healthTimeout re) ((fun x => session_of x) <$> calls)))
    outside start_ended (fun _ => False) (start_pool w (start_calls calls)) tt.
Proof.
  intros re Hl Hwf Hi Ht.
  exists ((fun r => idle r (clk w)) <$> ((fun x => Waiting (session_of x)) <$> calls)). split.
  - apply inv_start; [done|]. cbn [start_pool pl_world].
    assert (Hw : forall i r, ((fun x => Waiting (session_of x)) <$> calls) !! i = Some r -> exists sid, r = Waiting sid).
    { intros i r Hr. apply list_lookup_fmap_Some in Hr as (x & -> & _). by eexists. }
    split; try done.
    + split.
      * intros p sid. split; [by left|]. intros [|(i & r & Hr & _ & Hp)]; [done|]. by apply Hw in Hr as [? ->].
      * intros i p sid (r & Hr & _ & Hp). by apply Hw in Hr as [? ->].
      * intros i j p sid sid' (r & Hr & _ & Hp). by apply Hw in Hr as [? ->].
    + split; [done|by left|..].
      * intros i sid st Hr. by apply Hw in Hr as [? ?].
      * intros i r Hr Hp. by apply Hw in Hr as [? ->].
    + by rewrite <- list_fmap_compose.
  - unfold start_pool, start_calls; cbn [pl_threads].
    apply Forall2_fmap_l, Forall2_fmap_l, Forall2_fmap_r, Forall2_fmap_r.
    apply Forall2_same_length_lookup_2; [done|]. intros i x x' Hx Hx'. rewrite Hx in Hx'. injection Hx' as <-.
    apply ok_bind. eapply ok_StartRental; [exact Hi|exact Ht|apply starts_protocol|apply starts_start|..].
    + intros e t. split; [done|]. by eexists.
    + intros ci st t Hp Hid. split; [done|]. by exists (session_of x), st.
Qed.

(** The port that a thread holds. *)
Definition own_of (gs : list (ghost role)) (i : nat) : option Z := gs !! i ≫= fun g => role_port (g_role g).

Lemma own_owns gs i p : own_of gs i = Some p <-> exists sid, owns (g_role <$> gs) i p sid.
Proof.
  unfold own_of, owns. rewrite list_lookup_fmap. split.
  - destruct (gs !! i) as [g|]; [|done]. intros Hp. by exists (role_sid (g_role g)), (g_role g).
  - intros (sid & r & Hr & _ & Hp). apply fmap_Some in Hr as (g & -> & ->). done.
Qed.

(** The threads are those of the calls, in order. *)
Lemma session_of_thread (calls : list (ctx * StartRentalRequest)) (gs : list (ghost role)) i g x :
  role_sid <$> (g_role <$> gs) = (fun x => session_of x) <$> calls ->
  gs !! i = Some g -> calls !! i = Some x -> role_sid (g_role g) = session_of x.
Proof.
  intros Hs Hg Hx. apply (f_equal (lookup i)) in Hs. rewrite !list_lookup_fmap, Hg, Hx in Hs. by injection Hs.
Qed.

Lemma owns_session (calls : list (ctx * StartRentalRequest)) (gs : list (ghost role)) p sid :
  role_sid <$> (g_role <$> gs) = (fun x => session_of x) <$> calls ->
  (exists i, owns (g_role <$> gs) i p sid) <->
  exists i x, calls !! i = Some x /\ session_of x = sid /\ own_of gs i = Some p.
Proof.
  intros Hs. split.
  - intros (i & r & Hr & <- & Hp). apply list_lookup_fmap_Some in Hr as (g & -> & Hg).
    assert (Hlen : (i < length calls)%nat).
    { apply (f_equal length) in Hs. rewrite !length_fmap in Hs. rewrite <- Hs. by eapply lookup_lt_Some. }
    destruct (lookup_lt_is_Some_2 _ _ Hlen) as [x Hx]. exists i, x. split; [done|].
    split; [symmetry; by eapply session_of_thread|]. unfold own_of. by rewrite Hg.
  - intros (i & x & Hx & <- & Hp). apply own_owns in Hp as (sid & Ho). exists i. destruct Ho as (r & Hr & Hsid & Hp).
    exists r. split; [done|]. split; [|done]. apply list_lookup_fmap_Some in Hr as (g & -> & Hg).
    by eapply session_of_thread.
Qed.

(** C35: Any number of starts at once, of any sessions, several of one session
    included, in a node that may have other rentals; no stop among them.  Under
    every interleaving, at every moment: the ports held are those from before
    and those of the starts ([own]), each of which holds at most one, no two the
    same; one that has returned an error holds none, and one that has succeeded
    holds the port that it returned.  No rental from before is lost, no session
    that had one succeeds, and every session in which a start has succeeded is
    tracked.  All starts can always be brought to their end; then no mutex is
    taken, and what is tracked beyond the rentals from before are rentals that a
    successful start returned.  So when several starts of one session succeed,
    which the protocol does not exclude, all their ports are held, and all but
    one by a rental that is not tracked any more. *)
Theorem starts_in_parallel w (calls : list (ctx * StartRentalRequest)) c :
  let before := get (T := RentalExecutor) (mem w) in
  let after := get (T := RentalExecutor) (mem (pl_world c)) in
  locks w = ∅ -> pm_wf (get (mem w)) -> 0 < healthInterval before -> 0 <= healthTimeout before ->
  steps_to (start_pool w (start_calls calls)) c ->
  (exists own : nat -> option Z,
    (forall p sid, held (get (mem (pl_world c))) !! p = Some sid <->
       held (get (mem w)) !! p = Some sid \/
       exists i x, calls !! i = Some x /\ req_SessionID (snd x) = sid /\ own i = Some p) /\
    (forall i j p, own i = Some p -> own j = Some p -> i = j) /\
    (forall i p, own i = Some p -> held (get (mem w)) !! p = None) /\
    (forall i e, returned i c (None, Some e) -> own i = None) /\
    (forall i ci, returned i c (Some ci, None) -> own i = Some (conn_Port ci))) /\
  (forall sid st, activeRentals before !! sid = Some st -> activeRentals after !! sid = Some st) /\
  (forall i x ci, calls !! i = Some x -> returned i c (Some ci, None) ->
     activeRentals before !! req_SessionID (snd x) = None /\
     is_Some (activeRentals after !! req_SessionID (snd x))) /\
  (all_returned c -> locks (pl_world c) = ∅ /\
     forall sid st, activeRentals after !! sid = Some st -> activeRentals before !! sid = Some st \/
       exists i x ci, calls !! i = Some x /\ req_SessionID (snd x) = sid /\ returned i c (Some ci, None) /\
         rs_SSHPort st = conn_Port ci /\ rs_ContainerID st = conn_ContainerID ci) /\
  exists c', steps_to c c' /\ all_returned c'.
Proof.
  intros before after Hl Hwf Hi Ht Hs.
  pose proof (starts_simulated w calls Hl Hwf Hi Ht) as Hsim.
  destruct (steps_simulated _ _ _ _ _ _ _ _ Hsim Hs) as ([] & _ & Hsim').
  destruct (steps_complete _ _ _ _ _ (fun m w' u gs => inv_taken _ m w' u gs) _ _ Hsim') as (c' & _ & Hs' & _ & _ & Hall).
  destruct Hsim' as (gs & Hinv & Hts). destruct (inv_protocol _ _ _ _ Hinv) as [_ _ _ [Hh Hn Hd] [Hb Ha Hso Hf] Hsids].
  assert (Hret : forall i r, returned i c r -> exists g, gs !! i = Some g /\ outside g /\ start_ended r g).
  { intros i r Hr. destruct (Forall2_lookup_l _ _ _ _ _ Hts Hr) as (g & Hg & Hend). by exists g. }
  assert (Hok : forall i ci, returned i c (Some ci, None) -> exists g sid st, gs !! i = Some g /\
    g_role g = Tracking sid st /\ rs_SSHPort st = conn_Port ci /\ rs_ContainerID st = conn_ContainerID ci).
  { intros i ci Hr. destruct (Hret _ _ Hr) as (g & Hg & _ & sid & st & Hrest). by exists g, sid, st. }
  split; [|split; [exact Hb|split; [|split; [|by exists c']]]].
  - exists (own_of gs). split; [|split; [|split; [|split]]].
    + intros p sid. rewrite Hh. by rewrite (owns_session calls gs p sid Hsids).
    + intros i j p [? Hi']%own_owns [? Hj']%own_owns. by eapply Hd.
    + intros i p [? Ho]%own_owns. by eapply Hn.
    + intros i e Hr. destruct (Hret _ _ Hr) as (g & Hg & _ & sid & Hrole). unfold own_of. rewrite Hg. cbn. by rewrite Hrole.
    + intros i ci Hr. destruct (Hok _ _ Hr) as (g & sid & st & Hg & Hrole & Hp & _). unfold own_of. rewrite Hg. cbn.
      rewrite Hrole. cbn. by rewrite Hp.
  - intros i x ci Hx Hr. destruct (Hok _ _ Hr) as (g & sid & st & Hg & Hrole & _).
    rewrite <- (session_of_thread calls gs i g x Hsids Hg Hx), Hrole. cbn [role_sid].
    assert (Hi' : (g_role <$> gs) !! i = Some (Tracking sid st)) by (by rewrite list_lookup_fmap, Hg, <- Hrole).
    split; [by apply (Hf _ _ Hi')|by eapply Hso].
  - intros Hend. assert (Hends : forall j g, gs !! j = Some g -> exists r, returned j c r /\ outside g /\ start_ended r g).
    { intros j g Hg. destruct (Forall2_lookup_r _ _ _ _ _ Hts Hg) as (p & Hp & Hokp).
      destruct (Hend _ _ Hp) as [[r|] ->]; destruct Hokp as [Ho Hr]; [by exists r|done]. }
    split; [eapply all_free; [exact Hinv|]; intros j g Hg; by destruct (Hends _ _ Hg) as (r & _ & Ho & _)|].
    intros sid st Hst. destruct (Ha _ _ Hst) as [|[i Hi']]; [by left|right].
    apply list_lookup_fmap_Some in Hi' as (g & Hrole & Hg).
    destruct (Hends _ _ Hg) as ([[ci|] [e|]] & Hr & _ & Hre); cbn in Hre; try done; [|by destruct Hre as [? Hre]; congruence].
    destruct Hre as (sid' & st' & Hrole' & Hp & Hid). rewrite <- Hrole in Hrole'. injection Hrole' as <- <-.
    destruct (proj1 (owns_session calls gs (rs_SSHPort st) sid Hsids)) as (i' & x & Hx & Hsx & Hown).
    { exists i, (Tracking sid st). split; [by rewrite list_lookup_fmap, Hg, Hrole|done]. }
    exists i, x, ci. assert (i' = i) as ->; [|done].
    apply own_owns in Hown as [? Hown]. eapply Hd; [exact Hown|].
    exists (Tracking sid st). split; [by rewrite list_lookup_fmap, Hg, Hrole|done].
Qed.

End Properties.

(** ** Witness

    Two starts of one session, against the Docker service of the executor's own
    tests, which accepts two containers of one session (a Docker daemon refuses
    the second one, which has the name of the first).  Both check the session
    before either of them tracks it, and both succeed. *)

Definition two_starts_calls : list (ctx * StartRentalRequest) := [(Background, rental_req); (Background, rental_req)].

Definition both_check_first : list nat :=
  replicate 3 0%nat ++ replicate 3 1%nat ++ replicate 40 0%nat ++ replicate 40 1%nat.

Definition two_starts : @pool DockerServiceInterface (PortManager * RentalExecutor)
    (option ConnectionInfo * option error) (mock_svc_env mock_ok) :=
  run_schedule both_check_first (start_pool (rental_world mock_ok) (start_calls two_starts_calls)).

Lemma starts_in_parallel_witness :
  returned 0 two_starts (Some (connection_info rental_req 30000 "container-123"), None) /\
  returned 1 two_starts (Some (connection_info rental_req 30001 "container-123"), None) /\
  held (get (mem (pl_world two_starts))) !! 30000 = Some "session-123" /\
  held (get (mem (pl_world two_starts))) !! 30001 = Some "session-123" /\
  rs_SSHPort <$> activeRentals (get (mem (pl_world two_starts))) = {[ "session-123" := 30001 ]}.
Proof.
  assert (H0 : returned 0 two_starts (Some (connection_info rental_req 30000 "container-123"), None)) by reflexivity.
  assert (H1 : returned 1 two_starts (Some (connection_info rental_req 30001 "container-123"), None)) by reflexivity.
  destruct (starts_in_parallel (rental_world mock_ok) two_starts_calls two_starts)
    as ((own & Hh & _ & _ & _ & Hown) & _).
  - reflexivity.
  - exact (rr_ready _ (rental_world_ready mock_ok)).
  - reflexivity.
  - vm_compute. discriminate.
  - apply run_schedule_steps.
  - split; [exact H0|]. split; [exact H1|]. split; [|split; [|vm_compute; reflexivity]].
    + apply Hh. right. exists 0%nat, (Background, rental_req). split; [done|]. split; [done|]. exact (Hown _ _ H0).
    + apply Hh. right. exists 1%nat, (Background, rental_req). split; [done|]. split; [done|]. exact (Hown _ _ H1).
Defined.
