(* ===== verification/Lifecycle.v ===== *)
(** Rentals in parallel: the life of a session under every interleaving.

    Goroutines that start and stop rentals, and the cleanups they leave behind,
    interleave effect by effect ([Threads]).  The abstract machine is one [life]
    per session, whose steps are what a start, a stop or a cleanup does to it;
    executor and port manager are at every moment what the lives say
    ([reflects]).  The theorem supposes that no session is started twice or
    stopped twice and that no rental is tracked at first: two starts of one
    session are in [Starts], and a second stop can schedule a cleanup that runs
    after the port was handed out again. *)

From Stdlib Require Import ZArith Lia String.
From stdpp Require Import base numbers strings list gmap relations functions.
From S2P Require Import Prelude.
From S2P Require Import Effects.
From S2P Require Import Port.
From S2P Require Import Container.
From S2P Require Import Rental.
From S2P Require Import Threads.
From S2P Require Import Workers.

(** ** The abstract machine *)

(** The life of a session: not started or about to be; a port is allocated; the
    start has failed; tracked; marked as stopped; the cleanup scheduled; the
    port given back; forgotten. *)
Inductive life : Type :=
| Idle
| Owning (p : Z)
| Failed
| Active (st : RentalState)
| Stopped (st : RentalState) (t : Z)
| Cleaning (st : RentalState) (t : Z)
| Released (st : RentalState) (t : Z)
| Deleted (st : RentalState).

(** What the executor tracks, which port the session holds, and the rental it has
    become. *)
Definition entry (l : life) : option RentalState :=
  match l with
  | Active st => Some st
  | Stopped st t | Cleaning st t | Released st t => Some (stopped_state st t)
  | _ => None
  end.

Definition port_of (l : life) : option Z :=
  match l with
  | Owning p => Some p
  | Active st | Stopped st _ | Cleaning st _ => Some (rs_SSHPort st)
  | _ => None
  end.

Definition tracked (l : life) : option RentalState :=
  match l with
  | Active st | Stopped st _ | Cleaning st _ | Released st _ | Deleted st => Some st
  | _ => None
  end.

(** Who takes a step: the start, the stop or the cleanup of the session. *)
Inductive kind : Type := KStart | KStop | KClean.

#[export] Instance kind_eq_dec : EqDecision kind.
Proof. solve_decision. Defined.

Inductive life_step (sid : string) : kind -> life -> life -> Prop :=
| ls_allocate p : life_step sid KStart Idle (Owning p)
| ls_no_port : life_step sid KStart Idle Failed
| ls_fail p : life_step sid KStart (Owning p) Failed
| ls_track st : rs_SessionID st = sid -> rs_StoppedAt st = None ->
    life_step sid KStart (Owning (rs_SSHPort st)) (Active st)
| ls_stop st t : life_step sid KStop (Active st) (Stopped st t)
| ls_schedule st t : life_step sid KStop (Stopped st t) (Cleaning st t)
| ls_release st t : life_step sid KClean (Cleaning st t) (Released st t)
| ls_forget st t : life_step sid KClean (Released st t) (Deleted st).

(** One session at a time. *)
Definition lives_step (L L' : string -> life) : Prop :=
  exists sid k l', life_step sid k (L sid) l' /\ L' = <[sid := l']> L.

(** ** What a thread knows of its session *)

Inductive role : Type :=
| Starting (sid : string)
| Holding (sid : string) (p : Z)
| StartFailed (sid : string)
| Started (sid : string) (st : RentalState)
| Stopping (sid : string)
| Marked (sid : string) (st : RentalState) (t : Z)
| StopDone (sid : string)
| ToClean (sid : string) (st : RentalState) (t : Z)
| Freed (sid : string) (st : RentalState) (t : Z)
| Cleaned (sid : string) (st : RentalState).

Definition role_key (r : role) : kind * string :=
  match r with
  | Starting sid | Holding sid _ | StartFailed sid | Started sid _ => (KStart, sid)
  | Stopping sid | Marked sid _ _ | StopDone sid => (KStop, sid)
  | ToClean sid _ _ | Freed sid _ _ | Cleaned sid _ => (KClean, sid)
  end.

Definition before_stop (l : life) : Prop :=
  match l with Idle | Owning _ | Failed | Active _ => True | _ => False end.
Definition after_stop (l : life) : Prop :=
  match l with Cleaning _ _ | Released _ _ | Deleted _ => True | _ => False end.

Definition knows (r : role) (l : life) : Prop :=
  match r with
  | Starting _ => l = Idle
  | Holding _ p => l = Owning p
  | StartFailed _ => l = Failed
  | Started _ st => tracked l = Some st
  | Stopping _ => before_stop l
  | Marked _ st t => l = Stopped st t
  | StopDone _ => after_stop l
  | ToClean _ st t => l = Cleaning st t
  | Freed _ st t => l = Released st t
  | Cleaned _ st => l = Deleted st
  end.

(** A step of one thread leaves what the others know true. *)
Lemma others_know sid k l l' r :
  life_step sid k l l' -> fst (role_key r) <> k -> knows r l -> knows r l'.
Proof. intros Hs Hk Hr. destruct Hs, r; cbn in *; by simplify_eq. Qed.

(** Lives that some thread has to bring further, and the threads that do. *)
Definition unsettled (l : life) : Prop :=
  match l with Owning _ | Cleaning _ _ | Released _ _ => True | _ => False end.
Definition busy (r : role) : Prop :=
  match r with Holding _ _ | ToClean _ _ _ | Freed _ _ _ => True | _ => False end.

Definition sess (r : role) : string := snd (role_key r).

(** ** The protocol *)
Section Protocol.
Context {S : Type} `{FP : !Field S PortManager} `{FR : !Field S RentalExecutor}
        `{D : !Disjoint S PortManager RentalExecutor} `{E : !Environment DockerServiceInterface}.
(** The ports held before, the configuration of the executor, and the calls. *)
Context (held0 : gmap Z string) (interval timeout : Z) (keys : list (kind * string)).
Context (Hinterval : 0 < interval) (Htimeout : 0 <= timeout).
Implicit Types (w : world DockerServiceInterface S) (L : string -> life) (g : ghost role) (r : role) (rs : list role) (s : S).

(** Port manager and executor are what the lives say. *)
Record reflects s L : Prop := {
  rf_wf : pm_wf (get s);
  rf_held : forall p sid, held (get s) !! p = Some sid <-> held0 !! p = Some sid \/ port_of (L sid) = Some p;
  rf_new : forall p sid, port_of (L sid) = Some p -> held0 !! p = None;
  rf_active : forall sid, activeRentals (get s) !! sid = entry (L sid);
  rf_interval : healthInterval (get (T := RentalExecutor) s) = interval;
  rf_timeout : healthTimeout (get (T := RentalExecutor) s) = timeout;
}.

(** And every thread knows its session; each session is started once, stopped
    once and cleaned up once. *)
Record threads_know L rs : Prop := {
  tk_knows : forall i r, rs !! i = Some r -> knows r (L (sess r));
  tk_keys : NoDup (role_key <$> rs);
  tk_calls : forall i k, keys !! i = Some k -> (role_key <$> rs) !! i = Some k;
  tk_owner : forall sid, unsettled (L sid) -> exists i r, rs !! i = Some r /\ sess r = sid /\ busy r;
}.

Record lifecycle s L rs : Prop := {
  lc_reflects : reflects s L;
  lc_threads : threads_know L rs;
}.

Lemma lifecycle_protocol : protocol lifecycle interval timeout.
Proof. split; by intros s L rs [[] _]. Qed.

(** *** Steps of the lives *)

(** What a thread does to its session: nothing, or one step of its own. *)
Inductive moves (r0 : role) L : role -> (string -> life) -> Prop :=
| moves_not r : knows r (L (snd (role_key r0))) -> (busy r0 -> busy r) -> moves r0 L r L
| moves_on r k sid l' :
    role_key r0 = (k, sid) -> life_step sid k (L sid) l' -> knows r l' ->
    (unsettled l' -> busy r) -> moves r0 L r (<[sid := l']> L).

Lemma moves_lives r0 L r L' : moves r0 L r L' -> rtc lives_step L L'.
Proof. destruct 1; [done|]. apply rtc_once. by do 3 eexists. Qed.

Lemma same_keys rs i r0 r : rs !! i = Some r0 -> role_key r = role_key r0 -> role_key <$> <[i := r]> rs = role_key <$> rs.
Proof. intros Hi Hr. rewrite list_fmap_insert, Hr. apply list_insert_id. by rewrite list_lookup_fmap, Hi. Qed.

(** Two threads with the same key are one. *)
Lemma key_inj rs i j r0 r : NoDup (role_key <$> rs) -> rs !! i = Some r0 -> rs !! j = Some r -> role_key r0 = role_key r -> i = j.
Proof.
  intros Hnd Hi Hj Hk. eapply (NoDup_lookup _ _ _ _ Hnd); rewrite list_lookup_fmap, ?Hi, ?Hj; [done|].
  cbn. by rewrite Hk.
Qed.

(** What the others know stays true when thread [i] takes a step of its session. *)
Lemma others_still_know L rs i j r0 r k sid l' :
  threads_know L rs -> rs !! i = Some r0 -> role_key r0 = (k, sid) -> life_step sid k (L sid) l' ->
  i <> j -> rs !! j = Some r -> knows r ((<[sid := l']> L) (sess r)).
Proof.
  intros [Hk Hnd _ _] Hi Hr0 Hs Hne Hj. specialize (Hk _ _ Hj).
  destruct (decide (sid = sess r)) as [He|He]; [|by rewrite fn_lookup_insert_ne].
  rewrite He, fn_lookup_insert. rewrite <- He in Hk. eapply others_know; [exact Hs| |done].
  intros Hkk. apply Hne. eapply key_inj; [done..|]. rewrite Hr0, He. unfold sess. subst k. by destruct (role_key r).
Qed.

Lemma threads_move L rs i r0 r L' :
  threads_know L rs -> rs !! i = Some r0 -> role_key r = role_key r0 ->
  moves r0 L r L' -> threads_know L' (<[i := r]> rs).
Proof.
  intros Htk Hi Hkey Hm. pose proof Htk as [Hk Hnd Hcl Ho].
  assert (Hsess : sess r = sess r0) by (unfold sess; by rewrite Hkey).
  pose proof (lookup_lt_Some _ _ _ Hi) as Hlt.
  split; rewrite ?(same_keys _ _ _ _ Hi Hkey); try done.
  - intros j h Hj. destruct (decide (i = j)) as [<-|Hne].
    + rewrite list_lookup_insert_eq in Hj by done. injection Hj as <-. rewrite Hsess. unfold sess.
      destruct Hm as [|r k sid l' Hg _ Hr _]; [done|]. rewrite Hg. cbn. by rewrite fn_lookup_insert.
    + rewrite list_lookup_insert_ne in Hj by done.
      destruct Hm as [|r k sid l' Hg Hs _ _]; [by eapply Hk|]. by eapply (others_still_know L rs i j r0 h).
  - intros sid' Hu. inversion Hm as [r' _ Hb|r' k sid l' Hg Hs _ Hb]; subst.
    + destruct (Ho sid' Hu) as (j & h & Hj & Hsj & Hbj). destruct (decide (i = j)) as [<-|Hne].
      * rewrite Hi in Hj. injection Hj as <-. exists i, r. rewrite list_lookup_insert_eq by done.
        split; [done|]. split; [congruence|by apply Hb].
      * exists j, h. by rewrite list_lookup_insert_ne.
    + assert (Hgs : sess r0 = sid) by (unfold sess; by rewrite Hg).
      destruct (decide (sid = sid')) as [<-|Hne].
      * rewrite fn_lookup_insert in Hu. exists i, r. rewrite list_lookup_insert_eq by done.
        split; [done|]. split; [congruence|auto].
      * rewrite fn_lookup_insert_ne in Hu by done. destruct (Ho sid' Hu) as (j & h & Hj & Hsj & Hbj).
        exists j, h. split; [|done]. rewrite list_lookup_insert_ne; [done|].
        intros ->. rewrite Hi in Hj. injection Hj as ->. congruence.
Qed.

(** The stop hands the session over to the cleanup it starts. *)
Lemma threads_spawn L rs i sid st t :
  threads_know L rs -> rs !! i = Some (Marked sid st t) ->
  threads_know (<[sid := Cleaning st t]> L) (<[i := StopDone sid]> rs ++ [ToClean sid st t]).
Proof.
  intros Htk Hi. pose proof (lookup_lt_Some _ _ _ Hi) as Hlt. pose proof Htk as [Hk Hnd Hcl Ho].
  assert (HL : L sid = Stopped st t) by exact (Hk _ _ Hi).
  assert (Hstep : life_step sid KStop (L sid) (Cleaning st t)) by (rewrite HL; constructor).
  assert (Hfresh : forall j r, rs !! j = Some r -> role_key r <> (KClean, sid)).
  { intros j r Hj Hkey. specialize (Hk _ _ Hj). unfold sess in Hk. rewrite Hkey in Hk. cbn in Hk.
    rewrite HL in Hk. by destruct r. }
  split; rewrite ?fmap_app, ?(same_keys _ _ _ _ Hi).
  - intros j r [Hj|[_ [_ <-]%list_lookup_singleton_Some]]%lookup_app_Some.
    + destruct (decide (i = j)) as [<-|Hne].
      * rewrite list_lookup_insert_eq in Hj by done. injection Hj as <-. cbn. by rewrite fn_lookup_insert.
      * rewrite list_lookup_insert_ne in Hj by done. by eapply (others_still_know L rs i j (Marked sid st t)).
    + cbn. by rewrite fn_lookup_insert.
  - apply stdpp.list_relations.list.NoDup_app. split; [done|]. split; [|apply NoDup_singleton].
    intros k (r & -> & [j Hj]%list_elem_of_lookup)%list_elem_of_fmap Hin.
    apply list_elem_of_singleton in Hin. by eapply Hfresh.
  - done.
  - intros j k Hj. apply lookup_app_l_Some. by apply Hcl.
  - done.
  - intros sid' Hu. destruct (decide (sid = sid')) as [<-|Hne].
    + exists (length rs), (ToClean sid st t). rewrite lookup_app_r by (by rewrite length_insert).
      by rewrite length_insert, Nat.sub_diag.
    + rewrite fn_lookup_insert_ne in Hu by done. destruct (Ho sid' Hu) as (j & r & Hj & Hsj & Hbj).
      exists j, r. split; [|done]. apply lookup_app_l_Some. rewrite list_lookup_insert_ne; [done|].
      intros ->. rewrite Hi in Hj. by injection Hj as <-.
Qed.

(** *** Steps of the memory *)

(** A life that changes hands only, its session keeping entry and port. *)
Lemma lives_quiet s L sid l' :
  reflects s L -> entry l' = entry (L sid) -> port_of l' = port_of (L sid) -> reflects s (<[sid := l']> L).
Proof.
  intros [Hwf Hh Hn Ha Hi Ht] He Hp.
  assert (HE : forall sid', entry ((<[sid := l']> L) sid') = entry (L sid')).
  { intros sid'. destruct (decide (sid = sid')) as [<-|Hne]; [by rewrite fn_lookup_insert|by rewrite fn_lookup_insert_ne]. }
  assert (HP : forall sid', port_of ((<[sid := l']> L) sid') = port_of (L sid')).
  { intros sid'. destruct (decide (sid = sid')) as [<-|Hne]; [by rewrite fn_lookup_insert|by rewrite fn_lookup_insert_ne]. }
  split; try done.
  - intros p sid'. by rewrite HP.
  - intros p sid'. rewrite HP. apply Hn.
  - intros sid'. by rewrite HE.
Qed.

(** A port that nobody held is held from now on. *)
Lemma lives_allocate s L sid p pm' l' :
  reflects s L -> pm_wf pm' -> held (get s) !! p = None -> held pm' = <[p := sid]> (held (get s)) ->
  port_of (L sid) = None -> port_of l' = Some p -> entry l' = entry (L sid) ->
  reflects (set pm' s) (<[sid := l']> L).
Proof.
  intros [Hwf Hh Hn Ha Hi Ht] Hwf' Hp Hheld HL Hl' He.
  split; rewrite ?get_set, ?get_set_l; try done.
  - intros q sid'. rewrite Hheld, lookup_insert. destruct (decide (sid = sid')) as [<-|Hne].
    + rewrite fn_lookup_insert, Hl'. case_decide as Hpq.
      * subst q. split; [by right|done].
      * rewrite Hh, HL. split; intros [?|[=]]; by left.
    + rewrite fn_lookup_insert_ne by done. case_decide as Hpq; [|apply Hh].
      subst q. split; [intros [= <-]; done|]. intros Hx. apply Hh in Hx. congruence.
  - intros q sid'. destruct (decide (sid = sid')) as [<-|Hne].
    + rewrite fn_lookup_insert, Hl'. intros [= <-]. destruct (held0 !! p) as [x|] eqn:Hx; [|done].
      assert (held (get s) !! p = Some x) by (apply Hh; by left). congruence.
    + rewrite fn_lookup_insert_ne by done. apply Hn.
  - intros sid'. destruct (decide (sid = sid')) as [<-|Hne].
    + by rewrite fn_lookup_insert, He.
    + by rewrite fn_lookup_insert_ne.
Qed.

(** And a port that the session held is free again. *)
Lemma lives_release s L sid p pm' l' :
  reflects s L -> pm_wf pm' -> port_of (L sid) = Some p -> held pm' = delete p (held (get s)) ->
  port_of l' = None -> entry l' = entry (L sid) -> reflects (set pm' s) (<[sid := l']> L).
Proof.
  intros [Hwf Hh Hn Ha Hi Ht] Hwf' HL Hheld Hl' He.
  assert (Hp : held (get s) !! p = Some sid) by (apply Hh; by right).
  split; rewrite ?get_set, ?get_set_l; try done.
  - intros q sid'. rewrite Hheld, lookup_delete. destruct (decide (sid = sid')) as [<-|Hne].
    + rewrite fn_lookup_insert, Hl'. case_decide as Hpq.
      * subst q. split; [done|]. intros [Hx|[=]]. by rewrite (Hn _ _ HL) in Hx.
      * rewrite Hh, HL. split; intros [?|Hx]; [by left|congruence|by left|done].
    + rewrite fn_lookup_insert_ne by done. case_decide as Hpq; [|apply Hh].
      subst q. split; [done|]. intros Hx. apply Hh in Hx. congruence.
  - intros q sid'. destruct (decide (sid = sid')) as [<-|Hne].
    + by rewrite fn_lookup_insert, Hl'.
    + rewrite fn_lookup_insert_ne by done. apply Hn.
  - intros sid'. destruct (decide (sid = sid')) as [<-|Hne].
    + by rewrite fn_lookup_insert, He.
    + by rewrite fn_lookup_insert_ne.
Qed.

(** The executor's map changes at one session. *)
Lemma reflects_track s L sid m l' :
  reflects s L -> m !! sid = entry l' -> (forall sid', sid' <> sid -> m !! sid' = activeRentals (get s) !! sid') ->
  port_of l' = port_of (L sid) -> reflects (set (set_activeRentals (get s) m) s) (<[sid := l']> L).
Proof.
  intros [Hwf Hh Hn Ha Hi Ht] Hm Ho Hp.
  assert (HP : forall sid', port_of ((<[sid := l']> L) sid') = port_of (L sid')).
  { intros sid'. destruct (decide (sid = sid')) as [<-|Hne]; [by rewrite fn_lookup_insert|by rewrite fn_lookup_insert_ne]. }
  split; rewrite ?get_set, ?get_set_r; try done.
  - intros p sid'. by rewrite HP.
  - intros p sid'. rewrite HP. apply Hn.
  - intros sid'. cbn. destruct (decide (sid = sid')) as [<-|Hne].
    + by rewrite fn_lookup_insert.
    + rewrite fn_lookup_insert_ne, Ho by done. apply Ha.
Qed.

(** *** The steps that the protocol allows *)

Notation may := (may lives_step lifecycle).

Lemma may_move r0 r (P : S -> Prop) (f : S -> S) :
  role_key r = role_key r0 ->
  (forall s L, reflects s L -> knows r0 (L (sess r0)) -> P s -> exists L', moves r0 L r L' /\ reflects (f s) L') ->
  may r0 P f r.
Proof.
  intros Hkey Hm s L rs i [Hrf Htk] Hi HP.
  destruct (Hm s L Hrf (tk_knows _ _ Htk _ _ Hi) HP) as (L' & Hmv & Hrf').
  exists L'. split; [by eapply moves_lives|]. split; [done|]. by eapply threads_move.
Qed.

(** The role's own step. *)
Lemma moves_own k sid l r0 r L l' :
  role_key r0 = (k, sid) -> L sid = l -> life_step sid k l l' -> knows r l' -> (unsettled l' -> busy r) ->
  moves r0 L r (<[sid := l']> L).
Proof. intros Hk <- Hs Hr Hb. by apply (moves_on _ _ _ k). Qed.

Lemma may_track sid (f : gmap string RentalState -> gmap string RentalState) k r0 r l' :
  role_key r0 = (k, sid) -> role_key r = (k, sid) -> knows r l' -> (unsettled l' -> busy r) ->
  (forall l, knows r0 l -> life_step sid k l l' /\ port_of l' = port_of l) ->
  (forall act, f act !! sid = entry l') -> (forall act sid', sid' <> sid -> f act !! sid' = act !! sid') ->
  may r0 (fun _ => True) (fun s => set (set_activeRentals (get s) (f (activeRentals (get s)))) s) r.
Proof.
  intros Hr0 Hr Hkn Hb Hl Hf Hfo. apply may_move; [congruence|]. unfold sess. rewrite Hr0. cbn.
  intros s L Hs HL _. destruct (Hl _ HL) as [Hstep Hport].
  exists (<[sid := l']> L). split; [by eapply moves_own|]. apply reflects_track; auto.
Qed.

Lemma lifecycle_start sid :
  start_protocol lives_step lifecycle sid (Starting sid) (Starting sid) (StartFailed sid) (Holding sid) (Started sid).
Proof.
  split.
  - apply may_move; [done|]. intros s L Hs HL [st Hst]. cbn in HL. by rewrite (rf_active _ _ Hs), HL in Hst.
  - apply may_move; [done|]. intros s L Hs HL _. exists L. split; [by constructor|done].
  - intros p pm Hwf. apply may_move; [done|]. cbn. intros s L Hs HL [Hp Hh].
    exists (<[sid := Owning p]> L). split; [by eapply moves_own; [..|constructor| |]|].
    eapply lives_allocate; rewrite ?HL; done.
  - apply may_move; [done|]. cbn. intros s L Hs HL _.
    exists (<[sid := Failed]> L). split; [by eapply moves_own; [..|constructor| |]|]. apply lives_quiet; [done|by rewrite HL..].
  - intros p s L rs i [Hs Htk] Hi. exists sid. apply (rf_held _ _ Hs). right.
    pose proof (tk_knows _ _ Htk _ _ Hi) as HL. cbn in HL. by rewrite HL.
  - intros p pm Hwf. apply may_move; [done|]. cbn. intros s L Hs HL Hh.
    exists (<[sid := Failed]> L). split; [by eapply moves_own; [..|constructor| |]|].
    eapply lives_release; rewrite ?HL; done.
  - intros st Hsid Hst. eapply (may_track sid (fun act => <[sid := st]> act) KStart _ _ (Active st)); try done.
    + cbn. intros l ->. split; [by constructor|done].
    + intros act. by rewrite lookup_insert_eq.
    + intros act sid' Hne. by rewrite lookup_insert_ne.
Qed.

(** *** The methods *)

(** A cleanup that has come to its end. *)
Definition cleaned g : Prop := exists sid st, g_role g = Cleaned sid st.

Notation OK := (ok (E := E) lives_step (inv lifecycle) outside cleaned).

(** What a start returns, and what its session has become. *)
Definition start_ended (sid : string) (x : option ConnectionInfo * option error) g : Prop :=
  match x with
  | (Some ci, None) => exists st, g_role g = Started sid st /\ rs_SSHPort st = conn_Port ci /\
                                  rs_ContainerID st = conn_ContainerID ci
  | (None, Some _) => g_role g = StartFailed sid
  | _ => False
  end.

(** What a stop returns. *)
Definition stop_ended (sid : string) (x : option error) g : Prop :=
  match x with
  | None => g_role g = StopDone sid
  | Some e => (g_role g = Stopping sid /\ e = ErrSessionNotFound) \/ exists st t, g_role g = Marked sid st t
  end.

Lemma ok_scheduleCleanup sid st t t0 R :
  (forall g', outside g' -> cleaned g' -> R tt g') ->
  OK (scheduleCleanup sid (rs_ContainerID st) (rs_SSHPort st)) R (idle (ToClean sid st t) t0).
Proof.
  intros HR. unfold scheduleCleanup. apply ok_load_re_same. intros s L rs i _ _ _.
  apply ok_sleep. intros t1 _ Ht1. apply (ok_call _ _ _). intros _ t2 Ht2. apply ok_bind.
  apply (ok_Release _ _ _ _ _ lifecycle_protocol _ (Freed sid st t)); [done| | |].
  - intros s' L' rs' i' [Hs Htk] Hi. exists sid. apply (rf_held _ _ Hs). right.
    pose proof (tk_knows _ _ Htk _ _ Hi) as HL. cbn in HL. by rewrite HL.
  - intros pm Hwf. apply may_move; [done|]. cbn. intros s' L' Hs HL Hh.
    exists (<[sid := Released st t]> L'). split; [by eapply moves_own; [..|constructor| |]|].
    eapply lives_release; rewrite ?HL; done.
  - intros _ t3 Ht3. apply ok_lock_rental; [done|]. cbn [g_role g_clk idle]. intros re1.
    apply (ok_update_re _ _ _ (fun _ => _) _ _ _ re1 (Cleaned sid st)); [done| |].
    + intros s' L' rs' i' HI Hi _.
      eapply (may_track sid (fun act => delete sid act) KClean (Freed sid st t) _ (Deleted st)); try done.
      * cbn. intros l ->. split; [constructor|done].
      * intros act. by rewrite lookup_delete_eq.
      * intros act sid' Hne. by rewrite lookup_delete_ne.
    + intros re2. apply (ok_unlock_rental _ _ _ _ _ _ re2); [done|]. apply HR; [done|]. by exists sid, st.
Qed.

(** Starting the cleanup. *)
Lemma ok_schedule {Y} (k : prog DockerServiceInterface S Y) (p : prog DockerServiceInterface S unit) R sid st t t0 :
  OK k R (idle (StopDone sid) t0) ->
  OK p (fun _ g' => outside g' /\ cleaned g') (idle (ToClean sid st t) t0) ->
  OK (Go p k) R (idle (Marked sid st t) t0).
Proof.
  intros Hk Hp i w L gs Hi Hinv.
  exists (idle (StopDone sid) t0), (idle (ToClean sid st t) t0), (<[sid := Cleaning st t]> L).
  destruct (inv_protocol _ _ _ _ Hinv) as [Hrf Htk]. pose proof (view_role _ _ _ Hi) as Hrole. cbn [idle g_role] in Hrole.
  assert (HL : L sid = Stopped st t) by exact (tk_knows _ _ Htk _ _ Hrole).
  split; [|split; [|by split]].
  { apply rtc_once. exists sid, KStop, (Cleaning st t). split; [|done]. rewrite HL. constructor. }
  pose proof (inv_clk _ _ _ _ Hinv) as Hclk. pose proof (Hclk _ _ Hi) as Hgc.
  split; rewrite ?fmap_app, ?list_fmap_insert; cbn [g_pm g_re g_role idle fmap list_fmap].
  - apply guarded_spawn. rewrite list_insert_id by exact (view_pm _ _ _ Hi). apply Hinv.
  - apply guarded_spawn. rewrite list_insert_id by exact (view_re _ _ _ Hi). apply Hinv.
  - apply Hinv.
  - intros j h [Hj|[_ [_ <-]%list_lookup_singleton_Some]]%lookup_app_Some; [|done].
    apply list_lookup_insert_Some in Hj as [(_ & <- & _)|[_ Hj]]; [done|by eapply Hclk].
  - split; [|by apply threads_spawn]. apply lives_quiet; [done|by rewrite HL..].
Qed.

Lemma ok_StopRental c sid t0 R :
  (forall x g', outside g' -> stop_ended sid x g' -> R x g') ->
  OK (StopRental c sid) R (idle (Stopping sid) t0).
Proof.
  intros HR. unfold StopRental. apply ok_lock_rental; [done|]. intros re0.
  apply ok_load_re_same. cbn [g_role g_re g_clk idle]. intros s0 L0 rs0 i0 _ _ Hview.
  rewrite (Hview re0 eq_refl). clear s0 L0 rs0 i0 Hview.
  destruct (activeRentals re0 !! sid) as [st|] eqn:Hst.
  - apply ok_now. cbn [g_clk]. intros t Ht.
    apply (ok_update_re _ _ _ (fun _ => _) _ _ _ re0 (Marked sid st t)); [done| |].
    + apply may_move; [done|]. cbn. intros s L Hs HL Hre.
      pose proof (rf_active _ _ Hs sid) as Ha. rewrite Hre, Hst in Ha.
      assert (L sid = Active st) as HA by (destruct (L sid); cbn in *; by simplify_eq).
      exists (<[sid := Stopped st t]> L). split; [by eapply moves_own; [..|constructor| |]|].
      rewrite <- Hre. apply reflects_track; [done|by rewrite lookup_insert_eq| |by rewrite HA].
      intros sid' Hne. by rewrite lookup_insert_ne.
    + intros re1. apply (ok_unlock_rental _ _ _ _ _ _ re1); [done|]. apply (ok_call _ _ _).
      intros [e|] t1 Ht1.
      * apply HR; [done|]. right. by exists st, t.
      * apply ok_schedule; [by apply HR|]. apply ok_scheduleCleanup. by split.
  - apply (ok_unlock_rental _ _ _ _ _ _ re0); [done|]. apply HR; [done|]. by left.
Qed.

(** ** The calls of the pool *)

Inductive rental_call : Type :=
| CallStart (c : ctx) (req : StartRentalRequest)
| CallStop (c : ctx) (sid : string).

Inductive rental_reply : Type :=
| StartReply (r : option ConnectionInfo * option error)
| StopReply (r : option error).

Definition rental_method (o : rental_call) : prog DockerServiceInterface S rental_reply :=
  match o with
  | CallStart c req => bind (StartRental c req) (fun x => Ret (StartReply x))
  | CallStop c sid => bind (StopRental c sid) (fun x => Ret (StopReply x))
  end.

Definition call_key (o : rental_call) : kind * string :=
  match o with CallStart _ req => (KStart, req_SessionID req) | CallStop _ sid => (KStop, sid) end.

Definition call_role (o : rental_call) : role :=
  match o with CallStart _ req => Starting (req_SessionID req) | CallStop _ sid => Stopping sid end.

(** What a reply says of the thread that got it. *)
Definition replied (x : rental_reply) g : Prop :=
  match x with
  | StartReply x => start_ended (sess (g_role g)) x g
  | StopReply x => stop_ended (sess (g_role g)) x g
  end.

Lemma ok_method o t :
  OK (bind (rental_method o) (fun x => Ret (Some x))) (ended outside replied cleaned) (idle (call_role o) t).
Proof.
  destruct o as [c req|c sid]; cbn [rental_method call_role]; apply ok_bind, ok_bind.
  - eapply ok_StartRental; [exact Hinterval|exact Htimeout|apply lifecycle_protocol|apply lifecycle_start|done|].
    intros ci st t' Hp Hid. split; [done|]. by exists st.
  - apply ok_StopRental. intros r g' Ho Hr. split; [done|]. cbn [replied].
    assert (Hs : sess (g_role g') = sid); [|by rewrite Hs].
    destruct r as [e|]; [destruct Hr as [[-> _]|(st & t' & ->)]|rewrite Hr]; done.
Qed.

Lemma start_simulated w (calls : list rental_call) :
  keys = call_key <$> calls -> NoDup (call_key <$> calls) -> locks w = ∅ ->
  pm_wf (get (mem w)) -> held0 = held (get (mem w)) ->
  activeRentals (get (mem w)) = ∅ -> healthInterval (get (T := RentalExecutor) (mem w)) = interval ->
  healthTimeout (get (T := RentalExecutor) (mem w)) = timeout ->
  simulated lives_step (inv lifecycle) outside replied cleaned (start_pool w (rental_method <$> calls)) (fun _ => Idle).
Proof.
  intros Hkeys Hnd Hl Hwf Hh Hact Hi Ht.
  exists ((fun r => idle r (clk w)) <$> (call_role <$> calls)). split.
  - assert (Hrk : role_key <$> (call_role <$> calls) = call_key <$> calls).
    { rewrite <- list_fmap_compose. apply list_fmap_ext. by intros i []. }
    apply inv_start; [done|]. cbn [start_pool pl_world]. split; split; rewrite ?Hrk; try done.
    + intros p sid. rewrite Hh. split; [by left|by intros [|[=]]].
    + intros sid. by rewrite Hact, lookup_empty.
    + intros j r Hj. apply list_lookup_fmap_Some in Hj as (o & -> & _). by destruct o.
    + by rewrite Hkeys.
  - unfold start_pool; cbn [pl_threads].
    apply Forall2_fmap_l, Forall2_fmap_l, Forall2_fmap_r, Forall2_fmap_r.
    apply Forall2_same_length_lookup_2; [done|]. intros i o o' Ho Ho'.
    rewrite Ho in Ho'. injection Ho' as <-. apply ok_method.
Qed.

(** A thread that has returned has nothing left to do. *)
Lemma ended_not_busy x g : ended outside replied cleaned x g -> ~ busy (g_role g).
Proof.
  intros [_ Hr]. destruct x as [[[[ci|] [e|]]|[e|]]|]; cbn in Hr; try done.
  - destruct Hr as (st & Hr & _). rewrite Hr. by intros [].
  - rewrite Hr. by intros [].
  - destruct Hr as [[Hr _]|(st & t & Hr)]; rewrite Hr; by intros [].
  - rewrite Hr. by intros [].
  - destruct Hr as (sid & st & Hr). rewrite Hr. by intros [].
Qed.

End Protocol.

(** ** The refinement *)

(** What a reply says of the life of its session. *)
Definition reply_true (o : rental_call) (r : rental_reply) (L : string -> life) : Prop :=
  match o, r with
  | CallStart _ req, StartReply (Some ci, None) =>
      exists st, tracked (L (req_SessionID req)) = Some st /\ rs_SSHPort st = conn_Port ci /\
        rs_ContainerID st = conn_ContainerID ci
  | CallStart _ req, StartReply (None, Some _) => L (req_SessionID req) = Failed
  | CallStop _ sid, StopReply None => after_stop (L sid)
  | CallStop _ sid, StopReply (Some e) =>
      (before_stop (L sid) /\ e = ErrSessionNotFound) \/ exists st t, L sid = Stopped st t
  | _, _ => False
  end.

Section Properties.
Context {S : Type} `{FP : !Field S PortManager} `{FR : !Field S RentalExecutor}
        `{D : !Disjoint S PortManager RentalExecutor} `{E : !Environment DockerServiceInterface}.
Implicit Types (w : world DockerServiceInterface S) (L : string -> life).

Lemma replied_true o r g L :
  role_key (g_role g) = call_key o -> replied r g ->
  knows (g_role g) (L (sess (g_role g))) -> reply_true o r L.
Proof.
  unfold replied, sess. intros Hk Hr HL. rewrite Hk in Hr, HL.
  destruct o as [c req|c sid], r as [[[ci|] [e|]]|[e|]]; cbn in *; try done.
  all: try (by destruct Hr as (st & Hg & _); rewrite Hg in Hk).
  all: try (by rewrite Hr in Hk).
  - destruct Hr as (st & Hg & Hp & Hid). rewrite Hg in HL. by exists st.
  - by rewrite Hr in HL.
  - by destruct Hr as [[Hg _]|(st & t & Hg)]; rewrite Hg in Hk.
  - destruct Hr as [[Hg He]|(st & t & Hg)]; rewrite Hg in HL; [by left|right; by exists st, t].
  - by rewrite Hr in HL.
Qed.

(** C1: Rentals in parallel.  Goroutines start and stop sessions and cleanups
    run in the background, from an executor that tracks no rental; no session
    is started twice or stopped twice.  Then, whatever the interleaving of their steps, every session goes through the life of the
    abstract machine, at every moment the sessions that hold a port and those
    that are tracked are the ones their lives say, so that no two rentals that
    are running share a port, and what a call returned is true of its session.
    All goroutines can always be brought to their end, after which no mutex is
    taken and every session is settled: no port is left with a start that
    failed or a session that was cleaned up. *)
Theorem rentals_interleaved w (calls : list rental_call) c :
  locks w = ∅ -> pm_wf (get (mem w)) -> activeRentals (get (mem w)) = ∅ ->
  0 < healthInterval (get (mem w)) -> 0 <= healthTimeout (get (mem w)) ->
  NoDup (call_key <$> calls) ->
  steps_to (start_pool w (rental_method <$> calls)) c ->
  (exists L, rtc lives_step (fun _ => Idle) L /\
    (forall p sid, held (get (mem (pl_world c))) !! p = Some sid <->
       held (get (mem w)) !! p = Some sid \/ port_of (L sid) = Some p) /\
    (forall sid, activeRentals (get (mem (pl_world c))) !! sid = entry (L sid)) /\
    (forall sid st, activeRentals (get (mem (pl_world c))) !! sid = Some st -> rs_StoppedAt st = None ->
       held (get (mem (pl_world c))) !! rs_SSHPort st = Some sid) /\
    (forall i o r, calls !! i = Some o -> returned i c r -> reply_true o r L) /\
    (all_returned c -> locks (pl_world c) = ∅ /\ forall sid, ~ unsettled (L sid))) /\
  exists c', steps_to c c' /\ all_returned c'.
Proof.
  intros Hl Hwf Hact Hi Ht Hnd Hs.
  pose proof (start_simulated (held (get (mem w))) (healthInterval (get (mem w))) (healthTimeout (get (mem w)))
                (call_key <$> calls) Hi Ht w calls eq_refl Hnd Hl Hwf eq_refl Hact eq_refl eq_refl) as Hsim.
  destruct (steps_simulated _ _ _ _ _ _ _ _ Hsim Hs) as (L & HL & Hsim').
  split.
  - destruct Hsim' as (gs & Hinv & Hts). destruct (inv_protocol _ _ _ _ Hinv) as [Hrf Htk].
    exists L. split; [done|]. split; [apply Hrf|]. split; [apply Hrf|]. split; [|split].
    + intros sid st Ha Hst. rewrite (rf_active _ _ _ _ _ Hrf) in Ha. apply (rf_held _ _ _ _ _ Hrf). right.
      by destruct (L sid); cbn in *; simplify_eq.
    + intros i o r Ho Hr. destruct (Forall2_lookup_l _ _ _ _ _ Hts Hr) as (g & Hg & [_ Hrep]).
      eapply replied_true; [|exact Hrep|exact (tk_knows _ _ _ Htk _ _ (view_role _ _ _ Hg))].
      pose proof (tk_calls _ _ _ Htk i (call_key o)) as Hk. rewrite !list_lookup_fmap, Ho, Hg in Hk.
      specialize (Hk eq_refl). by injection Hk.
    + intros Hall.
      assert (Hend : forall j g, gs !! j = Some g -> exists r, ended outside replied cleaned r g).
      { intros j g Hg. destruct (Forall2_lookup_r _ _ _ _ _ Hts Hg) as (p & Hp & Hok).
        destruct (Hall _ _ Hp) as [r ->]. by exists r. }
      split.
      * eapply all_free; [exact Hinv|]. intros j g Hg. by destruct (Hend _ _ Hg) as (r & Ho & _).
      * intros sid Hu. destruct (tk_owner _ _ _ Htk sid Hu) as (j & r0 & Hr0 & _ & Hb).
        apply list_lookup_fmap_Some in Hr0 as (g & -> & Hg).
        destruct (Hend _ _ Hg) as [r Hr]. by eapply ended_not_busy.
  - destruct (steps_complete _ _ _ _ _ (fun m w' L' gs => inv_taken _ m w' L' gs) _ _ Hsim')
      as (c' & _ & Hs' & _ & _ & Hall). by exists c'.
Qed.

End Properties.

(** ** Witness *)

(** Two sessions start at once, and one of them is stopped. *)
Definition rental_req2 : StartRentalRequest :=
  MkStartRentalRequest "session-456" "ubuntu:22.04" "GPU-uuid-789" "pw" 0 4 "provider.example.com".
Definition parallel_calls : list rental_call :=
  [CallStart Background rental_req; CallStart Background rental_req2; CallStop Background "session-123"].

Definition parallel_schedule : list nat :=
  [0; 1; 0; 0; 1; 1; 0; 1; 0; 0; 1; 0; 0; 1; 1; 1; 1]%nat ++ replicate 40 0%nat ++ replicate 40 1%nat ++ replicate 40 2%nat.

Definition parallel_pool : @pool DockerServiceInterface (PortManager * RentalExecutor) rental_reply (mock_svc_env mock_ok) :=
  run_schedule parallel_schedule (start_pool (rental_world mock_ok) (rental_method <$> parallel_calls)).

Lemma rentals_interleaved_witness :
  (exists L, (forall sid, activeRentals (get (mem (pl_world parallel_pool))) !! sid = entry (L sid)) /\
    (exists st, tracked (L "session-456") = Some st /\ rs_SSHPort st = 30001) /\ after_stop (L "session-123")) /\
  exists c', steps_to parallel_pool c' /\ all_returned c'.
Proof.
  assert (H2 : pl_threads parallel_pool !! 1%nat =
    Some (Ret (Some (StartReply (Some (connection_info rental_req2 30001 "container-123"), None))))) by reflexivity.
  assert (H3 : pl_threads parallel_pool !! 2%nat = Some (Ret (Some (StopReply None)))) by reflexivity.
  destruct (rentals_interleaved (rental_world mock_ok) parallel_calls parallel_pool)
    as [(L & _ & _ & Ha & _ & Hr & _) Hc].
  - reflexivity.
  - exact (rr_ready _ (rental_world_ready mock_ok)).
  - reflexivity.
  - reflexivity.
  - vm_compute. discriminate.
  - apply (bool_decide_unpack _). reflexivity.
  - apply run_schedule_steps.
  - split; [|exact Hc]. exists L. split; [exact Ha|]. split.
    + destruct (Hr 1%nat _ _ eq_refl H2) as (st & Ht & Hp & _). exists st. split; [exact Ht|exact Hp].
    + exact (Hr 2%nat _ _ eq_refl H3).
Defined.
