(* ===== verification/Preemption.v ===== *)
(** Mining in parallel: every interleaving of the mining daemon's operations.

    Starts, stops, pauses, resumptions, status queries and monitors run as
    goroutines next to each other and next to the restarts that pauses start
    ([Threads]).  Their critical sections are not one per call: a pause lets go of
    the mutex to start a goroutine, a tick and a resumption do so before they
    start mining again.  The invariant of [Mining] holds whenever the mutex is
    free, and a GPU stays rented once its pause has marked it. *)

From Stdlib Require Import ZArith Lia String.
From stdpp Require Import base numbers strings list gmap relations.
From S2P Require Import Prelude.
From S2P Require Import Effects.
From S2P Require Import Container.
From S2P Require Import Mining.
From S2P Require Import Threads.

(** Docker's identifiers have at least the twelve characters that are logged. *)
Class LongContainerIDs (E : Environment DockerServiceInterface) : Prop :=
  long_container_ids : forall c cfg t e id,
    fst (env_call (svc_CreateContainer c cfg : op DockerServiceInterface) t e) = (id, None) ->
    short_id id = false.

(** ** The calls of the pool *)

Inductive mining_call : Type :=
| CallStartMining (c : ctx)
| CallStopMining (c : ctx)
| CallPause (c : ctx) (gpus : list string)
| CallResume (c : ctx) (gpus : list string)
| CallStatus
| CallMonitor (c : ctx) (events : list monitor_event).

Section Methods.
Context {S : Type} `{F : !Field S MiningDaemon}.

(** A thread that is through says which call it has made. *)
Definition mining_method (o : mining_call) : prog DockerServiceInterface S mining_call :=
  (match o with
   | CallStartMining c => _ <- Start c ;; Ret o
   | CallStopMining c => _ <- Stop c ;; Ret o
   | CallPause c gpus => _ <- PauseForRental c gpus ;; Ret o
   | CallResume c gpus => _ <- ResumeAfterRental c gpus ;; Ret o
   | CallStatus => _ <- Status ;; Ret o
   | CallMonitor c events => _ <- MonitorLoop c events ;; Ret o
   end)%go.
End Methods.

(** ** The invariant *)

(** What a thread knows: the daemon it sees in its section, how daemon and calls
    were when it entered, the calls it has made since, and whether it has marked
    the GPU as rented. *)
Record ghost : Type := MkGhost {
  g_in : option MiningDaemon;
  g_start : MiningDaemon;
  g_before : trace;
  g_since : trace;
  g_marked : bool;
}.

Definition outside (g : ghost) : Prop := g_in g = None.

Section Invariant.
Context {S : Type} `{F : !Field S MiningDaemon} `{E : !Environment DockerServiceInterface} `{L : !LongContainerIDs E}.
(** A GPU that no call resumes. *)
Context (gpu : string).
Implicit Types (w : world DockerServiceInterface S) (m : MiningDaemon) (g : ghost) (gs : list ghost) (tr : trace).

Record inv w (γ : unit) gs : Prop := {
  inv_lock : guarded (locks w !! mining_mu) (md_of w) (g_in <$> gs);
  inv_others : forall mu, mu <> mining_mu -> locks w !! mu = None;
  inv_free : locks w !! mining_mu = None -> mining_inv (md_of w) (calls w);
  inv_inside : forall i g m, gs !! i = Some g -> g_in g = Some m ->
    calls w = g_before g ++ g_since g /\ mining_inv (g_start g) (g_before g);
  inv_long : long_or_none (md_containerID (md_of w));
  inv_marked : forall i g, gs !! i = Some g -> g_marked g = true -> rented (md_of w) gpu = true;
}.

Notation OK := (ok (E := E) (fun _ _ : unit => True) inv outside (fun _ => True)).

Lemma view gs i g : gs !! i = Some g -> (g_in <$> gs) !! i = Some (g_in g).
Proof. intros Hi. by rewrite list_lookup_fmap, Hi. Qed.

(** The thread inside is alone there. *)
Lemma alone w gs i g m j h m' :
  inv w tt gs -> gs !! i = Some g -> g_in g = Some m -> gs !! j = Some h -> g_in h = Some m' -> i = j.
Proof.
  intros Hinv Hi Hg Hj Hh. pose proof (view _ _ _ Hi) as Hv. rewrite Hg in Hv.
  destruct (guarded_inside _ _ _ _ _ (inv_lock _ _ _ Hinv) Hv) as (_ & _ & Ho).
  destruct (decide (i = j)) as [|Hne]; [done|]. specialize (Ho j (g_in h) Hne (view _ _ _ Hj)). congruence.
Qed.

(** An effect that makes no call and leaves memory and mutexes alone. *)
Lemma ok_clock {Y} (k : Z -> prog DockerServiceInterface S Y) R g :
  (forall t, OK (k t) R g) -> OK (bind (eff1 Now) k) R g.
Proof.
  intros Hk i w [] gs Hi Hinv. cbn [do_eff]. exists g, tt. split; [done|]. split; [|apply Hk].
  rewrite list_insert_id by done. destruct Hinv. by split; rewrite ?md_of_advance, ?advance_locks, ?advance_calls.
Qed.

Lemma ok_lock {Y} (k : unit -> prog DockerServiceInterface S Y) R g :
  outside g ->
  (forall m cs, mining_inv m cs -> long_or_none (md_containerID m) -> OK (k tt) R (MkGhost (Some m) m cs [] (g_marked g))) ->
  OK (Eff (Lock mining_mu) k) R g.
Proof.
  intros Ho Hk i w [] gs Hi Hinv. cbn [do_eff]. destruct (locks w !! mining_mu) eqn:Hl; [done|].
  pose proof (inv_free _ _ _ Hinv Hl) as Hmi. pose proof (inv_lock _ _ _ Hinv) as Hlk. rewrite Hl in Hlk.
  eexists (MkGhost (Some (md_of w)) (md_of w) (calls w) [] (g_marked g)), tt. split; [done|].
  split; [|apply Hk; [done|apply Hinv]].
  pose proof (lookup_lt_Some _ _ _ Hi) as Hlt.
  split; rewrite ?locks_set_locks, ?calls_set_locks, ?list_fmap_insert; try apply Hinv.
  - rewrite lookup_insert_eq. eapply guarded_enter; [done|by apply view].
  - intros mu Hmu. rewrite lookup_insert_ne by done. by apply Hinv.
  - by rewrite lookup_insert_eq.
  - intros j h m Hj Hh. destruct (decide (i = j)) as [<-|Hne].
    + rewrite list_lookup_insert_eq in Hj by done. injection Hj as <-. cbn. by rewrite app_nil_r.
    + rewrite list_lookup_insert_ne in Hj by done. specialize (Hlk _ _ (view _ _ _ Hj)). congruence.
  - intros j h Hj Hh. destruct (decide (i = j)) as [<-|Hne].
    + rewrite list_lookup_insert_eq in Hj by done. injection Hj as <-. exact (inv_marked _ _ _ Hinv _ _ Hi Hh).
    + rewrite list_lookup_insert_ne in Hj by done. exact (inv_marked _ _ _ Hinv _ _ Hj Hh).
Qed.

Lemma ok_unlock {Y} (k : unit -> prog DockerServiceInterface S Y) R g m :
  g_in g = Some m -> mining_inv m (g_before g ++ g_since g) ->
  OK (k tt) R (MkGhost None m [] [] (g_marked g)) -> OK (Eff (Unlock mining_mu) k) R g.
Proof.
  intros Hg Hm Hk i w [] gs Hi Hinv. cbn [do_eff]. pose proof (view _ _ _ Hi) as Hv. rewrite Hg in Hv.
  destruct (guarded_inside _ _ _ _ _ (inv_lock _ _ _ Hinv) Hv) as (-> & Hmd & Ho).
  eexists _, tt. split; [done|]. split; [|exact Hk]. pose proof (lookup_lt_Some _ _ _ Hi) as Hlt.
  destruct (inv_inside _ _ _ Hinv _ _ _ Hi Hg) as [Hc _].
  split; rewrite ?locks_set_locks, ?calls_set_locks, ?list_fmap_insert; try apply Hinv.
  - rewrite lookup_delete_eq. eapply guarded_leave; [apply Hinv|done].
  - intros mu Hmu. rewrite lookup_delete_ne by done. by apply Hinv.
  - intros _. rewrite Hc. change (mining_inv (md_of w) (g_before g ++ g_since g)). by rewrite <- Hmd.
  - intros j h m' Hj Hh. exfalso. destruct (decide (i = j)) as [<-|Hne].
    + rewrite list_lookup_insert_eq in Hj by done. by injection Hj as <-.
    + rewrite list_lookup_insert_ne in Hj by done. specialize (Ho _ _ Hne (view _ _ _ Hj)). congruence.
  - intros j h Hj Hh. destruct (decide (i = j)) as [<-|Hne].
    + rewrite list_lookup_insert_eq in Hj by done. injection Hj as <-. exact (inv_marked _ _ _ Hinv _ _ Hi Hh).
    + rewrite list_lookup_insert_ne in Hj by done. exact (inv_marked _ _ _ Hinv _ _ Hj Hh).
Qed.

Lemma ok_load {Y} (k : MiningDaemon -> prog DockerServiceInterface S Y) R g m :
  g_in g = Some m -> (long_or_none (md_containerID m) -> OK (k m) R g) -> OK (bind load k) R g.
Proof.
  intros Hg Hk i w [] gs Hi Hinv. cbn [do_eff]. pose proof (view _ _ _ Hi) as Hv. rewrite Hg in Hv.
  destruct (guarded_inside _ _ _ _ _ (inv_lock _ _ _ Hinv) Hv) as (_ & Hmd & _). fold (md_of w). rewrite <- Hmd.
  exists g, tt. split; [done|]. rewrite set_mem_mem, list_insert_id by done. split; [done|].
  apply Hk. rewrite Hmd. apply Hinv.
Qed.

Lemma ok_update {Y} f (k : unit -> prog DockerServiceInterface S Y) R g m b :
  g_in g = Some m -> (long_or_none (md_containerID m) -> long_or_none (md_containerID (f m))) ->
  (rented m gpu = true -> rented (f m) gpu = true) -> (b = true -> g_marked g = true \/ rented (f m) gpu = true) ->
  OK (k tt) R (MkGhost (Some (f m)) (g_start g) (g_before g) (g_since g) b) -> OK (bind (modify f) k) R g.
Proof.
  intros Hg Hlong Hrent Hb Hk i w [] gs Hi Hinv. cbn [do_eff]. pose proof (view _ _ _ Hi) as Hv. rewrite Hg in Hv.
  destruct (guarded_inside _ _ _ _ _ (inv_lock _ _ _ Hinv) Hv) as (Hl & Hmd & Ho). fold (md_of w). rewrite <- Hmd.
  eexists _, tt. split; [done|]. split; [|exact Hk]. pose proof (lookup_lt_Some _ _ _ Hi) as Hlt.
  assert (Hm' : md_of (set_mem (set (f m) (mem w)) w) = f m) by (by rewrite md_of_set, get_set).
  split; rewrite ?Hm', ?locks_set_mem, ?calls_set_mem, ?list_fmap_insert; try apply Hinv.
  - eapply guarded_write; [apply Hinv|done].
  - by rewrite Hl.
  - intros j h m' Hj Hh. destruct (decide (i = j)) as [<-|Hne].
    + rewrite list_lookup_insert_eq in Hj by done. injection Hj as <-. by apply (inv_inside _ _ _ Hinv _ _ m Hi).
    + rewrite list_lookup_insert_ne in Hj by done. by apply (inv_inside _ _ _ Hinv _ _ m' Hj).
  - apply Hlong. rewrite Hmd. apply Hinv.
  - assert (Hmk : forall j h, gs !! j = Some h -> g_marked h = true -> rented (f m) gpu = true).
    { intros j h Hj Hh. apply Hrent. rewrite Hmd. by eapply inv_marked. }
    intros j h Hj Hh. destruct (decide (i = j)) as [<-|Hne].
    + rewrite list_lookup_insert_eq in Hj by done. injection Hj as <-. destruct (Hb Hh) as [Hgm|]; [by eapply Hmk|done].
    + rewrite list_lookup_insert_ne in Hj by done. by eapply Hmk.
Qed.

Lemma ok_svc {Y} o (k : _ -> prog DockerServiceInterface S Y) R g m :
  g_in g = Some m ->
  (forall x, (exists t e, x = fst (env_call o t e)) ->
     OK (k x) R (MkGhost (g_in g) (g_start g) (g_before g) (g_since g ++ [made (Σ := DockerServiceInterface) o x]) (g_marked g))) ->
  OK (bind (svc o) k) R g.
Proof.
  intros Hg Hk i w [] gs Hi Hinv. cbn [do_eff]. eexists _, tt. split; [done|].
  split; [|apply Hk; by exists (clk (advance w)), (env (advance w))].
  pose proof (lookup_lt_Some _ _ _ Hi) as Hlt. pose proof (view _ _ _ Hi) as Hv. rewrite Hg in Hv.
  destruct (guarded_inside _ _ _ _ _ (inv_lock _ _ _ Hinv) Hv) as (Hl & Hmd & Ho).
  assert (Hlk : locks (called (o : op DockerServiceInterface) w) = locks w) by by go_simpl.
  split; rewrite ?md_of_called, ?Hlk, ?list_fmap_insert; cbn [g_in]; try apply Hinv.
  - rewrite list_insert_id by by apply view. apply Hinv.
  - by rewrite Hl.
  - intros j h m' Hj Hh. destruct (decide (i = j)) as [<-|Hne].
    + rewrite list_lookup_insert_eq in Hj by done. injection Hj as <-. cbn [g_before g_since g_start].
      destruct (inv_inside _ _ _ Hinv _ _ _ Hi Hg) as [Hc Hmi]. split; [|done].
      transitivity (calls w ++ [made (Σ := DockerServiceInterface) o (answer o w)]); [apply called_calls|].
      rewrite Hc. symmetry. apply app_assoc.
    + rewrite list_lookup_insert_ne in Hj by done. specialize (Ho _ _ Hne (view _ _ _ Hj)). congruence.
  - intros j h Hj Hh. destruct (decide (i = j)) as [<-|Hne].
    + rewrite list_lookup_insert_eq in Hj by done. injection Hj as <-. exact (inv_marked _ _ _ Hinv _ _ Hi Hh).
    + rewrite list_lookup_insert_ne in Hj by done. exact (inv_marked _ _ _ Hinv _ _ Hj Hh).
Qed.

(** A goroutine starts with nothing. *)
Lemma ok_go {Y} (p : prog DockerServiceInterface S unit) (k : prog DockerServiceInterface S Y) R g :
  OK p (fun _ g' => outside g' /\ True) (MkGhost None (g_start g) [] [] false) -> OK k R g -> OK (Go p k) R g.
Proof.
  intros Hp Hk i w [] gs Hi Hinv. exists g, (MkGhost None (g_start g) [] [] false), tt.
  split; [done|]. split; [|done]. rewrite list_insert_id by done.
  split; rewrite ?fmap_app; try apply Hinv.
  - apply guarded_spawn, Hinv.
  - intros j h m [Hj|[_ [_ <-]%list_lookup_singleton_Some]]%lookup_app_Some; [by eapply (inv_inside _ _ _ Hinv)|done].
  - intros j h [Hj|[_ [_ <-]%list_lookup_singleton_Some]]%lookup_app_Some; [by eapply (inv_marked _ _ _ Hinv)|done].
Qed.

(** ** The critical sections *)

Notation sect m m0 cs tr b := (MkGhost (Some m) m0 cs tr b).

(** A log line that shows twelve characters of a long identifier. *)
Lemma ok_slice_to {Y} id (k : string -> prog DockerServiceInterface S Y) R g :
  short_id id = false -> OK (k (String.substring 0 12 id)) R g -> OK (bind (slice_to id 12) k) R g.
Proof. unfold short_id, slice_to. by intros ->. Qed.

Lemma ok_Start_body c R m cs b :
  long_or_none (md_containerID m) ->
  (forall tr r m', start_result c m tr (Done r) m' -> R r (sect m' m cs tr b)) ->
  OK (Start_body c) R (sect m m cs [] b).
Proof.
  intros Hl HR. unfold Start_body. apply ok_load with m; [done|]. intros _.
  destruct (Enabled (md_config m)) eqn:Hen; cbn [negb]; [|by apply HR; constructor].
  case_bool_decide as Hst; [by apply HR; constructor|].
  destruct (getAvailableGPUs m) as [|gpu1 gpus] eqn:Hg.
  - apply ok_update with m b; [done|done|done|by left|]. apply ok_clock. intros t.
    apply ok_update with (set_state MiningStatePaused m) b; [done|done|done|by left|].
    apply HR. by apply (start_no_gpu c m t).
  - apply ok_svc with m; [done|]. intros [id [e|]] (t & en & Hx); cbn [g_in g_since app].
    { apply HR. by apply (start_no_container c m gpu1 gpus). }
    symmetry in Hx. apply long_container_ids in Hx.
    apply ok_svc with m; [done|]. intros [e|] _; cbn [g_since app].
    { apply ok_svc with m; [done|]. intros x _. apply HR. by apply (start_not_started c m gpu1 gpus). }
    apply ok_update with m b; [done|by right|done|by left|]. apply ok_clock. intros t'.
    eapply ok_update with (b := b); [done|done|done|by left|].
    apply ok_slice_to; [done|]. apply HR. eapply (start_started c m gpu1 gpus id t'); [done..|congruence].
Qed.

(** A whole section: the body leaves what keeps the invariant. *)
Definition closes {Y} (R : Y -> ghost -> Prop) (r : Y) g : Prop :=
  exists m, g_in g = Some m /\ mining_inv m (g_before g ++ g_since g) /\
    R r (MkGhost None m [] [] (g_marked g)).

Lemma ok_section {Y} (body : prog DockerServiceInterface S Y) R g :
  outside g ->
  (forall m cs, mining_inv m cs -> long_or_none (md_containerID m) -> OK body (closes R) (sect m m cs [] (g_marked g))) ->
  OK (with_lock mining_mu body) R g.
Proof.
  intros Ho Hb. apply ok_lock; [done|]. intros m cs Hinv Hl. apply ok_deferring.
  eapply ok_mono; [|by apply Hb]. intros r g' (m' & Hg & Hinv' & HR).
  apply ok_unlock with m'; [done..|]. exact HR.
Qed.

(** What a method leaves: outside, with GPUs still marked. *)
Definition leaves {Y} (b : bool) (_ : Y) g : Prop := outside g /\ g_marked g = b.

Lemma ok_Start c g : outside g -> OK (Start c) (leaves (g_marked g)) g.
Proof.
  intros Ho. apply ok_section; [done|]. intros m cs Hinv Hl. apply ok_Start_body; [done|].
  intros tr r m' Hres. exists m'. split; [done|]. split; [by eapply mining_inv_start|done].
Qed.

Lemma ok_Stop c g : outside g -> OK (Stop c) (leaves (g_marked g)) g.
Proof.
  intros Ho. apply ok_section; [done|]. intros m cs Hinv Hl. unfold Stop_body. apply ok_load with m; [done|]. intros _.
  assert (HR : forall tr m', stop_result c m tr (Done None) m' ->
            closes (leaves (g_marked g)) (None : option error) (sect m' m cs tr (g_marked g))).
  { intros tr m' Hres. exists m'. split; [done|]. split; [by eapply mining_inv_stop|done]. }
  case_bool_decide as Hst; [by apply HR; constructor|].
  case_bool_decide as Hid; cycle 1.
  - eapply ok_update; [done|by left|done|by left|]. apply HR. by apply stop_no_container.
  - apply ok_bind. apply ok_svc with m; [done|]. intros x _. apply ok_svc with m; [done|]. intros y _.
    destruct Hl as [Hl|Hl]; [done|]. apply ok_slice_to; [done|].
    eapply ok_update; [done|by left|done|by left|]. apply HR. by apply stop_container.
Qed.

Lemma ok_Status g : outside g -> OK Status (leaves (g_marked g)) g.
Proof.
  intros Ho. apply ok_section; [done|]. intros m cs Hinv Hl. apply ok_load with m; [done|]. intros _.
  exists m. split; [done|]. split; [by rewrite app_nil_r|done].
Qed.

Lemma ok_restart g : outside g -> OK restart (leaves (g_marked g)) g.
Proof.
  intros Ho. unfold restart, WithTimeout. apply ok_clock. intros t. apply ok_bind.
  eapply ok_mono; [|by apply ok_Start]. by intros r g' [].
Qed.

(** The section of a pause; the GPU is marked when it is among those rented. *)
Lemma ok_PauseForRental_body c gpus R m cs b :
  (forall tr r m', pause_result c gpus m tr r m' -> R r (sect m' m cs tr (b || bool_decide (gpu ∈ gpus)))) ->
  OK (PauseForRental_body c gpus) R (sect m m cs [] b).
Proof.
  intros HR. unfold PauseForRental_body.
  apply ok_update with m (b || bool_decide (gpu ∈ gpus)); [done|done| | |].
  { intros Hr. by rewrite rented_mark, Hr, orb_true_r. }
  { intros [->|Hin]%orb_true_iff; [by left|right]. by rewrite rented_mark, Hin. }
  set (b' := b || _) in *. clearbody b'.
  apply ok_load with (mark_rented gpus m); [done|]. intros _.
  change (md_state (mark_rented gpus m)) with (md_state m).
  change (md_containerID (mark_rented gpus m)) with (md_containerID m).
  case_bool_decide as Hst; [case_bool_decide as Hid|]; cbn [andb];
    [|apply HR, pause_idle; by right|apply HR, pause_idle; by left].
  apply ok_svc with (mark_rented gpus m); [done|]. intros x _.
  apply ok_svc with (mark_rented gpus m); [done|]. intros y _.
  apply ok_update with (mark_rented gpus m) b'; [done|by left|done|by left|].
  apply ok_load with (set_containerID "" (mark_rented gpus m)); [done|]. intros _.
  change (getAvailableGPUs (set_containerID "" (mark_rented gpus m))) with (getAvailableGPUs (mark_rented gpus m)).
  destruct (getAvailableGPUs (mark_rented gpus m)) eqn:Hg.
  - eapply ok_update; [done|done|done|by left|]. apply ok_clock. intros t.
    eapply ok_update; [done|done|done|by left|]. by apply HR, (pause_all c gpus m x y t).
  - apply HR. apply pause_some; [done..|]. by rewrite Hg.
Qed.

Lemma ok_PauseForRental c gpus g :
  outside g -> OK (PauseForRental c gpus) (leaves (g_marked g || bool_decide (gpu ∈ gpus))) g.
Proof.
  intros Ho. apply ok_lock; [done|]. intros m cs Hinv Hl. apply ok_deferring, ok_bind.
  apply ok_PauseForRental_body. intros tr r m' Hres. apply mining_inv_pause with (cs := cs) in Hres; [|done].
  set (b := _ || _). clearbody b. destruct r; [|by apply ok_unlock with m'].
  apply ok_unlock with m'; [done..|]. apply ok_go.
  { eapply ok_mono; [|by apply ok_restart]. by intros r g' []. }
  apply ok_lock; [done|]. intros m1 cs1 Hinv1 _. apply ok_unlock with m1; [done| |done].
  by rewrite app_nil_r.
Qed.

(** A resumption of other GPUs. *)
Lemma ok_ResumeAfterRental c gpus g :
  gpu ∉ gpus -> outside g -> OK (ResumeAfterRental c gpus) (leaves (g_marked g)) g.
Proof.
  intros Hn Ho. apply ok_lock; [done|]. intros m cs Hinv Hl.
  apply ok_update with m (g_marked g); [done|done| |by left|].
  { intros Hr. by rewrite rented_unmark, Hr, bool_decide_eq_false_2 by done. }
  assert (Hinv' : mining_inv (unmark_rented gpus m) (cs ++ [])) by (rewrite app_nil_r; by apply mining_inv_unmark).
  apply ok_load with (unmark_rented gpus m); [done|]. intros _.
  destruct (bool_decide (md_state _ = _) || bool_decide (md_state _ = _)).
  - eapply ok_unlock; [done|done|]. by eapply ok_mono; [|by apply ok_Start].
  - by eapply ok_unlock.
Qed.

Lemma ok_monitor_tick c g : outside g -> OK (monitor_tick c) (leaves (g_marked g)) g.
Proof.
  intros Ho. apply ok_lock; [done|]. intros m cs Hinv Hl. apply ok_load with m; [done|]. intros _.
  destruct (bool_decide (md_state m = _) && bool_decide (md_containerID m <> "")).
  2: by eapply ok_unlock; [|rewrite app_nil_r|].
  apply ok_svc with m; [done|]. intros [info err] _. cbn [g_in g_start g_before g_since g_marked app].
  destruct (bool_decide _ || bool_decide _).
  - apply ok_update with m (g_marked g); [done|by left|done|by left|].
    eapply ok_unlock; [done|by apply mining_inv_none|]. apply ok_clock. intros t. apply ok_bind.
    eapply ok_mono; [|by apply ok_Start]. by intros r g' [].
  - eapply ok_unlock; [done| |done]. apply mining_inv_quiet; [done|]. by repeat constructor.
Qed.

Lemma ok_MonitorLoop c events g : outside g -> OK (MonitorLoop c events) (leaves (g_marked g)) g.
Proof.
  revert g. induction events as [|[] events IH]; intros g Ho; [done..|]. cbn [MonitorLoop]. apply ok_bind.
  eapply ok_mono; [|by apply ok_monitor_tick]. intros [] g' [Ho' <-]. by apply IH.
Qed.

(** ** The pool *)

Definition keeps_rented (o : mining_call) : Prop :=
  match o with CallResume _ gpus => gpu ∉ gpus | _ => True end.

(** A pause that is through has marked the GPU. *)
Definition through (o : mining_call) g : Prop :=
  match o with CallPause _ gpus => gpu ∈ gpus -> g_marked g = true | _ => True end.

Lemma ok_mining_method o m t :
  keeps_rented o ->
  ok (E := E) (fun _ _ : unit => True) inv outside (fun _ => True)
     (bind (mining_method o) (fun a => Ret (Some a))) (ended outside through (fun _ => True)) (MkGhost None m t [] false).
Proof.
  intros Hk. destruct o as [c|c|c gpus|c gpus| |c events]; cbn [mining_method]; apply ok_bind, ok_bind; eapply ok_mono.
  all: try first [by apply ok_Start|by apply ok_Stop|by apply ok_PauseForRental|by apply ok_ResumeAfterRental
                 |by apply ok_Status|by apply ok_MonitorLoop].
  all: intros r g [Ho Hm]; split; [done|]; cbn; try done.
  intros Hin. by rewrite Hm, bool_decide_eq_true_2.
Qed.

Lemma mining_pool_simulated w (calls : list mining_call) :
  Forall keeps_rented calls -> locks w = ∅ -> mining_inv (md_of w) (Effects.calls w) -> long_or_none (md_containerID (md_of w)) ->
  simulated (fun _ _ : unit => True) inv outside through (fun _ => True) (start_pool w (mining_method <$> calls)) tt.
Proof.
  intros Hk Hl Hinv Hlong. set (g0 := MkGhost None (md_of w) [] [] false).
  exists ((fun _ => g0) <$> calls). split.
  - split; cbn [start_pool pl_world]; rewrite ?Hl, ?lookup_empty; cbn [guarded]; try done.
    + intros j v Hj. rewrite <- list_fmap_compose in Hj. by apply list_lookup_fmap_Some in Hj as (o & -> & _).
    + intros j g m Hj. by apply list_lookup_fmap_Some in Hj as (o & -> & _).
    + intros j g Hj. by apply list_lookup_fmap_Some in Hj as (o & -> & _).
  - unfold start_pool; cbn [pl_threads]. apply Forall2_fmap_l, Forall2_fmap_l, Forall2_fmap_r.
    apply Forall2_same_length_lookup_2; [done|]. intros i o o' Ho Ho'.
    rewrite Ho in Ho'. injection Ho' as <-. apply ok_mining_method. by eapply (Forall_lookup_1 _ _ _ _ Hk).
Qed.

Lemma mining_mu_taken mu w γ gs : inv w γ gs -> locks w !! mu <> None -> exists j g, gs !! j = Some g /\ ~ outside g.
Proof.
  intros Hinv Hm. destruct (decide (mu = mining_mu)) as [->|Hn]; [|by rewrite (inv_others _ _ _ Hinv) in Hm].
  destruct (guarded_taken _ _ _ (inv_lock _ _ _ Hinv) Hm) as (j & m & Hj).
  apply list_lookup_fmap_Some in Hj as (g & Hg & Hj). exists j, g. split; [done|]. unfold outside. congruence.
Qed.

End Invariant.

(** ** Rented GPUs are not mined on *)
Section Properties.
Context {S : Type} `{F : !Field S MiningDaemon} `{E : !Environment DockerServiceInterface} `{L : !LongContainerIDs E}.
Implicit Types (w : world DockerServiceInterface S).

(** Some GPU is in no call. *)
Lemma unnamed_gpu (calls : list mining_call) : exists gpu, Forall (keeps_rented gpu) calls.
Proof.
  set (gpus := concat ((fun o => match o with CallResume _ gpus => gpus | _ => [] end) <$> calls)).
  exists (fresh gpus). apply Forall_forall. intros [c|c|c l|c l| |c events] Ho; try done. intros Hin.
  apply (infinite_is_fresh gpus). apply list_elem_of_In, in_concat. exists l.
  split; [|by apply list_elem_of_In]. apply list_elem_of_In, list_elem_of_fmap. by exists (CallResume c l).
Qed.

(** C4: Mining in parallel.  Whatever the interleaving of starts, stops, pauses,
    resumptions, status queries, monitors and the restarts they leave behind,
    as long as Docker's identifiers have the twelve characters that are logged:
    whenever the mutex is free, a container that the daemon tracks is the last one
    created for mining, and its GPU is configured and not rented; a GPU whose
    pause has returned stays rented until somebody resumes it, so that no
    container is on it, and when all GPUs may be used there is none at all; and
    all goroutines can always be brought to their end. *)
Theorem mining_interleaved w (calls : list mining_call) c :
  locks w = ∅ -> mining_inv (md_of w) (Effects.calls w) -> long_or_none (md_containerID (md_of w)) ->
  steps_to (start_pool w (mining_method <$> calls)) c ->
  (forall i cx gpus gpu, returned i c (CallPause cx gpus) ->
     gpu ∈ gpus -> Forall (keeps_rented gpu) calls -> rented (md_of (pl_world c)) gpu = true) /\
  (locks (pl_world c) !! mining_mu = None -> md_containerID (md_of (pl_world c)) <> "" ->
     md_state (md_of (pl_world c)) = MiningStateRunning /\
     exists gpu, mined_on (md_of (pl_world c)) (Effects.calls (pl_world c)) (md_containerID (md_of (pl_world c))) gpu) /\
  (all_returned c -> locks (pl_world c) = ∅) /\
  exists c', steps_to c c' /\ all_returned c'.
Proof.
  intros Hl Hinv Hlong Hs.
  assert (Hsim : forall gpu, Forall (keeps_rented gpu) calls ->
    simulated (fun _ _ : unit => True) (inv gpu) outside (through gpu) (fun _ => True) c tt).
  { intros gpu Hk.
    destruct (steps_simulated _ _ _ _ _ _ _ _ (mining_pool_simulated gpu w calls Hk Hl Hinv Hlong) Hs) as ([] & _ & Hsim).
    exact Hsim. }
  split.
  { intros i cx gpus gpu Hr Hin Hk. destruct (Hsim gpu Hk) as (gs & Hi & Hts).
    destruct (Forall2_lookup_l _ _ _ _ _ Hts Hr) as (g & Hg & [_ Hthr]).
    eapply inv_marked; [done..|]. by apply Hthr. }
  destruct (unnamed_gpu calls) as [gpu Hk]. pose proof (Hsim gpu Hk) as Hsg. split; [|split].
  - intros Hfree Hid. destruct Hsg as (gs & Hi & _). by apply (inv_free _ _ _ _ Hi Hfree).
  - intros Hall. destruct Hsg as (gs & Hi & Hts). apply map_eq. intros mu. rewrite lookup_empty.
    destruct (locks (pl_world c) !! mu) eqn:Hmu; [|done]. exfalso.
    destruct (mining_mu_taken gpu mu _ _ _ Hi) as (j & g & Hg & Hno); [by rewrite Hmu|].
    destruct (Forall2_lookup_r _ _ _ _ _ Hts Hg) as (p & Hp & Hok). destruct (Hall _ _ Hp) as [r ->]. by destruct Hok.
  - destruct (steps_complete _ _ _ _ _ (fun m w' L' gs => mining_mu_taken gpu m w' L' gs) _ _ Hsg)
      as (c' & _ & Hs' & _ & _ & Hall). by exists c'.
Qed.

End Properties.

(** ** Witness *)

(** A daemon on two GPUs starts, is paused for the first one, and monitored. *)
Definition preemption_calls : list mining_call :=
  [CallStartMining Background; CallPause Background ["0"]; CallMonitor Background [MonitorTick]].

Definition preemption_schedule : list nat :=
  [1; 0; 1; 2; 1; 0; 1]%nat ++ replicate 12 0%nat ++ replicate 12 2%nat.

Definition preemption_pool : @pool DockerServiceInterface MiningDaemon mining_call (mining_env true) :=
  run_schedule preemption_schedule
    (start_pool (mining_world true (NewMiningDaemon two_gpus)) (mining_method <$> preemption_calls)).

#[export] Instance mining_env_long : LongContainerIDs (mining_env true).
Proof. by intros c cfg t e id [= <-]. Qed.

Lemma mining_interleaved_witness :
  rented (md_of (pl_world preemption_pool)) "0" = true /\
  (exists gpu, mined_on (md_of (pl_world preemption_pool)) (calls (pl_world preemption_pool)) "0123456789abcdef" gpu) /\
  exists c', steps_to preemption_pool c' /\ all_returned c'.
Proof.
  assert (H1 : pl_threads preemption_pool !! 1%nat = Some (Ret (Some (CallPause Background ["0"])))) by reflexivity.
  assert (Hid : md_containerID (md_of (pl_world preemption_pool)) = "0123456789abcdef") by reflexivity.
  assert (Hfree : locks (pl_world preemption_pool) !! mining_mu = None) by reflexivity.
  destruct (mining_interleaved (mining_world true (NewMiningDaemon two_gpus)) preemption_calls preemption_pool)
    as (Hr & Hm & _ & Hc).
  - reflexivity.
  - apply mining_inv_new.
  - by left.
  - apply run_schedule_steps.
  - split; [|split; [|exact Hc]].
    + apply (Hr 1%nat Background ["0"] "0"); [exact H1|by left|]. by repeat constructor.
    + rewrite Hid in Hm. by apply Hm.
Defined.
