(* ===== verification/Concurrent.v ===== *)
(** Components behind one mutex.

    When every method of a component holds one mutex from its first effect to
    its last, whatever its clients do at once is what they do one after the
    other in some order ([steps_serial]), and no schedule leaves them blocked
    ([steps_progress]); the port manager is such a component. *)

From Stdlib Require Import ZArith Lia String.
From stdpp Require Import base numbers strings list gmap.
From S2P Require Import Prelude.
From S2P Require Import Effects.
From S2P Require Import Port.
From S2P Require Import Threads.

(** ** A component behind one mutex *)

(** The body of a critical section: it takes no mutex, starts no goroutine and
    never panics. *)
Fixpoint section_body {Σ S X} (p : prog Σ S X) : Prop :=
  match p with
  | Ret _ | NoFuel => True
  | Eff e k => lock_free_eff e /\ forall x, section_body (k x)
  | Panic _ | Go _ _ => False
  end.

Section Serial.
Context {Σ : Signature} {S : Type} `{E : !Environment Σ}.
Context (m : string) {O : Type} {res : O -> Type} (method : forall o, prog Σ S (res o)).
Context (Hm : forall o, exists b, method o = with_lock m b /\ section_body b).
Implicit Types (w : world Σ S).

(** What a call returned. *)
Notation reply := {o : O & res o}.

(** A client that makes its calls one after the other and returns the replies. *)
Fixpoint client (os : list O) (replies : list reply) : prog Σ S (option (list reply)) :=
  match os with
  | [] => Ret (Some replies)
  | o :: os => bind (method o) (fun a => client os (replies ++ [existT o a]))
  end.

Definition clients_pool w (clients : list (list O)) : pool Σ S (list reply) :=
  MkPool w ((fun os => client os []) <$> clients).

(** Calls that run one after the other, each with the client that made it. *)
Inductive serial : list (nat * reply) -> world Σ S -> world Σ S -> Prop :=
| serial_nil w : serial [] w w
| serial_snoc l i o a w1 w2 w3 :
    serial l w1 w2 -> run (method o) w2 = (Done a, w3) -> serial (l ++ [(i, existT o a)]) w1 w3.

(** The replies client [i] had, in order. *)
Definition replies_of (i : nat) (l : list (nat * reply)) : list reply :=
  snd <$> filter (fun e => fst e = i) l.

(** Between two critical sections: every client has had its replies and has the
    rest of its calls to make. *)
Definition between (clients : list (list O)) (l : list (nat * reply))
    (ts : list (prog Σ S (option (list reply)))) : Prop :=
  length ts = length clients /\
  forall i t, ts !! i = Some t -> exists rest,
    clients !! i = Some ((projT1 <$> replies_of i l) ++ rest) /\ t = client rest (replies_of i l).

Definition behind_mutex w0 (clients : list (list O)) (c : pool Σ S (list reply)) : Prop :=
  exists l w ts, serial l w0 w /\ locks w !! m = None /\ between clients l ts /\
    (c = MkPool w ts \/
     exists i o rest b q, method o = with_lock m b /\ section_body q /\
       clients !! i = Some ((projT1 <$> replies_of i l) ++ o :: rest) /\
       locks (pl_world c) !! m = Some Locked /\
       run q (pl_world c) = run b (set_locks (<[m := Locked]> (locks w)) w) /\
       pl_threads c = <[i := bind (deferring (eff1 (Unlock m)) q)
                               (fun a => client rest (replies_of i l ++ [existT o a]))]> ts).

Lemma replies_of_app i l l' : replies_of i (l ++ l') = replies_of i l ++ replies_of i l'.
Proof. unfold replies_of. by rewrite filter_app, fmap_app. Qed.

(** A client that has made its call. *)
Lemma between_step clients l ts i o rest a :
  between clients l ts ->
  clients !! i = Some ((projT1 <$> replies_of i l) ++ o :: rest) ->
  between clients (l ++ [(i, existT o a)])
    (<[i := client rest (replies_of i l ++ [existT o a])]> ts).
Proof.
  intros [Hlen Hts] Hc. apply lookup_lt_Some in Hc as Hlt. split; [by rewrite length_insert|]. intros j t Hj.
  rewrite replies_of_app. unfold replies_of at 2 4. rewrite filter_cons, filter_nil. cbn [fst].
  destruct (decide (i = j)) as [<-|Hne].
  - rewrite list_lookup_insert_eq in Hj by lia. injection Hj as <-.
    exists rest. by rewrite fmap_app, <- app_assoc.
  - rewrite list_lookup_insert_ne in Hj by done. destruct (Hts _ _ Hj) as (r & ? & ?). exists r.
    by rewrite app_nil_r.
Qed.

(** What a critical section that has ended is as a call that ran alone. *)
Lemma section_runs o b a w w' :
  method o = with_lock m b -> locks w !! m = None ->
  run b (set_locks (<[m := Locked]> (locks w)) w) = (Done a, w') -> locks w' !! m = Some Locked ->
  run (method o) w = (Done a, set_locks (delete m (locks w')) w').
Proof.
  intros -> Hl Hb Hl'. unfold with_lock.
  rewrite (run_bind_done _ _ _ _ _ (run_lock _ _ Hl)), run_deferring, Hb.
  by rewrite (run_bind_done _ _ _ _ _ (run_unlock _ _ Hl')).
Qed.

Lemma start_behind_mutex w0 clients :
  locks w0 !! m = None -> behind_mutex w0 clients (clients_pool w0 clients).
Proof.
  intros Hl. eexists [], w0, _. split; [constructor|]. split; [done|]. split; [|by left].
  split; [by rewrite length_fmap|]. intros i t Ht.
  apply list_lookup_fmap_Some in Ht as (os & -> & Hos). by exists os.
Qed.

(** Nobody inside: a step enters a section. *)
Lemma step_enter w0 clients l w ts i c' :
  serial l w0 w -> locks w !! m = None -> between clients l ts ->
  step i (MkPool w ts) = Some c' -> behind_mutex w0 clients c'.
Proof.
  intros Hs Hl Hb Hst. unfold step in Hst. cbn [pl_threads pl_world] in Hst.
  destruct (ts !! i) as [t|] eqn:Ht; [|done]. destruct (proj2 Hb _ _ Ht) as ([|o rest] & Hc & ->); [done|].
  destruct (Hm o) as (b & Hmb & Hlf). cbn in Hst. rewrite Hmb in Hst. cbn in Hst. rewrite Hl in Hst.
  injection Hst as <-. exists l, w, ts. do 3 (split; [done|]). right. exists i, o, rest, b, b.
  repeat split; try done. cbn. apply lookup_insert_eq.
Qed.

(** Somebody inside: only its own effects, and the last one leaves. *)
Lemma step_inside w0 clients l w ts i o rest b q wc j c' :
  serial l w0 w -> locks w !! m = None -> between clients l ts ->
  method o = with_lock m b -> section_body q ->
  clients !! i = Some ((projT1 <$> replies_of i l) ++ o :: rest) ->
  locks wc !! m = Some Locked -> run q wc = run b (set_locks (<[m := Locked]> (locks w)) w) ->
  step j (MkPool wc (<[i := bind (deferring (eff1 (Unlock m)) q)
                              (fun a => client rest (replies_of i l ++ [existT o a]))]> ts)) = Some c' ->
  behind_mutex w0 clients c'.
Proof.
  intros Hs Hl Hb Hmb Hq Hc Hlc Hrun Hst. unfold step in Hst. cbn [pl_threads pl_world] in Hst.
  apply lookup_lt_Some in Hc as Hlt. destruct Hb as [Hlen Hts].
  destruct (decide (i = j)) as [<-|Hne].
  - rewrite list_lookup_insert_eq in Hst by lia. destruct q as [a|msg| |X e k|g k]; try done; cbn in Hst.
    + rewrite Hlc in Hst. injection Hst as <-. rewrite list_insert_insert_eq.
      exists (l ++ [(i, existT o a)]), (set_locks (delete m (locks wc)) wc).
      eexists. split; [|split; [apply lookup_delete_eq|split; [by apply (between_step _ _ ts _ _ rest)|by left]]].
      econstructor; [done|]. by eapply section_runs.
    + destruct Hq as [He Hk]. destruct (do_eff_lock_free e wc He) as (x & w' & Hd & Hlw & _).
      cbn in Hrun. rewrite Hd in Hst, Hrun. injection Hst as <-. rewrite list_insert_insert_eq.
      exists l, w, ts. do 3 (split; [done|]). right. exists i, o, rest, b, (k x).
      repeat split; try done. cbn. by rewrite Hlw.
  - rewrite list_lookup_insert_ne in Hst by done. destruct (ts !! j) as [t|] eqn:Ht; [|done].
    destruct (Hts _ _ Ht) as ([|o' rest'] & _ & ->); [done|].
    destruct (Hm o') as (b' & Hmb' & _). cbn in Hst. rewrite Hmb' in Hst. cbn in Hst. by rewrite Hlc in Hst.
Qed.

Lemma steps_behind_mutex w0 clients c :
  locks w0 !! m = None -> steps_to (clients_pool w0 clients) c -> behind_mutex w0 clients c.
Proof.
  intros Hl Hs. pose proof (start_behind_mutex w0 clients Hl) as H0. induction Hs as [|i c0 c1 c2 Hst _ IH]; [done|].
  apply IH. destruct H0 as (l & w & ts & Hser & Hw & Hb & [->|(j & o & rest & b & q & Hmb & Hq & Hc & Hlc & Hr & Ht)]).
  - by eapply step_enter.
  - destruct c0 as [wc tc]. cbn in Ht, Hlc, Hr. subst tc. by eapply step_inside.
Qed.

(** Whatever the schedule, the calls whose sections have ended ran one after
    the other. *)
Lemma steps_serial w0 clients c :
  locks w0 !! m = None -> steps_to (clients_pool w0 clients) c -> locks (pl_world c) !! m = None ->
  exists l, serial l w0 (pl_world c) /\
    length (pl_threads c) = length clients /\
    forall i t, pl_threads c !! i = Some t -> exists rest,
      clients !! i = Some ((projT1 <$> replies_of i l) ++ rest) /\ t = client rest (replies_of i l).
Proof.
  intros Hl Hs Hfree. destruct (steps_behind_mutex _ _ _ Hl Hs)
    as (l & w & ts & Hser & _ & Hb & [->|(j & o & rest & b & q & _ & _ & _ & Hlc & _)]).
  - by exists l.
  - by rewrite Hfree in Hlc.
Qed.

(** What every call keeps, a serial run keeps. *)
Lemma serial_inv (Inv : world Σ S -> Prop) :
  (forall o w, Inv w -> exists a w', run (method o) w = (Done a, w') /\ Inv w') ->
  forall l w w', serial l w w' -> Inv w -> Inv w'.
Proof.
  intros HI l w w' Hs H0. induction Hs as [|l i o a w1 w2 w3 _ IH Hr]; [done|].
  destruct (HI o w2 (IH H0)) as (a' & w' & Hr' & ?). rewrite Hr in Hr'. by injection Hr' as _ <-.
Qed.

(** No schedule leaves the clients blocked, when no call runs out of fuel in
    the worlds there are. *)
Lemma steps_progress (Inv : world Σ S -> Prop) w0 clients c :
  (forall o w, Inv w -> exists a w', run (method o) w = (Done a, w') /\ Inv w') ->
  Inv w0 -> locks w0 !! m = None -> steps_to (clients_pool w0 clients) c ->
  (exists i c', step i c = Some c') \/
  (locks (pl_world c) !! m = None /\ forall i t, pl_threads c !! i = Some t -> exists rs, t = Ret (Some rs)).
Proof.
  intros HI H0 Hl Hs. destruct (steps_behind_mutex _ _ _ Hl Hs)
    as (l & w & ts & Hser & Hw & [Hlen Hts] & [->|(i & o & rest & b & q & Hmb & Hq & Hc & Hlc & Hr & Ht)]).
  - assert (Hdec : forall t : prog Σ S (option (list reply)),
              {exists rs, t = Ret (Some rs)} + {~ exists rs, t = Ret (Some rs)}).
    { intros [[rs|]|?| |? ? ?|? ?]; [left; by exists rs|right; by intros [? [=]]..]. }
    destruct (Forall_Exists_dec _ _ Hdec ts) as [Hall|Hex].
    + right. split; [done|]. intros i t Ht. exact (Forall_lookup_1 _ _ _ _ Hall Ht).
    + left. apply Exists_exists in Hex as (t & Ht & Hn). apply list_elem_of_lookup in Ht as [i Ht].
      exists i. unfold step. cbn [pl_threads pl_world]. rewrite Ht.
      destruct (Hts _ _ Ht) as ([|o rest] & _ & ->); [by destruct Hn; eexists|].
      destruct (Hm o) as (b & Hmb & _). cbn. rewrite Hmb. cbn. rewrite Hw. by eexists.
  - left. exists i. unfold step. rewrite Ht. apply lookup_lt_Some in Hc as Hlt.
    rewrite list_lookup_insert_eq by lia. destruct q as [a|msg| |X e k|g k]; try done; cbn.
    + rewrite Hlc. by eexists.
    + exfalso. destruct (HI o w (serial_inv _ HI _ _ _ Hser H0)) as (a & w' & Hrun & _). rewrite Hmb in Hrun. unfold with_lock in Hrun.
      rewrite (run_bind_done _ _ _ _ _ (run_lock _ _ Hw)), run_deferring, <- Hr in Hrun. done.
    + destruct Hq as [He _]. destruct (do_eff_lock_free e (pl_world c) He) as (x & w' & -> & _). by eexists.
Qed.

End Serial.

(** ** The clients of the port manager *)

Inductive port_call : Type :=
| CallAllocate (sid : string)
| CallRelease (p : Z).

Definition port_res (o : port_call) : Type :=
  match o with CallAllocate _ => (Z * option error)%type | CallRelease _ => option error end.

Notation port_reply := {o : port_call & port_res o}.

(** The history of [Port] that a sequence of calls is. *)
Definition port_op (o : port_call) : pm_op :=
  match o with CallAllocate sid => OpAllocate sid | CallRelease p => OpRelease p end.

(** The calls that succeeded, and the event each of them is. *)
Definition granted (r : port_reply) : bool :=
  match r with
  | existT (CallAllocate _) (_, None) | existT (CallRelease _) None => true
  | _ => false
  end.

Definition reply_of_event (e : pm_event) : port_reply :=
  match e with
  | EvAllocate _ sid p => existT (CallAllocate sid) (p, None)
  | EvRelease _ p => existT (CallRelease p) None
  end.

Section PortClients.
Context {Σ : Signature} {S : Type} `{E : !Environment Σ} `{F : !Field S PortManager}.
Implicit Types (w : world Σ S).

Definition port_method (o : port_call) : prog Σ S (port_res o) :=
  match o with CallAllocate sid => Allocate sid | CallRelease p => Release p end.

Lemma port_method_locked o : exists b, port_method o = with_lock port_mu b /\ section_body b.
Proof.
  destruct o as [sid|p]; eexists; (split; [reflexivity|]); cbn; repeat (split; [done|]; intros).
  - destruct (Allocate_loop _ _ _ _ _) as [[]|]; cbn; repeat split.
  - destruct (allocations _ !! p) as [a|]; [|done]. destruct (ReleasedAt a); cbn; repeat split.
Qed.

Lemma port_method_runs o w :
  (exists tr, reflects tr w) ->
  exists a w', run (port_method o) w = (Done a, w') /\ exists tr, reflects tr w'.
Proof.
  intros [tr Hr]. pose proof Hr as [Hwf Hl _ _ _]. destruct o as [sid|p]; cbn [port_method port_res].
  - destruct (Allocate_runs sid w Hwf Hl) as (r & pm' & _ & Hrun).
    pose proof (reflects_allocate tr w sid Hr) as H. cbn [exec_op] in H. rewrite Hrun in H.
    do 2 eexists. split; [done|]. destruct r as [p [e|]]; destruct H; by eexists.
  - destruct (Release_runs p w Hl) as (w' & Hrun & _).
    pose proof (reflects_release tr w p Hr) as H. cbn [exec_op] in H. rewrite Hrun in H.
    do 2 eexists. split; [done|]. destruct (fst (release_at _ _ _)); destruct H; by eexists.
Qed.

Lemma exec_ops_app os os' st : exec_ops (os ++ os') st = exec_ops os' (exec_ops os (st : _ * world Σ S)).
Proof. revert st. induction os as [|o os IH]; intros st; [done|]. apply IH. Qed.

(** Calls that run one after the other are a history, and its events are the
    calls that succeeded. *)
Lemma serial_history l w0 w :
  serial port_method l w0 w ->
  exists tr, exec_ops (port_op <$> (projT1 <$> (snd <$> l))) ([], w0) = (tr, w) /\
    reply_of_event <$> tr = reverse (filter granted (snd <$> l)).
Proof.
  induction 1 as [w|l i o a w1 w2 w3 _ (tr & He & Hl) Hr]; [by exists []|].
  rewrite !fmap_app, exec_ops_app, He, filter_app, reverse_app, <- Hl.
  destruct o as [sid|p]; cbn [port_method port_res exec_ops exec_op port_op fmap list_fmap projT1 snd] in *;
    rewrite Hr; cbn.
  - destruct a as [p [e|]]; by eexists.
  - destruct a as [e|]; by eexists.
Qed.

(** C6: However many goroutines allocate and release ports at once, and in
    whatever way their steps interleave, they are never all blocked: some
    goroutine can go on, until every one has returned.  Whenever the manager's
    mutex is free, the calls that were made ran one after the other in some
    order that keeps the order of each goroutine's calls, every goroutine has
    the replies of that order, and the manager went through the history of the
    calls that succeeded: a port is handed out again only after it was released
    and the grace period has passed. *)
Theorem concurrent_port_calls w (clients : list (list port_call)) c :
  pm_wf (pm_of w) -> locks w !! port_mu = None -> allocations (pm_of w) = ∅ ->
  steps_to (clients_pool port_method w clients) c ->
  ((exists i c', step i c = Some c') \/
   (locks (pl_world c) !! port_mu = None /\
    forall i t, pl_threads c !! i = Some t -> exists rs, t = Ret (Some rs))) /\
  (locks (pl_world c) !! port_mu = None ->
   exists l tr, serial port_method l w (pl_world c) /\
     (forall i os rs, clients !! i = Some os -> returned i c rs ->
        rs = replies_of i l /\ projT1 <$> rs = os) /\
     exec_ops (port_op <$> (projT1 <$> (snd <$> l))) ([], w) = (tr, pl_world c) /\
     reply_of_event <$> tr = reverse (filter granted (snd <$> l)) /\
     safe_trace (pm_gracePeriod (pm_of w)) tr).
Proof.
  intros Hwf Hl He Hs.
  assert (Hr : reflects [] w) by (split; cbn; try done; intros q; by rewrite He). split.
  - eapply (steps_progress port_mu port_method port_method_locked (fun w => exists tr, reflects tr w));
      [apply port_method_runs|by eexists|done|done].
  - intros Hfree. destruct (steps_serial port_mu port_method port_method_locked _ _ _ Hl Hs Hfree)
      as (l & Hser & Hlen & Hts).
    destruct (serial_history _ _ _ Hser) as (tr & Hex & Htr). exists l, tr. split; [done|].
    split; [|split; [done|split; [done|]]].
    + intros i os rs Hi Hret. destruct (Hts _ _ Hret) as ([|o rest] & Hc & Hcl).
      * injection Hcl as ->. rewrite app_nil_r in Hc. by simplify_eq.
      * exfalso. destruct (port_method_locked o) as (b & Hb & _). cbn in Hcl. by rewrite Hb in Hcl.
    + pose proof (reflects_exec (port_op <$> (projT1 <$> (snd <$> l))) [] w Hr) as H. rewrite Hex in H.
      destruct H as [[_ _ Hsafe _ _] (_ & _ & Hg)]. by rewrite Hg in Hsafe.
Qed.

End PortClients.

(** ** Witness *)

(** Two goroutines, the second of which asks while the first one is inside. *)
Definition port_clients : list (list port_call) :=
  [[CallAllocate "s1"; CallRelease 30000]; [CallAllocate "s2"]].
Definition port_schedule : list nat := [0; 0; 1; 0; 0; 0; 1; 0; 1; 1; 1; 1; 0; 0; 0; 0; 0]%nat.
Definition port_pool : @pool NoCalls PortManager (list port_reply) idle_env :=
  run_schedule port_schedule (clients_pool port_method pm_world port_clients).

Lemma concurrent_port_calls_witness :
  returned 1 port_pool [existT (CallAllocate "s2") (30001, None)] /\
  exists l tr, serial port_method l pm_world (pl_world port_pool) /\
    reply_of_event <$> tr = reverse (filter granted (snd <$> l)) /\
    safe_trace (pm_gracePeriod (pm_of pm_world)) tr.
Proof.
  destruct (concurrent_port_calls pm_world port_clients port_pool pm_example_wf eq_refl eq_refl
              (run_schedule_steps _ _)) as (_ & H).
  split; [by vm_compute|].
  destruct (H ltac:(by vm_compute)) as (l & tr & Hs & _ & _ & Htr & Hsafe). by exists l, tr.
Defined.
